(* ===== verification/_CoqProject ===== *)
-Q . S2P
Prelude.v
Constants.v
Prims.v
Concrete.v
Ratchet.v
RatchetFacts.v
RatchetProps.v
Serialization.v
CryptoBox.v
Identity.v
IdentityProps.v
Pqxdh.v
PqxdhProps.v
Keys.v
KeysProps.v
Sqleet.v
SqleetProps.v
SqlProps.v
SessionState.v
SessionFacts.v
Database.v
DatabaseProps.v
EngineModel.v
Store.v
StoreProps.v
SqlText.v
SqlSem.v
StoreSql.v
StoreRep.v
StoreMeaning.v
StoreQueries.v
StoreRows.v
StoreSqlFacts.v
StoreSqlProps.v
StoreRefines.v
StoreCalls.v
StoreOpen.v
StoreRead.v
StoreEngine.v
Crdt.v
CrdtProps.v
StorageTests.v
ChatSession.v
Network.v
NetworkProps.v
Protobuf.v
Node.v
Behaviour.v
NodeProps.v
Channels.v
ChannelProps.v
Handshake.v
ChatProps.v
CryptoTests.v
NetworkTests.v
Group.v
GroupProps.v
App.v
AppFacts.v
AppProps.v
Startup.v
StartupProps.v
Connect.v
DemoProps.v
DemoChannels.v
