(* ===== verification/Prelude.v ===== *)
(** * The Presidium core: a verification of its Rust crates

    ** The program

    Presidium is an end-to-end encrypted messenger.  Its Rust core is a
    workspace of crates under [src/packages/core/]:
    - [presidium-crypto]: identity keys (Ed25519 with ML-DSA-87, X25519 with
      ML-KEM-1024), signed prekey bundles, the PQXDH key agreement, session
      keys, the Double Ratchet, sender keys for groups, media keys, sealed
      boxes and a versioned envelope for stored values;
    - [presidium-sqleet]: a wrapper over the encrypted SQLite engine
      (parameters, statements, transactions);
    - [presidium-storage]: the local database, its typed operations, and the
      snapshot form in which a ratchet is stored;
    - [presidium-network]: the wire codec, topics, addresses and the libp2p
      swarm task;
    - [presidium-demo]: a command-line node that puts the others together:
      handshake drivers, 1:1 chat sessions, group chat, an event loop.

    A responder publishes a bundle ([identity.rs]); an initiator runs
    [pqxdh_initiator] on it and sends the result; the responder answers with
    [pqxdh_responder]; both turn the master secret into [SessionKeys]
    ([keys.rs]) and these into a [DoubleRatchet] ([ratchet.rs]).  A
    [ChatSession] of the demo wraps the ratchet in signed envelopes that the
    codec of [presidium-network] frames, and stores the ratchet after each
    message through [presidium-storage].

    The application opens its directory ([NodeStore::open]: the salt, the
    derived key, the encrypted database with its migrations, the identity),
    starts a swarm task, and then handles one command or network event at a
    time.

    ** Where each part is modelled

    - Prelude: Rust's [Result] with panics ([result]), computations on
      [&mut self] that keep what was changed before an error ([M]), machine
      integers, byte encodings, tactics, hint databases, list lemmas.
    - Constants: [constants.rs] and [error.rs] of the crypto crate.
    - Prims: the third-party operations (the class [Crypto]), what their
      documentation promises (the class [CryptoLaws]), and serde_json at a
      type ([Serde], [SerdeOk]).  The theorems are proved against these
      interfaces.  Concrete: instances that satisfy them, at which every
      witness is evaluated.
    - Ratchet, RatchetFacts, RatchetProps: [ratchet.rs].
    - Serialization: [serialization.rs].  CryptoBox: [crypto_box.rs].
    - Identity, IdentityProps: [identity.rs], with its hand-written serde
      implementations.
    - Pqxdh, PqxdhProps: [pqxdh.rs].  Keys, KeysProps: [keys.rs].
    - Sqleet: [presidium-sqleet/src/lib.rs] over the class [Engine] of the
      foreign functions.  SqleetProps: its use of resources; SqlProps: what
      its statements do, against the laws [SqlLaws] of the engine.
    - SessionState, SessionFacts: [session_state.rs] and [error.rs] of the
      storage crate.
    - Database, DatabaseProps: [database.rs], [kdf.rs] and the migration
      [0001_init.sql].  EngineModel: an engine that satisfies all laws
      assumed of SQLite, on which the theorems on it are evaluated.
    - Store, StoreProps: [models.rs], the schema [0001_init.sql] and
      [store.rs] of the storage crate, at the level of tables: the abstract
      specification of the store.
    - StoreSql: the same methods as they are written, each with its SQL text,
      its parameters and its row mapper, over the wrapper of Sqleet.  SqlText
      reads the texts (and the migration), SqlSem gives them their meaning on
      relations.  StoreRep relates relations to the tables of Store;
      StoreMeaning and StoreQueries say what each text does there; StoreRows
      what the row mappers return; StoreSqlFacts and StoreSqlProps run a
      statement through the wrapper; StoreRefines, StoreCalls and StoreOpen
      prove the refinement for each method, for sequences of calls and from
      the opening of the database on.  StoreRead reads the tables of Store
      back from an opened database.  StoreEngine: an engine that runs the
      texts, on which all of this is evaluated.
    - Crdt, CrdtProps: [crdt.rs] over the class [Yrs]; the laws are stated for
      documents whose blocks agree, which those of distinct client ids do.
    - ChatSession, Handshake, ChatProps: [session.rs] of the demo, with the
      prekey material and the session table of its [store.rs].
    - Network, NetworkProps: [codec.rs], [topics.rs], [discovery.rs],
      [identity.rs], [config.rs], [error.rs] of the network crate.
      Protobuf: the three messages of [presidium.proto] that travel, in the
      protobuf wire format; an instance of the class [Proto] for the
      generated code.
    - Node, NodeProps: [node.rs], the handle and the swarm task as a step
      relation over the control messages, the events of the swarm and the drop
      of the event receiver.  Behaviour: [behaviour.rs] and the start of a
      node, over the class [Libp2p].  Channels, ChannelProps: the two bounded
      channels between application and task, with handlers that wait for room;
      tokio's channel appears as the steps of this relation.
    - Group, GroupProps: [group.rs] of the demo.
    - App, AppFacts, AppProps, DemoProps: [main.rs] of the demo and the rest
      of its [store.rs]: commands, events, the message router, the loop.  The
      database is the tables of Store; the engine may fail at any store call of
      a turn (the class [Disk]), which then changes nothing and ends with an
      error, as StoreCalls shows of each method.  The code returns that error,
      except for two calls of [persist] where it drops it.
    - Startup, StartupProps: [NodeStore::open], [db_key] and [demo_main], on a
      database file opened with [Database::open] of Database ([engine_file]).
      Connect: the line a responder prints for its initiator.  DemoChannels:
      the demo on the bounded channels.
    - CryptoTests, StorageTests, NetworkTests: the tests that the crates bring
      along, as programs.

    A struct is a [Record] with the field names of the source, an enum an
    [Inductive]; [T::method] is [T_method] (or [method] where no other
    definition has that name).  A method on [&mut self] is a computation of
    [M T]: it returns the result and the object as it is afterwards, on the
    error branches too.  Byte arrays are lists of bytes, with the array size
    in a [wf] predicate; [u32] and [u64] counters are integers of [Z], whose
    additions check or wrap as the build profile says (the class [Build]);
    a table of the database is a finite map from its primary key.  Random
    draws, the current time, the answer of the network and the outcome of
    COMMIT are arguments of the operations that use them.

    ** What the theorems show

    - The ratchet (RatchetProps, SessionFacts): a responder that has run one
      DH step reads the initiator's messages in every order, and the initiator
      the replies; [decrypt] always returns, leaves the sending side alone, and
      a sender never gives the cipher a nonce twice in a chain; every reachable state has
      keys of the right sizes and can be stored and rebuilt.  The edges of the
      design are theorems as well: late messages can be replayed, a replay
      shifts all later keys, rejected messages still add skipped keys, and the
      ratchet key pair never changes.
    - Key agreement (IdentityProps, PqxdhProps, KeysProps): what the canonical
      bundle encoding determines, and that it leaves out the signature of the
      signed prekey, a fresh bundle verifies, hybrid
      signatures need both halves, both sides of PQXDH derive one secret, and
      from bundle to ratchet every message is delivered; what the responder
      checks exactly, and what it leaves unbound.
    - Chat sessions (ChatProps): the handshake drivers establish matching
      sessions, envelopes are delivered in every order, persisting and
      resuming a session gives the same session; the initiator cannot read
      replies because it never runs the DH step.
    - Groups (KeysProps, GroupProps): publisher and reader stay in step when
      no message is lost; one lost message blocks the sender for good.
    - The engine wrapper (SqleetProps, SqlProps): every program of calls
      other than [close] releases its statements and never uses a dead handle,
      also on the connection of a live transaction; queries refine the
      meaning of their SQL text whatever the engine's failures; [execute] is a
      query without rows; values are read back as they were bound; pragma
      values stay inside their quotes.  Closing explicitly frees the handle
      twice, and a failed open leaks one.
    - Opening (DatabaseProps): migrations are atomic and can be resumed, and a
      failed open closes its connection.
    - Storage (SessionState, StoreProps): snapshot and session round trips,
      one-time prekeys are consumed once in key order, a message is stored
      once per uid, pages are exact, and a failing COMMIT leaves the
      connection inside the transaction.
    - The store in SQL (StoreCalls, StoreOpen): each of the 27 methods refines
      its operation on tables whatever the engine fails at; after opening a new
      or an already migrated database, any sequence of calls gives the results
      of the operations, errors included.
    - CRDT documents (CrdtProps): devices with distinct client ids converge
      when they synchronise, whatever they did before; documents survive the
      database.
    - The swarm task (NodeProps): direct messages are accounted for in every
      reachable state, acknowledged when they come in, and all reported once
      the swarm has answered; after the application has dropped the event
      receiver, reports and acknowledged messages are lost.  The task with the
      bounded channels (ChannelProps, DemoChannels) refines the unbounded one;
      but a full cycle of both channels is a deadlock, which a peer can bring
      about by requesting bundles.
    - The application (AppProps, DemoProps, StartupProps): the session in
      memory is the stored one as long as no dropped store failed; a dropped
      failure makes a later start reuse a nonce; the demo handshake end to end;
      a restart finds the same identity and resumes the session; the printed
      connect line leads an initiator to the responder (Connect); and what an
      inbound message can do that it should not.
    - Encodings (Serialization, IdentityProps, NetworkProps, Protobuf,
      CryptoBox): what is written is read back, and exactly which inputs are
      accepted.
    - Tests (CryptoTests, StorageTests, NetworkTests): 20 of the 21 unit tests
      of the crypto crate pass for all primitives that keep their laws and all
      random draws (the last asserts that two MACs differ), the integration tests of the storage crate on every engine that
      runs the SQL texts and does not fail.

    ** Fuel and bounds

    The [while] loop of [DoubleRatchet::decrypt] is [skip_to].  Each turn
    pushes one skipped key and the loop stops once more than
    [MAX_SKIP_MESSAGES] are held, so the fuel [S MAX_SKIP_MESSAGES] is
    enough: a theorem of RatchetProps shows that it never runs out.  The two
    loops over [sqlite3_step] ([Statement_consume], [collect_rows]) take fuel;
    one more than the number of rows of the statement is enough
    ([query_rows_refines], [query_rows_exact]); for a sequence of calls of the
    store, one more than the rows of a table at the start plus the number of
    calls, since a call adds at most one row ([call_grows]).  The parsers of
    SqlText and Protobuf have fuel in proportion to their input; a protobuf
    varint has at most ten bytes.  The event loop of the demo is
    a function of the list of its inputs.  All other recursion is structural.

    ** What is not modelled

    - Third-party code: the C engine of SQLite, libp2p, yrs, Argon2 and the
      cryptographic primitives are parameters with named laws.  SQL is
      modelled as far as the texts of the crate use it.
    - The messages of [presidium.proto] that no code uses.
    - Engine failures while the program starts: there the code returns every
      error, so that only starts that succeed are described.
    - The scheduling of threads beyond the order of steps; command-line parsing
      and the runtime set-up.
    - The tests that need real sockets or files, the encryption of the database
      file, or facts the laws do not give (that two keys or texts differ, and
      where concurrent edits of a document end up).
    - Zeroization, [Debug] output, logging, the text around printed values.
    - The secrecy of the primitives: nothing here is a reduction proof.
    - [presidium-ffi], [presidium-media] and [presidium-sync] hold no logic. *)

From stdpp Require Export base option list strings gmap relations.
From stdpp Require Import pretty.
From Stdlib Require Export ZArith Lia.
From Stdlib Require Import Strings.Byte.
From Stdlib Require Export Init.Byte.

#[global] Open Scope Z_scope.

(** ** Rust results

    [Ok] and [Err] are Rust's [Result]; [Panic] is a run that unwinds or
    aborts (an arithmetic overflow with overflow checks on, a failing
    [expect], an index out of range). *)

Inductive result (E A : Type) : Type :=
| Ok (a : A)
| Err (e : E)
| Panic (msg : string).
Arguments Ok {E A} a.
Arguments Err {E A} e.
Arguments Panic {E A} msg.

(** The [?] operator. *)
#[export] Instance result_ret E : MRet (result E) := fun A a => Ok a.
#[export] Instance result_bind E : MBind (result E) := fun A B f m =>
  match m with
  | Ok a => f a
  | Err e => Err e
  | Panic s => Panic s
  end.

(** [Result::map_err]. *)
Definition map_err {E F A} (f : E -> F) (m : result E A) : result F A :=
  match m with
  | Ok a => Ok a
  | Err e => Err (f e)
  | Panic s => Panic s
  end.

(** [Option::ok_or] / [Option::ok_or_else]. *)
Definition ok_or {E A} (o : option A) (e : E) : result E A :=
  match o with Some a => Ok a | None => Err e end.

Definition is_ok {E A} (m : result E A) : bool :=
  match m with Ok _ => true | _ => false end.

(** ** Computations over [&mut self]

    A method that takes [&mut self] and returns a [Result] may have changed
    [self] when it returns [Err]: the state is returned on every branch. *)

Definition M (S E A : Type) : Type := S -> S * result E A.

#[export] Instance M_ret S E : MRet (M S E) := fun A a s => (s, Ok a).
#[export] Instance M_bind S E : MBind (M S E) := fun A B f m s =>
  match m s with
  | (s', Ok a) => f a s'
  | (s', Err e) => (s', Err e)
  | (s', Panic p) => (s', Panic p)
  end.

Definition lift {S E A} (r : result E A) : M S E A := fun s => (s, r).
Definition gets {S E A} (f : S -> A) : M S E A := fun s => (s, Ok (f s)).
Definition modify {S E} (f : S -> S) : M S E unit := fun s => (f s, Ok tt).
Definition fail {S E A} (e : E) : M S E A := fun s => (s, Err e).

Lemma M_bind_eq {S E A B} (m : M S E A) (f : A -> M S E B) s :
  (m ≫= f) s =
  match m s with
  | (s', Ok a) => f a s'
  | (s', Err e) => (s', Err e)
  | (s', Panic p) => (s', Panic p)
  end.
Proof. reflexivity. Qed.

Lemma M_bind_assoc {S E A B C} (m : M S E A) (f : A -> M S E B) (g : B -> M S E C) s :
  ((m ≫= f) ≫= g) s = (m ≫= (fun a => f a ≫= g)) s.
Proof. rewrite !M_bind_eq. by destruct (m s) as [s' [a|e|p]]. Qed.

(** A run of [mapM] over [&mut self] calls, one call at a time. *)
Lemma mapM_cons_ok {S E A B} (f : A -> M S E B) x l s s' ys :
  mapM f (x :: l) s = (s', Ok ys) <->
  exists s1 y ys', f x s = (s1, Ok y) /\ mapM f l s1 = (s', Ok ys') /\ ys = y :: ys'.
Proof.
  cbn [mapM]. rewrite M_bind_eq. split.
  - destruct (f x s) as [s1 [y|e|p]]; [|done..]. rewrite M_bind_eq.
    destruct (mapM f l s1) as [s2 [ys'|e|p]] eqn:Hl; [|done..]. intros [= <- <-]. by exists s1, y, ys'.
  - intros (s1 & y & ys' & -> & Hl & ->). rewrite M_bind_eq. by rewrite Hl.
Qed.

Lemma result_bind_ok {E A B} (m : result E A) (f : A -> result E B) b :
  m ≫= f = Ok b <-> exists a, m = Ok a /\ f a = Ok b.
Proof.
  destruct m as [a|e|p]; simpl; split.
  - eauto.
  - by intros (a' & [= ->] & ?).
  - done.
  - by intros (? & ? & ?).
  - done.
  - by intros (? & ? & ?).
Qed.

Lemma map_err_ok {E F A} (f : E -> F) (m : result E A) a :
  map_err f m = Ok a <-> m = Ok a.
Proof. destruct m; simpl; naive_solver. Qed.

Lemma ok_or_ok {E A} (o : option A) (e : E) a : ok_or o e = Ok a <-> o = Some a.
Proof. destruct o; simpl; naive_solver. Qed.

(** Runs the steps of a computation at the head of the goal, or of [H]. *)
Ltac mrun := repeat (progress (rewrite ?M_bind_eq; cbn [lift gets modify fail mret M_ret fst snd compose])).
Ltac mrun_in H := repeat (progress (rewrite ?M_bind_eq in H; cbn [lift gets modify fail mret M_ret fst snd compose] in H)).

(** [keeps P m]: the computation preserves [P] on every branch, errors
    included. *)
Definition keeps {S E A} (P : S -> Prop) (m : M S E A) : Prop := forall s, P s -> P (m s).1.

Lemma keeps_ret {S E A} (P : S -> Prop) (a : A) : keeps P (mret a : M S E A).
Proof. by intros s. Qed.
Lemma keeps_lift {S E A} (P : S -> Prop) (r : result E A) : keeps P (lift r : M S E A).
Proof. by intros s. Qed.
Lemma keeps_gets {S E A} (P : S -> Prop) (f : S -> A) : keeps P (gets f : M S E A).
Proof. by intros s. Qed.
Lemma keeps_fail {S E A} (P : S -> Prop) (e : E) : keeps P (fail e : M S E A).
Proof. by intros s. Qed.
Lemma keeps_modify {S E} (P : S -> Prop) (f : S -> S) :
  (forall s, P s -> P (f s)) -> keeps P (modify f : M S E unit).
Proof. by intros Hf s; apply Hf. Qed.
Lemma keeps_bind {S E A B} (P : S -> Prop) (m : M S E A) (f : A -> M S E B) :
  keeps P m -> (forall a, keeps P (f a)) -> keeps P (m ≫= f).
Proof.
  intros Hm Hf s Hs. rewrite M_bind_eq. specialize (Hm s Hs).
  destruct (m s) as [s' [a|e|p]]; [by apply Hf | done | done].
Qed.

(** Walks a computation, leaving the state updates to prove. *)
Ltac keeps_tac :=
  repeat first
    [ apply keeps_ret | apply keeps_lift | apply keeps_gets | apply keeps_fail
    | apply keeps_bind; [|intros ?]
    | match goal with |- keeps _ (match ?x with _ => _ end) => destruct x end
    | apply keeps_modify; intros ? ? ].

(** A computation on a field of the state: [self.field.method(..)]. *)
Definition zoom {S T E A} (get : S -> T) (set : T -> S -> S) (m : M T E A) : M S E A := fun s =>
  let '(t, r) := m (get s) in (set t s, r).

(** [map_err] on a computation, for [?] across error types. *)
Definition with_err {S E F A} (f : E -> F) (m : M S E A) : M S F A := fun s =>
  let '(s', r) := m s in (s', map_err f r).

(** A computation on one half of a pair of objects. *)
Definition on_first {S T E A} (m : M S E A) : M (S * T) E A := zoom fst (fun a p => (a, p.2)) m.
Definition on_second {S T E A} (m : M T E A) : M (S * T) E A := zoom snd (fun b p => (p.1, b)) m.

Lemma zoom_eq {S T E A} (get : S -> T) set (m : M T E A) s t r :
  m (get s) = (t, r) -> zoom get set m s = (set t s, r).
Proof. unfold zoom. by intros ->. Qed.

Lemma with_err_eq {S E F A} (f : E -> F) (m : M S E A) s s' r :
  m s = (s', r) -> with_err f m s = (s', map_err f r).
Proof. unfold with_err. by intros ->. Qed.

Lemma keeps_zoom {S T E A} (P : S -> Prop) (get : S -> T) set (m : M T E A) :
  (forall s, P s -> P (set (m (get s)).1 s)) -> keeps P (zoom get set m).
Proof. intros Hm s Hs. unfold zoom. specialize (Hm s Hs). by destruct (m (get s)). Qed.

Lemma keeps_with_err {S E F A} (P : S -> Prop) (f : E -> F) (m : M S E A) :
  keeps P m -> keeps P (with_err f m).
Proof. intros Hm s Hs. unfold with_err. specialize (Hm s Hs). by destruct (m s). Qed.

(** A computation that returned [Ok], one call at a time. *)
Lemma M_bind_ok {S E A B} (m : M S E A) (f : A -> M S E B) s s' b :
  (m ≫= f) s = (s', Ok b) <-> exists s1 a, m s = (s1, Ok a) /\ f a s1 = (s', Ok b).
Proof.
  rewrite M_bind_eq. split; [|by intros (s1 & a & -> & ?)].
  destruct (m s) as [s1 [a|e|p]]; [|done..]. eauto.
Qed.

Lemma zoom_ok {S T E A} (get : S -> T) set (m : M T E A) s s' a :
  zoom get set m s = (s', Ok a) <-> exists t, m (get s) = (t, Ok a) /\ s' = set t s.
Proof.
  unfold zoom. destruct (m (get s)) as [t r]. split; [intros [= <- <-]; eauto|]. by intros (? & [= -> ->] & ->).
Qed.

Lemma with_err_ok {S E F A} (f : E -> F) (m : M S E A) s s' a :
  with_err f m s = (s', Ok a) <-> m s = (s', Ok a).
Proof. unfold with_err. destruct (m s) as [t [x|e|p]]; cbn; split; by intros [= <- <-]. Qed.

(** Splits [H : (m ≫= f) s = (s', Ok b)] at its first call. *)
Ltac first_call H s1 a H1 := apply M_bind_ok in H as (s1 & a & H1 & H).

(** ** Machine integers

    A [u64], [u32], [i64] is a [Z] in range; the operations write the
    wrap-around out.  Whether [+] panics or wraps on overflow is a property
    of the build profile: the workspace leaves the defaults, checks on in
    [dev] and off in [release]. *)

Class Build := { overflow_checks : bool }.

Definition u64_max : Z := 2 ^ 64 - 1.
Definition is_u64 (z : Z) : Prop := 0 <= z < 2 ^ 64.
Definition is_u32 (z : Z) : Prop := 0 <= z < 2 ^ 32.

Definition u64_add `{Build} {E} (a b : Z) : result E Z :=
  if a + b <? 2 ^ 64 then Ok (a + b)
  else if overflow_checks then Panic "attempt to add with overflow"
  else Ok ((a + b) mod 2 ^ 64).

Definition u64_sub `{Build} {E} (a b : Z) : result E Z :=
  if b <=? a then Ok (a - b)
  else if overflow_checks then Panic "attempt to subtract with overflow"
  else Ok ((a - b) mod 2 ^ 64).

Definition u64_saturating_add (a b : Z) : Z := Z.min (a + b) u64_max.

Lemma u64_add_ok `{Build} {E} a b : a + b < 2 ^ 64 -> @u64_add _ E a b = Ok (a + b).
Proof. intros Hab. unfold u64_add. by rewrite (proj2 (Z.ltb_lt _ _) Hab). Qed.

Lemma u64_sub_ok `{Build} {E} a b : b <= a -> @u64_sub _ E a b = Ok (a - b).
Proof. intros Hab. unfold u64_sub. by rewrite (proj2 (Z.leb_le _ _) Hab). Qed.

(** ** Bytes *)

Abbreviation byte := Init.Byte.byte.
Abbreviation bytes := (list Init.Byte.byte).

#[export] Instance byte_eq_dec : EqDecision byte := Byte.byte_eq_dec.

#[export] Instance byte_countable : Countable byte :=
  inj_countable Byte.to_N Byte.of_N Byte.of_to_N.

(** A byte string literal [b"..."] and [str::as_bytes]. *)
Definition bs (s : string) : bytes := String.list_byte_of_string s.

Definition byte_of_Z (z : Z) : byte := default x00 (Byte.of_N (Z.to_N (z mod 256))).
Definition byte_to_Z (b : byte) : Z := Z.of_N (Byte.to_N b).

Lemma byte_to_Z_range b : 0 <= byte_to_Z b < 256.
Proof. unfold byte_to_Z. pose proof (Byte.to_N_bounded b). lia. Qed.

Lemma byte_of_to_Z b : byte_of_Z (byte_to_Z b) = b.
Proof.
  unfold byte_of_Z. rewrite Z.mod_small by apply byte_to_Z_range.
  unfold byte_to_Z. rewrite N2Z.id. by rewrite Byte.of_to_N.
Qed.

Lemma byte_to_of_Z z : byte_to_Z (byte_of_Z z) = z mod 256.
Proof.
  pose proof (Z.mod_pos_bound z 256 eq_refl).
  unfold byte_of_Z, byte_to_Z.
  destruct (Byte.of_N (Z.to_N (z mod 256))) as [b|] eqn:Hb; cbn [from_option id].
  - apply Byte.to_of_N in Hb. rewrite Hb. lia.
  - apply Byte.of_N_None_iff in Hb. lia.
Qed.

(** [to_le_bytes] / [from_le_bytes] on [n] bytes. *)
Fixpoint le_bytes (n : nat) (z : Z) : bytes :=
  match n with
  | O => []
  | S n => byte_of_Z z :: le_bytes n (z / 256)
  end.

Fixpoint of_le_bytes (l : bytes) : Z :=
  match l with
  | [] => 0
  | b :: l => byte_to_Z b + 256 * of_le_bytes l
  end.

(** [to_be_bytes] / [from_be_bytes]. *)
Definition be_bytes (n : nat) (z : Z) : bytes := reverse (le_bytes n z).
Definition of_be_bytes (l : bytes) : Z := of_le_bytes (reverse l).

Lemma length_le_bytes n z : length (le_bytes n z) = n.
Proof. revert z; induction n as [|n IH]; intros z; simpl; [done|]. by rewrite IH. Qed.

Lemma length_be_bytes n z : length (be_bytes n z) = n.
Proof. unfold be_bytes. by rewrite length_reverse, length_le_bytes. Qed.

Lemma of_le_bytes_le n z : of_le_bytes (le_bytes n z) = z mod 256 ^ Z.of_nat n.
Proof.
  revert z; induction n as [|n IH]; intros z; cbn [le_bytes of_le_bytes].
  - by rewrite Z.mod_1_r.
  - rewrite IH, byte_to_of_Z, Nat2Z.inj_succ, Z.pow_succ_r by lia.
    rewrite Z.rem_mul_r by lia. lia.
Qed.

Lemma of_be_bytes_be n z : of_be_bytes (be_bytes n z) = z mod 256 ^ Z.of_nat n.
Proof. unfold of_be_bytes, be_bytes. by rewrite reverse_involutive, of_le_bytes_le. Qed.

Lemma le_bytes_inj n x y :
  0 <= x < 256 ^ Z.of_nat n -> 0 <= y < 256 ^ Z.of_nat n ->
  le_bytes n x = le_bytes n y -> x = y.
Proof.
  intros Hx Hy Heq. apply (f_equal of_le_bytes) in Heq.
  by rewrite !of_le_bytes_le, !Z.mod_small in Heq.
Qed.

Lemma be_bytes_inj n x y :
  0 <= x < 256 ^ Z.of_nat n -> 0 <= y < 256 ^ Z.of_nat n ->
  be_bytes n x = be_bytes n y -> x = y.
Proof.
  intros Hx Hy Heq. apply (f_equal of_be_bytes) in Heq.
  by rewrite !of_be_bytes_be, !Z.mod_small in Heq.
Qed.

Lemma of_le_bytes_range l : 0 <= of_le_bytes l < 256 ^ Z.of_nat (length l).
Proof.
  induction l as [|b l IH]; cbn [of_le_bytes length]; [lia|].
  pose proof (byte_to_Z_range b). rewrite Nat2Z.inj_succ, Z.pow_succ_r by lia. nia.
Qed.

Lemma byte_of_Z_mod z : byte_of_Z (z mod 256) = byte_of_Z z.
Proof. unfold byte_of_Z. by rewrite Z.mod_mod by lia. Qed.

Lemma le_bytes_of l : le_bytes (length l) (of_le_bytes l) = l.
Proof.
  induction l as [|b l IH]; [done|]. cbn [length le_bytes of_le_bytes].
  pose proof (byte_to_Z_range b). f_equal.
  - rewrite <- byte_of_Z_mod, (Z.mul_comm 256), Z.mod_add, byte_of_Z_mod by lia. apply byte_of_to_Z.
  - rewrite (Z.mul_comm 256), Z.div_add by lia.
    by rewrite (Z.div_small (byte_to_Z b)), Z.add_0_l, IH by lia.
Qed.

Lemma be_bytes_of l : be_bytes (length l) (of_be_bytes l) = l.
Proof.
  unfold be_bytes, of_be_bytes. rewrite <- (length_reverse l), le_bytes_of. apply reverse_involutive.
Qed.

Lemma of_be_bytes_nonneg l : 0 <= of_be_bytes l.
Proof. apply of_le_bytes_range. Qed.

(** [<[u8; N]>::try_from(slice)]: succeeds exactly on slices of length [N]. *)
Definition try_into_array {E} (n : nat) (slice : bytes) (e : E) : result E bytes :=
  if decide (length slice = n) then Ok slice else Err e.

Lemma try_into_array_ok {E} n slice (e : E) a :
  try_into_array n slice e = Ok a <-> a = slice /\ length slice = n.
Proof. unfold try_into_array. case_decide; naive_solver. Qed.

Lemma try_into_array_len {E} n slice (e : E) :
  length slice = n -> try_into_array n slice e = Ok slice.
Proof. intros Hn. unfold try_into_array. by rewrite decide_True. Qed.

(** ** Lists *)

(** Two concatenations whose first parts have one length agree exactly when
    the parts do: the workhorse of the canonical-encoding proofs. *)
Lemma app_inj_len {A} (a b c d : list A) :
  length a = length c -> a ++ b = c ++ d -> a = c /\ b = d.
Proof. intros Hl Heq. by apply app_inj_1 in Heq. Qed.

Lemma drop_app_len {A} n (a b : list A) : length a = n -> drop n (a ++ b) = b.
Proof. intros <-. apply drop_app_length. Qed.

Lemma take_app_len {A} n (a b : list A) : length a = n -> take n (a ++ b) = a.
Proof. intros <-. apply take_app_length. Qed.

(** ** Text

    A [String] is its UTF-8 bytes.  [utf8_error] is the validation of
    [String::from_utf8]: the index of the first bad sequence and its length,
    [None] when the input ends inside a sequence. *)

Definition between (lo hi : Z) (b : byte) : bool := (lo <=? byte_to_Z b) && (byte_to_Z b <=? hi).
Definition continuation (b : byte) : bool := between 128 191 b.

(** The second byte allowed after a first byte of width 3 or 4. *)
Definition second_ok (b0 b1 : byte) : bool :=
  let z := byte_to_Z b0 in
  if z =? 224 then between 160 191 b1
  else if z =? 237 then between 128 159 b1
  else if z =? 240 then between 144 191 b1
  else if z =? 244 then between 128 143 b1
  else continuation b1.

Fixpoint utf8_error (i : nat) (l : bytes) : option (nat * option nat) :=
  match l with
  | [] => None
  | b0 :: l1 =>
      if between 0 127 b0 then utf8_error (i + 1) l1
      else if between 194 223 b0 then
        match l1 with
        | [] => Some (i, None)
        | b1 :: l2 => if continuation b1 then utf8_error (i + 2) l2 else Some (i, Some 1%nat)
        end
      else if between 224 239 b0 then
        match l1 with
        | [] => Some (i, None)
        | b1 :: l2 =>
            if negb (second_ok b0 b1) then Some (i, Some 1%nat)
            else match l2 with
                 | [] => Some (i, None)
                 | b2 :: l3 => if continuation b2 then utf8_error (i + 3) l3 else Some (i, Some 2%nat)
                 end
        end
      else if between 240 244 b0 then
        match l1 with
        | [] => Some (i, None)
        | b1 :: l2 =>
            if negb (second_ok b0 b1) then Some (i, Some 1%nat)
            else match l2 with
                 | [] => Some (i, None)
                 | b2 :: l3 =>
                     if negb (continuation b2) then Some (i, Some 2%nat)
                     else match l3 with
                          | [] => Some (i, None)
                          | b3 :: l4 => if continuation b3 then utf8_error (i + 4) l4 else Some (i, Some 3%nat)
                          end
                 end
        end
      else Some (i, Some 1%nat)
  end.

(** [String::from_utf8], with the text of its error. *)
Definition from_utf8 (l : bytes) : result string string :=
  match utf8_error 0 l with
  | None => Ok (String.string_of_list_byte l)
  | Some (i, Some n) => Err ("invalid utf-8 sequence of " +:+ pretty n +:+ " bytes from index " +:+ pretty i)
  | Some (i, None) => Err ("incomplete utf-8 byte sequence from index " +:+ pretty i)
  end.

(** What a Rust [String] always is. *)
Definition is_utf8 (s : string) : Prop := utf8_error 0 (bs s) = None.

(** Valid UTF-8 without a NUL byte. *)
Definition is_text (l : bytes) : Prop := utf8_error 0 l = None /\ x00 ∉ l.

(** Whether a string holds a NUL byte. *)
Fixpoint has_nul (s : string) : bool :=
  match s with
  | EmptyString => false
  | String c s => bool_decide (c = Ascii.zero) || has_nul s
  end.

(** [CString::new]. *)
Definition CString_new (s : string) : option bytes := if has_nul s then None else Some (bs s).

(** [String::from_utf8_lossy]: each bad sequence becomes U+FFFD.  Each turn
    drops at least one byte, so the length is enough fuel. *)
Fixpoint utf8_lossy (fuel : nat) (l : bytes) : bytes :=
  match fuel with
  | O => l
  | S fuel =>
      match utf8_error 0 l with
      | None => l
      | Some (i, Some n) => take i l ++ [xef; xbf; xbd] ++ utf8_lossy fuel (drop (i + n) l)
      | Some (i, None) => take i l ++ [xef; xbf; xbd]
      end
  end.
Definition from_utf8_lossy (l : bytes) : string := String.string_of_list_byte (utf8_lossy (S (length l)) l).

Lemma from_utf8_bs s : is_utf8 s -> from_utf8 (bs s) = Ok s.
Proof. unfold from_utf8, is_utf8. intros ->. f_equal. apply String.string_of_list_byte_of_string. Qed.

Lemma utf8_ascii i l : Forall (fun b => between 0 127 b = true) l -> utf8_error i l = None.
Proof. intros Hl. revert i. induction Hl as [|b l Hb Hl IH]; intros i; [done|]. cbn [utf8_error]. by rewrite Hb. Qed.

Lemma from_utf8_lossy_bs s : is_utf8 s -> from_utf8_lossy (bs s) = s.
Proof.
  unfold from_utf8_lossy, is_utf8. cbn [utf8_lossy]. intros ->. apply String.string_of_list_byte_of_string.
Qed.

Lemma text_no_nul l : is_text l -> has_nul (String.string_of_list_byte l) = false.
Proof.
  intros [_ Hl]. induction l as [|b l IH]; [done|]. apply not_elem_of_cons in Hl as [Hb Hl].
  change (bool_decide (Ascii.ascii_of_byte b = Ascii.zero) || has_nul (String.string_of_list_byte l) = false).
  rewrite IH by done. rewrite orb_false_r, bool_decide_eq_false. intros Heq. apply Hb.
  apply (f_equal Ascii.byte_of_ascii) in Heq. by rewrite Ascii.byte_of_ascii_of_byte in Heq.
Qed.

Lemma text_utf8 l : is_text l -> from_utf8 l = Ok (String.string_of_list_byte l).
Proof. intros [Hl _]. unfold from_utf8. by rewrite Hl. Qed.

Lemma string_of_bs s : String.string_of_list_byte (bs s) = s.
Proof. apply String.string_of_list_byte_of_string. Qed.

Lemma bs_of_bytes l : bs (String.string_of_list_byte l) = l.
Proof. apply String.list_byte_of_string_of_list_byte. Qed.

(** ** Automation *)

Create HintDb presidium.
Create Rewrite HintDb lens.
#[export] Hint Resolve length_le_bytes length_be_bytes byte_to_Z_range : presidium.
#[export] Hint Rewrite @length_app @length_le_bytes @length_be_bytes @length_take
  @length_drop @length_replicate @length_reverse : lens.

(** Closes goals about the length of a concatenation. *)
Ltac len := autorewrite with lens in *; try lia.

(** Decidable closed goals, by evaluation. *)
Ltac by_decide := refine (bool_decide_unpack _ _); vm_compute; exact I.

(** Case analysis on the scrutinee of the first match of the goal. *)
Ltac case_goal :=
  match goal with
  | |- context [match ?x with _ => _ end] => destruct x eqn:?; simplify_eq/=
  end.

#[global] Arguments le_bytes : simpl never.
#[global] Arguments of_le_bytes : simpl never.
#[global] Arguments be_bytes : simpl never.
#[global] Arguments of_be_bytes : simpl never.
