(* ===== verification/Constants.v ===== *)
(** Constants and errors of [presidium-crypto]: [constants.rs] and
    [error.rs].  Sizes ([usize]) are [nat], counters ([u32], [u64]) are
    [Z]. *)

From S2P Require Import Prelude.
From stdpp Require Import pretty.

Definition PROTOCOL_VERSION : Z := 2.

Definition ED25519_PUBLIC_KEY_SIZE : nat := 32.
Definition ED25519_PRIVATE_KEY_SIZE : nat := 32.
Definition ED25519_SIGNATURE_SIZE : nat := 64.

Definition X25519_PUBLIC_KEY_SIZE : nat := 32.
Definition X25519_PRIVATE_KEY_SIZE : nat := 32.
Definition X25519_SHARED_SECRET_SIZE : nat := 32.

Definition ML_KEM_1024_PUBLIC_KEY_SIZE : nat := 1568.
Definition ML_KEM_1024_PRIVATE_KEY_SIZE : nat := 64.
Definition ML_KEM_1024_CIPHERTEXT_SIZE : nat := 1568.
Definition ML_KEM_1024_SHARED_SECRET_SIZE : nat := 32.

Definition ML_DSA_87_PUBLIC_KEY_SIZE : nat := 2592.
Definition ML_DSA_87_PRIVATE_KEY_SIZE : nat := 32.
Definition ML_DSA_87_SIGNATURE_SIZE : nat := 4627.

Definition CHACHA20_POLY1305_KEY_SIZE : nat := 32.
Definition CHACHA20_POLY1305_NONCE_SIZE : nat := 12.
Definition CHACHA20_POLY1305_TAG_SIZE : nat := 16.

Definition HMAC_SHA256_SIZE : nat := 32.

Definition ROOT_KEY_SIZE : nat := 32.
Definition CHAIN_KEY_SIZE : nat := 32.
Definition MESSAGE_KEY_SIZE : nat := 32.
Definition MAX_SKIP_MESSAGES : nat := 1000.

Definition ARGON2_MEMORY_KIB : Z := 65536.
Definition ARGON2_ITERATIONS : Z := 3.
Definition ARGON2_PARALLELISM : Z := 4.
Definition ARGON2_OUTPUT_SIZE : nat := 32.
Definition ARGON2_SALT_SIZE : nat := 16.

Definition MEDIA_KEY_SIZE : nat := 32.
Definition MEDIA_NONCE_SIZE : nat := 12.

Definition KEY_ROTATION_MESSAGE_COUNT : Z := 1000.

(** HKDF/HMAC info strings of [keys.rs]. *)
Definition CHAIN_KEY_INFO : bytes := bs "presidium-chain-key".
Definition ROOT_KEY_INFO : bytes := bs "presidium-root-key".
Definition MESSAGE_KEY_INFO : bytes := bs "presidium-message-key".

(** [CryptoError], every variant of [error.rs]. *)
Inductive CryptoError :=
| InvalidKey (msg : string)
| InvalidSignature
| DecryptionFailed
| EncryptionFailed (msg : string)
| KeyDerivationFailed (msg : string)
| UnsupportedVersion (version : Z)
| InvalidMessage (msg : string)
| RatchetError (msg : string)
| PqxdhError (msg : string)
| SerializationError (msg : string)
| InvalidParameter (msg : string)
| IllegalState (msg : string)
| NoPrekeysAvailable
| KeyRotationRequired
| MemoryError (msg : string).

#[export] Instance CryptoError_eq_dec : EqDecision CryptoError.
Proof. solve_decision. Defined.

(** The [Display] texts of the [#[error(...)]] attributes. *)
Definition CryptoError_to_string (e : CryptoError) : string :=
  match e with
  | InvalidKey m => "Invalid key: " +:+ m
  | InvalidSignature => "Invalid signature"
  | DecryptionFailed => "Decryption failed: authentication tag mismatch"
  | EncryptionFailed m => "Encryption failed: " +:+ m
  | KeyDerivationFailed m => "Key derivation failed: " +:+ m
  | UnsupportedVersion v => "Unsupported protocol version: " +:+ pretty v
  | InvalidMessage m => "Invalid message format: " +:+ m
  | RatchetError m => "Ratchet error: " +:+ m
  | PqxdhError m => "PQXDH failed: " +:+ m
  | SerializationError m => "Serialization error: " +:+ m
  | InvalidParameter m => "Invalid parameter: " +:+ m
  | IllegalState m => "Illegal state: " +:+ m
  | NoPrekeysAvailable => "No one-time prekeys available"
  | KeyRotationRequired => "Key rotation required"
  | MemoryError m => "Secure memory error: " +:+ m
  end.

(** [From<serde_json::Error> for CryptoError]; the serde error is its
    [to_string]. *)
Definition CryptoError_from_serde (e : string) : CryptoError := SerializationError e.
