(* ===== verification/Prims.v ===== *)
(** The third-party code the crates call, as a parameter of the development.

    [Crypto] lists the operations of the crates x25519-dalek, hkdf, hmac,
    sha2, chacha20poly1305, ed25519-dalek, ml-dsa and ml-kem that the source
    uses; [CryptoLaws] is what their documentation promises and what the
    theorems rely on; [Serde] is serde_json at one type, with [SerdeOk] for
    its round trip.  The file Concrete gives concrete
    functions that satisfy every law, so that each theorem that assumes a
    law can be evaluated at a concrete input.

    Randomness is explicit: an operation that draws from the random number
    generator takes the drawn bytes as an argument. *)

From S2P Require Import Prelude Constants.

(** ** Operations *)

Class Crypto := {
  (** x25519-dalek: [PublicKey::from(&secret).to_bytes()] and
      [secret.diffie_hellman(&public).as_bytes()].  A [StaticSecret] is its
      32 bytes ([from] and [to_bytes] do not change them). *)
  x25519_public : bytes -> bytes;
  x25519_dh : bytes -> bytes -> bytes;
  (** [Hkdf::<Sha256>::new(salt, ikm).expand(info, &mut okm)] with
      [okm.len()] the last argument; [None] is [InvalidLength]. *)
  hkdf_sha256 : option bytes -> bytes -> bytes -> nat -> option bytes;
  (** [Hmac::<Sha256>::new_from_slice(key)], [update], [finalize]; [None] is
      [InvalidLength]. *)
  hmac_mac : bytes -> bytes -> option bytes;
  (** [Sha256] of one buffer. *)
  sha256_digest : bytes -> bytes;
  (** [ChaCha20Poly1305::new(key).encrypt(nonce, Payload { msg, aad })] and
      [decrypt]; arguments: key, nonce, aad, msg. *)
  aead_encrypt : bytes -> bytes -> bytes -> bytes -> option bytes;
  aead_decrypt : bytes -> bytes -> bytes -> bytes -> option bytes;
  (** ed25519-dalek: the verifying key of a seed, signing, whether
      [VerifyingKey::from_bytes] accepts, and verification. *)
  ed25519_public : bytes -> bytes;
  ed25519_sign : bytes -> bytes -> bytes;
  ed25519_key_valid : bytes -> bool;
  ed25519_verify : bytes -> bytes -> bytes -> bool;
  (** ml-dsa: encoded verifying key of a seed, signing, the signature
      encoding, verification against an encoded key. *)
  MlDsaSignature : Type;
  ml_dsa_public : bytes -> bytes;
  ml_dsa_sign : bytes -> bytes -> MlDsaSignature;
  ml_dsa_encode : MlDsaSignature -> bytes;
  ml_dsa_decode : bytes -> option MlDsaSignature;
  ml_dsa_verify : bytes -> bytes -> MlDsaSignature -> bool;
  (** ml-kem: key generation from random bytes (the seed of the
      decapsulation key, when it keeps one, and the encapsulation key), the
      encapsulation key of a seed, whether [EncapsulationKey::new] accepts,
      encapsulation from random bytes (ciphertext and shared secret) and
      decapsulation. *)
  ml_kem_generate : bytes -> option bytes * bytes;
  ml_kem_public : bytes -> bytes;
  ml_kem_key_valid : bytes -> bool;
  ml_kem_encapsulate : bytes -> bytes -> bytes * bytes;
  ml_kem_decapsulate : bytes -> bytes -> bytes
}.

(** ** What the documentation of these crates promises *)

Class CryptoLaws (C : Crypto) : Prop := {
  (** Diffie-Hellman agreement. *)
  x25519_agree a b : x25519_dh a (x25519_public b) = x25519_dh b (x25519_public a);
  length_x25519_public a : length (x25519_public a) = 32%nat;
  length_x25519_dh a p : length (x25519_dh a p) = 32%nat;
  (** HKDF-SHA256 expands up to 255 blocks of 32 bytes. *)
  hkdf_expands salt ikm info n :
    (n <= 255 * 32)%nat ->
    exists okm, hkdf_sha256 salt ikm info n = Some okm /\ length okm = n;
  (** HMAC accepts keys of every length; its tag has 32 bytes. *)
  hmac_accepts key msg : exists tag, hmac_mac key msg = Some tag /\ length tag = 32%nat;
  (** The AEAD opens what it sealed, appends a 16-byte tag, and seals every
      message below its length limit. *)
  aead_opens key nonce aad msg ct :
    aead_encrypt key nonce aad msg = Some ct -> aead_decrypt key nonce aad ct = Some msg;
  length_aead key nonce aad msg ct :
    aead_encrypt key nonce aad msg = Some ct -> length ct = (length msg + 16)%nat;
  aead_seals key nonce aad msg :
    Z.of_nat (length msg) < 2 ^ 37 -> exists ct, aead_encrypt key nonce aad msg = Some ct;
  (** Ed25519 and ML-DSA-87: signatures verify under their own key. *)
  ed25519_public_valid seed : ed25519_key_valid (ed25519_public seed) = true;
  ed25519_verifies seed msg : ed25519_verify (ed25519_public seed) msg (ed25519_sign seed msg) = true;
  length_ed25519_public seed : length (ed25519_public seed) = 32%nat;
  length_ed25519_sign seed msg : length (ed25519_sign seed msg) = 64%nat;
  ml_dsa_verifies seed msg : ml_dsa_verify (ml_dsa_public seed) msg (ml_dsa_sign seed msg) = true;
  length_ml_dsa_public seed : length (ml_dsa_public seed) = 2592%nat;
  length_ml_dsa_encode sig : length (ml_dsa_encode sig) = 4627%nat;
  ml_dsa_decode_encode sig : ml_dsa_decode (ml_dsa_encode sig) = Some sig;
  (** ML-KEM-1024: key generation, sizes, and decapsulation of an
      encapsulated secret. *)
  ml_kem_generates rnd : exists seed,
    ml_kem_generate rnd = (Some seed, ml_kem_public seed) /\ length seed = 64%nat;
  length_ml_kem_public seed : length (ml_kem_public seed) = 1568%nat;
  ml_kem_public_valid seed : ml_kem_key_valid (ml_kem_public seed) = true;
  length_ml_kem_ciphertext key rnd : length (fst (ml_kem_encapsulate key rnd)) = 1568%nat;
  ml_kem_decapsulates seed rnd :
    ml_kem_decapsulate seed (fst (ml_kem_encapsulate (ml_kem_public seed) rnd)) =
    snd (ml_kem_encapsulate (ml_kem_public seed) rnd)
}.

(** ** serde_json at a type

    The error is its [to_string].  [wf] says that a model value is one of the
    Rust type: its fixed-size arrays have their size and its integers are in
    range.  Serialization of such a value succeeds and writes JSON text (UTF-8,
    control characters escaped); deserialization inverts it and only gives
    values of the type. *)

Class Wf (T : Type) := wf : T -> Prop.

Class Serde (T : Type) := {
  serialize_json : T -> string + bytes;
  deserialize_json : bytes -> string + T
}.

Definition of_sum {E A} (x : E + A) : result E A :=
  match x with inl e => Err e | inr a => Ok a end.

(** [serde_json::to_vec] and [serde_json::from_slice]. *)
Definition to_vec `{Serde T} (v : T) : result string bytes := of_sum (serialize_json v).
Definition from_slice `{Serde T} (b : bytes) : result string T := of_sum (deserialize_json b).

Lemma to_vec_no_panic `{Serde T} (v : T) p : to_vec v <> Panic p.
Proof. unfold to_vec. by destruct (serialize_json v). Qed.

Lemma from_slice_no_panic `{Serde T} b p : from_slice (T := T) b <> Panic p.
Proof. unfold from_slice. by destruct (deserialize_json b). Qed.

Class SerdeOk (T : Type) `{Wf T, Serde T} : Prop := {
  serde_total (v : T) : wf v -> exists b, to_vec v = Ok b;
  serde_roundtrip (v : T) b : wf v -> to_vec v = Ok b -> from_slice b = Ok v;
  serde_text (v : T) b : to_vec v = Ok b -> is_text b;
  serde_typed (v : T) b : from_slice b = Ok v -> wf v
}.

#[export] Hint Rewrite @length_x25519_public @length_x25519_dh @length_ed25519_public
  @length_ed25519_sign @length_ml_dsa_public @length_ml_dsa_encode
  @length_ml_kem_public @length_ml_kem_ciphertext using (typeclasses eauto) : lens.
