(* ===== verification/Concrete.v ===== *)
(** Concrete functions for the third-party operations, satisfying every law
    of [CryptoLaws]: the theorems that assume the laws are evaluated here.
    They are arithmetic checksums, chosen to be small and to compute fast;
    nothing is claimed about their secrecy. *)

From S2P Require Import Prelude Constants Prims.

(** A polynomial checksum of a byte string, and a stream of bytes from it. *)
Definition checksum (l : bytes) : Z :=
  fold_left (fun acc b => (acc * 257 + byte_to_Z b + 1) mod 2305843009213693951) l 7.

Fixpoint stream (n : nat) (z : Z) : bytes :=
  match n with
  | O => []
  | S n => byte_of_Z z :: stream n ((z * 6364136223846793005 + 1442695040888963407) mod 2305843009213693951 / 3)
  end.

Lemma length_stream n z : length (stream n z) = n.
Proof. revert z; induction n as [|n IH]; intros z; simpl; [done|]. by rewrite IH. Qed.

Definition expand (n : nat) (parts : list bytes) : bytes :=
  stream n (checksum (concat (map (fun p => le_bytes 4 (Z.of_nat (length p)) ++ p) parts))).

Lemma length_expand n parts : length (expand n parts) = n.
Proof. apply length_stream. Qed.

(** Key agreement: the public key is the secret padded to 32 bytes, the
    shared secret the bytewise sum. *)
Definition pad32 (a : bytes) : bytes := resize 32 x00 a.
Definition add_bytes (a b : bytes) : bytes :=
  zip_with (fun x y => byte_of_Z (byte_to_Z x + byte_to_Z y)) a b.

Lemma length_pad32 a : length (pad32 a) = 32%nat.
Proof. apply length_resize. Qed.

Lemma add_bytes_comm a b : add_bytes a b = add_bytes b a.
Proof.
  revert b; induction a as [|x a IH]; intros [|y b]; simpl; [done..|].
  f_equal; [f_equal; lia | apply IH].
Qed.

Definition seal (key nonce aad msg : bytes) : bytes := msg ++ expand 16 [key; nonce; aad; msg].

Definition unseal (key nonce aad ct : bytes) : option bytes :=
  let n := (length ct - 16)%nat in
  if decide (seal key nonce aad (take n ct) = ct) then Some (take n ct) else None.

Lemma unseal_seal key nonce aad msg : unseal key nonce aad (seal key nonce aad msg) = Some msg.
Proof.
  unfold unseal.
  assert (take (length (seal key nonce aad msg) - 16) (seal key nonce aad msg) = msg) as ->.
  { unfold seal. rewrite length_app, length_expand, Nat.add_sub. apply take_app_length. }
  by rewrite decide_True.
Qed.

Definition pair_decode (l : bytes) : option (byte * byte) :=
  if decide (length l = 4627%nat) then
    match l with a :: b :: _ => Some (a, b) | _ => None end
  else None.

#[export] Instance concrete_crypto : Crypto := {|
  x25519_public := pad32;
  x25519_dh a p := add_bytes (pad32 a) (pad32 p);
  hkdf_sha256 salt ikm info n :=
    if decide (n <= 255 * 32)%nat then Some (expand n [default [] salt; ikm; info]) else None;
  hmac_mac key msg := Some (expand 32 [key; msg]);
  sha256_digest m := expand 32 [m];
  aead_encrypt key nonce aad msg :=
    if Z.of_nat (length msg) <? 2 ^ 37 then Some (seal key nonce aad msg) else None;
  aead_decrypt := unseal;
  ed25519_public := pad32;
  ed25519_sign seed msg := expand 64 [pad32 seed; msg];
  ed25519_key_valid p := bool_decide (length p = 32%nat);
  ed25519_verify p msg sig := bool_decide (sig = expand 64 [p; msg]);
  MlDsaSignature := byte * byte;
  ml_dsa_public seed := resize 2592 x00 seed;
  ml_dsa_sign seed msg :=
    let c := checksum (resize 2592 x00 seed ++ msg) in (byte_of_Z c, byte_of_Z (c / 256));
  ml_dsa_encode sig := [sig.1; sig.2] ++ replicate 4625 x00;
  ml_dsa_decode := pair_decode;
  ml_dsa_verify p msg sig :=
    let c := checksum (p ++ msg) in bool_decide (sig = (byte_of_Z c, byte_of_Z (c / 256)));
  ml_kem_generate rnd := (Some (resize 64 x00 rnd), resize 1568 x00 (resize 64 x00 rnd));
  ml_kem_public seed := resize 1568 x00 seed;
  ml_kem_key_valid key := bool_decide (length key = 1568%nat);
  ml_kem_encapsulate key rnd :=
    let ct := resize 1568 x00 rnd in (ct, expand 32 [key; ct]);
  ml_kem_decapsulate seed ct := expand 32 [resize 1568 x00 seed; ct]
|}.

#[export] Instance concrete_laws : CryptoLaws concrete_crypto.
Proof.
  constructor; cbn -[resize replicate expand checksum Z.pow].
  - intros a b. unfold pad32. rewrite !resize_idemp. apply add_bytes_comm.
  - intros. apply length_pad32.
  - intros. unfold add_bytes. by rewrite length_zip_with, !length_pad32.
  - intros salt ikm info n Hn. rewrite decide_True by done.
    eexists; split; [done | apply length_expand].
  - intros. eexists; split; [done | apply length_expand].
  - intros key nonce aad msg ct. case_match; [|done]. intros [= <-]. apply unseal_seal.
  - intros key nonce aad msg ct. case_match; [|done]. intros [= <-].
    unfold seal. by rewrite length_app, length_expand.
  - intros key nonce aad msg Hm. rewrite (proj2 (Z.ltb_lt _ _) Hm). eauto.
  - intros. rewrite bool_decide_eq_true. apply length_pad32.
  - intros. by rewrite bool_decide_eq_true.
  - intros. apply length_pad32.
  - intros. apply length_expand.
  - intros. by rewrite bool_decide_eq_true.
  - intros. apply length_resize.
  - intros. by rewrite length_replicate.
  - intros [a b]. unfold pair_decode. by rewrite decide_True by (cbn [length]; by rewrite length_replicate).
  - intros rnd. eexists; split; [done | apply length_resize].
  - intros. apply length_resize.
  - intros. rewrite bool_decide_eq_true. apply length_resize.
  - intros. apply length_resize.
  - done.
Qed.

(** Debug and release builds. *)
Definition dev_build : Build := {| overflow_checks := true |}.
Definition release_build : Build := {| overflow_checks := false |}.

(** ** Serialization of a countable type: the bits of its code as the digits
    0 and 1, ended by a 2.  Only well-formed values are read back. *)

Fixpoint pos_bytes (p : positive) : bytes :=
  match p with
  | xH => [x32]
  | xO p => x30 :: pos_bytes p
  | xI p => x31 :: pos_bytes p
  end.

Fixpoint bytes_pos (l : bytes) : option positive :=
  match l with
  | [x32] => Some xH
  | x30 :: l => xO <$> bytes_pos l
  | x31 :: l => xI <$> bytes_pos l
  | _ => None
  end.

Lemma bytes_pos_bytes p : bytes_pos (pos_bytes p) = Some p.
Proof. induction p as [p IH|p IH|]; cbn; [by rewrite IH | by rewrite IH | done]. Qed.

Lemma pos_bytes_text p : is_text (pos_bytes p).
Proof.
  assert (Forall (fun b => between 0 127 b = true /\ b <> x00) (pos_bytes p)) as Hp.
  { induction p; cbn; repeat constructor; done. }
  apply Forall_and in Hp as [Hp Hn]. split; [by apply utf8_ascii|].
  intros Hin. rewrite list.Forall_forall in Hn. by apply (Hn x00).
Qed.

Definition countable_serde T `{Countable T, Wf T, !forall v : T, Decision (wf v)} : Serde T := {|
  serialize_json v := inr (pos_bytes (encode v));
  deserialize_json b :=
    match bytes_pos b ≫= decode with
    | Some v => if decide (wf v) then inr v else inl "invalid"
    | None => inl "invalid"
    end
|}.

Lemma countable_serde_ok T `{Countable T, Wf T, !forall v : T, Decision (wf v)} : @SerdeOk T _ (countable_serde T).
Proof.
  split.
  - intros v _. by eexists.
  - intros v b Hv [= <-]. unfold from_slice. cbn. rewrite bytes_pos_bytes. cbn. rewrite decode_encode.
    by rewrite decide_True.
  - intros v b [= <-]. apply pos_bytes_text.
  - intros v b. unfold from_slice. cbn. destruct (bytes_pos b ≫= decode) as [w|]; [|done].
    case_decide; [|done]. by intros [= <-].
Qed.

#[export] Instance is_u64_dec z : Decision (is_u64 z).
Proof. unfold is_u64. apply _. Defined.
#[export] Instance is_u32_dec z : Decision (is_u32 z).
Proof. unfold is_u32. apply _. Defined.

(** Decides a [wf] predicate that is a conjunction of decidable ones. *)
Ltac wf_decide := intros v; unfold wf; hnf; repeat apply and_dec; apply _.
