(* ===== verification/Ratchet.v ===== *)
(** The Double Ratchet: [presidium-crypto/src/ratchet.rs].

    Each struct is a record, each method a function of the same name; the
    methods on [&mut self] are computations of [M DoubleRatchet], so that what
    they have already changed when they return [Err] is part of the model.
    The [while] loop of [decrypt] is [skip_to], with fuel that is proved to be
    enough. *)

From S2P Require Import Prelude Constants Prims.

(** ** Data *)

Record MessageKeys := { mk_key : bytes; mk_index : Z }.

Record ChainKey := { ck_key : bytes; ck_index : Z }.

Record RootKey := { rk_key : bytes }.

Record RatchetMessageHeader := {
  dh_public_key : bytes;
  message_number : Z;
  previous_message_number : Z
}.

Record RatchetChain := {
  our_ratchet_key : option bytes;
  their_ratchet_public : option bytes;
  chain_key : option ChainKey;
  skipped_message_keys : list (Z * bytes)
}.

Record DoubleRatchet := {
  root_key : RootKey;
  sending_chain : RatchetChain;
  receiving_chain : RatchetChain;
  session_id : string;
  associated_data : bytes
}.

#[export] Instance RatchetMessageHeader_wf : Wf RatchetMessageHeader := fun h =>
  length (dh_public_key h) = X25519_PUBLIC_KEY_SIZE /\
  is_u64 (message_number h) /\ is_u64 (previous_message_number h).

(** Field assignments. *)
Definition set_chain_key (c : option ChainKey) (r : RatchetChain) : RatchetChain :=
  {| our_ratchet_key := our_ratchet_key r; their_ratchet_public := their_ratchet_public r;
     chain_key := c; skipped_message_keys := skipped_message_keys r |}.
Definition set_our_ratchet_key (k : option bytes) (r : RatchetChain) : RatchetChain :=
  {| our_ratchet_key := k; their_ratchet_public := their_ratchet_public r;
     chain_key := chain_key r; skipped_message_keys := skipped_message_keys r |}.
Definition set_their_ratchet_public (p : option bytes) (r : RatchetChain) : RatchetChain :=
  {| our_ratchet_key := our_ratchet_key r; their_ratchet_public := p;
     chain_key := chain_key r; skipped_message_keys := skipped_message_keys r |}.
Definition set_skipped (l : list (Z * bytes)) (r : RatchetChain) : RatchetChain :=
  {| our_ratchet_key := our_ratchet_key r; their_ratchet_public := their_ratchet_public r;
     chain_key := chain_key r; skipped_message_keys := l |}.
Definition set_root_key (k : RootKey) (d : DoubleRatchet) : DoubleRatchet :=
  {| root_key := k; sending_chain := sending_chain d; receiving_chain := receiving_chain d;
     session_id := session_id d; associated_data := associated_data d |}.
Definition on_sending (f : RatchetChain -> RatchetChain) (d : DoubleRatchet) : DoubleRatchet :=
  {| root_key := root_key d; sending_chain := f (sending_chain d);
     receiving_chain := receiving_chain d;
     session_id := session_id d; associated_data := associated_data d |}.
Definition on_receiving (f : RatchetChain -> RatchetChain) (d : DoubleRatchet) : DoubleRatchet :=
  {| root_key := root_key d; sending_chain := sending_chain d;
     receiving_chain := f (receiving_chain d);
     session_id := session_id d; associated_data := associated_data d |}.

(** The 12-byte nonce: four zero bytes and the little-endian [u64] index. *)
Definition message_nonce (index : Z) : bytes := replicate 4 x00 ++ le_bytes 8 index.

Section Ratchet.
Context `{C : Crypto, B : Build, SH : Serde RatchetMessageHeader}.

(** ** Keys *)

Definition hmac_sha256 (key info : bytes) : result CryptoError bytes :=
  ok_or (hmac_mac key info) (KeyDerivationFailed "Invalid HMAC key").

Definition ChainKey_new (key : bytes) (index : Z) : ChainKey :=
  {| ck_key := key; ck_index := index |}.

Definition ChainKey_message_key (ck : ChainKey) : result CryptoError MessageKeys :=
  digest ← hmac_sha256 (ck_key ck) MESSAGE_KEY_INFO;
  mret {| mk_key := take MESSAGE_KEY_SIZE digest; mk_index := ck_index ck |}.

Definition ChainKey_next (ck : ChainKey) : result CryptoError ChainKey :=
  digest ← hmac_sha256 (ck_key ck) CHAIN_KEY_INFO;
  index ← u64_add (ck_index ck) 1;
  mret {| ck_key := take CHAIN_KEY_SIZE digest; ck_index := index |}.

Definition RootKey_new (key : bytes) : RootKey := {| rk_key := key |}.

Definition RootKey_from_slice (slice : bytes) : result CryptoError RootKey :=
  if decide (length slice = ROOT_KEY_SIZE) then Ok {| rk_key := slice |}
  else Err (InvalidKey "Root key must be 32 bytes").

Definition RootKey_ratchet_step (rk : RootKey) (dh_output : bytes)
    : result CryptoError (RootKey * ChainKey) :=
  new_root ← ok_or (hkdf_sha256 (Some (rk_key rk)) dh_output (bs "presidium-ratchet-root") ROOT_KEY_SIZE)
                   (KeyDerivationFailed "Root key derivation failed");
  new_chain ← ok_or (hkdf_sha256 (Some (rk_key rk)) dh_output (bs "presidium-ratchet-chain") CHAIN_KEY_SIZE)
                    (KeyDerivationFailed "Chain key derivation failed");
  mret (RootKey_new new_root, ChainKey_new new_chain 0).

(** ** Sessions *)

Definition DoubleRatchet_init (sid : string) (rk : RootKey) (our_dh_key peer_dh_public : bytes)
    (ad : bytes) : result CryptoError DoubleRatchet :=
  '(new_root, chain) ← RootKey_ratchet_step rk (x25519_dh our_dh_key peer_dh_public);
  mret {| root_key := new_root;
          sending_chain := {| our_ratchet_key := Some our_dh_key;
                              their_ratchet_public := Some peer_dh_public;
                              chain_key := Some chain;
                              skipped_message_keys := [] |};
          receiving_chain := {| our_ratchet_key := None;
                                their_ratchet_public := Some peer_dh_public;
                                chain_key := None;
                                skipped_message_keys := [] |};
          session_id := sid;
          associated_data := ad |}.

Definition DoubleRatchet_init_as_responder (sid : string) (rk : RootKey) (our : bytes) (ad : bytes)
    : result CryptoError DoubleRatchet :=
  Ok {| root_key := rk;
        sending_chain := {| our_ratchet_key := Some our;
                            their_ratchet_public := None;
                            chain_key := None;
                            skipped_message_keys := [] |};
        receiving_chain := {| our_ratchet_key := None;
                              their_ratchet_public := None;
                              chain_key := None;
                              skipped_message_keys := [] |};
        session_id := sid;
        associated_data := ad |}.

(** First half of [encrypt]: derive the sending chain when there is none. *)
Definition ensure_sending_chain : M DoubleRatchet CryptoError unit :=
  s ← gets sending_chain;
  match chain_key s with
  | Some _ => mret tt
  | None =>
      our_key ← lift (ok_or (our_ratchet_key s) (RatchetError "No sending ratchet key"));
      their_bytes ← lift (ok_or (their_ratchet_public s) (RatchetError "No peer ratchet key"));
      root ← gets root_key;
      '(new_root, chain) ← lift (RootKey_ratchet_step root (x25519_dh our_key their_bytes));
      modify (set_root_key new_root);;
      modify (on_sending (set_chain_key (Some chain)))
  end.

Definition DoubleRatchet_encrypt (plaintext : bytes)
    : M DoubleRatchet CryptoError (bytes * RatchetMessageHeader) :=
  ensure_sending_chain;;
  ck ← gets (chain_key ∘ sending_chain);
  chain ← lift (ok_or ck (RatchetError "No sending chain"));
  message_key ← lift (ChainKey_message_key chain);
  next ← lift (ChainKey_next chain);
  modify (on_sending (set_chain_key (Some next)));;
  our ← gets (our_ratchet_key ∘ sending_chain);
  let header := {| dh_public_key := match our with
                                    | Some key => x25519_public key
                                    | None => replicate X25519_PUBLIC_KEY_SIZE x00
                                    end;
                   message_number := mk_index message_key;
                   previous_message_number := 0 |} in
  serialized_header ← lift (map_err CryptoError_from_serde (to_vec header));
  ciphertext ← lift (ok_or (aead_encrypt (mk_key message_key) (message_nonce (mk_index message_key))
                                         serialized_header plaintext)
                           (EncryptionFailed "Ratchet encryption failed"));
  mret (ciphertext, header).

(** The receiving half of [decrypt] works on the chain key and the skipped
    keys of the receiving chain: the [while] loop, then the message itself. *)
Definition ReceiveState : Type := ChainKey * list (Z * bytes).

Fixpoint skip_to (fuel : nat) (number : Z) : M ReceiveState CryptoError unit :=
  chain ← gets fst;
  if ck_index chain <? number then
    match fuel with
    | O => lift (Panic "skip_to: out of fuel")
    | S fuel =>
        msg_key ← lift (ChainKey_message_key chain);
        modify (fun st => (st.1, st.2 ++ [(mk_index msg_key, mk_key msg_key)]));;
        skipped ← gets snd;
        if decide (MAX_SKIP_MESSAGES < length skipped)%nat then
          fail (RatchetError "Too many skipped messages")
        else
          next ← lift (ChainKey_next chain);
          modify (fun st => (next, st.2));;
          skip_to fuel number
    end
  else mret tt.

Definition open_message (key : bytes) (ciphertext : bytes) (header : RatchetMessageHeader)
    : result CryptoError bytes :=
  serialized_header ← map_err CryptoError_from_serde (to_vec header);
  ok_or (aead_decrypt key (message_nonce (message_number header)) serialized_header ciphertext)
        DecryptionFailed.

Definition receive_on_chain (ciphertext : bytes) (header : RatchetMessageHeader)
    : M ReceiveState CryptoError bytes :=
  skip_to (S MAX_SKIP_MESSAGES) (message_number header);;
  chain ← gets fst;
  message_key ← lift (ChainKey_message_key chain);
  next ← lift (ChainKey_next chain);
  modify (fun st => (next, st.2));;
  lift (open_message (mk_key message_key) ciphertext header).

(** Run a receiving computation in place, on the receiving chain. *)
Definition in_receiving {A} (chain : ChainKey) (m : M ReceiveState CryptoError A)
    : M DoubleRatchet CryptoError A := fun d =>
  match m (chain, skipped_message_keys (receiving_chain d)) with
  | ((chain', skipped'), r) =>
      (on_receiving (set_skipped skipped' ∘ set_chain_key (Some chain')) d, r)
  end.

Definition find_skipped (number : Z) (l : list (Z * bytes)) : option (Z * bytes) :=
  List.find (fun p => p.1 =? number) l.

Definition DoubleRatchet_decrypt (ciphertext : bytes) (header : RatchetMessageHeader)
    : M DoubleRatchet CryptoError bytes :=
  rc ← gets receiving_chain;
  match find_skipped (message_number header) (skipped_message_keys rc) with
  | Some (_, key) => lift (open_message key ciphertext header)
  | None =>
      match chain_key rc with
      | None => fail (RatchetError "No receiving chain established")
      | Some chain => in_receiving chain (receive_on_chain ciphertext header)
      end
  end.

Definition DoubleRatchet_dh_ratchet (peer_ratchet_public : bytes)
    : M DoubleRatchet CryptoError unit :=
  rc ← gets receiving_chain;
  sc ← gets sending_chain;
  our_key ← lift (ok_or (match our_ratchet_key rc with
                         | Some k => Some k
                         | None => our_ratchet_key sc
                         end) (RatchetError "No ratchet key available"));
  root ← gets root_key;
  '(new_root, new_chain) ← lift (RootKey_ratchet_step root (x25519_dh our_key peer_ratchet_public));
  modify (set_root_key new_root);;
  modify (on_sending (set_their_ratchet_public (Some peer_ratchet_public)));;
  match our_ratchet_key rc with
  | Some k =>
      modify (on_sending (set_our_ratchet_key (Some k)));;
      modify (on_receiving (set_our_ratchet_key None));;
      modify (on_sending (set_chain_key (Some new_chain)))
  | None => modify (on_receiving (set_chain_key (Some new_chain)))
  end.

End Ratchet.
