(* ===== verification/RatchetFacts.v ===== *)
(** Lemmas on the Double Ratchet: the key schedule as an iterated function,
    the loop of [decrypt], the sender's and the receiver's invariants. *)

From S2P Require Import Prelude Constants Prims Ratchet.

Section Facts.
Context `{C : Crypto, L : !CryptoLaws C, B : Build, SH : Serde RatchetMessageHeader}.

(** ** The key schedule, as total functions *)

Definition kdf_msg (k : bytes) : bytes := take MESSAGE_KEY_SIZE (default [] (hmac_mac k MESSAGE_KEY_INFO)).
Definition kdf_next (k : bytes) : bytes := take CHAIN_KEY_SIZE (default [] (hmac_mac k CHAIN_KEY_INFO)).

(** The [n]-th chain key of the chain that starts at [k0], and the chain key
    value the code holds there. *)
Definition chain_at (k0 : bytes) (n : nat) : bytes := Nat.iter n kdf_next k0.
Definition chain_of (k0 : bytes) (n : nat) : ChainKey :=
  {| ck_key := chain_at k0 n; ck_index := Z.of_nat n |}.
Definition msg_key_at (k0 : bytes) (n : nat) : bytes := kdf_msg (chain_at k0 n).

Definition kdf_root (rk : RootKey) (dh : bytes) : RootKey * ChainKey :=
  (RootKey_new (default [] (hkdf_sha256 (Some (rk_key rk)) dh (bs "presidium-ratchet-root") ROOT_KEY_SIZE)),
   ChainKey_new (default [] (hkdf_sha256 (Some (rk_key rk)) dh (bs "presidium-ratchet-chain") CHAIN_KEY_SIZE)) 0).

Lemma hmac_sha256_eq k info : hmac_sha256 k info = Ok (default [] (hmac_mac k info)).
Proof. unfold hmac_sha256. by destruct (hmac_accepts k info) as (t & -> & _). Qed.

Lemma message_key_eq c :
  ChainKey_message_key c = Ok {| mk_key := kdf_msg (ck_key c); mk_index := ck_index c |}.
Proof. unfold ChainKey_message_key. by rewrite hmac_sha256_eq. Qed.

Lemma next_eq c :
  ck_index c + 1 < 2 ^ 64 ->
  ChainKey_next c = Ok {| ck_key := kdf_next (ck_key c); ck_index := ck_index c + 1 |}.
Proof.
  intros Hi. unfold ChainKey_next. rewrite hmac_sha256_eq. cbn [mbind result_bind].
  by rewrite u64_add_ok.
Qed.

Lemma next_of k0 n :
  Z.of_nat n + 1 < 2 ^ 64 -> ChainKey_next (chain_of k0 n) = Ok (chain_of k0 (S n)).
Proof.
  intros Hn. rewrite next_eq by done. unfold chain_of, chain_at. cbn [ck_key ck_index Nat.iter].
  do 2 f_equal. lia.
Qed.

Lemma ratchet_step_eq rk dh : RootKey_ratchet_step rk dh = Ok (kdf_root rk dh).
Proof.
  unfold RootKey_ratchet_step, kdf_root.
  destruct (hkdf_expands (Some (rk_key rk)) dh (bs "presidium-ratchet-root") ROOT_KEY_SIZE)
    as (r & -> & _); [unfold ROOT_KEY_SIZE; lia|].
  destruct (hkdf_expands (Some (rk_key rk)) dh (bs "presidium-ratchet-chain") CHAIN_KEY_SIZE)
    as (c & -> & _); [unfold CHAIN_KEY_SIZE; lia|].
  done.
Qed.

Lemma kdf_root_chain rk dh : exists k0, (kdf_root rk dh).2 = chain_of k0 0.
Proof. by eexists. Qed.

Lemma length_message_nonce i : length (message_nonce i) = CHACHA20_POLY1305_NONCE_SIZE.
Proof. unfold message_nonce. by rewrite length_app, length_replicate, length_le_bytes. Qed.

(** ** The loop of [decrypt] *)

(** The keys the loop stores on the way from index [i], [m] of them. *)
Definition skipped_run (k0 : bytes) (i m : nat) : list (Z * bytes) :=
  map (fun j => (Z.of_nat j, msg_key_at k0 j)) (seq i m).

Lemma skip_to_step fuel n c l :
  ck_index c < n ->
  skip_to (S fuel) n (c, l) =
  let l' := l ++ [(ck_index c, kdf_msg (ck_key c))] in
  if decide (MAX_SKIP_MESSAGES < length l')%nat
  then ((c, l'), Err (RatchetError "Too many skipped messages"))
  else match ChainKey_next c with
       | Ok c' => skip_to fuel n (c', l')
       | Err e => ((c, l'), Err e)
       | Panic p => ((c, l'), Panic p)
       end.
Proof.
  intros Hlt. cbn [skip_to]. mrun. rewrite (proj2 (Z.ltb_lt _ _) Hlt), message_key_eq.
  mrun. cbn [mk_index mk_key]. case_decide; [done|].
  mrun. destruct (ChainKey_next c); by mrun.
Qed.

Lemma skip_to_done fuel n c l : n <= ck_index c -> skip_to fuel n (c, l) = ((c, l), Ok tt).
Proof.
  intros Hge. destruct fuel as [|fuel]; cbn [skip_to]; mrun; by rewrite (proj2 (Z.ltb_ge _ _) Hge).
Qed.

(** Within the skip bound the loop reaches the target index and stores
    exactly the keys it passed. *)
Lemma skip_to_reaches k0 fuel i m l :
  (m <= fuel)%nat -> (length l + m <= MAX_SKIP_MESSAGES)%nat -> Z.of_nat (i + m) < 2 ^ 64 ->
  skip_to fuel (Z.of_nat (i + m)) (chain_of k0 i, l) =
  ((chain_of k0 (i + m), l ++ skipped_run k0 i m), Ok tt).
Proof.
  revert fuel i l. induction m as [|m IH]; intros fuel i l Hf Hl Hb.
  - rewrite skip_to_done by (cbn; lia). by rewrite Nat.add_0_r, app_nil_r.
  - destruct fuel as [|fuel]; [lia|].
    rewrite skip_to_step by (cbn; lia). cbn zeta.
    rewrite decide_False by (rewrite length_app; cbn [length]; lia).
    rewrite next_of by lia.
    replace (i + S m)%nat with (S i + m)%nat by lia.
    rewrite IH by (rewrite ?length_app; cbn [length]; lia).
    by rewrite <- app_assoc.
Qed.

Lemma next_no_fuel c : ChainKey_next c <> Panic "skip_to: out of fuel".
Proof.
  unfold ChainKey_next. rewrite hmac_sha256_eq. cbn. unfold u64_add. by repeat case_match.
Qed.

Lemma skip_to_fuel fuel n c l :
  (1 <= fuel)%nat -> (S MAX_SKIP_MESSAGES <= fuel + length l)%nat ->
  (skip_to fuel n (c, l)).2 <> Panic "skip_to: out of fuel".
Proof.
  revert c l. induction fuel as [|fuel IH]; intros c l Hf Hl; [lia|].
  destruct (Z.lt_ge_cases (ck_index c) n) as [Hlt|Hge].
  - rewrite skip_to_step by done. cbn zeta. case_decide as Hd; [done|].
    rewrite length_app in Hd. cbn [length] in Hd. pose proof (next_no_fuel c) as Hn.
    destruct (ChainKey_next c) as [c'|e|p]; [|done|by intros [= ->]].
    apply IH; [|rewrite length_app; cbn [length]]; lia.
  - by rewrite skip_to_done.
Qed.
(** ** The sender *)

Definition header_at (a : bytes) (i : nat) : RatchetMessageHeader :=
  {| dh_public_key := x25519_public a; message_number := Z.of_nat i; previous_message_number := 0 |}.

(** [ct] is plaintext [pt] sealed as message [i] of the chain [k0] by the
    owner of ratchet secret [a]. *)
Definition sealed (k0 a : bytes) (i : nat) (pt ct : bytes) : Prop :=
  exists hb, to_vec (header_at a i) = Ok hb /\
    aead_encrypt (msg_key_at k0 i) (message_nonce (Z.of_nat i)) hb pt = Some ct.

Definition sending_at (k0 a : bytes) (i : nat) (d : DoubleRatchet) : Prop :=
  chain_key (sending_chain d) = Some (chain_of k0 i) /\ our_ratchet_key (sending_chain d) = Some a.

Lemma header_at_wf a i : Z.of_nat i < 2 ^ 64 -> wf (header_at a i).
Proof. intros Hi. repeat split; cbn; [apply length_x25519_public | lia..]. Qed.

Lemma header_to_vec `{!SerdeOk RatchetMessageHeader} a i :
  Z.of_nat i < 2 ^ 64 -> exists hb, to_vec (header_at a i) = Ok hb.
Proof. intros Hi. by apply serde_total, header_at_wf. Qed.

Lemma encrypt_step `{!SerdeOk RatchetMessageHeader} k0 a i d pt :
  sending_at k0 a i d -> Z.of_nat i + 1 < 2 ^ 64 -> Z.of_nat (length pt) < 2 ^ 37 ->
  exists ct, sealed k0 a i pt ct /\
    DoubleRatchet_encrypt pt d =
      (on_sending (set_chain_key (Some (chain_of k0 (S i)))) d, Ok (ct, header_at a i)).
Proof.
  intros [Hck Hour] Hi Hpt.
  destruct (header_to_vec a i) as [hb Hhb]; [lia|].
  destruct (aead_seals (msg_key_at k0 i) (message_nonce (Z.of_nat i)) hb pt Hpt) as [ct Hct].
  exists ct. split; [by exists hb|].
  unfold DoubleRatchet_encrypt, ensure_sending_chain. mrun. rewrite Hck. mrun.
  rewrite Hck. cbn [ok_or]. rewrite message_key_eq, next_of by lia. mrun.
  cbn [on_sending sending_chain set_chain_key our_ratchet_key mk_key mk_index ck_index ck_key chain_of].
  rewrite Hour. fold (header_at a i). rewrite Hhb. cbn [map_err]. mrun.
  fold (msg_key_at k0 i). rewrite Hct. by mrun.
Qed.

Definition encrypt_all (pts : list bytes) : M DoubleRatchet CryptoError (list (bytes * RatchetMessageHeader)) :=
  mapM DoubleRatchet_encrypt pts.

Definition decrypt_all (msgs : list (bytes * RatchetMessageHeader)) : M DoubleRatchet CryptoError (list bytes) :=
  mapM (fun m => DoubleRatchet_decrypt m.1 m.2) msgs.

(** A run of [encrypt] numbers the messages consecutively and seals each
    under its own key; nothing but the sending chain key changes. *)
Lemma encrypt_all_sealed `{!SerdeOk RatchetMessageHeader} k0 a i d pts :
  sending_at k0 a i d -> Z.of_nat (i + length pts) < 2 ^ 64 ->
  Forall (fun pt => Z.of_nat (length pt) < 2 ^ 37) pts ->
  exists cts, length cts = length pts /\
    encrypt_all pts d =
      (on_sending (set_chain_key (Some (chain_of k0 (i + length pts)))) d,
       Ok (zip cts (map (header_at a) (seq i (length pts))))) /\
    forall j pt ct, pts !! j = Some pt -> cts !! j = Some ct -> sealed k0 a (i + j) pt ct.
Proof.
  revert i d. induction pts as [|pt pts IH]; intros i d Hs Hb Hpts.
  - exists []. split; [done|]. split; [|by intros [|j]].
    destruct Hs as [Hck _]. cbn. rewrite Nat.add_0_r. unfold on_sending, set_chain_key.
    rewrite <- Hck. by destruct d as [? [] ? ? ?].
  - apply Forall_cons in Hpts as [Hpt Hpts]. cbn [length] in Hb.
    destruct (encrypt_step k0 a i d pt) as (ct & Hct & Henc); [done|lia|done|].
    destruct (IH (S i) (on_sending (set_chain_key (Some (chain_of k0 (S i)))) d))
      as (cts & Hlen & Hall & Hsealed); [by destruct Hs|lia|done|].
    exists (ct :: cts). split; [by cbn; rewrite Hlen|]. split.
    + unfold encrypt_all in *. cbn [mapM]. mrun. rewrite Henc. mrun. rewrite Hall. mrun.
      cbn [length zip zip_with map seq]. by rewrite Nat.add_succ_comm.
    + intros [|j] pt' ct'; cbn; intros Hp Hc; simplify_eq.
      * by rewrite Nat.add_0_r.
      * rewrite <- Nat.add_succ_comm. eauto.
Qed.

(** ** The receiver *)

(** The receiving chain stands at index [i] of the chain [k0]; the stored
    keys are the right ones for their index, all below [i]; every index below
    [i] that was not delivered has its key stored. *)
Record recv_inv (k0 : bytes) (delivered : list nat) (i : nat) (r : RatchetChain) : Prop := {
  ri_chain : chain_key r = Some (chain_of k0 i);
  ri_skipped : forall j k, (j, k) ∈ skipped_message_keys r ->
    exists n, j = Z.of_nat n /\ (n < i)%nat /\ k = msg_key_at k0 n;
  ri_covered : forall n, (n < i)%nat -> n ∈ delivered \/ exists k, (Z.of_nat n, k) ∈ skipped_message_keys r;
  ri_length : (length (skipped_message_keys r) <= i)%nat
}.

Lemma find_skipped_Some n l p :
  find_skipped n l = Some p -> p ∈ l /\ p.1 = n.
Proof.
  intros H. apply List.find_some in H as [Hin Heq]. split; [by apply list_elem_of_In|].
  by apply Z.eqb_eq.
Qed.

Lemma find_skipped_None n l k : find_skipped n l = None -> (n, k) ∉ l.
Proof.
  intros H Hin. apply list_elem_of_In in Hin.
  pose proof (List.find_none _ _ H _ Hin) as Hn. cbn in Hn. by rewrite Z.eqb_refl in Hn.
Qed.

Lemma elem_of_skipped_run k0 i m j k :
  (j, k) ∈ skipped_run k0 i m <->
  exists n, j = Z.of_nat n /\ (i <= n < i + m)%nat /\ k = msg_key_at k0 n.
Proof.
  unfold skipped_run. rewrite list_elem_of_In, in_map_iff. setoid_rewrite in_seq. split.
  - intros (n & [= <- <-] & Hn). eauto.
  - intros (n & -> & Hn & ->). eauto.
Qed.

Lemma open_sealed k0 a n pt ct :
  sealed k0 a n pt ct -> open_message (msg_key_at k0 n) ct (header_at a n) = Ok pt.
Proof.
  intros (hb & Hhb & Hct). unfold open_message. rewrite Hhb.
  cbn [map_err mbind result_bind header_at message_number].
  by rewrite (aead_opens _ _ _ _ _ Hct).
Qed.

(** The next message on the chain: at or after the current index. *)
Lemma receive_ahead k0 a i m l pt ct :
  sealed k0 a (i + m) pt ct -> (length l + m <= MAX_SKIP_MESSAGES)%nat ->
  Z.of_nat (i + m) + 1 < 2 ^ 64 ->
  receive_on_chain ct (header_at a (i + m)) (chain_of k0 i, l) =
  ((chain_of k0 (S (i + m)), l ++ skipped_run k0 i m), Ok pt).
Proof.
  intros Hs Hl Hb. unfold receive_on_chain. mrun. cbn [header_at message_number].
  rewrite skip_to_reaches by lia. mrun.
  rewrite message_key_eq, next_of by lia. mrun.
  cbn [mk_key chain_of ck_key]. fold (msg_key_at k0 (i + m)). by rewrite (open_sealed _ _ _ _ _ Hs).
Qed.

(** A message not delivered before, within the skip bound, is decrypted to
    its plaintext, and the invariant is kept with it delivered. *)
Lemma decrypt_sealed k0 a delivered i d n pt ct :
  recv_inv k0 delivered i (receiving_chain d) ->
  sealed k0 a n pt ct -> n ∉ delivered -> (n <= MAX_SKIP_MESSAGES)%nat ->
  exists i' r', DoubleRatchet_decrypt ct (header_at a n) d = (on_receiving (fun _ => r') d, Ok pt) /\
    recv_inv k0 (n :: delivered) i' r'.
Proof.
  intros [Hc Hsk Hcov Hlen] Hs Hn Hb. unfold DoubleRatchet_decrypt. mrun.
  cbn [header_at message_number].
  destruct (find_skipped (Z.of_nat n) (skipped_message_keys (receiving_chain d))) as [[j k]|] eqn:Hf.
  - apply find_skipped_Some in Hf as [Hin Heq]. cbn in Heq. subst j.
    destruct (Hsk _ _ Hin) as (n' & Hn' & Hlt & ->). apply Nat2Z.inj in Hn'. subst n'.
    exists i, (receiving_chain d). mrun. rewrite (open_sealed _ _ _ _ _ Hs).
    split; [by destruct d|]. split; [done|done| |done].
    intros m Hm. destruct (Hcov m Hm); [left; by right | by right].
  - assert (i <= n)%nat as Hin.
    { destruct (Nat.lt_ge_cases n i) as [Hlt|]; [|done].
      destruct (Hcov n Hlt) as [?|[k Hk]]; [done|]. by apply find_skipped_None with (k := k) in Hf. }
    rewrite Hc. unfold in_receiving. replace n with (i + (n - i))%nat in Hs |- * by lia.
    set (m := (n - i)%nat) in *.
    fold (header_at a (i + m)).
    rewrite (receive_ahead k0 a i m _ pt ct) by (done || unfold MAX_SKIP_MESSAGES in *; lia).
    eexists (S (i + m)), _. split; [done|].
    split; cbn [chain_key skipped_message_keys set_skipped set_chain_key compose].
    + done.
    + intros j k [Hj|Hj]%elem_of_app.
      * destruct (Hsk _ _ Hj) as (n' & -> & ? & ->). exists n'. split_and!; [done|lia|done].
      * apply elem_of_skipped_run in Hj as (n' & -> & ? & ->). exists n'. split_and!; [done|lia|done].
    + intros n' Hn'. destruct (decide (n' = i + m)%nat) as [->|Hne]; [left; by left|].
      destruct (Nat.lt_ge_cases n' i) as [Hlt|Hge].
      * destruct (Hcov n' Hlt) as [?|[k Hk]]; [left; by right|].
        right. exists k. apply elem_of_app. by left.
      * right. exists (msg_key_at k0 n'). apply elem_of_app. right.
        apply elem_of_skipped_run. exists n'. split_and!; [done|lia|lia|done].
    + rewrite length_app. unfold skipped_run. rewrite length_map, length_seq. lia.
Qed.
(** Whole deliveries: distinct messages, none delivered before, in any
    order. *)
Lemma decrypt_all_sealed k0 a (msgs : list (nat * bytes * bytes)) delivered i d :
  recv_inv k0 delivered i (receiving_chain d) ->
  Forall (fun m => sealed k0 a m.1.1 m.1.2 m.2 /\ (m.1.1 ∉ delivered) /\
                   (m.1.1 <= MAX_SKIP_MESSAGES)%nat) msgs ->
  NoDup (map (fun m => m.1.1) msgs) ->
  exists r', decrypt_all (map (fun m => (m.2, header_at a m.1.1)) msgs) d =
    (on_receiving (fun _ => r') d, Ok (map (fun m => m.1.2) msgs)).
Proof.
  revert delivered i d. induction msgs as [|[[n pt] ct] msgs IH]; intros delivered i d Hi Hall Hnd.
  - exists (receiving_chain d). by destruct d.
  - apply Forall_cons in Hall as [(Hs & Hnew & Hb) Hall].
    cbn in Hnd. apply NoDup_cons in Hnd as [Hnin Hnd].
    destruct (decrypt_sealed k0 a delivered i d n pt ct Hi Hs Hnew Hb) as (i' & r' & Hdec & Hi').
    destruct (IH (n :: delivered) i' (on_receiving (fun _ => r') d)) as [r'' Hrest]; [done| |done|].
    { rewrite Forall_forall in Hall |- *. intros m Hm. destruct (Hall m Hm) as (? & ? & ?).
      split_and!; [done| |done]. rewrite not_elem_of_cons. split; [|done].
      intros Heq. apply Hnin, list_elem_of_In, in_map_iff. exists m.
      by rewrite <- list_elem_of_In. }
    exists r''. unfold decrypt_all in *. cbn [map mapM fst snd]. mrun. rewrite Hdec. mrun.
    rewrite Hrest. by mrun.
Qed.

(** ** Frames: what an operation leaves alone, on every branch *)

Lemma decrypt_frame ct h d :
  exists r', (DoubleRatchet_decrypt ct h d).1 = on_receiving (fun _ => r') d /\
    our_ratchet_key r' = our_ratchet_key (receiving_chain d) /\
    their_ratchet_public r' = their_ratchet_public (receiving_chain d).
Proof.
  assert (exists r', d = on_receiving (fun _ => r') d /\
    our_ratchet_key r' = our_ratchet_key (receiving_chain d) /\
    their_ratchet_public r' = their_ratchet_public (receiving_chain d)) as Hsame.
  { exists (receiving_chain d). by destruct d. }
  unfold DoubleRatchet_decrypt. mrun.
  destruct (find_skipped _ _) as [[]|]; [done|]. destruct (chain_key _) as [c|]; [|done].
  unfold in_receiving. destruct (receive_on_chain _ _ _) as [[c' l'] r]. by eexists.
Qed.

Lemma decrypt_all_frame msgs d :
  exists r', (decrypt_all msgs d).1 = on_receiving (fun _ => r') d.
Proof.
  revert d. induction msgs as [|[ct h] msgs IH]; intros d.
  - exists (receiving_chain d). by destruct d.
  - unfold decrypt_all in *. cbn [mapM fst snd]. mrun.
    destruct (decrypt_frame ct h d) as (r' & Hd & _).
    destruct (DoubleRatchet_decrypt ct h d) as [d' [pt|e|p]]; cbn in Hd; subst d'; mrun; [|by exists r'..].
    destruct (IH (on_receiving (fun _ => r') d)) as [r'' Hr].
    match type of Hr with fst ?m = _ => destruct m as [d'' [ps|e|p]] end;
      cbn in Hr; subst d''; mrun; by exists r''.
Qed.

(** ** The first messages of a session *)

Lemma init_eq sid rk a p ad :
  exists root k0, kdf_root rk (x25519_dh a p) = (root, chain_of k0 0) /\
  DoubleRatchet_init sid rk a p ad =
    Ok {| root_key := root;
          sending_chain := {| our_ratchet_key := Some a; their_ratchet_public := Some p;
                              chain_key := Some (chain_of k0 0); skipped_message_keys := [] |};
          receiving_chain := {| our_ratchet_key := None; their_ratchet_public := Some p;
                                chain_key := None; skipped_message_keys := [] |};
          session_id := sid; associated_data := ad |}.
Proof.
  destruct (kdf_root rk (x25519_dh a p)) as [root c] eqn:Hk.
  destruct (kdf_root_chain rk (x25519_dh a p)) as [k0 Hc]. rewrite Hk in Hc. cbn in Hc. subst c.
  exists root, k0. split; [done|]. unfold DoubleRatchet_init. by rewrite ratchet_step_eq, Hk.
Qed.

(** [dh_ratchet] on a state whose only ratchet key is in the sending chain. *)
Lemma dh_ratchet_eq d our p :
  our_ratchet_key (receiving_chain d) = None -> our_ratchet_key (sending_chain d) = Some our ->
  DoubleRatchet_dh_ratchet p d =
  let '(root, chain) := kdf_root (root_key d) (x25519_dh our p) in
  (on_receiving (set_chain_key (Some chain))
     (on_sending (set_their_ratchet_public (Some p)) (set_root_key root d)), Ok tt).
Proof.
  intros Hr Hs. unfold DoubleRatchet_dh_ratchet. mrun. rewrite Hr, Hs. cbn [ok_or]. mrun.
  rewrite ratchet_step_eq. by destruct (kdf_root _ _).
Qed.

Lemma recv_inv_fresh k0 r :
  chain_key r = Some (chain_of k0 0) -> skipped_message_keys r = [] -> recv_inv k0 [] 0 r.
Proof.
  intros Hc Hs. split; [done|..]; rewrite ?Hs.
  - intros j k Hjk. by apply not_elem_of_nil in Hjk.
  - lia.
  - done.
Qed.
(** Both ends of a fresh session, after the responder's first [dh_ratchet]:
    one root key, Alice's sending chain at the start of Bob's receiving
    chain. *)
Lemma session_start sid rk a b ad :
  exists root k0 alice bob bob',
    DoubleRatchet_init sid rk a (x25519_public b) ad = Ok alice /\
    DoubleRatchet_init_as_responder sid rk b ad = Ok bob /\
    DoubleRatchet_dh_ratchet (x25519_public a) bob = (bob', Ok tt) /\
    root_key alice = root /\ root_key bob' = root /\
    sending_at k0 a 0 alice /\ recv_inv k0 [] 0 (receiving_chain bob') /\
    receiving_chain alice = {| our_ratchet_key := None; their_ratchet_public := Some (x25519_public b);
                               chain_key := None; skipped_message_keys := [] |} /\
    sending_chain bob' = {| our_ratchet_key := Some b; their_ratchet_public := Some (x25519_public a);
                            chain_key := None; skipped_message_keys := [] |}.
Proof.
  destruct (init_eq sid rk a (x25519_public b) ad) as (root & k0 & Hk & Hinit).
  eexists root, k0, _, _, _. split; [exact Hinit|]. split; [done|]. split.
  { rewrite (dh_ratchet_eq _ b) by done. cbn [root_key]. by rewrite <- x25519_agree, Hk. }
  split_and!; try done. by apply recv_inv_fresh.
Qed.

(** The first [encrypt] of a party without a sending chain derives it. *)
Lemma encrypt_derives d b p pt :
  chain_key (sending_chain d) = None -> our_ratchet_key (sending_chain d) = Some b ->
  their_ratchet_public (sending_chain d) = Some p ->
  DoubleRatchet_encrypt pt d =
  let '(root, chain) := kdf_root (root_key d) (x25519_dh b p) in
  DoubleRatchet_encrypt pt (on_sending (set_chain_key (Some chain)) (set_root_key root d)).
Proof.
  intros Hc Ho Ht. unfold DoubleRatchet_encrypt at 1, ensure_sending_chain. mrun.
  rewrite Hc, Ho, Ht. cbn [ok_or]. mrun. rewrite ratchet_step_eq.
  by destruct (kdf_root (root_key d) (x25519_dh b p)) as [root chain].
Qed.
(** ** Panics and fuel *)

Lemma open_message_no_panic key ct h p : open_message key ct h <> Panic p.
Proof.
  unfold open_message. pose proof (to_vec_no_panic h) as Hp.
  destruct (to_vec h) as [b|e|q]; cbn in *; [|done|by destruct (Hp q)].
  by destruct (aead_decrypt _ _ _ _).
Qed.

Lemma receive_fuel ct h c l :
  (receive_on_chain ct h (c, l)).2 <> Panic "skip_to: out of fuel".
Proof.
  unfold receive_on_chain. mrun.
  pose proof (skip_to_fuel (S MAX_SKIP_MESSAGES) (message_number h) c l) as Hf.
  destruct (skip_to _ _ _) as [[c' l'] [[]|e|p]]; mrun; [|done|intros [= ->]; by apply Hf; [lia..|]].
  rewrite message_key_eq. mrun. pose proof (next_no_fuel c') as Hn.
  destruct (ChainKey_next c'); mrun; [apply open_message_no_panic | done | by intros [= ->]].
Qed.

(** ** Nonces *)

Lemma message_nonce_inj i j : is_u64 i -> is_u64 j -> message_nonce i = message_nonce j -> i = j.
Proof.
  intros Hi Hj Heq. apply app_inj_len in Heq as [_ Heq]; [|done].
  by eapply le_bytes_inj in Heq.
Qed.

Lemma message_nonces_NoDup i m :
  Z.of_nat (i + m) < 2 ^ 64 -> NoDup (map (fun n => message_nonce (Z.of_nat n)) (seq i m)).
Proof.
  revert i. induction m as [|m IH]; intros i Hb; cbn [seq map]; constructor.
  - rewrite list_elem_of_In, in_map_iff. intros (n & Heq & Hn%in_seq).
    apply message_nonce_inj in Heq; unfold is_u64; lia.
  - apply IH. lia.
Qed.

(** ** Edges of [decrypt] *)

(** The state after a sequence of deliveries, errors ignored. *)
Definition run_decrypts (msgs : list (bytes * RatchetMessageHeader)) (d : DoubleRatchet) : DoubleRatchet :=
  foldl (fun d m => (DoubleRatchet_decrypt m.1 m.2 d).1) d msgs.

Lemma run_decrypts_cons m msgs d :
  run_decrypts (m :: msgs) d = run_decrypts msgs (DoubleRatchet_decrypt m.1 m.2 d).1.
Proof. done. Qed.

Lemma decrypt_stored k0 a delivered i d n pt ct :
  recv_inv k0 delivered i (receiving_chain d) -> sealed k0 a n pt ct ->
  (exists k, (Z.of_nat n, k) ∈ skipped_message_keys (receiving_chain d)) ->
  DoubleRatchet_decrypt ct (header_at a n) d = (d, Ok pt).
Proof.
  intros Hi Hs [k Hk]. unfold DoubleRatchet_decrypt. mrun. cbn [header_at message_number].
  destruct (find_skipped _ _) as [[j k']|] eqn:Hf; [|by apply find_skipped_None with (k := k) in Hf].
  apply find_skipped_Some in Hf as [Hin Heq]. cbn in Heq. subst j.
  destruct (ri_skipped _ _ _ _ Hi _ _ Hin) as (n' & Hn' & _ & ->). apply Nat2Z.inj in Hn'. subst n'.
  mrun. by rewrite (open_sealed _ _ _ _ _ Hs).
Qed.

(** A message number below the chain index, with no key stored: the current
    key is consumed. *)
Lemma decrypt_behind k0 a i d n ct :
  chain_key (receiving_chain d) = Some (chain_of k0 i) ->
  skipped_message_keys (receiving_chain d) = [] -> (n < i)%nat -> Z.of_nat i + 1 < 2 ^ 64 ->
  let x := DoubleRatchet_decrypt ct (header_at a n) d in
  chain_key (receiving_chain x.1) = Some (chain_of k0 (S i)) /\
  skipped_message_keys (receiving_chain x.1) = [] /\
  x.2 = open_message (msg_key_at k0 i) ct (header_at a n).
Proof.
  intros Hc Hsk Hn Hb. unfold DoubleRatchet_decrypt. mrun. rewrite Hsk, Hc. cbn [find_skipped List.find].
  unfold in_receiving, receive_on_chain. rewrite Hsk. mrun.
  rewrite skip_to_done by (cbn; lia). mrun. rewrite message_key_eq, next_of by lia. by mrun.
Qed.

(** A run of in-order messages that the chain is ahead of stays behind. *)
Lemma run_behind k0 a i d n cts :
  chain_key (receiving_chain d) = Some (chain_of k0 i) ->
  skipped_message_keys (receiving_chain d) = [] -> (n < i)%nat ->
  Z.of_nat (i + length cts) < 2 ^ 64 ->
  let d' := run_decrypts (zip cts (map (header_at a) (seq n (length cts)))) d in
  chain_key (receiving_chain d') = Some (chain_of k0 (i + length cts)) /\
  skipped_message_keys (receiving_chain d') = [].
Proof.
  revert i d n. induction cts as [|ct cts IH]; intros i d n Hc Hs Hn Hb.
  - cbn. by rewrite Nat.add_0_r.
  - cbn [length] in Hb. destruct (decrypt_behind k0 a i d n ct) as (Hc1 & Hs1 & _); [done..|lia|].
    cbn [length seq map zip zip_with run_decrypts foldl fst snd].
    destruct (IH (S i) _ (S n) Hc1 Hs1) as [Hc2 Hs2]; [lia|lia|].
    split; [|exact Hs2]. by rewrite <- Nat.add_succ_comm.
Qed.

Lemma find_skipped_app n l l' :
  find_skipped n (l ++ l') = match find_skipped n l with Some p => Some p | None => find_skipped n l' end.
Proof.
  unfold find_skipped. induction l as [|p l IH]; cbn; [done|]. by destruct (p.1 =? n).
Qed.

Lemma decrypt_at_limit d c ct h :
  chain_key (receiving_chain d) = Some c -> ck_index c < message_number h ->
  (MAX_SKIP_MESSAGES <= length (skipped_message_keys (receiving_chain d)))%nat ->
  find_skipped (message_number h) (skipped_message_keys (receiving_chain d)) = None ->
  DoubleRatchet_decrypt ct h d =
  (on_receiving (set_skipped (skipped_message_keys (receiving_chain d) ++
                              [(ck_index c, kdf_msg (ck_key c))])) d,
   Err (RatchetError "Too many skipped messages")).
Proof.
  intros Hc Hlt Hlen Hf. unfold DoubleRatchet_decrypt. mrun. rewrite Hf, Hc.
  unfold in_receiving, receive_on_chain. mrun. rewrite skip_to_step by done. cbn zeta.
  rewrite decide_True by (rewrite length_app; cbn [length]; lia). f_equal.
  destruct d as [rk sc [o t k l] sid ad]; cbn in *. by rewrite Hc.
Qed.
(** ** Calls on a live ratchet *)

Inductive ratchet_call (d : DoubleRatchet) : DoubleRatchet -> Prop :=
| call_encrypt pt : ratchet_call d (DoubleRatchet_encrypt pt d).1
| call_decrypt ct h : ratchet_call d (DoubleRatchet_decrypt ct h d).1
| call_dh_ratchet p : ratchet_call d (DoubleRatchet_dh_ratchet p d).1.

(** Our only ratchet secret is [a], held in the sending chain. *)
Definition holds_key (a : bytes) (d : DoubleRatchet) : Prop :=
  our_ratchet_key (receiving_chain d) = None /\ our_ratchet_key (sending_chain d) = Some a.

Lemma encrypt_keeps_key a pt : keeps (holds_key a) (DoubleRatchet_encrypt pt).
Proof. unfold DoubleRatchet_encrypt, ensure_sending_chain. keeps_tac; done. Qed.

Lemma dh_ratchet_keeps_key a p : keeps (holds_key a) (DoubleRatchet_dh_ratchet p).
Proof.
  intros d [Hr Hs]. rewrite (dh_ratchet_eq d a) by done. by destruct (kdf_root _ _).
Qed.

Lemma ratchet_call_keeps_key a d d' : ratchet_call d d' -> holds_key a d -> holds_key a d'.
Proof.
  intros [pt|ct h|p] Hd.
  - by apply encrypt_keeps_key.
  - destruct Hd as [Hr Hs]. destruct (decrypt_frame ct h d) as (r' & -> & Ho & _).
    split; cbn; congruence.
  - by apply dh_ratchet_keeps_key.
Qed.

Lemma reachable_keeps_key a d d' : rtc ratchet_call d d' -> holds_key a d -> holds_key a d'.
Proof. induction 1; eauto using ratchet_call_keeps_key. Qed.

Lemma encrypt_header_key a d pt d' ct h :
  holds_key a d -> DoubleRatchet_encrypt pt d = (d', Ok (ct, h)) -> dh_public_key h = x25519_public a.
Proof.
  intros Hd. unfold DoubleRatchet_encrypt. mrun.
  assert (keeps (holds_key a) ensure_sending_chain) as Hk by (unfold ensure_sending_chain; keeps_tac; done).
  specialize (Hk d Hd). destruct (ensure_sending_chain d) as [d1 [[]|e|p]]; mrun; [|done..].
  cbn in Hk. destruct Hk as [_ Hs]. destruct (ok_or _ _); mrun; [|done..].
  rewrite message_key_eq. mrun. destruct (ChainKey_next _); mrun; [|done..].
  cbn [on_sending sending_chain set_chain_key our_ratchet_key]. rewrite Hs.
  destruct (map_err _ _); mrun; [|done..]. destruct (ok_or _ _); mrun; [|done..].
  by intros [= <- <- <-].
Qed.
End Facts.
