(* ===== verification/RatchetProps.v ===== *)
(** The Double Ratchet: what two ratchets promise each other, and the
    behaviours at the edges (replays, the skip limit, key rotation). *)

From S2P Require Import Prelude Constants Prims Concrete Ratchet RatchetFacts.

(** ** Concrete headers, for evaluation *)

#[export] Instance RatchetMessageHeader_eq_dec : EqDecision RatchetMessageHeader.
Proof. solve_decision. Defined.
#[export] Instance RatchetMessageHeader_countable : Countable RatchetMessageHeader :=
  inj_countable' (fun h => (dh_public_key h, message_number h, previous_message_number h))
    (fun '(a, b, c) => {| dh_public_key := a; message_number := b; previous_message_number := c |})
    ltac:(by intros []).
#[export] Instance RatchetMessageHeader_wf_dec : forall h : RatchetMessageHeader, Decision (wf h).
Proof. wf_decide. Defined.

Definition concrete_header : Serde RatchetMessageHeader := countable_serde RatchetMessageHeader.
#[export] Instance concrete_header_ok : @SerdeOk RatchetMessageHeader _ concrete_header :=
  countable_serde_ok RatchetMessageHeader.

Section Session.
Context `{C : Crypto, L : !CryptoLaws C, B : Build,
          SH : Serde RatchetMessageHeader, SO : !SerdeOk RatchetMessageHeader}.

(** [msgs] are the sealings of [pts], in order, from index 0 of chain [k0]. *)
Definition sealing (k0 a : bytes) (pts : list bytes) (msgs : list (bytes * RatchetMessageHeader)) : Prop :=
  exists cts, length cts = length pts /\
    msgs = zip cts (map (header_at a) (seq 0 (length pts))) /\
    forall j pt ct, pts !! j = Some pt -> cts !! j = Some ct -> sealed k0 a j pt ct.

Lemma encrypt_all_sealing k0 a d pts :
  sending_at k0 a 0 d -> (length pts <= S MAX_SKIP_MESSAGES)%nat ->
  Forall (fun pt => Z.of_nat (length pt) < 2 ^ 37) pts ->
  exists msgs, sealing k0 a pts msgs /\
    encrypt_all pts d = (on_sending (set_chain_key (Some (chain_of k0 (length pts)))) d, Ok msgs).
Proof.
  intros Hs Hl Hp. destruct (encrypt_all_sealed k0 a 0 d pts) as (cts & Hlen & Henc & Hsealed);
    [done | unfold MAX_SKIP_MESSAGES in Hl; lia | done |].
  eexists. split; [by exists cts | done].
Qed.

(** A party without a sending chain derives it and then seals from index 0. *)
Lemma encrypt_all_derives d b p root k0 pts :
  chain_key (sending_chain d) = None -> our_ratchet_key (sending_chain d) = Some b ->
  their_ratchet_public (sending_chain d) = Some p ->
  kdf_root (root_key d) (x25519_dh b p) = (root, chain_of k0 0) ->
  (length pts <= S MAX_SKIP_MESSAGES)%nat ->
  Forall (fun pt => Z.of_nat (length pt) < 2 ^ 37) pts ->
  exists d' msgs, sealing k0 b pts msgs /\ encrypt_all pts d = (d', Ok msgs).
Proof.
  intros Hc Ho Ht Hk Hl Hp. destruct pts as [|pt pts].
  - exists d, []. split; [by exists []|done].
  - set (d1 := on_sending (set_chain_key (Some (chain_of k0 0))) (set_root_key root d)).
    destruct (encrypt_all_sealing k0 b d1 (pt :: pts)) as (msgs & Hs & Henc); [by split|done..|].
    eexists _, msgs. split; [done|]. rewrite <- Henc. unfold encrypt_all. cbn [mapM]. mrun.
    by rewrite (encrypt_derives d b p), Hk by done.
Qed.

(** The messages of [order], chosen out of a sealing, with their plaintexts. *)
Lemma sealing_choose k0 a pts msgs order :
  sealing k0 a pts msgs -> Forall (fun n => (n < length pts)%nat) order ->
  exists chosen : list (nat * bytes * bytes),
    map (fun m => m.1.1) chosen = order /\
    omap (fun n => msgs !! n) order = map (fun m => (m.2, header_at a m.1.1)) chosen /\
    omap (fun n => pts !! n) order = map (fun m => m.1.2) chosen /\
    Forall (fun m => sealed k0 a m.1.1 m.1.2 m.2) chosen.
Proof.
  intros (cts & Hlen & -> & Hs). induction order as [|n order IH]; intros Hb.
  - by exists [].
  - apply Forall_cons in Hb as [Hn Hb]. destruct (IH Hb) as (chosen & <- & Hm & Hp & Hf).
    destruct (lookup_lt_is_Some_2 pts n Hn) as [pt Hpt].
    destruct (lookup_lt_is_Some_2 cts n) as [ct Hct]; [lia|].
    assert (zip cts (map (header_at a) (seq 0 (length pts))) !! n = Some (ct, header_at a n)) as Hz.
    { apply lookup_zip_with_Some. exists ct, (header_at a n). split_and!; [done..|].
      change (map (header_at a) (seq 0 (length pts))) with (header_at a <$> seq 0 (length pts)).
      by rewrite list_lookup_fmap, lookup_seq_lt by done. }
    exists ((n, pt, ct) :: chosen). split_and!; [done| | |by constructor; [apply Hs|]].
    + cbn [omap list_omap map fst snd]. by rewrite Hz, <- Hm.
    + cbn [omap list_omap map fst snd]. by rewrite Hpt, <- Hp.
Qed.

(** The receiving half of every delivery theorem. *)
Lemma deliver_any_order k0 a d pts msgs order :
  recv_inv k0 [] 0 (receiving_chain d) -> sealing k0 a pts msgs ->
  (length pts <= S MAX_SKIP_MESSAGES)%nat ->
  NoDup order -> Forall (fun n => (n < length pts)%nat) order ->
  (decrypt_all (omap (fun n => msgs !! n) order) d).2 = Ok (omap (fun n => pts !! n) order).
Proof.
  intros Hr Hs Hl Hnd Hb. destruct (sealing_choose k0 a pts msgs order Hs Hb) as (ch & Ho & -> & -> & Hf).
  destruct (decrypt_all_sealed k0 a ch [] 0 d Hr) as [r' ->]; [|by rewrite Ho|done].
  rewrite Forall_forall in Hf. rewrite Forall_forall in Hb. apply Forall_forall. intros m Hm. split_and!; [by apply Hf | by apply not_elem_of_nil |].
  assert (m.1.1 < length pts)%nat; [|lia]. apply Hb. rewrite <- Ho.
  apply list_elem_of_In, in_map_iff. exists m. by rewrite <- list_elem_of_In.
Qed.

(** C1. Messages of a fresh session may arrive in any order, each at most
    once: Alice runs [init] with Bob's ratchet public key and encrypts up to
    1001 messages; Bob runs [init_as_responder] with the same root key and one
    [dh_ratchet] on Alice's public key.  All four calls succeed, and whichever
    of the messages Bob receives, in whatever order, every [decrypt] returns
    the plaintext of the message it was given. *)
Theorem ratchet_delivery_any_order sid rk a b ad pts order :
  (length pts <= S MAX_SKIP_MESSAGES)%nat ->
  Forall (fun pt => Z.of_nat (length pt) < 2 ^ 37) pts ->
  NoDup order -> Forall (fun n => (n < length pts)%nat) order ->
  exists alice alice' msgs bob bob',
    DoubleRatchet_init sid rk a (x25519_public b) ad = Ok alice /\
    encrypt_all pts alice = (alice', Ok msgs) /\
    DoubleRatchet_init_as_responder sid rk b ad = Ok bob /\
    DoubleRatchet_dh_ratchet (x25519_public a) bob = (bob', Ok tt) /\
    (decrypt_all (omap (fun n => msgs !! n) order) bob').2 = Ok (omap (fun n => pts !! n) order).
Proof.
  intros Hl Hp Hnd Hb.
  destruct (session_start sid rk a b ad) as (root & k0 & alice & bob & bob' & Ha & Hb0 & Hdh & _ & _ & Hsend & Hrecv & _).
  destruct (encrypt_all_sealing k0 a alice pts) as (msgs & Hs & Henc); [done..|].
  eexists alice, _, msgs, bob, bob'. split_and!; [done..|]. by eapply deliver_any_order.
Qed.

(** C2. Replies: after the exchange above Bob, whatever he was sent in
    between (genuine or not), encrypts up to 1001 replies; Alice runs
    [dh_ratchet] on Bob's public key and decrypts them in any order. *)
Theorem ratchet_reply_any_order sid rk a b ad sent inbox pts order :
  (length sent <= S MAX_SKIP_MESSAGES)%nat ->
  Forall (fun pt => Z.of_nat (length pt) < 2 ^ 37) sent ->
  (length pts <= S MAX_SKIP_MESSAGES)%nat ->
  Forall (fun pt => Z.of_nat (length pt) < 2 ^ 37) pts ->
  NoDup order -> Forall (fun n => (n < length pts)%nat) order ->
  exists alice alice' alice'' msgs bob bob' bob'' replies,
    DoubleRatchet_init sid rk a (x25519_public b) ad = Ok alice /\
    encrypt_all sent alice = (alice', Ok msgs) /\
    DoubleRatchet_init_as_responder sid rk b ad = Ok bob /\
    DoubleRatchet_dh_ratchet (x25519_public a) bob = (bob', Ok tt) /\
    encrypt_all pts (decrypt_all inbox bob').1 = (bob'', Ok replies) /\
    DoubleRatchet_dh_ratchet (x25519_public b) alice' = (alice'', Ok tt) /\
    (decrypt_all (omap (fun n => replies !! n) order) alice'').2 = Ok (omap (fun n => pts !! n) order).
Proof.
  intros Hsl Hsp Hl Hp Hnd Hb.
  destruct (session_start sid rk a b ad) as
    (root & k0 & alice & bob & bob' & Ha & Hb0 & Hdh & Hra & Hrb & Hsend & Hrecv & Har & Hbs).
  destruct (encrypt_all_sealing k0 a alice sent) as (msgs & Hs & Henc); [done..|].
  destruct (decrypt_all_frame inbox bob') as [r' Hbob].
  destruct (kdf_root root (x25519_dh b (x25519_public a))) as [root2 c2] eqn:Hk2.
  destruct (kdf_root_chain root (x25519_dh b (x25519_public a))) as [k2 Hc2].
  rewrite Hk2 in Hc2. cbn in Hc2. subst c2.
  destruct (encrypt_all_derives (decrypt_all inbox bob').1 b (x25519_public a) root2 k2 pts)
    as (bob'' & replies & Hs2 & Henc2); [by rewrite Hbob; cbn; rewrite ?Hbs, ?Hrb..|done|done|].
  eexists alice, _, _, msgs, bob, bob', bob'', replies. split_and!; [done..| |].
  - rewrite (dh_ratchet_eq _ a); [|by cbn; rewrite Har|by destruct Hsend].
    cbn [root_key on_sending]. by rewrite Hra, x25519_agree, Hk2.
  - eapply deliver_any_order; [|done..]. apply recv_inv_fresh; cbn; by rewrite ?Har.
Qed.

(** C17. The loop of [decrypt] terminates: whatever the header says (a message
    number up to [u64::MAX]) the skip limit stops it after at most 1001
    rounds, so the fuel of the model is never exhausted. *)
Theorem decrypt_terminates ct h d :
  (DoubleRatchet_decrypt ct h d).2 <> Panic "skip_to: out of fuel".
Proof.
  unfold DoubleRatchet_decrypt. mrun. destruct (find_skipped _ _) as [[j k]|].
  - mrun. apply open_message_no_panic.
  - destruct (chain_key _) as [c|]; [|done]. unfold in_receiving.
    pose proof (receive_fuel ct h c (skipped_message_keys (receiving_chain d))) as Hf.
    by destruct (receive_on_chain ct h _) as [[c' l'] r].
Qed.

(** [decrypt] never touches the root key, the sending chain, the ratchet
    key pair or the peer's key, on any branch: a forged or replayed message
    cannot change what this side sends next. *)
Theorem decrypt_preserves_sending ct h d :
  let d' := (DoubleRatchet_decrypt ct h d).1 in
  root_key d' = root_key d /\ sending_chain d' = sending_chain d /\
  our_ratchet_key (receiving_chain d') = our_ratchet_key (receiving_chain d) /\
  their_ratchet_public (receiving_chain d') = their_ratchet_public (receiving_chain d).
Proof. cbn zeta. by destruct (decrypt_frame ct h d) as (r' & -> & ? & ?). Qed.

(** C18. The sender never gives the cipher the same nonce twice in a chain.
    From a sending chain at index [i], encrypting [pts] succeeds; message [j]
    carries the number [i + j] and its ciphertext is what the cipher returns
    for that message's own key, the nonce [message_nonce (i + j)], the bytes of
    its header and the plaintext; and these nonces are pairwise distinct.  The
    cipher is any that keeps its laws, so that the equation determines the
    nonce of each call. *)
Theorem encrypt_nonces_distinct k0 a i d pts :
  sending_at k0 a i d -> Z.of_nat (i + length pts) < 2 ^ 64 ->
  Forall (fun pt => Z.of_nat (length pt) < 2 ^ 37) pts ->
  let nonces := map (fun n => message_nonce (Z.of_nat n)) (seq i (length pts)) in
  exists d' msgs, encrypt_all pts d = (d', Ok msgs) /\ length msgs = length pts /\ NoDup nonces /\
    forall j pt, pts !! j = Some pt -> exists nonce hb ct,
      nonces !! j = Some nonce /\ msgs !! j = Some (ct, header_at a (i + j)) /\ to_vec (header_at a (i + j)) = Ok hb /\
      aead_encrypt (msg_key_at k0 (i + j)) nonce hb pt = Some ct.
Proof.
  intros Hs Hb Hp nonces. destruct (encrypt_all_sealed k0 a i d pts Hs Hb Hp) as (cts & Hlen & Henc & Hsealed).
  eexists _, _. split; [exact Henc|]. rewrite length_zip, length_map, length_seq, Hlen, Nat.min_id. split; [done|].
  split; [by apply message_nonces_NoDup|]. intros j pt Hj.
  assert (j < length pts)%nat as Hlt by by eapply lookup_lt_Some.
  destruct (lookup_lt_is_Some_2 cts j) as [ct Hct]; [lia|]. destruct (Hsealed j pt ct Hj Hct) as (hb & Hhb & Ht).
  assert (seq i (length pts) !! j = Some (i + j)%nat) as Hseq by by apply lookup_seq.
  exists (message_nonce (Z.of_nat (i + j))), hb, ct. split_and!; [|apply lookup_zip_Some|done|done].
  - unfold nonces. by rewrite (list_lookup_fmap (fun n => message_nonce (Z.of_nat n))), Hseq.
  - split; [done|]. by rewrite (list_lookup_fmap (header_at a)), Hseq.
Qed.

(** ** Edges *)

(** A message that once arrived late stays readable: its key is not
    deleted after use, so any number of replays of the same ciphertext are
    decrypted again, with the state unchanged. *)
Theorem late_message_replays_accepted k0 a delivered i d n pt ct count :
  recv_inv k0 delivered i (receiving_chain d) -> sealed k0 a n pt ct ->
  (exists k, (Z.of_nat n, k) ∈ skipped_message_keys (receiving_chain d)) ->
  decrypt_all (replicate count (ct, header_at a n)) d = (d, Ok (replicate count pt)).
Proof.
  intros Hi Hs Hk. induction count as [|count IH]; [done|].
  unfold decrypt_all in *. cbn [replicate mapM fst snd]. mrun.
  rewrite (decrypt_stored k0 a delivered i d n pt ct) by done. mrun. rewrite IH. by mrun.
Qed.

(** C39. A replay of a message that arrived in order consumes the key of the
    next one, and the receiver never recovers: once a header number below the
    current index [i] with no stored key was processed (whatever the
    ciphertext and the outcome), each of the following in-order messages
    [i], [i+1], ... is opened with the key of its successor. *)
Theorem replay_shifts_all_keys k0 a i d n old (cts : list bytes) :
  chain_key (receiving_chain d) = Some (chain_of k0 i) ->
  skipped_message_keys (receiving_chain d) = [] -> (n < i)%nat ->
  Z.of_nat (i + length cts) + 1 < 2 ^ 64 ->
  let d1 := (DoubleRatchet_decrypt old (header_at a n) d).1 in
  forall j ct, cts !! j = Some ct ->
  (DoubleRatchet_decrypt ct (header_at a (i + j))
     (run_decrypts (zip (take j cts) (map (header_at a) (seq i j))) d1)).2
  = open_message (msg_key_at k0 (S (i + j))) ct (header_at a (i + j)).
Proof.
  intros Hc Hsk Hn Hb d1 j ct Hj. assert (j < length cts)%nat as Hjl by by eapply lookup_lt_Some.
  destruct (decrypt_behind k0 a i d n old) as (Hc1 & Hs1 & _); [done..|lia|lia|].
  destruct (run_behind k0 a (S i) d1 i (take j cts)) as (Hc2 & Hs2);
    [done..|lia| rewrite length_take; lia|].
  rewrite length_take, Nat.min_l in Hc2, Hs2 by lia.
  destruct (decrypt_behind k0 a (S i + j) _ (i + j) ct Hc2 Hs2) as (_ & _ & Hr); [lia|lia|].
  exact Hr.
Qed.

(** C40. The skip limit does not bound the store: with [MAX_SKIP_MESSAGES] keys
    stored, every further message ahead of the chain fails with "Too many
    skipped messages" and yet adds one more entry, without advancing the
    chain; [count] such messages add [count] entries. *)
Theorem skipped_keys_grow_past_limit d c ct h count :
  chain_key (receiving_chain d) = Some c -> ck_index c < message_number h ->
  (MAX_SKIP_MESSAGES <= length (skipped_message_keys (receiving_chain d)))%nat ->
  find_skipped (message_number h) (skipped_message_keys (receiving_chain d)) = None ->
  let d' := run_decrypts (replicate count (ct, h)) d in
  chain_key (receiving_chain d') = Some c /\
  length (skipped_message_keys (receiving_chain d')) =
    (length (skipped_message_keys (receiving_chain d)) + count)%nat /\
  (DoubleRatchet_decrypt ct h d').2 = Err (RatchetError "Too many skipped messages").
Proof.
  intros Hc Hlt Hlen Hf. cbn zeta. revert d Hc Hlen Hf.
  induction count as [|count IH]; intros d Hc Hlen Hf.
  - split_and!; [done | cbn; lia | by rewrite (decrypt_at_limit d c)].
  - cbn [replicate]. rewrite run_decrypts_cons. cbn [fst snd]. rewrite (decrypt_at_limit d c) by done.
    cbn [fst].
    set (d' := on_receiving _ d).
    destruct (IH d') as (H1 & H2 & H3); [done| | |].
    + cbn. rewrite length_app. lia.
    + unfold d'. cbn [on_receiving receiving_chain set_skipped skipped_message_keys].
      rewrite find_skipped_app, Hf. cbn. by rewrite (proj2 (Z.eqb_neq _ _)) by lia.
    + split_and!; [done | rewrite H2; cbn; rewrite length_app; cbn; lia | done].
Qed.

(** The ratchet key pair is never rotated: from either initialisation with
    secret [a], after any sequence of [encrypt], [decrypt] and [dh_ratchet]
    calls with any arguments, every message still carries the public key of
    [a]. *)
Theorem ratchet_key_never_rotates sid rk a p ad d0 d pt d' ct h :
  DoubleRatchet_init sid rk a p ad = Ok d0 \/ DoubleRatchet_init_as_responder sid rk a ad = Ok d0 ->
  rtc ratchet_call d0 d ->
  DoubleRatchet_encrypt pt d = (d', Ok (ct, h)) ->
  dh_public_key h = x25519_public a.
Proof.
  intros H0 Hreach. apply encrypt_header_key, (reachable_keeps_key a d0 d); [done|].
  destruct H0 as [H0|H0].
  - destruct (init_eq sid rk a p ad) as (root & k0 & _ & Heq). rewrite Heq in H0. by simplify_eq.
  - unfold DoubleRatchet_init_as_responder in H0. by simplify_eq.
Qed.
End Session.

(** ** Evaluations at concrete inputs *)

#[local] Existing Instance dev_build.
#[local] Existing Instance concrete_header.

Definition alice_secret : bytes := replicate 32 x11.
Definition bob_secret : bytes := replicate 32 x22.
Definition sample_root : RootKey := {| rk_key := replicate 32 x42 |}.

Lemma ratchet_delivery_any_order_witness :
  exists alice alice' msgs bob bob',
    DoubleRatchet_init "s" sample_root alice_secret (x25519_public bob_secret) [] = Ok alice /\
    encrypt_all [bs "one"; bs "two"; bs "three"] alice = (alice', Ok msgs) /\
    DoubleRatchet_init_as_responder "s" sample_root bob_secret [] = Ok bob /\
    DoubleRatchet_dh_ratchet (x25519_public alice_secret) bob = (bob', Ok tt) /\
    (decrypt_all (omap (fun n => msgs !! n) [2; 0; 1]%nat) bob').2 = Ok [bs "three"; bs "one"; bs "two"].
Proof.
  apply (ratchet_delivery_any_order "s" sample_root alice_secret bob_secret []
           [bs "one"; bs "two"; bs "three"] [2; 0; 1]%nat); by_decide.
Defined.

Lemma ratchet_reply_any_order_witness :
  exists alice alice' alice'' msgs bob bob' bob'' replies,
    DoubleRatchet_init "s" sample_root alice_secret (x25519_public bob_secret) [] = Ok alice /\
    encrypt_all [bs "hello"] alice = (alice', Ok msgs) /\
    DoubleRatchet_init_as_responder "s" sample_root bob_secret [] = Ok bob /\
    DoubleRatchet_dh_ratchet (x25519_public alice_secret) bob = (bob', Ok tt) /\
    encrypt_all [bs "re"; bs "bye"] (decrypt_all [(bs "forged", header_at alice_secret 4)] bob').1
      = (bob'', Ok replies) /\
    DoubleRatchet_dh_ratchet (x25519_public bob_secret) alice' = (alice'', Ok tt) /\
    (decrypt_all (omap (fun n => replies !! n) [1; 0]%nat) alice'').2 = Ok [bs "bye"; bs "re"].
Proof.
  apply (ratchet_reply_any_order "s" sample_root alice_secret bob_secret [] [bs "hello"]
           [(bs "forged", header_at alice_secret 4)] [bs "re"; bs "bye"] [1; 0]%nat); by_decide.
Defined.

(** A ratchet whose receiving chain stands at index [i] of the chain of
    [sample_chain], with the given stored keys. *)
Definition sample_chain : bytes := replicate 32 x07.
Definition sample_ratchet (i : nat) (stored : list (Z * bytes)) : DoubleRatchet :=
  {| root_key := sample_root;
     sending_chain := {| our_ratchet_key := Some bob_secret; their_ratchet_public := None;
                         chain_key := Some (chain_of sample_chain i); skipped_message_keys := [] |};
     receiving_chain := {| our_ratchet_key := None; their_ratchet_public := None;
                           chain_key := Some (chain_of sample_chain i); skipped_message_keys := stored |};
     session_id := "s"; associated_data := [] |}.

Definition sample_sealed (n : nat) (pt : bytes) : bytes :=
  match to_vec (header_at alice_secret n) with
  | Ok hb => seal (msg_key_at sample_chain n) (message_nonce (Z.of_nat n)) hb pt
  | _ => []
  end.

Lemma decrypt_terminates_witness :
  (DoubleRatchet_decrypt [] {| dh_public_key := []; message_number := u64_max; previous_message_number := 0 |}
     (sample_ratchet 3 [])).2 <> Panic "skip_to: out of fuel".
Proof. apply decrypt_terminates. Defined.

Lemma encrypt_nonces_distinct_witness :
  exists d' msgs, encrypt_all [bs "x"; bs "y"] (sample_ratchet 5 []) = (d', Ok msgs) /\ length msgs = 2%nat /\
    NoDup [message_nonce 5; message_nonce 6] /\
    forall j pt, [bs "x"; bs "y"] !! j = Some pt -> exists nonce hb ct,
      [message_nonce 5; message_nonce 6] !! j = Some nonce /\ msgs !! j = Some (ct, header_at bob_secret (5 + j)) /\
      to_vec (header_at bob_secret (5 + j)) = Ok hb /\ aead_encrypt (msg_key_at sample_chain (5 + j)) nonce hb pt = Some ct.
Proof.
  apply (encrypt_nonces_distinct sample_chain bob_secret 5 (sample_ratchet 5 []) [bs "x"; bs "y"]);
    [done | done | by_decide].
Defined.

Lemma late_message_replays_accepted_witness :
  decrypt_all (replicate 3 (sample_sealed 0 (bs "late"), header_at alice_secret 0))
    (sample_ratchet 2 [(0, msg_key_at sample_chain 0)]) =
  (sample_ratchet 2 [(0, msg_key_at sample_chain 0)], Ok (replicate 3 (bs "late"))).
Proof.
  apply (late_message_replays_accepted sample_chain alice_secret [1%nat] 2
           (sample_ratchet 2 [(0, msg_key_at sample_chain 0)]) 0 (bs "late") (sample_sealed 0 (bs "late")) 3).
  - split; [done | | | cbn; lia].
    + intros j k Hjk. apply list_elem_of_singleton in Hjk as [= -> ->].
      exists 0%nat. split_and!; [done | lia | done].
    + intros [|[|n]] Hn; [right | left; by left | lia].
      eexists. by apply list_elem_of_singleton.
  - by eexists.
  - eexists. by apply list_elem_of_singleton.
Defined.

(** The receiver at index 1 gets message 0 a second time; the genuine message
    1 is then opened with key 2, and fails. *)
Lemma replay_shifts_all_keys_witness :
  (DoubleRatchet_decrypt (sample_sealed 1 (bs "next")) (header_at alice_secret (1 + 0))
     (run_decrypts [] (DoubleRatchet_decrypt (sample_sealed 0 (bs "first")) (header_at alice_secret 0)
        (sample_ratchet 1 [])).1)).2
  = open_message (msg_key_at sample_chain 2) (sample_sealed 1 (bs "next")) (header_at alice_secret 1) /\
  open_message (msg_key_at sample_chain 2) (sample_sealed 1 (bs "next")) (header_at alice_secret 1)
  = Err DecryptionFailed.
Proof.
  split.
  - apply (replay_shifts_all_keys sample_chain alice_secret 1 (sample_ratchet 1 []) 0
             (sample_sealed 0 (bs "first")) [sample_sealed 1 (bs "next")]); [done | done | lia | done | done].
  - vm_compute. reflexivity.
Defined.

Lemma skipped_keys_grow_past_limit_witness :
  let d := sample_ratchet 3 (replicate MAX_SKIP_MESSAGES (0, [])) in
  let d' := run_decrypts (replicate 7 ([], header_at alice_secret 9)) d in
  chain_key (receiving_chain d') = Some (chain_of sample_chain 3) /\
  length (skipped_message_keys (receiving_chain d')) = (length (skipped_message_keys (receiving_chain d)) + 7)%nat /\
  (DoubleRatchet_decrypt [] (header_at alice_secret 9) d').2 = Err (RatchetError "Too many skipped messages").
Proof.
  apply (skipped_keys_grow_past_limit (sample_ratchet 3 (replicate MAX_SKIP_MESSAGES (0, [])))
           (chain_of sample_chain 3) [] (header_at alice_secret 9) 7);
    [done | done | by_decide | vm_compute; reflexivity].
Defined.

Lemma ratchet_key_never_rotates_witness :
  exists d0 d d' ct h,
    DoubleRatchet_init_as_responder "s" sample_root bob_secret [] = Ok d0 /\
    d = (DoubleRatchet_dh_ratchet (x25519_public alice_secret) d0).1 /\
    DoubleRatchet_encrypt (bs "hi") d = (d', Ok (ct, h)) /\ dh_public_key h = x25519_public bob_secret.
Proof.
  assert (exists d0 d d' ct h,
    DoubleRatchet_init_as_responder "s" sample_root bob_secret [] = Ok d0 /\
    d = (DoubleRatchet_dh_ratchet (x25519_public alice_secret) d0).1 /\
    DoubleRatchet_encrypt (bs "hi") d = (d', Ok (ct, h))) as (d0 & d & d' & ct & h & H0 & Hd & He).
  { eexists _, _, _, _, _. split_and!; [reflexivity | reflexivity | vm_compute; reflexivity]. }
  exists d0, d, d', ct, h. split_and!; [done..|].
  apply (ratchet_key_never_rotates "s" sample_root bob_secret [] [] d0 d (bs "hi") d' ct h); [by right | | done].
  rewrite Hd. apply rtc_once, call_dh_ratchet.
Defined.
