(* ===== verification/Serialization.v ===== *)
(** The versioned envelope of [presidium-crypto/src/serialization.rs]: magic
    bytes, a format version, then the serde_json payload. *)

From S2P Require Import Prelude Constants Prims Concrete.

Definition MAGIC : bytes := bs "PSDM".
Definition FORMAT_VERSION : byte := x01.

Section Envelope.
Context {T : Type} `{WT : Wf T, ST : Serde T}.

Definition serialize (value : T) : result CryptoError bytes :=
  payload ← map_err CryptoError_from_serde (to_vec value);
  mret (MAGIC ++ [FORMAT_VERSION] ++ payload).

Definition deserialize (data : bytes) : result CryptoError T :=
  if decide (length data < length MAGIC + 1)%nat then Err (InvalidMessage "Data too short")
  else if decide (take (length MAGIC) data <> MAGIC) then Err (InvalidMessage "Invalid magic bytes")
  else match data !! length MAGIC with
       | None => Panic "index out of bounds"
       | Some version =>
           if decide (version <> FORMAT_VERSION) then Err (UnsupportedVersion (byte_to_Z version))
           else map_err CryptoError_from_serde (from_slice (drop (length MAGIC + 1) data))
       end.

(** What [deserialize] does to data with an intact header. *)
Lemma deserialize_framed v payload :
  deserialize (MAGIC ++ [v] ++ payload) =
  if decide (v <> FORMAT_VERSION) then Err (UnsupportedVersion (byte_to_Z v))
  else map_err CryptoError_from_serde (from_slice payload).
Proof. unfold deserialize. by rewrite decide_False by (rewrite length_app; cbn; lia). Qed.

Lemma framed_inv data :
  ~ (length data < length MAGIC + 1)%nat -> take (length MAGIC) data = MAGIC ->
  exists v payload, data = MAGIC ++ [v] ++ payload.
Proof.
  intros Hl Ht. destruct (drop (length MAGIC) data) as [|v payload] eqn:Hd.
  - apply (f_equal length) in Hd. rewrite length_drop in Hd. cbn in *. lia.
  - exists v, payload. rewrite <- (take_drop (length MAGIC) data), Ht, Hd. done.
Qed.

(** The envelope round-trips: serializing a value succeeds and
    deserializing the bytes gives the value back. *)
Theorem serialize_roundtrip `{!SerdeOk T} (value : T) :
  wf value -> exists data, serialize value = Ok data /\ deserialize data = Ok value.
Proof.
  intros Hv. destruct (serde_total value Hv) as [b Hb].
  exists (MAGIC ++ [FORMAT_VERSION] ++ b). unfold serialize. rewrite Hb.
  split; [done|]. rewrite deserialize_framed, decide_False by (intros Hne; by apply Hne).
  by rewrite (serde_roundtrip value b).
Qed.

(** [deserialize] accepts exactly the data that carry the magic bytes, the
    supported version and a payload serde_json accepts; it never panics on
    any input. *)
Theorem deserialize_accepts data :
  (forall value : T, deserialize data = Ok value <->
     exists payload, data = MAGIC ++ [FORMAT_VERSION] ++ payload /\ from_slice payload = Ok value) /\
  (forall p, deserialize data <> Panic p).
Proof.
  destruct (decide (length data < length MAGIC + 1)%nat) as [Hl|Hl];
    [|destruct (decide (take (length MAGIC) data = MAGIC)) as [Ht|Ht]].
  - unfold deserialize. rewrite decide_True by done. split; [|done]. intros v. split; [done|].
    intros (payload & -> & _). rewrite length_app in Hl. cbn in Hl. lia.
  - destruct (framed_inv data Hl Ht) as (v & payload & ->). rewrite deserialize_framed.
    case_decide as Hv.
    + split; [|done]. intros value. split; [done|]. intros (p & Heq & _).
      apply app_inj_len in Heq as [_ Heq]; [|done]. by simplify_eq.
    + subst v. split.
      * intros value. rewrite map_err_ok. split; [eauto|]. intros (p & Heq & ?).
        apply app_inj_len in Heq as [_ Heq]; [|done]. by simplify_eq.
      * intros p. pose proof (from_slice_no_panic (T := T) payload) as Hp.
        by destruct (from_slice payload) as [| |q]; cbn; [..|destruct (Hp q)].
  - unfold deserialize. rewrite decide_False, decide_True by done. split; [|done]. intros v. split; [done|].
    by intros (payload & -> & _).
Qed.
End Envelope.

(** ** Evaluation: the message of the crate's own round-trip test *)

Record TestMessage := { tm_id : Z; tm_data : bytes }.

#[export] Instance TestMessage_wf : Wf TestMessage := fun m => is_u64 (tm_id m).
#[export] Instance TestMessage_eq_dec : EqDecision TestMessage.
Proof. solve_decision. Defined.
#[export] Instance TestMessage_countable : Countable TestMessage :=
  inj_countable' (fun m => (tm_id m, tm_data m)) (fun p => {| tm_id := p.1; tm_data := p.2 |}) ltac:(by intros []).
#[export] Instance TestMessage_wf_dec : forall m : TestMessage, Decision (wf m).
Proof. wf_decide. Defined.
Definition TestMessage_serde : Serde TestMessage := countable_serde TestMessage.

Lemma serialize_roundtrip_witness :
  exists data, @serialize TestMessage TestMessage_serde {| tm_id := 42; tm_data := [x01; x02; x03] |} = Ok data /\
    @deserialize TestMessage TestMessage_serde data = Ok {| tm_id := 42; tm_data := [x01; x02; x03] |}.
Proof.
  apply (@serialize_roundtrip TestMessage TestMessage_wf TestMessage_serde (countable_serde_ok TestMessage)
           {| tm_id := 42; tm_data := [x01; x02; x03] |}).
  unfold wf, TestMessage_wf, is_u64. cbn. lia.
Defined.
