(* ===== verification/CryptoBox.v ===== *)
(** Sealed boxes: [presidium-crypto/src/crypto_box.rs].  The ephemeral secret
    and the nonce are the random draws of [seal]. *)

From S2P Require Import Prelude Constants Prims Concrete.

Record CryptoBox := { ephemeral_public : bytes; nonce : bytes; ciphertext : bytes }.

#[export] Instance CryptoBox_wf : Wf CryptoBox := fun b =>
  length (ephemeral_public b) = X25519_PUBLIC_KEY_SIZE /\
  length (nonce b) = CHACHA20_POLY1305_NONCE_SIZE.

Section Box.
Context `{C : Crypto, SB : Serde CryptoBox}.

Definition box_key (shared : bytes) : result CryptoError bytes :=
  ok_or (hkdf_sha256 (Some (bs "presidium-cryptobox")) shared (bs "sealed-key") CHACHA20_POLY1305_KEY_SIZE)
        (KeyDerivationFailed "CryptoBox key derivation failed").

Definition CryptoBox_seal (ephemeral_secret nonce_rnd : bytes) (recipient_public plaintext : bytes)
    : result CryptoError CryptoBox :=
  let eph_public := x25519_public ephemeral_secret in
  key ← box_key (x25519_dh ephemeral_secret recipient_public);
  ct ← ok_or (aead_encrypt key nonce_rnd eph_public plaintext) (EncryptionFailed "CryptoBox seal failed");
  mret {| ephemeral_public := eph_public; nonce := nonce_rnd; ciphertext := ct |}.

Definition CryptoBox_open (b : CryptoBox) (recipient_secret : bytes) : result CryptoError bytes :=
  key ← box_key (x25519_dh recipient_secret (ephemeral_public b));
  ok_or (aead_decrypt key (nonce b) (ephemeral_public b) (ciphertext b)) DecryptionFailed.

Definition crypto_box_seal (ephemeral_secret nonce_rnd : bytes) (recipient_public plaintext : bytes)
    : result CryptoError bytes :=
  boxed ← CryptoBox_seal ephemeral_secret nonce_rnd recipient_public plaintext;
  map_err CryptoError_from_serde (to_vec boxed).

Definition crypto_box_open (recipient_secret msg : bytes) : result CryptoError bytes :=
  boxed ← map_err CryptoError_from_serde (from_slice msg);
  CryptoBox_open boxed recipient_secret.

Context `{L : !CryptoLaws C, SO : !SerdeOk CryptoBox}.

Lemma box_key_ok shared : exists key, box_key shared = Ok key.
Proof.
  unfold box_key. destruct (hkdf_expands (Some (bs "presidium-cryptobox")) shared (bs "sealed-key")
    CHACHA20_POLY1305_KEY_SIZE) as (k & -> & _); [unfold CHACHA20_POLY1305_KEY_SIZE; lia|]. by exists k.
Qed.

(** Whoever holds the recipient's secret opens the box: sealing to the
    public key of [secret] succeeds, through the byte encoding, and opening
    with [secret] returns the plaintext. *)
Theorem crypto_box_roundtrip secret eph rnd plaintext :
  length rnd = CHACHA20_POLY1305_NONCE_SIZE -> Z.of_nat (length plaintext) < 2 ^ 37 ->
  exists msg, crypto_box_seal eph rnd (x25519_public secret) plaintext = Ok msg /\
    crypto_box_open secret msg = Ok plaintext.
Proof.
  intros Hr Hp. destruct (box_key_ok (x25519_dh eph (x25519_public secret))) as [key Hkey].
  destruct (aead_seals key rnd (x25519_public eph) plaintext Hp) as [ct Hct].
  set (b := {| ephemeral_public := x25519_public eph; nonce := rnd; ciphertext := ct |}).
  assert (wf b) as Hb by (split; [apply length_x25519_public | done]).
  destruct (serde_total b Hb) as [msg Hmsg]. exists msg.
  unfold crypto_box_seal, CryptoBox_seal. rewrite Hkey. cbn [mbind result_bind]. rewrite Hct.
  cbn [ok_or mbind result_bind mret result_ret]. fold b. rewrite Hmsg. split; [done|].
  unfold crypto_box_open. rewrite (serde_roundtrip b msg Hb Hmsg). cbn [map_err mbind result_bind].
  unfold CryptoBox_open, b. cbn [ephemeral_public nonce ciphertext].
  rewrite x25519_agree, Hkey. cbn [mbind result_bind]. by rewrite (aead_opens _ _ _ _ _ Hct).
Qed.
End Box.

#[export] Instance CryptoBox_eq_dec : EqDecision CryptoBox.
Proof. solve_decision. Defined.
#[export] Instance CryptoBox_countable : Countable CryptoBox :=
  inj_countable' (fun b => (ephemeral_public b, nonce b, ciphertext b))
    (fun '(a, b, c) => {| ephemeral_public := a; nonce := b; ciphertext := c |}) ltac:(by intros []).
#[export] Instance CryptoBox_wf_dec : forall b : CryptoBox, Decision (wf b).
Proof. wf_decide. Defined.

Lemma crypto_box_roundtrip_witness :
  exists msg, @crypto_box_seal concrete_crypto (countable_serde CryptoBox) (replicate 32 x05) (replicate 12 x09)
      (x25519_public (replicate 32 x03)) (bs "message") = Ok msg /\
    @crypto_box_open concrete_crypto (countable_serde CryptoBox) (replicate 32 x03) msg = Ok (bs "message").
Proof.
  apply (@crypto_box_roundtrip concrete_crypto (countable_serde CryptoBox) concrete_laws (countable_serde_ok CryptoBox)
           (replicate 32 x03) (replicate 32 x05) (replicate 12 x09) (bs "message")); by_decide.
Defined.
