(* ===== verification/Identity.v ===== *)
(** Identity keys, hybrid signatures, the hybrid KEM and prekey bundles:
    [presidium-crypto/src/identity.rs].

    An Ed25519 signing key is its 32-byte seed, an ML-DSA-87 or ML-KEM-1024
    private key its seed; [wf] predicates state the array sizes of the Rust
    types.  Random draws are arguments. *)

From S2P Require Import Prelude Constants Prims.

(** ** Data *)

Record MlDsa87PrivateKey := { mldsa_seed : bytes }.
Record MlDsa87PublicKey := { mldsa_key : bytes }.

Record IdentityKeyPair := { ikp_classical : bytes; ikp_pq : MlDsa87PrivateKey }.

Record IdentityPublicKey := { ip_classical : bytes; ip_pq : bytes }.

Record HybridSignature := { hs_classical : bytes; hs_pq : bytes }.

Record HybridKemPublicKey := { kp_classical : bytes; kp_pq : bytes }.

Record HybridKemPrivateKey := { ks_classical : bytes; ks_pq : bytes }.

Record SignedPreKey := {
  spk_key_id : Z;
  spk_public_key : HybridKemPublicKey;
  spk_signature : HybridSignature;
  spk_timestamp : Z
}.

Record OneTimePreKey := { opk_key_id : Z; opk_public_key : HybridKemPublicKey }.

Record PreKeyBundle := {
  identity_key : IdentityPublicKey;
  identity_kem_public : HybridKemPublicKey;
  signed_prekey : SignedPreKey;
  one_time_prekeys : list OneTimePreKey;
  bundle_signature : HybridSignature
}.

#[export] Instance IdentityKeyPair_wf : Wf IdentityKeyPair := fun i =>
  length (ikp_classical i) = ED25519_PRIVATE_KEY_SIZE /\
  length (mldsa_seed (ikp_pq i)) = ML_DSA_87_PRIVATE_KEY_SIZE.
#[export] Instance IdentityPublicKey_wf : Wf IdentityPublicKey := fun p =>
  length (ip_classical p) = ED25519_PUBLIC_KEY_SIZE /\ length (ip_pq p) = ML_DSA_87_PUBLIC_KEY_SIZE.
#[export] Instance HybridSignature_wf : Wf HybridSignature := fun s =>
  length (hs_classical s) = ED25519_SIGNATURE_SIZE.
#[export] Instance HybridKemPublicKey_wf : Wf HybridKemPublicKey := fun p =>
  length (kp_classical p) = X25519_PUBLIC_KEY_SIZE /\ length (kp_pq p) = ML_KEM_1024_PUBLIC_KEY_SIZE.
#[export] Instance HybridKemPrivateKey_wf : Wf HybridKemPrivateKey := fun k =>
  length (ks_classical k) = X25519_PRIVATE_KEY_SIZE /\ length (ks_pq k) = ML_KEM_1024_PRIVATE_KEY_SIZE.
#[export] Instance SignedPreKey_wf : Wf SignedPreKey := fun s =>
  is_u32 (spk_key_id s) /\ wf (spk_public_key s) /\ wf (spk_signature s) /\ is_u64 (spk_timestamp s).
#[export] Instance OneTimePreKey_wf : Wf OneTimePreKey := fun o =>
  is_u32 (opk_key_id o) /\ wf (opk_public_key o).
#[export] Instance PreKeyBundle_wf : Wf PreKeyBundle := fun b =>
  wf (identity_key b) /\ wf (identity_kem_public b) /\ wf (signed_prekey b) /\
  Forall wf (one_time_prekeys b) /\ wf (bundle_signature b).

Section Identity.
Context `{C : Crypto}.

(** ** Identity key pairs *)

(** The seed drawn by [SigningKey::generate] and the ML-DSA seed. *)
Definition IdentityKeyPair_generate (classical_rnd pq_rnd : bytes) : result CryptoError IdentityKeyPair :=
  Ok {| ikp_classical := classical_rnd; ikp_pq := {| mldsa_seed := pq_rnd |} |}.

Definition IdentityKeyPair_from_seed (classical_seed pq_seed : bytes) : result CryptoError IdentityKeyPair :=
  classical_bytes ← try_into_array ED25519_PRIVATE_KEY_SIZE classical_seed
                      (InvalidKey "classical seed must be 32 bytes");
  pq_bytes ← try_into_array ML_DSA_87_PRIVATE_KEY_SIZE pq_seed (InvalidKey "pq seed must be 32 bytes");
  mret {| ikp_classical := classical_bytes; ikp_pq := {| mldsa_seed := pq_bytes |} |}.

Definition IdentityKeyPair_public (i : IdentityKeyPair) : IdentityPublicKey :=
  {| ip_classical := ed25519_public (ikp_classical i);
     ip_pq := ml_dsa_public (mldsa_seed (ikp_pq i)) |}.

Definition sign_hybrid (i : IdentityKeyPair) (message : bytes) : result CryptoError HybridSignature :=
  Ok {| hs_classical := ed25519_sign (ikp_classical i) message;
        hs_pq := ml_dsa_encode (ml_dsa_sign (mldsa_seed (ikp_pq i)) message) |}.

Definition ml_dsa_signature (b : bytes) : result CryptoError MlDsaSignature :=
  arr ← try_into_array ML_DSA_87_SIGNATURE_SIZE b InvalidSignature;
  ok_or (ml_dsa_decode arr) InvalidSignature.

Definition verify_hybrid (public : IdentityPublicKey) (message : bytes) (sig : HybridSignature)
    : result CryptoError unit :=
  if negb (ed25519_key_valid (ip_classical public)) then Err (InvalidKey "Invalid Ed25519 public key")
  else if negb (ed25519_verify (ip_classical public) message (hs_classical sig)) then Err InvalidSignature
  else
    pq_sig ← ml_dsa_signature (hs_pq sig);
    if negb (ml_dsa_verify (ip_pq public) message pq_sig) then Err InvalidSignature
    else mret tt.

Definition classical_seed (i : IdentityKeyPair) : bytes := ikp_classical i.
Definition pq_seed (i : IdentityKeyPair) : bytes := mldsa_seed (ikp_pq i).
Definition seeds (i : IdentityKeyPair) : bytes * bytes := (classical_seed i, pq_seed i).

(** ** The hybrid KEM *)

Definition HybridKemPrivateKey_public_key (k : HybridKemPrivateKey) : HybridKemPublicKey :=
  {| kp_classical := x25519_public (ks_classical k); kp_pq := ml_kem_public (ks_pq k) |}.

Definition kem_secret (i : IdentityKeyPair) : result CryptoError HybridKemPrivateKey :=
  pq ← ok_or (hkdf_sha256 (Some (bs "presidium-identity-kem")) (pq_seed i) (bs "identity-pq-seed")
                ML_KEM_1024_PRIVATE_KEY_SIZE)
             (KeyDerivationFailed "Identity KEM seed derivation failed");
  mret {| ks_classical := classical_seed i; ks_pq := pq |}.

Definition kem_public (i : IdentityKeyPair) : result CryptoError HybridKemPublicKey :=
  k ← kem_secret i; mret (HybridKemPrivateKey_public_key k).

Definition MlDsa87PublicKey_from_bytes (b : bytes) : result CryptoError MlDsa87PublicKey :=
  key ← try_into_array ML_DSA_87_PUBLIC_KEY_SIZE b (InvalidKey "Invalid ML-DSA-87 public key size");
  mret {| mldsa_key := key |}.

Definition MlDsa87PrivateKey_public_key (k : MlDsa87PrivateKey) : MlDsa87PublicKey :=
  {| mldsa_key := ml_dsa_public (mldsa_seed k) |}.

Definition HybridKemPublicKey_generate (classical_secret kem_rnd : bytes)
    : result CryptoError (HybridKemPublicKey * HybridKemPrivateKey) :=
  let '(seed, ek) := ml_kem_generate kem_rnd in
  pq_seed ← ok_or seed (KeyDerivationFailed "ML-KEM-1024 seed unavailable");
  mret ({| kp_classical := x25519_public classical_secret; kp_pq := ek |},
        {| ks_classical := classical_secret; ks_pq := pq_seed |}).

(** [split_at_checked] is [None] past the end. *)
Definition split_at_checked (n : nat) (b : bytes) : option (bytes * bytes) :=
  if decide (n <= length b)%nat then Some (take n b, drop n b) else None.

Definition HybridKemPublicKey_from_bytes (b : bytes) : result CryptoError HybridKemPublicKey :=
  '(classical, pq) ← ok_or (split_at_checked X25519_PUBLIC_KEY_SIZE b)
                           (InvalidKey "Hybrid KEM public key too short");
  classical ← try_into_array X25519_PUBLIC_KEY_SIZE classical (InvalidKey "Invalid X25519 public key size");
  pq ← try_into_array ML_KEM_1024_PUBLIC_KEY_SIZE pq (InvalidKey "Invalid ML-KEM-1024 public key size");
  mret {| kp_classical := classical; kp_pq := pq |}.

Definition HybridKemPublicKey_as_bytes (k : HybridKemPublicKey) : bytes := kp_classical k ++ kp_pq k.

(** Both directions end in the same derivation. *)
Definition hybrid_shared_secret (classical_shared pq_shared : bytes) : result CryptoError bytes :=
  ok_or (hkdf_sha256 None (classical_shared ++ pq_shared) (bs "presidium-pqxdh-shared") 32)
        (KeyDerivationFailed "HKDF expand failed").

Definition encapsulate (rnd : bytes) (k : HybridKemPrivateKey) (peer_public : HybridKemPublicKey)
    : result CryptoError (bytes * bytes) :=
  let classical_shared := x25519_dh (ks_classical k) (kp_classical peer_public) in
  key ← try_into_array ML_KEM_1024_PUBLIC_KEY_SIZE (kp_pq peer_public)
          (InvalidKey "Invalid ML-KEM-1024 public key");
  if negb (ml_kem_key_valid key) then Err (InvalidKey "Invalid ML-KEM-1024 public key")
  else
    let '(ciphertext, pq_shared) := ml_kem_encapsulate key rnd in
    shared_secret ← hybrid_shared_secret classical_shared pq_shared;
    mret (ciphertext, shared_secret).

Definition decapsulate (k : HybridKemPrivateKey) (ciphertext : bytes) (peer_public : HybridKemPublicKey)
    : result CryptoError bytes :=
  let classical_shared := x25519_dh (ks_classical k) (kp_classical peer_public) in
  ct ← try_into_array ML_KEM_1024_CIPHERTEXT_SIZE ciphertext (InvalidParameter "Invalid ciphertext size");
  hybrid_shared_secret classical_shared (ml_kem_decapsulate (ks_pq k) ct).

(** ** Prekey bundles *)

Definition otpk_bytes (o : OneTimePreKey) : bytes :=
  le_bytes 4 (opk_key_id o) ++ kp_classical (opk_public_key o) ++ kp_pq (opk_public_key o).

Definition bundle_bytes (identity : IdentityPublicKey) (kem_pub : HybridKemPublicKey)
    (spk : SignedPreKey) (otpks : list OneTimePreKey) : bytes :=
  ip_classical identity ++ ip_pq identity ++ kp_classical kem_pub ++ kp_pq kem_pub ++
  le_bytes 4 (spk_key_id spk) ++ kp_classical (spk_public_key spk) ++ kp_pq (spk_public_key spk) ++
  le_bytes 8 (spk_timestamp spk) ++ concat (map otpk_bytes otpks).

Definition PreKeyBundle_new (identity : IdentityKeyPair) (spk : SignedPreKey) (otpks : list OneTimePreKey)
    : result CryptoError PreKeyBundle :=
  kem_pub ← kem_public identity;
  let b := bundle_bytes (IdentityKeyPair_public identity) kem_pub spk otpks in
  sig ← sign_hybrid identity b;
  mret {| identity_key := IdentityKeyPair_public identity; identity_kem_public := kem_pub;
          signed_prekey := spk; one_time_prekeys := otpks; bundle_signature := sig |}.

Definition PreKeyBundle_verify (b : PreKeyBundle) : result CryptoError unit :=
  verify_hybrid (identity_key b)
    (bundle_bytes (identity_key b) (identity_kem_public b) (signed_prekey b) (one_time_prekeys b))
    (bundle_signature b).
End Identity.

(** ** Hand-written serde implementations

    A serialized struct is its name and its fields in order; the [Helper] of
    each [Deserialize] is read by field name.  A failing [try_into] is
    [de::Error::custom] of the slice error. *)

Definition SerStruct : Type := string * list (string * bytes).

Definition field_of (s : SerStruct) (name : string) : result string bytes :=
  match List.find (fun p => bool_decide (p.1 = name)) s.2 with
  | Some p => Ok p.2
  | None => Err ("missing field `" +:+ name +:+ "`")
  end.

Definition slice_error : string := "could not convert slice to array".

(** A [Helper] field of array type rejects a sequence of another length. *)
Definition array_of (s : SerStruct) (name : string) (n : nat) : result string bytes :=
  b ← field_of s name; try_into_array n b "invalid length".

Definition IdentityPublicKey_serialize (p : IdentityPublicKey) : SerStruct :=
  ("IdentityPublicKey", [("classical", ip_classical p); ("pq", ip_pq p)]).
Definition IdentityPublicKey_deserialize (s : SerStruct) : result string IdentityPublicKey :=
  classical ← array_of s "classical" ED25519_PUBLIC_KEY_SIZE;
  helper_pq ← field_of s "pq";
  pq ← try_into_array ML_DSA_87_PUBLIC_KEY_SIZE helper_pq slice_error;
  mret {| ip_classical := classical; ip_pq := pq |}.

Definition MlDsa87PublicKey_serialize (k : MlDsa87PublicKey) : SerStruct :=
  ("MlDsa87PublicKey", [("key", mldsa_key k)]).
Definition MlDsa87PublicKey_deserialize (s : SerStruct) : result string MlDsa87PublicKey :=
  helper_key ← field_of s "key";
  key ← try_into_array ML_DSA_87_PUBLIC_KEY_SIZE helper_key slice_error;
  mret {| mldsa_key := key |}.

Definition HybridSignature_serialize (h : HybridSignature) : SerStruct :=
  ("HybridSignature", [("classical", hs_classical h); ("pq", hs_pq h)]).
Definition HybridSignature_deserialize (s : SerStruct) : result string HybridSignature :=
  helper_classical ← field_of s "classical";
  helper_pq ← field_of s "pq";
  classical ← try_into_array ED25519_SIGNATURE_SIZE helper_classical slice_error;
  mret {| hs_classical := classical; hs_pq := helper_pq |}.

Definition HybridKemPublicKey_serialize (k : HybridKemPublicKey) : SerStruct :=
  ("HybridKemPublicKey", [("classical", kp_classical k); ("pq", kp_pq k)]).
Definition HybridKemPublicKey_deserialize (s : SerStruct) : result string HybridKemPublicKey :=
  classical ← array_of s "classical" X25519_PUBLIC_KEY_SIZE;
  helper_pq ← field_of s "pq";
  pq ← try_into_array ML_KEM_1024_PUBLIC_KEY_SIZE helper_pq slice_error;
  mret {| kp_classical := classical; kp_pq := pq |}.
