(* ===== verification/IdentityProps.v ===== *)
(** Identity keys and prekey bundles: signatures, the hybrid KEM, the
    canonical bundle encoding, and the encodings of keys. *)

From S2P Require Import Prelude Constants Prims Concrete Identity.

Section Props.
Context `{C : Crypto, L : !CryptoLaws C}.

(** ** Signatures *)

Lemma ml_dsa_signature_encode sig : ml_dsa_signature (ml_dsa_encode sig) = Ok sig.
Proof.
  unfold ml_dsa_signature. rewrite try_into_array_len by apply length_ml_dsa_encode.
  cbn [mbind result_bind]. by rewrite ml_dsa_decode_encode.
Qed.

Lemma sign_verifies i message sig :
  sign_hybrid i message = Ok sig -> verify_hybrid (IdentityKeyPair_public i) message sig = Ok tt.
Proof.
  intros [= <-]. unfold verify_hybrid, IdentityKeyPair_public. cbn [ip_classical ip_pq hs_classical hs_pq].
  by rewrite ed25519_public_valid, ed25519_verifies, ml_dsa_signature_encode; cbn; rewrite ml_dsa_verifies.
Qed.

Lemma public_wf i : wf (IdentityKeyPair_public i).
Proof. split; [apply length_ed25519_public | apply length_ml_dsa_public]. Qed.

Lemma sign_wf i message sig : sign_hybrid i message = Ok sig -> wf sig.
Proof. intros [= <-]. apply length_ed25519_sign. Qed.

(** A hybrid signature is accepted exactly when both halves are: the
    Ed25519 key is valid and verifies, and the ML-DSA-87 part has its size,
    decodes and verifies.  Neither half alone is enough. *)
Theorem verify_hybrid_iff_both public message sig :
  verify_hybrid public message sig = Ok tt <->
  ed25519_key_valid (ip_classical public) = true /\
  ed25519_verify (ip_classical public) message (hs_classical sig) = true /\
  length (hs_pq sig) = ML_DSA_87_SIGNATURE_SIZE /\
  exists s, ml_dsa_decode (hs_pq sig) = Some s /\ ml_dsa_verify (ip_pq public) message s = true.
Proof.
  unfold verify_hybrid, ml_dsa_signature. split.
  - destruct (ed25519_key_valid _); cbn [negb]; [|done].
    destruct (ed25519_verify _ _ _); cbn [negb]; [|done].
    rewrite result_bind_ok. intros (s & Hs & Hv).
    apply result_bind_ok in Hs as (arr & [-> Hl]%try_into_array_ok & Hd%ok_or_ok).
    split_and!; [done..|]. exists s. split; [done|]. by destruct (ml_dsa_verify _ _ s).
  - intros (-> & -> & Hl & s & Hd & Hv). cbn [negb].
    rewrite try_into_array_len by done. cbn [mbind result_bind]. rewrite Hd. cbn. by rewrite Hv.
Qed.

(** ** Seeds *)

(** An identity survives persistence: [from_seed] of the stored [seeds]
    gives back the key pair, and [from_seed] accepts exactly two 32-byte
    seeds. *)
Theorem identity_from_seed_roundtrip :
  (forall i, wf i -> IdentityKeyPair_from_seed (seeds i).1 (seeds i).2 = Ok i) /\
  (forall cs ps, is_ok (IdentityKeyPair_from_seed cs ps) = true <->
     length cs = ED25519_PRIVATE_KEY_SIZE /\ length ps = ML_DSA_87_PRIVATE_KEY_SIZE).
Proof.
  unfold IdentityKeyPair_from_seed. split.
  - intros [c [p]] [Hc Hp]. cbn in *. by rewrite !try_into_array_len by done.
  - intros cs ps. unfold try_into_array. repeat case_decide; cbn; naive_solver.
Qed.

(** ** Hybrid KEM *)

Lemma hybrid_shared_ok a b : exists s, hybrid_shared_secret a b = Ok s /\ length s = 32%nat.
Proof.
  unfold hybrid_shared_secret.
  destruct (hkdf_expands None (a ++ b) (bs "presidium-pqxdh-shared") 32) as (s & -> & Hs); [lia|].
  by exists s.
Qed.

Lemma kem_secret_ok i : exists k, kem_secret i = Ok k /\ (wf i -> wf k).
Proof.
  unfold kem_secret.
  destruct (hkdf_expands (Some (bs "presidium-identity-kem")) (pq_seed i) (bs "identity-pq-seed")
              ML_KEM_1024_PRIVATE_KEY_SIZE) as (p & -> & Hp); [unfold ML_KEM_1024_PRIVATE_KEY_SIZE; lia|].
  eexists. split; [done|]. intros [Hc _]. by split.
Qed.

Lemma public_key_wf k : wf (HybridKemPrivateKey_public_key k).
Proof. split; [apply length_x25519_public | apply length_ml_kem_public]. Qed.

Lemma encapsulate_eq rnd k peer :
  let p := HybridKemPrivateKey_public_key peer in
  exists ct s, encapsulate rnd k p = Ok (ct, s) /\ length ct = ML_KEM_1024_CIPHERTEXT_SIZE /\
    length s = 32%nat /\ decapsulate peer ct (HybridKemPrivateKey_public_key k) = Ok s.
Proof.
  cbn zeta. unfold encapsulate, decapsulate. cbn [HybridKemPrivateKey_public_key kp_classical kp_pq].
  rewrite try_into_array_len by apply length_ml_kem_public. cbn [mbind result_bind].
  rewrite ml_kem_public_valid. cbn [negb].
  pose proof (length_ml_kem_ciphertext (ml_kem_public (ks_pq peer)) rnd) as Hct.
  pose proof (ml_kem_decapsulates (ks_pq peer) rnd) as Hdec.
  destruct (ml_kem_encapsulate (ml_kem_public (ks_pq peer)) rnd) as [ct ss]; cbn [fst snd] in *.
  destruct (hybrid_shared_ok (x25519_dh (ks_classical k) (x25519_public (ks_classical peer))) ss)
    as (s & Hs & Hlen).
  exists ct, s. rewrite Hs. split_and!; [done..|].
  rewrite try_into_array_len by done. cbn [mbind result_bind]. by rewrite Hdec, x25519_agree.
Qed.

(** The hybrid KEM agrees: encapsulating with key [k] to the public key of
    [peer] succeeds, and [peer] decapsulates the ciphertext, with the public
    key of [k], to the same 32-byte secret. *)
Theorem hybrid_kem_agrees rnd k peer :
  exists ct s, encapsulate rnd k (HybridKemPrivateKey_public_key peer) = Ok (ct, s) /\
    length s = 32%nat /\ decapsulate peer ct (HybridKemPrivateKey_public_key k) = Ok s.
Proof. destruct (encapsulate_eq rnd k peer) as (ct & s & ? & _ & ? & ?). eauto. Qed.

(** ** Bundles *)

Lemma length_otpk_bytes o : wf o -> length (otpk_bytes o) = 1604%nat.
Proof.
  intros [_ [Hc Hp]]. unfold otpk_bytes. rewrite !length_app, length_le_bytes, Hc, Hp. done.
Qed.

Lemma otpk_bytes_inj o o' : wf o -> wf o' -> otpk_bytes o = otpk_bytes o' -> o = o'.
Proof.
  destruct o as [i [c p]], o' as [i' [c' p']]. intros [Hi [Hc Hp]] [Hi' [Hc' Hp']] Heq.
  unfold otpk_bytes in Heq. cbn in *.
  apply app_inj_len in Heq as [Hid Heq]; [|by rewrite !length_le_bytes].
  apply app_inj_len in Heq as [-> ->]; [|congruence].
  apply le_bytes_inj in Hid; [by subst | done | done].
Qed.

Lemma otpks_bytes_inj l l' :
  Forall wf l -> Forall wf l' -> concat (map otpk_bytes l) = concat (map otpk_bytes l') -> l = l'.
Proof.
  intros Hl. revert l'. induction Hl as [|o l Ho Hl IH]; intros l' Hl' Heq; destruct Hl' as [|o' l' Ho' Hl'].
  - done.
  - apply (f_equal length) in Heq. cbn in Heq. rewrite length_app, length_otpk_bytes in Heq by done. lia.
  - apply (f_equal length) in Heq. cbn in Heq. rewrite length_app, length_otpk_bytes in Heq by done. lia.
  - cbn in Heq. apply app_inj_len in Heq as [H1 H2]; [|by rewrite !length_otpk_bytes].
    by rewrite (otpk_bytes_inj o o'), (IH l').
Qed.

(** C34. What the signature of a bundle covers: two well-formed bundles have the
    same [bundle_bytes] exactly when they have the same identity, identity KEM
    key, id, public key and timestamp of the signed prekey, and list of
    one-time prekeys.  So the bundle signature cannot be moved to a bundle that
    differs in one of these; the signature inside the signed prekey is the one
    part that is not covered, and may differ. *)
Theorem bundle_bytes_injective b b' :
  wf b -> wf b' ->
  bundle_bytes (identity_key b) (identity_kem_public b) (signed_prekey b) (one_time_prekeys b) =
  bundle_bytes (identity_key b') (identity_kem_public b') (signed_prekey b') (one_time_prekeys b') <->
  identity_key b = identity_key b' /\ identity_kem_public b = identity_kem_public b' /\
  spk_key_id (signed_prekey b) = spk_key_id (signed_prekey b') /\
  spk_public_key (signed_prekey b) = spk_public_key (signed_prekey b') /\
  spk_timestamp (signed_prekey b) = spk_timestamp (signed_prekey b') /\
  one_time_prekeys b = one_time_prekeys b'.
Proof.
  intros Hb Hb'. split; [|intros (-> & -> & Hid & Hpk & Hts & ->); unfold bundle_bytes; by rewrite Hid, Hpk, Hts].
  revert Hb Hb'.
  destruct b as [[ic iq] [kc kq] [si [sc sq] ss st] os sig], b' as [[ic' iq'] [kc' kq'] [si' [sc' sq'] ss' st'] os' sig'].
  intros ([Hic Hiq] & [Hkc Hkq] & (Hsi & [Hsc Hsq] & _ & Hst) & Hos & _)
         ([Hic' Hiq'] & [Hkc' Hkq'] & (Hsi' & [Hsc' Hsq'] & _ & Hst') & Hos' & _) Heq.
  unfold bundle_bytes in Heq. cbn in *.
  apply app_inj_len in Heq as [-> Heq]; [|congruence].
  apply app_inj_len in Heq as [-> Heq]; [|congruence].
  apply app_inj_len in Heq as [-> Heq]; [|congruence].
  apply app_inj_len in Heq as [-> Heq]; [|congruence].
  apply app_inj_len in Heq as [Hid Heq]; [|by rewrite !length_le_bytes].
  apply app_inj_len in Heq as [-> Heq]; [|congruence].
  apply app_inj_len in Heq as [-> Heq]; [|congruence].
  apply app_inj_len in Heq as [Hts Heq]; [|by rewrite !length_le_bytes].
  apply le_bytes_inj in Hid; [|done..]. apply le_bytes_inj in Hts; [|done..].
  apply otpks_bytes_inj in Heq; [|done..]. by subst.
Qed.

Lemma bundle_new_eq i spk otpks :
  exists kem, kem_secret i = Ok kem /\
  exists sig, sign_hybrid i (bundle_bytes (IdentityKeyPair_public i) (HybridKemPrivateKey_public_key kem) spk otpks) = Ok sig /\
  PreKeyBundle_new i spk otpks =
    Ok {| identity_key := IdentityKeyPair_public i;
          identity_kem_public := HybridKemPrivateKey_public_key kem;
          signed_prekey := spk; one_time_prekeys := otpks; bundle_signature := sig |}.
Proof.
  destruct (kem_secret_ok i) as (kem & Hk & _). exists kem. split; [done|].
  eexists. split; [done|]. unfold PreKeyBundle_new, kem_public. by rewrite Hk.
Qed.

(** A bundle made by its owner verifies. *)
Theorem bundle_new_verifies i spk otpks :
  exists b, PreKeyBundle_new i spk otpks = Ok b /\ PreKeyBundle_verify b = Ok tt.
Proof.
  destruct (bundle_new_eq i spk otpks) as (kem & _ & sig & Hsig & ->).
  eexists. split; [done|]. unfold PreKeyBundle_verify. by eapply sign_verifies.
Qed.

Lemma verify_hybrid_pq_size public message sig :
  verify_hybrid public message sig = Ok tt -> length (hs_pq sig) = ML_DSA_87_SIGNATURE_SIZE.
Proof.
  unfold verify_hybrid, ml_dsa_signature.
  destruct (ed25519_key_valid _); cbn [negb]; [|done].
  destruct (ed25519_verify _ _ _); cbn [negb]; [|done].
  rewrite result_bind_ok. intros (s & Hs & _).
  by apply result_bind_ok in Hs as (arr & [-> Hl]%try_into_array_ok & _).
Qed.

(** The signature inside the signed prekey is never looked at: a bundle
    whose prekey signature verifies for no message at all (its ML-DSA part has
    the wrong size) passes [verify] all the same. *)
Theorem bundle_verify_ignores_prekey_signature i spk otpks :
  length (hs_pq (spk_signature spk)) <> ML_DSA_87_SIGNATURE_SIZE ->
  exists b, PreKeyBundle_new i spk otpks = Ok b /\ PreKeyBundle_verify b = Ok tt /\
    (forall message, verify_hybrid (identity_key b) message (spk_signature (signed_prekey b)) ≠ Ok tt).
Proof.
  intros Hlen. destruct (bundle_new_eq i spk otpks) as (kem & _ & sig & Hsig & ->).
  eexists. split_and!; [done | by eapply sign_verifies |].
  by intros message Hv%verify_hybrid_pq_size.
Qed.

(** ** Encodings *)

Lemma field_of_here n f v l : field_of (n, (f, v) :: l) f = Ok v.
Proof. unfold field_of. cbn [snd List.find fst]. by rewrite bool_decide_true. Qed.

Lemma field_of_there n f g v l : g <> f -> field_of (n, (g, v) :: l) f = field_of (n, l) f.
Proof. intros Hne. unfold field_of. cbn [snd List.find fst]. by rewrite bool_decide_false. Qed.

(** Reads the fields of a serialized struct. *)
Ltac read_fields :=
  cbn [mbind result_bind];
  repeat (first [rewrite field_of_here | rewrite field_of_there by done | rewrite try_into_array_len by done];
          cbn [mbind result_bind]).

(** The concatenated key encoding and the hand-written serde
    implementations round-trip on values of the Rust types, and every value
    they decode is one (its arrays have their sizes). *)
Theorem key_encodings_roundtrip :
  (forall k : HybridKemPublicKey, wf k -> HybridKemPublicKey_from_bytes (HybridKemPublicKey_as_bytes k) = Ok k) /\
  (forall b k, HybridKemPublicKey_from_bytes b = Ok k -> wf k /\ HybridKemPublicKey_as_bytes k = b) /\
  (forall k : HybridKemPublicKey, wf k -> HybridKemPublicKey_deserialize (HybridKemPublicKey_serialize k) = Ok k) /\
  (forall p : IdentityPublicKey, wf p -> IdentityPublicKey_deserialize (IdentityPublicKey_serialize p) = Ok p) /\
  (forall s : HybridSignature, wf s -> HybridSignature_deserialize (HybridSignature_serialize s) = Ok s) /\
  (forall s k, HybridKemPublicKey_deserialize s = Ok k -> wf k) /\
  (forall s p, IdentityPublicKey_deserialize s = Ok p -> wf p) /\
  (forall s h, HybridSignature_deserialize s = Ok h -> wf h).
Proof.
  split_and!.
  - intros [c p] [Hc Hp]. unfold HybridKemPublicKey_from_bytes, HybridKemPublicKey_as_bytes, split_at_checked. cbn in *.
    rewrite decide_True by (rewrite length_app; lia). cbn [ok_or mbind result_bind].
    rewrite take_app_len, drop_app_len by done. by rewrite !try_into_array_len.
  - intros b k. unfold HybridKemPublicKey_from_bytes, split_at_checked. case_decide; cbn; [|done].
    rewrite result_bind_ok. intros (c & [-> Hc]%try_into_array_ok & Hk).
    apply result_bind_ok in Hk as (p & [-> Hp]%try_into_array_ok & [= <-]).
    split; [by split|]. apply take_drop.
  - intros [c p] [Hc Hp]. cbn in *. unfold HybridKemPublicKey_deserialize, HybridKemPublicKey_serialize, array_of.
    by read_fields.
  - intros [c p] [Hc Hp]. cbn in *. unfold IdentityPublicKey_deserialize, IdentityPublicKey_serialize, array_of.
    by read_fields.
  - intros [c p] Hc. cbn in *. unfold HybridSignature_deserialize, HybridSignature_serialize.
    by read_fields.
  - intros s k. unfold HybridKemPublicKey_deserialize, array_of. rewrite result_bind_ok.
    intros (c & (b & _ & [-> Hc]%try_into_array_ok)%result_bind_ok & Hk).
    apply result_bind_ok in Hk as (q & _ & Hk). apply result_bind_ok in Hk as (p & [-> Hp]%try_into_array_ok & [= <-]).
    by split.
  - intros s k. unfold IdentityPublicKey_deserialize, array_of. rewrite result_bind_ok.
    intros (c & (b & _ & [-> Hc]%try_into_array_ok)%result_bind_ok & Hk).
    apply result_bind_ok in Hk as (q & _ & Hk). apply result_bind_ok in Hk as (p & [-> Hp]%try_into_array_ok & [= <-]).
    by split.
  - intros s k. unfold HybridSignature_deserialize. rewrite result_bind_ok.
    intros (c & _ & Hk). apply result_bind_ok in Hk as (q & _ & Hk).
    by apply result_bind_ok in Hk as (p & [-> Hp]%try_into_array_ok & [= <-]).
Qed.
End Props.

(** ** Evaluation *)

Definition alice_kem : HybridKemPrivateKey := {| ks_classical := pad32 (bs "alice"); ks_pq := expand 64 [bs "alice"] |}.
Definition bob_kem : HybridKemPrivateKey := {| ks_classical := pad32 (bs "bob"); ks_pq := expand 64 [bs "bob"] |}.
Definition bob_identity : IdentityKeyPair :=
  {| ikp_classical := pad32 (bs "bob-ed"); ikp_pq := {| mldsa_seed := pad32 (bs "bob-dsa") |} |}.
Definition alice_identity : IdentityKeyPair :=
  {| ikp_classical := pad32 (bs "alice-ed"); ikp_pq := {| mldsa_seed := pad32 (bs "alice-dsa") |} |}.

Definition sample_spk (sig : bytes) : SignedPreKey :=
  {| spk_key_id := 1; spk_public_key := HybridKemPrivateKey_public_key bob_kem;
     spk_signature := {| hs_classical := expand 64 [sig]; hs_pq := sig |}; spk_timestamp := 1234567890 |}.
Definition sample_otpk : OneTimePreKey :=
  {| opk_key_id := 7; opk_public_key := HybridKemPrivateKey_public_key alice_kem |}.

Definition sample_bundle (sig : bytes) : PreKeyBundle :=
  {| identity_key := IdentityKeyPair_public bob_identity;
     identity_kem_public := HybridKemPrivateKey_public_key alice_kem;
     signed_prekey := sample_spk sig; one_time_prekeys := [sample_otpk];
     bundle_signature := {| hs_classical := expand 64 [sig]; hs_pq := sig |} |}.

Lemma sample_bundle_wf sig : wf (sample_bundle sig).
Proof.
  split_and!; [apply public_wf | apply public_key_wf | | | apply length_expand].
  - split_and!; [by split | apply public_key_wf | apply length_expand | by split].
  - constructor; [|constructor]. split; [by split | apply public_key_wf].
Qed.

Lemma hybrid_kem_agrees_witness :
  exists ct s, encapsulate (bs "rnd") alice_kem (HybridKemPrivateKey_public_key bob_kem) = Ok (ct, s) /\
    length s = 32%nat /\ decapsulate bob_kem ct (HybridKemPrivateKey_public_key alice_kem) = Ok s.
Proof. apply hybrid_kem_agrees. Defined.

(** Two bundles that differ in the signature of the signed prekey only. *)
Lemma bundle_bytes_injective_witness :
  let b := sample_bundle (bs "one") in let b' := sample_bundle (bs "two") in
  signed_prekey b <> signed_prekey b' /\
  bundle_bytes (identity_key b) (identity_kem_public b) (signed_prekey b) (one_time_prekeys b) =
  bundle_bytes (identity_key b') (identity_kem_public b') (signed_prekey b') (one_time_prekeys b').
Proof.
  intros b b'. split; [intros H; apply (f_equal (fun k => hs_pq (spk_signature k))) in H; vm_compute in H; discriminate H|].
  apply (bundle_bytes_injective (sample_bundle (bs "one")) (sample_bundle (bs "two")));
    [apply sample_bundle_wf | apply sample_bundle_wf | by split_and!].
Defined.

Lemma bundle_new_verifies_witness :
  exists b, PreKeyBundle_new bob_identity (sample_spk (bs "sig")) [sample_otpk] = Ok b /\
    PreKeyBundle_verify b = Ok tt.
Proof. apply bundle_new_verifies. Defined.

Lemma bundle_verify_ignores_prekey_signature_witness :
  exists b, PreKeyBundle_new bob_identity (sample_spk (bs "junk")) [sample_otpk] = Ok b /\
    PreKeyBundle_verify b = Ok tt /\
    (forall message, verify_hybrid (identity_key b) message (spk_signature (signed_prekey b)) ≠ Ok tt).
Proof. apply bundle_verify_ignores_prekey_signature. vm_compute. lia. Defined.
