(* ===== verification/Pqxdh.v ===== *)
(** PQXDH key agreement: [presidium-crypto/src/pqxdh.rs].

    The five encapsulations of the initiator draw randomness; the draws are
    the arguments [r1] .. [r5], in the order of the calls. *)

From S2P Require Import Prelude Constants Prims Identity.

(** ** Data *)

Record PqxdhOutput := {
  out_shared_secret : bytes;
  out_ephemeral_public : HybridKemPublicKey;
  out_signed_prekey_id : Z;
  out_one_time_prekey_id : option Z
}.

Record PqxdhInitiatorKeys := {
  ini_identity : IdentityKeyPair;
  ini_ephemeral : HybridKemPrivateKey;
  ini_peer_bundle : PreKeyBundle
}.

Record PqxdhResponderKeys := {
  res_identity : IdentityKeyPair;
  res_signed_prekey : HybridKemPrivateKey;
  res_signed_prekey_id : Z;
  res_one_time_prekey : option HybridKemPrivateKey;
  res_one_time_prekey_id : option Z
}.

(** [[Vec<u8>; 4]]. *)
Record Ciphertexts := { ct_0 : bytes; ct_1 : bytes; ct_2 : bytes; ct_3 : bytes }.

Record PqxdhPrekeyMessage := {
  pm_identity_public : IdentityPublicKey;
  pm_identity_kem_public : HybridKemPublicKey;
  pm_ephemeral_public : HybridKemPublicKey;
  pm_ciphertexts : Ciphertexts;
  pm_one_time_ciphertext : option bytes;
  pm_signed_prekey_id : Z;
  pm_one_time_prekey_id : option Z
}.

#[export] Instance PqxdhPrekeyMessage_wf : Wf PqxdhPrekeyMessage := fun m =>
  wf (pm_identity_public m) /\ wf (pm_identity_kem_public m) /\ wf (pm_ephemeral_public m) /\
  is_u32 (pm_signed_prekey_id m) /\ (forall id, pm_one_time_prekey_id m = Some id -> is_u32 id).

Section Pqxdh.
Context `{C : Crypto}.

(** ** Legs *)

Definition hybrid_dh (our_key : HybridKemPrivateKey) (peer_public : HybridKemPublicKey)
    (ciphertext : option bytes) : result CryptoError bytes :=
  ct ← ok_or ciphertext (PqxdhError "Ciphertext required for decapsulation");
  decapsulate our_key ct peer_public.

Definition hybrid_encaps (rnd : bytes) (our_key : HybridKemPrivateKey) (peer_public : HybridKemPublicKey)
    : result CryptoError (bytes * bytes) :=
  '(ciphertext, shared) ← encapsulate rnd our_key peer_public;
  mret (shared, ciphertext).

Definition derive_master_secret (dh1 dh2 dh3 dh4 : bytes) (dh5 : option bytes)
    : result CryptoError bytes :=
  let ikm := dh1 ++ dh2 ++ dh3 ++ dh4 ++ match dh5 with Some d => d | None => [] end in
  ok_or (hkdf_sha256 None ikm (bs "PQXDH-MASTER") 32)
        (KeyDerivationFailed "PQXDH master secret derivation failed").

Definition pqxdh_derive_keys (out : PqxdhOutput) : result CryptoError (bytes * bytes) :=
  root_key ← ok_or (hkdf_sha256 None (out_shared_secret out) (bs "ROOT_KEY") ROOT_KEY_SIZE)
                   (KeyDerivationFailed "Root key derivation failed");
  sending_chain ← ok_or (hkdf_sha256 None (out_shared_secret out) (bs "SENDING_CHAIN") CHAIN_KEY_SIZE)
                        (KeyDerivationFailed "Sending chain derivation failed");
  mret (root_key, sending_chain).

(** ** The two sides *)

Definition pqxdh_initiator (r1 r2 r3 r4 r5 : bytes) (keys : PqxdhInitiatorKeys)
    : result CryptoError (PqxdhOutput * PqxdhPrekeyMessage) :=
  let identity := ini_identity keys in
  let ephemeral := ini_ephemeral keys in
  let peer_bundle := ini_peer_bundle keys in
  _ ← PreKeyBundle_verify peer_bundle;
  identity_kem ← kem_secret identity;
  '(dh1, ct1) ← hybrid_encaps r1 ephemeral (spk_public_key (signed_prekey peer_bundle));
  '(dh2, ct2) ← hybrid_encaps r2 identity_kem (spk_public_key (signed_prekey peer_bundle));
  '(dh3, ct3) ← hybrid_encaps r3 ephemeral (identity_kem_public peer_bundle);
  '(dh4, ct4) ← hybrid_encaps r4 identity_kem (identity_kem_public peer_bundle);
  '(dh5, ct5, dh5_id) ←
    match head (one_time_prekeys peer_bundle) with
    | Some otpk =>
        '(dh5_val, ct5_val) ← hybrid_encaps r5 ephemeral (opk_public_key otpk);
        mret (dh5_val, Some ct5_val, Some (opk_key_id otpk))
    | None => mret (replicate 32 x00, None, None)
    end;
  shared_secret ← derive_master_secret dh1 dh2 dh3 dh4 (option_map (fun _ => dh5) dh5_id);
  let ephemeral_public := HybridKemPrivateKey_public_key ephemeral in
  let message :=
    {| pm_identity_public := IdentityKeyPair_public identity;
       pm_identity_kem_public := HybridKemPrivateKey_public_key identity_kem;
       pm_ephemeral_public := ephemeral_public;
       pm_ciphertexts := {| ct_0 := ct1; ct_1 := ct2; ct_2 := ct3; ct_3 := ct4 |};
       pm_one_time_ciphertext := ct5;
       pm_signed_prekey_id := spk_key_id (signed_prekey peer_bundle);
       pm_one_time_prekey_id := dh5_id |} in
  mret ({| out_shared_secret := shared_secret;
           out_ephemeral_public := ephemeral_public;
           out_signed_prekey_id := pm_signed_prekey_id message;
           out_one_time_prekey_id := pm_one_time_prekey_id message |}, message).

(** The [match] on the one-time prekey and the id in the message. *)
Definition select_one_time_prekey (keys : PqxdhResponderKeys) (message : PqxdhPrekeyMessage)
    : result CryptoError (option HybridKemPrivateKey) :=
  match res_one_time_prekey keys, pm_one_time_prekey_id message with
  | Some opk, Some id =>
      if decide (Some id = res_one_time_prekey_id keys) then Ok (Some opk)
      else Err (PqxdhError "Unknown one-time prekey ID")
  | None, None => Ok None
  | _, _ => Err (PqxdhError "Unknown one-time prekey ID")
  end.

Definition pqxdh_responder (keys : PqxdhResponderKeys) (message : PqxdhPrekeyMessage)
    : result CryptoError PqxdhOutput :=
  if decide (pm_signed_prekey_id message <> res_signed_prekey_id keys) then
    Err (PqxdhError "Unknown signed prekey ID")
  else
    one_time_prekey ← select_one_time_prekey keys message;
    identity_kem ← kem_secret (res_identity keys);
    dh1 ← hybrid_dh (res_signed_prekey keys) (pm_ephemeral_public message) (Some (ct_0 (pm_ciphertexts message)));
    dh2 ← hybrid_dh (res_signed_prekey keys) (pm_identity_kem_public message) (Some (ct_1 (pm_ciphertexts message)));
    dh3 ← hybrid_dh identity_kem (pm_ephemeral_public message) (Some (ct_2 (pm_ciphertexts message)));
    dh4 ← hybrid_dh identity_kem (pm_identity_kem_public message) (Some (ct_3 (pm_ciphertexts message)));
    dh5 ← match one_time_prekey, pm_one_time_ciphertext message with
          | Some opk, Some ct => d ← hybrid_dh opk (pm_ephemeral_public message) (Some ct); mret (Some d)
          | _, _ => mret None
          end;
    shared_secret ← derive_master_secret dh1 dh2 dh3 dh4 dh5;
    mret {| out_shared_secret := shared_secret;
            out_ephemeral_public := pm_ephemeral_public message;
            out_signed_prekey_id := pm_signed_prekey_id message;
            out_one_time_prekey_id := pm_one_time_prekey_id message |}.

(** ** The initial message *)

Definition pqxdh_encrypt_initial (nonce : bytes) (shared_secret plaintext ad : bytes)
    : result CryptoError bytes :=
  ciphertext ← ok_or (aead_encrypt shared_secret nonce ad plaintext)
                     (EncryptionFailed "Initial message encryption failed");
  mret (nonce ++ ciphertext).

Definition pqxdh_decrypt_initial (shared_secret message ad : bytes) : result CryptoError bytes :=
  if decide (length message < CHACHA20_POLY1305_NONCE_SIZE)%nat then Err (InvalidMessage "Message too short")
  else
    let nonce := take CHACHA20_POLY1305_NONCE_SIZE message in
    let ciphertext := drop CHACHA20_POLY1305_NONCE_SIZE message in
    nonce_arr ← try_into_array CHACHA20_POLY1305_NONCE_SIZE nonce (InvalidMessage "Invalid nonce size");
    ok_or (aead_decrypt shared_secret nonce_arr ad ciphertext) DecryptionFailed.
End Pqxdh.
