(* ===== verification/PqxdhProps.v ===== *)
(** PQXDH: both sides derive one secret, what the responder checks, and what
    it does not. *)

From S2P Require Import Prelude Constants Prims Concrete Identity IdentityProps Pqxdh.

(** The same message under another claimed identity, and without the
    ciphertext of the one-time prekey. *)
Definition claim_identity (p : IdentityPublicKey) (m : PqxdhPrekeyMessage) : PqxdhPrekeyMessage :=
  {| pm_identity_public := p; pm_identity_kem_public := pm_identity_kem_public m;
     pm_ephemeral_public := pm_ephemeral_public m; pm_ciphertexts := pm_ciphertexts m;
     pm_one_time_ciphertext := pm_one_time_ciphertext m;
     pm_signed_prekey_id := pm_signed_prekey_id m; pm_one_time_prekey_id := pm_one_time_prekey_id m |}.

Definition strip_one_time (m : PqxdhPrekeyMessage) : PqxdhPrekeyMessage :=
  {| pm_identity_public := pm_identity_public m; pm_identity_kem_public := pm_identity_kem_public m;
     pm_ephemeral_public := pm_ephemeral_public m; pm_ciphertexts := pm_ciphertexts m;
     pm_one_time_ciphertext := None;
     pm_signed_prekey_id := pm_signed_prekey_id m; pm_one_time_prekey_id := pm_one_time_prekey_id m |}.

(** The responder holds the private key of the first one-time prekey of the
    bundle, or the bundle has none. *)
Definition holds_first `{Crypto} (otpks : list OneTimePreKey) (keys : PqxdhResponderKeys) : Prop :=
  match head otpks with
  | None => res_one_time_prekey keys = None
  | Some o => exists k, res_one_time_prekey keys = Some k /\
                opk_public_key o = HybridKemPrivateKey_public_key k /\
                res_one_time_prekey_id keys = Some (opk_key_id o)
  end.

Section Props.
Context `{C : Crypto, L : !CryptoLaws C}.

Lemma leg_agrees rnd k peer :
  exists s ct, hybrid_encaps rnd k (HybridKemPrivateKey_public_key peer) = Ok (s, ct) /\
    hybrid_dh peer (HybridKemPrivateKey_public_key k) (Some ct) = Ok s.
Proof.
  destruct (encapsulate_eq rnd k peer) as (ct & s & He & _ & _ & Hd). exists s, ct.
  unfold hybrid_encaps, hybrid_dh. cbn [ok_or mbind result_bind] in *. by rewrite He.
Qed.

Lemma master_secret_ok a b c d e :
  exists s, derive_master_secret a b c d e = Ok s /\ length s = 32%nat.
Proof.
  unfold derive_master_secret.
  destruct (hkdf_expands None (a ++ b ++ c ++ d ++ match e with Some x => x | None => [] end)
              (bs "PQXDH-MASTER") 32) as (s & -> & Hs); [lia|]. by exists s.
Qed.

(** The optional fifth leg: what the initiator computes for the first
    one-time prekey is what the responder selects and recomputes. *)
Lemma one_time_leg r5 eph otpks keys :
  holds_first otpks keys ->
  exists dh5 ct5 id sel,
    match head otpks with
    | Some otpk =>
        '(dh5_val, ct5_val) ← hybrid_encaps r5 eph (opk_public_key otpk);
        mret (dh5_val, Some ct5_val, Some (opk_key_id otpk))
    | None => mret (replicate 32 x00, None, None)
    end = (Ok (dh5, ct5, id) : result CryptoError _) /\
    (forall m, pm_one_time_prekey_id m = id -> select_one_time_prekey keys m = Ok sel) /\
    match sel, ct5 with
    | Some opk, Some ct =>
        d ← hybrid_dh opk (HybridKemPrivateKey_public_key eph) (Some ct); mret (Some d)
    | _, _ => mret None
    end = Ok (option_map (fun _ => dh5) id).
Proof.
  unfold holds_first, select_one_time_prekey. destruct (head otpks) as [o|].
  - intros (k & -> & -> & ->). destruct (leg_agrees r5 eph k) as (s & c & -> & Hd).
    eexists s, (Some c), (Some (opk_key_id o)), (Some k). split_and!; [done| |by rewrite Hd].
    intros m ->. by rewrite decide_True.
  - intros ->. eexists _, _, _, None. split_and!; [done| |done]. by intros m ->.
Qed.

Lemma one_time_id_wf r5 eph otpks dh5 ct5 id :
  Forall wf otpks ->
  match head otpks with
  | Some otpk =>
      '(dh5_val, ct5_val) ← hybrid_encaps r5 eph (opk_public_key otpk);
      mret (dh5_val, Some ct5_val, Some (opk_key_id otpk))
  | None => mret (replicate 32 x00, None, None)
  end = (Ok (dh5, ct5, Some id) : result CryptoError _) -> is_u32 id.
Proof.
  intros [|o l [Ho _] _]; cbn [head]; [done|].
  rewrite result_bind_ok. by intros ([s c] & _ & [= _ _ <-]).
Qed.

(** The honest run, with the responder's view under any claimed identity. *)
Lemma handshake r1 r2 r3 r4 r5 alice eph spk otpks keys :
  spk_public_key spk = HybridKemPrivateKey_public_key (res_signed_prekey keys) ->
  spk_key_id spk = res_signed_prekey_id keys -> holds_first otpks keys ->
  exists bundle out msg,
    PreKeyBundle_new (res_identity keys) spk otpks = Ok bundle /\
    pqxdh_initiator r1 r2 r3 r4 r5
      {| ini_identity := alice; ini_ephemeral := eph; ini_peer_bundle := bundle |} = Ok (out, msg) /\
    length (out_shared_secret out) = 32%nat /\
    pm_identity_public msg = IdentityKeyPair_public alice /\
    (is_u32 (spk_key_id spk) -> Forall wf otpks -> wf msg) /\
    forall p, pqxdh_responder keys (claim_identity p msg) = Ok out.
Proof.
  intros Hspk Hid Hopk.
  destruct (bundle_new_eq (res_identity keys) spk otpks) as (bkem & Hbk & sig & Hsig & Hnew).
  destruct (kem_secret_ok alice) as (akem & Hak & _).
  destruct (leg_agrees r1 eph (res_signed_prekey keys)) as (s1 & c1 & He1 & Hd1).
  destruct (leg_agrees r2 akem (res_signed_prekey keys)) as (s2 & c2 & He2 & Hd2).
  destruct (leg_agrees r3 eph bkem) as (s3 & c3 & He3 & Hd3).
  destruct (leg_agrees r4 akem bkem) as (s4 & c4 & He4 & Hd4).
  destruct (one_time_leg r5 eph otpks keys Hopk) as (s5 & c5 & id & sel & He5 & Hsel & Hd5).
  destruct (master_secret_ok s1 s2 s3 s4 (option_map (fun _ => s5) id)) as (s & Hs & Hlen).
  match type of Hnew with _ = Ok ?b => exists b end.
  unfold pqxdh_initiator, PreKeyBundle_verify. 
  cbn [ini_identity ini_ephemeral ini_peer_bundle identity_key identity_kem_public signed_prekey
       one_time_prekeys bundle_signature].
  rewrite (sign_verifies _ _ _ Hsig), Hak, Hspk. cbn [mbind result_bind].
  rewrite He1, He2, He3, He4, He5. cbn -[derive_master_secret]. rewrite Hs.
  eexists _, _. split_and!; [done..| |].
  { intros Hu Hw. split_and!; [apply public_wf | apply public_key_wf | apply public_key_wf | done |].
    intros x Hx. cbn in Hx. subst id. by eapply one_time_id_wf. }
  intros p. unfold pqxdh_responder. rewrite decide_False by (cbn; rewrite Hid; tauto).
  rewrite Hsel by done. cbn -[hybrid_dh derive_master_secret kem_secret mbind].
  rewrite Hbk. cbn [mbind result_bind]. rewrite Hd1, Hd2, Hd3, Hd4. cbn [mbind result_bind].
  rewrite Hd5. cbn [mbind result_bind]. by rewrite Hs.
Qed.
(** C3. Handshake agreement: for every bundle Bob publishes with a signed
    prekey he holds (with or without one-time prekeys, holding the first one)
    and every initiator identity and ephemeral key, the bundle is created,
    [pqxdh_initiator] succeeds, and [pqxdh_responder] on its message returns
    the same 32-byte secret, ephemeral key and prekey ids. *)
Theorem pqxdh_agreement r1 r2 r3 r4 r5 alice eph spk otpks keys :
  spk_public_key spk = HybridKemPrivateKey_public_key (res_signed_prekey keys) ->
  spk_key_id spk = res_signed_prekey_id keys -> holds_first otpks keys ->
  exists bundle out msg,
    PreKeyBundle_new (res_identity keys) spk otpks = Ok bundle /\
    pqxdh_initiator r1 r2 r3 r4 r5
      {| ini_identity := alice; ini_ephemeral := eph; ini_peer_bundle := bundle |} = Ok (out, msg) /\
    pqxdh_responder keys msg = Ok out /\ length (out_shared_secret out) = 32%nat.
Proof.
  intros Hspk Hid Hopk.
  destruct (handshake r1 r2 r3 r4 r5 alice eph spk otpks keys) as (b & out & msg & ? & ? & ? & _ & _ & Hr); [done..|].
  exists b, out, msg. split_and!; [done..| |done]. specialize (Hr (pm_identity_public msg)).
  by destruct msg.
Qed.

(** The claimed identity is not bound: an initiator with its own keys
    can put any identity public key in the message, and the responder
    completes the handshake with the initiator's secret. *)
Theorem pqxdh_identity_not_bound r1 r2 r3 r4 r5 mallory eph spk otpks keys victim :
  spk_public_key spk = HybridKemPrivateKey_public_key (res_signed_prekey keys) ->
  spk_key_id spk = res_signed_prekey_id keys -> holds_first otpks keys ->
  exists bundle out msg,
    PreKeyBundle_new (res_identity keys) spk otpks = Ok bundle /\
    pqxdh_initiator r1 r2 r3 r4 r5
      {| ini_identity := mallory; ini_ephemeral := eph; ini_peer_bundle := bundle |} = Ok (out, msg) /\
    pm_identity_public (claim_identity victim msg) = victim /\
    pqxdh_responder keys (claim_identity victim msg) = Ok out.
Proof.
  intros Hspk Hid Hopk.
  destruct (handshake r1 r2 r3 r4 r5 mallory eph spk otpks keys) as (b & out & msg & ? & ? & ? & _ & _ & Hr); [done..|].
  by exists b, out, msg.
Qed.

(** ** What the responder checks *)

Lemma decapsulate_ok k ct p :
  (exists s, hybrid_dh k p (Some ct) = Ok s) <-> length ct = ML_KEM_1024_CIPHERTEXT_SIZE.
Proof.
  unfold hybrid_dh, decapsulate. cbn [ok_or mbind result_bind]. split.
  - intros (s & Hs). by apply result_bind_ok in Hs as (c & [_ Hc]%try_into_array_ok & _).
  - intros Hc. rewrite try_into_array_len by done. cbn [mbind result_bind].
    destruct (hybrid_shared_ok (x25519_dh (ks_classical k) (kp_classical p)) (ml_kem_decapsulate (ks_pq k) ct))
      as (s & -> & _). eauto.
Qed.

Lemma select_ok keys m sel :
  select_one_time_prekey keys m = Ok sel <->
  sel = res_one_time_prekey keys /\
  match pm_one_time_prekey_id m with
  | Some id => sel <> None /\ res_one_time_prekey_id keys = Some id
  | None => sel = None
  end.
Proof.
  unfold select_one_time_prekey.
  destruct (res_one_time_prekey keys), (pm_one_time_prekey_id m); try case_decide; naive_solver.
Qed.

Lemma responder_ok keys m out :
  pqxdh_responder keys m = Ok out <->
  pm_signed_prekey_id m = res_signed_prekey_id keys /\
  exists sel kem d1 d2 d3 d4 d5 s,
    select_one_time_prekey keys m = Ok sel /\ kem_secret (res_identity keys) = Ok kem /\
    hybrid_dh (res_signed_prekey keys) (pm_ephemeral_public m) (Some (ct_0 (pm_ciphertexts m))) = Ok d1 /\
    hybrid_dh (res_signed_prekey keys) (pm_identity_kem_public m) (Some (ct_1 (pm_ciphertexts m))) = Ok d2 /\
    hybrid_dh kem (pm_ephemeral_public m) (Some (ct_2 (pm_ciphertexts m))) = Ok d3 /\
    hybrid_dh kem (pm_identity_kem_public m) (Some (ct_3 (pm_ciphertexts m))) = Ok d4 /\
    match sel, pm_one_time_ciphertext m with
    | Some opk, Some ct => d ← hybrid_dh opk (pm_ephemeral_public m) (Some ct); mret (Some d)
    | _, _ => mret None
    end = Ok d5 /\
    derive_master_secret d1 d2 d3 d4 d5 = Ok s /\
    out = {| out_shared_secret := s; out_ephemeral_public := pm_ephemeral_public m;
             out_signed_prekey_id := pm_signed_prekey_id m;
             out_one_time_prekey_id := pm_one_time_prekey_id m |}.
Proof.
  unfold pqxdh_responder. split.
  - case_decide as Hid; [done|]. intros Hr. split; [by destruct (decide (pm_signed_prekey_id m = res_signed_prekey_id keys))|].
    repeat match goal with
      | H : (_ ≫= _) = Ok out |- _ => apply result_bind_ok in H as (? & ? & H)
      end.
    injection Hr as <-. eauto 20.
  - intros (Hid & sel & kem & d1 & d2 & d3 & d4 & d5 & s & H1 & H2 & H3 & H4 & H5 & H6 & H7 & H8 & ->).
    rewrite decide_False by tauto. rewrite H1, H2. cbn [mbind result_bind].
    rewrite H3, H4, H5, H6. cbn [mbind result_bind]. rewrite H7. cbn [mbind result_bind]. by rewrite H8.
Qed.

Definition one_time_ct (m : PqxdhPrekeyMessage) : bytes := default [] (pm_one_time_ciphertext m).

(** C35. The responder accepts exactly the messages that name its signed
    prekey, that name its one-time prekey exactly when it holds one, and
    whose ciphertexts have the ML-KEM size (the fifth one only when it is
    there and a one-time prekey is used). *)
Theorem pqxdh_responder_accepts keys m :
  (exists out, pqxdh_responder keys m = Ok out) <->
  pm_signed_prekey_id m = res_signed_prekey_id keys /\
  match res_one_time_prekey keys, pm_one_time_prekey_id m with
  | Some _, Some id => res_one_time_prekey_id keys = Some id /\
      (pm_one_time_ciphertext m <> None -> length (one_time_ct m) = ML_KEM_1024_CIPHERTEXT_SIZE)
  | None, None => True
  | _, _ => False
  end /\
  Forall (fun ct => length ct = ML_KEM_1024_CIPHERTEXT_SIZE)
    [ct_0 (pm_ciphertexts m); ct_1 (pm_ciphertexts m); ct_2 (pm_ciphertexts m); ct_3 (pm_ciphertexts m)].
Proof.
  setoid_rewrite responder_ok. setoid_rewrite select_ok. rewrite !Forall_cons. split.
  - intros (out & Hid & sel & kem & d1 & d2 & d3 & d4 & d5 & s & [Hsel Hm] & Hk & H1 & H2 & H3 & H4 & H5 & _).
    split; [done|]. split; [|by split_and!; [eapply decapsulate_ok; eauto..|constructor]].
    subst sel. destruct (res_one_time_prekey keys) as [k|], (pm_one_time_prekey_id m); try naive_solver.
    split; [by destruct Hm|]. unfold one_time_ct. destruct (pm_one_time_ciphertext m) as [ct|]; [|done]. intros _.
    apply result_bind_ok in H5 as (d & Hd & _). eapply decapsulate_ok. eauto.
  - intros (Hid & Hsel & H1 & H2 & H3 & H4 & _). destruct (kem_secret_ok (res_identity keys)) as (kem & Hk & _).
    apply (decapsulate_ok (res_signed_prekey keys) _ (pm_ephemeral_public m)) in H1 as [d1 H1].
    apply (decapsulate_ok (res_signed_prekey keys) _ (pm_identity_kem_public m)) in H2 as [d2 H2].
    apply (decapsulate_ok kem _ (pm_ephemeral_public m)) in H3 as [d3 H3].
    apply (decapsulate_ok kem _ (pm_identity_kem_public m)) in H4 as [d4 H4].
    assert (exists d5, match res_one_time_prekey keys, pm_one_time_ciphertext m with
      | Some opk, Some ct => d ← hybrid_dh opk (pm_ephemeral_public m) (Some ct); mret (Some d)
      | _, _ => mret None end = (Ok d5 : result CryptoError _)) as [d5 H5].
    { destruct (res_one_time_prekey keys) as [k|]; [|by eexists].
      unfold one_time_ct in Hsel. destruct (pm_one_time_ciphertext m) as [ct|]; [|by eexists].
      destruct (pm_one_time_prekey_id m); [|done].
      destruct (proj2 (decapsulate_ok k ct (pm_ephemeral_public m))) as [d ->]; [naive_solver|]. by eexists. }
    destruct (master_secret_ok d1 d2 d3 d4 d5) as (s & Hs & _).
    eexists. split; [done|]. exists (res_one_time_prekey keys), kem, d1, d2, d3, d4, d5, s.
    split_and!; try done. destruct (res_one_time_prekey keys), (pm_one_time_prekey_id m); naive_solver.
Qed.
(** The same handshake without the one-time prekey. *)
Definition no_one_time_keys (k : PqxdhResponderKeys) : PqxdhResponderKeys :=
  {| res_identity := res_identity k; res_signed_prekey := res_signed_prekey k;
     res_signed_prekey_id := res_signed_prekey_id k;
     res_one_time_prekey := None; res_one_time_prekey_id := None |}.
Definition no_one_time_msg (m : PqxdhPrekeyMessage) : PqxdhPrekeyMessage :=
  {| pm_identity_public := pm_identity_public m; pm_identity_kem_public := pm_identity_kem_public m;
     pm_ephemeral_public := pm_ephemeral_public m; pm_ciphertexts := pm_ciphertexts m;
     pm_one_time_ciphertext := None;
     pm_signed_prekey_id := pm_signed_prekey_id m; pm_one_time_prekey_id := None |}.

(** The one-time leg can be stripped: removing the one-time ciphertext
    from an acceptable message that names a one-time prekey leaves an
    acceptable message; the responder reports the one-time prekey as used, but
    its secret is the one of a handshake without any one-time prekey. *)
Theorem pqxdh_one_time_leg_strippable keys m id out :
  pm_one_time_prekey_id m = Some id -> pqxdh_responder keys m = Ok out ->
  exists out' plain,
    pqxdh_responder keys (strip_one_time m) = Ok out' /\
    out_one_time_prekey_id out' = Some id /\
    pqxdh_responder (no_one_time_keys keys) (no_one_time_msg m) = Ok plain /\
    out_shared_secret out' = out_shared_secret plain.
Proof.
  intros Hm. rewrite responder_ok.
  intros (Hid & sel & kem & d1 & d2 & d3 & d4 & _ & _ & Hsel & Hk & H1 & H2 & H3 & H4 & _).
  destruct (master_secret_ok d1 d2 d3 d4 None) as (s & Hs & _).
  eexists _, _. split_and!; [| |apply responder_ok; split; [done|]; exists None, kem, d1, d2, d3, d4, None, s; by split_and!|].
  - apply responder_ok. split; [done|]. exists sel, kem, d1, d2, d3, d4, None, s.
    split_and!; try done. cbn. by destruct sel.
  - done.
  - done.
Qed.

(** ** The initial message *)

(** An initial message decrypts, under the same secret and associated
    data, to its plaintext; it is 28 bytes longer; and a message shorter than
    a nonce is rejected as too short. *)
Theorem pqxdh_initial_roundtrip nonce secret plaintext ad :
  length nonce = CHACHA20_POLY1305_NONCE_SIZE -> Z.of_nat (length plaintext) < 2 ^ 37 ->
  (exists msg, pqxdh_encrypt_initial nonce secret plaintext ad = Ok msg /\
     length msg = (12 + length plaintext + 16)%nat /\
     pqxdh_decrypt_initial secret msg ad = Ok plaintext) /\
  forall short, (length short < 12)%nat ->
    pqxdh_decrypt_initial secret short ad = Err (InvalidMessage "Message too short").
Proof.
  intros Hn Hp. unfold pqxdh_encrypt_initial, pqxdh_decrypt_initial. split.
  - destruct (aead_seals secret nonce ad plaintext Hp) as (ct & Hct). rewrite Hct. cbn [ok_or mbind result_bind].
    eexists. split_and!; [done| |].
    + rewrite length_app, Hn, (length_aead _ _ _ _ _ Hct). unfold CHACHA20_POLY1305_NONCE_SIZE. lia.
    + rewrite decide_False by (rewrite length_app, Hn; lia).
      rewrite take_app_len, drop_app_len by done. rewrite try_into_array_len by done.
      cbn [mbind result_bind]. by rewrite (aead_opens _ _ _ _ _ Hct).
  - intros short Hs. by rewrite decide_True.
Qed.
End Props.

(** ** Evaluation *)

Definition bob_keys : PqxdhResponderKeys :=
  {| res_identity := bob_identity; res_signed_prekey := bob_kem; res_signed_prekey_id := 1;
     res_one_time_prekey := Some alice_kem; res_one_time_prekey_id := Some 7 |}.

Definition sample_message : PqxdhPrekeyMessage :=
  {| pm_identity_public := IdentityKeyPair_public alice_identity;
     pm_identity_kem_public := HybridKemPrivateKey_public_key alice_kem;
     pm_ephemeral_public := HybridKemPrivateKey_public_key alice_kem;
     pm_ciphertexts := {| ct_0 := expand 1568 [bs "0"]; ct_1 := expand 1568 [bs "1"];
                          ct_2 := expand 1568 [bs "2"]; ct_3 := expand 1568 [bs "3"] |};
     pm_one_time_ciphertext := Some (expand 1568 [bs "4"]);
     pm_signed_prekey_id := 1; pm_one_time_prekey_id := Some 7 |}.

Lemma pqxdh_agreement_witness :
  exists bundle out msg,
    PreKeyBundle_new bob_identity (sample_spk (bs "s")) [sample_otpk] = Ok bundle /\
    pqxdh_initiator (bs "1") (bs "2") (bs "3") (bs "4") (bs "5")
      {| ini_identity := alice_identity; ini_ephemeral := alice_kem; ini_peer_bundle := bundle |} = Ok (out, msg) /\
    pqxdh_responder bob_keys msg = Ok out /\ length (out_shared_secret out) = 32%nat.
Proof.
  apply (pqxdh_agreement (bs "1") (bs "2") (bs "3") (bs "4") (bs "5") alice_identity alice_kem
           (sample_spk (bs "s")) [sample_otpk] bob_keys); [reflexivity..|]. by exists alice_kem.
Defined.

Lemma pqxdh_identity_not_bound_witness :
  exists bundle out msg,
    PreKeyBundle_new bob_identity (sample_spk (bs "s")) [sample_otpk] = Ok bundle /\
    pqxdh_initiator (bs "1") (bs "2") (bs "3") (bs "4") (bs "5")
      {| ini_identity := alice_identity; ini_ephemeral := alice_kem; ini_peer_bundle := bundle |} = Ok (out, msg) /\
    pm_identity_public (claim_identity (IdentityKeyPair_public bob_identity) msg) = IdentityKeyPair_public bob_identity /\
    pqxdh_responder bob_keys (claim_identity (IdentityKeyPair_public bob_identity) msg) = Ok out.
Proof.
  apply (pqxdh_identity_not_bound (bs "1") (bs "2") (bs "3") (bs "4") (bs "5") alice_identity alice_kem
           (sample_spk (bs "s")) [sample_otpk] bob_keys); [reflexivity..|]. by exists alice_kem.
Defined.

Lemma pqxdh_responder_accepts_witness : exists out, pqxdh_responder bob_keys sample_message = Ok out.
Proof.
  apply pqxdh_responder_accepts. split; [reflexivity | split].
  { split; [reflexivity | intros _; apply length_expand]. }
  repeat constructor; apply length_expand.
Defined.

Lemma sample_accepted : is_ok (pqxdh_responder bob_keys sample_message) = true.
Proof. vm_compute. reflexivity. Qed.

Lemma pqxdh_one_time_leg_strippable_witness :
  exists out' plain,
    pqxdh_responder bob_keys (strip_one_time sample_message) = Ok out' /\
    out_one_time_prekey_id out' = Some 7 /\
    pqxdh_responder (no_one_time_keys bob_keys) (no_one_time_msg sample_message) = Ok plain /\
    out_shared_secret out' = out_shared_secret plain.
Proof.
  pose proof sample_accepted as Hacc.
  destruct (pqxdh_responder bob_keys sample_message) as [out|e|p] eqn:Hout; [|discriminate..].
  exact (pqxdh_one_time_leg_strippable bob_keys sample_message 7 out eq_refl Hout).
Defined.

Lemma pqxdh_initial_roundtrip_witness :
  (exists msg, pqxdh_encrypt_initial (expand 12 [bs "n"]) (pad32 (bs "k")) (bs "Hello, world!") (bs "ad") = Ok msg /\
     length msg = 41%nat /\ pqxdh_decrypt_initial (pad32 (bs "k")) msg (bs "ad") = Ok (bs "Hello, world!")) /\
  forall short, (length short < 12)%nat ->
    pqxdh_decrypt_initial (pad32 (bs "k")) short (bs "ad") = Err (InvalidMessage "Message too short").
Proof. apply (pqxdh_initial_roundtrip (expand 12 [bs "n"])); [reflexivity | reflexivity]. Defined.
