(* ===== verification/Keys.v ===== *)
(** Session keys, sender keys and media keys: [presidium-crypto/src/keys.rs].
    The sender-key methods on [&mut self] are computations of [M SenderKeys]:
    [encrypt] has already advanced the chain when the cipher fails. *)

From S2P Require Import Prelude Constants Prims Identity Ratchet.

(** ** Data *)

Record SessionKeys := {
  sk_is_initiator : bool;
  sk_root_key : bytes;
  sk_sending_chain : bytes;
  sk_receiving_chain : bytes;
  sk_peer_identity : IdentityPublicKey;
  sk_message_count : Z
}.

(** The newtype [IdentityKey { public }]. *)
Record IdentityKey := { ik_public : bytes }.

Record SenderKeys := {
  snd_chain_key : bytes;
  snd_group_id : bytes;
  snd_sender_identity : IdentityKey;
  snd_message_index : Z;
  snd_key_id : Z
}.

Record SenderKeyMessage := {
  skm_group_id : bytes;
  skm_sender_identity : IdentityKey;
  skm_message_index : Z;
  skm_ciphertext : bytes
}.

Record MediaKey := { media_key : bytes; media_kind : Z }.

#[export] Instance SenderKeyMessage_wf : Wf SenderKeyMessage := fun m => is_u64 (skm_message_index m).

(** Field assignments. *)
Definition set_snd_chain (k : bytes) (s : SenderKeys) : SenderKeys :=
  {| snd_chain_key := k; snd_group_id := snd_group_id s; snd_sender_identity := snd_sender_identity s;
     snd_message_index := snd_message_index s; snd_key_id := snd_key_id s |}.
Definition set_snd_index (i : Z) (s : SenderKeys) : SenderKeys :=
  {| snd_chain_key := snd_chain_key s; snd_group_id := snd_group_id s;
     snd_sender_identity := snd_sender_identity s;
     snd_message_index := i; snd_key_id := snd_key_id s |}.

Section Keys.
Context `{C : Crypto, B : Build}.

(** ** Session keys *)

Definition SessionKeys_new (is_initiator : bool) (shared_secret : bytes) (peer_identity : IdentityPublicKey)
    : result CryptoError SessionKeys :=
  root_key ← ok_or (hkdf_sha256 None shared_secret (bs "ROOT_KEY") ROOT_KEY_SIZE)
                   (KeyDerivationFailed "Root key derivation failed");
  sending_chain ← ok_or (hkdf_sha256 None shared_secret (bs "SENDING_CHAIN") CHAIN_KEY_SIZE)
                        (KeyDerivationFailed "Sending chain derivation failed");
  receiving_chain ← ok_or (hkdf_sha256 None shared_secret (bs "RECEIVING_CHAIN") CHAIN_KEY_SIZE)
                          (KeyDerivationFailed "Receiving chain derivation failed");
  mret {| sk_is_initiator := is_initiator; sk_root_key := root_key; sk_sending_chain := sending_chain;
          sk_receiving_chain := receiving_chain; sk_peer_identity := peer_identity; sk_message_count := 0 |}.

Definition SessionKeys_increment_count (k : SessionKeys) : SessionKeys :=
  {| sk_is_initiator := sk_is_initiator k; sk_root_key := sk_root_key k;
     sk_sending_chain := sk_sending_chain k; sk_receiving_chain := sk_receiving_chain k;
     sk_peer_identity := sk_peer_identity k;
     sk_message_count := u64_saturating_add (sk_message_count k) 1 |}.

Definition SessionKeys_needs_rotation (k : SessionKeys) : bool :=
  KEY_ROTATION_MESSAGE_COUNT <=? sk_message_count k.

Definition SessionKeys_to_ratchet (k : SessionKeys) (our_dh_key : bytes) (peer_dh_public : option bytes)
    : result CryptoError DoubleRatchet :=
  let rk := RootKey_new (sk_root_key k) in
  if sk_is_initiator k then
    peer ← ok_or peer_dh_public (InvalidParameter "Peer ratchet public key required");
    DoubleRatchet_init "presidium-session" rk our_dh_key peer []
  else DoubleRatchet_init_as_responder "presidium-session" rk our_dh_key [].

(** ** Sender keys *)

Definition keys_hmac_sha256 (key data : bytes) : result CryptoError bytes :=
  ok_or (hmac_mac key data) (KeyDerivationFailed "Invalid HMAC key").

(** [rnd] is the drawn chain key. *)
Definition SenderKeys_new (rnd group_id : bytes) (sender : IdentityKey) : result CryptoError SenderKeys :=
  Ok {| snd_chain_key := rnd; snd_group_id := group_id; snd_sender_identity := sender;
        snd_message_index := 0; snd_key_id := 1 |}.

Definition SenderKeys_encrypt (plaintext ad : bytes) : M SenderKeys CryptoError bytes :=
  chain ← gets snd_chain_key;
  digest ← lift (keys_hmac_sha256 chain MESSAGE_KEY_INFO);
  let msg_key := take MESSAGE_KEY_SIZE digest in
  next ← lift (keys_hmac_sha256 chain (bs "presidium-sender-advance"));
  modify (set_snd_chain (take CHAIN_KEY_SIZE next));;
  nonce_index ← gets snd_message_index;
  index ← lift (u64_add nonce_index 1);
  modify (set_snd_index index);;
  lift (ok_or (aead_encrypt msg_key (message_nonce nonce_index) ad plaintext)
              (EncryptionFailed "Sender key encryption failed")).

Definition SenderKeys_decrypt (ciphertext : bytes) (index : Z) (ad : bytes) : M SenderKeys CryptoError bytes :=
  chain ← gets snd_chain_key;
  digest ← lift (keys_hmac_sha256 chain MESSAGE_KEY_INFO);
  let msg_key := take MESSAGE_KEY_SIZE digest in
  lift (ok_or (aead_decrypt msg_key (message_nonce index) ad ciphertext) DecryptionFailed).

Definition SenderKeys_advance : M SenderKeys CryptoError unit :=
  chain ← gets snd_chain_key;
  next ← lift (keys_hmac_sha256 chain (bs "presidium-sender-advance"));
  modify (set_snd_chain (take CHAIN_KEY_SIZE next));;
  index ← gets snd_message_index;
  modify (set_snd_index (u64_saturating_add index 1)).

(** ** Media keys *)

(** Four zero bytes and the big-endian chunk index. *)
Definition media_nonce (index : Z) : bytes := replicate 4 x00 ++ be_bytes 8 index.

Definition MediaKey_generate (rnd : bytes) (kind : Z) : result CryptoError MediaKey :=
  Ok {| media_key := rnd; media_kind := kind |}.

Definition MediaKey_encrypt_chunk (k : MediaKey) (chunk : bytes) (chunk_index : Z) : result CryptoError bytes :=
  ok_or (aead_encrypt (media_key k) (media_nonce chunk_index) (bs "presidium-media") chunk)
        (EncryptionFailed "Media encryption failed").

Definition MediaKey_decrypt_chunk (k : MediaKey) (chunk : bytes) (chunk_index : Z) : result CryptoError bytes :=
  ok_or (aead_decrypt (media_key k) (media_nonce chunk_index) (bs "presidium-media") chunk)
        DecryptionFailed.
End Keys.
