(* ===== verification/KeysProps.v ===== *)
(** Session, sender and media keys: agreement of the two peers, the sender
    chain in lock step, and the whole path from prekey bundle to delivered
    messages. *)

From S2P Require Import Prelude Constants Prims Concrete Ratchet RatchetFacts RatchetProps.
From S2P Require Import Identity IdentityProps Pqxdh PqxdhProps Keys.

Section Props.
Context `{C : Crypto, L : !CryptoLaws C, B : Build}.

(** ** Session keys *)

Lemma session_hkdf_ok s info : exists k, hkdf_sha256 None s info 32 = Some k /\ length k = 32%nat.
Proof. apply hkdf_expands. lia. Qed.

Lemma session_keys_eq s :
  exists root send recv, forall init peer,
    SessionKeys_new init s peer =
    Ok {| sk_is_initiator := init; sk_root_key := root; sk_sending_chain := send;
          sk_receiving_chain := recv; sk_peer_identity := peer; sk_message_count := 0 |}.
Proof.
  destruct (session_hkdf_ok s (bs "ROOT_KEY")) as (root & Hr & _).
  destruct (session_hkdf_ok s (bs "SENDING_CHAIN")) as (send & Hs & _).
  destruct (session_hkdf_ok s (bs "RECEIVING_CHAIN")) as (recv & Hv & _).
  exists root, send, recv. intros init peer. unfold SessionKeys_new, ROOT_KEY_SIZE, CHAIN_KEY_SIZE.
  by rewrite Hr, Hs, Hv.
Qed.

(** Both peers derive the same material from one secret: the keys of
    [SessionKeys::new] depend on the secret alone (neither the role nor the
    peer identity enters, so the two "sending" chains are equal), and the root
    and sending keys are those of [pqxdh_derive_keys]. *)
Theorem session_keys_agree s peer_a peer_b :
  exists a b, SessionKeys_new true s peer_b = Ok a /\ SessionKeys_new false s peer_a = Ok b /\
    sk_root_key a = sk_root_key b /\ sk_sending_chain a = sk_sending_chain b /\
    sk_receiving_chain a = sk_receiving_chain b /\
    forall out, out_shared_secret out = s ->
      pqxdh_derive_keys out = Ok (sk_root_key a, sk_sending_chain a).
Proof.
  destruct (session_keys_eq s) as (root & send & recv & Hk).
  eexists _, _. rewrite !Hk. split_and!; [done..|]. intros out <-. specialize (Hk true peer_a).
  unfold SessionKeys_new in Hk. unfold pqxdh_derive_keys.
  apply result_bind_ok in Hk as (? & -> & Hk). apply result_bind_ok in Hk as (? & -> & Hk).
  by apply result_bind_ok in Hk as (? & _ & [= -> -> _]).
Qed.

(** The counter after [n] calls of [increment_count]. *)
Lemma count_iter n k :
  is_u64 (sk_message_count k) ->
  sk_message_count (Nat.iter n SessionKeys_increment_count k) =
  Z.min (sk_message_count k + Z.of_nat n) u64_max.
Proof.
  unfold is_u64, u64_max. intros Hk. induction n as [|n IH]; [cbn; lia|].
  change (Nat.iter (S n) SessionKeys_increment_count k)
    with (SessionKeys_increment_count (Nat.iter n SessionKeys_increment_count k)).
  cbn [SessionKeys_increment_count sk_message_count]. rewrite IH. unfold u64_saturating_add, u64_max. lia.
Qed.

(** Rotation is asked for exactly from the 1000th message of a session
    on, for good: the counter of a new session saturates instead of wrapping. *)
Theorem rotation_from_1000 init s peer n :
  exists k, SessionKeys_new init s peer = Ok k /\
    SessionKeys_needs_rotation (Nat.iter n SessionKeys_increment_count k) = bool_decide (1000 <= n)%nat.
Proof.
  destruct (session_keys_eq s) as (root & send & recv & Hk). eexists. split; [apply Hk|].
  unfold SessionKeys_needs_rotation, KEY_ROTATION_MESSAGE_COUNT. rewrite count_iter by done.
  cbn [sk_message_count]. unfold u64_max. case_bool_decide; [apply Z.leb_le | apply Z.leb_gt]; lia.
Qed.

(** ** From bundle to delivered messages *)

Section Session.
Context {SH : Serde RatchetMessageHeader} {SO : SerdeOk RatchetMessageHeader}.

(** C4. End to end: Bob publishes a bundle, Alice runs [pqxdh_initiator], Bob
    [pqxdh_responder]; both build session keys and ratchets from the outputs
    (Alice with Bob's ratchet public key); Alice encrypts up to 1001 messages
    and Bob, after one [dh_ratchet] on Alice's key, reads any of them in any
    order.  Every step succeeds. *)
Theorem handshake_to_delivery r1 r2 r3 r4 r5 alice eph spk otpks keys a b pts order :
  spk_public_key spk = HybridKemPrivateKey_public_key (res_signed_prekey keys) ->
  spk_key_id spk = res_signed_prekey_id keys -> holds_first otpks keys ->
  (length pts <= S MAX_SKIP_MESSAGES)%nat ->
  Forall (fun pt => Z.of_nat (length pt) < 2 ^ 37) pts ->
  NoDup order -> Forall (fun n => (n < length pts)%nat) order ->
  exists bundle out_a msg out_b keys_a keys_b ratchet_a ratchet_b ratchet_a' msgs ratchet_b',
    PreKeyBundle_new (res_identity keys) spk otpks = Ok bundle /\
    pqxdh_initiator r1 r2 r3 r4 r5
      {| ini_identity := alice; ini_ephemeral := eph; ini_peer_bundle := bundle |} = Ok (out_a, msg) /\
    pqxdh_responder keys msg = Ok out_b /\
    SessionKeys_new true (out_shared_secret out_a) (identity_key bundle) = Ok keys_a /\
    SessionKeys_new false (out_shared_secret out_b) (pm_identity_public msg) = Ok keys_b /\
    SessionKeys_to_ratchet keys_a a (Some (x25519_public b)) = Ok ratchet_a /\
    SessionKeys_to_ratchet keys_b b None = Ok ratchet_b /\
    encrypt_all pts ratchet_a = (ratchet_a', Ok msgs) /\
    DoubleRatchet_dh_ratchet (x25519_public a) ratchet_b = (ratchet_b', Ok tt) /\
    (decrypt_all (omap (fun n => msgs !! n) order) ratchet_b').2 = Ok (omap (fun n => pts !! n) order).
Proof.
  intros Hspk Hid Hopk Hl Hp Hnd Hb.
  destruct (handshake r1 r2 r3 r4 r5 alice eph spk otpks keys) as (bundle & out & msg & Hbun & Hini & _ & _ & _ & Hres); [done..|].
  specialize (Hres (pm_identity_public msg)).
  replace (claim_identity (pm_identity_public msg) msg) with msg in Hres by by destruct msg.
  destruct (session_keys_eq (out_shared_secret out)) as (root & send & recv & Hk).
  destruct (session_start "presidium-session" (RootKey_new root) a b [])
    as (rk & k0 & ra & rb & rb' & Ha & Hb0 & Hdh & _ & _ & Hsend & Hrecv & _).
  destruct (encrypt_all_sealing k0 a ra pts) as (msgs & Hs & Henc); [done..|].
  eexists bundle, out, msg, out, _, _, ra, rb, _, msgs, rb'.
  split_and!; [done | done | done | apply Hk | apply Hk | exact Ha | exact Hb0 | exact Henc | done |].
  by eapply deliver_any_order.
Qed.
End Session.

(** ** Sender keys *)

Definition sender_key (k : bytes) : bytes := take MESSAGE_KEY_SIZE (default [] (hmac_mac k MESSAGE_KEY_INFO)).
Definition sender_next (k : bytes) : bytes :=
  take CHAIN_KEY_SIZE (default [] (hmac_mac k (bs "presidium-sender-advance"))).

Lemma keys_hmac_eq k m : keys_hmac_sha256 k m = Ok (default [] (hmac_mac k m)).
Proof. unfold keys_hmac_sha256. by destruct (hmac_accepts k m) as (t & -> & _). Qed.

(** Reading one group message, as [GroupChat::decrypt] does. *)
Definition sender_receive (ct : bytes) (index : Z) (ad : bytes) : M SenderKeys CryptoError bytes :=
  plaintext ← SenderKeys_decrypt ct index ad;
  SenderKeys_advance;;
  mret plaintext.

(** The sender and the receiver are at the same place of the chain. *)
Definition in_step (s r : SenderKeys) : Prop :=
  snd_chain_key s = snd_chain_key r /\ snd_message_index s = snd_message_index r.

Lemma sender_encrypt_eq pt ad s :
  0 <= snd_message_index s -> snd_message_index s + 1 < 2 ^ 64 -> Z.of_nat (length pt) < 2 ^ 37 ->
  exists ct, SenderKeys_encrypt pt ad s =
      (set_snd_index (snd_message_index s + 1) (set_snd_chain (sender_next (snd_chain_key s)) s), Ok ct) /\
    aead_encrypt (sender_key (snd_chain_key s)) (message_nonce (snd_message_index s)) ad pt = Some ct.
Proof.
  intros H0 Hi Hp. destruct (aead_seals (sender_key (snd_chain_key s)) (message_nonce (snd_message_index s)) ad pt Hp) as [ct Hct].
  exists ct. split; [|done]. unfold SenderKeys_encrypt. mrun. rewrite !keys_hmac_eq. mrun.
  rewrite u64_add_ok by done. mrun. unfold sender_key in Hct. cbn [set_snd_chain snd_message_index]. by rewrite Hct.
Qed.

Lemma sender_decrypt_eq ct i ad r :
  SenderKeys_decrypt ct i ad r =
  (r, ok_or (aead_decrypt (sender_key (snd_chain_key r)) (message_nonce i) ad ct) DecryptionFailed).
Proof. unfold SenderKeys_decrypt. mrun. by rewrite keys_hmac_eq. Qed.

Lemma sender_advance_eq r :
  SenderKeys_advance r =
  (set_snd_index (u64_saturating_add (snd_message_index r) 1) (set_snd_chain (sender_next (snd_chain_key r)) r), Ok tt).
Proof. unfold SenderKeys_advance. mrun. by rewrite keys_hmac_eq. Qed.

(** One message, and a whole conversation: the receiver reads the plaintext
    and both sides move on in step. *)
Lemma sender_step pt ad s r :
  in_step s r -> 0 <= snd_message_index s -> snd_message_index s + 1 < 2 ^ 64 ->
  Z.of_nat (length pt) < 2 ^ 37 ->
  exists s' r' ct, SenderKeys_encrypt pt ad s = (s', Ok ct) /\
    sender_receive ct (snd_message_index s) ad r = (r', Ok pt) /\ in_step s' r' /\
    snd_message_index s' = snd_message_index s + 1.
Proof.
  intros [Hk Hi] H0 Hb Hp. destruct (sender_encrypt_eq pt ad s H0 Hb Hp) as (ct & Henc & Hct).
  eexists _, _, ct. split; [exact Henc|]. unfold sender_receive. mrun.
  rewrite sender_decrypt_eq, <- Hk, (aead_opens _ _ _ _ _ Hct). cbn [ok_or]. mrun. rewrite sender_advance_eq. mrun.
  split_and!; [done| |done]. split; cbn; [by rewrite Hk|].
  unfold u64_saturating_add, u64_max. rewrite <- Hi. lia.
Qed.
(** Ciphertexts with consecutive indices. *)
Fixpoint numbered (i : Z) (cts : list bytes) : list (bytes * Z) :=
  match cts with
  | [] => []
  | ct :: cts => (ct, i) :: numbered (i + 1) cts
  end.

Lemma length_numbered i cts : length (numbered i cts) = length cts.
Proof. revert i. induction cts as [|ct cts IH]; intros i; cbn; [done | by rewrite IH]. Qed.

Lemma sender_stream s ad pts :
  0 <= snd_message_index s -> snd_message_index s + Z.of_nat (length pts) < 2 ^ 64 ->
  Forall (fun pt => Z.of_nat (length pt) < 2 ^ 37) pts ->
  exists s' cts, mapM (fun pt => SenderKeys_encrypt pt ad) pts s = (s', Ok cts) /\ length cts = length pts.
Proof.
  intros H0 Hb Hp. revert s H0 Hb. induction Hp as [|pt pts Hpt Hp IH]; intros s H0 Hb.
  - by exists s, [].
  - cbn [length] in Hb. destruct (sender_encrypt_eq pt ad s) as (ct & Henc & _); [done | lia | done |].
    destruct (IH (set_snd_index (snd_message_index s + 1) (set_snd_chain (sender_next (snd_chain_key s)) s)))
      as (s' & cts & Hencs & Hlen); [cbn; lia | cbn; lia |].
    exists s', (ct :: cts). cbn [mapM]. mrun. rewrite Henc. mrun. rewrite Hencs. mrun. cbn. by rewrite Hlen.
Qed.

(** Group messages delivered in order are all read: a receiver that
    starts from the sender's chain key and index decrypts, with one [advance]
    after each message, exactly the plaintexts the sender encrypted, however
    many; the two chains end in step again. *)
Theorem sender_keys_in_step s r ad pts :
  in_step s r -> 0 <= snd_message_index s ->
  snd_message_index s + Z.of_nat (length pts) < 2 ^ 64 ->
  Forall (fun pt => Z.of_nat (length pt) < 2 ^ 37) pts ->
  exists s' r' cts,
    mapM (fun pt => SenderKeys_encrypt pt ad) pts s = (s', Ok cts) /\
    mapM (fun m => sender_receive m.1 m.2 ad) (numbered (snd_message_index s) cts) r = (r', Ok pts) /\
    in_step s' r'.
Proof.
  intros Hst H0 Hb Hp. revert s r Hst H0 Hb. induction Hp as [|pt pts Hpt Hp IH]; intros s r Hst H0 Hb.
  - by exists s, r, [].
  - cbn [length] in Hb.
    destruct (sender_step pt ad s r) as (s1 & r1 & ct & Henc & Hrec & Hst1 & Hi1); [done | done | lia | done |].
    destruct (IH s1 r1 Hst1) as (s' & r' & cts & Hencs & Hrecs & Hst'); [lia | lia |].
    exists s', r', (ct :: cts). cbn [mapM numbered]. mrun. rewrite Henc, Hrec. mrun.
    rewrite Hi1 in Hrecs. rewrite Hencs, Hrecs. by mrun.
Qed.

(** The outcome of delivering messages one after the other, errors ignored. *)
Definition receive_run (ad : bytes) (msgs : list (bytes * Z)) (r : SenderKeys)
    : SenderKeys * list (result CryptoError bytes) :=
  foldl (fun acc m => let x := sender_receive m.1 m.2 ad acc.1 in (x.1, acc.2 ++ [x.2])) (r, []) msgs.

Lemma receive_run_stuck ad msgs r acc :
  Forall (fun m => aead_decrypt (sender_key (snd_chain_key r)) (message_nonce m.2) ad m.1 = None) msgs ->
  foldl (fun acc m => let x := sender_receive m.1 m.2 ad acc.1 in (x.1, acc.2 ++ [x.2])) (r, acc) msgs =
  (r, acc ++ replicate (length msgs) (Err DecryptionFailed)).
Proof.
  intros Hm. revert acc. induction Hm as [|m msgs Hm Hms IH]; intros acc; cbn [foldl length replicate].
  - by rewrite app_nil_r.
  - assert (sender_receive m.1 m.2 ad r = (r, Err DecryptionFailed)) as Hr.
    { unfold sender_receive. mrun. by rewrite sender_decrypt_eq, Hm. }
    cbn [fst snd]. rewrite Hr. cbn [fst snd]. by rewrite IH, <- app_assoc.
Qed.

(** A lost group message is never made up for: the receiver's key depends
    on how many messages it has read, not on the index of the message.  If the
    key of the missing message opens none of the later ones, every later
    message fails to decrypt and the receiver stays where it was. *)
Theorem lost_group_message_blocks_sender s r ad lost pts :
  in_step s r -> 0 <= snd_message_index s ->
  snd_message_index s + Z.of_nat (length (lost :: pts)) < 2 ^ 64 ->
  Forall (fun pt => Z.of_nat (length pt) < 2 ^ 37) (lost :: pts) ->
  exists s' ct cts,
    mapM (fun pt => SenderKeys_encrypt pt ad) (lost :: pts) s = (s', Ok (ct :: cts)) /\
    let later := numbered (snd_message_index s + 1) cts in
    (Forall (fun m => aead_decrypt (sender_key (snd_chain_key s)) (message_nonce m.2) ad m.1 = None) later ->
     receive_run ad later r = (r, replicate (length pts) (Err DecryptionFailed))).
Proof.
  intros Hst H0 Hb Hp.
  destruct (sender_stream s ad (lost :: pts)) as (s' & cts & Henc & Hlen); [done..|].
  destruct cts as [|ct cts]; [done|]. exists s', ct, cts. split; [done|]. cbn zeta. intros Hf.
  unfold receive_run. destruct Hst as [Hk _]. rewrite Hk in Hf. rewrite receive_run_stuck by done.
  cbn. rewrite length_numbered. by injection Hlen as ->.
Qed.

(** ** Media keys *)

Lemma media_nonce_inj i j : is_u64 i -> is_u64 j -> media_nonce i = media_nonce j -> i = j.
Proof.
  intros Hi Hj Heq. apply app_inj_len in Heq as [_ Heq]; [|done]. by eapply be_bytes_inj in Heq.
Qed.

(** Media chunks: an encrypted chunk decrypts at its own index to the
    chunk, and different indices of one file use different nonces of the
    required 12 bytes. *)
Theorem media_chunk_roundtrip k chunk i :
  Z.of_nat (length chunk) < 2 ^ 37 ->
  (exists ct, MediaKey_encrypt_chunk k chunk i = Ok ct /\ MediaKey_decrypt_chunk k ct i = Ok chunk) /\
  length (media_nonce i) = MEDIA_NONCE_SIZE /\
  forall j, is_u64 i -> is_u64 j -> i <> j -> media_nonce i <> media_nonce j.
Proof.
  intros Hc. split_and!.
  - destruct (aead_seals (media_key k) (media_nonce i) (bs "presidium-media") chunk Hc) as [ct Hct].
    exists ct. unfold MediaKey_encrypt_chunk, MediaKey_decrypt_chunk. by rewrite Hct, (aead_opens _ _ _ _ _ Hct).
  - done.
  - intros j Hi Hj Hne Heq. by apply Hne, media_nonce_inj.
Qed.
End Props.

(** ** Evaluation *)

#[local] Existing Instance dev_build.
#[local] Existing Instance concrete_header.

Lemma session_keys_agree_witness :
  exists a b, SessionKeys_new true (pad32 (bs "s")) (IdentityKeyPair_public bob_identity) = Ok a /\
    SessionKeys_new false (pad32 (bs "s")) (IdentityKeyPair_public alice_identity) = Ok b /\
    sk_root_key a = sk_root_key b /\ sk_sending_chain a = sk_sending_chain b /\
    sk_receiving_chain a = sk_receiving_chain b /\
    forall out, out_shared_secret out = pad32 (bs "s") ->
      pqxdh_derive_keys out = Ok (sk_root_key a, sk_sending_chain a).
Proof. apply session_keys_agree. Defined.

Lemma rotation_from_1000_witness :
  exists k, SessionKeys_new true (pad32 (bs "s")) (IdentityKeyPair_public bob_identity) = Ok k /\
    SessionKeys_needs_rotation (Nat.iter 1000 SessionKeys_increment_count k) = true.
Proof. apply (rotation_from_1000 true (pad32 (bs "s")) (IdentityKeyPair_public bob_identity) 1000). Defined.

Lemma handshake_to_delivery_witness :
  exists bundle out_a msg out_b keys_a keys_b ratchet_a ratchet_b ratchet_a' msgs ratchet_b',
    PreKeyBundle_new bob_identity (sample_spk (bs "s")) [sample_otpk] = Ok bundle /\
    pqxdh_initiator (bs "1") (bs "2") (bs "3") (bs "4") (bs "5")
      {| ini_identity := alice_identity; ini_ephemeral := alice_kem; ini_peer_bundle := bundle |} = Ok (out_a, msg) /\
    pqxdh_responder bob_keys msg = Ok out_b /\
    SessionKeys_new true (out_shared_secret out_a) (identity_key bundle) = Ok keys_a /\
    SessionKeys_new false (out_shared_secret out_b) (pm_identity_public msg) = Ok keys_b /\
    SessionKeys_to_ratchet keys_a alice_secret (Some (x25519_public bob_secret)) = Ok ratchet_a /\
    SessionKeys_to_ratchet keys_b bob_secret None = Ok ratchet_b /\
    encrypt_all [bs "one"; bs "two"; bs "three"] ratchet_a = (ratchet_a', Ok msgs) /\
    DoubleRatchet_dh_ratchet (x25519_public alice_secret) ratchet_b = (ratchet_b', Ok tt) /\
    (decrypt_all (omap (fun n => msgs !! n) [2; 0]%nat) ratchet_b').2 = Ok [bs "three"; bs "one"].
Proof.
  apply (handshake_to_delivery (bs "1") (bs "2") (bs "3") (bs "4") (bs "5") alice_identity alice_kem
           (sample_spk (bs "s")) [sample_otpk] bob_keys alice_secret bob_secret
           [bs "one"; bs "two"; bs "three"] [2; 0]%nat);
    [reflexivity | reflexivity | by exists alice_kem | cbn; unfold MAX_SKIP_MESSAGES; lia | by_decide..].
Defined.

Definition sample_sender : SenderKeys :=
  {| snd_chain_key := pad32 (bs "chain"); snd_group_id := bs "group"; snd_sender_identity := {| ik_public := [] |};
     snd_message_index := 5; snd_key_id := 1 |}.

Lemma sender_keys_in_step_witness :
  exists s' r' cts,
    mapM (fun pt => SenderKeys_encrypt pt (bs "ad")) [bs "a"; bs "b"; bs "c"] sample_sender = (s', Ok cts) /\
    mapM (fun m => sender_receive m.1 m.2 (bs "ad")) (numbered 5 cts) sample_sender
      = (r', Ok [bs "a"; bs "b"; bs "c"]) /\ in_step s' r'.
Proof. apply (sender_keys_in_step sample_sender sample_sender); [done | done | done | by_decide]. Defined.

Definition later_sample : list bytes :=
  match (mapM (fun pt => SenderKeys_encrypt pt (bs "ad")) [bs "a"; bs "b"; bs "c"] sample_sender).2 with
  | Ok (_ :: cts) => cts
  | _ => []
  end.

Lemma later_sample_unreadable :
  Forall (fun m => aead_decrypt (sender_key (snd_chain_key sample_sender)) (message_nonce m.2) (bs "ad") m.1 = None)
    (numbered 6 later_sample).
Proof. by_decide. Qed.

Lemma lost_group_message_blocks_sender_witness :
  exists s' ct cts,
    mapM (fun pt => SenderKeys_encrypt pt (bs "ad")) [bs "a"; bs "b"; bs "c"] sample_sender = (s', Ok (ct :: cts)) /\
    receive_run (bs "ad") (numbered 6 cts) sample_sender =
      (sample_sender, [Err DecryptionFailed; Err DecryptionFailed]).
Proof.
  destruct (lost_group_message_blocks_sender sample_sender sample_sender (bs "ad") (bs "a") [bs "b"; bs "c"])
    as (s' & ct & cts & Henc & Hrun); [done | done | done | by_decide |].
  exists s', ct, cts. split; [exact Henc|]. apply Hrun.
  pose proof later_sample_unreadable as Hl. unfold later_sample in Hl. rewrite Henc in Hl. exact Hl.
Defined.

Lemma media_chunk_roundtrip_witness :
  let k := {| media_key := pad32 (bs "m"); media_kind := 1 |} in
  (exists ct, MediaKey_encrypt_chunk k (bs "chunk") 3 = Ok ct /\ MediaKey_decrypt_chunk k ct 3 = Ok (bs "chunk")) /\
  length (media_nonce 3) = MEDIA_NONCE_SIZE /\
  forall j, is_u64 3 -> is_u64 j -> 3 <> j -> media_nonce 3 <> media_nonce j.
Proof. apply (media_chunk_roundtrip {| media_key := pad32 (bs "m"); media_kind := 1 |}). done. Defined.
