(* ===== verification/Sqleet.v ===== *)
(** The wrapper over the encrypted SQLite engine:
    [presidium-sqleet/src/lib.rs].

    The engine is C code behind a foreign-function interface: the class
    [Engine] lists the functions of the [ffi] module over a state [World]
    (memory, files, all connections).  A function that returns through an out
    parameter returns the pair of what it stored (a null pointer is [None])
    and its result code.  Everything the crate itself does is a definition:
    result codes, parameters, statements and their destructor, rows,
    connections and transactions.

    [c_int] casts wrap; the two loops over [sqlite3_step] take fuel, and
    SqlProps shows how much is enough. *)

From stdpp Require Import pretty.
From S2P Require Import Prelude.

(** ** The foreign functions *)

Class Engine := {
  World : Type;
  Handle : Type;
  Stmt : Type;
  sqlite3_open_v2 : bytes -> Z -> World -> World * (option Handle * Z);
  sqlite3_close_v2 : Handle -> World -> World * Z;
  sqlite3_key : Handle -> bytes -> Z -> World -> World * Z;
  sqlite3_errcode : Handle -> World -> Z;
  sqlite3_errmsg : Handle -> World -> option bytes;
  sqlite3_exec : Handle -> bytes -> World -> World * Z;
  sqlite3_prepare_v2 : Handle -> bytes -> World -> World * (option Stmt * Z);
  sqlite3_finalize : Stmt -> World -> World * Z;
  sqlite3_bind_int64 : Stmt -> Z -> Z -> World -> World * Z;
  sqlite3_bind_text : Stmt -> Z -> bytes -> World -> World * Z;
  sqlite3_bind_blob : Stmt -> Z -> bytes -> Z -> World -> World * Z;
  sqlite3_bind_null : Stmt -> Z -> World -> World * Z;
  sqlite3_step : Stmt -> World -> World * Z;
  sqlite3_column_count : Stmt -> World -> Z;
  sqlite3_column_type : Stmt -> Z -> World -> Z;
  sqlite3_column_int64 : Stmt -> Z -> World -> Z;
  sqlite3_column_blob : Stmt -> Z -> World -> option bytes;
  sqlite3_column_bytes : Stmt -> Z -> World -> Z;
  sqlite3_last_insert_rowid : Handle -> World -> Z;
  sqlite3_busy_timeout : Handle -> Z -> World -> World * Z;
  sqlite3_changes : Handle -> World -> Z
}.

Definition OPEN_READWRITE : Z := 2.
Definition OPEN_CREATE : Z := 4.
Definition OPEN_FULLMUTEX : Z := 4096.
Definition SQLITE_OK : Z := 0.
Definition SQLITE_ROW : Z := 100.
Definition SQLITE_DONE : Z := 101.
Definition SQLITE_NULL : Z := 5.

(** [as c_int] and [as usize]. *)
Definition as_i32 (z : Z) : Z := (z + 2 ^ 31) mod 2 ^ 32 - 2 ^ 31.
Definition as_usize (z : Z) : Z := z mod 2 ^ 64.
Definition i32_max : Z := 2 ^ 31 - 1.

Record SqlError := { sql_code : Z; sql_message : string }.

Definition SqlError_to_string (e : SqlError) : string :=
  "sqleet error " +:+ pretty (sql_code e) +:+ ": " +:+ sql_message e.

(** ** Parameters *)

Inductive Param :=
| Null
| I64 (v : Z)
| Text (s : string)
| Blob (b : bytes).

(** [From<T> for Param]. *)
Class IntoParam (T : Type) := into_param : T -> Param.
#[export] Instance i64_into_param : IntoParam Z := I64.
#[export] Instance bool_into_param : IntoParam bool := fun v => I64 (if v then 1 else 0).
#[export] Instance string_into_param : IntoParam string := Text.
#[export] Instance bytes_into_param : IntoParam bytes := Blob.
#[export] Instance option_i64_into_param : IntoParam (option Z) := from_option I64 Null.
#[export] Instance option_string_into_param : IntoParam (option string) := from_option Text Null.

Section Wrapper.
Context `{E : Engine}.

Abbreviation Io := (M World SqlError).

(** An [unsafe] call. *)
Definition ffi {A} (f : World -> World * A) : Io A := fun w => let '(w', a) := f w in (w', Ok a).

(** What runs when an object goes out of scope, on every path. *)
Definition finally {S A} (drop : S -> S) (body : M S SqlError A) : M S SqlError A := fun s =>
  let '(s', r) := body s in (drop s', r).

(** An error that is read off the state. *)
Definition fail_with {S A} (f : S -> SqlError) : M S SqlError A := fun s => (s, Err (f s)).

(** A local variable with a destructor. *)
Definition scoped {S A} (drop : S * World -> S * World) (x : S) (body : M (S * World) SqlError A) : Io A := fun w =>
  let '((_, w'), r) := finally drop body (x, w) in (w', r).

Definition errmsg_or_unknown (db : Handle) (w : World) : string :=
  match sqlite3_errmsg db w with
  | None => "unknown error"
  | Some msg => from_utf8_lossy msg
  end.

Definition check (db : Handle) (code : Z) : Io unit := fun w =>
  if code =? SQLITE_OK then (w, Ok tt)
  else (w, Err {| sql_code := code; sql_message := errmsg_or_unknown db w |}).

(** ** Rows *)

Record Row := { row_stmt : Stmt }.

Definition column_bytes (row : Row) (idx : Z) (w : World) : Z * option bytes :=
  (sqlite3_column_bytes (row_stmt row) (as_i32 idx) w, sqlite3_column_blob (row_stmt row) (as_i32 idx) w).
Definition column_type (row : Row) (idx : Z) (w : World) : Z := sqlite3_column_type (row_stmt row) (as_i32 idx) w.
Definition column_i64 (row : Row) (idx : Z) (w : World) : Z := sqlite3_column_int64 (row_stmt row) (as_i32 idx) w.

(** [slice::from_raw_parts(ptr, len)]: the first [len] bytes at [ptr]. *)
Definition column_bytes_owned (row : Row) (idx : Z) (w : World) : result SqlError bytes :=
  if column_type row idx w =? SQLITE_NULL
  then Err {| sql_code := SQLITE_OK; sql_message := "attempted to read a NULL column as a value" |}
  else match column_bytes row idx w with
       | (_, None) => Ok []
       | (len, Some ptr) => Ok (take (Z.to_nat (as_usize len)) ptr)
       end.

Class FromSqleetValue (T : Type) := from_sqleet : Row -> Z -> World -> result SqlError T.
#[export] Instance i64_from_sqleet : FromSqleetValue Z := fun row idx w => Ok (column_i64 row idx w).
#[export] Instance bool_from_sqleet : FromSqleetValue bool := fun row idx w => Ok (negb (column_i64 row idx w =? 0)).
#[export] Instance string_from_sqleet : FromSqleetValue string := fun row idx w =>
  b ← column_bytes_owned row idx w; mret (from_utf8_lossy b).
#[export] Instance bytes_from_sqleet : FromSqleetValue bytes := column_bytes_owned.
#[export] Instance option_i64_from_sqleet : FromSqleetValue (option Z) := fun row idx w =>
  if column_type row idx w =? SQLITE_NULL then Ok None else Ok (Some (column_i64 row idx w)).
#[export] Instance option_string_from_sqleet : FromSqleetValue (option string) := fun row idx w =>
  if column_type row idx w =? SQLITE_NULL then Ok None else s ← string_from_sqleet row idx w; mret (Some s).
#[export] Instance option_bytes_from_sqleet : FromSqleetValue (option bytes) := fun row idx w =>
  if column_type row idx w =? SQLITE_NULL then Ok None else b ← bytes_from_sqleet row idx w; mret (Some b).

Definition Row_get {T} `{!FromSqleetValue T} (row : Row) (idx : Z) (w : World) : result SqlError T := from_sqleet row idx w.
Definition Row_column_count (row : Row) (w : World) : Z := as_usize (sqlite3_column_count (row_stmt row) w).

(** ** Statements

    [owned_texts] keeps the C strings of text parameters alive. *)

Record Statement := { st_stmt : Stmt; st_db : Handle; owned_texts : list bytes }.

Abbreviation StmtIo := (M (Statement * World) SqlError).

Definition Statement_prepare (db : Handle) (sql : string) : Io Statement :=
  c_sql ← lift (ok_or (CString_new sql) {| sql_code := SQLITE_OK; sql_message := "SQL contains a NUL byte" |});
  '(stmt, code) ← ffi (sqlite3_prepare_v2 db c_sql);
  match stmt with
  | None =>
      fail_with (fun w => {| sql_code := code;
        sql_message := match check db code w with (_, Err e) => sql_message e | _ => "no rows returned" end |})
  | Some s => mret {| st_stmt := s; st_db := db; owned_texts := [] |}
  end.

Definition push_text (c : bytes) (s : Statement) : Statement :=
  {| st_stmt := st_stmt s; st_db := st_db s; owned_texts := owned_texts s ++ [c] |}.

Definition bind_param (index : Z) (param : Param) : StmtIo unit :=
  self ← gets fst;
  code ← match param with
         | Null => on_second (ffi (sqlite3_bind_null (st_stmt self) index))
         | I64 v => on_second (ffi (sqlite3_bind_int64 (st_stmt self) index v))
         | Text s =>
             c ← lift (ok_or (CString_new s) {| sql_code := SQLITE_OK; sql_message := "text param contains a NUL byte" |});
             on_first (modify (push_text c));;
             on_second (ffi (sqlite3_bind_text (st_stmt self) index c))
         | Blob b => on_second (ffi (sqlite3_bind_blob (st_stmt self) index b (as_i32 (Z.of_nat (length b)))))
         end;
  on_second (check (st_db self) code).

(** The loop of [bind_all], from index [i]. *)
Fixpoint bind_from (i : Z) (params : list Param) : StmtIo unit :=
  match params with
  | [] => mret tt
  | param :: params => bind_param (as_i32 (i + 1)) param;; bind_from (i + 1) params
  end.
Definition bind_all (params : list Param) : StmtIo unit := bind_from 0 params.

Definition Statement_error (db : Handle) (w : World) : SqlError :=
  {| sql_code := sqlite3_errcode db w; sql_message := errmsg_or_unknown db w |}.

Definition Statement_step : StmtIo (option Row) :=
  self ← gets fst;
  code ← on_second (ffi (sqlite3_step (st_stmt self)));
  if code =? SQLITE_ROW then mret (Some {| row_stmt := st_stmt self |})
  else if code =? SQLITE_DONE then mret None
  else fail_with (fun p => Statement_error (st_db self) p.2).

Fixpoint Statement_consume (fuel : nat) : StmtIo unit :=
  match fuel with
  | O => lift (Panic "out of fuel")
  | S fuel =>
      self ← gets fst;
      code ← on_second (ffi (sqlite3_step (st_stmt self)));
      if code =? SQLITE_DONE then mret tt
      else if code =? SQLITE_ROW then Statement_consume fuel
      else fail_with (fun p => Statement_error (st_db self) p.2)
  end.

(** [drop] ignores the result code. *)
Definition Statement_drop (p : Statement * World) : Statement * World :=
  (p.1, (sqlite3_finalize (st_stmt p.1) p.2).1).

Definition with_statement {A} (s : Statement) (body : StmtIo A) : Io A := scoped Statement_drop s body.

(** ** Connections *)

Record Connection := { conn_db : Handle }.

Definition open_flags : Z := Z.lor (Z.lor OPEN_READWRITE OPEN_CREATE) OPEN_FULLMUTEX.

Definition open_handle (c_path : bytes) : Io Connection :=
  '(db, code) ← ffi (sqlite3_open_v2 c_path open_flags);
  match db with
  | None => fail {| sql_code := code; sql_message := "failed to allocate connection" |}
  | Some h => check h code;; mret {| conn_db := h |}
  end.

(** [path] is what [path.to_str()] returns. *)
Definition Connection_open (path : option string) : Io Connection :=
  path_c ← lift (ok_or path {| sql_code := SQLITE_OK; sql_message := "database path is not valid UTF-8" |});
  c_path ← lift (ok_or (CString_new path_c) {| sql_code := SQLITE_OK; sql_message := "database path contains a NUL byte" |});
  open_handle c_path.

Definition Connection_open_in_memory : Io Connection := open_handle (bs ":memory:").

Definition Connection_key (c : Connection) (key : bytes) : Io unit :=
  code ← ffi (sqlite3_key (conn_db c) key (as_i32 (Z.of_nat (length key))));
  check (conn_db c) code.

Definition Connection_execute (fuel : nat) (c : Connection) (sql : string) (params : list Param) : Io Z :=
  stmt ← Statement_prepare (conn_db c) sql;
  with_statement stmt (bind_all params;; Statement_consume fuel;; gets (fun p => as_usize (sqlite3_changes (conn_db c) p.2))).

Definition Connection_execute_batch (c : Connection) (sql : string) : Io unit :=
  c_sql ← lift (ok_or (CString_new sql) {| sql_code := SQLITE_OK; sql_message := "SQL contains a NUL byte" |});
  code ← ffi (sqlite3_exec (conn_db c) c_sql);
  check (conn_db c) code.

(** A row mapper reads the row and may fail. *)
Definition map_row {T} (map : Row -> World -> result SqlError T) (row : Row) : StmtIo T := fun p => (p, map row p.2).

Definition Connection_query_row {T} (c : Connection) (sql : string) (params : list Param)
    (map : Row -> World -> result SqlError T) : Io (option T) :=
  stmt ← Statement_prepare (conn_db c) sql;
  with_statement stmt
    (bind_all params;;
     row ← Statement_step;
     match row with
     | None => mret None
     | Some row => t ← map_row map row; mret (Some t)
     end).

Fixpoint collect_rows {T} (fuel : nat) (map : Row -> World -> result SqlError T) (out : list T) : StmtIo (list T) :=
  match fuel with
  | O => lift (Panic "out of fuel")
  | S fuel =>
      row ← Statement_step;
      match row with
      | None => mret out
      | Some row => t ← map_row map row; collect_rows fuel map (out ++ [t])
      end
  end.

Definition Connection_query_rows {T} (fuel : nat) (c : Connection) (sql : string) (params : list Param)
    (map : Row -> World -> result SqlError T) : Io (list T) :=
  stmt ← Statement_prepare (conn_db c) sql;
  with_statement stmt (bind_all params;; collect_rows fuel map []).

Definition Connection_last_insert_rowid (c : Connection) (w : World) : Z := sqlite3_last_insert_rowid (conn_db c) w.

Definition Connection_busy_timeout (c : Connection) (millis : Z) : Io unit :=
  let ms := Z.min millis i32_max in
  code ← ffi (sqlite3_busy_timeout (conn_db c) ms);
  check (conn_db c) code.

Definition Connection_pragma_i64 (c : Connection) (name : string) : Io Z :=
  v ← Connection_query_row c ("PRAGMA " +:+ name) [] (fun row => Row_get row 0);
  mret (default 0 v).

(** [str::replace] of a quote by two. *)
Definition quote : Ascii.ascii := Ascii.ascii_of_nat 39.
Fixpoint double_quotes (s : string) : string :=
  match s with
  | EmptyString => EmptyString
  | String c s => if decide (c = quote) then String quote (String quote (double_quotes s)) else String c (double_quotes s)
  end.

Definition pragma_sql (name value : string) : string := "PRAGMA " +:+ name +:+ " = '" +:+ double_quotes value +:+ "'".

Definition Connection_pragma_set_string (c : Connection) (name value : string) : Io unit :=
  Connection_execute_batch c (pragma_sql name value).

(** [drop] ignores the result code. *)
Definition Connection_drop (c : Connection) (w : World) : World := (sqlite3_close_v2 (conn_db c) w).1.

(** [close(self)]: the connection is dropped when the method returns. *)
Definition Connection_close (c : Connection) : Io unit :=
  finally (Connection_drop c) (code ← ffi (sqlite3_close_v2 (conn_db c)); check (conn_db c) code).

(** ** Transactions *)

Record Transaction := { tx_conn : Connection; tx_done : bool }.

Definition Transaction_commit : M (Transaction * World) SqlError unit :=
  self ← gets fst;
  on_first (modify (fun t => {| tx_conn := tx_conn t; tx_done := true |}));;
  on_second (Connection_execute_batch (tx_conn self) "COMMIT").

Definition Transaction_drop (p : Transaction * World) : Transaction * World :=
  if tx_done p.1 then p else (p.1, (Connection_execute_batch (tx_conn p.1) "ROLLBACK" p.2).1).

(** [conn.transaction()?] and the scope of the guard. *)
Definition in_transaction {A} (c : Connection) (body : M (Transaction * World) SqlError A) : Io A :=
  Connection_execute_batch c "BEGIN";;
  scoped Transaction_drop {| tx_conn := c; tx_done := false |} body.

Definition Transaction_execute_batch (sql : string) : M (Transaction * World) SqlError unit :=
  self ← gets fst;
  on_second (Connection_execute_batch (tx_conn self) sql).
Definition Transaction_execute (fuel : nat) (sql : string) (params : list Param) : M (Transaction * World) SqlError Z :=
  self ← gets fst;
  on_second (Connection_execute fuel (tx_conn self) sql params).
Definition Transaction_query_row {T} (sql : string) (params : list Param) (map : Row -> World -> result SqlError T)
    : M (Transaction * World) SqlError (option T) :=
  self ← gets fst;
  on_second (Connection_query_row (tx_conn self) sql params map).
Definition Transaction_query_rows {T} (fuel : nat) (sql : string) (params : list Param)
    (map : Row -> World -> result SqlError T) : M (Transaction * World) SqlError (list T) :=
  self ← gets fst;
  on_second (Connection_query_rows fuel (tx_conn self) sql params map).
End Wrapper.
