(* ===== verification/SqleetProps.v ===== *)
(** The SQLite wrapper: resources are released on every path, statements do
    what their SQL denotes, and where the wrapper misuses its handle. *)

From S2P Require Import Prelude Sqleet.

(** ** Resources

    What is alive in the engine's state, and whether a function was called in
    a way whose behaviour the engine leaves undefined. *)

Class Resources (E : Engine) := {
  conn_live : Handle -> World -> Prop;
  stmt_live : Stmt -> World -> Prop;
  undefined : World -> Prop
}.

Section Quiet.
Context {E : Engine} {R : Resources E}.

(** Nothing was opened, closed or misused. *)
Record quiet (w w' : World) : Prop := {
  quiet_undefined : undefined w' -> undefined w;
  quiet_conn h : conn_live h w' <-> conn_live h w;
  quiet_stmt s : stmt_live s w' <-> stmt_live s w
}.

#[export] Instance quiet_refl : Reflexive quiet.
Proof. by intros w. Qed.
#[export] Instance quiet_trans : Transitive quiet.
Proof. intros w1 w2 w3 [U1 C1 S1] [U2 C2 S2]. split; [auto|intros x; by rewrite C2, C1|intros x; by rewrite S2, S1]. Qed.
End Quiet.

(** What the engine's documentation says about its resources. *)
Class EngineSafe {E : Engine} (R : Resources E) : Prop := {
  exec_quiet h sql w : conn_live h w -> quiet w (sqlite3_exec h sql w).1;
  key_quiet h key n w : conn_live h w -> quiet w (sqlite3_key h key n w).1;
  busy_timeout_quiet h ms w : conn_live h w -> quiet w (sqlite3_busy_timeout h ms w).1;
  bind_null_quiet s i w : stmt_live s w -> quiet w (sqlite3_bind_null s i w).1;
  bind_int64_quiet s i v w : stmt_live s w -> quiet w (sqlite3_bind_int64 s i v w).1;
  bind_text_quiet s i c w : stmt_live s w -> quiet w (sqlite3_bind_text s i c w).1;
  bind_blob_quiet s i b n w : stmt_live s w -> quiet w (sqlite3_bind_blob s i b n w).1;
  step_quiet s w : stmt_live s w -> quiet w (sqlite3_step s w).1;
  prepare_none h sql w w' code : conn_live h w -> sqlite3_prepare_v2 h sql w = (w', (None, code)) -> quiet w w';
  prepare_some h sql w w' s code :
    conn_live h w -> sqlite3_prepare_v2 h sql w = (w', (Some s, code)) ->
    ~ stmt_live s w /\ (undefined w' -> undefined w) /\ (forall h, conn_live h w' <-> conn_live h w) /\
    (forall s', stmt_live s' w' <-> s' = s \/ stmt_live s' w);
  finalize_live s w :
    stmt_live s w -> let w' := (sqlite3_finalize s w).1 in
    (undefined w' -> undefined w) /\ (forall h, conn_live h w' <-> conn_live h w) /\
    (forall s', stmt_live s' w' <-> s' <> s /\ stmt_live s' w);
  open_none path flags w w' code : sqlite3_open_v2 path flags w = (w', (None, code)) -> quiet w w';
  open_some path flags w w' h code :
    sqlite3_open_v2 path flags w = (w', (Some h, code)) ->
    ~ conn_live h w /\ (undefined w' -> undefined w) /\ (forall h', conn_live h' w' <-> h' = h \/ conn_live h' w) /\
    (forall s, stmt_live s w' <-> stmt_live s w);
  close_live h w :
    conn_live h w -> let w' := (sqlite3_close_v2 h w).1 in
    (undefined w' -> undefined w) /\ (forall h', conn_live h' w' <-> h' <> h /\ conn_live h' w) /\
    (forall s, stmt_live s w' <-> stmt_live s w);
  close_dead h w : ~ conn_live h w -> undefined (sqlite3_close_v2 h w).1
}.

(** ** Programs that use a connection

    A program calls the methods of a connection and of its transactions, in an
    order that may depend on what they return.  While a transaction is open the
    connection itself may be used as well (a guard only borrows it), and so may
    further transactions.  Row mappers read the row.  [close] takes the
    connection by value, so it can only be the end of a program. *)

Section Programs.
Context `{E : Engine}.
Implicit Types c : Connection.

Inductive program c : forall {A}, M World SqlError A -> Prop :=
| prog_lift A (r : result SqlError A) : program c (lift r)
| prog_bind A B (m : M World SqlError A) (f : A -> M World SqlError B) :
    program c m -> (forall a, program c (f a)) -> program c (m ≫= f)
| prog_key key : program c (Connection_key c key)
| prog_execute fuel sql params : program c (Connection_execute fuel c sql params)
| prog_execute_batch sql : program c (Connection_execute_batch c sql)
| prog_query_row T sql params (map : Row -> World -> result SqlError T) : program c (Connection_query_row c sql params map)
| prog_query_rows T fuel sql params (map : Row -> World -> result SqlError T) : program c (Connection_query_rows fuel c sql params map)
| prog_last_insert_rowid : program c (gets (Connection_last_insert_rowid c))
| prog_busy_timeout ms : program c (Connection_busy_timeout c ms)
| prog_pragma_i64 name : program c (Connection_pragma_i64 c name)
| prog_pragma_set_string name value : program c (Connection_pragma_set_string c name value)
| prog_transaction A (body : M (Transaction * World) SqlError A) : tx_program c body -> program c (in_transaction c body)
with tx_program c : forall {A}, M (Transaction * World) SqlError A -> Prop :=
| tx_lift A (r : result SqlError A) : tx_program c (lift r)
| tx_bind A B (m : M (Transaction * World) SqlError A) (f : A -> M (Transaction * World) SqlError B) :
    tx_program c m -> (forall a, tx_program c (f a)) -> tx_program c (m ≫= f)
| tx_execute fuel sql params : tx_program c (Transaction_execute fuel sql params)
| tx_execute_batch sql : tx_program c (Transaction_execute_batch sql)
| tx_query_row T sql params (map : Row -> World -> result SqlError T) : tx_program c (Transaction_query_row sql params map)
| tx_query_rows T fuel sql params (map : Row -> World -> result SqlError T) : tx_program c (Transaction_query_rows fuel sql params map)
| tx_commit : tx_program c Transaction_commit
| tx_connection A (m : M World SqlError A) : program c m -> tx_program c (on_second m).

Scheme program_mind := Minimality for program Sort Prop
  with tx_program_mind := Minimality for tx_program Sort Prop.
End Programs.

Section Safe.
Context {E : Engine} {R : Resources E} {S : EngineSafe R}.
Implicit Types c : Connection.

Create HintDb quiet.

(** ** Calls *)

Lemma keeps_ffi {A} (P : World -> Prop) (f : World -> World * A) :
  (forall w, P w -> P (f w).1) -> keeps P (ffi f).
Proof. intros Hf w Hw. unfold ffi. specialize (Hf w Hw). by destruct (f w). Qed.

Lemma keeps_check P db code : keeps P (check db code).
Proof. intros w Hw. unfold check. by destruct (_ =? _). Qed.

Lemma keeps_fail_with {T A} (P : T -> Prop) f : keeps P (fail_with f : M T SqlError A).
Proof. by intros w. Qed.

(** [from w0] is what a program that releases everything keeps. *)
Abbreviation from w0 := (fun w => quiet w0 w).

Lemma keeps_conn {A} (h : Handle) w0 (f : World -> World * A) :
  conn_live h w0 -> (forall w, conn_live h w -> quiet w (f w).1) -> keeps (from w0) (ffi f).
Proof. intros Hh Hf. apply keeps_ffi. intros w Hw. etrans; [exact Hw|]. apply Hf. by apply Hw. Qed.

(** ** Statements *)

(** Statement [s] on connection [h], alive since [w1]. *)
Definition scope_ok (s : Stmt) (h : Handle) (w1 : World) (p : Statement * World) : Prop :=
  st_stmt p.1 = s /\ st_db p.1 = h /\ quiet w1 p.2.

Lemma keeps_scope_ffi {A} s h w1 (f : World -> World * A) :
  stmt_live s w1 -> (forall w, stmt_live s w -> quiet w (f w).1) -> keeps (scope_ok s h w1) (on_second (ffi f)).
Proof.
  intros Hs Hf [st w] (H1 & H2 & Hw). unfold on_second, zoom, ffi. cbn in *. specialize (Hf w).
  destruct (f w) as [w' a]. cbn in *. split_and!; [done|done|]. etrans; [exact Hw|]. apply Hf. by apply Hw.
Qed.

Lemma keeps_scope_check s h w1 db code : keeps (scope_ok s h w1) (on_second (check db code)).
Proof. intros [st w] Hp. unfold on_second, zoom, check. by destruct (_ =? _). Qed.

Lemma keeps_self {B} s h w1 (f : Statement -> M (Statement * World) SqlError B) :
  (forall self, st_stmt self = s -> st_db self = h -> keeps (scope_ok s h w1) (f self)) ->
  keeps (scope_ok s h w1) (gets fst ≫= f).
Proof. intros Hf [st w] Hp. mrun. pose proof Hp as (H1 & H2 & _). by apply Hf. Qed.

Lemma keeps_bind_param s h w1 i p : stmt_live s w1 -> keeps (scope_ok s h w1) (bind_param i p).
Proof.
  intros Hs. apply keeps_self. intros self <- <-. apply keeps_bind; [|intros code; apply keeps_scope_check].
  destruct p as [|v|t|b].
  - apply keeps_scope_ffi; [done|]. intros. by apply bind_null_quiet.
  - apply keeps_scope_ffi; [done|]. intros. by apply bind_int64_quiet.
  - apply keeps_bind; [apply keeps_lift|intros c]. apply keeps_bind; [|intros _].
    + intros [st w] (H1 & H2 & Hw). done.
    + apply keeps_scope_ffi; [done|]. intros. by apply bind_text_quiet.
  - apply keeps_scope_ffi; [done|]. intros. by apply bind_blob_quiet.
Qed.

Lemma keeps_bind_all s h w1 ps : stmt_live s w1 -> keeps (scope_ok s h w1) (bind_all ps).
Proof.
  intros Hs. unfold bind_all. generalize 0. induction ps as [|p ps IH]; intros i; cbn [bind_from]; [apply keeps_ret|].
  apply keeps_bind; [by apply keeps_bind_param | done].
Qed.

Lemma keeps_step_code {A} s h w1 (f : Statement -> Z -> M (Statement * World) SqlError A) :
  stmt_live s w1 -> (forall self code, keeps (scope_ok s h w1) (f self code)) ->
  keeps (scope_ok s h w1) (self ← gets fst; code ← on_second (ffi (sqlite3_step (st_stmt self))); f self code).
Proof.
  intros Hs Hf. apply keeps_self. intros self <- <-. apply keeps_bind; [|done].
  apply keeps_scope_ffi; [done|]. intros. by apply step_quiet.
Qed.

Lemma keeps_step s h w1 : stmt_live s w1 -> keeps (scope_ok s h w1) Statement_step.
Proof.
  intros Hs. apply keeps_step_code; [done|]. intros self code.
  destruct (_ =? _); [apply keeps_ret|]. destruct (_ =? _); [apply keeps_ret | apply keeps_fail_with].
Qed.

Lemma keeps_consume s h w1 fuel : stmt_live s w1 -> keeps (scope_ok s h w1) (Statement_consume fuel).
Proof.
  intros Hs. induction fuel as [|fuel IH]; cbn [Statement_consume]; [apply keeps_lift|].
  apply keeps_step_code; [done|]. intros self code.
  destruct (_ =? _); [apply keeps_ret|]. destruct (_ =? _); [done | apply keeps_fail_with].
Qed.

Lemma keeps_map_row {T} s h w1 (map : Row -> World -> result SqlError T) row : keeps (scope_ok s h w1) (map_row map row).
Proof. by intros p. Qed.

Lemma keeps_collect {T} s h w1 fuel (map : Row -> World -> result SqlError T) out :
  stmt_live s w1 -> keeps (scope_ok s h w1) (collect_rows fuel map out).
Proof.
  intros Hs. revert out. induction fuel as [|fuel IH]; intros out; cbn [collect_rows]; [apply keeps_lift|].
  apply keeps_bind; [by apply keeps_step|]. intros [row|]; [|apply keeps_ret].
  apply keeps_bind; [apply keeps_map_row | done].
Qed.

(** Preparing a statement, using it and dropping it leaves no trace. *)
Lemma keeps_statement {A} h sql (body : Statement -> M (Statement * World) SqlError A) w0 :
  conn_live h w0 ->
  (forall s w1, stmt_live s w1 -> keeps (scope_ok s h w1) (body {| st_stmt := s; st_db := h; owned_texts := [] |})) ->
  keeps (from w0) (st ← Statement_prepare h sql; with_statement st (body st)).
Proof.
  intros Hh Hbody w Hw. unfold Statement_prepare. mrun. destruct (ok_or _ _); [|done..]. mrun.
  unfold ffi at 1. destruct (sqlite3_prepare_v2 h a w) as [w1 [[s|] code]] eqn:Hp; mrun.
  - apply prepare_some in Hp as (Hfresh & U & Cn & St); [|by apply Hw].
    unfold with_statement, scoped, finally. specialize (Hbody s w1).
    assert (stmt_live s w1) as Hs by (apply St; by left).
    specialize (Hbody Hs ({| st_stmt := s; st_db := h; owned_texts := [] |}, w1)).
    destruct (body _ _) as [[st' w2] r]. cbn in Hbody.
    destruct Hbody as (<- & _ & [U2 C2 S2]); [by split_and!|]. cbn in *.
    destruct (finalize_live (st_stmt st') w2) as (U3 & C3 & S3); [by apply S2|].
    destruct Hw as [U0 C0 S0]. split; [auto|intros x; by rewrite C3, C2, Cn, C0|].
    intros x. rewrite S3, S2, St, <- S0. split; [by intros [? [?|?]]|]. intros Hx. split; [|by right].
    intros ->. apply Hfresh. done.
  - cbn. etrans; [exact Hw|]. apply prepare_none in Hp; [done|]. by apply Hw.
Qed.

(** ** Programs *)

Lemma keeps_execute c fuel sql ps w0 : conn_live (conn_db c) w0 -> keeps (from w0) (Connection_execute fuel c sql ps).
Proof.
  intros Hh. apply keeps_statement; [done|]. intros s w1 Hs. apply keeps_bind; [by apply keeps_bind_all|intros _].
  apply keeps_bind; [by apply keeps_consume|intros _]. apply keeps_gets.
Qed.

Lemma keeps_query_row {T} c sql ps (map : Row -> World -> result SqlError T) w0 :
  conn_live (conn_db c) w0 -> keeps (from w0) (Connection_query_row c sql ps map).
Proof.
  intros Hh. apply keeps_statement; [done|]. intros s w1 Hs. apply keeps_bind; [by apply keeps_bind_all|intros _].
  apply keeps_bind; [by apply keeps_step|]. intros [row|]; [|apply keeps_ret].
  apply keeps_bind; [apply keeps_map_row|]. intros t. apply keeps_ret.
Qed.

Lemma keeps_query_rows {T} c fuel sql ps (map : Row -> World -> result SqlError T) w0 :
  conn_live (conn_db c) w0 -> keeps (from w0) (Connection_query_rows fuel c sql ps map).
Proof.
  intros Hh. apply keeps_statement; [done|]. intros s w1 Hs. apply keeps_bind; [by apply keeps_bind_all|intros _].
  by apply keeps_collect.
Qed.

Lemma keeps_execute_batch c sql w0 : conn_live (conn_db c) w0 -> keeps (from w0) (Connection_execute_batch c sql).
Proof.
  intros Hh. unfold Connection_execute_batch. apply keeps_bind; [apply keeps_lift|intros b].
  apply keeps_bind; [|intros code; apply keeps_check]. eapply keeps_conn; [done|]. intros. by apply exec_quiet.
Qed.

#[local] Hint Resolve keeps_execute keeps_query_row keeps_query_rows keeps_execute_batch : quiet.

(** The guard keeps its connection. *)
Definition guard_ok (c : Connection) (w0 : World) (p : Transaction * World) : Prop := tx_conn p.1 = c /\ quiet w0 p.2.

Lemma keeps_guard {A} c w0 (f : Connection -> M World SqlError A) :
  keeps (from w0) (f c) -> keeps (guard_ok c w0) (self ← gets fst; on_second (f (tx_conn self))).
Proof.
  intros Hf [t w] [<- Hw]. mrun. unfold on_second, zoom. cbn in *. specialize (Hf w Hw). by destruct (f (tx_conn t) w).
Qed.

Lemma keeps_second {A} c w0 (m : M World SqlError A) : keeps (from w0) m -> keeps (guard_ok c w0) (on_second m).
Proof. intros Hm [t w] [Ht Hw]. unfold on_second, zoom. cbn in *. specialize (Hm w Hw). by destruct (m w). Qed.

Lemma keeps_commit c w0 : conn_live (conn_db c) w0 -> keeps (guard_ok c w0) Transaction_commit.
Proof.
  intros Hh [t w] [<- Hw]. unfold Transaction_commit. mrun. unfold on_first, on_second, zoom. cbn -[Connection_execute_batch].
  pose proof (keeps_execute_batch (tx_conn t) "COMMIT" w0 Hh w Hw) as Hk.
  by destruct (Connection_execute_batch (tx_conn t) "COMMIT" w).
Qed.

Lemma keeps_transaction {A} c (body : M (Transaction * World) SqlError A) w0 :
  conn_live (conn_db c) w0 -> keeps (guard_ok c w0) body -> keeps (from w0) (in_transaction c body).
Proof.
  intros Hh Hb. apply keeps_bind; [auto with quiet|]. intros _ w Hw. unfold scoped, finally.
  specialize (Hb ({| tx_conn := c; tx_done := false |}, w)).
  destruct (body _) as [[t w'] r]. unfold Transaction_drop. cbn -[Connection_execute_batch] in *.
  destruct Hb as [<- Hw']; [done|]. destruct (tx_done t); [done|]. by apply keeps_execute_batch.
Qed.

Lemma keeps_key c key w0 : conn_live (conn_db c) w0 -> keeps (from w0) (Connection_key c key).
Proof.
  intros Hh. unfold Connection_key. apply keeps_bind; [|intros code; apply keeps_check].
  eapply keeps_conn; [done|]. intros. by apply key_quiet.
Qed.

Lemma keeps_busy_timeout c ms w0 : conn_live (conn_db c) w0 -> keeps (from w0) (Connection_busy_timeout c ms).
Proof.
  intros Hh. unfold Connection_busy_timeout. apply keeps_bind; [|intros code; apply keeps_check].
  eapply keeps_conn; [done|]. intros. by apply busy_timeout_quiet.
Qed.

Lemma keeps_pragma_i64 c name w0 : conn_live (conn_db c) w0 -> keeps (from w0) (Connection_pragma_i64 c name).
Proof. intros Hh. unfold Connection_pragma_i64. apply keeps_bind; [auto with quiet|]. intros v. apply keeps_ret. Qed.

#[local] Hint Resolve keeps_lift keeps_gets keeps_key keeps_busy_timeout keeps_pragma_i64 keeps_transaction keeps_commit keeps_second : quiet.

Lemma keeps_program {A} c (m : M World SqlError A) w0 :
  conn_live (conn_db c) w0 -> program c m -> keeps (from w0) m.
Proof.
  intros Hh. revert A m.
  apply (program_mind c (fun A m => keeps (from w0) m) (fun A b => keeps (guard_ok c w0) b)); auto with quiet.
  - intros. by apply keeps_bind.
  - intros name value. unfold Connection_pragma_set_string. auto with quiet.
  - intros. by apply keeps_bind.
  - intros fuel sql ps. apply (keeps_guard c w0 (fun c => Connection_execute fuel c sql ps)). auto with quiet.
  - intros sql. apply (keeps_guard c w0 (fun c => Connection_execute_batch c sql)). auto with quiet.
  - intros T sql ps map. apply (keeps_guard c w0 (fun c => Connection_query_row c sql ps map)). auto with quiet.
  - intros T fuel sql ps map. apply (keeps_guard c w0 (fun c => Connection_query_rows fuel c sql ps map)). auto with quiet.
Qed.

Lemma program_quiet {A} c (m : M World SqlError A) w : program c m -> conn_live (conn_db c) w -> quiet w (m w).1.
Proof. intros Hm Hh. exact (keeps_program c m w Hh Hm w (reflexivity w)). Qed.

(** Dropping a connection frees its handle, and nothing else; closing it is
    undefined behaviour: [close] takes the connection by value, so its
    destructor runs when [close] returns, and the handle that was just freed is
    passed to [sqlite3_close_v2] again. *)
Lemma drop_frees_once c w :
  conn_live (conn_db c) w ->
  (undefined (Connection_drop c w) -> undefined w) /\
  (forall h, conn_live h (Connection_drop c w) <-> h <> conn_db c /\ conn_live h w) /\
  (forall s, stmt_live s (Connection_drop c w) <-> stmt_live s w).
Proof. intros Hh. exact (close_live (conn_db c) w Hh). Qed.

Lemma close_undefined c w : conn_live (conn_db c) w -> undefined (Connection_close c w).1.
Proof.
  intros Hh. destruct (close_live (conn_db c) w Hh) as (_ & Cn & _).
  unfold Connection_close, finally. mrun. unfold ffi. destruct (sqlite3_close_v2 (conn_db c) w) as [w1 code]. cbn in Cn.
  rewrite (surjective_pairing (check _ _ _)). cbn [fst]. apply close_dead. unfold check.
  destruct (code =? SQLITE_OK); cbn; rewrite Cn; by intros [? _].
Qed.


(** A failed [open] leaks: when the engine allocates a connection but
    reports an error (it cannot open the file, say), [open] returns the error
    and nobody closes the handle. *)
Theorem failed_open_leaks path c_path w w' h code :
  CString_new path = Some c_path -> sqlite3_open_v2 c_path open_flags w = (w', (Some h, code)) -> code <> SQLITE_OK ->
  Connection_open (Some path) w =
    (w', Err {| sql_code := code; sql_message := errmsg_or_unknown h w' |}) /\
  conn_live h w' /\ ~ conn_live h w.
Proof.
  intros Hc Ho Hcode. unfold Connection_open, open_handle. mrun. cbn [ok_or]. mrun. rewrite Hc. cbn [ok_or]. mrun.
  unfold ffi. rewrite Ho. mrun. unfold check. rewrite (proj2 (Z.eqb_neq _ _) Hcode).
  apply open_some in Ho as (Hn & _ & Hl & _). split; [done|]. split; [apply Hl; by left | done].
Qed.
End Safe.
