(* ===== verification/SqlProps.v ===== *)
(** What the statements of the SQLite wrapper do: a statement denotes a
    function on the content of the database, and the wrapper's queries
    implement it, whatever the engine's failures. *)

From S2P Require Import Prelude Sqleet SqleetProps.

(** ** The database behind a connection

    The content others see, and the content inside a transaction when one is
    open. *)

Record Session {D : Type} := { committed : D; pending : option D }.
Arguments Session : clear implicits.

Definition visible {D} (s : Session D) : D := default (committed s) (pending s).
Definition write {D} (d : D) (s : Session D) : Session D :=
  match pending s with
  | Some _ => {| committed := committed s; pending := Some d |}
  | None => {| committed := d; pending := None |}
  end.
(** The transaction is gone and so is what it did. *)
Definition abandon {D} (s : Session D) : Session D := {| committed := committed s; pending := None |}.

(** A statement: its connection, its text, its parameters and, once it has
    been stepped, the rows from the current one on. *)
Record StmtView {H : Type} := {
  sv_db : H; sv_sql : bytes; sv_params : gmap Z Param; sv_rows : option (list (list Param))
}.
Arguments StmtView : clear implicits.

Definition with_param {H} (i : Z) (p : Param) (v : StmtView H) : StmtView H :=
  {| sv_db := sv_db v; sv_sql := sv_sql v; sv_params := <[i := p]> (sv_params v); sv_rows := sv_rows v |}.
Definition with_rows {H} (rows : list (list Param)) (v : StmtView H) : StmtView H :=
  {| sv_db := sv_db v; sv_sql := sv_sql v; sv_params := sv_params v; sv_rows := Some rows |}.

(** [denote sql params d]: the content after the statement and its rows;
    [None] when it cannot be executed (a constraint, say). *)
Class SqlView (E : Engine) (D : Type) := {
  session : Handle -> World -> Session D;
  stmt_view : Stmt -> World -> StmtView Handle;
  denote : bytes -> gmap Z Param -> D -> option (D * list (list Param))
}.

(** The column types of the C interface. *)
Definition type_code (p : Param) : Z := match p with I64 _ => 1 | Text _ => 3 | Blob _ => 4 | Null => SQLITE_NULL end.

Definition same_or_abandoned {D} (s s' : Session D) : Prop := s' = s \/ s' = abandon s.

(** What the engine's documentation says about statements. *)
Class SqlLaws {E : Engine} {R : Resources E} {D : Type} (V : SqlView E D) : Prop := {
  prepare_view h sql w w' s code :
    conn_live h w -> sqlite3_prepare_v2 h sql w = (w', (Some s, code)) ->
    session h w' = session h w /\ stmt_view s w' = {| sv_db := h; sv_sql := sql; sv_params := ∅; sv_rows := None |};
  prepare_none_session h sql w w' code :
    conn_live h w -> sqlite3_prepare_v2 h sql w = (w', (None, code)) -> session h w' = session h w;
  bind_null_view s i w w' code :
    stmt_live s w -> sqlite3_bind_null s i w = (w', code) ->
    session (sv_db (stmt_view s w)) w' = session (sv_db (stmt_view s w)) w /\
    (code = SQLITE_OK -> stmt_view s w' = with_param i Null (stmt_view s w));
  bind_int64_view s i v w w' code :
    stmt_live s w -> sqlite3_bind_int64 s i v w = (w', code) ->
    session (sv_db (stmt_view s w)) w' = session (sv_db (stmt_view s w)) w /\
    (code = SQLITE_OK -> stmt_view s w' = with_param i (I64 v) (stmt_view s w));
  bind_text_view s i t w w' code :
    stmt_live s w -> sqlite3_bind_text s i (bs t) w = (w', code) ->
    session (sv_db (stmt_view s w)) w' = session (sv_db (stmt_view s w)) w /\
    (code = SQLITE_OK -> stmt_view s w' = with_param i (Text t) (stmt_view s w));
  bind_blob_view s i b n w w' code :
    stmt_live s w -> sqlite3_bind_blob s i b n w = (w', code) ->
    session (sv_db (stmt_view s w)) w' = session (sv_db (stmt_view s w)) w /\
    (code = SQLITE_OK -> n = Z.of_nat (length b) -> stmt_view s w' = with_param i (Blob b) (stmt_view s w));
  step_first s w w' code :
    stmt_live s w -> sv_rows (stmt_view s w) = None -> sqlite3_step s w = (w', code) ->
    let v := stmt_view s w in let ses := session (sv_db v) w in
    if decide (code = SQLITE_ROW \/ code = SQLITE_DONE) then
      exists d rows, denote (sv_sql v) (sv_params v) (visible ses) = Some (d, rows) /\ (code = SQLITE_DONE <-> rows = []) /\
        session (sv_db v) w' = write d ses /\ stmt_view s w' = with_rows rows v
    else same_or_abandoned ses (session (sv_db v) w');
  step_next s w w' code row rows :
    stmt_live s w -> sv_rows (stmt_view s w) = Some (row :: rows) -> sqlite3_step s w = (w', code) ->
    let v := stmt_view s w in let ses := session (sv_db v) w in
    if decide (code = SQLITE_ROW \/ code = SQLITE_DONE) then
      (code = SQLITE_DONE <-> rows = []) /\ session (sv_db v) w' = ses /\ stmt_view s w' = with_rows rows v
    else same_or_abandoned ses (session (sv_db v) w');
  finalize_session s h w : stmt_live s w -> session h (sqlite3_finalize s w).1 = session h w;
  column_value s w row rows i p :
    stmt_live s w -> sv_rows (stmt_view s w) = Some (row :: rows) -> row !! Z.to_nat i = Some p -> 0 <= i ->
    sqlite3_column_type s i w = type_code p /\
    match p with
    | Null => True
    | I64 n => sqlite3_column_int64 s i w = n
    | Text t => default [] (sqlite3_column_blob s i w) = bs t /\ sqlite3_column_bytes s i w = Z.of_nat (length (bs t))
    | Blob b => default [] (sqlite3_column_blob s i w) = b /\ sqlite3_column_bytes s i w = Z.of_nat (length b)
    end
}.

(** The parameters as the loop numbers them. *)
Fixpoint number_from (i : Z) (ps : list Param) (m : gmap Z Param) : gmap Z Param :=
  match ps with
  | [] => m
  | p :: ps => number_from (i + 1) ps (<[as_i32 (i + 1) := p]> m)
  end.
Definition numbered (ps : list Param) : gmap Z Param := number_from 0 ps ∅.

(** What fits in a [c_int]. *)
Definition param_fits (p : Param) : Prop := match p with Blob b => Z.of_nat (length b) < 2 ^ 31 | _ => True end.

Lemma as_i32_small z : - 2 ^ 31 <= z < 2 ^ 31 -> as_i32 z = z.
Proof. intros Hz. unfold as_i32. rewrite Z.mod_small by lia. lia. Qed.

(** ** String literals

    The SQL reader of a string literal, after its opening quote: two quotes are
    one character, one quote ends it.  The result is the value and the rest of
    the text. *)

Fixpoint read_literal (s : string) : option (string * string) :=
  match s with
  | EmptyString => None
  | String c rest =>
      if decide (c = quote) then
        match rest with
        | String c' rest' =>
            if decide (c' = quote) then '(v, r) ← read_literal rest'; Some (String quote v, r) else Some ("", rest)
        | EmptyString => Some ("", "")
        end
      else '(v, r) ← read_literal rest; Some (String c v, r)
  end.

Lemma read_doubled v : read_literal (double_quotes v +:+ "'") = Some (v, "").
Proof.
  induction v as [|c v IH]; [reflexivity|]. cbn [double_quotes]. case_decide as Hc.
  - subst c. change (String quote (String quote (double_quotes v)) +:+ "'") with (String quote (String quote (double_quotes v +:+ "'"))).
    cbn [read_literal]. rewrite !decide_True by done. by rewrite IH.
  - change (String c (double_quotes v) +:+ "'") with (String c (double_quotes v +:+ "'")). cbn [read_literal].
    rewrite decide_False by done. by rewrite IH.
Qed.

(** A pragma value cannot break out of its quotes: whatever the value is,
    quotes included, the statement [pragma_set_string] executes is the pragma
    assigned a string literal that the engine reads back as exactly that value,
    with nothing after it. *)
Theorem pragma_value_contained name value :
  exists literal, pragma_sql name value = "PRAGMA " +:+ name +:+ " = '" +:+ literal /\ read_literal literal = Some (value, "").
Proof. exists (double_quotes value +:+ "'"). split; [reflexivity | apply read_doubled]. Qed.

(** ** The specification of a query

    [f] maps one row.  Either the statement is executed and its rows are
    mapped in order; or it is executed and an error comes while the rows are
    read; or an error comes before, and then the content is as it was, except
    that the engine may have given up the transaction. *)

Inductive query_result {E : Engine} {D T} {V : SqlView E D} (f : list Param -> result SqlError T) (sql : bytes) (ps : gmap Z Param)
    (s : Session D) : Session D -> result SqlError (list T) -> Prop :=
| query_done d rows :
    denote sql ps (visible s) = Some (d, rows) -> query_result f sql ps s (write d s) (mapM f rows)
| query_interrupted d rows s' e :
    denote sql ps (visible s) = Some (d, rows) -> rows <> [] -> same_or_abandoned (write d s) s' ->
    query_result f sql ps s s' (Err e)
| query_refused s' e : same_or_abandoned s s' -> query_result f sql ps s s' (Err e).

Section Refinement.
Context {E : Engine} {R : Resources E} {S : EngineSafe R} {D : Type} {V : SqlView E D} {L : SqlLaws V}.

(** On the rows [all], the mapper depends on nothing but the current row. *)
Definition maps_rows {T} (map : Row -> World -> result SqlError T) (f : list Param -> result SqlError T)
    (all : list (list Param)) : Prop :=
  forall s w row rows, stmt_live s w -> sv_rows (stmt_view s w) = Some (row :: rows) -> row ∈ all ->
    map {| row_stmt := s |} w = f row.

(** The statement in scope, and the session of its connection. *)
Record in_scope (s : Stmt) (h : Handle) (w1 w : World) (v : StmtView Handle) (ses : Session D) : Prop := {
  is_quiet : quiet w1 w;
  is_live : stmt_live s w;
  is_view : stmt_view s w = v;
  is_db : sv_db v = h;
  is_session : session h w = ses
}.

Lemma in_scope_quiet s h w1 w w' v v' ses ses' :
  in_scope s h w1 w v ses -> quiet w w' -> stmt_view s w' = v' -> sv_db v' = h -> session h w' = ses' ->
  in_scope s h w1 w' v' ses'.
Proof. intros [Hq Hl _ _ _] Hw Hv Hd Hs. split; [by etrans | by apply Hw | done..]. Qed.

(** ** Binding *)

Lemma bind_tail (f : World -> World * Z) (st : Statement) w :
  (code ← on_second (ffi f); on_second (check (st_db st) code)) (st, w) =
  let '(w', code) := f w in
  ((st, w'), if code =? SQLITE_OK then Ok tt else Err {| sql_code := code; sql_message := errmsg_or_unknown (st_db st) w' |}).
Proof.
  mrun. unfold on_second, zoom, ffi. cbn [fst snd]. destruct (f w) as [w' code]. mrun. unfold check.
  by destruct (code =? SQLITE_OK).
Qed.

(** What the [bind] functions do to a statement in scope. *)
Definition binds (f : World -> World * Z) (i : Z) (p : Param) (s : Stmt) (w : World) : Prop :=
  forall w' code, f w = (w', code) ->
    quiet w w' /\ session (sv_db (stmt_view s w)) w' = session (sv_db (stmt_view s w)) w /\
    (code = SQLITE_OK -> stmt_view s w' = with_param i p (stmt_view s w)).

(** All [bind] functions succeed at an index. *)
Definition bindable (s : Stmt) (i : Z) (w : World) : Prop :=
  (sqlite3_bind_null s i w).2 = SQLITE_OK /\ (forall v, (sqlite3_bind_int64 s i v w).2 = SQLITE_OK) /\
  (forall t, (sqlite3_bind_text s i t w).2 = SQLITE_OK) /\ (forall b l, (sqlite3_bind_blob s i b l w).2 = SQLITE_OK).

(** A step that should have given a row or the end fails. *)
Definition step_failed (s : Stmt) : Prop :=
  exists w, stmt_live s w /\ sv_rows (stmt_view s w) <> Some [] /\
    (sv_rows (stmt_view s w) = None ->
     is_Some (denote (sv_sql (stmt_view s w)) (sv_params (stmt_view s w)) (visible (session (sv_db (stmt_view s w)) w)))) /\
    ~ ((sqlite3_step s w).2 = SQLITE_ROW \/ (sqlite3_step s w).2 = SQLITE_DONE).

Lemma quiet_pair {A} (f : World -> World * A) w w' a : quiet w (f w).1 -> f w = (w', a) -> quiet w w'.
Proof. intros Hq Hf. by rewrite Hf in Hq. Qed.

Lemma bind_param_eq i p (st : Statement) w :
  stmt_live (st_stmt st) w -> param_fits p ->
  (exists t e, p = Text t /\ has_nul t = true /\ bind_param i p (st, w) = ((st, w), Err e)) \/
  (match p with Text t => has_nul t = false | _ => True end /\
   exists st' f, st_stmt st' = st_stmt st /\ st_db st' = st_db st /\ binds f i p (st_stmt st) w /\
     (bindable (st_stmt st) i w -> (f w).2 = SQLITE_OK) /\
     bind_param i p (st, w) = (code ← on_second (ffi f); on_second (check (st_db st') code)) (st', w)).
Proof.
  intros Hl Hfit. destruct p as [|n|t|b].
  - right. split; [done|]. eexists st, _. split_and!; [done..| |by intros (? & _)|reflexivity].
    intros w' code Hf. split; [by eapply quiet_pair, Hf; apply bind_null_quiet | by apply bind_null_view].
  - right. split; [done|]. eexists st, _. split_and!; [done..| |by intros (_ & Hb & _); apply Hb|reflexivity].
    intros w' code Hf. split; [by eapply quiet_pair, Hf; apply bind_int64_quiet | by apply bind_int64_view].
  - destruct (has_nul t) eqn:Hn.
    + left. eexists t, _. split_and!; [done..|]. unfold bind_param. mrun. unfold CString_new. rewrite Hn. reflexivity.
    + right. split; [done|]. eexists (push_text (bs t) st), _. split_and!; [done..| | |].
      3:{ unfold bind_param. mrun. unfold CString_new. rewrite Hn. cbn [ok_or]. mrun. unfold on_first, zoom. mrun. reflexivity. }
      2:{ intros (_ & _ & Hb & _). apply Hb. }
      intros w' code Hf. split; [by eapply quiet_pair, Hf; apply bind_text_quiet | by apply bind_text_view].
  - right. split; [done|]. eexists st, _. split_and!; [done..| |by intros (_ & _ & _ & Hb); apply Hb|reflexivity].
    intros w' code Hf. split; [by eapply quiet_pair, Hf; apply bind_blob_quiet|].
    apply bind_blob_view in Hf as [Hs Hv]; [|done]. split; [done|]. intros Hc. apply Hv; [done|].
    apply as_i32_small. cbn in Hfit. lia.
Qed.

Definition no_nul (p : Param) : bool := match p with Text t => negb (has_nul t) | _ => true end.

(** Binding leaves the session alone; when it succeeds, all parameters are
    bound and none holds a NUL byte. *)
Lemma bind_from_run ps i (st : Statement) w1 w v ses p' r :
  in_scope (st_stmt st) (st_db st) w1 w v ses -> Forall param_fits ps -> bind_from i ps (st, w) = (p', r) ->
  st_stmt p'.1 = st_stmt st /\ st_db p'.1 = st_db st /\ quiet w1 p'.2 /\ session (st_db st) p'.2 = ses /\
  ((r = Ok tt /\ forallb no_nul ps = true /\
    in_scope (st_stmt st) (st_db st) w1 p'.2
      {| sv_db := sv_db v; sv_sql := sv_sql v; sv_params := number_from i ps (sv_params v); sv_rows := sv_rows v |} ses)
   \/ exists e, r = Err e).
Proof.
  revert i st w v. induction ps as [|p ps IH]; intros i st w v Hsc Hfit Hrun; pose proof Hsc as [Hq Hl Hv Hd Hs]; cbn [bind_from] in Hrun.
  { injection Hrun as <- <-. split_and!; try done. left. split_and!; try done. by destruct v. }
  apply Forall_cons in Hfit as [Hp Hps]. rewrite M_bind_eq in Hrun.
  destruct (bind_param_eq (as_i32 (i + 1)) p st w Hl Hp) as [(t & e & -> & Hn & Heq)|(Hn & st' & f & Hst & Hdb & Hf & _ & Heq)]; rewrite Heq in Hrun.
  { injection Hrun as <- <-. split_and!; try done. by right; exists e. }
  rewrite bind_tail in Hrun. destruct (f w) as [w2 code] eqn:Ef. destruct (Hf _ _ Ef) as (Hq2 & Hs2 & Hv2).
  rewrite Hv, Hd in Hs2. rewrite Hv in Hv2. destruct (code =? SQLITE_OK) eqn:Hc.
  - apply Z.eqb_eq in Hc. specialize (Hv2 Hc). rewrite <- Hst, <- Hdb in *.
    assert (in_scope (st_stmt st') (st_db st') w1 w2 (with_param (as_i32 (i + 1)) p v) ses) as Hsc2.
    { eapply in_scope_quiet; [exact Hsc | done | done | done |]. by rewrite Hs2. }
    destruct (IH (i + 1) st' w2 _ Hsc2 Hps Hrun) as (H1 & H2 & H3 & H4 & H5). split_and!; try done.
    destruct H5 as [(-> & Hnn & H5)|?]; [left|by right]. split_and!; [done| |done]. cbn [forallb]. rewrite Hnn.
    destruct p; cbn; try done. by rewrite Hn.
  - injection Hrun as <- <-. cbn. split_and!; [done | done | by etrans | by rewrite Hs2 |]. by right; eexists.
Qed.

(** ** Reading the rows *)

Lemma step_run (st : Statement) w1 w v ses p' r :
  in_scope (st_stmt st) (st_db st) w1 w v ses -> Statement_step (st, w) = (p', r) ->
  p'.1 = st /\ quiet w1 p'.2 /\
  exists code, sqlite3_step (st_stmt st) w = (p'.2, code) /\
    r = (if decide (code = SQLITE_ROW) then Ok (Some {| row_stmt := st_stmt st |})
         else if decide (code = SQLITE_DONE) then Ok None else Err (Statement_error (st_db st) p'.2)).
Proof.
  intros [Hq Hl Hv Hd Hs]. unfold Statement_step. mrun. unfold on_second, zoom, ffi. cbn [fst snd].
  destruct (sqlite3_step (st_stmt st) w) as [w' code] eqn:E1. mrun. pose proof (step_quiet (st_stmt st) w Hl) as Hq'. rewrite E1 in Hq'.
  intros Hr. assert (p' = (st, w')) as ->.
  { destruct (code =? SQLITE_ROW); [by injection Hr as <-|]. destruct (code =? SQLITE_DONE); by injection Hr as <-. }
  cbn. split_and!; [done | by etrans |]. exists code. split; [done|].
  repeat case_decide; subst; try (by injection Hr as <-).
  rewrite (proj2 (Z.eqb_neq _ _) H), (proj2 (Z.eqb_neq _ _) H0) in Hr. by injection Hr as <-.
Qed.

(** The loop after the first row: [rows] are left after the current one. *)
Lemma collect_later {T} (map : Row -> World -> result SqlError T) f all fuel (st : Statement) w1 w v row rows ses out p' r :
  maps_rows map f all -> rows ⊆ all -> in_scope (st_stmt st) (st_db st) w1 w (with_rows (row :: rows) v) ses ->
  collect_rows fuel map out (st, w) = (p', r) -> (length rows < fuel)%nat ->
  p'.1 = st /\ quiet w1 p'.2 /\
  ((session (st_db st) p'.2 = ses /\ r = (ts ← mapM f rows; mret (out ++ ts))) \/
   (exists e, same_or_abandoned ses (session (st_db st) p'.2) /\ r = Err e /\ step_failed (st_stmt st))).
Proof.
  intros Hmap. revert w row rows out. induction fuel as [|fuel IH]; intros w row rows out Hall Hsc Hrun Hfuel; [lia|].
  cbn [collect_rows] in Hrun. rewrite M_bind_eq in Hrun. destruct (Statement_step (st, w)) as [[st2 w2] r2] eqn:Hstep.
  destruct (step_run st w1 w _ ses _ _ Hsc Hstep) as (Heq & Hq2 & code & Hcode & ->). cbn in Heq, Hq2, Hcode. subst st2.
  pose proof Hsc as [Hq Hl Hv Hd Hs]. pose proof (step_quiet (st_stmt st) w Hl) as Hqs. rewrite Hcode in Hqs. cbn in Hqs.
  pose proof (step_next (st_stmt st) w w2 code row rows Hl ltac:(by rewrite Hv) Hcode) as Hn. cbv zeta in Hn. rewrite Hv, Hd, Hs in Hn.
  destruct (decide (code = SQLITE_ROW)) as [Hrow|Hrow]; [|destruct (decide (code = SQLITE_DONE)) as [Hdone|Hdone]].
  - rewrite decide_True in Hn by by left. destruct Hn as (Hend & Hs2 & Hv2). destruct rows as [|row' rows].
    { pose proof (proj2 Hend eq_refl) as Hx. rewrite Hrow in Hx. discriminate. }
    assert (in_scope (st_stmt st) (st_db st) w1 w2 (with_rows (row' :: rows) v) ses) as Hsc2 by by eapply in_scope_quiet.
    rewrite M_bind_eq in Hrun. unfold map_row in Hrun. cbn [fst snd] in Hrun.
    rewrite (Hmap _ w2 row' rows (is_live _ _ _ _ _ _ Hsc2)) in Hrun by (by rewrite Hv2 || apply Hall, list_elem_of_here). cbn [mapM].
    destruct (f row') as [t|e|pc].
    + destruct (IH w2 row' rows (out ++ [t])) as (H1 & H2 & H3); [set_solver | done | done | cbn in Hfuel; lia |]. split_and!; try done.
      destruct H3 as [[H3 ->]|H3]; [left|by right]. split; [done|]. cbn [mbind result_bind].
      destruct (mapM f rows); cbn; [by rewrite <- app_assoc | done..].
    + injection Hrun as <- <-. cbn. split_and!; try done. by left.
    + injection Hrun as <- <-. cbn. split_and!; try done. by left.
  - rewrite decide_True in Hn by by right. destruct Hn as (Hend & Hs2 & Hv2). apply Hend in Hdone as ->.
    injection Hrun as <- <-. cbn. split_and!; try done. left. by rewrite app_nil_r.
  - rewrite decide_False in Hn by tauto. injection Hrun as <- <-. cbn. split_and!; try done. right. eexists. split_and!; [done..|].
    exists w. rewrite Hv, Hcode. split_and!; try done. cbn. tauto.
Qed.

(** The whole loop, on a statement that has not been stepped. *)
Lemma collect_run {T} (map : Row -> World -> result SqlError T) f fuel (st : Statement) w1 w v ses p' r :
  in_scope (st_stmt st) (st_db st) w1 w v ses -> sv_rows v = None ->
  (forall d rows, denote (sv_sql v) (sv_params v) (visible ses) = Some (d, rows) -> maps_rows map f rows /\ (length rows < fuel)%nat) ->
  (0 < fuel)%nat ->
  collect_rows fuel map [] (st, w) = (p', r) ->
  p'.1 = st /\ quiet w1 p'.2 /\ query_result f (sv_sql v) (sv_params v) ses (session (st_db st) p'.2) r /\
  (forall d rows, denote (sv_sql v) (sv_params v) (visible ses) = Some (d, rows) ->
   (session (st_db st) p'.2 = write d ses /\ r = mapM f rows) \/ step_failed (st_stmt st)).
Proof.
  intros Hsc Hnone Hfuel Hpos Hrun. destruct fuel as [|fuel]; [lia|].
  cbn [collect_rows] in Hrun. rewrite M_bind_eq in Hrun. destruct (Statement_step (st, w)) as [[st2 w2] r2] eqn:Hstep.
  destruct (step_run st w1 w v ses _ _ Hsc Hstep) as (Heq & Hq2 & code & Hcode & ->). cbn in Heq, Hq2, Hcode. subst st2.
  pose proof Hsc as [Hq Hl Hv Hd Hs]. pose proof (step_quiet (st_stmt st) w Hl) as Hqs. rewrite Hcode in Hqs. cbn in Hqs.
  pose proof (step_first (st_stmt st) w w2 code Hl ltac:(by rewrite Hv) Hcode) as Hn. cbv zeta in Hn. rewrite Hv, Hd, Hs in Hn.
  destruct (decide (code = SQLITE_ROW)) as [Hrow|Hrow]; [|destruct (decide (code = SQLITE_DONE)) as [Hdone|Hdone]].
  - rewrite decide_True in Hn by by left. destruct Hn as (d & rows & Hden & Hend & Hs2 & Hv2). destruct rows as [|row rows].
    { pose proof (proj2 Hend eq_refl) as Hx. rewrite Hrow in Hx. discriminate. }
    assert (in_scope (st_stmt st) (st_db st) w1 w2 (with_rows (row :: rows) v) (write d ses)) as Hsc2 by by eapply in_scope_quiet.
    rewrite M_bind_eq in Hrun. unfold map_row in Hrun. cbn [fst snd] in Hrun.
    destruct (Hfuel _ _ Hden) as [Hmap Hlen].
    rewrite (Hmap _ w2 row rows (is_live _ _ _ _ _ _ Hsc2)) in Hrun by (by rewrite Hv2 || apply list_elem_of_here).
    pose proof (query_done f _ _ _ _ _ Hden) as Hok.
    assert (forall d' rows', denote (sv_sql v) (sv_params v) (visible ses) = Some (d', rows') -> d' = d /\ rows' = row :: rows) as Hdet
      by (intros d' rows'; rewrite Hden; by intros [= <- <-]).
    cbn [mapM] in Hok. destruct (f row) as [t|e|pc] eqn:Hf.
    + apply (collect_later map f (row :: rows) _ _ w1 _ v row rows (write d ses)) in Hrun as (H1 & H2 & H3);
        [|done|set_solver|done|cbn in Hlen; lia].
      destruct H3 as [[-> ->]|(e & H3 & -> & H4)]; [|by split_and!; [done..|by eapply query_interrupted|by right]].
      split_and!; [done..|]. intros d' rows' [-> ->]%Hdet. left. cbn [mapM]. by rewrite Hf.
    + injection Hrun as <- <-. cbn. rewrite Hs2. split_and!; try done. intros d' rows' [-> ->]%Hdet. left. cbn [mapM]. by rewrite Hf.
    + injection Hrun as <- <-. cbn. rewrite Hs2. split_and!; try done. intros d' rows' [-> ->]%Hdet. left. cbn [mapM]. by rewrite Hf.
  - rewrite decide_True in Hn by by right. destruct Hn as (d & rows & Hden & Hend & Hs2 & Hv2). apply Hend in Hdone as ->.
    injection Hrun as <- <-. cbn. rewrite Hs2. split_and!; try done; [exact (query_done f _ _ _ _ _ Hden)|].
    intros d' rows'. rewrite Hden. intros [= <- <-]. by left.
  - rewrite decide_False in Hn by tauto. injection Hrun as <- <-. cbn. split_and!; try done; [by apply query_refused|].
    intros d rows Hden. right. exists w. rewrite Hv, Hnone, Hcode, Hd, Hs. split_and!; try done. cbn. tauto.
Qed.

(** Preparing, using and dropping a statement, as the session sees it. *)
Lemma statement_run {A} h sql (body : M (Statement * World) SqlError A) w w' r (Q : Session D -> Session D -> result SqlError A -> Prop) :
  conn_live h w -> (st ← Statement_prepare h sql; with_statement st body) w = (w', r) ->
  (forall e s, Q s s (Err e)) ->
  (forall st w1 p' r, st_db st = h ->
     in_scope (st_stmt st) (st_db st) w1 w1 {| sv_db := h; sv_sql := bs sql; sv_params := ∅; sv_rows := None |} (session h w) ->
     body (st, w1) = (p', r) ->
     p'.1 = st \/ (st_stmt p'.1 = st_stmt st /\ st_db p'.1 = st_db st) -> quiet w1 p'.2 -> Q (session h w) (session h p'.2) r) ->
  (forall s w1, stmt_live s w1 -> keeps (scope_ok s h w1) body) ->
  Q (session h w) (session h w') r.
Proof.
  intros Hh Hrun Herr Hbody Hkeep. unfold Statement_prepare in Hrun. mrun_in Hrun.
  unfold CString_new in Hrun. destruct (has_nul sql); cbn [ok_or] in Hrun; [by injection Hrun as <- <-|]. mrun_in Hrun.
  unfold ffi at 1 in Hrun. destruct (sqlite3_prepare_v2 h (bs sql) w) as [w1 [[s|] code]] eqn:Hp; mrun_in Hrun.
  - pose proof Hp as Hp2. apply prepare_view in Hp2 as [Hs Hv]; [|done]. apply prepare_some in Hp as (Hfresh & U & Cn & St); [|done].
    assert (stmt_live s w1) as Hl by (apply St; by left). set (st := {| st_stmt := s; st_db := h; owned_texts := [] |}) in Hrun.
    unfold with_statement, scoped, finally in Hrun. specialize (Hkeep s w1 Hl (st, w1)).
    destruct (body (st, w1)) as [[st' w2] r2] eqn:Hb. cbn in Hkeep, Hrun. destruct Hkeep as (Hst & Hdb & Hq); [by split_and!|]. cbn in Hst, Hdb, Hq.
    injection Hrun as <- <-. rewrite finalize_session by (rewrite Hst; by apply Hq).
    apply (Hbody st w1 (st', w2)); [done | split; try done; by rewrite Hs | done | right; by split | done].
  - cbn in Hrun. injection Hrun as <- <-. rewrite (prepare_none_session _ _ _ _ _ Hh Hp). apply Herr.
Qed.

(** The whole query, with its rows. *)
Lemma query_rows_run {T} fuel c sql ps (map : Row -> World -> result SqlError T) f w w' r :
  conn_live (conn_db c) w -> Forall param_fits ps -> (0 < fuel)%nat ->
  (forall d rows, denote (bs sql) (numbered ps) (visible (session (conn_db c) w)) = Some (d, rows) ->
     maps_rows map f rows /\ (length rows < fuel)%nat) ->
  Connection_query_rows fuel c sql ps map w = (w', r) ->
  query_result f (bs sql) (numbered ps) (session (conn_db c) w) (session (conn_db c) w') r /\
  (forallb no_nul ps = false -> session (conn_db c) w' = session (conn_db c) w /\ exists e, r = Err e).
Proof.
  intros Hh Hfit Hpos Hfuel Hrun.
  apply (statement_run _ _ _ _ _ _ (fun s s' r => (s = session (conn_db c) w -> query_result f (bs sql) (numbered ps) s s' r) /\
    (forallb no_nul ps = false -> s' = s /\ exists e, r = Err e))) in Hrun as [H1 H2]; [auto|done|..].
  - intros e s. split; [intros _; apply query_refused; by left|]. eauto.
  - intros st w1 p' r' Hdb Hsc Hb Hst Hq. rewrite M_bind_eq in Hb. unfold bind_all in Hb.
    destruct (bind_from 0 ps (st, w1)) as [[st2 w2] r2] eqn:Hbind.
    apply (bind_from_run _ _ _ w1 _ _ _ _ _ Hsc Hfit) in Hbind as (Hst2 & Hdb2 & Hq2 & Hs2 & Hcase).
    cbn in Hst2, Hdb2, Hq2, Hs2, Hcase. rewrite Hdb in *. destruct Hcase as [(-> & Hnn & Hsc2)|(e & ->)].
    + split; [|by rewrite Hnn]. intros _. rewrite <- Hdb2. rewrite <- Hst2, <- Hdb2 in Hsc2.
      apply (collect_run map f fuel st2 w1 w2 _ _ _ _ Hsc2) in Hb as (_ & _ & Hres & _);
        [exact Hres | done | by rewrite Hdb2 | done].
    + injection Hb as <- <-. cbn. rewrite Hs2. split; [intros _; apply query_refused; by left|]. eauto.
  - intros s w1 Hs. apply keeps_bind; [by apply keeps_bind_all|intros _]. by apply keeps_collect.
Qed.

(** C10. A query implements the meaning of its SQL text, whatever the engine's
    failures: the parameters are bound in order at the indices 1, 2, ...; if
    the engine executes the statement, its effect is the effect of the text
    with those parameters and the result is the list of its rows, in order,
    through the row mapper (or the mapper's first error); if not, the result
    is an error and the content is as before, unless the engine gave up the
    open transaction.  A text parameter with a NUL byte is never executed.
    The loop over the rows ends. *)
Theorem query_rows_refines {T} fuel c sql ps (map : Row -> World -> result SqlError T) f w w' r :
  conn_live (conn_db c) w -> Forall param_fits ps -> (0 < fuel)%nat ->
  (forall d rows, denote (bs sql) (numbered ps) (visible (session (conn_db c) w)) = Some (d, rows) ->
     maps_rows map f rows /\ (length rows < fuel)%nat) ->
  Connection_query_rows fuel c sql ps map w = (w', r) ->
  query_result f (bs sql) (numbered ps) (session (conn_db c) w) (session (conn_db c) w') r /\
  (forallb no_nul ps = false -> session (conn_db c) w' = session (conn_db c) w /\ exists e, r = Err e).
Proof. apply query_rows_run. Qed.

(** At most one row. *)
Lemma query_row_run {T} c sql ps (map : Row -> World -> result SqlError T) f w w' r :
  conn_live (conn_db c) w -> Forall param_fits ps ->
  (forall d rows, denote (bs sql) (numbered ps) (visible (session (conn_db c) w)) = Some (d, rows) -> maps_rows map f rows) ->
  Connection_query_row c sql ps map w = (w', r) ->
  (exists d rows, forallb no_nul ps = true /\ denote (bs sql) (numbered ps) (visible (session (conn_db c) w)) = Some (d, rows) /\
     session (conn_db c) w' = write d (session (conn_db c) w) /\
     r = match rows with [] => Ok None | row :: _ => t ← f row; mret (Some t) end) \/
  (exists e, same_or_abandoned (session (conn_db c) w) (session (conn_db c) w') /\ r = Err e).
Proof.
  intros Hh Hfit Hmap Hrun.
  apply (statement_run _ _ _ _ _ _ (fun s s' r => s = session (conn_db c) w ->
    (exists d rows, forallb no_nul ps = true /\ denote (bs sql) (numbered ps) (visible s) = Some (d, rows) /\ s' = write d s /\
       r = match rows with [] => Ok None | row :: _ => t ← f row; mret (Some t) end) \/
    (exists e, same_or_abandoned s s' /\ r = Err e))) in Hrun; [exact Hrun|done|..|reflexivity].
  - intros e s _. right. exists e. by split; [left|].
  - intros st w1 p' r' Hdb Hsc Hb Hst Hq _. rewrite M_bind_eq in Hb. unfold bind_all in Hb.
    destruct (bind_from 0 ps (st, w1)) as [[st2 w2] r2] eqn:Hbind.
    apply (bind_from_run _ _ _ w1 _ _ _ _ _ Hsc Hfit) in Hbind as (Hst2 & Hdb2 & Hq2 & Hs2 & Hcase).
    cbn in Hst2, Hdb2, Hq2, Hs2, Hcase. rewrite Hdb in *. destruct Hcase as [(-> & Hnn & Hsc2)|(e & ->)];
      [|injection Hb as <- <-; right; exists e; split; [by left|done]].
    rewrite M_bind_eq in Hb. rewrite <- Hst2, <- Hdb2 in Hsc2. destruct (Statement_step (st2, w2)) as [[st3 w3] r3] eqn:Hstep.
    destruct (step_run st2 w1 w2 _ _ _ _ Hsc2 Hstep) as (Heq & Hq3 & code & Hcode & ->). cbn in Heq, Hq3, Hcode. subst st3.
    pose proof Hsc2 as [_ Hl Hv Hd Hs]. pose proof (step_quiet (st_stmt st2) w2 Hl) as Hqs. rewrite Hcode in Hqs. cbn in Hqs.
    pose proof (step_first (st_stmt st2) w2 w3 code Hl ltac:(by rewrite Hv) Hcode) as Hn. cbv zeta in Hn. rewrite Hv in Hn. cbn in Hn.
    rewrite Hs, Hdb2 in Hn.
    destruct (decide (code = SQLITE_ROW)) as [Hrow|Hrow]; [|destruct (decide (code = SQLITE_DONE)) as [Hdone|Hdone]].
    + rewrite decide_True in Hn by by left. destruct Hn as (d & rows & Hden & Hend & Hs3 & Hv3). destruct rows as [|row rows].
      { pose proof (proj2 Hend eq_refl) as Hx. rewrite Hrow in Hx. discriminate. }
      rewrite M_bind_eq in Hb. unfold map_row in Hb. cbn [fst snd] in Hb. rewrite (Hmap _ _ Hden _ w3 row rows) in Hb by (by apply Hqs || by rewrite Hv3 || apply list_elem_of_here).
      left. exists d, (row :: rows). destruct (f row); injection Hb as <- <-; by split_and!.
    + rewrite decide_True in Hn by by right. destruct Hn as (d & rows & Hden & Hend & Hs3 & Hv3). apply Hend in Hdone as ->.
      injection Hb as <- <-. left. exists d, []. by split_and!.
    + rewrite decide_False in Hn by tauto. injection Hb as <- <-. right. by eexists.
  - intros s w1 Hs. apply keeps_bind; [by apply keeps_bind_all|intros _]. apply keeps_bind; [by apply keeps_step|].
    intros [row|]; [|apply keeps_ret]. apply keeps_bind; [apply keeps_map_row|]. intros t. apply keeps_ret.
Qed.

(** ** Statements that return no rows *)

Lemma consume_collect fuel out p :
  exists l, collect_rows fuel (fun _ _ => Ok tt) out p = ((Statement_consume fuel p).1, (Statement_consume fuel p).2 ≫= fun _ => Ok l).
Proof.
  revert out p. induction fuel as [|fuel IH]; intros out p; cbn [collect_rows Statement_consume]; [by exists []|].
  unfold Statement_step. mrun. unfold on_second, zoom, ffi. destruct (sqlite3_step (st_stmt p.1) p.2) as [w code]. mrun.
  destruct (code =? SQLITE_ROW) eqn:Hrow.
  - apply Z.eqb_eq in Hrow as ->. cbn [Z.eqb SQLITE_ROW SQLITE_DONE Pos.eqb]. mrun. unfold map_row. mrun. apply IH.
  - destruct (code =? SQLITE_DONE); mrun; [by exists out | by exists []].
Qed.

Lemma execute_query fuel c sql ps w :
  exists rows, Connection_query_rows fuel c sql ps (fun _ _ => Ok tt) w =
    ((Connection_execute fuel c sql ps w).1, (Connection_execute fuel c sql ps w).2 ≫= fun _ => Ok rows).
Proof.
  unfold Connection_query_rows, Connection_execute. rewrite !M_bind_eq.
  destruct (Statement_prepare (conn_db c) sql w) as [w1 [st|e|e]]; [|by exists []..].
  unfold with_statement, scoped, finally. rewrite !M_bind_eq.
  destruct (bind_all ps (st, w1)) as [p1 [[]|e|e]]; [|by exists []; destruct (Statement_drop p1)..].
  rewrite !M_bind_eq. destruct (consume_collect fuel [] p1) as [l Hl]. rewrite Hl. exists l.
  destruct (Statement_consume fuel p1) as [p2 [[]|e|e]]; cbn [fst snd mbind result_bind]; mrun; by destruct (Statement_drop p2).
Qed.

(** [execute] is a query whose rows are ignored: it leaves the engine in
    the same state as the query, and it succeeds, fails with the same error or
    panics exactly when the query does, so that everything shown of queries
    holds of [execute]. *)
Theorem execute_as_query fuel c sql ps w :
  exists rows, Connection_query_rows fuel c sql ps (fun _ _ => Ok tt) w =
    ((Connection_execute fuel c sql ps w).1, (Connection_execute fuel c sql ps w).2 ≫= fun _ => Ok rows).
Proof. apply execute_query. Qed.

(** ** Reading values *)

Lemma as_usize_len {A} (l : list A) : Z.of_nat (length l) < 2 ^ 31 -> as_usize (Z.of_nat (length l)) = Z.of_nat (length l).
Proof. intros Hl. unfold as_usize. apply Z.mod_small. lia. Qed.

Lemma take_blob (o : option bytes) b :
  default [] o = b -> match o with None => Ok [] | Some p => Ok (take (length b) p) end = (Ok b : result SqlError bytes).
Proof. destruct o as [p|]; cbn; intros <-; [by rewrite take_ge | done]. Qed.

Section Columns.
Context (s : Stmt) (w : World) (row : list Param) (rows : list (list Param)) (i : Z).
Context (Hl : stmt_live s w) (Hr : sv_rows (stmt_view s w) = Some (row :: rows)) (Hi : 0 <= i < 2 ^ 31).

Lemma column_is p :
  row !! Z.to_nat i = Some p ->
  column_type {| row_stmt := s |} i w = type_code p /\
  match p with
  | Null => True
  | I64 n => column_i64 {| row_stmt := s |} i w = n
  | Text t => Z.of_nat (length (bs t)) < 2 ^ 31 -> column_bytes_owned {| row_stmt := s |} i w = Ok (bs t)
  | Blob b => Z.of_nat (length b) < 2 ^ 31 -> column_bytes_owned {| row_stmt := s |} i w = Ok b
  end.
Proof.
  intros [Hty Hc]%(column_value s w row rows i p Hl Hr); [|lia].
  unfold column_bytes_owned, column_type, column_bytes, column_i64. cbn [row_stmt]. rewrite as_i32_small by lia. split; [done|].
  destruct p as [|n|t|b]; [done|done|..]; destruct Hc as [Hb Hn]; intros Hlen;
    rewrite Hty, Hn, as_usize_len, Nat2Z.id by done; cbn [type_code Z.eqb SQLITE_NULL Pos.eqb]; exact (take_blob _ _ Hb).
Qed.

Lemma get_i64 v : row !! Z.to_nat i = Some (I64 v) -> Row_get (T := Z) {| row_stmt := s |} i w = Ok v.
Proof. intros [_ Hv]%column_is. unfold Row_get, from_sqleet, i64_from_sqleet. by rewrite Hv. Qed.

Lemma get_bool v : row !! Z.to_nat i = Some (I64 v) -> Row_get (T := bool) {| row_stmt := s |} i w = Ok (negb (v =? 0)).
Proof. intros [_ Hv]%column_is. unfold Row_get, from_sqleet, bool_from_sqleet. by rewrite Hv. Qed.

Lemma get_option_i64 v : row !! Z.to_nat i = Some (from_option I64 Null v) -> Row_get (T := option Z) {| row_stmt := s |} i w = Ok v.
Proof.
  intros [Hty Hv]%column_is. unfold Row_get, from_sqleet, option_i64_from_sqleet. rewrite Hty. destruct v; cbn in *; [|done]. by rewrite Hv.
Qed.

Lemma get_string v :
  is_utf8 v -> Z.of_nat (length (bs v)) < 2 ^ 31 -> row !! Z.to_nat i = Some (Text v) -> Row_get (T := string) {| row_stmt := s |} i w = Ok v.
Proof.
  intros Hu Hlen [_ Hv]%column_is. unfold Row_get, from_sqleet, string_from_sqleet. rewrite Hv by done. cbn [mbind result_bind mret result_ret]. by rewrite from_utf8_lossy_bs.
Qed.

Lemma get_bytes v : Z.of_nat (length v) < 2 ^ 31 -> row !! Z.to_nat i = Some (Blob v) -> Row_get (T := bytes) {| row_stmt := s |} i w = Ok v.
Proof. intros Hlen [_ Hv]%column_is. unfold Row_get, from_sqleet, bytes_from_sqleet. by apply Hv. Qed.

Lemma get_option_string v :
  (forall t, v = Some t -> is_utf8 t /\ Z.of_nat (length (bs t)) < 2 ^ 31) -> row !! Z.to_nat i = Some (from_option Text Null v) ->
  Row_get (T := option string) {| row_stmt := s |} i w = Ok v.
Proof.
  intros Hu Hrow. pose proof (column_is _ Hrow) as [Hty _]. unfold Row_get, from_sqleet, option_string_from_sqleet. rewrite Hty.
  destruct v as [v|]; [|done]. destruct (Hu v eq_refl) as [Hu1 Hu2]. pose proof (get_string v Hu1 Hu2 Hrow) as Hg.
  unfold Row_get, from_sqleet in Hg. cbn [type_code from_option Z.eqb SQLITE_NULL Pos.eqb]. by rewrite Hg.
Qed.

Lemma get_null :
  row !! Z.to_nat i = Some Null ->
  exists e, Row_get (T := string) {| row_stmt := s |} i w = Err e /\ Row_get (T := bytes) {| row_stmt := s |} i w = Err e.
Proof.
  intros [Hty _]%column_is. unfold Row_get, from_sqleet, string_from_sqleet, bytes_from_sqleet, column_bytes_owned. rewrite Hty. by eexists.
Qed.
End Columns.

(** The value at column [i] of the current row, read as a [T]. *)
Definition reads {T} `{!IntoParam T, !FromSqleetValue T} (s : Stmt) (i : Z) (row : list Param) (w : World) (v : T) : Prop :=
  row !! Z.to_nat i = Some (into_param v) -> Row_get {| row_stmt := s |} i w = Ok v.

(** What is bound is read back: a column that holds the parameter made
    from a value of one of the supported types gives that value, empty texts
    and blobs and NULL included; reading NULL as a text or blob is an error. *)
Theorem column_roundtrip s w row rows i :
  stmt_live s w -> sv_rows (stmt_view s w) = Some (row :: rows) -> 0 <= i < 2 ^ 31 ->
  (forall v : Z, reads s i row w v) /\ (forall v : bool, reads s i row w v) /\ (forall v : option Z, reads s i row w v) /\
  (forall v : string, is_utf8 v -> Z.of_nat (length (bs v)) < 2 ^ 31 -> reads s i row w v) /\
  (forall v : bytes, Z.of_nat (length v) < 2 ^ 31 -> reads s i row w v) /\
  (forall v : option string, (forall t, v = Some t -> is_utf8 t /\ Z.of_nat (length (bs t)) < 2 ^ 31) -> reads s i row w v) /\
  (row !! Z.to_nat i = Some Null ->
   exists e, Row_get (T := string) {| row_stmt := s |} i w = Err e /\ Row_get (T := bytes) {| row_stmt := s |} i w = Err e).
Proof.
  intros Hl Hr Hi. unfold reads. split_and!.
  - intros v. by apply (get_i64 s w row rows).
  - intros v Hv. rewrite (get_bool s w row rows i Hl Hr Hi _ Hv). by destruct v.
  - intros v. by apply (get_option_i64 s w row rows).
  - intros v Hu Hlen. by apply (get_string s w row rows).
  - intros v Hlen. by apply (get_bytes s w row rows).
  - intros v Hv. by apply (get_option_string s w row rows).
  - by apply (get_null s w row rows).
Qed.

(** ** An engine that does not fail *)

(** [known sql n]: a statement the engine accepts, with [n] parameters. *)
Class Reliable (known : bytes -> Z -> Prop) : Prop := {
  prepare_ok h sql n w : conn_live h w -> known sql n -> exists w' s, sqlite3_prepare_v2 h sql w = (w', (Some s, SQLITE_OK));
  bind_ok s i n w : stmt_live s w -> known (sv_sql (stmt_view s w)) n -> 1 <= i <= n -> bindable s i w;
  step_ok s : ~ step_failed s
}.

Section Exact.
Context {known : bytes -> Z -> Prop} {RL : Reliable known}.

Lemma bind_from_ok ps i n (st : Statement) w1 w v ses :
  in_scope (st_stmt st) (st_db st) w1 w v ses -> Forall param_fits ps -> forallb no_nul ps = true ->
  known (sv_sql v) n -> n < 2 ^ 31 -> 0 <= i -> i + Z.of_nat (length ps) <= n ->
  exists p', bind_from i ps (st, w) = (p', Ok tt).
Proof.
  intros Hsc Hfit Hnul Hk Hn Hi Hlen. destruct (bind_from i ps (st, w)) as [p' r] eqn:Hrun. exists p'. f_equal.
  revert i st w v Hsc Hi Hlen Hk Hrun. induction ps as [|p ps IH]; intros i st w v Hsc Hi Hlen Hk Hrun; cbn [bind_from] in Hrun.
  { by injection Hrun. }
  apply Forall_cons in Hfit as [Hp Hps]. cbn [forallb] in Hnul. apply andb_prop in Hnul as [Hnp Hnul]. cbn [length] in Hlen.
  pose proof Hsc as [Hq Hl Hv Hd Hs]. rewrite M_bind_eq in Hrun.
  destruct (bind_param_eq (as_i32 (i + 1)) p st w Hl Hp) as [(t & e & -> & Hx & Heq)|(_ & st' & f & Hst & Hdb & Hf & Hok & Heq)];
    [cbn in Hnp; by rewrite Hx in Hnp|].
  rewrite Heq, bind_tail in Hrun. destruct (f w) as [w2 code] eqn:Ef. destruct (Hf _ _ Ef) as (Hq2 & Hs2 & Hv2).
  assert (code = SQLITE_OK) as ->.
  { apply Hok. rewrite as_i32_small by lia. eapply bind_ok; [done | by rewrite Hv | lia]. }
  rewrite Z.eqb_refl in Hrun. specialize (Hv2 eq_refl). rewrite Hv in Hv2, Hs2. rewrite Hd in Hs2. rewrite <- Hst, <- Hdb in *.
  apply (IH Hps Hnul (i + 1) st' w2 (with_param (as_i32 (i + 1)) p v)); [|lia|lia|done|done].
  eapply in_scope_quiet; [exact Hsc | done..|]. by rewrite Hs2.
Qed.

(** On an engine that does not fail, a query is exact: with parameters
    that fit and hold no NUL byte, as many as the statement takes, it returns
    the mapped rows of the statement and leaves its effect. *)
Theorem query_rows_exact {T} fuel c sql ps (map : Row -> World -> result SqlError T) f w d rows :
  conn_live (conn_db c) w -> maps_rows map f rows -> Forall param_fits ps -> forallb no_nul ps = true -> has_nul sql = false ->
  known (bs sql) (Z.of_nat (length ps)) -> Z.of_nat (length ps) < 2 ^ 31 ->
  denote (bs sql) (numbered ps) (visible (session (conn_db c) w)) = Some (d, rows) -> (length rows < fuel)%nat ->
  exists w', Connection_query_rows fuel c sql ps map w = (w', mapM f rows) /\
    session (conn_db c) w' = write d (session (conn_db c) w) /\ quiet w w'.
Proof.
  intros Hh Hmap Hfit Hnul Hsql Hk Hlen Hden Hfuel.
  destruct (Connection_query_rows fuel c sql ps map w) as [w' r] eqn:Hrun. exists w'.
  pose proof (program_quiet c _ w (prog_query_rows c T fuel sql ps map) Hh) as Hq. rewrite Hrun in Hq. cbn in Hq.
  assert (r = mapM f rows /\ session (conn_db c) w' = write d (session (conn_db c) w)) as [-> ->]; [|done].
  unfold Connection_query_rows, Statement_prepare in Hrun. mrun_in Hrun. unfold CString_new in Hrun. rewrite Hsql in Hrun. cbn [ok_or] in Hrun.
  mrun_in Hrun. unfold ffi at 1 in Hrun. destruct (prepare_ok _ _ _ w Hh Hk) as (w1 & s & Hp). rewrite Hp in Hrun. mrun_in Hrun.
  pose proof Hp as Hp2. apply prepare_view in Hp2 as [Hs Hv]; [|done]. apply prepare_some in Hp as (Hfresh & U & Cn & St); [|done].
  assert (stmt_live s w1) as Hl by (apply St; by left). set (st := {| st_stmt := s; st_db := conn_db c; owned_texts := [] |}) in Hrun.
  unfold with_statement, scoped, finally in Hrun. rewrite M_bind_eq in Hrun.
  assert (in_scope (st_stmt st) (st_db st) w1 w1 {| sv_db := conn_db c; sv_sql := bs sql; sv_params := ∅; sv_rows := None |}
    (session (conn_db c) w)) as Hsc by by split.
  destruct (bind_from_ok ps 0 _ st w1 w1 _ _ Hsc Hfit Hnul Hk) as [[st2 w2] Hb]; [lia..|]. unfold bind_all in Hrun. rewrite Hb in Hrun.
  apply (bind_from_run _ _ _ w1 _ _ _ _ _ Hsc Hfit) in Hb as (Hst2 & Hdb2 & Hq2 & Hs2 & [(_ & _ & Hsc2)|(e & ?)]); [|done].
  cbn in Hst2, Hdb2, Hq2, Hs2, Hsc2. destruct (collect_rows fuel map [] (st2, w2)) as [[st3 w3] r3] eqn:Hcol.
  rewrite <- Hst2, <- Hdb2 in Hsc2.
  apply (collect_run map f fuel st2 w1 w2 _ _ _ _ Hsc2) in Hcol as (H1 & H2 & _ & H3); [|done| |lia].
  - cbn in H1, H2, H3. subst st3. injection Hrun as <- <-. rewrite Hdb2 in H3. destruct (H3 d rows Hden) as [[H4 ->]|H4]; [|by apply step_ok in H4].
    split; [done|]. rewrite finalize_session by (rewrite Hst2; by apply H2). done.
  - intros d' rows' Hden'. rewrite Hdb2 in Hden'. change (denote (bs sql) (numbered ps) (visible (session (conn_db c) w)) = Some (d', rows')) in Hden'.
    rewrite Hden in Hden'. by injection Hden' as <- <-.
Qed.
(** Every call that [query_rows] gets right, [execute] gets right. *)
Lemma execute_exact fuel c sql ps w d rows :
  conn_live (conn_db c) w -> Forall param_fits ps -> forallb no_nul ps = true -> has_nul sql = false ->
  known (bs sql) (Z.of_nat (length ps)) -> Z.of_nat (length ps) < 2 ^ 31 ->
  denote (bs sql) (numbered ps) (visible (session (conn_db c) w)) = Some (d, rows) -> (length rows < fuel)%nat ->
  exists n, (Connection_execute fuel c sql ps w).2 = Ok n.
Proof.
  intros Hh Hfit Hnul Hsql Hk Hlen Hden Hfuel. destruct (execute_query fuel c sql ps w) as [l Hq].
  destruct (query_rows_exact fuel c sql ps (fun _ _ => Ok tt) (fun _ => Ok tt) w d rows) as (w' & Hrun & _); try done.
  rewrite Hrun in Hq. injection Hq as _ Hr. assert (exists ts, mapM (fun _ : list Param => Ok tt : result SqlError unit) rows = Ok ts) as [ts Hts].
  { clear. induction rows as [|row rows [ts IH]]; [by exists []|]. cbn [mapM]. rewrite IH. by eexists. }
  rewrite Hts in Hr. destruct (Connection_execute fuel c sql ps w).2 as [n|e|p]; [by exists n|done..].
Qed.
End Exact.

(** The first row of the query. *)
Lemma query_row_first {T} fuel c sql ps (map : Row -> World -> result SqlError T) w l :
  (Connection_query_rows fuel c sql ps map w).2 = Ok l -> (0 < fuel)%nat -> exists o, (Connection_query_row c sql ps map w).2 = Ok o.
Proof.
  intros Hq Hpos. destruct fuel as [|fuel]; [lia|]. unfold Connection_query_rows, Connection_query_row in *. rewrite M_bind_eq in Hq; rewrite M_bind_eq.
  destruct (Statement_prepare (conn_db c) sql w) as [w1 [st|e|e]]; [|done..]. unfold with_statement, scoped, finally in *. rewrite M_bind_eq in Hq; rewrite M_bind_eq.
  destruct (bind_all ps (st, w1)) as [p1 [[]|e|e]]; [|by destruct (Statement_drop p1)..]. cbn [collect_rows] in Hq. rewrite M_bind_eq in Hq; rewrite M_bind_eq.
  destruct (Statement_step p1) as [p2 [[row|]|e|e]]; [|by destruct (Statement_drop p2); eexists|by destruct (Statement_drop p2)..].
  rewrite M_bind_eq in Hq; rewrite M_bind_eq. unfold map_row in *. destruct (map row p2.2) as [t|e|e]; [|by destruct (Statement_drop p2)..].
  cbn. destruct (Statement_drop p2). by eexists.
Qed.

(** A statement without rows that was executed: it was stepped once, and
    dropped. *)
Lemma execute_trace fuel c sql ps w w' n :
  conn_live (conn_db c) w -> Forall param_fits ps ->
  (forall d rows, denote (bs sql) (numbered ps) (visible (session (conn_db c) w)) = Some (d, rows) -> rows = []) ->
  Connection_execute fuel c sql ps w = (w', Ok n) ->
  forallb no_nul ps = true /\ exists s w1 w2, stmt_live s w1 /\
    stmt_view s w1 = {| sv_db := conn_db c; sv_sql := bs sql; sv_params := numbered ps; sv_rows := None |} /\
    session (conn_db c) w1 = session (conn_db c) w /\ sqlite3_step s w1 = (w2, SQLITE_DONE) /\ stmt_live s w2 /\ w' = (sqlite3_finalize s w2).1.
Proof.
  intros Hh Hfit Hnone Hrun. unfold Connection_execute, Statement_prepare in Hrun. mrun_in Hrun. unfold CString_new in Hrun.
  destruct (has_nul sql); cbn [ok_or] in Hrun; [done|]. mrun_in Hrun. unfold ffi at 1 in Hrun.
  destruct (sqlite3_prepare_v2 (conn_db c) (bs sql) w) as [w1 [[s|] code]] eqn:Hp; mrun_in Hrun; [|done].
  pose proof Hp as Hp2. apply prepare_view in Hp2 as [Hs Hv]; [|done]. apply prepare_some in Hp as (Hfresh & U & Cn & St); [|done].
  assert (stmt_live s w1) as Hl by (apply St; by left). set (st := {| st_stmt := s; st_db := conn_db c; owned_texts := [] |}) in Hrun.
  unfold with_statement, scoped, finally in Hrun. rewrite M_bind_eq in Hrun.
  assert (in_scope (st_stmt st) (st_db st) w1 w1 {| sv_db := conn_db c; sv_sql := bs sql; sv_params := ∅; sv_rows := None |}
    (session (conn_db c) w)) as Hsc by by split.
  unfold bind_all in Hrun. destruct (bind_from 0 ps (st, w1)) as [[st2 w2] r2] eqn:Hb.
  apply (bind_from_run _ _ _ w1 _ _ _ _ _ Hsc Hfit) in Hb as (Hst2 & Hdb2 & Hq2 & Hs2 & [(-> & Hnn & Hsc2)|(e & ->)]); [|done].
  cbn in Hst2, Hdb2, Hq2, Hs2, Hsc2. split; [done|]. rewrite M_bind_eq in Hrun. destruct fuel as [|fuel]; [done|]. cbn [Statement_consume] in Hrun.
  mrun_in Hrun. unfold on_second, zoom, ffi in Hrun. cbn [fst snd] in Hrun.
  destruct Hsc2 as [_ Hl2 Hv2 _ Hs2']. rewrite <- Hst2 in Hl2, Hv2.
  destruct (sqlite3_step (st_stmt st2) w2) as [w3 code3] eqn:Hstep. mrun_in Hrun.
  pose proof (step_quiet _ _ Hl2) as Hq3. rewrite Hstep in Hq3. cbn in Hq3.
  pose proof (step_first (st_stmt st2) w2 w3 code3 Hl2 ltac:(by rewrite Hv2) Hstep) as Hf. cbv zeta in Hf. rewrite Hv2 in Hf. cbn in Hf.
  destruct (code3 =? SQLITE_DONE) eqn:Hd; [|destruct (code3 =? SQLITE_ROW) eqn:Hr].
  - apply Z.eqb_eq in Hd as ->. injection Hrun as <- _. exists (st_stmt st2), w2, w3. split_and!; try done. by apply Hq3.
  - apply Z.eqb_eq in Hr as ->. rewrite decide_True in Hf by by left. destruct Hf as (d & rows & Hden & Hend & _).
    rewrite Hs2' in Hden. rewrite (Hnone _ _ Hden) in Hend. by destruct (proj2 Hend eq_refl).
  - done.
Qed.
End Refinement.
