(* ===== verification/SessionState.v ===== *)
(** Persisted session state: [presidium-storage/src/session_state.rs], with
    the error type of [presidium-storage/src/error.rs]. *)

From S2P Require Import Prelude Constants Prims Ratchet Identity Keys Sqleet.

Inductive StorageError :=
| Database (e : SqlError)
| KeyDerivation (msg : string)
| Serialization (msg : string)
| Crdt (msg : string)
| InvalidData (msg : string)
| Migration (msg : string).

Definition StorageError_to_string (e : StorageError) : string :=
  match e with
  | Database e => "database error: " +:+ SqlError_to_string e
  | KeyDerivation m => "key derivation failed: " +:+ m
  | Serialization m => "serialization error: " +:+ m
  | Crdt m => "crdt error: " +:+ m
  | InvalidData m => "invalid data: " +:+ m
  | Migration m => "migration error: " +:+ m
  end.

(** ** Snapshots *)

Record ChainSnapshot := {
  cs_our_ratchet_key : option bytes;
  cs_their_ratchet_public : option bytes;
  cs_chain_key : option bytes;
  cs_chain_index : Z;
  cs_skipped_message_keys : list (Z * bytes)
}.

Record RatchetSnapshot := {
  rs_root_key : bytes;
  rs_sending_chain : ChainSnapshot;
  rs_receiving_chain : ChainSnapshot
}.

Record SessionState := {
  ss_is_initiator : bool;
  ss_session_keys : SessionKeys;
  ss_ratchet : option RatchetSnapshot;
  ss_last_used : Z
}.

Definition all_some {A} (P : A -> Prop) (o : option A) : Prop := forall a, o = Some a -> P a.

#[export] Instance SessionKeys_wf : Wf SessionKeys := fun k =>
  length (sk_root_key k) = ROOT_KEY_SIZE /\ length (sk_sending_chain k) = CHAIN_KEY_SIZE /\
  length (sk_receiving_chain k) = CHAIN_KEY_SIZE /\ wf (sk_peer_identity k) /\ is_u64 (sk_message_count k).
#[export] Instance ChainSnapshot_wf : Wf ChainSnapshot := fun s =>
  all_some (fun k => length k = X25519_PRIVATE_KEY_SIZE) (cs_our_ratchet_key s) /\
  all_some (fun k => length k = X25519_PUBLIC_KEY_SIZE) (cs_their_ratchet_public s) /\
  all_some (fun k => length k = CHAIN_KEY_SIZE) (cs_chain_key s) /\ is_u64 (cs_chain_index s) /\
  Forall (fun p => is_u64 p.1 /\ length p.2 = MESSAGE_KEY_SIZE) (cs_skipped_message_keys s).
#[export] Instance RatchetSnapshot_wf : Wf RatchetSnapshot := fun s =>
  length (rs_root_key s) = ROOT_KEY_SIZE /\ wf (rs_sending_chain s) /\ wf (rs_receiving_chain s).
#[export] Instance SessionState_wf : Wf SessionState := fun s =>
  wf (ss_session_keys s) /\ all_some wf (ss_ratchet s).

Definition ChainSnapshot_from_chain (c : RatchetChain) : ChainSnapshot :=
  {| cs_our_ratchet_key := our_ratchet_key c;
     cs_their_ratchet_public := their_ratchet_public c;
     cs_chain_key := option_map ck_key (chain_key c);
     cs_chain_index := match chain_key c with Some ck => ck_index ck | None => 0 end;
     cs_skipped_message_keys := skipped_message_keys c |}.

Definition ChainSnapshot_to_chain (s : ChainSnapshot) : result StorageError RatchetChain :=
  ck ← match cs_chain_key s, cs_chain_index s with
       | Some key, index => Ok (Some (ChainKey_new key index))
       | None, Z0 => Ok None
       | None, _ => Err (InvalidData "chain snapshot has an index but no chain key")
       end;
  mret {| our_ratchet_key := cs_our_ratchet_key s; their_ratchet_public := cs_their_ratchet_public s;
          chain_key := ck; skipped_message_keys := cs_skipped_message_keys s |}.

Definition RatchetSnapshot_from_ratchet (d : DoubleRatchet) : RatchetSnapshot :=
  {| rs_root_key := rk_key (root_key d);
     rs_sending_chain := ChainSnapshot_from_chain (sending_chain d);
     rs_receiving_chain := ChainSnapshot_from_chain (receiving_chain d) |}.

Definition RatchetSnapshot_to_ratchet (s : RatchetSnapshot) (sid : string) (ad : bytes)
    : result StorageError DoubleRatchet :=
  sending ← ChainSnapshot_to_chain (rs_sending_chain s);
  receiving ← ChainSnapshot_to_chain (rs_receiving_chain s);
  mret {| root_key := RootKey_new (rs_root_key s); sending_chain := sending; receiving_chain := receiving;
          session_id := sid; associated_data := ad |}.

(** ** Snapshots are exact *)

Lemma chain_snapshot_exact c : ChainSnapshot_to_chain (ChainSnapshot_from_chain c) = Ok c.
Proof. by destruct c as [o t [[k i]|] s]. Qed.

Lemma chain_snapshot_inv s c : ChainSnapshot_to_chain s = Ok c -> ChainSnapshot_from_chain c = s.
Proof. destruct s as [o t [k|] [|i|i] l]; cbn; intros [= <-]; done. Qed.

Lemma snapshot_exact d sid ad :
  RatchetSnapshot_to_ratchet (RatchetSnapshot_from_ratchet d) sid ad =
  Ok {| root_key := root_key d; sending_chain := sending_chain d; receiving_chain := receiving_chain d;
        session_id := sid; associated_data := ad |}.
Proof.
  unfold RatchetSnapshot_to_ratchet. cbn [RatchetSnapshot_from_ratchet rs_root_key rs_sending_chain rs_receiving_chain].
  rewrite !chain_snapshot_exact. cbn. by destruct (root_key d).
Qed.

(** A snapshot loses nothing: rebuilding the snapshot of a live ratchet
    gives the same root key and chains, skipped keys included; conversely every
    snapshot that rebuilds is the snapshot of what it rebuilds to, and the ones
    that do not are exactly those with a chain index but no chain key. *)
Theorem snapshot_roundtrip :
  (forall d, RatchetSnapshot_to_ratchet (RatchetSnapshot_from_ratchet d) (session_id d) (associated_data d) = Ok d) /\
  (forall s sid ad d, RatchetSnapshot_to_ratchet s sid ad = Ok d -> RatchetSnapshot_from_ratchet d = s) /\
  (forall s sid ad,
     (exists d, RatchetSnapshot_to_ratchet s sid ad = Ok d) \/
     RatchetSnapshot_to_ratchet s sid ad = Err (InvalidData "chain snapshot has an index but no chain key") /\
     exists c, (c = rs_sending_chain s \/ c = rs_receiving_chain s) /\
       cs_chain_key c = None /\ cs_chain_index c <> 0).
Proof.
  split_and!.
  - intros d. rewrite snapshot_exact. by destruct d.
  - intros s sid ad d Hd. apply result_bind_ok in Hd as (a & Ha & Hd).
    apply result_bind_ok in Hd as (b & Hb & [= <-]).
    apply chain_snapshot_inv in Ha, Hb. unfold RatchetSnapshot_from_ratchet. cbn. rewrite Ha, Hb. by destruct s.
  - intros [r [oa ta [ka|] [|ia|ia] la] [ob tb [kb|] [|ib|ib] lb]] sid ad;
      first [left; by eexists | right; split; [done|]; eexists; split; [by left | by split]
            | right; split; [done|]; eexists; split; [by right | by split]].
Qed.
