(* ===== verification/SessionFacts.v ===== *)
(** The sizes of stored keys: every operation of the Double Ratchet keeps the
    array sizes and integer ranges its snapshot is stored with. *)

From S2P Require Import Prelude Constants Prims Ratchet RatchetFacts Identity Keys Sqleet SessionState.

Section Facts.
Context `{C : Crypto, L : !CryptoLaws C, B : Build, SH : Serde RatchetMessageHeader}.

Definition chain_wf (c : ChainKey) : Prop := length (ck_key c) = CHAIN_KEY_SIZE /\ is_u64 (ck_index c).

Definition ratchet_wf (d : DoubleRatchet) : Prop := wf (RatchetSnapshot_from_ratchet d).

Definition half_wf (r : RatchetChain) : Prop :=
  all_some (fun k => length k = X25519_PRIVATE_KEY_SIZE) (our_ratchet_key r) /\
  all_some (fun k => length k = X25519_PUBLIC_KEY_SIZE) (their_ratchet_public r) /\
  all_some chain_wf (chain_key r) /\
  Forall (fun p => is_u64 p.1 /\ length p.2 = MESSAGE_KEY_SIZE) (skipped_message_keys r).

Lemma half_wf_snapshot r : half_wf r <-> wf (ChainSnapshot_from_chain r).
Proof.
  unfold half_wf, wf, ChainSnapshot_wf, ChainSnapshot_from_chain, all_some, chain_wf.
  destruct r as [o t [c|] l]; cbn.
  - split; [intros (? & ? & Hc & ?) | intros (? & ? & Hk & ? & ?)].
    + destruct (Hc c eq_refl). split_and!; try done; by intros ? [= <-].
    + split_and!; try done. intros ? [= <-]. by split; [apply Hk|].
  - split; [intros (? & ? & ? & ?) | intros (? & ? & ? & ? & ?)]; by split_and!.
Qed.

Lemma ratchet_wf_halves d :
  ratchet_wf d <-> length (rk_key (root_key d)) = ROOT_KEY_SIZE /\ half_wf (sending_chain d) /\ half_wf (receiving_chain d).
Proof. rewrite !half_wf_snapshot. done. Qed.

(** ** Keys *)

Lemma kdf_msg_wf k : length (kdf_msg k) = MESSAGE_KEY_SIZE.
Proof. unfold kdf_msg. destruct (hmac_accepts k MESSAGE_KEY_INFO) as (t & -> & Ht). cbn. rewrite length_take, Ht. done. Qed.

Lemma next_wf c c' : is_u64 (ck_index c) -> ChainKey_next c = Ok c' -> chain_wf c'.
Proof.
  intros Hi. unfold ChainKey_next. destruct (hmac_sha256 (ck_key c) CHAIN_KEY_INFO) as [t| |] eqn:Ht; [|done..].
  cbn [mbind result_bind]. unfold hmac_sha256 in Ht. destruct (hmac_accepts (ck_key c) CHAIN_KEY_INFO) as (t' & Heq & Hl).
  rewrite Heq in Ht. injection Ht as <-. unfold u64_add, is_u64 in *.
  assert (length (take CHAIN_KEY_SIZE t') = CHAIN_KEY_SIZE) by (by rewrite length_take, Hl).
  pose proof (Z.mod_pos_bound (ck_index c + 1) (2 ^ 64)).
  destruct (Z.ltb_spec (ck_index c + 1) (2 ^ 64)); [|destruct overflow_checks]; cbn; [|done|];
    intros [= <-]; (split; [done | unfold is_u64; cbn; lia]).
Qed.

Lemma kdf_root_wf rk dh : length (rk_key (kdf_root rk dh).1) = ROOT_KEY_SIZE /\ chain_wf (kdf_root rk dh).2.
Proof.
  unfold kdf_root. cbn [fst snd].
  destruct (hkdf_expands (Some (rk_key rk)) dh (bs "presidium-ratchet-root") ROOT_KEY_SIZE) as (r & -> & Hr);
    [unfold ROOT_KEY_SIZE; lia|].
  destruct (hkdf_expands (Some (rk_key rk)) dh (bs "presidium-ratchet-chain") CHAIN_KEY_SIZE) as (c & -> & Hc);
    [unfold CHAIN_KEY_SIZE; lia|].
  by split_and!.
Qed.

(** ** The receiving computations *)

Definition receive_wf (st : ReceiveState) : Prop :=
  chain_wf st.1 /\ Forall (fun p => is_u64 p.1 /\ length p.2 = MESSAGE_KEY_SIZE) st.2.

Lemma skip_to_wf fuel n : keeps receive_wf (skip_to fuel n).
Proof.
  induction fuel as [|fuel IH]; intros [c l] [Hc Hl]; cbn [skip_to]; mrun; destruct (ck_index c <? n); try done.
  mrun. rewrite message_key_eq. mrun.
  assert (receive_wf (c, l ++ [(ck_index c, kdf_msg (ck_key c))])) as Hw.
  { split; [done|]. apply Forall_app. split; [done|]. constructor; [|done].
    split; [apply Hc | apply kdf_msg_wf]. }
  case_decide; [done|]. mrun. destruct (ChainKey_next c) as [c'| |] eqn:Hn; [|done..]. mrun.
  apply IH. split; [eapply next_wf, Hn; apply Hc | apply Hw].
Qed.

Lemma receive_wf_kept ct h : keeps receive_wf (receive_on_chain ct h).
Proof.
  intros st Hst. unfold receive_on_chain. mrun. pose proof (skip_to_wf (S MAX_SKIP_MESSAGES) (message_number h) st Hst) as Hw.
  destruct (skip_to _ _ st) as [[c l] [[]| |]]; [|done..]. mrun. rewrite message_key_eq. mrun.
  destruct (ChainKey_next c) as [c'| |] eqn:Hn; [|done..]. mrun. split; [eapply next_wf, Hn; apply Hw | apply Hw].
Qed.

(** ** The ratchet *)

Ltac halves := unfold half_wf in *; cbn in *; destruct_and?; split_and!; try done; try by intros ? [= <-].

Lemma decrypt_wf ct h : keeps ratchet_wf (DoubleRatchet_decrypt ct h).
Proof.
  intros d Hd. unfold DoubleRatchet_decrypt. mrun. destruct (find_skipped _ _) as [[]|]; [done|].
  destruct (chain_key (receiving_chain d)) as [c|] eqn:Hc; [|done]. unfold in_receiving.
  rewrite ratchet_wf_halves in Hd |- *. destruct Hd as (Hr & Hs & Ho & Ht & Hk & Hl).
  pose proof (receive_wf_kept ct h (c, skipped_message_keys (receiving_chain d)) (conj (Hk c Hc) Hl)) as [Hc' Hl'].
  destruct (receive_on_chain ct h _) as [[c' l'] r]. halves.
Qed.

Lemma encrypt_wf pt : keeps ratchet_wf (DoubleRatchet_encrypt pt).
Proof.
  assert (keeps ratchet_wf ensure_sending_chain) as Hens.
  { intros d Hd. unfold ensure_sending_chain. mrun.
    destruct (chain_key (sending_chain d)); [done|].
    destruct (our_ratchet_key (sending_chain d)) as [o|]; [|done]. cbn [ok_or]. mrun.
    destruct (their_ratchet_public (sending_chain d)) as [t|]; [|done]. cbn [ok_or]. mrun.
    rewrite ratchet_step_eq. mrun. destruct (kdf_root_wf (root_key d) (x25519_dh o t)) as [Hr Hc].
    destruct (kdf_root _ _) as [r c]. mrun. rewrite ratchet_wf_halves in Hd |- *. destruct Hd as (? & (? & ? & ? & ?) & ?).
    halves. }
  intros d Hd. unfold DoubleRatchet_encrypt. mrun. specialize (Hens d Hd).
  destruct (ensure_sending_chain d) as [d1 [[]| |]]; [|done..]. mrun. cbn [fst] in Hens.
  destruct (chain_key (sending_chain d1)) as [c|] eqn:Hc; [|done]. cbn [ok_or]. mrun. rewrite message_key_eq. mrun.
  destruct (ChainKey_next c) as [c'| |] eqn:Hn; [|done..]. mrun.
  set (d2 := on_sending _ d1).
  assert (ratchet_wf d2) as Hd2.
  { rewrite ratchet_wf_halves in Hens |- *. destruct Hens as (? & (? & ? & Hk & ?) & ?). halves.
    intros ? [= <-]. eapply next_wf, Hn. by apply (Hk c). }
  destruct (map_err _ _) as [hj| |]; [|done..]. mrun. by destruct (ok_or _ _).
Qed.

Lemma dh_wf p : length p = X25519_PUBLIC_KEY_SIZE -> keeps ratchet_wf (DoubleRatchet_dh_ratchet p).
Proof.
  intros Hp d Hd. unfold DoubleRatchet_dh_ratchet. mrun. rewrite ratchet_wf_halves in Hd.
  destruct Hd as (Hr & (Ho & Ht & Hk & Hl) & (Ho' & Ht' & Hk' & Hl')).
  destruct (ok_or _ _) as [our| |] eqn:Hour;
    [|mrun; rewrite ratchet_wf_halves; by split_and!..]. mrun.
  rewrite ratchet_step_eq. mrun. destruct (kdf_root_wf (root_key d) (x25519_dh our p)) as [Hr1 Hc1].
  destruct (kdf_root _ _) as [r c]. mrun.
  destruct (our_ratchet_key (receiving_chain d)) as [k|] eqn:Hk0; mrun; rewrite ratchet_wf_halves; halves;
    by rewrite Hk0.
Qed.

Lemma init_wf sid rk a p ad d :
  length a = X25519_PRIVATE_KEY_SIZE -> length p = X25519_PUBLIC_KEY_SIZE ->
  DoubleRatchet_init sid rk a p ad = Ok d -> ratchet_wf d.
Proof.
  intros Ha Hp. unfold DoubleRatchet_init. rewrite ratchet_step_eq. cbn [mbind result_bind].
  destruct (kdf_root_wf rk (x25519_dh a p)) as [Hr Hc]. destruct (kdf_root _ _) as [r c]. intros [= <-].
  rewrite ratchet_wf_halves. halves.
Qed.

Lemma init_as_responder_wf sid rk b ad d :
  length b = X25519_PRIVATE_KEY_SIZE -> length (rk_key rk) = ROOT_KEY_SIZE ->
  DoubleRatchet_init_as_responder sid rk b ad = Ok d -> ratchet_wf d.
Proof.
  intros Hb Hr [= <-]. rewrite ratchet_wf_halves. halves.
Qed.

(** A call of an operation; a public key is an array of 32 bytes. *)
Inductive typed_call (d : DoubleRatchet) : DoubleRatchet -> Prop :=
| typed_encrypt pt : typed_call d (DoubleRatchet_encrypt pt d).1
| typed_decrypt ct h : typed_call d (DoubleRatchet_decrypt ct h d).1
| typed_dh_ratchet p : length p = X25519_PUBLIC_KEY_SIZE -> typed_call d (DoubleRatchet_dh_ratchet p d).1.

Lemma reachable_typed d d' : rtc typed_call d d' -> ratchet_wf d -> ratchet_wf d'.
Proof.
  induction 1 as [|d d1 d2 [pt|ct h|p Hp] _ IH]; intros Hd; [done|..]; apply IH;
    [exact (encrypt_wf pt d Hd) | exact (decrypt_wf ct h d Hd) | exact (dh_wf p Hp d Hd)].
Qed.

(** ** Session keys *)

Lemma session_keys_wf init secret peer keys :
  wf peer -> SessionKeys_new init secret peer = Ok keys -> wf keys.
Proof.
  intros Hp. unfold SessionKeys_new.
  destruct (hkdf_expands None secret (bs "ROOT_KEY") ROOT_KEY_SIZE) as (r & -> & Hr); [unfold ROOT_KEY_SIZE; lia|].
  destruct (hkdf_expands None secret (bs "SENDING_CHAIN") CHAIN_KEY_SIZE) as (s & -> & Hs); [unfold CHAIN_KEY_SIZE; lia|].
  destruct (hkdf_expands None secret (bs "RECEIVING_CHAIN") CHAIN_KEY_SIZE) as (c & -> & Hc); [unfold CHAIN_KEY_SIZE; lia|].
  cbn [ok_or mbind result_bind]. intros [= <-]. by split_and!.
Qed.

(** C16. The ratchet state is always well typed: from the initialisation of
    either role, through any sequence of calls with any ciphertexts and headers
    and whatever their outcome, errors and panics included, all keys have
    their sizes, all indices are 64-bit, and the state can be stored: its JSON
    snapshot is written, read back, and rebuilds exactly this state. *)
Theorem ratchet_always_typed `{SR : Serde RatchetSnapshot, SRO : !SerdeOk RatchetSnapshot} sid rk secret p ad d d' :
  length secret = X25519_PRIVATE_KEY_SIZE ->
  (length p = X25519_PUBLIC_KEY_SIZE /\ DoubleRatchet_init sid rk secret p ad = Ok d \/
   length (rk_key rk) = ROOT_KEY_SIZE /\ DoubleRatchet_init_as_responder sid rk secret ad = Ok d) ->
  rtc typed_call d d' ->
  length (rk_key (root_key d')) = ROOT_KEY_SIZE /\ half_wf (sending_chain d') /\ half_wf (receiving_chain d') /\
  exists json, to_vec (RatchetSnapshot_from_ratchet d') = Ok json /\
    (s ← from_slice json; map_err (fun _ => "rebuild") (RatchetSnapshot_to_ratchet s (session_id d') (associated_data d'))) = Ok d'.
Proof.
  intros Hs Hinit Hr. assert (ratchet_wf d') as Hd.
  { eapply reachable_typed; [exact Hr|]. destruct Hinit as [[Hp Hi]|[Hk Hi]]; [exact (init_wf _ _ _ _ _ _ Hs Hp Hi) | exact (init_as_responder_wf _ _ _ _ _ Hs Hk Hi)]. }
  pose proof Hd as (H1 & H2 & H3)%ratchet_wf_halves. split_and!; try done.
  destruct (serde_total (RatchetSnapshot_from_ratchet d') Hd) as [json Hj]. exists json. split; [done|]. rewrite (serde_roundtrip (RatchetSnapshot_from_ratchet d') _ Hd Hj). cbn [mbind result_bind].
  rewrite snapshot_exact. by destruct d'.
Qed.
End Facts.
