(* ===== verification/Database.v ===== *)
(** The database file: opening, keying and migrating it
    ([presidium-storage/src/database.rs]) and the derivation of its key
    ([presidium-storage/src/kdf.rs]).

    Everything goes through the wrapper of Sqleet; the migration script is the
    text of [migrations/0001_init.sql].  Argon2 is third-party code, the class
    [Argon2].  Logging and zeroization are left out. *)

From stdpp Require Import pretty.
From S2P Require Import Prelude Constants Prims Ratchet Identity Keys Sqleet SessionState.

(** ** Migrations *)

Definition INIT_SQL : string :=
"-- Presidium local storage schema (Phase 0 Week 3)
-- All values stored inside an SQLCipher-encrypted database.

-- Single-row identity: exactly one identity per install.
CREATE TABLE identity (
    id INTEGER PRIMARY KEY CHECK (id = 1),
    device_id TEXT NOT NULL UNIQUE,
    classical_seed BLOB NOT NULL,
    pq_seed BLOB NOT NULL,
    created_at INTEGER NOT NULL
);

-- Prekeys: signed prekeys and one-time prekeys.
CREATE TABLE prekeys (
    key_id INTEGER PRIMARY KEY,
    kind INTEGER NOT NULL,              -- 0 = signed, 1 = one-time
    classical BLOB NOT NULL,
    pq BLOB NOT NULL,
    public_classical BLOB NOT NULL,
    public_pq BLOB NOT NULL,
    signature BLOB NOT NULL,
    created_at INTEGER NOT NULL
);
CREATE INDEX idx_prekeys_kind ON prekeys(kind, key_id);

-- Conversations (1:1 and group channels).
CREATE TABLE conversations (
    id TEXT PRIMARY KEY,
    peer_classical BLOB NOT NULL,
    peer_pq BLOB NOT NULL,
    is_group INTEGER NOT NULL DEFAULT 0,
    created_at INTEGER NOT NULL
);

-- Double Ratchet session state per conversation.
CREATE TABLE sessions (
    conversation_id TEXT PRIMARY KEY REFERENCES conversations(id) ON DELETE CASCADE,
    is_initiator INTEGER NOT NULL,
    session_keys TEXT NOT NULL,         -- JSON: SessionKeys
    ratchet_state TEXT,                 -- JSON: RatchetSnapshot (nullable)
    last_used INTEGER NOT NULL
);

-- Messages with ratchet headers and ciphertext.
CREATE TABLE messages (
    id INTEGER PRIMARY KEY AUTOINCREMENT,
    conversation_id TEXT NOT NULL REFERENCES conversations(id) ON DELETE CASCADE,
    message_id BLOB NOT NULL,           -- sender-assigned unique id
    sender_classical BLOB NOT NULL,
    ciphertext BLOB NOT NULL,
    header TEXT NOT NULL,               -- JSON: RatchetMessageHeader
    content_type INTEGER NOT NULL,
    direction INTEGER NOT NULL,         -- 0 = incoming, 1 = outgoing
    status INTEGER NOT NULL DEFAULT 0,
    created_at INTEGER NOT NULL
);
CREATE INDEX idx_messages_conversation ON messages(conversation_id, id);
CREATE UNIQUE INDEX idx_messages_uid ON messages(conversation_id, message_id);

-- Sender keys for group channels (SenderKey protocol).
CREATE TABLE sender_keys (
    group_id TEXT NOT NULL,
    sender_classical BLOB NOT NULL,
    chain_key BLOB NOT NULL,
    message_index INTEGER NOT NULL DEFAULT 0,
    key_id INTEGER NOT NULL,
    updated_at INTEGER NOT NULL,
    PRIMARY KEY (group_id, sender_classical)
);

-- Media attachments.
CREATE TABLE media (
    id TEXT PRIMARY KEY,
    message_id INTEGER REFERENCES messages(id) ON DELETE CASCADE,
    kind INTEGER NOT NULL,              -- 0 = image, 1 = audio, 2 = video, 3 = file
    encryption_key BLOB NOT NULL,
    size INTEGER NOT NULL,
    relative_path TEXT NOT NULL,
    created_at INTEGER NOT NULL
);

-- Yrs CRDT documents for multi-device sync (per conversation / device).
CREATE TABLE docs (
    id TEXT PRIMARY KEY,
    ydoc BLOB NOT NULL,
    updated_at INTEGER NOT NULL
);

-- Known devices of linked identities.
CREATE TABLE devices (
    device_id TEXT PRIMARY KEY,
    classical BLOB NOT NULL,
    pq BLOB NOT NULL,
    last_seen INTEGER
);
".

Definition MIGRATIONS : list (string * string) := [("0001_init.sql", INIT_SQL)].

Definition user_version_sql (target : Z) : string := "PRAGMA user_version = " +:+ pretty target.

(** [i64::try_from(n).unwrap_or(i64::MAX)] on a [usize]. *)
Definition i64_try_from (n : Z) : Z := if n <? 2 ^ 63 then n else 2 ^ 63 - 1.

Section Open.
Context `{E : Engine}.

(** [?] from [SqlError] to [StorageError]. *)
Definition sql_ {A} (m : M World SqlError A) : M World StorageError A := with_err Database m.

Definition apply_migration (conn : Connection) (target : Z) (sql : string) : M World SqlError unit :=
  in_transaction conn
    (Transaction_execute_batch sql;;
     Transaction_execute_batch (user_version_sql target);;
     Transaction_commit).

(** The loop of [run_migrations], from [index]. *)
Fixpoint migrate_from (conn : Connection) (current index : Z) (migrations : list (string * string)) : M World StorageError unit :=
  match migrations with
  | [] => mret tt
  | (_, sql) :: migrations =>
      let target := i64_try_from (index + 1) in
      (if target <=? current then mret tt else sql_ (apply_migration conn target sql));;
      migrate_from conn current (index + 1) migrations
  end.

Definition run_all (migrations : list (string * string)) (conn : Connection) : M World StorageError unit :=
  current ← sql_ (Connection_pragma_i64 conn "user_version");
  migrate_from conn current 0 migrations.

Definition run_migrations (conn : Connection) : M World StorageError unit := run_all MIGRATIONS conn.

(** ** Opening *)

Record OpenDatabase := { db_conn : Connection }.

(** A local [conn] that is dropped when the function returns early. *)
Definition or_drop {A} (c : Connection) (body : M World StorageError A) : M World StorageError A := fun w =>
  match body w with
  | (w', Ok a) => (w', Ok a)
  | (w', r) => (Connection_drop c w', r)
  end.

Definition Database_setup (conn : Connection) (key : bytes) : M World StorageError unit :=
  with_err (fun e => KeyDerivation ("sqleet key: " +:+ SqlError_to_string e)) (Connection_key conn key);;
  sql_ (Connection_pragma_set_string conn "journal_mode" "WAL");;
  sql_ (Connection_execute_batch conn "PRAGMA foreign_keys = ON");;
  sql_ (Connection_busy_timeout conn 5000);;
  run_migrations conn.

Definition Database_finish (conn : Connection) (key : bytes) : M World StorageError OpenDatabase :=
  or_drop conn (Database_setup conn key;; mret {| db_conn := conn |}).

Definition Database_open (path : option string) (key : bytes) : M World StorageError OpenDatabase :=
  conn ← sql_ (Connection_open path);
  Database_finish conn key.

Definition Database_open_in_memory (key : bytes) : M World StorageError OpenDatabase :=
  conn ← sql_ Connection_open_in_memory;
  Database_finish conn key.

Definition Database_close (db : OpenDatabase) : M World StorageError unit := sql_ (Connection_close (db_conn db)).
End Open.

(** ** The key *)

(** [Params::new] and [Argon2::new(Argon2id, V0x13, params).hash_password_into],
    with the number of output bytes. *)
Class Argon2 := {
  Params : Type;
  Params_new : Z -> Z -> Z -> option nat -> result string Params;
  hash_password_into : Params -> bytes -> bytes -> nat -> result string bytes
}.

(** The limits the crate documents. *)
Class Argon2Laws (A : Argon2) : Prop := {
  Params_new_ok m t p n :
    8 * p <= m < 2 ^ 32 -> 1 <= t < 2 ^ 32 -> 1 <= p < 2 ^ 24 -> (4 <= n)%nat -> exists params, Params_new m t p (Some n) = Ok params;
  hash_ok params pwd salt n :
    Z.of_nat (length pwd) < 2 ^ 32 -> 8 <= Z.of_nat (length salt) < 2 ^ 32 -> (4 <= n)%nat ->
    exists key, hash_password_into params pwd salt n = Ok key /\ length key = n;
  hash_short_salt params pwd salt n :
    Z.of_nat (length salt) < 8 -> exists e, hash_password_into params pwd salt n = Err e
}.

Definition DB_KEY_SIZE : nat := ARGON2_OUTPUT_SIZE.

(** [uuid] is the drawn UUID. *)
Definition generate_salt (uuid : bytes) : bytes := uuid.

Definition derive_db_key `{A : Argon2} (passphrase salt : bytes) : result StorageError bytes :=
  params ← map_err KeyDerivation (Params_new ARGON2_MEMORY_KIB ARGON2_ITERATIONS ARGON2_PARALLELISM (Some DB_KEY_SIZE));
  map_err KeyDerivation (hash_password_into params passphrase salt DB_KEY_SIZE).
