(* ===== verification/DatabaseProps.v ===== *)
(** Opening the database: migrations are atomic and can be resumed, and a
    failed open releases its connection. *)

From stdpp Require Import pretty.
From S2P Require Import Prelude Constants Prims Ratchet Identity Keys Sqleet SqleetProps SqlProps SessionState Database.

(** ** Scripts

    What the engine's documentation says about [sqlite3_exec] of transaction
    control and of scripts without it ([plain]): [script sql d] is the content
    after all of [sql].  A script that fails inside a transaction has not
    touched what is committed.  [version] is the stored [user_version]. *)

Class ScriptLaws {E : Engine} {R : Resources E} {D : Type} (V : SqlView E D)
    (plain : bytes -> Prop) (script : bytes -> D -> D) (version : D -> Z) : Prop := {
  exec_begin h w w' code :
    conn_live h w -> sqlite3_exec h (bs "BEGIN") w = (w', code) ->
    if decide (code = SQLITE_OK) then
      session h w' = {| committed := committed (session h w); pending := Some (committed (session h w)) |}
    else session h w' = session h w;
  exec_commit h w w' code :
    conn_live h w -> sqlite3_exec h (bs "COMMIT") w = (w', code) ->
    if decide (code = SQLITE_OK) then session h w' = {| committed := visible (session h w); pending := None |}
    else committed (session h w') = committed (session h w);
  exec_rollback h w w' code :
    conn_live h w -> sqlite3_exec h (bs "ROLLBACK") w = (w', code) -> session h w' = abandon (session h w);
  exec_plain h sql w w' code :
    conn_live h w -> plain sql -> sqlite3_exec h sql w = (w', code) ->
    if decide (code = SQLITE_OK) then session h w' = write (script sql (visible (session h w))) (session h w)
    else is_Some (pending (session h w)) -> committed (session h w') = committed (session h w);
  user_version_read d : denote (bs "PRAGMA user_version") ∅ d = Some (d, [[I64 (version d)]]);
  user_version_plain k : plain (bs (user_version_sql k));
  user_version_written k d : 0 <= k < 2 ^ 31 -> version (script (bs (user_version_sql k)) d) = k
}.

(** ** The specification of a migration run

    One migration, and the pending ones of a list from [index] on, for a
    database at version [current]. *)

Section Spec.
Context {D : Type} (script : bytes -> D -> D).

Definition migrated_one (target : Z) (sql : string) (d : D) : D := script (bs (user_version_sql target)) (script (bs sql) d).

Fixpoint migrated (current index : Z) (migs : list (string * string)) (d : D) : D :=
  match migs with
  | [] => d
  | (_, sql) :: migs =>
      migrated current (index + 1) migs (if index + 1 <=? current then d else migrated_one (index + 1) sql d)
  end.

Lemma migrated_app current index l1 l2 d :
  migrated current index (l1 ++ l2) d = migrated current (index + Z.of_nat (length l1)) l2 (migrated current index l1 d).
Proof.
  revert index d. induction l1 as [|[n sql] l1 IH]; intros index d; cbn [app migrated length]; [by rewrite Z.add_0_r|].
  rewrite IH. f_equal. lia.
Qed.

Lemma migrated_old current index l d : index + Z.of_nat (length l) <= current -> migrated current index l d = d.
Proof.
  revert index. induction l as [|[n sql] l IH]; intros index Hl; [done|]. cbn [migrated length] in *.
  rewrite (proj2 (Z.leb_le _ _)) by lia. apply IH. lia.
Qed.

Lemma migrated_new current current' index l d :
  current <= current' -> current' <= Z.max current index -> migrated current' index l d = migrated current index l d.
Proof.
  revert index d. induction l as [|[n sql] l IH]; intros index d H1 H2; [done|]. cbn [migrated].
  replace (index + 1 <=? current') with (index + 1 <=? current) by (destruct (Z.leb_spec (index + 1) current), (Z.leb_spec (index + 1) current'); lia).
  apply IH; lia.
Qed.
End Spec.

Section Migrations.
Context {E : Engine} {R : Resources E} {S : EngineSafe R} {D : Type} {V : SqlView E D} {L : SqlLaws V}.
Context {plain : bytes -> Prop} {script : bytes -> D -> D} {version : D -> Z} {SL : ScriptLaws V plain script version}.

Lemma i64_try_from_small n : n < 2 ^ 63 -> i64_try_from n = n.
Proof. intros Hn. unfold i64_try_from. by rewrite (proj2 (Z.ltb_lt _ _) Hn). Qed.

Lemma migrated_version current index l d :
  0 <= index -> index + Z.of_nat (length l) < 2 ^ 31 -> version d = Z.max current index ->
  version (migrated script current index l d) = Z.max current (index + Z.of_nat (length l)).
Proof.
  revert index d. induction l as [|[n sql] l IH]; intros index d Hi Hl Hv; cbn [migrated length] in *; [lia|].
  rewrite IH; [lia..|]. destruct (Z.leb_spec (index + 1) current); [lia|].
  unfold migrated_one. rewrite user_version_written by lia. lia.
Qed.

(** ** Running a script *)

Lemma execute_batch_run c sql w w' r :
  conn_live (conn_db c) w -> has_nul sql = false -> Connection_execute_batch c sql w = (w', r) ->
  quiet w w' /\ exists code, sqlite3_exec (conn_db c) (bs sql) w = (w', code) /\
    ((code = SQLITE_OK /\ r = Ok tt) \/ (code <> SQLITE_OK /\ exists e, r = Err e)).
Proof.
  intros Hh Hn Hrun. pose proof (program_quiet c _ w (prog_execute_batch c sql) Hh) as Hq. rewrite Hrun in Hq. split; [exact Hq|].
  unfold Connection_execute_batch, CString_new in Hrun. rewrite Hn in Hrun. mrun_in Hrun. cbn [ok_or] in Hrun. mrun_in Hrun.
  unfold ffi in Hrun. destruct (sqlite3_exec (conn_db c) (bs sql) w) as [w1 code] eqn:He. mrun_in Hrun. unfold check in Hrun.
  exists code. destruct (code =? SQLITE_OK) eqn:Hc; injection Hrun as <- <-; (split; [done|]).
  - left. by apply Z.eqb_eq in Hc.
  - right. apply Z.eqb_neq in Hc. eauto.
Qed.

Lemma migration_body_run c target sql w w' t r :
  conn_live (conn_db c) w -> plain (bs sql) -> has_nul sql = false -> has_nul (user_version_sql target) = false ->
  is_Some (pending (session (conn_db c) w)) ->
  (Transaction_execute_batch sql;; Transaction_execute_batch (user_version_sql target);; Transaction_commit)
    ({| tx_conn := c; tx_done := false |}, w) = ((t, w'), r) ->
  tx_conn t = c /\ quiet w w' /\
  ((r = Ok tt /\ tx_done t = true /\
    session (conn_db c) w' = {| committed := migrated_one script target sql (visible (session (conn_db c) w)); pending := None |}) \/
   ((exists e, r = Err e) /\ committed (session (conn_db c) w') = committed (session (conn_db c) w))).
Proof.
  intros Hh Hp Hn1 Hn2 [d Hpend] Hrun. unfold Transaction_execute_batch, Transaction_commit in Hrun. mrun_in Hrun.
  unfold on_second, on_first, zoom in Hrun. cbn [fst snd tx_conn] in Hrun.
  destruct (Connection_execute_batch c sql w) as [w1 r1] eqn:H1. cbn [fst snd tx_conn] in Hrun.
  apply execute_batch_run in H1 as (Hq1 & code1 & He1 & Hr1); [|done..].
  pose proof (exec_plain _ _ _ _ _ Hh Hp He1) as Hs1. rewrite Hpend in Hs1. unfold write in Hs1. rewrite Hpend in Hs1.
  destruct Hr1 as [[-> ->]|(Hc1 & e & ->)]; [rewrite decide_True in Hs1 by done|rewrite decide_False in Hs1 by done].
  2:{ injection Hrun as <- <- <-. split_and!; [done..|]. right. eauto. }
  mrun_in Hrun. cbn [fst snd tx_conn] in Hrun. assert (conn_live (conn_db c) w1) as Hh1 by by apply Hq1.
  destruct (Connection_execute_batch c (user_version_sql target) w1) as [w2 r2] eqn:H2. cbn [fst snd tx_conn] in Hrun.
  apply execute_batch_run in H2 as (Hq2 & code2 & He2 & Hr2); [|done..].
  pose proof (exec_plain _ _ _ _ _ Hh1 (user_version_plain target) He2) as Hs2. rewrite Hs1 in Hs2. cbn in Hs2.
  destruct Hr2 as [[-> ->]|(Hc2 & e & ->)]; [rewrite decide_True in Hs2 by done|rewrite decide_False in Hs2 by done].
  2:{ injection Hrun as <- <- <-. split_and!; [done|by etrans|]. right. eauto. }
  mrun_in Hrun. cbn [fst snd tx_conn] in Hrun. assert (conn_live (conn_db c) w2) as Hh2 by by apply Hq2.
  destruct (Connection_execute_batch c "COMMIT" w2) as [w3 r3] eqn:H3.
  apply execute_batch_run in H3 as (Hq3 & code3 & He3 & Hr3); [|done..].
  pose proof (exec_commit _ _ _ _ Hh2 He3) as Hs3. rewrite Hs2 in Hs3. cbn in Hs3. injection Hrun as <- <- <-.
  split_and!; [done | by do 2 (etrans; [done|]) |].
  destruct Hr3 as [[-> ->]|(Hc3 & e & ->)]; [rewrite decide_True in Hs3 by done|rewrite decide_False in Hs3 by done].
  - left. by split_and!.
  - right. eauto.
Qed.

(** One migration happens completely or not at all. *)
Lemma apply_migration_run c target sql w w' r :
  conn_live (conn_db c) w -> plain (bs sql) -> has_nul sql = false -> has_nul (user_version_sql target) = false ->
  pending (session (conn_db c) w) = None -> apply_migration c target sql w = (w', r) ->
  quiet w w' /\
  ((r = Ok tt /\ session (conn_db c) w' = {| committed := migrated_one script target sql (committed (session (conn_db c) w)); pending := None |}) \/
   ((exists e, r = Err e) /\ committed (session (conn_db c) w') = committed (session (conn_db c) w))).
Proof.
  intros Hh Hp Hn1 Hn2 Hpend Hrun. unfold apply_migration, in_transaction in Hrun. rewrite M_bind_eq in Hrun.
  destruct (Connection_execute_batch c "BEGIN" w) as [w1 r1] eqn:H1. apply execute_batch_run in H1 as (Hq1 & code1 & He1 & Hr1); [|done..].
  pose proof (exec_begin _ _ _ _ Hh He1) as Hs1. destruct Hr1 as [[-> ->]|(Hc1 & e & ->)];
    [rewrite decide_True in Hs1 by done|rewrite decide_False in Hs1 by done].
  2:{ injection Hrun as <- <-. split; [done|]. right. rewrite Hs1. eauto. }
  assert (conn_live (conn_db c) w1) as Hh1 by by apply Hq1.
  unfold scoped, finally in Hrun. set (body := (Transaction_execute_batch sql;; _)) in Hrun.
  destruct (body ({| tx_conn := c; tx_done := false |}, w1)) as [[t w2] r2] eqn:Hb.
  apply migration_body_run in Hb as (Htx & Hq2 & Hres); [|done..|rewrite Hs1; by eexists]. rewrite Hs1 in Hres. cbn in Hres.
  assert (conn_live (conn_db c) w2) as Hh2 by by apply Hq2.
  unfold Transaction_drop in Hrun. cbn [fst snd] in Hrun. destruct Hres as [(-> & Hdone & Hs2)|([e ->] & Hs2)].
  - rewrite Hdone in Hrun. cbn [fst snd] in Hrun. injection Hrun as <- <-. split; [by etrans|]. by left.
  - destruct (tx_done t); cbn [fst snd] in Hrun; injection Hrun as <- <-; (split; [|right; split; [eauto|]]); [by etrans|done| |].
    + etrans; [exact Hq1|]. etrans; [exact Hq2|]. rewrite Htx. by apply (program_quiet c _ w2 (prog_execute_batch c _)).
    + rewrite Htx. destruct (Connection_execute_batch c "ROLLBACK" w2) as [w3 r3] eqn:H3. cbn [fst].
      apply execute_batch_run in H3 as (_ & code3 & He3 & _); [|done..]. rewrite (exec_rollback _ _ _ _ Hh2 He3). done.
Qed.

(** A number is printed without a NUL byte. *)
Lemma pretty_N_go_nul x s : has_nul s = false -> has_nul (pretty_N_go x s) = false.
Proof.
  revert s. induction (N.lt_wf_0 x) as [x _ IH]; intros s Hs.
  assert (x = 0 \/ 0 < x)%N as [->|Hx] by lia; [by rewrite pretty_N_go_0|].
  rewrite pretty_N_go_step by done. apply IH; [by apply N.div_lt|]. cbn [has_nul]. rewrite Hs.
  unfold pretty_N_char. by repeat case_match.
Qed.

Lemma pretty_N_nul x : has_nul (pretty_N x) = false.
Proof. unfold pretty_N. case_decide; [done|]. by apply pretty_N_go_nul. Qed.

Lemma has_nul_app a b : has_nul (a +:+ b) = has_nul a || has_nul b.
Proof.
  induction a as [|c a IH]; [done|]. change (String c a +:+ b) with (String c (a +:+ b)). cbn [has_nul]. by rewrite IH, orb_assoc.
Qed.

Lemma user_version_sql_nul k : has_nul (user_version_sql k) = false.
Proof.
  unfold user_version_sql. rewrite has_nul_app. cbn [orb]. unfold pretty, pretty_Z, pretty_positive, pretty.
  destruct k as [|p|p]; [done | apply pretty_N_nul |]. rewrite has_nul_app. apply pretty_N_nul.
Qed.

Lemma migrate_from_run c current index l w w' r :
  conn_live (conn_db c) w -> Forall (fun m => plain (bs m.2) /\ has_nul m.2 = false) l ->
  0 <= index -> index + Z.of_nat (length l) < 2 ^ 31 -> pending (session (conn_db c) w) = None ->
  migrate_from c current index l w = (w', r) ->
  quiet w w' /\ exists k, (k <= length l)%nat /\
    committed (session (conn_db c) w') = migrated script current index (take k l) (committed (session (conn_db c) w)) /\
    ((r = Ok tt /\ k = length l /\ pending (session (conn_db c) w') = None) \/ (exists e, r = Err e)).
Proof.
  revert index w. induction l as [|[n sql] l IH]; intros index w Hh Hl Hi Hlen Hp Hrun; cbn [migrate_from length] in *.
  { injection Hrun as <- <-. split; [done|]. exists 0%nat. split_and!; try done. by left. }
  apply Forall_cons in Hl as [[Hpl Hnul] Hl]. rewrite M_bind_eq, i64_try_from_small in Hrun by lia.
  destruct (index + 1 <=? current) eqn:Hcur; mrun_in Hrun.
  - destruct (IH (index + 1) w) as (Hq & k & Hk & Hc & Hr); [done..|lia|lia|done|done|]. split; [done|]. exists (Datatypes.S k).
    cbn [take migrated]. rewrite Hcur. split_and!; [lia|done|]. destruct Hr as [(-> & -> & ?)|?]; [by left|by right].
  - unfold sql_, with_err in Hrun. destruct (apply_migration c (index + 1) sql w) as [w1 r1] eqn:H1.
    apply apply_migration_run in H1 as (Hq1 & H1); [|done..|apply user_version_sql_nul|done].
    destruct H1 as [[-> Hs1]|[[e ->] Hs1]]; cbn [map_err] in Hrun.
    + destruct (IH (index + 1) w1) as (Hq & k & Hk & Hc & Hr); [by apply Hq1|done|lia|lia|by rewrite Hs1|done|].
      split; [by etrans|]. exists (Datatypes.S k). cbn [take migrated]. rewrite Hcur. rewrite Hs1 in Hc. split_and!; [lia|done|].
      destruct Hr as [(-> & -> & ?)|?]; [by left|by right].
    + injection Hrun as <- <-. split; [done|]. exists 0%nat. split_and!; [lia|done|]. right. eauto.
Qed.

Lemma pragma_user_version_run c w w' r :
  conn_live (conn_db c) w -> Connection_pragma_i64 c "user_version" w = (w', r) ->
  quiet w w' /\
  ((session (conn_db c) w' = session (conn_db c) w /\ r = Ok (version (visible (session (conn_db c) w)))) \/
   (same_or_abandoned (session (conn_db c) w) (session (conn_db c) w') /\ exists e, r = Err e)).
Proof.
  intros Hh Hrun. pose proof (program_quiet c _ w (prog_pragma_i64 c "user_version") Hh) as Hq. rewrite Hrun in Hq. split; [exact Hq|].
  unfold Connection_pragma_i64 in Hrun. rewrite M_bind_eq in Hrun.
  destruct (Connection_query_row _ _ _ _ _) as [w1 r1] eqn:Hrow.
  eapply (query_row_run _ _ _ _ (fun row => match row with I64 n :: _ => Ok n | _ => Ok 0 end)) in Hrow; [|done|constructor|].
  - destruct Hrow as [(d & rows & _ & Hden & Hs & ->)|(e & Hs & ->)].
    + change (denote (bs "PRAGMA user_version") ∅ (visible (session (conn_db c) w)) = Some (d, rows)) in Hden.
      rewrite user_version_read in Hden. injection Hden as <- <-. injection Hrun as <- <-. left. split; [|done]. rewrite Hs.
      unfold write, visible. by destruct (session (conn_db c) w) as [d [p|]].
    + injection Hrun as <- <-. right. eauto.
  - intros d rows. change (bs ("PRAGMA " +:+ "user_version")) with (bs "PRAGMA user_version"). change (numbered []) with (∅ : gmap Z Param).
    rewrite user_version_read. intros [= <- <-] s w2 row rest Hl Hv ->%list_elem_of_singleton.
    unfold Row_get, from_sqleet, i64_from_sqleet, column_i64. cbn [row_stmt].
    destruct (column_value s w2 _ rest 0 (I64 (version (visible (session (conn_db c) w)))) Hl Hv) as [_ Hc]; [done..|].
    change (as_i32 0) with 0. by rewrite Hc.
Qed.

(** C11. Migrations are atomic and can be resumed.  Whatever fails (reading the
    version, BEGIN, a statement of a script, writing the version, COMMIT), what
    is committed afterwards is the content after some prefix of the pending
    migrations, each with the version it belongs to; nothing is half applied
    and nothing is applied twice.  On success all pending migrations have been
    applied and no transaction is left open.  After a failure, running the
    migrations again leads to the same content as a run that did not fail, and
    a database that is up to date or newer is left alone. *)
Theorem migrations_atomic migs c w w' r :
  conn_live (conn_db c) w -> Forall (fun m => plain (bs m.2) /\ has_nul m.2 = false) migs -> Z.of_nat (length migs) < 2 ^ 31 ->
  pending (session (conn_db c) w) = None -> 0 <= version (committed (session (conn_db c) w)) ->
  run_all migs c w = (w', r) ->
  let before := committed (session (conn_db c) w) in let after := committed (session (conn_db c) w') in
  (exists k, (k <= length migs)%nat /\ after = migrated script (version before) 0 (take k migs) before /\
     version after = Z.max (version before) (Z.of_nat k) /\
     ((r = Ok tt /\ k = length migs /\ pending (session (conn_db c) w') = None) \/ exists e, r = Err e)) /\
  migrated script (version after) 0 migs after = migrated script (version before) 0 migs before /\
  (Z.of_nat (length migs) <= version before -> after = before).
Proof.
  intros Hh Hl Hlen Hp Hv Hrun before after. fold before in Hv.
  assert (exists k, (k <= length migs)%nat /\ after = migrated script (version before) 0 (take k migs) before /\
     ((r = Ok tt /\ k = length migs /\ pending (session (conn_db c) w') = None) \/ exists e, r = Err e)) as (k & Hk & Hafter & Hr).
  { unfold run_all, sql_, with_err in Hrun. rewrite M_bind_eq in Hrun.
    destruct (Connection_pragma_i64 c "user_version" w) as [w1 r1] eqn:H1.
    apply pragma_user_version_run in H1 as (Hq1 & [[Hs1 ->]|[Hs1 [e ->]]]); [| |done]; cbn [map_err] in Hrun.
    - apply migrate_from_run in Hrun as (_ & k & Hk & Hc & Hr); [|by apply Hq1|done|lia|lia|by rewrite Hs1].
      exists k. unfold visible in Hc. rewrite Hs1, Hp in Hc. by split_and!.
    - injection Hrun as <- <-. exists 0%nat. split_and!; [lia| |by right; eauto]. unfold after. cbn. by destruct Hs1 as [->| ->]. }
  assert (version after = Z.max (version before) (Z.of_nat k)) as Hver.
  { rewrite Hafter, (migrated_version (version before) 0) by (rewrite ?length_take; lia). rewrite length_take. lia. }
  split_and!.
  - exists k. by split_and!.
  - rewrite Hver, <- (take_drop k migs), !migrated_app. rewrite (migrated_old _ _ 0 (take k migs) after) by (rewrite length_take; lia).
    rewrite Hafter. apply migrated_new; rewrite ?length_take; lia.
  - intros Hn. rewrite Hafter. apply migrated_old. rewrite length_take. lia.
Qed.

(** ** Opening *)

Lemma sql_quiet {A} c (m : M World SqlError A) w0 : conn_live (conn_db c) w0 -> program c m -> keeps (fun w => quiet w0 w) (sql_ m).
Proof. intros Hh Hm. apply keeps_with_err. by apply (keeps_program c). Qed.

Lemma migrate_quiet c current index l w0 : conn_live (conn_db c) w0 -> keeps (fun w => quiet w0 w) (migrate_from c current index l).
Proof.
  intros Hh. revert index. induction l as [|[n sql] l IH]; intros index; cbn [migrate_from]; [apply keeps_ret|].
  apply keeps_bind; [|done]. destruct (_ <=? _); [apply keeps_ret|]. apply (sql_quiet c); [done|].
  apply prog_transaction. do 2 (apply tx_bind; [apply tx_execute_batch|intros _]). apply tx_commit.
Qed.

Lemma setup_quiet c key w0 : conn_live (conn_db c) w0 -> keeps (fun w => quiet w0 w) (Database_setup c key).
Proof.
  intros Hh. unfold Database_setup, run_migrations, run_all.
  apply keeps_bind; [apply keeps_with_err; eapply keeps_program; [done|apply prog_key]|intros _].
  apply keeps_bind; [apply (sql_quiet c); [done|apply prog_pragma_set_string]|intros _].
  apply keeps_bind; [apply (sql_quiet c); [done|apply prog_execute_batch]|intros _].
  apply keeps_bind; [apply (sql_quiet c); [done|apply prog_busy_timeout]|intros _].
  apply keeps_bind; [apply (sql_quiet c); [done|apply prog_pragma_i64]|intros v]. by apply migrate_quiet.
Qed.

(** C28. Opening a database never leaves a connection behind, with one
    exception: on success exactly the connection of the result has been
    opened; on failure everything the call opened has been closed again,
    except when the engine itself reports an error for the handle it opened.
    No statement is left, and nothing undefined is done. *)
Theorem database_open_releases path key w w' r :
  Database_open path key w = (w', r) ->
  (undefined w' -> undefined w) /\ (forall s, stmt_live s w' <-> stmt_live s w) /\
  match r with
  | Ok db => ~ conn_live (conn_db (db_conn db)) w /\ forall h, conn_live h w' <-> h = conn_db (db_conn db) \/ conn_live h w
  | _ => (forall h, conn_live h w' <-> conn_live h w) \/
         exists p h w1 code, path = Some p /\ sqlite3_open_v2 (bs p) open_flags w = (w1, (Some h, code)) /\ code <> SQLITE_OK /\
           w' = w1
  end.
Proof.
  unfold Database_open, sql_, with_err. rewrite M_bind_eq. unfold Connection_open. mrun.
  destruct path as [p|]; cbn [ok_or]; [|intros [= <- <-]; mrun; cbn; by split_and!; [| |left]]. mrun.
  unfold CString_new. destruct (has_nul p); cbn [ok_or]; [intros [= <- <-]; mrun; cbn; by split_and!; [| |left]|]. mrun.
  unfold open_handle. mrun. unfold ffi. destruct (sqlite3_open_v2 (bs p) open_flags w) as [w1 [[h|] code]] eqn:Ho; mrun.
  2:{ intros [= <- <-]. apply open_none in Ho as [U C Q]. split_and!; try done. by left. }
  pose proof Ho as (Hf & U & C & Q)%open_some. unfold check. destruct (code =? SQLITE_OK) eqn:Hc.
  2:{ intros [= <- <-]. split_and!; try done. right. exists p, h, w1, code. by apply Z.eqb_neq in Hc. }
  mrun. cbn [map_err]. unfold Database_finish, or_drop. rewrite M_bind_eq.
  assert (conn_live (conn_db {| conn_db := h |}) w1) as Hl by (apply C; by left).
  pose proof (setup_quiet {| conn_db := h |} key w1 Hl w1 (reflexivity w1)) as Hq.
  destruct (Database_setup {| conn_db := h |} key w1) as [w2 [[]|e|e]]; cbn in Hq; mrun; destruct Hq as [U2 C2 Q2].
  - intros [= <- <-]. cbn. split_and!; [auto|intros s; by rewrite Q2|done|intros h'; by rewrite C2].
  - intros [= <- <-]. destruct (close_live h w2) as (U3 & C3 & Q3); [by apply C2|]. unfold Connection_drop. cbn [conn_db].
    split_and!; [auto|intros s; by rewrite Q3, Q2|]. left. intros h'. rewrite C3, C2, C. naive_solver.
  - intros [= <- <-]. destruct (close_live h w2) as (U3 & C3 & Q3); [by apply C2|]. unfold Connection_drop. cbn [conn_db].
    split_and!; [auto|intros s; by rewrite Q3, Q2|]. left. intros h'. rewrite C3, C2, C. naive_solver.
Qed.
End Migrations.

(** A key derivation to evaluate with; nothing is claimed about its secrecy. *)
Definition salted : Argon2 := {|
  Params := unit; Params_new _ _ _ _ := Ok tt; hash_password_into _ pwd salt n := Ok (take n (salt ++ pwd))
|}.
