(* ===== verification/EngineModel.v ===== *)
(** A small engine that satisfies everything SqleetProps, SqlProps and
    DatabaseProps assume of SQLite, and the evaluation of their theorems on
    it. *)

From stdpp Require Import pretty.
From S2P Require Import Prelude Constants Prims Ratchet Identity Keys Sqleet SqleetProps SqlProps SessionState Database DatabaseProps.

(** ** The engine, for a content [D], a meaning of statements and a meaning of
    scripts *)

Section Model.
Context {D : Type} (init : D) (den : bytes -> gmap Z Param -> D -> option (D * list (list Param))) (run_script : bytes -> D -> D) (last_id : D -> Z).

(** The open connections, the content of each database ever opened, the
    statements, the next handles. *)
Record ModelWorld := {
  mw_open : gset nat;
  mw_data : gmap nat (Session D);
  mw_stmts : gmap nat (StmtView nat);
  mw_conn_next : nat;
  mw_stmt_next : nat;
  mw_undefined : bool
}.

Definition set_open m w :=
  {| mw_open := m; mw_data := mw_data w; mw_stmts := mw_stmts w; mw_conn_next := mw_conn_next w; mw_stmt_next := mw_stmt_next w; mw_undefined := mw_undefined w |}.
Definition set_data m w :=
  {| mw_open := mw_open w; mw_data := m; mw_stmts := mw_stmts w; mw_conn_next := mw_conn_next w; mw_stmt_next := mw_stmt_next w; mw_undefined := mw_undefined w |}.
Definition set_stmts m w :=
  {| mw_open := mw_open w; mw_data := mw_data w; mw_stmts := m; mw_conn_next := mw_conn_next w; mw_stmt_next := mw_stmt_next w; mw_undefined := mw_undefined w |}.
Definition misuse w :=
  {| mw_open := mw_open w; mw_data := mw_data w; mw_stmts := mw_stmts w; mw_conn_next := mw_conn_next w; mw_stmt_next := mw_stmt_next w; mw_undefined := true |}.
Definition take_conn w :=
  {| mw_open := mw_open w; mw_data := mw_data w; mw_stmts := mw_stmts w; mw_conn_next := S (mw_conn_next w); mw_stmt_next := mw_stmt_next w; mw_undefined := mw_undefined w |}.
Definition take_stmt w :=
  {| mw_open := mw_open w; mw_data := mw_data w; mw_stmts := mw_stmts w; mw_conn_next := mw_conn_next w; mw_stmt_next := S (mw_stmt_next w); mw_undefined := mw_undefined w |}.

Definition fresh_session : Session D := {| committed := init; pending := None |}.
Definition model_session (h : nat) (w : ModelWorld) : Session D := default fresh_session (mw_data w !! h).
Definition no_stmt : StmtView nat := {| sv_db := 0%nat; sv_sql := []; sv_params := ∅; sv_rows := None |}.
Definition model_stmt (s : nat) (w : ModelWorld) : StmtView nat := default no_stmt (mw_stmts w !! s).

(** A handle is alive when it is in its table and was given out. *)
Definition model_conn_live (h : nat) (w : ModelWorld) : Prop := h ∈ mw_open w /\ (h < mw_conn_next w)%nat.
Definition model_stmt_live (s : nat) (w : ModelWorld) : Prop := is_Some (mw_stmts w !! s) /\ (s < mw_stmt_next w)%nat.
#[export] Instance model_conn_live_dec h w : Decision (model_conn_live h w).
Proof. unfold model_conn_live. apply _. Defined.

(** New handles are numbers that were never used. *)
Definition model_open (path : bytes) (_ : Z) (w : ModelWorld) : ModelWorld * (option nat * Z) :=
  (take_conn (set_open ({[mw_conn_next w]} ∪ mw_open w) w),
   (Some (mw_conn_next w), if decide (path = bs "/unreadable") then 14 else SQLITE_OK)).

Definition model_close (h : nat) (w : ModelWorld) : ModelWorld * Z :=
  if decide (model_conn_live h w) then (set_open (mw_open w ∖ {[h]}) w, SQLITE_OK) else (misuse w, 21).

Definition exec_session (sql : bytes) (s : Session D) : Session D * Z :=
  if decide (sql = bs "BEGIN") then
    match pending s with
    | None => ({| committed := committed s; pending := Some (committed s) |}, SQLITE_OK)
    | Some _ => (s, 1)
    end
  else if decide (sql = bs "COMMIT") then
    match pending s with
    | Some d => ({| committed := d; pending := None |}, SQLITE_OK)
    | None => (s, 1)
    end
  else if decide (sql = bs "ROLLBACK") then
    (abandon s, match pending s with Some _ => SQLITE_OK | None => 1 end)
  else (write (run_script sql (visible s)) s, SQLITE_OK).

Definition model_exec (h : nat) (sql : bytes) (w : ModelWorld) : ModelWorld * Z :=
  if decide (model_conn_live h w) then
    let '(s', code) := exec_session sql (model_session h w) in (set_data (<[h := s']> (mw_data w)) w, code)
  else (misuse w, 21).

Definition model_prepare (h : nat) (sql : bytes) (w : ModelWorld) : ModelWorld * (option nat * Z) :=
  (take_stmt (set_stmts (<[mw_stmt_next w := {| sv_db := h; sv_sql := sql; sv_params := ∅; sv_rows := None |}]> (mw_stmts w)) w),
   (Some (mw_stmt_next w), SQLITE_OK)).

Definition model_finalize (s : nat) (w : ModelWorld) : ModelWorld * Z :=
  match mw_stmts w !! s with
  | Some _ => (set_stmts (delete s (mw_stmts w)) w, SQLITE_OK)
  | None => (misuse w, 21)
  end.

Definition model_bind (p : Param) (s : nat) (i : Z) (w : ModelWorld) : ModelWorld * Z :=
  match mw_stmts w !! s with
  | Some v => (set_stmts (<[s := with_param i p v]> (mw_stmts w)) w, SQLITE_OK)
  | None => (misuse w, 21)
  end.

Definition row_code (rows : list (list Param)) : Z := match rows with [] => SQLITE_DONE | _ => SQLITE_ROW end.

Definition model_step (s : nat) (w : ModelWorld) : ModelWorld * Z :=
  match mw_stmts w !! s with
  | None => (misuse w, 21)
  | Some v =>
      match sv_rows v with
      | Some rows => (set_stmts (<[s := with_rows (tail rows) v]> (mw_stmts w)) w, row_code (tail rows))
      | None =>
          let ses := model_session (sv_db v) w in
          match den (sv_sql v) (sv_params v) (visible ses) with
          | Some (d, rows) =>
              (set_stmts (<[s := with_rows rows v]> (mw_stmts w)) (set_data (<[sv_db v := write d ses]> (mw_data w)) w),
               row_code rows)
          | None => (w, 19)
          end
      end
  end.

Definition current_value (s : nat) (i : Z) (w : ModelWorld) : Param :=
  match mw_stmts w !! s with
  | Some v => match sv_rows v with Some (row :: _) => default Null (row !! Z.to_nat i) | _ => Null end
  | None => Null
  end.
Definition value_bytes (p : Param) : bytes := match p with Text t => bs t | Blob b => b | _ => [] end.

#[export] Instance model_engine : Engine := {|
  World := ModelWorld; Handle := nat; Stmt := nat;
  sqlite3_open_v2 := model_open;
  sqlite3_close_v2 := model_close;
  sqlite3_key h _ _ w := (w, SQLITE_OK);
  sqlite3_errcode _ _ := 1;
  sqlite3_errmsg _ _ := Some (bs "model error");
  sqlite3_exec := model_exec;
  sqlite3_prepare_v2 := model_prepare;
  sqlite3_finalize := model_finalize;
  sqlite3_bind_int64 s i v := model_bind (I64 v) s i;
  sqlite3_bind_text s i t := model_bind (Text (String.string_of_list_byte t)) s i;
  sqlite3_bind_blob s i b _ := model_bind (Blob b) s i;
  sqlite3_bind_null s i := model_bind Null s i;
  sqlite3_step := model_step;
  sqlite3_column_count s w := 1;
  sqlite3_column_type s i w := type_code (current_value s i w);
  sqlite3_column_int64 s i w := match current_value s i w with I64 n => n | _ => 0 end;
  sqlite3_column_blob s i w := match value_bytes (current_value s i w) with [] => None | b => Some b end;
  sqlite3_column_bytes s i w := Z.of_nat (length (value_bytes (current_value s i w)));
  sqlite3_last_insert_rowid h w := last_id (visible (model_session h w));
  sqlite3_busy_timeout _ _ w := (w, SQLITE_OK);
  sqlite3_changes _ _ := 0
|}.


#[export] Instance model_resources : Resources model_engine :=
  @Build_Resources model_engine model_conn_live model_stmt_live (fun w : ModelWorld => mw_undefined w = true).

#[export] Instance model_view : SqlView model_engine D := @Build_SqlView model_engine D model_session model_stmt den.

(** ** What is assumed of SQLite holds *)

Lemma quiet_same (w w' : ModelWorld) :
  mw_open w' = mw_open w -> mw_conn_next w' = mw_conn_next w -> mw_stmt_next w' = mw_stmt_next w -> mw_undefined w' = mw_undefined w ->
  (forall s, is_Some (mw_stmts w' !! s) <-> is_Some (mw_stmts w !! s)) -> @quiet model_engine model_resources w w'.
Proof.
  intros Ho Hn Hn' Hu Hs. split; cbn; unfold model_conn_live, model_stmt_live.
  - by rewrite Hu.
  - intros h. by rewrite Ho, Hn.
  - intros s. by rewrite Hs, Hn'.
Qed.

Lemma model_bind_quiet p s i (w : ModelWorld) : model_stmt_live s w -> @quiet model_engine model_resources w (model_bind p s i w).1.
Proof.
  intros [[v Hv] _]. unfold model_bind. rewrite Hv. apply quiet_same; try done. cbn. intros x.
  rewrite lookup_insert_is_Some'. split; [intros [<-|]; eauto | by right].
Qed.

#[export] Instance model_safe : EngineSafe model_resources.
Proof.
  split; cbn -[union difference]; unfold model_open, model_close, model_exec, model_prepare, model_finalize, take_conn, take_stmt.
  - intros h sql w Hh. rewrite decide_True by done. destruct (exec_session _ _). by apply quiet_same.
  - done.
  - done.
  - intros s i w. apply model_bind_quiet.
  - intros s i v w. apply model_bind_quiet.
  - intros s i t w. apply model_bind_quiet.
  - intros s i b n w. apply model_bind_quiet.
  - intros s w [[v Hv] _]. unfold model_step. rewrite Hv.
    assert (forall rows x, is_Some (<[s := with_rows rows v]> (mw_stmts w) !! x) <-> is_Some (mw_stmts w !! x)) as Hx.
    { intros rows x. rewrite lookup_insert_is_Some'. split; [intros [<-|]; eauto | by right]. }
    destruct (sv_rows v); [apply quiet_same; [done..|apply Hx]|].
    destruct (den _ _ _) as [[d rows]|]; apply quiet_same; done || apply Hx.
  - done.
  - intros h sql w w' s code Hh [= <- <- <-]. unfold model_stmt_live, model_conn_live in *. cbn. split_and!; [lia|done|done|].
    intros x. rewrite lookup_insert_is_Some'. split.
    + intros [[<-|?] ?]; [by left|]. destruct (decide (x = mw_stmt_next w)); [by left|]. right. split; [done|lia].
    + intros [->|[? ?]]; (split; [auto|lia]).
  - intros s w [[v Hv] Hn]. rewrite Hv. unfold model_stmt_live. cbn. split_and!; [done|done|]. intros x.
    rewrite lookup_delete_is_Some. naive_solver.
  - done.
  - intros path flags w w' h code [= <- <- <-]. unfold model_conn_live, model_stmt_live. cbn -[union]. split_and!; [lia|done| |done].
    intros x. rewrite elem_of_union, elem_of_singleton. destruct (decide (x = mw_conn_next w)) as [->|]; [split; [by left|split; [by left|lia]]|].
    split; [intros [[?|?] ?]; [done|right; split; [done|lia]] | intros [?|[? ?]]; [done|split; [by right|lia]]].
  - intros h w Hh. rewrite decide_True by done. unfold model_conn_live. cbn -[difference]. split_and!; [done| |done].
    intros x. rewrite elem_of_difference, elem_of_singleton. tauto.
  - intros h w Hh. by rewrite decide_False.
Qed.

Lemma model_bind_view p s i (w w' : ModelWorld) code :
  model_stmt_live s w -> model_bind p s i w = (w', code) ->
  model_session (sv_db (model_stmt s w)) w' = model_session (sv_db (model_stmt s w)) w /\
  (code = SQLITE_OK -> model_stmt s w' = with_param i p (model_stmt s w)).
Proof.
  intros [[v Hv] _] Hb. unfold model_bind in Hb. rewrite Hv in Hb. injection Hb as <- <-. split; [done|]. intros _.
  unfold model_stmt. cbn. by rewrite lookup_insert_eq, Hv.
Qed.

Lemma row_code_cases rows : (row_code rows = SQLITE_ROW \/ row_code rows = SQLITE_DONE) /\ (row_code rows = SQLITE_DONE <-> rows = []).
Proof. destruct rows; cbn; by split; [tauto|]. Qed.

#[export] Instance model_laws : SqlLaws model_view.
Proof.
  split; cbn -[model_bind model_prepare model_step].
  - intros h sql w w' s code _ [= <- <- <-]. split; [done|]. unfold model_stmt. cbn. by rewrite lookup_insert_eq.
  - done.
  - intros s i w w' code. apply model_bind_view.
  - intros s i v w w' code. apply model_bind_view.
  - intros s i t w w' code Hs Hb. apply model_bind_view in Hb; [|done]. unfold bs in Hb. by rewrite String.string_of_list_byte_of_string in Hb.
  - intros s i b n w w' code Hs Hb. apply model_bind_view in Hb as [H1 H2]; [|done].
    split; [done|]. intros Hc _. by apply H2.
  - intros s w w' code [[v Hv] _] Hr Hst. unfold model_stmt in *. unfold model_step in Hst. rewrite Hv in *. cbn in Hr |- *.
    rewrite Hr in Hst. destruct (den _ _ _) as [[d rows]|] eqn:Hden; injection Hst as <- <-.
    + destruct (row_code_cases rows) as [Hc He]. rewrite decide_True by done. exists d, rows. split_and!; [done|apply He| |].
      * unfold model_session. cbn. by rewrite lookup_insert_eq.
      * cbn. by rewrite lookup_insert_eq.
    + rewrite decide_False by (by intros [?|?]). by left.
  - intros s w w' code row rows [[v Hv] _] Hr Hst. unfold model_stmt in *. unfold model_step in Hst. rewrite Hv in *. cbn in Hr |- *.
    rewrite Hr in Hst. injection Hst as <- <-. cbn [tail]. destruct (row_code_cases rows) as [Hc He]. rewrite decide_True by done.
    split_and!; [apply He|done|]. cbn. by rewrite lookup_insert_eq.
  - intros s h w [[v Hv] _]. unfold model_finalize. by rewrite Hv.
  - intros s w row rows i p [[v Hv] _] Hr Hp _. unfold model_stmt in Hr. rewrite Hv in Hr. cbn in Hr.
    assert (current_value s i w = p) as -> by (unfold current_value; by rewrite Hv, Hr, Hp).
    split; [done|]. destruct p as [|n|t|b]; cbn; [done..| |]; [by destruct (bs t)|by destruct b].
Qed.

(** Every statement is known, with any number of parameters. *)
#[export] Instance model_reliable : Reliable (fun _ _ => True).
Proof.
  split.
  - intros h sql n w _ _. by do 2 eexists.
  - intros s i n w [[v Hv] _] _ _. unfold bindable. cbn. unfold model_bind. by rewrite Hv.
  - intros s (w & [[v Hv] _] & H1 & H2 & H3). apply H3. cbn in *. unfold model_stmt, model_step in *. rewrite Hv in *. cbn in *.
    destruct (sv_rows v) as [rows|]; [apply row_code_cases|]. destruct (H2 eq_refl) as [[d rows] ->]. apply row_code_cases.
Qed.

(** Scripts without transaction control. *)
Definition model_plain (sql : bytes) : Prop := sql <> bs "BEGIN" /\ sql <> bs "COMMIT" /\ sql <> bs "ROLLBACK".

Lemma model_exec_session h sql (w w' : ModelWorld) code :
  model_conn_live h w -> model_exec h sql w = (w', code) -> exec_session sql (model_session h w) = (model_session h w', code).
Proof.
  intros Hh He. unfold model_exec in He. rewrite decide_True in He by done. destruct (exec_session _ _) as [s' c] eqn:Hs.
  injection He as <- <-. unfold model_session. cbn. by rewrite lookup_insert_eq.
Qed.

Context (version : D -> Z).
Context (den_version : forall d, den (bs "PRAGMA user_version") ∅ d = Some (d, [[I64 (version d)]])).
Context (script_version : forall k d, 0 <= k < 2 ^ 31 -> version (run_script (bs (user_version_sql k)) d) = k).

Lemma model_script_laws : ScriptLaws model_view model_plain run_script version.
Proof.
  split; cbn -[model_exec bs user_version_sql]; unfold visible.
  - intros h w w' code Hh He%model_exec_session; [|done]. unfold exec_session in He. rewrite decide_True in He by done.
    destruct (pending (model_session h w)); by injection He as <- <-.
  - intros h w w' code Hh He%model_exec_session; [|done]. unfold exec_session in He.
    rewrite decide_False, decide_True in He by done. destruct (pending (model_session h w)); by injection He as <- <-.
  - intros h w w' code Hh He%model_exec_session; [|done]. unfold exec_session in He.
    rewrite decide_False, decide_False, decide_True in He by done. by injection He.
  - intros h sql w w' code Hh (H1 & H2 & H3) He%model_exec_session; [|done]. unfold exec_session in He.
    rewrite !decide_False in He by done. by injection He as <- <-.
  - apply den_version.
  - intros k. by split_and!.
  - apply script_version.
Qed.
End Model.

(** ** A database of scripts

    The content is the stored version and the scripts that were executed;
    [PRAGMA user_version = n] is interpreted, other scripts are recorded. *)

Definition ScriptDb : Type := Z * list bytes.

Definition digit (c : Ascii.ascii) : N := Ascii.N_of_ascii c - 48.
Fixpoint decimal (acc : N) (s : string) : N :=
  match s with
  | EmptyString => acc
  | String c s => decimal (10 * acc + digit c) s
  end.

Lemma digit_char n : (n < 10)%N -> digit (pretty_N_char n) = n.
Proof. intros Hn. by destruct n as [|[[[[]|[]|]|[[]|[]|]|]|[[[]|[]|]|[[]|[]|]|]|]]; cbn in *; try lia. Qed.

Lemma decimal_go x s : decimal 0 (pretty_N_go x s) = decimal x s.
Proof.
  revert s. induction (N.lt_wf_0 x) as [x _ IH]; intros s.
  assert (x = 0 \/ 0 < x)%N as [->|Hx] by lia; [by rewrite pretty_N_go_0|].
  rewrite pretty_N_go_step, IH by (done || by apply N.div_lt). cbn [decimal].
  rewrite digit_char by (apply N.mod_lt; lia). f_equal. pose proof (N.div_mod x 10). lia.
Qed.

Lemma decimal_pretty k : 0 <= k -> Z.of_N (decimal 0 (pretty k)) = k.
Proof.
  intros Hk. destruct k as [|p|p]; [done| |lia]. unfold pretty, pretty_Z, pretty_positive, pretty_N, pretty.
  rewrite decide_False by done. by rewrite decimal_go.
Qed.

Fixpoint strip (p l : bytes) : option bytes :=
  match p, l with
  | [], _ => Some l
  | x :: p, y :: l => if decide (x = y) then strip p l else None
  | _ :: _, [] => None
  end.

Lemma bs_app a b : bs (a +:+ b) = bs a ++ bs b.
Proof.
  induction a as [|c a IH]; [done|]. change (String c a +:+ b) with (String c (a +:+ b)). exact (f_equal (cons _) IH).
Qed.

Lemma strip_app p l : strip p (p ++ l) = Some l.
Proof. induction p as [|x p IH]; [done|]. cbn. by rewrite decide_True. Qed.

Definition db_script (sql : bytes) (d : ScriptDb) : ScriptDb :=
  match strip (bs "PRAGMA user_version = ") sql with
  | Some digits => (Z.of_N (decimal 0 (String.string_of_list_byte digits)), d.2)
  | None => (d.1, d.2 ++ [sql])
  end.

(** A statement that echoes its first parameters, one per row; one that violates a
    constraint; the version. *)
Definition db_denote (sql : bytes) (ps : gmap Z Param) (d : ScriptDb) : option (ScriptDb * list (list Param)) :=
  if decide (sql = bs "PRAGMA user_version") then Some (d, [[I64 d.1]])
  else if decide (sql = bs "INSERT") then None
  else Some ((d.1, d.2 ++ [sql]), omap (fun i => (fun p => [p]) <$> ps !! i) [1; 2; 3]).

Abbreviation db_engine := (model_engine ((0, []) : ScriptDb) db_denote db_script (fun _ => 0)).
#[export] Instance db_script_laws :
  ScriptLaws (model_view ((0, []) : ScriptDb) db_denote db_script (fun _ => 0)) model_plain db_script fst.
Proof.
  apply model_script_laws; [done|]. intros k d Hk. unfold db_script, user_version_sql. rewrite bs_app, strip_app.
  unfold bs at 1. rewrite String.string_of_list_byte_of_string. cbn [fst]. apply decimal_pretty. lia.
Qed.

(** ** The theorems on this engine *)

Abbreviation db_view := (model_view ((0, []) : ScriptDb) db_denote db_script (fun _ => 0)).
Abbreviation db_session := (@session db_engine ScriptDb db_view).

(** One open connection, number 0, to a database at version 0. *)
Definition w0 : @World db_engine :=
  {| mw_open := {[0%nat]}; mw_data := ∅; mw_stmts := ∅; mw_conn_next := 1; mw_stmt_next := 0; mw_undefined := false |}.
Definition c0 : @Connection db_engine := @Build_Connection db_engine 0%nat.

Lemma c0_live : conn_live (conn_db c0) w0.
Proof. split; [|cbn; lia]. apply elem_of_singleton. reflexivity. Qed.

(** A transaction that is left after an insertion that fails, with a query on
    the connection while it is open. *)
Definition failing_program : M (@World db_engine) SqlError Z :=
  in_transaction c0 (on_second (Connection_pragma_i64 c0 "user_version");; n ← Transaction_execute 5 "INSERT" [Text "a"; Null]; Transaction_commit;; mret n).


Lemma failed_open_leaks_witness :
  match (Connection_open (Some "/unreadable") w0).2 with Err e => e = {| sql_code := 14; sql_message := "model error" |} | _ => False end /\
  conn_live (1%nat : @Handle db_engine) (Connection_open (Some "/unreadable") w0).1.
Proof.
  destruct (failed_open_leaks "/unreadable" (bs "/unreadable") w0 (model_open (bs "/unreadable") open_flags w0).1 1%nat 14)
    as (H1 & H2 & H3).
  - reflexivity.
  - vm_compute; reflexivity.
  - discriminate.
  - rewrite H1. split; [reflexivity | exact H2].
Defined.

(** The first column as a number. *)
Definition first_i64 (row : list Param) : result SqlError Z := match row with I64 n :: _ => Ok n | _ => Ok 0 end.

Lemma maps_first_i64 rows :
  Forall (fun row => exists n rest, row = I64 n :: rest) rows ->
  maps_rows (V := db_view) (fun row => Row_get (T := Z) row 0) first_i64 rows.
Proof.
  intros Hall s w row rest Hl Hv Hin. rewrite Forall_forall in Hall. destruct (Hall row Hin) as (n & tl & ->).
  destruct (column_value s w _ rest 0 (I64 n) Hl Hv) as [_ Hc]; [done..|].
  unfold Row_get, from_sqleet, i64_from_sqleet, column_i64. cbn [row_stmt]. change (as_i32 0) with 0. by rewrite Hc.
Qed.

Definition echo : M (@World db_engine) SqlError (list Z) :=
  Connection_query_rows 3 c0 "SELECT ?1 UNION SELECT ?2" [I64 5; I64 7] (fun row => Row_get row 0).

Lemma echo_rows d rows :
  db_denote (bs "SELECT ?1 UNION SELECT ?2") (numbered [I64 5; I64 7]) (0, []) = Some (d, rows) -> rows = [[I64 5]; [I64 7]].
Proof. vm_compute. intros [= <- <-]. reflexivity. Qed.

Lemma query_rows_refines_witness :
  (echo w0).2 = Ok [5; 7] /\
  query_result (V := db_view) first_i64 (bs "SELECT ?1 UNION SELECT ?2") (numbered [I64 5; I64 7]) (db_session (conn_db c0) w0)
    (db_session (conn_db c0) (echo w0).1) (echo w0).2.
Proof.
  split; [vm_compute; reflexivity|].
  apply (query_rows_refines (V := db_view) 3 c0 "SELECT ?1 UNION SELECT ?2" [I64 5; I64 7] (fun row => Row_get row 0) first_i64 w0 (echo w0).1 (echo w0).2).
  - exact c0_live.
  - repeat constructor.
  - lia.
  - intros d rows Hden%echo_rows. rewrite Hden. split; [|cbn; lia]. apply maps_first_i64. repeat constructor; eauto.
  - apply surjective_pairing.
Defined.

Lemma query_rows_exact_witness :
  exists w', echo w0 = (w', Ok [5; 7]) /\ committed (db_session (conn_db c0) w') = (0, [bs "SELECT ?1 UNION SELECT ?2"]) /\ quiet w0 w'.
Proof.
  destruct (query_rows_exact (V := db_view) (known := fun _ _ => True) 3 c0 "SELECT ?1 UNION SELECT ?2" [I64 5; I64 7] (fun row => Row_get row 0)
    first_i64 w0 (0, [bs "SELECT ?1 UNION SELECT ?2"]) [[I64 5]; [I64 7]]) as (w' & H1 & H2 & H3).
  - exact c0_live.
  - apply maps_first_i64. repeat constructor; eauto.
  - repeat constructor.
  - reflexivity.
  - reflexivity.
  - exact I.
  - reflexivity.
  - vm_compute; reflexivity.
  - cbn; lia.
  - exists w'. split; [exact H1|]. split; [rewrite H2; reflexivity | exact H3].
Defined.

(** A statement with a row of every type, stepped to its first row. *)
Definition typed_row : list Param := [I64 (-3); Text ""; Blob (bs "xy"); Null].
Definition w_row : @World db_engine :=
  set_stmts {[0%nat := {| sv_db := 0%nat; sv_sql := bs "SELECT"; sv_params := ∅; sv_rows := Some [typed_row] |}]} (take_stmt w0).
Definition row_of (s : @Stmt db_engine) : @Row db_engine := {| row_stmt := s |}.

Lemma column_roundtrip_witness :
  Row_get (row_of 0%nat) 0 w_row = Ok (-3) /\ Row_get (row_of 0%nat) 0 w_row = Ok true /\ Row_get (row_of 0%nat) 1 w_row = Ok "" /\
  Row_get (row_of 0%nat) 2 w_row = Ok (bs "xy") /\ Row_get (row_of 0%nat) 3 w_row = Ok (None : option string) /\
  (exists e, Row_get (T := string) (row_of 0%nat) 3 w_row = Err e).
Proof.
  assert (stmt_live (0%nat : @Stmt db_engine) w_row) as Hl by (split; [eexists; vm_compute; reflexivity | cbn; lia]).
  pose proof (fun i => column_roundtrip (V := db_view) (0%nat : @Stmt db_engine) w_row typed_row [] i Hl eq_refl) as H.
  split; [destruct (H 0) as (K & _); [lia|]; apply K; reflexivity|].
  split; [vm_compute; reflexivity|].
  split; [destruct (H 1) as (_ & _ & _ & K & _); [lia|]; apply K; reflexivity|].
  split; [destruct (H 2) as (_ & _ & _ & _ & K & _); [lia|]; apply K; reflexivity|].
  split; [destruct (H 3) as (_ & _ & _ & _ & _ & K & _); [lia|]; apply K; [intros t [=] | reflexivity]|].
  destruct (H 3) as (_ & _ & _ & _ & _ & _ & K); [lia|]. destruct (K eq_refl) as (e & He & _). exists e. exact He.
Defined.

(** Two migrations on a new database. *)
Definition two_migrations : list (string * string) := [("a.sql", "CREATE A"); ("b.sql", "CREATE B")].
Definition migration_run : @World db_engine * result StorageError unit := run_all two_migrations c0 w0.

Lemma migrations_atomic_witness :
  migration_run.2 = Ok tt /\ committed (db_session (conn_db c0) migration_run.1) = (2, [bs "CREATE A"; bs "CREATE B"]) /\
  migrated db_script 2 0 two_migrations (2, [bs "CREATE A"; bs "CREATE B"]) = migrated db_script 0 0 two_migrations (0, []).
Proof.
  split; [vm_compute; reflexivity|]. split; [vm_compute; reflexivity|].
  destruct (migrations_atomic (V := db_view) (SL := db_script_laws) two_migrations c0 w0 migration_run.1 migration_run.2) as (_ & H & _).
  - exact c0_live.
  - repeat constructor; discriminate.
  - reflexivity.
  - reflexivity.
  - vm_compute; discriminate.
  - apply surjective_pairing.
  - revert H. vm_compute. intros H. exact H.
Defined.

(** Opening with the schema of the program. *)
Definition open_run : @World db_engine * result StorageError OpenDatabase := Database_open (Some "/data/presidium.db") (replicate 32 x00) w0.

Lemma database_open_releases_witness :
  match open_run.2 with Ok db => conn_db (db_conn db) = 1%nat | _ => False end /\ ~ undefined open_run.1 /\
  committed (db_session (1%nat : @Handle db_engine) open_run.1) = (1, [bs "PRAGMA journal_mode = 'WAL'"; bs "PRAGMA foreign_keys = ON"; bs INIT_SQL]).
Proof.
  split; [vm_compute; reflexivity|]. split; [|vm_compute; reflexivity]. intros H.
  destruct (database_open_releases (Some "/data/presidium.db") (replicate 32 x00) w0 open_run.1 open_run.2) as (U & _).
  - exact (surjective_pairing open_run).
  - discriminate (U H).
Defined.
