(* ===== verification/Store.v ===== *)
(** The local database: [presidium-storage/src/models.rs], the schema
    [migrations/0001_init.sql] and the operations of
    [presidium-storage/src/store.rs], with the transaction guard of
    [presidium-sqleet/src/lib.rs].

    A table is a finite map from its primary key to its columns; an SQL
    statement is the function on tables it denotes, with the constraint errors
    SQLite reports.  Enumerations are stored as the integers the code binds
    and read back by the code's row mappers.  A string is its UTF-8 bytes; a
    text parameter with a NUL byte is refused by the binding code.  The
    current time is an argument, and so is the outcome of COMMIT. *)

From stdpp Require Import sorting.
From S2P Require Import Prelude Constants Prims Ratchet Identity Keys Sqleet SessionState.

(** ** Records of [models.rs] *)

Record IdentityRecord := {
  ir_device_id : string; ir_classical_seed : bytes; ir_pq_seed : bytes; ir_created_at : Z
}.

Inductive PreKeyKind := Signed | OneTime.

Record PreKeyRecord := {
  pk_key_id : Z; pk_kind : PreKeyKind; pk_classical : bytes; pk_pq : bytes;
  pk_public_classical : bytes; pk_public_pq : bytes; pk_signature : bytes; pk_created_at : Z
}.

Record ConversationRecord := {
  cv_id : string; cv_peer_classical : bytes; cv_peer_pq : bytes; cv_is_group : bool; cv_created_at : Z
}.

Inductive MessageDirection := Incoming | Outgoing.
Inductive MessageStatus := Pending | Sent | Delivered | Read | Failed.

Record MessageRecord := {
  mr_id : Z; mr_conversation_id : string; mr_message_id : bytes; mr_sender_classical : bytes;
  mr_ciphertext : bytes; mr_header : string; mr_content_type : Z;
  mr_direction : MessageDirection; mr_status : MessageStatus; mr_created_at : Z
}.

Record SenderKeyRecord := {
  skr_group_id : string; skr_sender_classical : bytes; skr_chain_key : bytes;
  skr_message_index : Z; skr_key_id : Z; skr_updated_at : Z
}.

Inductive MediaKind := Image | Audio | Video | File.

Record MediaRecord := {
  md_id : string; md_message_id : option Z; md_kind : MediaKind; md_encryption_key : bytes;
  md_size : Z; md_relative_path : string; md_created_at : Z
}.

Record DeviceRecord := {
  dv_device_id : string; dv_classical : bytes; dv_pq : bytes; dv_last_seen : option Z
}.

(** [as i64] on the [#[repr(i64)]] enumerations. *)
Definition PreKeyKind_i64 (k : PreKeyKind) : Z := match k with Signed => 0 | OneTime => 1 end.
Definition MessageDirection_i64 (d : MessageDirection) : Z := match d with Incoming => 0 | Outgoing => 1 end.
Definition MessageStatus_i64 (s : MessageStatus) : Z :=
  match s with Pending => 0 | Sent => 1 | Delivered => 2 | Read => 3 | Failed => 4 end.
Definition MediaKind_i64 (k : MediaKind) : Z :=
  match k with Image => 0 | Audio => 1 | Video => 2 | File => 3 end.

(** ** Columns of the tables *)

Record PrekeyRow := {
  pkr_kind : Z; pkr_classical : bytes; pkr_pq : bytes;
  pkr_public_classical : bytes; pkr_public_pq : bytes; pkr_signature : bytes; pkr_created_at : Z
}.
Record ConversationRow := {
  cvr_peer_classical : bytes; cvr_peer_pq : bytes; cvr_is_group : Z; cvr_created_at : Z
}.
Record SessionRow := {
  sr_is_initiator : Z; sr_session_keys : bytes; sr_ratchet_state : option bytes; sr_last_used : Z
}.
Record MessageRow := {
  mrr_conversation_id : string; mrr_message_id : bytes; mrr_sender_classical : bytes;
  mrr_ciphertext : bytes; mrr_header : string; mrr_content_type : Z;
  mrr_direction : Z; mrr_status : Z; mrr_created_at : Z
}.
Record SenderKeyRow := {
  skw_chain_key : bytes; skw_message_index : Z; skw_key_id : Z; skw_updated_at : Z
}.
Record MediaRow := {
  mdr_message_id : option Z; mdr_kind : Z; mdr_encryption_key : bytes;
  mdr_size : Z; mdr_relative_path : string; mdr_created_at : Z
}.
Record DocRow := { dr_ydoc : bytes; dr_updated_at : Z }.
Record DeviceRow := { dvr_classical : bytes; dvr_pq : bytes; dvr_last_seen : option Z }.

Record Tables := {
  t_identity : option IdentityRecord;
  t_prekeys : gmap Z PrekeyRow;
  t_conversations : gmap string ConversationRow;
  t_sessions : gmap string SessionRow;
  t_messages : gmap Z MessageRow;
  t_messages_seq : Z;
  t_sender_keys : gmap (string * bytes) SenderKeyRow;
  t_media : gmap string MediaRow;
  t_docs : gmap string DocRow;
  t_devices : gmap string DeviceRow
}.

(** A connection: the tables it sees, the tables to go back to when a
    transaction is open, and the last inserted row id. *)
Record Db := { live : Tables; saved : option Tables; last_rowid : Z }.

Definition empty_tables : Tables :=
  {| t_identity := None; t_prekeys := ∅; t_conversations := ∅; t_sessions := ∅; t_messages := ∅;
     t_messages_seq := 0; t_sender_keys := ∅; t_media := ∅; t_docs := ∅; t_devices := ∅ |}.
Definition empty_db : Db := {| live := empty_tables; saved := None; last_rowid := 0 |}.

(** ** Table updates *)

Definition set_identity (r : option IdentityRecord) (t : Tables) : Tables :=
  {| t_identity := r; t_prekeys := t_prekeys t; t_conversations := t_conversations t;
     t_sessions := t_sessions t; t_messages := t_messages t; t_messages_seq := t_messages_seq t;
     t_sender_keys := t_sender_keys t; t_media := t_media t; t_docs := t_docs t; t_devices := t_devices t |}.
Definition set_prekeys (m : gmap Z PrekeyRow) (t : Tables) : Tables :=
  {| t_identity := t_identity t; t_prekeys := m; t_conversations := t_conversations t;
     t_sessions := t_sessions t; t_messages := t_messages t; t_messages_seq := t_messages_seq t;
     t_sender_keys := t_sender_keys t; t_media := t_media t; t_docs := t_docs t; t_devices := t_devices t |}.
Definition set_conversations (m : gmap string ConversationRow) (t : Tables) : Tables :=
  {| t_identity := t_identity t; t_prekeys := t_prekeys t; t_conversations := m;
     t_sessions := t_sessions t; t_messages := t_messages t; t_messages_seq := t_messages_seq t;
     t_sender_keys := t_sender_keys t; t_media := t_media t; t_docs := t_docs t; t_devices := t_devices t |}.
Definition set_sessions (m : gmap string SessionRow) (t : Tables) : Tables :=
  {| t_identity := t_identity t; t_prekeys := t_prekeys t; t_conversations := t_conversations t;
     t_sessions := m; t_messages := t_messages t; t_messages_seq := t_messages_seq t;
     t_sender_keys := t_sender_keys t; t_media := t_media t; t_docs := t_docs t; t_devices := t_devices t |}.
Definition set_messages (m : gmap Z MessageRow) (seq : Z) (t : Tables) : Tables :=
  {| t_identity := t_identity t; t_prekeys := t_prekeys t; t_conversations := t_conversations t;
     t_sessions := t_sessions t; t_messages := m; t_messages_seq := seq;
     t_sender_keys := t_sender_keys t; t_media := t_media t; t_docs := t_docs t; t_devices := t_devices t |}.
Definition set_sender_keys (m : gmap (string * bytes) SenderKeyRow) (t : Tables) : Tables :=
  {| t_identity := t_identity t; t_prekeys := t_prekeys t; t_conversations := t_conversations t;
     t_sessions := t_sessions t; t_messages := t_messages t; t_messages_seq := t_messages_seq t;
     t_sender_keys := m; t_media := t_media t; t_docs := t_docs t; t_devices := t_devices t |}.
Definition set_media (m : gmap string MediaRow) (t : Tables) : Tables :=
  {| t_identity := t_identity t; t_prekeys := t_prekeys t; t_conversations := t_conversations t;
     t_sessions := t_sessions t; t_messages := t_messages t; t_messages_seq := t_messages_seq t;
     t_sender_keys := t_sender_keys t; t_media := m; t_docs := t_docs t; t_devices := t_devices t |}.
Definition set_docs (m : gmap string DocRow) (t : Tables) : Tables :=
  {| t_identity := t_identity t; t_prekeys := t_prekeys t; t_conversations := t_conversations t;
     t_sessions := t_sessions t; t_messages := t_messages t; t_messages_seq := t_messages_seq t;
     t_sender_keys := t_sender_keys t; t_media := t_media t; t_docs := m; t_devices := t_devices t |}.
Definition set_devices (m : gmap string DeviceRow) (t : Tables) : Tables :=
  {| t_identity := t_identity t; t_prekeys := t_prekeys t; t_conversations := t_conversations t;
     t_sessions := t_sessions t; t_messages := t_messages t; t_messages_seq := t_messages_seq t;
     t_sender_keys := t_sender_keys t; t_media := t_media t; t_docs := t_docs t; t_devices := m |}.

(** ** Statements *)

Definition set_live (t : Tables) (db : Db) : Db :=
  {| live := t; saved := saved db; last_rowid := last_rowid db |}.

(** Binding text parameters: a [CString] cannot hold a NUL byte. *)
Definition bind_texts (texts : list string) : M Db StorageError unit :=
  if existsb has_nul texts
  then fail (Database {| sql_code := 0; sql_message := "text param contains a NUL byte" |})
  else mret tt.

Definition update_tables (f : Tables -> Tables) : M Db StorageError unit :=
  modify (fun db => set_live (f (live db)) db).

Definition constraint_failed (msg : string) : StorageError :=
  Database {| sql_code := 19; sql_message := msg |}.

(** [LIMIT n]: a negative limit is none. *)
Definition sql_limit {A} (n : Z) (l : list A) : list A := if n <? 0 then l else take (Z.to_nat n) l.

(** [ORDER BY] the primary key, ascending. *)
Definition key_le {A} (a b : Z * A) : Prop := a.1 <= b.1.
#[export] Instance key_le_dec {A} : RelDecision (@key_le A).
Proof. intros a b. unfold key_le. apply _. Defined.
Definition rows_by_key {A} (m : gmap Z A) : list (Z * A) := merge_sort key_le (map_to_list m).

(** ** Row mappers *)

Definition prekey_from_row (p : Z * PrekeyRow) : PreKeyRecord :=
  let '(key_id, r) := p in
  {| pk_key_id := key_id; pk_kind := if pkr_kind r =? 0 then Signed else OneTime;
     pk_classical := pkr_classical r; pk_pq := pkr_pq r;
     pk_public_classical := pkr_public_classical r; pk_public_pq := pkr_public_pq r;
     pk_signature := pkr_signature r; pk_created_at := pkr_created_at r |}.

Definition status_from_i64 (n : Z) : MessageStatus :=
  if n =? 0 then Pending else if n =? 1 then Sent else if n =? 2 then Delivered
  else if n =? 3 then Read else Failed.

Definition message_from_row (p : Z * MessageRow) : MessageRecord :=
  let '(id, r) := p in
  {| mr_id := id; mr_conversation_id := mrr_conversation_id r; mr_message_id := mrr_message_id r;
     mr_sender_classical := mrr_sender_classical r; mr_ciphertext := mrr_ciphertext r;
     mr_header := mrr_header r; mr_content_type := mrr_content_type r;
     mr_direction := if mrr_direction r =? 0 then Incoming else Outgoing;
     mr_status := status_from_i64 (mrr_status r); mr_created_at := mrr_created_at r |}.

Definition media_kind_from_i64 (kind : Z) : MediaKind :=
  if kind =? 0 then Image else if kind =? 1 then Audio else if kind =? 2 then Video else File.

Definition media_from_row (p : string * MediaRow) : MediaRecord :=
  let '(id, r) := p in
  {| md_id := id; md_message_id := mdr_message_id r; md_kind := media_kind_from_i64 (mdr_kind r);
     md_encryption_key := mdr_encryption_key r; md_size := mdr_size r;
     md_relative_path := mdr_relative_path r; md_created_at := mdr_created_at r |}.

(** [bool] columns: [i64::from(b)] and [column != 0]. *)
Definition bool_i64 (b : bool) : Z := if b then 1 else 0.
Definition i64_bool (n : Z) : bool := negb (n =? 0).

Definition conversation_from_row (p : string * ConversationRow) : ConversationRecord :=
  let '(id, r) := p in
  {| cv_id := id; cv_peer_classical := cvr_peer_classical r; cv_peer_pq := cvr_peer_pq r;
     cv_is_group := i64_bool (cvr_is_group r); cv_created_at := cvr_created_at r |}.

Definition sender_key_from_row (p : (string * bytes) * SenderKeyRow) : SenderKeyRecord :=
  let '((group_id, sender), r) := p in
  {| skr_group_id := group_id; skr_sender_classical := sender; skr_chain_key := skw_chain_key r;
     skr_message_index := skw_message_index r; skr_key_id := skw_key_id r; skr_updated_at := skw_updated_at r |}.

Definition device_from_row (p : string * DeviceRow) : DeviceRecord :=
  let '(id, r) := p in
  {| dv_device_id := id; dv_classical := dvr_classical r; dv_pq := dvr_pq r; dv_last_seen := dvr_last_seen r |}.

(** ** Identity *)

Definition save_identity (r : IdentityRecord) : M Db StorageError unit :=
  bind_texts [ir_device_id r];;
  update_tables (fun t =>
    set_identity (Some (match t_identity t with
                        | None => r
                        | Some old => {| ir_device_id := ir_device_id r; ir_classical_seed := ir_classical_seed r;
                                         ir_pq_seed := ir_pq_seed r; ir_created_at := ir_created_at old |}
                        end)) t).

Definition load_identity : M Db StorageError (option IdentityRecord) := gets (fun db => t_identity (live db)).

(** ** Prekeys *)

Definition prekey_row (r : PreKeyRecord) : PrekeyRow :=
  {| pkr_kind := PreKeyKind_i64 (pk_kind r); pkr_classical := pk_classical r; pkr_pq := pk_pq r;
     pkr_public_classical := pk_public_classical r; pkr_public_pq := pk_public_pq r;
     pkr_signature := pk_signature r; pkr_created_at := pk_created_at r |}.

Definition save_prekey (r : PreKeyRecord) : M Db StorageError unit :=
  update_tables (fun t => set_prekeys (<[pk_key_id r := prekey_row r]> (t_prekeys t)) t).

Definition prekeys_of_kind (kind : PreKeyKind) (t : Tables) : list (Z * PrekeyRow) :=
  filter (fun p => pkr_kind p.2 = PreKeyKind_i64 kind) (rows_by_key (t_prekeys t)).

Definition list_prekeys (kind : PreKeyKind) (limit : Z) : M Db StorageError (list PreKeyRecord) :=
  gets (fun db => map prekey_from_row (sql_limit limit (prekeys_of_kind kind (live db)))).

Definition count_prekeys (kind : PreKeyKind) : M Db StorageError Z :=
  gets (fun db => Z.of_nat (length (prekeys_of_kind kind (live db)))).

Definition delete_prekey (key_id : Z) : M Db StorageError unit :=
  update_tables (fun t => set_prekeys (delete key_id (t_prekeys t)) t).

(** ** Transactions: BEGIN, COMMIT and ROLLBACK, and the guard around them.
    [commit_result] is what the engine answers to COMMIT: on an error the
    transaction stays open. *)

Definition Connection_transaction : M Db StorageError unit := fun db =>
  match saved db with
  | Some _ => (db, Err (Database {| sql_code := 1;
                 sql_message := "cannot start a transaction within a transaction" |}))
  | None => ({| live := live db; saved := Some (live db); last_rowid := last_rowid db |}, Ok tt)
  end.

Definition execute_commit (commit_result : option SqlError) : M Db StorageError unit := fun db =>
  match commit_result with
  | Some e => (db, Err (Database e))
  | None => ({| live := live db; saved := None; last_rowid := last_rowid db |}, Ok tt)
  end.

Definition execute_rollback (db : Db) : Db :=
  match saved db with
  | Some t => {| live := t; saved := None; last_rowid := last_rowid db |}
  | None => db
  end.

(** The body runs under the guard; when it fails the guard is dropped with
    [done = false] and rolls back.  [commit] sets [done] first, so that a
    failing COMMIT is not rolled back. *)
Definition with_transaction {A} (commit_result : option SqlError) (body : M Db StorageError A)
    : M Db StorageError A :=
  Connection_transaction;;
  r ← (fun db => match body db with
                 | (db', Ok a) => (db', Ok a)
                 | (db', Err e) => (execute_rollback db', Err e)
                 | (db', Panic p) => (execute_rollback db', Panic p)
                 end);
  execute_commit commit_result;;
  mret r.

Definition take_one_time_prekey (commit_result : option SqlError) : M Db StorageError (option PreKeyRecord) :=
  with_transaction commit_result
    (record ← gets (fun db => prekey_from_row <$> head (prekeys_of_kind OneTime (live db)));
     match record with
     | Some r => delete_prekey (pk_key_id r)
     | None => mret tt
     end;;
     mret record).

(** ** Conversations *)

Definition conversation_row (created_at : Z) (r : ConversationRecord) : ConversationRow :=
  {| cvr_peer_classical := cv_peer_classical r; cvr_peer_pq := cv_peer_pq r;
     cvr_is_group := bool_i64 (cv_is_group r); cvr_created_at := created_at |}.

Definition upsert_conversation (r : ConversationRecord) : M Db StorageError unit :=
  bind_texts [cv_id r];;
  update_tables (fun t =>
    let created_at := match t_conversations t !! cv_id r with
                      | Some old => cvr_created_at old
                      | None => cv_created_at r
                      end in
    set_conversations (<[cv_id r := conversation_row created_at r]> (t_conversations t)) t).

Definition load_conversation (id : string) : M Db StorageError (option ConversationRecord) :=
  bind_texts [id];;
  gets (fun db => (fun r => conversation_from_row (id, r)) <$> t_conversations (live db) !! id).

(** The order of rows with equal [created_at] is the engine's; here it is the
    order of the map. *)
Definition newer (a b : string * ConversationRow) : Prop := cvr_created_at b.2 <= cvr_created_at a.2.
#[export] Instance newer_dec : RelDecision newer.
Proof. intros a b. unfold newer. apply _. Defined.
Definition list_conversations : M Db StorageError (list ConversationRecord) :=
  gets (fun db => map conversation_from_row (merge_sort newer (map_to_list (t_conversations (live db))))).

(** ** Sessions *)

Section Sessions.
Context `{SK : Serde SessionKeys, SR : Serde RatchetSnapshot}.

(** [Option::map(f).transpose()]. *)
Definition traverse_option {E A B} (f : A -> result E B) (o : option A) : result E (option B) :=
  match o with
  | None => Ok None
  | Some a => b ← f a; mret (Some b)
  end.

(** The two JSON texts hold no NUL byte (serde_json escapes control
    characters), so only the id is checked. *)
Definition save_session (conversation_id : string) (state : SessionState) : M Db StorageError unit :=
  session_keys ← lift (map_err Serialization (to_vec (ss_session_keys state)));
  ratchet_state ← lift (map_err Serialization (traverse_option to_vec (ss_ratchet state)));
  bind_texts [conversation_id];;
  conversations ← gets (fun db => t_conversations (live db));
  match conversations !! conversation_id with
  | None => fail (constraint_failed "FOREIGN KEY constraint failed")
  | Some _ =>
      update_tables (fun t =>
        set_sessions (<[conversation_id := {| sr_is_initiator := bool_i64 (ss_is_initiator state);
                                              sr_session_keys := session_keys;
                                              sr_ratchet_state := ratchet_state;
                                              sr_last_used := ss_last_used state |}]> (t_sessions t)) t)
  end.

Definition load_session (conversation_id : string) : M Db StorageError (option SessionState) :=
  bind_texts [conversation_id];;
  row ← gets (fun db => t_sessions (live db) !! conversation_id);
  lift (traverse_option (fun r =>
    session_keys ← map_err Serialization (from_slice (sr_session_keys r));
    ratchet ← map_err Serialization (traverse_option from_slice (sr_ratchet_state r));
    mret {| ss_is_initiator := i64_bool (sr_is_initiator r); ss_session_keys := session_keys;
            ss_ratchet := ratchet; ss_last_used := sr_last_used r |}) row).

Definition delete_session (conversation_id : string) : M Db StorageError unit :=
  bind_texts [conversation_id];;
  update_tables (fun t => set_sessions (delete conversation_id (t_sessions t)) t).
End Sessions.

(** ** Messages *)

Definition message_row (r : MessageRecord) : MessageRow :=
  {| mrr_conversation_id := mr_conversation_id r; mrr_message_id := mr_message_id r;
     mrr_sender_classical := mr_sender_classical r; mrr_ciphertext := mr_ciphertext r;
     mrr_header := mr_header r; mrr_content_type := mr_content_type r;
     mrr_direction := MessageDirection_i64 (mr_direction r); mrr_status := MessageStatus_i64 (mr_status r);
     mrr_created_at := mr_created_at r |}.

(** The unique index on [(conversation_id, message_id)]. *)
Definition same_uid (conversation_id : string) (message_id : bytes) (p : Z * MessageRow) : bool :=
  bool_decide (mrr_conversation_id p.2 = conversation_id) && bool_decide (mrr_message_id p.2 = message_id).

Definition i64_max : Z := 2 ^ 63 - 1.

(** AUTOINCREMENT: one past the largest id ever used; the row id given in the
    record is not inserted. *)
Definition insert_message (r : MessageRecord) : M Db StorageError Z :=
  bind_texts [mr_conversation_id r; mr_header r];;
  t ← gets live;
  if t_messages_seq t =? i64_max then fail (Database {| sql_code := 13; sql_message := "database or disk is full" |})
  else if existsb (same_uid (mr_conversation_id r) (mr_message_id r)) (map_to_list (t_messages t)) then
    fail (constraint_failed "UNIQUE constraint failed: messages.conversation_id, messages.message_id")
  else
    match t_conversations t !! mr_conversation_id r with
    | None => fail (constraint_failed "FOREIGN KEY constraint failed")
    | Some _ =>
        let id := t_messages_seq t + 1 in
        modify (fun db => {| live := set_messages (<[id := message_row r]> (t_messages (live db))) id (live db);
                             saved := saved db; last_rowid := id |});;
        gets last_rowid
    end.

Definition in_page (conversation_id : string) (before_id : option Z) (p : Z * MessageRow) : Prop :=
  mrr_conversation_id p.2 = conversation_id /\
  match before_id with None => True | Some b => p.1 < b end.
#[export] Instance in_page_dec c b p : Decision (in_page c b p).
Proof. unfold in_page. destruct b; apply _. Defined.

Definition list_messages (conversation_id : string) (before_id : option Z) (limit : Z)
    : M Db StorageError (list MessageRecord) :=
  bind_texts [conversation_id];;
  gets (fun db => map message_from_row (sql_limit limit
    (filter (in_page conversation_id before_id) (reverse (rows_by_key (t_messages (live db))))))).

Definition load_message_by_uid (conversation_id : string) (message_id : bytes)
    : M Db StorageError (option MessageRecord) :=
  bind_texts [conversation_id];;
  gets (fun db => message_from_row <$> List.find (same_uid conversation_id message_id) (rows_by_key (t_messages (live db)))).

Definition set_status (n : Z) (r : MessageRow) : MessageRow :=
  {| mrr_conversation_id := mrr_conversation_id r; mrr_message_id := mrr_message_id r;
     mrr_sender_classical := mrr_sender_classical r; mrr_ciphertext := mrr_ciphertext r;
     mrr_header := mrr_header r; mrr_content_type := mrr_content_type r;
     mrr_direction := mrr_direction r; mrr_status := n; mrr_created_at := mrr_created_at r |}.

Definition update_message_status (id : Z) (status : MessageStatus) : M Db StorageError unit :=
  update_tables (fun t => set_messages (alter (set_status (MessageStatus_i64 status)) id (t_messages t)) (t_messages_seq t) t).

(** ** Sender keys *)

Definition upsert_sender_key (r : SenderKeyRecord) : M Db StorageError unit :=
  bind_texts [skr_group_id r];;
  update_tables (fun t =>
    set_sender_keys (<[(skr_group_id r, skr_sender_classical r) :=
      {| skw_chain_key := skr_chain_key r; skw_message_index := skr_message_index r;
         skw_key_id := skr_key_id r; skw_updated_at := skr_updated_at r |}]> (t_sender_keys t)) t).

Definition load_sender_key (group_id : string) (sender_classical : bytes) : M Db StorageError (option SenderKeyRecord) :=
  bind_texts [group_id];;
  gets (fun db => (fun r => sender_key_from_row ((group_id, sender_classical), r)) <$>
                    t_sender_keys (live db) !! (group_id, sender_classical)).

(** ** Media *)

Definition media_row (r : MediaRecord) : MediaRow :=
  {| mdr_message_id := md_message_id r; mdr_kind := MediaKind_i64 (md_kind r);
     mdr_encryption_key := md_encryption_key r; mdr_size := md_size r;
     mdr_relative_path := md_relative_path r; mdr_created_at := md_created_at r |}.

Definition insert_media (r : MediaRecord) : M Db StorageError unit :=
  bind_texts [md_id r; md_relative_path r];;
  t ← gets live;
  match t_media t !! md_id r, md_message_id r with
  | Some _, _ => fail (constraint_failed "UNIQUE constraint failed: media.id")
  | None, Some m =>
      if decide (t_messages t !! m = None) then fail (constraint_failed "FOREIGN KEY constraint failed")
      else update_tables (fun t => set_media (<[md_id r := media_row r]> (t_media t)) t)
  | None, None => update_tables (fun t => set_media (<[md_id r := media_row r]> (t_media t)) t)
  end.

Definition load_media (id : string) : M Db StorageError (option MediaRecord) :=
  bind_texts [id];;
  gets (fun db => (fun r => media_from_row (id, r)) <$> t_media (live db) !! id).

Definition older_media (a b : string * MediaRow) : Prop := mdr_created_at a.2 <= mdr_created_at b.2.
#[export] Instance older_media_dec : RelDecision older_media.
Proof. intros a b. unfold older_media. apply _. Defined.

Definition list_media_for_message (message_id : Z) : M Db StorageError (list MediaRecord) :=
  gets (fun db => map media_from_row (merge_sort older_media
    (filter (fun p => mdr_message_id p.2 = Some message_id) (map_to_list (t_media (live db)))))).

(** ** CRDT documents and devices *)

Definition save_doc (now : Z) (id : string) (ydoc_bytes : bytes) : M Db StorageError unit :=
  bind_texts [id];;
  update_tables (fun t => set_docs (<[id := {| dr_ydoc := ydoc_bytes; dr_updated_at := now |}]> (t_docs t)) t).

Definition load_doc (id : string) : M Db StorageError (option bytes) :=
  bind_texts [id];;
  gets (fun db => dr_ydoc <$> t_docs (live db) !! id).

Definition delete_doc (id : string) : M Db StorageError unit :=
  bind_texts [id];;
  update_tables (fun t => set_docs (delete id (t_docs t)) t).

Definition upsert_device (r : DeviceRecord) : M Db StorageError unit :=
  bind_texts [dv_device_id r];;
  update_tables (fun t =>
    set_devices (<[dv_device_id r := {| dvr_classical := dv_classical r; dvr_pq := dv_pq r;
                                        dvr_last_seen := dv_last_seen r |}]> (t_devices t)) t).

(** [ORDER BY device_id] compares bytes. *)
Definition id_le {A} (a b : string * A) : Prop := String.leb a.1 b.1 = true.
#[export] Instance id_le_dec {A} : RelDecision (@id_le A).
Proof. intros a b. unfold id_le. apply _. Defined.

Definition list_devices : M Db StorageError (list DeviceRecord) :=
  gets (fun db => map device_from_row (merge_sort id_le (map_to_list (t_devices (live db))))).
