(* ===== verification/StoreProps.v ===== *)
(** The local database: session round trips, one-time prekeys, transactions
    and message history. *)

From stdpp Require Import sorting.
From S2P Require Import Prelude Constants Prims Concrete Ratchet Identity Keys Sqleet SessionState Store.

(** ** Tables in key order *)

Definition key_lt {A} (a b : Z * A) : Prop := a.1 < b.1.

#[export] Instance key_le_total {A} : Total (@key_le A).
Proof. intros a b. unfold key_le. lia. Qed.
#[export] Instance key_le_trans {A} : Transitive (@key_le A).
Proof. intros a b c. unfold key_le. lia. Qed.

Lemma StronglySorted_filter {A} (R : relation A) (P : A -> Prop) `{!forall x, Decision (P x)} l :
  StronglySorted R l -> StronglySorted R (filter P l).
Proof.
  induction 1 as [|x l Hl IH Hx]; [constructor|]. rewrite filter_cons. case_decide; [|done].
  constructor; [done|]. apply list.Forall_forall. intros y [_ Hy]%list_elem_of_filter.
  rewrite list.Forall_forall in Hx. auto.
Qed.

Lemma elem_of_rows {A} (m : gmap Z A) p : p ∈ rows_by_key m <-> m !! p.1 = Some p.2.
Proof.
  unfold rows_by_key. rewrite merge_sort_Permutation. destruct p as [k r]. apply elem_of_map_to_list.
Qed.

Lemma rows_NoDup {A} (m : gmap Z A) : NoDup (rows_by_key m).*1.
Proof. unfold rows_by_key. rewrite merge_sort_Permutation. apply NoDup_fst_map_to_list. Qed.

Lemma rows_sorted {A} (m : gmap Z A) : StronglySorted key_lt (rows_by_key m).
Proof.
  pose proof (rows_NoDup m) as Hnd.
  assert (StronglySorted key_le (rows_by_key m)) as Hs by apply (StronglySorted_merge_sort _ _).
  induction Hs as [|p l Hl IH Hp]; constructor.
  - apply IH. cbn in Hnd. by apply NoDup_cons in Hnd as [_ ?].
  - cbn in Hnd. apply NoDup_cons in Hnd as [Hn _]. rewrite list.Forall_forall in Hp |- *.
    intros q Hq. specialize (Hp q Hq). unfold key_le, key_lt in *.
    assert (p.1 <> q.1); [|lia]. intros Heq. apply Hn. rewrite Heq. by apply list_elem_of_fmap_2.
Qed.

Lemma sorted_NoDup {A} (l : list (Z * A)) : StronglySorted key_lt l -> NoDup l.
Proof.
  induction 1 as [|p l Hl IH Hp]; constructor; [|done]. intros Hin.
  rewrite list.Forall_forall in Hp. specialize (Hp p Hin). unfold key_lt in Hp. lia.
Qed.

(** A strictly sorted list with the rows of a table is the table in order. *)
Lemma rows_unique {A} (m : gmap Z A) l :
  StronglySorted key_lt l -> (forall p, p ∈ l <-> m !! p.1 = Some p.2) -> rows_by_key m = l.
Proof.
  intros Hl Hin. apply (StronglySorted_unique_strong key_lt).
  - intros p q _ _. unfold key_lt. lia.
  - apply rows_sorted.
  - done.
  - apply NoDup_Permutation; [apply sorted_NoDup, rows_sorted | by apply sorted_NoDup|].
    intros p. by rewrite elem_of_rows, Hin.
Qed.

Lemma rows_delete {A} k (m : gmap Z A) :
  rows_by_key (delete k m) = filter (fun p => p.1 <> k) (rows_by_key m).
Proof.
  apply rows_unique; [apply StronglySorted_filter, rows_sorted|].
  intros p. rewrite list_elem_of_filter, elem_of_rows, lookup_delete_Some. naive_solver.
Qed.

Lemma rows_snoc {A} k r (m : gmap Z A) :
  (forall j x, m !! j = Some x -> j < k) -> rows_by_key (<[k:=r]> m) = rows_by_key m ++ [(k, r)].
Proof.
  intros Hk. assert (m !! k = None) as Hnone.
  { destruct (m !! k) eqn:E; [|done]. apply Hk in E. lia. }
  apply rows_unique.
  - apply StronglySorted_app_2; [|apply rows_sorted|repeat constructor].
    intros p q Hp%elem_of_rows ->%list_elem_of_singleton. by apply Hk in Hp.
  - intros p. rewrite elem_of_app, elem_of_rows, list_elem_of_singleton, lookup_insert_Some.
    destruct p as [j x]. cbn. split.
    + intros [Hp|[= -> ->]]; [right | by left]. split; [|done]. intros ->. congruence.
    + naive_solver.
Qed.

(** ** One-time prekeys *)

Lemma filter_comm {A} (P Q : A -> Prop) `{!forall x, Decision (P x), !forall x, Decision (Q x)} (l : list A) :
  filter P (filter Q l) = filter Q (filter P l).
Proof. rewrite !list_filter_filter. apply list_filter_iff. tauto. Qed.

Lemma filter_all {A} (P : A -> Prop) `{!forall x, Decision (P x)} (l : list A) :
  (forall x, x ∈ l -> P x) -> filter P l = l.
Proof.
  induction l as [|x l IH]; [done|]. intros Hp. rewrite filter_cons_True by (apply Hp; left).
  f_equal. apply IH. intros y Hy. apply Hp. by right.
Qed.

Lemma filter_none {A} (P : A -> Prop) `{!forall x, Decision (P x)} (l : list A) :
  (forall x, x ∈ l -> ~ P x) -> filter P l = [].
Proof.
  induction l as [|x l IH]; [done|]. intros Hp. rewrite filter_cons_False by (apply Hp; left).
  apply IH. intros y Hy. apply Hp. by right.
Qed.

Lemma prekeys_sorted k t : StronglySorted key_lt (prekeys_of_kind k t).
Proof. apply StronglySorted_filter, rows_sorted. Qed.

Lemma prekeys_delete k id t :
  prekeys_of_kind k (set_prekeys (delete id (t_prekeys t)) t) =
  filter (fun p => p.1 <> id) (prekeys_of_kind k t).
Proof. unfold prekeys_of_kind. cbn [set_prekeys t_prekeys]. rewrite rows_delete. apply filter_comm. Qed.

Lemma prekeys_delete_head k p l t :
  prekeys_of_kind k t = p :: l -> prekeys_of_kind k (set_prekeys (delete p.1 (t_prekeys t)) t) = l.
Proof.
  intros Hl. pose proof (prekeys_sorted k t) as Hs. rewrite prekeys_delete. rewrite Hl in *.
  rewrite filter_cons_False by tauto. apply filter_all. inversion_clear Hs as [|? ? _ Hp].
  rewrite list.Forall_forall in Hp. intros q Hq. specialize (Hp q Hq). unfold key_lt in Hp. lia.
Qed.

Lemma prekeys_delete_other k k' p t :
  p ∈ prekeys_of_kind k t -> PreKeyKind_i64 k <> PreKeyKind_i64 k' ->
  prekeys_of_kind k' (set_prekeys (delete p.1 (t_prekeys t)) t) = prekeys_of_kind k' t.
Proof.
  intros [Hk Hp]%list_elem_of_filter Hne. rewrite prekeys_delete. apply filter_all.
  intros q [Hk' Hq]%list_elem_of_filter Heq. apply elem_of_rows in Hp, Hq. congruence.
Qed.

Lemma take_prekey_eq db :
  saved db = None ->
  take_one_time_prekey None db =
  match prekeys_of_kind OneTime (live db) with
  | [] => (db, Ok None)
  | p :: _ => (set_live (set_prekeys (delete p.1 (t_prekeys (live db))) (live db)) db, Ok (Some (prekey_from_row p)))
  end.
Proof.
  intros Hs. destruct db as [t s i]. cbn in Hs. subst s. unfold take_one_time_prekey, with_transaction. mrun.
  unfold Connection_transaction. cbn [saved live]. mrun. cbn [live].
  by destruct (prekeys_of_kind OneTime t) as [|[k r] l].
Qed.

Definition take_prekeys (n : nat) : M Db StorageError (list (option PreKeyRecord)) :=
  mapM (fun _ => take_one_time_prekey None) (replicate n tt).

(** C25. One-time prekeys are consumed once each, in the order of their ids:
    [n] successful calls of [take_one_time_prekey] return the [n] stored
    one-time prekeys with the smallest ids, then nothing; exactly those are
    gone afterwards, no id is handed out twice, and signed prekeys are
    untouched. *)
Theorem one_time_prekeys_consumed_once db n :
  saved db = None ->
  let stored := prekeys_of_kind OneTime (live db) in
  exists db', take_prekeys n db =
      (db', Ok (map (Some ∘ prekey_from_row) (take n stored) ++ replicate (n - length stored) None)) /\
    saved db' = None /\
    prekeys_of_kind OneTime (live db') = drop n stored /\
    prekeys_of_kind Signed (live db') = prekeys_of_kind Signed (live db) /\
    StronglySorted key_lt stored.
Proof.
  cbn zeta. intros Hs.
  enough (exists db', take_prekeys n db =
      (db', Ok (map (Some ∘ prekey_from_row) (take n (prekeys_of_kind OneTime (live db))) ++
                replicate (n - length (prekeys_of_kind OneTime (live db))) None)) /\
    saved db' = None /\ prekeys_of_kind OneTime (live db') = drop n (prekeys_of_kind OneTime (live db)) /\
    prekeys_of_kind Signed (live db') = prekeys_of_kind Signed (live db)) as (db' & ? & ? & ? & ?).
  { exists db'. split_and!; [done..|apply prekeys_sorted]. }
  revert db Hs. induction n as [|n IH]; intros db Hs.
  - by exists db.
  - unfold take_prekeys in *. cbn [replicate mapM]. mrun. rewrite take_prekey_eq by done.
    destruct (prekeys_of_kind OneTime (live db)) as [|p l] eqn:Hl.
    + destruct (IH db Hs) as (db' & Ht & ? & Hd & ?). rewrite Hl in Ht, Hd. exists db'. mrun. rewrite Ht. mrun.
      rewrite take_nil, drop_nil, Nat.sub_0_r in *. by rewrite Hd.
    + set (db1 := set_live (set_prekeys (delete p.1 (t_prekeys (live db))) (live db)) db).
      assert (prekeys_of_kind OneTime (live db1) = l) as Hl1 by by apply prekeys_delete_head.
      assert (prekeys_of_kind Signed (live db1) = prekeys_of_kind Signed (live db)) as Hs1.
      { apply (prekeys_delete_other OneTime); [rewrite Hl; left | done]. }
      destruct (IH db1 Hs) as (db' & Ht & ? & Hd & Hsg). exists db'. rewrite Hl1 in Ht, Hd. mrun. rewrite Ht. mrun.
      cbn [take drop map length Nat.sub]. by rewrite Hsg, Hd.
Qed.

(** A COMMIT that fails is not rolled back ([commit] sets [done] before
    it runs the statement): the transaction of [take_one_time_prekey] stays
    open, with the deletion pending, and every later call fails because
    transactions do not nest. *)
Theorem failed_commit_leaves_transaction_open db e later :
  saved db = None ->
  exists db', take_one_time_prekey (Some e) db = (db', Err (Database e)) /\
    saved db' = Some (live db) /\
    take_one_time_prekey later db' =
      (db', Err (Database {| sql_code := 1; sql_message := "cannot start a transaction within a transaction" |})).
Proof.
  intros Hs. destruct db as [t s i]. cbn in Hs. subst s. unfold take_one_time_prekey, with_transaction. mrun.
  unfold Connection_transaction at 1. cbn [saved live]. mrun. cbn [live].
  destruct (prekeys_of_kind OneTime t) as [|[k r] l]; cbn [head]; eexists; by split_and!.
Qed.

(** ** Messages *)

(** Ids in use are bounded by the AUTOINCREMENT sequence. *)
Definition ids_bounded (t : Tables) : Prop :=
  0 <= t_messages_seq t /\
  forall id r, t_messages t !! id = Some r -> 1 <= id <= t_messages_seq t.

(** The stored messages of a conversation, newest first. *)
Definition history (c : string) (t : Tables) : list (Z * MessageRow) :=
  filter (in_page c None) (reverse (rows_by_key (t_messages t))).

Definition with_id (id : Z) (r : MessageRecord) : MessageRecord :=
  {| mr_id := id; mr_conversation_id := mr_conversation_id r; mr_message_id := mr_message_id r;
     mr_sender_classical := mr_sender_classical r; mr_ciphertext := mr_ciphertext r;
     mr_header := mr_header r; mr_content_type := mr_content_type r;
     mr_direction := mr_direction r; mr_status := mr_status r; mr_created_at := mr_created_at r |}.

Lemma message_row_inv id r : message_from_row (id, message_row r) = with_id id r.
Proof. by destruct r as [? ? ? ? ? ? ? [] [] ?]. Qed.

Lemma StronglySorted_reverse {A} (R : relation A) (l : list A) :
  StronglySorted R l -> StronglySorted (flip R) (reverse l).
Proof.
  induction 1 as [|x l Hl IH Hx]; [constructor|]. rewrite reverse_cons. apply StronglySorted_app_2.
  - intros y z Hy ->%list_elem_of_singleton. rewrite list.Forall_forall in Hx. apply Hx.
    by rewrite elem_of_reverse in Hy.
  - done.
  - repeat constructor.
Qed.

Lemma history_sorted c t : StronglySorted (flip key_lt) (history c t).
Proof. apply StronglySorted_filter, StronglySorted_reverse, rows_sorted. Qed.

Lemma filter_below {A} (l1 l2 : list (Z * A)) x :
  StronglySorted (flip key_lt) (l1 ++ x :: l2) -> filter (fun p => p.1 < x.1) (l1 ++ x :: l2) = l2.
Proof.
  intros Hs. rewrite filter_app. pose proof Hs as Hs2.
  apply StronglySorted_app_1_r in Hs2. inversion_clear Hs2 as [|? ? _ Hx]. rewrite list.Forall_forall in Hx.
  assert (filter (fun p : Z * A => p.1 < x.1) l1 = []) as ->.
  { apply filter_none. intros p Hp Hlt.
    assert (flip key_lt p x) as Hpx by (eapply StronglySorted_app_1_elem_of; [exact Hs | done | left]).
    unfold flip, key_lt in Hpx. lia. }
  rewrite filter_cons_False by lia. cbn. apply filter_all. intros p Hp. by specialize (Hx p Hp).
Qed.

Definition id_below (b : option Z) (p : Z * MessageRow) : Prop :=
  match b with None => True | Some b => p.1 < b end.
#[local] Instance id_below_dec b p : Decision (id_below b p).
Proof. destruct b; cbn; apply _. Defined.

Lemma list_messages_eq c before limit db :
  has_nul c = false ->
  list_messages c before limit db =
  (db, Ok (map message_from_row (sql_limit limit
     (filter (id_below before) (history c (live db)))))).
Proof.
  intros Hc. unfold list_messages, bind_texts. cbn [existsb]. rewrite Hc. cbn [orb]. mrun. unfold gets.
  do 4 f_equal. unfold history. rewrite list_filter_filter. apply list_filter_iff.
  intros p. unfold in_page, id_below. destruct before; naive_solver.
Qed.

(** C27. Paging through a conversation is exact: the first page of size [n] is
    the [n] newest messages, and the page before the last id of a page is
    exactly what follows it, so that walking the pages shows every message
    once, newest first. *)
Theorem message_pages_exact c db n x :
  has_nul c = false ->
  let all := history c (live db) in
  list_messages c None (Z.of_nat n) db = (db, Ok (map message_from_row (take n all))) /\
  (last (take n all) = Some x ->
   forall m, list_messages c (Some x.1) (Z.of_nat m) db = (db, Ok (map message_from_row (take m (drop n all))))) /\
  StronglySorted (flip key_lt) all.
Proof.
  cbn zeta. intros Hc.
  assert (forall k (l : list (Z * MessageRow)), sql_limit (Z.of_nat k) l = take k l) as Hlim.
  { intros k l. unfold sql_limit. rewrite Nat2Z.id. by destruct (Z.ltb_spec (Z.of_nat k) 0); [lia|]. }
  split_and!.
  - rewrite list_messages_eq, Hlim, filter_all by done. done.
  - intros [l Hx]%last_Some m. rewrite list_messages_eq, Hlim by done.
    do 4 f_equal. transitivity (filter (fun p => p.1 < x.1) (history c (live db))); [by apply list_filter_iff|].
    rewrite <- (take_drop n (history c (live db))) at 1. rewrite Hx, <- app_assoc. cbn [app].
    apply filter_below. change (x :: drop n (history c (live db))) with ([x] ++ drop n (history c (live db))).
    rewrite app_assoc, <- Hx, take_drop. apply history_sorted.
  - apply history_sorted.
Qed.

Lemma uid_existsb (f : Z * MessageRow -> bool) t :
  existsb f (map_to_list (t_messages t)) = false <-> List.find f (rows_by_key (t_messages t)) = None.
Proof.
  rewrite <- not_true_iff_false, existsb_exists. split.
  - intros Hn. destruct (List.find _ _) as [p|] eqn:Hf; [|done]. apply List.find_some in Hf as [Hin Hp].
    exfalso. apply Hn. exists p. split; [|done]. rewrite <- list_elem_of_In in *.
    unfold rows_by_key in Hin. by rewrite merge_sort_Permutation in Hin.
  - intros Hf (p & Hin & Hp). assert (In p (rows_by_key (t_messages t))) as Hin'.
    { rewrite <- list_elem_of_In in *. unfold rows_by_key. by rewrite merge_sort_Permutation. }
    apply (List.find_none _ _ Hf p) in Hin'. congruence.
Qed.

Lemma find_snoc {A} (f : A -> bool) l x : List.find f l = None -> f x = true -> List.find f (l ++ [x]) = Some x.
Proof. induction l as [|y l IH]; cbn; [by intros _ -> | by destruct (f y)]. Qed.

Lemma load_uid_eq c uid db :
  has_nul c = false ->
  load_message_by_uid c uid db =
  (db, Ok (message_from_row <$> List.find (same_uid c uid) (rows_by_key (t_messages (live db))))).
Proof. intros Hc. unfold load_message_by_uid, bind_texts. cbn [existsb]. by rewrite Hc. Qed.

(** C26. Inserting a message: a sender-assigned id already stored in the
    conversation is refused, nothing changes; otherwise the message gets an id
    above every id ever used, is the newest of its conversation, is found again
    by its sender-assigned id, and other conversations are unchanged. *)
Theorem insert_message_once db r conv :
  ids_bounded (live db) -> has_nul (mr_conversation_id r) = false -> has_nul (mr_header r) = false ->
  t_messages_seq (live db) < i64_max ->
  t_conversations (live db) !! mr_conversation_id r = Some conv ->
  match load_message_by_uid (mr_conversation_id r) (mr_message_id r) db with
  | (_, Ok None) =>
      exists db', let id := t_messages_seq (live db) + 1 in
        insert_message r db = (db', Ok id) /\ ids_bounded (live db') /\
        (forall j x, t_messages (live db) !! j = Some x -> j < id) /\
        history (mr_conversation_id r) (live db') =
          (id, message_row r) :: history (mr_conversation_id r) (live db) /\
        (forall c, c <> mr_conversation_id r -> history c (live db') = history c (live db)) /\
        load_message_by_uid (mr_conversation_id r) (mr_message_id r) db' = (db', Ok (Some (with_id id r)))
  | _ => insert_message r db =
      (db, Err (constraint_failed "UNIQUE constraint failed: messages.conversation_id, messages.message_id"))
  end.
Proof.
  intros Hb Hc Hh Hseq Hconv. rewrite load_uid_eq by done.
  unfold insert_message, bind_texts. cbn [existsb]. rewrite Hc, Hh. cbn [orb]. mrun.
  rewrite (proj2 (Z.eqb_neq _ _)) by lia.
  destruct (List.find _ _) as [p|] eqn:Hf; cbn [fmap option_fmap option_map].
  { destruct (existsb _ _) eqn:He; [done|]. apply uid_existsb in He. congruence. }
  rewrite (proj2 (uid_existsb _ _) Hf), Hconv. mrun. eexists. cbn zeta. split; [done|].
  assert (forall j x, t_messages (live db) !! j = Some x -> j < t_messages_seq (live db) + 1) as Hlt.
  { intros j x Hj. apply Hb in Hj. lia. }
  assert (rows_by_key (<[t_messages_seq (live db) + 1 := message_row r]> (t_messages (live db))) =
          rows_by_key (t_messages (live db)) ++ [(t_messages_seq (live db) + 1, message_row r)]) as Hrows.
  { by apply rows_snoc. }
  destruct Hb as [H0 Hb]. split_and!.
  - split; cbn [live set_messages t_messages t_messages_seq]; [lia|].
    intros j x [[<- _]|[_ Hj]]%lookup_insert_Some; [lia | apply Hb in Hj; lia].
  - done.
  - unfold history. cbn [live set_messages t_messages]. rewrite Hrows, reverse_snoc.
    by rewrite filter_cons_True by by split.
  - intros c Hne. unfold history. cbn [live set_messages t_messages]. rewrite Hrows, reverse_snoc.
    rewrite filter_cons_False; [done|]. intros [Heq _]. by apply Hne.
  - rewrite load_uid_eq by done. cbn [live set_messages t_messages]. rewrite Hrows.
    rewrite find_snoc; [by rewrite <- message_row_inv | done |].
    unfold same_uid. cbn. by rewrite !bool_decide_true.
Qed.

(** ** Sessions *)

Section Sessions.
Context `{SK : Serde SessionKeys, SKO : !SerdeOk SessionKeys, SR : Serde RatchetSnapshot, SRO : !SerdeOk RatchetSnapshot}.

Lemma traverse_roundtrip `{Wf T, Serde T, !SerdeOk T} (o : option T) :
  all_some wf o -> exists b, traverse_option to_vec o = Ok b /\ traverse_option from_slice b = Ok o.
Proof.
  destruct o as [v|]; intros Ho; [|by exists None].
  destruct (serde_total v (Ho v eq_refl)) as [b Hb]. exists (Some b). cbn. rewrite Hb. cbn.
  by rewrite (serde_roundtrip v b (Ho v eq_refl) Hb).
Qed.

Lemma i64_bool_inv b : i64_bool (bool_i64 b) = b.
Proof. by destruct b. Qed.

Lemma save_session_eq c st db conv :
  wf st -> has_nul c = false -> t_conversations (live db) !! c = Some conv ->
  exists keys ratchet,
    from_slice keys = Ok (ss_session_keys st) /\ traverse_option from_slice ratchet = Ok (ss_ratchet st) /\
    save_session c st db =
      (set_live (set_sessions (<[c := {| sr_is_initiator := bool_i64 (ss_is_initiator st); sr_session_keys := keys;
                                         sr_ratchet_state := ratchet; sr_last_used := ss_last_used st |}]>
                                (t_sessions (live db))) (live db)) db, Ok tt).
Proof.
  intros [Hk Hr] Hc Hconv. destruct (serde_total _ Hk) as [keys Hkeys].
  destruct (traverse_roundtrip (ss_ratchet st) Hr) as (ratchet & Hrs & Hrl).
  exists keys, ratchet. split; [by apply serde_roundtrip|]. split; [done|].
  unfold save_session, bind_texts. rewrite Hkeys, Hrs. mrun. cbn [map_err existsb]. rewrite Hc. cbn [orb]. mrun.
  by rewrite Hconv.
Qed.

Lemma load_session_row c db row keys ratchet :
  has_nul c = false -> t_sessions (live db) !! c = Some row ->
  from_slice (sr_session_keys row) = Ok keys -> traverse_option from_slice (sr_ratchet_state row) = Ok ratchet ->
  load_session c db =
  (db, Ok (Some {| ss_is_initiator := i64_bool (sr_is_initiator row); ss_session_keys := keys;
                   ss_ratchet := ratchet; ss_last_used := sr_last_used row |})).
Proof.
  intros Hc Hrow Hk Hr. unfold load_session, bind_texts. cbn [existsb]. rewrite Hc. cbn [orb]. mrun.
  unfold gets. rewrite Hrow. cbn [traverse_option]. by rewrite Hk, Hr.
Qed.

Lemma save_session_tables c st db :
  t_messages (live (save_session c st db).1) = t_messages (live db) /\
  t_messages_seq (live (save_session c st db).1) = t_messages_seq (live db).
Proof.
  unfold save_session. mrun. destruct (map_err _ _); [|done..]. mrun. destruct (map_err _ _); [|done..]. mrun.
  unfold bind_texts. destruct (existsb _ _); [done|]. mrun. by destruct (_ !! _).
Qed.

Lemma save_load_session c st db conv :
  wf st -> has_nul c = false -> t_conversations (live db) !! c = Some conv ->
  exists db', save_session c st db = (db', Ok tt) /\ load_session c db' = (db', Ok (Some st)) /\
    t_conversations (live db') = t_conversations (live db) /\
    forall c', c' <> c -> (load_session c' db').2 = (load_session c' db).2.
Proof.
  intros Hst Hc Hconv. destruct (save_session_eq c st db conv Hst Hc Hconv) as (keys & ratchet & Hk & Hr & ->).
  eexists. split_and!; [done| |done|].
  - erewrite load_session_row; [|done|cbn; apply lookup_insert_eq|exact Hk|exact Hr].
    cbn. rewrite i64_bool_inv. by destruct st.
  - intros c' Hne. unfold load_session, bind_texts. cbn [existsb]. destruct (has_nul c'); [done|]. cbn [orb]. mrun.
    unfold gets. cbn [live set_live set_sessions t_sessions]. by rewrite lookup_insert_ne by done.
Qed.

(** Sessions persist: saving a session of a known conversation succeeds,
    loading it gives back the same session, and the sessions of all other
    conversations load as before.  Without the conversation row the save is
    refused by the foreign key and nothing changes. *)
Theorem session_persistence c st db :
  wf st -> has_nul c = false ->
  match t_conversations (live db) !! c with
  | Some _ => exists db', save_session c st db = (db', Ok tt) /\ load_session c db' = (db', Ok (Some st)) /\
      forall c', c' <> c -> (load_session c' db').2 = (load_session c' db).2
  | None => save_session c st db = (db, Err (constraint_failed "FOREIGN KEY constraint failed"))
  end.
Proof.
  intros Hst Hc. destruct (_ !! c) as [conv|] eqn:Hconv.
  - destruct (save_load_session c st db conv Hst Hc Hconv) as (db' & ? & ? & _ & ?). by exists db'.
  - destruct Hst as [Hk Hr]. destruct (serde_total _ Hk) as [keys Hkeys].
    destruct (traverse_roundtrip (ss_ratchet st) Hr) as (ratchet & Hrs & _).
    unfold save_session, bind_texts. rewrite Hkeys, Hrs. mrun. cbn [map_err existsb]. rewrite Hc. cbn [orb]. mrun.
    by rewrite Hconv.
Qed.
End Sessions.

(** ** Evaluation *)

#[export] Instance IdentityPublicKey_eq_dec : EqDecision IdentityPublicKey.
Proof. solve_decision. Defined.
#[export] Instance IdentityPublicKey_countable : Countable IdentityPublicKey :=
  inj_countable' (fun p => (ip_classical p, ip_pq p)) (fun p => {| ip_classical := p.1; ip_pq := p.2 |})
    ltac:(by intros []).

#[export] Instance SessionKeys_eq_dec : EqDecision SessionKeys.
Proof. solve_decision. Defined.
#[export] Instance SessionKeys_countable : Countable SessionKeys :=
  inj_countable'
    (fun k => (sk_is_initiator k, sk_root_key k, sk_sending_chain k, sk_receiving_chain k, sk_peer_identity k, sk_message_count k))
    (fun '(i, r, s, v, p, m) => {| sk_is_initiator := i; sk_root_key := r; sk_sending_chain := s;
                                   sk_receiving_chain := v; sk_peer_identity := p; sk_message_count := m |})
    ltac:(by intros []).

#[export] Instance ChainSnapshot_eq_dec : EqDecision ChainSnapshot.
Proof. solve_decision. Defined.
#[export] Instance ChainSnapshot_countable : Countable ChainSnapshot :=
  inj_countable'
    (fun c => (cs_our_ratchet_key c, cs_their_ratchet_public c, cs_chain_key c, cs_chain_index c, cs_skipped_message_keys c))
    (fun '(o, t, k, i, l) => {| cs_our_ratchet_key := o; cs_their_ratchet_public := t; cs_chain_key := k;
                                cs_chain_index := i; cs_skipped_message_keys := l |})
    ltac:(by intros []).

#[export] Instance RatchetSnapshot_eq_dec : EqDecision RatchetSnapshot.
Proof. solve_decision. Defined.
#[export] Instance RatchetSnapshot_countable : Countable RatchetSnapshot :=
  inj_countable' (fun s => (rs_root_key s, rs_sending_chain s, rs_receiving_chain s))
    (fun '(r, s, v) => {| rs_root_key := r; rs_sending_chain := s; rs_receiving_chain := v |})
    ltac:(by intros []).

#[export] Instance all_some_dec {A} (P : A -> Prop) `{!forall a, Decision (P a)} o : Decision (all_some P o).
Proof.
  destruct o as [a|]; [|by left]. destruct (decide (P a)) as [Ha|Ha]; [left|right]; [by intros ? [= <-]|].
  intros Hall. by apply Ha, Hall.
Defined.
#[export] Instance IdentityPublicKey_wf_dec : forall p : IdentityPublicKey, Decision (wf p).
Proof. wf_decide. Defined.
#[export] Instance SessionKeys_wf_dec : forall k : SessionKeys, Decision (wf k).
Proof. wf_decide. Defined.
#[export] Instance ChainSnapshot_wf_dec : forall s : ChainSnapshot, Decision (wf s).
Proof. wf_decide. Defined.
#[export] Instance RatchetSnapshot_wf_dec : forall s : RatchetSnapshot, Decision (wf s).
Proof. wf_decide. Defined.

Definition concrete_session_keys : Serde SessionKeys := countable_serde SessionKeys.
#[export] Instance concrete_session_keys_ok : @SerdeOk SessionKeys _ concrete_session_keys :=
  countable_serde_ok SessionKeys.
Definition concrete_snapshot : Serde RatchetSnapshot := countable_serde RatchetSnapshot.
#[export] Instance concrete_snapshot_ok : @SerdeOk RatchetSnapshot _ concrete_snapshot :=
  countable_serde_ok RatchetSnapshot.

Definition sample_prekey (id : Z) (kind : PreKeyKind) : PreKeyRecord :=
  {| pk_key_id := id; pk_kind := kind; pk_classical := []; pk_pq := []; pk_public_classical := [];
     pk_public_pq := []; pk_signature := []; pk_created_at := 0 |}.

Definition run {A} (m : M Db StorageError A) (db : Db) : Db := (m db).1.

(** Prekeys 5, 3 (one-time) and 4 (signed), and one conversation. *)
Definition sample_db : Db :=
  run (upsert_conversation {| cv_id := "conv"; cv_peer_classical := []; cv_peer_pq := [];
                              cv_is_group := false; cv_created_at := 1 |})
    (run (save_prekey (sample_prekey 4 Signed))
      (run (save_prekey (sample_prekey 3 OneTime)) (run (save_prekey (sample_prekey 5 OneTime)) empty_db))).

Definition sample_record (uid : bytes) : MessageRecord :=
  {| mr_id := 0; mr_conversation_id := "conv"; mr_message_id := uid; mr_sender_classical := [];
     mr_ciphertext := uid; mr_header := "h"; mr_content_type := 0; mr_direction := Incoming;
     mr_status := Delivered; mr_created_at := 1 |}.

Lemma one_time_prekeys_consumed_once_witness :
  exists db', take_prekeys 3 sample_db =
      (db', Ok [Some (sample_prekey 3 OneTime); Some (sample_prekey 5 OneTime); None]) /\ saved db' = None.
Proof.
  destruct (one_time_prekeys_consumed_once sample_db 3 eq_refl) as (db' & Ht & Hs & _).
  exists db'. split; [|exact Hs]. rewrite Ht. f_equal.
Defined.

Lemma failed_commit_leaves_transaction_open_witness :
  exists db', take_one_time_prekey (Some {| sql_code := 5; sql_message := "database is locked" |}) sample_db
      = (db', Err (Database {| sql_code := 5; sql_message := "database is locked" |})) /\
    saved db' = Some (live sample_db) /\
    take_one_time_prekey None db' =
      (db', Err (Database {| sql_code := 1; sql_message := "cannot start a transaction within a transaction" |})).
Proof. apply failed_commit_leaves_transaction_open. reflexivity. Defined.

(** Three messages in the sample conversation. *)
Definition sample_log : Db :=
  run (insert_message (sample_record (bs "c"))) (run (insert_message (sample_record (bs "b")))
    (run (insert_message (sample_record (bs "a"))) sample_db)).

Lemma message_pages_exact_witness :
  (list_messages "conv" None 2 sample_log).2 =
    Ok [with_id 3 (sample_record (bs "c")); with_id 2 (sample_record (bs "b"))] /\
  (list_messages "conv" (Some 2) 2 sample_log).2 = Ok [with_id 1 (sample_record (bs "a"))].
Proof.
  destruct (message_pages_exact "conv" sample_log 2 (2, message_row (sample_record (bs "b"))) eq_refl) as (H1 & H2 & _).
  split.
  - change 2 with (Z.of_nat 2). rewrite H1. vm_compute. reflexivity.
  - pose proof (H2 ltac:(vm_compute; reflexivity) 2%nat) as H3. cbn [fst] in H3.
    change (Z.of_nat 2) with 2 in H3. rewrite H3. vm_compute. reflexivity.
Defined.

Lemma insert_message_once_witness :
  insert_message (sample_record (bs "a")) sample_log =
    (sample_log, Err (constraint_failed "UNIQUE constraint failed: messages.conversation_id, messages.message_id")) /\
  exists db', insert_message (sample_record (bs "d")) sample_log = (db', Ok 4).
Proof.
  assert (ids_bounded (live sample_log)) as Hb.
  { split; [done|]. apply map_Forall_lookup. by_decide. }
  split.
  - exact (insert_message_once sample_log (sample_record (bs "a")) _ Hb eq_refl eq_refl eq_refl eq_refl).
  - destruct (insert_message_once sample_log (sample_record (bs "d")) _ Hb eq_refl eq_refl eq_refl eq_refl)
      as (db' & H & _). by exists db'.
Defined.

Definition sample_state : SessionState :=
  {| ss_is_initiator := true;
     ss_session_keys := {| sk_is_initiator := true; sk_root_key := pad32 []; sk_sending_chain := pad32 [];
                           sk_receiving_chain := pad32 [];
                           sk_peer_identity := {| ip_classical := pad32 []; ip_pq := expand 2592 [] |};
                           sk_message_count := 3 |};
     ss_ratchet := None; ss_last_used := 7 |}.

#[local] Existing Instances concrete_session_keys concrete_snapshot.

Lemma session_persistence_witness :
  exists db', save_session "conv" sample_state sample_db = (db', Ok tt) /\
    load_session "conv" db' = (db', Ok (Some sample_state)).
Proof.
  destruct (session_persistence "conv" sample_state sample_db) as (db' & ? & ? & _).
  - split; [|done]. by split_and!; [| | |split; [|apply length_expand]|].
  - reflexivity.
  - by exists db'.
Defined.
