(* ===== verification/SqlText.v ===== *)
(** The SQL the crate writes: the texts of [presidium-storage/src/store.rs] and
    of [migrations/0001_init.sql] as syntax trees.

    The reader covers the statements those texts use: INSERT with OR REPLACE
    and ON CONFLICT, SELECT of columns or of the row count with WHERE, ORDER BY
    and LIMIT, UPDATE, DELETE, CREATE TABLE and CREATE INDEX.  It
    answers [None] to everything else, so that what SqlSem says of the texts it
    reads is a part of what SQLite documents, and nothing is said of other
    texts. *)

From Stdlib Require Import Ascii.
From S2P Require Import Prelude.

(** ** Syntax *)

(** [Excluded c] is column [c] of the row that could not be inserted. *)
Inductive sql_expr :=
| Col (c : string)
| Excluded (c : string)
| Arg (n : Z)
| Num (n : Z)
| IsNull (e : sql_expr)
| Eq (a b : sql_expr)
| Less (a b : sql_expr)
| And (a b : sql_expr)
| Or (a b : sql_expr).

Inductive affinity := AInteger | AText | ABlob.

Record column := {
  col_name : string; col_affinity : affinity; col_not_null : bool; col_primary : bool; col_unique : bool;
  col_autoincrement : bool; col_default : option Z; col_check : option sql_expr; col_references : option (string * string)
}.

Inductive items := Columns (cs : list string) | CountAll.

Record insertion := {
  in_table : string; in_replace : bool; in_columns : list string; in_values : list sql_expr;
  in_conflict : option (list string * list (string * sql_expr))
}.

Record selection := {
  se_items : items; se_table : string; se_where : option sql_expr; se_order : option (string * bool); se_limit : option sql_expr
}.

Inductive statement :=
| Insert (i : insertion)
| Select (q : selection)
| Update (table : string) (sets : list (string * sql_expr)) (cond : option sql_expr)
| Delete (table : string) (cond : option sql_expr)
| CreateTable (table : string) (columns : list column) (keys : list (list string))
| CreateIndex (unique : bool) (table : string) (columns : list string).

(** ** Tokens *)

Inductive token := TWord (w : string) | TNum (n : Z) | TArg (n : Z) | TSym (c : Ascii.ascii).

#[export] Instance token_eq_dec : EqDecision token.
Proof. solve_decision. Defined.

Definition ascii_in (lo hi : N) (c : Ascii.ascii) : bool := ((lo <=? Ascii.N_of_ascii c) && (Ascii.N_of_ascii c <=? hi))%N.
Definition is_digit : Ascii.ascii -> bool := ascii_in 48 57.
Definition is_letter (c : Ascii.ascii) : bool := ascii_in 65 90 c || ascii_in 97 122 c || ascii_in 95 95 c.
Definition is_blank (c : Ascii.ascii) : bool := ascii_in 32 32 c || ascii_in 10 10 c.
Definition digit_value (c : Ascii.ascii) : Z := Z.of_N (Ascii.N_of_ascii c) - 48.

(** What has been read of the current token. *)
Inductive scan := SIdle | SWord (w : string) | SNum (n : Z) | SArg (n : Z) | SDash | SComment.

Definition flush (st : scan) : list token :=
  match st with
  | SIdle | SComment => []
  | SWord w => [TWord w]
  | SNum n => [TNum n]
  | SArg n => [TArg n]
  | SDash => [TSym "-"%char]
  end.

(** The token goes on with [c]; a comment runs from two dashes to the end of
    the line. *)
Definition extend (st : scan) (c : Ascii.ascii) : option scan :=
  match st with
  | SIdle => None
  | SWord w => if is_letter c || is_digit c then Some (SWord (w +:+ String c "")) else None
  | SNum n => if is_digit c then Some (SNum (10 * n + digit_value c)) else None
  | SArg n => if is_digit c then Some (SArg (10 * n + digit_value c)) else None
  | SDash => if decide (c = "-"%char) then Some SComment else None
  | SComment => Some (if ascii_in 10 10 c then SIdle else SComment)
  end.

Definition start (c : Ascii.ascii) : list token * scan :=
  if is_letter c then ([], SWord (String c ""))
  else if is_digit c then ([], SNum (digit_value c))
  else if is_blank c then ([], SIdle)
  else if decide (c = "?"%char) then ([], SArg 0)
  else if decide (c = "-"%char) then ([], SDash)
  else ([TSym c], SIdle).

Fixpoint lex (st : scan) (s : string) : list token :=
  match s with
  | EmptyString => flush st
  | String c s =>
      match extend st c with
      | Some st' => lex st' s
      | None => flush st ++ (start c).1 ++ lex (start c).2 s
      end
  end.

(** ** Parsers *)

Abbreviation Parser := (M (list token) unit).

Definition next : Parser token := fun l => match l with [] => ([], Err tt) | t :: l => (l, Ok t) end.
Definition expect (t : token) : Parser unit := t' ← next; if decide (t' = t) then mret tt else fail tt.
Definition word (w : string) : Parser unit := expect (TWord w).
Definition sym (c : Ascii.ascii) : Parser unit := expect (TSym c).
#[global] Arguments sym c%_char.
Definition ident : Parser string := t ← next; match t with TWord w => mret w | _ => fail tt end.
Definition number : Parser Z := t ← next; match t with TNum n => mret n | _ => fail tt end.

Definition at_end : Parser bool := gets (fun l => match l with [] => true | _ => false end).

(** Both alternatives start at the same token. *)
Definition either {A} (p q : Parser A) : Parser A := fun l => match p l with (l', Ok a) => (l', Ok a) | _ => q l end.
Definition optional {A} (p : Parser A) : Parser (option A) := either (a ← p; mret (Some a)) (mret None).
Definition flag (p : Parser unit) : Parser bool := o ← optional p; mret (match o with Some _ => true | None => false end).

(** Every turn of a list reads a token: the number of tokens is fuel enough. *)
Fixpoint comma_list_fuel {A} (fuel : nat) (p : Parser A) : Parser (list A) :=
  match fuel with
  | O => fail tt
  | S fuel => a ← p; more ← flag (sym ","); if (more : bool) then r ← comma_list_fuel fuel p; mret (a :: r) else mret [a]
  end.
Definition comma_list {A} (p : Parser A) : Parser (list A) := fun l => comma_list_fuel (length l) p l.
Definition in_parens {A} (p : Parser A) : Parser A := sym "(";; a ← p; sym ")";; mret a.

(** Loosest first: OR, AND, comparisons, atoms; a parenthesis starts again at
    the top.  The fuel is four levels for every token. *)
Inductive level := LOr | LAnd | LCompare | LAtom.

Fixpoint expression_fuel (fuel : nat) (lv : level) : Parser sql_expr :=
  match fuel with
  | O => fail tt
  | S fuel =>
      match lv with
      | LOr => a ← expression_fuel fuel LAnd; more ← flag (word "OR"); if (more : bool) then b ← expression_fuel fuel LOr; mret (Or a b) else mret a
      | LAnd => a ← expression_fuel fuel LCompare; more ← flag (word "AND"); if (more : bool) then b ← expression_fuel fuel LAnd; mret (And a b) else mret a
      | LCompare =>
          a ← expression_fuel fuel LAtom;
          either (word "IS";; word "NULL";; mret (IsNull a))
            (either (sym "=";; b ← expression_fuel fuel LAtom; mret (Eq a b))
               (either (sym "<";; b ← expression_fuel fuel LAtom; mret (Less a b)) (mret a)))
      | LAtom =>
          t ← next;
          match t with
          | TArg n => mret (Arg n)
          | TNum n => mret (Num n)
          | TSym "("%char => e ← expression_fuel fuel LOr; sym ")";; mret e
          | TWord w => dot ← flag (sym "."); if (dot : bool) then (if decide (w = "excluded") then c ← ident; mret (Excluded c) else fail tt) else mret (Col w)
          | _ => fail tt
          end
      end
  end.
Definition expression : Parser sql_expr := fun l => expression_fuel (4 * S (length l)) LOr l.

Definition assignment : Parser (string * sql_expr) := c ← ident; sym "=";; e ← expression; mret (c, e).
Definition where_clause : Parser (option sql_expr) := optional (word "WHERE";; expression).

Definition insert_statement : Parser statement :=
  word "INSERT";; replace ← flag (word "OR";; word "REPLACE"); word "INTO";;
  table ← ident; columns ← in_parens (comma_list ident);
  word "VALUES";; values ← in_parens (comma_list expression);
  conflict ← optional (word "ON";; word "CONFLICT";; target ← in_parens (comma_list ident);
                       word "DO";; word "UPDATE";; word "SET";; sets ← comma_list assignment; mret (target, sets));
  mret (Insert {| in_table := table; in_replace := replace; in_columns := columns; in_values := values; in_conflict := conflict |}).

Definition select_statement : Parser statement :=
  word "SELECT";;
  its ← either (word "count";; in_parens (sym "*");; mret CountAll) (cs ← comma_list ident; mret (Columns cs));
  word "FROM";; table ← ident; cond ← where_clause;
  order ← optional (word "ORDER";; word "BY";; c ← ident; desc ← flag (word "DESC"); mret (c, desc));
  limit ← optional (word "LIMIT";; expression);
  mret (Select {| se_items := its; se_table := table; se_where := cond; se_order := order; se_limit := limit |}).

Definition update_statement : Parser statement :=
  word "UPDATE";; table ← ident; word "SET";; sets ← comma_list assignment; cond ← where_clause; mret (Update table sets cond).
Definition delete_statement : Parser statement := word "DELETE";; word "FROM";; table ← ident; cond ← where_clause; mret (Delete table cond).

(** *** Definitions of tables *)

Definition affinity_of (w : string) : Parser affinity :=
  if decide (w = "INTEGER") then mret AInteger else if decide (w = "TEXT") then mret AText
  else if decide (w = "BLOB") then mret ABlob else fail tt.

Inductive column_constraint :=
| CPrimary (autoincrement : bool) | CNotNull | CUnique | CDefault (n : Z) | CCheck (e : sql_expr) | CReferences (t c : string).

Definition constraint_clause : Parser column_constraint :=
  w ← ident;
  if decide (w = "PRIMARY") then word "KEY";; a ← flag (word "AUTOINCREMENT"); mret (CPrimary a)
  else if decide (w = "NOT") then word "NULL";; mret CNotNull
  else if decide (w = "UNIQUE") then mret CUnique
  else if decide (w = "DEFAULT") then n ← number; mret (CDefault n)
  else if decide (w = "CHECK") then e ← in_parens expression; mret (CCheck e)
  else if decide (w = "REFERENCES") then
    t ← ident; c ← in_parens ident; optional (word "ON";; word "DELETE";; word "CASCADE");; mret (CReferences t c)
  else fail tt.

Definition with_constraint (col : column) (k : column_constraint) : column :=
  {| col_name := col_name col; col_affinity := col_affinity col;
     col_not_null := match k with CNotNull => true | _ => col_not_null col end;
     col_primary := match k with CPrimary _ => true | _ => col_primary col end;
     col_unique := match k with CUnique => true | _ => col_unique col end;
     col_autoincrement := match k with CPrimary a => a | _ => col_autoincrement col end;
     col_default := match k with CDefault n => Some n | _ => col_default col end;
     col_check := match k with CCheck e => Some e | _ => col_check col end;
     col_references := match k with CReferences t c => Some (t, c) | _ => col_references col end |}.

Fixpoint constraints_fuel (fuel : nat) (col : column) : Parser column :=
  match fuel with
  | O => mret col
  | S fuel => k ← optional constraint_clause; match k with Some k => constraints_fuel fuel (with_constraint col k) | None => mret col end
  end.

Definition column_constraints (name : string) (a : affinity) : Parser column := fun l =>
  constraints_fuel (length l)
    {| col_name := name; col_affinity := a; col_not_null := false; col_primary := false; col_unique := false;
       col_autoincrement := false; col_default := None; col_check := None; col_references := None |} l.

(** A column, or a primary key of several columns. *)
Definition table_item : Parser (column + list string) :=
  either (word "PRIMARY";; word "KEY";; cs ← in_parens (comma_list ident); mret (inr cs))
    (name ← ident; ty ← ident; a ← affinity_of ty;
     col ← column_constraints name a;
     mret (inl col)).

Definition columns_of (l : list (column + list string)) : list column := omap (fun x => match x with inl c => Some c | inr _ => None end) l.
Definition keys_of (l : list (column + list string)) : list (list string) :=
  omap (fun x => match x with
                 | inl c => if col_primary c || col_unique c then Some [col_name c] else None
                 | inr k => Some k
                 end) l.

Definition create_table_statement : Parser statement :=
  word "CREATE";; word "TABLE";; name ← ident; l ← in_parens (comma_list table_item); mret (CreateTable name (columns_of l) (keys_of l)).
Definition create_index_statement : Parser statement :=
  word "CREATE";; unique ← flag (word "UNIQUE"); word "INDEX";; ident;; word "ON";; table ← ident; cs ← in_parens (comma_list ident);
  mret (CreateIndex unique table cs).

Definition any_statement : Parser statement :=
  either insert_statement (either select_statement (either update_statement (either delete_statement
    (either create_table_statement create_index_statement)))).

(** ** Texts *)

(** One statement, and nothing after it. *)
Definition parse_statement (sql : string) : option statement :=
  match any_statement (lex SIdle sql) with
  | ([], Ok st) => Some st
  | _ => None
  end.

(** Statements with a semicolon between them, or after each. *)
Fixpoint script_fuel (fuel : nat) : Parser (list statement) :=
  match fuel with
  | O => fail tt
  | S fuel =>
      st ← any_statement; more ← flag (sym ";"); done ← at_end;
      if (more : bool) && negb done then r ← script_fuel fuel; mret (st :: r) else mret [st]
  end.
Definition parse_script (sql : string) : option (list statement) :=
  let tokens := lex SIdle sql in
  match script_fuel (length tokens) tokens with
  | ([], Ok l) => Some l
  | _ => None
  end.
