(* ===== verification/SqlSem.v ===== *)
(** The meaning of the SQL of SqlText, as SQLite documents it: tables with
    typed columns and uniqueness constraints, expressions with the three truth
    values, INSERT (with OR REPLACE and ON CONFLICT), UPDATE, DELETE, SELECT,
    and the definitions of tables and indexes.

    A table is the list of its rows; their order means nothing.  What is
    outside the covered part (a conversion between storage classes, a deletion
    that could cascade, ...) is [Unsupported] or [None], so that assuming an
    engine to follow this meaning assumes nothing there. *)

From stdpp Require Import sorting.
From S2P Require Import Prelude SqlText Sqleet Store.

#[export] Instance Param_eq_dec : EqDecision Param.
Proof. solve_decision. Defined.

Abbreviation tuple := (list Param).

Record sql_table := { tb_columns : list column; tb_keys : list (list string); tb_rows : list tuple; tb_seq : Z }.
Abbreviation relations := (gmap string sql_table).

Definition set_rows (rows : list tuple) (seq : Z) (tb : sql_table) : sql_table :=
  {| tb_columns := tb_columns tb; tb_keys := tb_keys tb; tb_rows := rows; tb_seq := seq |}.

Fixpoint col_index (c : string) (cols : list column) : option nat :=
  match cols with
  | [] => None
  | col :: cols => if decide (col_name col = c) then Some O else S <$> col_index c cols
  end.
Definition field (cols : list column) (row : tuple) (c : string) : option Param := i ← col_index c cols; row !! i.

(** ** Expressions *)

(** A truth value is unknown when it depends on NULL. *)
Definition of_truth (t : option bool) : Param := match t with None => Null | Some b => I64 (if b then 1 else 0) end.
Definition truth (v : Param) : option (option bool) :=
  match v with Null => Some None | I64 n => Some (Some (negb (n =? 0))) | _ => None end.
Definition and3 (a b : option bool) : option bool :=
  match a, b with Some false, _ | _, Some false => Some false | Some true, Some true => Some true | _, _ => None end.
Definition or3 (a b : option bool) : option bool :=
  match a, b with Some true, _ | _, Some true => Some true | Some false, Some false => Some false | _, _ => None end.

(** Comparisons inside one storage class; texts compare by their bytes. *)
Definition equal_values (a b : Param) : option (option bool) :=
  match a, b with
  | Null, _ | _, Null => Some None
  | I64 _, I64 _ | Text _, Text _ | Blob _, Blob _ => Some (Some (bool_decide (a = b)))
  | _, _ => None
  end.
Definition less_values (a b : Param) : option (option bool) :=
  match a, b with
  | Null, _ | _, Null => Some None
  | I64 x, I64 y => Some (Some (x <? y))
  | _, _ => None
  end.

(** [env] and [excluded] give the columns; a parameter that is not bound is
    NULL. *)
Fixpoint eval (env excluded : string -> option Param) (ps : gmap Z Param) (e : sql_expr) : option Param :=
  match e with
  | Col c => env c
  | Excluded c => excluded c
  | Arg n => Some (default Null (ps !! n))
  | Num n => Some (I64 n)
  | IsNull e => v ← eval env excluded ps e; Some (of_truth (Some (bool_decide (v = Null))))
  | Eq a b => x ← eval env excluded ps a; y ← eval env excluded ps b; t ← equal_values x y; Some (of_truth t)
  | Less a b => x ← eval env excluded ps a; y ← eval env excluded ps b; t ← less_values x y; Some (of_truth t)
  | And a b => x ← eval env excluded ps a; y ← eval env excluded ps b; t ← truth x; u ← truth y; Some (of_truth (and3 t u))
  | Or a b => x ← eval env excluded ps a; y ← eval env excluded ps b; t ← truth x; u ← truth y; Some (of_truth (or3 t u))
  end.

Definition no_columns (c : string) : option Param := None.

(** A row is meant when the condition is true, not when it is unknown. *)
Definition holds (cols : list column) (ps : gmap Z Param) (cond : option sql_expr) (row : tuple) : option bool :=
  match cond with
  | None => Some true
  | Some e => v ← eval (field cols row) no_columns ps e; t ← truth v; Some (default false t)
  end.

Fixpoint keep (P : tuple -> option bool) (rows : list tuple) : option (list tuple) :=
  match rows with
  | [] => Some []
  | row :: rows => b ← P row; l ← keep P rows; Some (if (b : bool) then row :: l else l)
  end.

(** ** Constraints *)

(** Values that a column stores without converting them. *)
Definition fits_affinity (a : affinity) (v : Param) : bool :=
  match a, v with
  | ABlob, _ | _, Null | AInteger, I64 _ | AText, Text _ => true
  | _, _ => false
  end.

(** A CHECK fails only when it is false. *)
Definition column_accepts (cols : list column) (row : tuple) (col : column) (v : Param) : option bool :=
  c ← match col_check col with
      | None => Some true
      | Some e => x ← eval (field cols row) no_columns ∅ e; t ← truth x; Some (default true t)
      end;
  Some (c && negb (col_not_null col && bool_decide (v = Null))).

Definition has_key_value (db : relations) (ref : string * string) (v : Param) : option bool :=
  tb ← db !! ref.1;
  Some (bool_decide (v = Null) || existsb (fun row => bool_decide (field (tb_columns tb) row ref.2 = Some v)) (tb_rows tb)).

(** Foreign keys are looked at for the columns that were [assigned]. *)
Definition reference_ok (has : string * string -> Param -> option bool) (assigned : list string) (col : column) (v : Param) : option bool :=
  match col_references col with
  | Some ref => if bool_decide (col_name col ∈ assigned) then has ref v else Some true
  | None => Some true
  end.

Fixpoint all_true (l : list (option bool)) : option bool :=
  match l with
  | [] => Some true
  | o :: l => b ← o; c ← all_true l; Some ((b : bool) && c)
  end.

Definition acceptable (has : string * string -> Param -> option bool) (cols : list column) (assigned : list string) (row : tuple) : option bool :=
  all_true (zip_with (fun col v => a ← column_accepts cols row col v; r ← reference_ok has assigned col v; Some ((a : bool) && r)) cols row).

(** Two rows agree on a key; NULL agrees with nothing. *)
Definition conflicts (cols : list column) (row : tuple) (key : list string) (other : tuple) : bool :=
  forallb (fun c => match field cols row c, field cols other c with
                    | Some a, Some b => bool_decide (a = b) && negb (bool_decide (a = Null))
                    | _, _ => false
                    end) key.
Definition conflicts_any (tb : sql_table) (row other : tuple) : bool :=
  existsb (fun key => conflicts (tb_columns tb) row key other) (tb_keys tb).

Definition referenced (db : relations) (name : string) : bool :=
  existsb (fun p => existsb (fun col => match col_references col with Some (t, _) => bool_decide (t = name) | None => false end) p.2)
    (map_to_list (tb_columns <$> db)).

(** ** Statements that write *)

Inductive outcome := Unsupported | Refused | Wrote (db : relations) (id : option Z).

(** An INTEGER PRIMARY KEY is the row id. *)
Definition is_rowid (col : column) : bool :=
  col_primary col && match col_affinity col with AInteger => true | _ => false end.
Definition rowid_of (cols : list column) (row : tuple) : option Z :=
  match List.find (fun p => is_rowid p.1) (zip cols row) with Some (_, I64 n) => Some n | _ => None end.

(** AUTOINCREMENT gives ids above every id that was ever used, and none after
    the largest. *)
Definition number_row (tb : sql_table) (row : tuple) : option (option tuple) :=
  match List.find is_rowid (tb_columns tb) with
  | None => Some (Some row)
  | Some col =>
      i ← col_index (col_name col) (tb_columns tb);
      match row !! i with
      | Some (I64 _) => if col_autoincrement col then None else Some (Some row)
      | Some Null =>
          if negb (col_autoincrement col) then None
          else Some (if tb_seq tb =? i64_max then None else Some (<[i := I64 (tb_seq tb + 1)]> row))
      | _ => None
      end
  end.

Definition next_seq (tb : sql_table) (row : tuple) : Z :=
  if existsb col_autoincrement (tb_columns tb) then default (tb_seq tb) (rowid_of (tb_columns tb) row) else tb_seq tb.

(** The columns that are not named get their default. *)
Fixpoint value_for (c : string) (names : list string) (values : list Param) : option Param :=
  match names, values with
  | n :: names, v :: values => if decide (n = c) then Some v else value_for c names values
  | _, _ => None
  end.
Definition new_row (cols : list column) (names : list string) (values : list Param) : option tuple :=
  if negb (Nat.eqb (length names) (length values)) || existsb (fun n => bool_decide (col_index n cols = None)) names then None
  else
    let row := map (fun col => default (from_option I64 Null (col_default col)) (value_for (col_name col) names values)) cols in
    if forallb (fun p => fits_affinity (col_affinity p.1) p.2) (zip cols row) then Some row else None.

(** All right-hand sides see the row as it was. *)
Fixpoint assign (cols : list column) (env excluded : string -> option Param) (ps : gmap Z Param)
    (sets : list (string * sql_expr)) (row : tuple) : option tuple :=
  match sets with
  | [] => Some row
  | (c, e) :: sets =>
      i ← col_index c cols; col ← cols !! i; v ← eval env excluded ps e;
      if fits_affinity (col_affinity col) v then assign cols env excluded ps sets (<[i := v]> row) else None
  end.

Definition add_row (db : relations) (name : string) (tb : sql_table) (rest : list tuple) (row : tuple) : outcome :=
  match acceptable (has_key_value db) (tb_columns tb) (map col_name (tb_columns tb)) row with
  | None => Unsupported
  | Some ok =>
      if existsb (conflicts_any tb row) rest || negb ok then Refused
      else Wrote (<[name := set_rows (rest ++ [row]) (next_seq tb row) tb]> db) (rowid_of (tb_columns tb) row)
  end.

(** DO UPDATE: the rows for which [hit] holds (one, as the target is unique)
    are replaced by [row]. *)
Definition update_hit (db : relations) (name : string) (tb : sql_table) (hit : tuple -> bool) (assigned : list string) (row : tuple) : outcome :=
  match acceptable (has_key_value db) (tb_columns tb) assigned row with
  | None => Unsupported
  | Some ok =>
      if existsb (conflicts_any tb row) (filter (fun r => hit r = false) (tb_rows tb)) || negb ok then Refused
      else Wrote (<[name := set_rows (map (fun r => if hit r then row else r) (tb_rows tb)) (tb_seq tb) tb]> db) None
  end.

Definition insert_row (db : relations) (name : string) (tb : sql_table) (i : insertion) (ps : gmap Z Param) (row : tuple) : outcome :=
  match in_conflict i, in_replace i with
  | None, false => add_row db name tb (tb_rows tb) row
  | None, true =>
      if referenced db name then Unsupported
      else add_row db name tb (filter (fun r => conflicts_any tb row r = false) (tb_rows tb)) row
  | Some (target, sets), false =>
      if negb (bool_decide (target ∈ tb_keys tb)) || existsb col_autoincrement (tb_columns tb) then Unsupported
      else match List.find (conflicts (tb_columns tb) row target) (tb_rows tb) with
           | None => add_row db name tb (tb_rows tb) row
           | Some old =>
               match assign (tb_columns tb) (field (tb_columns tb) old) (field (tb_columns tb) row) ps sets old with
               | None => Unsupported
               | Some row' => update_hit db name tb (conflicts (tb_columns tb) row target) (map fst sets) row'
               end
           end
  | Some _, true => Unsupported
  end.

Definition exec_insert (i : insertion) (ps : gmap Z Param) (db : relations) : outcome :=
  match (tb ← db !! in_table i; values ← mapM (eval no_columns no_columns ps) (in_values i);
         row ← new_row (tb_columns tb) (in_columns i) values; numbered ← number_row tb row; Some (tb, numbered)) with
  | None => Unsupported
  | Some (_, None) => Refused
  | Some (tb, Some row) => insert_row db (in_table i) tb i ps row
  end.

(** Columns of keys are not updated here: uniqueness and foreign keys of other
    tables cannot be hurt. *)
Definition in_keys (tb : sql_table) (c : string) : bool := existsb (fun key => bool_decide (c ∈ key)) (tb_keys tb).

Definition update_row (db : relations) (cols : list column) (ps : gmap Z Param) (sets : list (string * sql_expr)) (cond : option sql_expr)
    (row : tuple) : option (tuple * bool) :=
  b ← holds cols ps cond row;
  if (b : bool) then
    row' ← assign cols (field cols row) no_columns ps sets row;
    ok ← acceptable (has_key_value db) cols (map fst sets) row';
    Some (row', ok)
  else Some (row, true).

Definition exec_update (name : string) (sets : list (string * sql_expr)) (cond : option sql_expr) (ps : gmap Z Param) (db : relations) : outcome :=
  match (tb ← db !! name;
         if existsb (fun s => in_keys tb s.1) sets then None
         else rows ← mapM (update_row db (tb_columns tb) ps sets cond) (tb_rows tb); Some (tb, rows)) with
  | None => Unsupported
  | Some (tb, rows) => if forallb snd rows then Wrote (<[name := set_rows (map fst rows) (tb_seq tb) tb]> db) None else Refused
  end.

Definition exec_delete (name : string) (cond : option sql_expr) (ps : gmap Z Param) (db : relations) : outcome :=
  match (tb ← db !! name;
         if referenced db name then None
         else rows ← keep (fun row => negb <$> holds (tb_columns tb) ps cond row) (tb_rows tb); Some (tb, rows)) with
  | None => Unsupported
  | Some (tb, rows) => Wrote (<[name := set_rows rows (tb_seq tb) tb]> db) None
  end.

Definition exec_create_index (unique : bool) (name : string) (cs : list string) (db : relations) : outcome :=
  match db !! name with
  | None => Refused
  | Some tb =>
      if negb unique then Wrote db None
      else match tb_rows tb with
           | [] => Wrote (<[name := {| tb_columns := tb_columns tb; tb_keys := tb_keys tb ++ [cs]; tb_rows := []; tb_seq := tb_seq tb |}]> db) None
           | _ => Unsupported
           end
  end.

Definition exec_write (st : statement) (ps : gmap Z Param) (db : relations) : outcome :=
  match st with
  | Insert i => exec_insert i ps db
  | Update name sets cond => exec_update name sets cond ps db
  | Delete name cond => exec_delete name cond ps db
  | CreateTable name cols keys =>
      match db !! name with
      | Some _ => Refused
      | None => Wrote (<[name := {| tb_columns := cols; tb_keys := keys; tb_rows := []; tb_seq := 0 |}]> db) None
      end
  | CreateIndex unique name cs => exec_create_index unique name cs db
  | Select _ => Unsupported
  end.

(** A script, statement by statement, without parameters. *)
Fixpoint exec_script (l : list statement) (db : relations) : option relations :=
  match l with
  | [] => Some db
  | st :: l => match exec_write st ∅ db with Wrote db' _ => exec_script l db' | _ => None end
  end.

(** ** Queries *)

(** The order of values: NULL, integers, texts, blobs. *)
Definition value_le (a b : Param) : Prop :=
  match a, b with
  | Null, _ => True
  | _, Null => False
  | I64 x, I64 y => x <= y
  | I64 _, _ => True
  | _, I64 _ => False
  | Text x, Text y => String.leb x y = true
  | Text _, Blob _ => True
  | Blob _, Text _ => False
  | Blob x, Blob y => String.leb (String.string_of_list_byte x) (String.string_of_list_byte y) = true
  end.
#[export] Instance value_le_dec : RelDecision value_le.
Proof. intros [] []; cbn; apply _. Defined.

Definition row_order (cols : list column) (order : option (string * bool)) (a b : tuple) : Prop :=
  match order with
  | None => True
  | Some (c, desc) =>
      let x := default Null (field cols a c) in let y := default Null (field cols b c) in
      if (desc : bool) then value_le y x else value_le x y
  end.
#[export] Instance row_order_dec cols order : RelDecision (row_order cols order).
Proof. intros a b. unfold row_order. destruct order as [[c []]|]; apply _. Defined.

(** No LIMIT is a negative one. *)
Definition limit_of (q : selection) (ps : gmap Z Param) : option Z :=
  match se_limit q with
  | None => Some (-1)
  | Some e => v ← eval no_columns no_columns ps e; match v with I64 n => Some n | _ => None end
  end.

(** The rows that count, in any order that sorts them; then the limit and the
    columns. *)
Definition present (cols : list column) (cs : list string) (n : Z) (rows : list tuple) : option (list tuple) :=
  mapM (fun row => mapM (field cols row) cs) (sql_limit n rows).

Definition answers (q : selection) (ps : gmap Z Param) (db : relations) (out : list tuple) : Prop :=
  exists tb raw, db !! se_table q = Some tb /\ keep (holds (tb_columns tb) ps (se_where q)) (tb_rows tb) = Some raw /\
    match se_items q with
    | CountAll => out = [[I64 (Z.of_nat (length raw))]]
    | Columns cs => exists n sorted, limit_of q ps = Some n /\ sorted ≡ₚ raw /\
        StronglySorted (row_order (tb_columns tb) (se_order q)) sorted /\ present (tb_columns tb) cs n sorted = Some out
    end.

(** One such answer. *)
Definition exec_select (q : selection) (ps : gmap Z Param) (db : relations) : option (list tuple) :=
  tb ← db !! se_table q;
  raw ← keep (holds (tb_columns tb) ps (se_where q)) (tb_rows tb);
  match se_items q with
  | CountAll => Some [[I64 (Z.of_nat (length raw))]]
  | Columns cs => n ← limit_of q ps; present (tb_columns tb) cs n (merge_sort (row_order (tb_columns tb) (se_order q)) raw)
  end.

(** ** The executable query gives an answer *)

Lemma string_leb_cons a s b t :
  String.leb (String a s) (String b t) = true <->
  (Ascii.N_of_ascii a < Ascii.N_of_ascii b)%N \/ (a = b /\ String.leb s t = true).
Proof.
  unfold String.leb. cbn [String.compare]. unfold Ascii.compare.
  destruct (N.compare_spec (Ascii.N_of_ascii a) (Ascii.N_of_ascii b)) as [He|Hl|Hg].
  - assert (a = b) as -> by (rewrite <- (Ascii.ascii_N_embedding a), <- (Ascii.ascii_N_embedding b); by rewrite He).
    split; [by right | intros [?|[_ ?]]; [lia|done]].
  - split; [by left | done].
  - split; [done|]. intros [?|[-> _]]; lia.
Qed.

Lemma string_leb_trans s t u : String.leb s t = true -> String.leb t u = true -> String.leb s u = true.
Proof.
  revert t u. induction s as [|a s IH]; intros [|b t] [|c u]; try done. rewrite !string_leb_cons.
  intros [H1|[-> H1]] [H2|[-> H2]]; [left; lia | by left | by left | right; eauto].
Qed.

Lemma string_leb_total s t : String.leb s t = true \/ String.leb t s = true.
Proof. apply String.leb_total. Qed.

#[export] Instance value_le_total : Total value_le.
Proof. intros [] []; cbn; auto using string_leb_total; lia. Qed.
#[export] Instance value_le_trans : Transitive value_le.
Proof. intros [] [] []; cbn; try done; eauto using string_leb_trans; lia. Qed.

#[export] Instance row_order_total cols order : Total (row_order cols order).
Proof. intros a b. unfold row_order. destruct order as [[c []]|]; [apply value_le_total..|by left]. Qed.
#[export] Instance row_order_trans cols order : Transitive (row_order cols order).
Proof. intros a b c. unfold row_order. destruct order as [[k []]|]; [|apply value_le_trans|done]. intros H1 H2. by etrans. Qed.

Lemma exec_select_answers q ps db out : exec_select q ps db = Some out -> answers q ps db out.
Proof.
  unfold exec_select, answers. intros Hq. apply bind_Some in Hq as (tb & Htb & Hq). apply bind_Some in Hq as (raw & Hraw & Hq).
  exists tb, raw. split; [done|]. split; [done|]. destruct (se_items q) as [cs|]; [|by injection Hq].
  apply bind_Some in Hq as (n & Hn & Hq). eexists n, _. split_and!; [done| | |exact Hq].
  - apply merge_sort_Permutation.
  - apply (StronglySorted_merge_sort _ _).
Qed.

(** Whether there is an answer does not depend on the order. *)
Lemma present_some cols cs n rows : Forall (fun row => is_Some (mapM (field cols row) cs)) rows -> is_Some (present cols cs n rows).
Proof.
  intros Hall. unfold present. rewrite mapM_is_Some. unfold sql_limit. destruct (n <? 0); [done|]. by apply Forall_take.
Qed.
