(* ===== verification/StoreSql.v ===== *)
(** The methods of [Database] in [presidium-storage/src/store.rs] as they run:
    the SQL text, the bound parameters and the row mapper of each, over the
    engine wrapper of Sqleet.  Store says what the same methods do to the
    tables; StoreSqlProps relates the two. *)

From S2P Require Import Prelude Constants Prims Ratchet Identity Keys Sqleet SessionState Database Store.

(** ** The texts *)

Definition save_identity_sql : string :=
"INSERT INTO identity (id, device_id, classical_seed, pq_seed, created_at)
                 VALUES (1, ?1, ?2, ?3, ?4)
                 ON CONFLICT(id) DO UPDATE SET
                     device_id = excluded.device_id,
                     classical_seed = excluded.classical_seed,
                     pq_seed = excluded.pq_seed".

Definition load_identity_sql : string :=
"SELECT device_id, classical_seed, pq_seed, created_at FROM identity WHERE id = 1".

Definition save_prekey_sql : string :=
"INSERT OR REPLACE INTO prekeys
                 (key_id, kind, classical, pq, public_classical, public_pq, signature, created_at)
                 VALUES (?1, ?2, ?3, ?4, ?5, ?6, ?7, ?8)".

Definition list_prekeys_sql : string :=
"SELECT key_id, kind, classical, pq, public_classical, public_pq, signature, created_at
             FROM prekeys WHERE kind = ?1 ORDER BY key_id LIMIT ?2".

Definition count_prekeys_sql : string :=
"SELECT count(*) FROM prekeys WHERE kind = ?1".

Definition take_one_time_prekey_sql : string :=
"SELECT key_id, kind, classical, pq, public_classical, public_pq, signature, created_at
                 FROM prekeys WHERE kind = ?1 ORDER BY key_id LIMIT 1".

Definition take_one_time_prekey_delete_sql : string :=
"DELETE FROM prekeys WHERE key_id = ?1".

Definition delete_prekey_sql : string :=
"DELETE FROM prekeys WHERE key_id = ?1".

Definition upsert_conversation_sql : string :=
"INSERT INTO conversations (id, peer_classical, peer_pq, is_group, created_at)
                 VALUES (?1, ?2, ?3, ?4, ?5)
                 ON CONFLICT(id) DO UPDATE SET
                     peer_classical = excluded.peer_classical,
                     peer_pq = excluded.peer_pq,
                     is_group = excluded.is_group".

Definition load_conversation_sql : string :=
"SELECT id, peer_classical, peer_pq, is_group, created_at FROM conversations WHERE id = ?1".

Definition list_conversations_sql : string :=
"SELECT id, peer_classical, peer_pq, is_group, created_at FROM conversations ORDER BY created_at DESC".

Definition save_session_sql : string :=
"INSERT INTO sessions (conversation_id, is_initiator, session_keys, ratchet_state, last_used)
                 VALUES (?1, ?2, ?3, ?4, ?5)
                 ON CONFLICT(conversation_id) DO UPDATE SET
                     is_initiator = excluded.is_initiator,
                     session_keys = excluded.session_keys,
                     ratchet_state = excluded.ratchet_state,
                     last_used = excluded.last_used".

Definition load_session_sql : string :=
"SELECT is_initiator, session_keys, ratchet_state, last_used FROM sessions WHERE conversation_id = ?1".

Definition delete_session_sql : string :=
"DELETE FROM sessions WHERE conversation_id = ?1".

Definition insert_message_sql : string :=
"INSERT INTO messages
                 (conversation_id, message_id, sender_classical, ciphertext, header,
                  content_type, direction, status, created_at)
                 VALUES (?1, ?2, ?3, ?4, ?5, ?6, ?7, ?8, ?9)".

Definition list_messages_sql : string :=
"SELECT id, conversation_id, message_id, sender_classical, ciphertext, header,
                    content_type, direction, status, created_at
             FROM messages
             WHERE conversation_id = ?1 AND (?2 IS NULL OR id < ?2)
             ORDER BY id DESC LIMIT ?3".

Definition load_message_by_uid_sql : string :=
"SELECT id, conversation_id, message_id, sender_classical, ciphertext, header,
                        content_type, direction, status, created_at
                 FROM messages WHERE conversation_id = ?1 AND message_id = ?2".

Definition update_message_status_sql : string :=
"UPDATE messages SET status = ?1 WHERE id = ?2".

Definition upsert_sender_key_sql : string :=
"INSERT INTO sender_keys (group_id, sender_classical, chain_key, message_index, key_id, updated_at)
                 VALUES (?1, ?2, ?3, ?4, ?5, ?6)
                 ON CONFLICT(group_id, sender_classical) DO UPDATE SET
                     chain_key = excluded.chain_key,
                     message_index = excluded.message_index,
                     key_id = excluded.key_id,
                     updated_at = excluded.updated_at".

Definition load_sender_key_sql : string :=
"SELECT group_id, sender_classical, chain_key, message_index, key_id, updated_at
                 FROM sender_keys WHERE group_id = ?1 AND sender_classical = ?2".

Definition insert_media_sql : string :=
"INSERT INTO media (id, message_id, kind, encryption_key, size, relative_path, created_at)
                 VALUES (?1, ?2, ?3, ?4, ?5, ?6, ?7)".

Definition load_media_sql : string :=
"SELECT id, message_id, kind, encryption_key, size, relative_path, created_at
                 FROM media WHERE id = ?1".

Definition list_media_for_message_sql : string :=
"SELECT id, message_id, kind, encryption_key, size, relative_path, created_at
             FROM media WHERE message_id = ?1 ORDER BY created_at".

Definition save_doc_sql : string :=
"INSERT INTO docs (id, ydoc, updated_at) VALUES (?1, ?2, ?3)
                 ON CONFLICT(id) DO UPDATE SET ydoc = excluded.ydoc, updated_at = excluded.updated_at".

Definition load_doc_sql : string :=
"SELECT ydoc FROM docs WHERE id = ?1".

Definition delete_doc_sql : string :=
"DELETE FROM docs WHERE id = ?1".

Definition upsert_device_sql : string :=
"INSERT INTO devices (device_id, classical, pq, last_seen)
                 VALUES (?1, ?2, ?3, ?4)
                 ON CONFLICT(device_id) DO UPDATE SET
                     classical = excluded.classical,
                     pq = excluded.pq,
                     last_seen = excluded.last_seen".

Definition list_devices_sql : string :=
"SELECT device_id, classical, pq, last_seen FROM devices ORDER BY device_id".

(** [serde_json::to_string] and [from_str]: the same JSON as a string. *)
Definition json_to_string `{Serde T} (v : T) : result StorageError string :=
  map_err Serialization (b ← to_vec v; mret (String.string_of_list_byte b)).
Definition json_from_str `{Serde T} (s : string) : result StorageError T := map_err Serialization (from_slice (bs s)).

Section Methods.
Context `{E : Engine}.

(** ** Row mappers *)

Definition identity_mapper (row : Row) (w : World) : result SqlError IdentityRecord :=
  device_id ← Row_get (T := string) row 0 w; classical_seed ← Row_get (T := bytes) row 1 w;
  pq_seed ← Row_get (T := bytes) row 2 w; created_at ← Row_get (T := Z) row 3 w;
  mret {| ir_device_id := device_id; ir_classical_seed := classical_seed; ir_pq_seed := pq_seed; ir_created_at := created_at |}.

Definition prekey_mapper (row : Row) (w : World) : result SqlError PreKeyRecord :=
  key_id ← Row_get (T := Z) row 0 w; kind ← Row_get (T := Z) row 1 w;
  classical ← Row_get (T := bytes) row 2 w; pq ← Row_get (T := bytes) row 3 w;
  public_classical ← Row_get (T := bytes) row 4 w; public_pq ← Row_get (T := bytes) row 5 w;
  signature ← Row_get (T := bytes) row 6 w; created_at ← Row_get (T := Z) row 7 w;
  mret {| pk_key_id := key_id; pk_kind := if kind =? 0 then Signed else OneTime; pk_classical := classical; pk_pq := pq;
          pk_public_classical := public_classical; pk_public_pq := public_pq; pk_signature := signature; pk_created_at := created_at |}.

Definition conversation_mapper (row : Row) (w : World) : result SqlError ConversationRecord :=
  id ← Row_get (T := string) row 0 w; peer_classical ← Row_get (T := bytes) row 1 w; peer_pq ← Row_get (T := bytes) row 2 w;
  is_group ← Row_get (T := bool) row 3 w; created_at ← Row_get (T := Z) row 4 w;
  mret {| cv_id := id; cv_peer_classical := peer_classical; cv_peer_pq := peer_pq; cv_is_group := is_group; cv_created_at := created_at |}.

Definition session_mapper (row : Row) (w : World) : result SqlError (bool * string * option string * Z) :=
  is_initiator ← Row_get (T := bool) row 0 w; session_keys ← Row_get (T := string) row 1 w;
  ratchet_state ← Row_get (T := option string) row 2 w; last_used ← Row_get (T := Z) row 3 w;
  mret (is_initiator, session_keys, ratchet_state, last_used).

Definition message_mapper (row : Row) (w : World) : result SqlError MessageRecord :=
  id ← Row_get (T := Z) row 0 w; conversation_id ← Row_get (T := string) row 1 w; message_id ← Row_get (T := bytes) row 2 w;
  sender_classical ← Row_get (T := bytes) row 3 w; ciphertext ← Row_get (T := bytes) row 4 w; header ← Row_get (T := string) row 5 w;
  content_type ← Row_get (T := Z) row 6 w; direction ← Row_get (T := Z) row 7 w; status ← Row_get (T := Z) row 8 w;
  created_at ← Row_get (T := Z) row 9 w;
  mret {| mr_id := id; mr_conversation_id := conversation_id; mr_message_id := message_id; mr_sender_classical := sender_classical;
          mr_ciphertext := ciphertext; mr_header := header; mr_content_type := content_type;
          mr_direction := if direction =? 0 then Incoming else Outgoing; mr_status := status_from_i64 status; mr_created_at := created_at |}.

Definition sender_key_mapper (row : Row) (w : World) : result SqlError SenderKeyRecord :=
  group_id ← Row_get (T := string) row 0 w; sender_classical ← Row_get (T := bytes) row 1 w; chain_key ← Row_get (T := bytes) row 2 w;
  message_index ← Row_get (T := Z) row 3 w; key_id ← Row_get (T := Z) row 4 w; updated_at ← Row_get (T := Z) row 5 w;
  mret {| skr_group_id := group_id; skr_sender_classical := sender_classical; skr_chain_key := chain_key;
          skr_message_index := message_index; skr_key_id := key_id; skr_updated_at := updated_at |}.

Definition media_mapper (row : Row) (w : World) : result SqlError MediaRecord :=
  id ← Row_get (T := string) row 0 w; message_id ← Row_get (T := option Z) row 1 w; kind ← Row_get (T := Z) row 2 w;
  encryption_key ← Row_get (T := bytes) row 3 w; size ← Row_get (T := Z) row 4 w; relative_path ← Row_get (T := string) row 5 w;
  created_at ← Row_get (T := Z) row 6 w;
  mret {| md_id := id; md_message_id := message_id; md_kind := media_kind_from_i64 kind; md_encryption_key := encryption_key;
          md_size := size; md_relative_path := relative_path; md_created_at := created_at |}.

Definition device_mapper (row : Row) (w : World) : result SqlError DeviceRecord :=
  device_id ← Row_get (T := string) row 0 w; classical ← Row_get (T := bytes) row 1 w; pq ← Row_get (T := bytes) row 2 w;
  last_seen ← Row_get (T := option Z) row 3 w;
  mret {| dv_device_id := device_id; dv_classical := classical; dv_pq := pq; dv_last_seen := last_seen |}.

(** ** The methods

    [fuel] bounds the loops over [sqlite3_step]. *)

Context (fuel : nat) (self : OpenDatabase).

Definition execute_ (sql : string) (params : list Param) : M World StorageError unit :=
  sql_ (Connection_execute fuel (db_conn self) sql params);; mret tt.

Definition identity_params (r : IdentityRecord) : list Param :=
  [into_param (ir_device_id r); into_param (ir_classical_seed r); into_param (ir_pq_seed r); into_param (ir_created_at r)].
Definition Database_save_identity (record : IdentityRecord) : M World StorageError unit :=
  execute_ save_identity_sql (identity_params record).
Definition Database_load_identity : M World StorageError (option IdentityRecord) :=
  sql_ (Connection_query_row (db_conn self) load_identity_sql [] identity_mapper).

Definition prekey_params (r : PreKeyRecord) : list Param :=
  [into_param (pk_key_id r); into_param (PreKeyKind_i64 (pk_kind r)); into_param (pk_classical r); into_param (pk_pq r);
   into_param (pk_public_classical r); into_param (pk_public_pq r); into_param (pk_signature r); into_param (pk_created_at r)].
Definition Database_save_prekey (record : PreKeyRecord) : M World StorageError unit :=
  execute_ save_prekey_sql (prekey_params record).
Definition Database_list_prekeys (kind : PreKeyKind) (limit : Z) : M World StorageError (list PreKeyRecord) :=
  sql_ (Connection_query_rows fuel (db_conn self) list_prekeys_sql [into_param (PreKeyKind_i64 kind); into_param limit] prekey_mapper).
Definition Database_count_prekeys (kind : PreKeyKind) : M World StorageError Z :=
  n ← sql_ (Connection_query_row (db_conn self) count_prekeys_sql [into_param (PreKeyKind_i64 kind)] (fun row => Row_get (T := Z) row 0));
  mret (default 0 n).

Definition Database_take_one_time_prekey : M World StorageError (option PreKeyRecord) :=
  sql_ (in_transaction (db_conn self)
    (record ← Transaction_query_row take_one_time_prekey_sql [into_param (PreKeyKind_i64 OneTime)] prekey_mapper;
     match record with
     | Some r => Transaction_execute fuel take_one_time_prekey_delete_sql [into_param (pk_key_id r)];; mret tt
     | None => mret tt
     end;;
     Transaction_commit;;
     mret record)).

Definition Database_delete_prekey (key_id : Z) : M World StorageError unit := execute_ delete_prekey_sql [into_param key_id].

Definition conversation_params (r : ConversationRecord) : list Param :=
  [into_param (cv_id r); into_param (cv_peer_classical r); into_param (cv_peer_pq r); into_param (cv_is_group r); into_param (cv_created_at r)].
Definition Database_upsert_conversation (record : ConversationRecord) : M World StorageError unit :=
  execute_ upsert_conversation_sql (conversation_params record).
Definition Database_load_conversation (id : string) : M World StorageError (option ConversationRecord) :=
  sql_ (Connection_query_row (db_conn self) load_conversation_sql [into_param id] conversation_mapper).
Definition Database_list_conversations : M World StorageError (list ConversationRecord) :=
  sql_ (Connection_query_rows fuel (db_conn self) list_conversations_sql [] conversation_mapper).

Section Sessions.
Context `{SK : Serde SessionKeys, SR : Serde RatchetSnapshot}.

Definition session_params (conversation_id : string) (is_initiator : bool) (session_keys : string) (ratchet_state : option string)
    (last_used : Z) : list Param :=
  [into_param conversation_id; into_param is_initiator; into_param session_keys; into_param ratchet_state; into_param last_used].
Definition Database_save_session (conversation_id : string) (state : SessionState) : M World StorageError unit :=
  session_keys ← lift (json_to_string (ss_session_keys state));
  ratchet_state ← lift (traverse_option json_to_string (ss_ratchet state));
  execute_ save_session_sql (session_params conversation_id (ss_is_initiator state) session_keys ratchet_state (ss_last_used state)).

Definition session_of_columns (cols : bool * string * option string * Z) : result StorageError SessionState :=
  let '(is_initiator, session_keys, ratchet_state, last_used) := cols in
  session_keys ← json_from_str session_keys;
  ratchet ← traverse_option json_from_str ratchet_state;
  mret {| ss_is_initiator := is_initiator; ss_session_keys := session_keys; ss_ratchet := ratchet; ss_last_used := last_used |}.
Definition Database_load_session (conversation_id : string) : M World StorageError (option SessionState) :=
  row ← sql_ (Connection_query_row (db_conn self) load_session_sql [into_param conversation_id] session_mapper);
  lift (traverse_option session_of_columns row).
Definition Database_delete_session (conversation_id : string) : M World StorageError unit :=
  execute_ delete_session_sql [into_param conversation_id].
End Sessions.

Definition message_params (r : MessageRecord) : list Param :=
  [into_param (mr_conversation_id r); into_param (mr_message_id r); into_param (mr_sender_classical r); into_param (mr_ciphertext r);
   into_param (mr_header r); into_param (mr_content_type r); into_param (MessageDirection_i64 (mr_direction r));
   into_param (MessageStatus_i64 (mr_status r)); into_param (mr_created_at r)].
Definition Database_insert_message (record : MessageRecord) : M World StorageError Z :=
  execute_ insert_message_sql (message_params record);;
  gets (Connection_last_insert_rowid (db_conn self)).
Definition Database_list_messages (conversation_id : string) (before_id : option Z) (limit : Z) : M World StorageError (list MessageRecord) :=
  sql_ (Connection_query_rows fuel (db_conn self) list_messages_sql
          [into_param conversation_id; into_param before_id; into_param limit] message_mapper).
Definition Database_load_message_by_uid (conversation_id : string) (message_id : bytes) : M World StorageError (option MessageRecord) :=
  sql_ (Connection_query_row (db_conn self) load_message_by_uid_sql [into_param conversation_id; into_param message_id] message_mapper).
Definition Database_update_message_status (id : Z) (status : MessageStatus) : M World StorageError unit :=
  execute_ update_message_status_sql [into_param (MessageStatus_i64 status); into_param id].

Definition sender_key_params (r : SenderKeyRecord) : list Param :=
  [into_param (skr_group_id r); into_param (skr_sender_classical r); into_param (skr_chain_key r); into_param (skr_message_index r);
   into_param (skr_key_id r); into_param (skr_updated_at r)].
Definition Database_upsert_sender_key (record : SenderKeyRecord) : M World StorageError unit :=
  execute_ upsert_sender_key_sql (sender_key_params record).
Definition Database_load_sender_key (group_id : string) (sender_classical : bytes) : M World StorageError (option SenderKeyRecord) :=
  sql_ (Connection_query_row (db_conn self) load_sender_key_sql [into_param group_id; into_param sender_classical] sender_key_mapper).

Definition media_params (r : MediaRecord) : list Param :=
  [into_param (md_id r); into_param (md_message_id r); into_param (MediaKind_i64 (md_kind r)); into_param (md_encryption_key r);
   into_param (md_size r); into_param (md_relative_path r); into_param (md_created_at r)].
Definition Database_insert_media (record : MediaRecord) : M World StorageError unit :=
  execute_ insert_media_sql (media_params record).
Definition Database_load_media (id : string) : M World StorageError (option MediaRecord) :=
  sql_ (Connection_query_row (db_conn self) load_media_sql [into_param id] media_mapper).
Definition Database_list_media_for_message (message_id : Z) : M World StorageError (list MediaRecord) :=
  sql_ (Connection_query_rows fuel (db_conn self) list_media_for_message_sql [into_param message_id] media_mapper).

(** [updated_at] is the current time. *)
Definition Database_save_doc (updated_at : Z) (id : string) (ydoc_bytes : bytes) : M World StorageError unit :=
  execute_ save_doc_sql [into_param id; into_param ydoc_bytes; into_param updated_at].
Definition Database_load_doc (id : string) : M World StorageError (option bytes) :=
  sql_ (Connection_query_row (db_conn self) load_doc_sql [into_param id] (fun row => Row_get (T := bytes) row 0)).
Definition Database_delete_doc (id : string) : M World StorageError unit := execute_ delete_doc_sql [into_param id].

Definition device_params (r : DeviceRecord) : list Param :=
  [into_param (dv_device_id r); into_param (dv_classical r); into_param (dv_pq r); into_param (dv_last_seen r)].
Definition Database_upsert_device (record : DeviceRecord) : M World StorageError unit :=
  execute_ upsert_device_sql (device_params record).
Definition Database_list_devices : M World StorageError (list DeviceRecord) :=
  sql_ (Connection_query_rows fuel (db_conn self) list_devices_sql [] device_mapper).
End Methods.

(** ** All methods, by name *)

Section Calls.
Context `{SK : Serde SessionKeys, SR : Serde RatchetSnapshot}.

Inductive store_call : Type -> Type :=
| SaveIdentity (r : IdentityRecord) : store_call unit
| LoadIdentity : store_call (option IdentityRecord)
| SavePrekey (r : PreKeyRecord) : store_call unit
| ListPrekeys (kind : PreKeyKind) (limit : Z) : store_call (list PreKeyRecord)
| CountPrekeys (kind : PreKeyKind) : store_call Z
| TakeOneTimePrekey : store_call (option PreKeyRecord)
| DeletePrekey (key_id : Z) : store_call unit
| UpsertConversation (r : ConversationRecord) : store_call unit
| LoadConversation (id : string) : store_call (option ConversationRecord)
| ListConversations : store_call (list ConversationRecord)
| SaveSession (conversation_id : string) (state : SessionState) : store_call unit
| LoadSession (conversation_id : string) : store_call (option SessionState)
| DeleteSession (conversation_id : string) : store_call unit
| InsertMessage (r : MessageRecord) : store_call Z
| ListMessages (conversation_id : string) (before_id : option Z) (limit : Z) : store_call (list MessageRecord)
| LoadMessageByUid (conversation_id : string) (message_id : bytes) : store_call (option MessageRecord)
| UpdateMessageStatus (id : Z) (status : MessageStatus) : store_call unit
| UpsertSenderKey (r : SenderKeyRecord) : store_call unit
| LoadSenderKey (group_id : string) (sender_classical : bytes) : store_call (option SenderKeyRecord)
| InsertMedia (r : MediaRecord) : store_call unit
| LoadMedia (id : string) : store_call (option MediaRecord)
| ListMediaForMessage (message_id : Z) : store_call (list MediaRecord)
| SaveDoc (now : Z) (id : string) (ydoc_bytes : bytes) : store_call unit
| LoadDoc (id : string) : store_call (option bytes)
| DeleteDoc (id : string) : store_call unit
| UpsertDevice (r : DeviceRecord) : store_call unit
| ListDevices : store_call (list DeviceRecord).

(** Through the wrapper. *)
Definition run_call `{E : Engine} (fuel : nat) (self : OpenDatabase) {A} (call : store_call A) : M World StorageError A :=
  match call with
  | SaveIdentity r => Database_save_identity fuel self r
  | LoadIdentity => Database_load_identity self
  | SavePrekey r => Database_save_prekey fuel self r
  | ListPrekeys kind limit => Database_list_prekeys fuel self kind limit
  | CountPrekeys kind => Database_count_prekeys self kind
  | TakeOneTimePrekey => Database_take_one_time_prekey fuel self
  | DeletePrekey key_id => Database_delete_prekey fuel self key_id
  | UpsertConversation r => Database_upsert_conversation fuel self r
  | LoadConversation id => Database_load_conversation self id
  | ListConversations => Database_list_conversations fuel self
  | SaveSession c state => Database_save_session fuel self c state
  | LoadSession c => Database_load_session self c
  | DeleteSession c => Database_delete_session fuel self c
  | InsertMessage r => Database_insert_message fuel self r
  | ListMessages c before limit => Database_list_messages fuel self c before limit
  | LoadMessageByUid c uid => Database_load_message_by_uid self c uid
  | UpdateMessageStatus id status => Database_update_message_status fuel self id status
  | UpsertSenderKey r => Database_upsert_sender_key fuel self r
  | LoadSenderKey g s => Database_load_sender_key self g s
  | InsertMedia r => Database_insert_media fuel self r
  | LoadMedia id => Database_load_media self id
  | ListMediaForMessage m => Database_list_media_for_message fuel self m
  | SaveDoc now id b => Database_save_doc fuel self now id b
  | LoadDoc id => Database_load_doc self id
  | DeleteDoc id => Database_delete_doc fuel self id
  | UpsertDevice r => Database_upsert_device fuel self r
  | ListDevices => Database_list_devices fuel self
  end.

(** On the tables, with a COMMIT that succeeds. *)
Definition call_spec {A} (call : store_call A) : M Db StorageError A :=
  match call with
  | SaveIdentity r => save_identity r
  | LoadIdentity => load_identity
  | SavePrekey r => save_prekey r
  | ListPrekeys kind limit => list_prekeys kind limit
  | CountPrekeys kind => count_prekeys kind
  | TakeOneTimePrekey => take_one_time_prekey None
  | DeletePrekey key_id => delete_prekey key_id
  | UpsertConversation r => upsert_conversation r
  | LoadConversation id => load_conversation id
  | ListConversations => list_conversations
  | SaveSession c state => save_session c state
  | LoadSession c => load_session c
  | DeleteSession c => delete_session c
  | InsertMessage r => insert_message r
  | ListMessages c before limit => list_messages c before limit
  | LoadMessageByUid c uid => load_message_by_uid c uid
  | UpdateMessageStatus id status => update_message_status id status
  | UpsertSenderKey r => upsert_sender_key r
  | LoadSenderKey g s => load_sender_key g s
  | InsertMedia r => insert_media r
  | LoadMedia id => load_media id
  | ListMediaForMessage m => list_media_for_message m
  | SaveDoc now id b => save_doc now id b
  | LoadDoc id => load_doc id
  | DeleteDoc id => delete_doc id
  | UpsertDevice r => upsert_device r
  | ListDevices => list_devices
  end.
End Calls.
