(* ===== verification/StoreRep.v ===== *)
(** The tables of Store as SQL tables: the columns of each row, the schema that
    [migrations/0001_init.sql] creates, and what it means that an SQL database
    holds the tables; then facts about keys, rows and queries that every
    statement of StoreSql uses. *)

From stdpp Require Import sorting.
From S2P Require Import Prelude Constants Prims Ratchet Identity Keys Sqleet SessionState Database Store StoreProps SqlText SqlSem.

(** ** The schema *)

Definition init_statements : list statement := default [] (parse_script INIT_SQL).
Definition store_tables : relations := default ∅ (exec_script init_statements ∅).

Definition table_schema (tb : sql_table) : list column * list (list string) := (tb_columns tb, tb_keys tb).
Definition schema (db : relations) : gmap string (list column * list (list string)) := table_schema <$> db.

Definition schema_of (name : string) : list column * list (list string) := default ([], []) (schema store_tables !! name).
Definition identity_schema := Eval vm_compute in schema_of "identity".
Definition prekeys_schema := Eval vm_compute in schema_of "prekeys".
Definition conversations_schema := Eval vm_compute in schema_of "conversations".
Definition sessions_schema := Eval vm_compute in schema_of "sessions".
Definition messages_schema := Eval vm_compute in schema_of "messages".
Definition sender_keys_schema := Eval vm_compute in schema_of "sender_keys".
Definition media_schema := Eval vm_compute in schema_of "media".
Definition docs_schema := Eval vm_compute in schema_of "docs".
Definition devices_schema := Eval vm_compute in schema_of "devices".

Definition store_schema : list (string * (list column * list (list string))) :=
  [("identity", identity_schema); ("prekeys", prekeys_schema); ("conversations", conversations_schema); ("sessions", sessions_schema);
   ("messages", messages_schema); ("sender_keys", sender_keys_schema); ("media", media_schema); ("docs", docs_schema);
   ("devices", devices_schema)].

Lemma store_schema_lookup : map (fun p => schema store_tables !! p.1) store_schema = map (fun p => Some p.2) store_schema.
Proof. vm_compute. reflexivity. Qed.

Lemma store_tables_empty : map_Forall (fun _ tb => tb_rows tb = [] /\ tb_seq tb = 0) store_tables.
Proof. apply map_Forall_to_list. vm_compute. repeat constructor. Qed.

(** The script is read, and runs on an empty database. *)
Lemma init_statements_run : parse_script INIT_SQL = Some init_statements /\ exec_script init_statements ∅ = Some store_tables.
Proof.
  unfold store_tables, init_statements.
  assert (match parse_script INIT_SQL with Some l => match exec_script l ∅ with Some _ => true | None => false end | None => false end = true) as H
    by (vm_compute; reflexivity).
  destruct (parse_script INIT_SQL) as [l|]; [|discriminate H]. cbn [default from_option id]. split; [reflexivity|].
  destruct (exec_script l ∅); [reflexivity|discriminate H].
Qed.

#[global] Opaque store_tables.

(** ** Rows *)

Definition text_of (b : bytes) : string := String.string_of_list_byte b.

Definition identity_columns (r : IdentityRecord) : tuple :=
  [I64 1; Text (ir_device_id r); Blob (ir_classical_seed r); Blob (ir_pq_seed r); I64 (ir_created_at r)].
Definition prekey_columns (p : Z * PrekeyRow) : tuple :=
  [I64 p.1; I64 (pkr_kind p.2); Blob (pkr_classical p.2); Blob (pkr_pq p.2); Blob (pkr_public_classical p.2);
   Blob (pkr_public_pq p.2); Blob (pkr_signature p.2); I64 (pkr_created_at p.2)].
Definition conversation_columns (p : string * ConversationRow) : tuple :=
  [Text p.1; Blob (cvr_peer_classical p.2); Blob (cvr_peer_pq p.2); I64 (cvr_is_group p.2); I64 (cvr_created_at p.2)].
Definition session_columns (p : string * SessionRow) : tuple :=
  [Text p.1; I64 (sr_is_initiator p.2); Text (text_of (sr_session_keys p.2));
   from_option (Text ∘ text_of) Null (sr_ratchet_state p.2); I64 (sr_last_used p.2)].
Definition message_columns (p : Z * MessageRow) : tuple :=
  [I64 p.1; Text (mrr_conversation_id p.2); Blob (mrr_message_id p.2); Blob (mrr_sender_classical p.2); Blob (mrr_ciphertext p.2);
   Text (mrr_header p.2); I64 (mrr_content_type p.2); I64 (mrr_direction p.2); I64 (mrr_status p.2); I64 (mrr_created_at p.2)].
Definition sender_key_columns (p : (string * bytes) * SenderKeyRow) : tuple :=
  [Text p.1.1; Blob p.1.2; Blob (skw_chain_key p.2); I64 (skw_message_index p.2); I64 (skw_key_id p.2); I64 (skw_updated_at p.2)].
Definition media_columns (p : string * MediaRow) : tuple :=
  [Text p.1; from_option I64 Null (mdr_message_id p.2); I64 (mdr_kind p.2); Blob (mdr_encryption_key p.2); I64 (mdr_size p.2);
   Text (mdr_relative_path p.2); I64 (mdr_created_at p.2)].
Definition doc_columns (p : string * DocRow) : tuple := [Text p.1; Blob (dr_ydoc p.2); I64 (dr_updated_at p.2)].
Definition device_columns (p : string * DeviceRow) : tuple :=
  [Text p.1; Blob (dvr_classical p.2); Blob (dvr_pq p.2); from_option I64 Null (dvr_last_seen p.2)].

Definition table_rows (t : Tables) (name : string) : list tuple :=
  if decide (name = "identity") then identity_columns <$> option_list (t_identity t)
  else if decide (name = "prekeys") then prekey_columns <$> map_to_list (t_prekeys t)
  else if decide (name = "conversations") then conversation_columns <$> map_to_list (t_conversations t)
  else if decide (name = "sessions") then session_columns <$> map_to_list (t_sessions t)
  else if decide (name = "messages") then message_columns <$> map_to_list (t_messages t)
  else if decide (name = "sender_keys") then sender_key_columns <$> map_to_list (t_sender_keys t)
  else if decide (name = "media") then media_columns <$> map_to_list (t_media t)
  else if decide (name = "docs") then doc_columns <$> map_to_list (t_docs t)
  else if decide (name = "devices") then device_columns <$> map_to_list (t_devices t)
  else [].

(** ** Representation *)

Definition rows_of (db : relations) (name : string) : list tuple := from_option tb_rows [] (db !! name).
Definition seq_of (db : relations) (name : string) : Z := from_option tb_seq 0 (db !! name).

Record represents (db : relations) (t : Tables) : Prop := {
  rep_schema : schema db = schema store_tables;
  rep_rows name : rows_of db name ≡ₚ table_rows t name;
  rep_seq : seq_of db "messages" = t_messages_seq t
}.

(** A migrated database without rows holds the empty tables. *)
Lemma represents_empty : represents store_tables empty_tables.
Proof.
  split; [done| |vm_compute; done]. intros name.
  assert (table_rows empty_tables name = []) as -> by (unfold table_rows; by repeat case_decide).
  unfold rows_of. destruct (store_tables !! name) as [tb|] eqn:Htb; [|done]. cbn.
  by rewrite (proj1 (map_Forall_lookup_1 _ _ _ _ store_tables_empty Htb)).
Qed.

(** Rows in another order make no difference. *)
Definition same_table (a b : sql_table) : Prop :=
  table_schema a = table_schema b /\ tb_rows a ≡ₚ tb_rows b /\ tb_seq a = tb_seq b.
Definition same_relations (a b : relations) : Prop := forall name, option_Forall2 same_table (a !! name) (b !! name).

#[export] Instance same_table_equivalence : Equivalence same_table.
Proof.
  split.
  - by intros a.
  - intros a b (H1 & H2 & H3). by split_and!.
  - intros a b c (H1 & H2 & H3) (H4 & H5 & H6). split_and!; by etrans.
Qed.
#[export] Instance same_relations_equivalence : Equivalence same_relations.
Proof.
  split.
  - intros a name. reflexivity.
  - intros a b H name. symmetry. apply H.
  - intros a b c H1 H2 name. etrans; [apply H1|apply H2].
Qed.

#[export] Instance represents_proper : Proper (same_relations ==> eq ==> iff) represents.
Proof.
  assert (forall a b t, same_relations a b -> represents a t -> represents b t) as H.
  { intros a b t Hab [H1 H2 H3]. split.
    - rewrite <- H1. apply map_eq. intros name. unfold schema. rewrite !lookup_fmap.
      destruct (Hab name) as [x y (Hs & _)|]; cbn; [by rewrite Hs|done].
    - intros name. rewrite <- H2. unfold rows_of. destruct (Hab name) as [x y (_ & Hp & _)|]; [by symmetry|done].
    - rewrite <- H3. unfold seq_of. by destruct (Hab "messages") as [x y (_ & _ & Hq)|]. }
  intros a b Hab t ? <-. split; apply H; [done|by symmetry].
Qed.

(** The table behind a name. *)
Lemma rep_table i db t name S :
  represents db t -> store_schema !! i = Some (name, S) ->
  exists rows seq, db !! name = Some {| tb_columns := S.1; tb_keys := S.2; tb_rows := rows; tb_seq := seq |} /\
    rows ≡ₚ table_rows t name /\ seq_of db name = seq.
Proof.
  intros [Hs Hr _] Hin. pose proof (ext_in_map store_schema_lookup _ (proj1 (list_elem_of_In _ _) (list_elem_of_lookup_2 _ _ _ Hin))) as Hall.
  cbn [fst snd] in Hall. rewrite <- Hs in Hall. unfold schema in Hall. rewrite lookup_fmap in Hall.
  apply fmap_Some in Hall as ([C' K' rows seq] & Hdb & ->). exists rows, seq. specialize (Hr name). unfold rows_of in Hr. rewrite Hdb in Hr.
  unfold seq_of. rewrite Hdb. by clear Hs.
Qed.

(** Writing one table. *)
Lemma rep_write db t t' name tb rows seq :
  represents db t -> db !! name = Some tb -> rows ≡ₚ table_rows t' name ->
  (forall other, other <> name -> table_rows t' other = table_rows t other) ->
  (if decide (name = "messages") then seq = t_messages_seq t' else t_messages_seq t' = t_messages_seq t) ->
  represents (<[name := set_rows rows seq tb]> db) t'.
Proof.
  intros [Hs Hr Hq] Htb Hrows Hother Hseq. split.
  - rewrite <- Hs. unfold schema. rewrite fmap_insert. apply insert_id. rewrite lookup_fmap, Htb. done.
  - intros other. unfold rows_of. destruct (decide (other = name)) as [->|Hne]; [by rewrite lookup_insert_eq|].
    rewrite lookup_insert_ne by done. rewrite Hother by done. apply Hr.
  - unfold seq_of in *. destruct (decide (name = "messages")) as [->|Hne]; [by rewrite lookup_insert_eq|].
    rewrite lookup_insert_ne by done. congruence.
Qed.

(** The schema decides which tables are referenced. *)
Lemma rep_referenced db t name : represents db t -> referenced db name = referenced store_tables name.
Proof.
  intros [Hs _ _]. unfold referenced. enough (tb_columns <$> db = tb_columns <$> store_tables) as Heq by (rewrite Heq; reflexivity).
  assert (forall m : relations, tb_columns <$> m = fst <$> schema m) as Hm.
  { intros m. unfold schema. rewrite <- map_fmap_compose. by apply map_fmap_ext. }
  rewrite !Hm, Hs. reflexivity.
Qed.

(** ** Rows with a key *)

Lemma filter_fmap_iff {A B} (f : A -> B) (P : B -> Prop) (Q : A -> Prop) `{!forall x, Decision (P x), !forall x, Decision (Q x)} (l : list A) :
  (forall x, P (f x) <-> Q x) -> filter P (f <$> l) = f <$> filter Q l.
Proof.
  intros Hpq. induction l as [|x l IH]; [done|]. cbn [fmap list_fmap]. rewrite !filter_cons. specialize (Hpq x).
  repeat case_decide; cbn; rewrite ?IH; tauto || done.
Qed.

Section Keyed.
Context {K} `{Countable K} {X : Type} (enc : K * X -> tuple).

Lemma elem_of_enc (rows : list tuple) (m : gmap K X) r :
  rows ≡ₚ enc <$> map_to_list m -> r ∈ rows <-> exists k x, r = enc (k, x) /\ m !! k = Some x.
Proof.
  intros ->. rewrite list_elem_of_fmap. split.
  - intros ([k x] & -> & Hp%elem_of_map_to_list). eauto.
  - intros (k & x & -> & Hm). exists (k, x). by rewrite elem_of_map_to_list.
Qed.

(** [hit] is a test of the key [k]. *)
Context (hit : tuple -> bool) (k : K) (hit_key : forall p, hit (enc p) = bool_decide (p.1 = k)).

Lemma existsb_hit rows (m : gmap K X) :
  rows ≡ₚ enc <$> map_to_list m -> existsb hit rows = bool_decide (is_Some (m !! k)).
Proof.
  intros Hrows. destruct (existsb hit rows) eqn:He; symmetry; [apply bool_decide_eq_true|apply bool_decide_eq_false].
  - apply existsb_exists in He as (r & Hin%list_elem_of_In & Hr). apply (elem_of_enc _ m) in Hin as (k' & x & -> & Hm); [|done].
    rewrite hit_key in Hr. apply bool_decide_eq_true in Hr. cbn in Hr. subst. eauto.
  - intros [x Hx]. apply not_true_iff_false in He. apply He, existsb_exists. exists (enc (k, x)).
    split; [apply list_elem_of_In, (elem_of_enc _ m); eauto|]. rewrite hit_key. by apply bool_decide_eq_true.
Qed.

Lemma find_hit rows (m : gmap K X) :
  rows ≡ₚ enc <$> map_to_list m -> List.find hit rows = (fun x => enc (k, x)) <$> m !! k.
Proof.
  intros Hrows. destruct (List.find hit rows) as [r|] eqn:Hf.
  - apply List.find_some in Hf as [Hin%list_elem_of_In Hr]. apply (elem_of_enc _ m) in Hin as (k' & x & -> & Hm); [|done].
    rewrite hit_key in Hr. apply bool_decide_eq_true in Hr. cbn in Hr. subst. by rewrite Hm.
  - destruct (m !! k) as [x|] eqn:Hm; [|done]. exfalso.
    assert (enc (k, x) ∈ rows) as Hin by (apply (elem_of_enc _ m); eauto). apply list_elem_of_In in Hin.
    apply (List.find_none _ _ Hf) in Hin. rewrite hit_key in Hin. by apply bool_decide_eq_false in Hin.
Qed.

Lemma rows_insert rows (m : gmap K X) x :
  rows ≡ₚ enc <$> map_to_list m -> m !! k = None -> rows ++ [enc (k, x)] ≡ₚ enc <$> map_to_list (<[k := x]> m).
Proof. intros -> Hm. rewrite map_to_list_insert by done. cbn. by rewrite Permutation_app_comm. Qed.

Lemma filter_enc (rows : list tuple) (l : list (K * X)) :
  rows ≡ₚ enc <$> l -> filter (fun r => hit r = false) rows ≡ₚ enc <$> filter (fun p => p.1 <> k) l.
Proof.
  intros ->. erewrite filter_fmap_iff; [reflexivity|]. intros p. rewrite hit_key. apply bool_decide_eq_false.
Qed.

Lemma map_to_list_delete_filter (m : gmap K X) : filter (fun p => p.1 <> k) (map_to_list m) ≡ₚ map_to_list (delete k m).
Proof.
  apply NoDup_Permutation; [apply NoDup_filter, NoDup_map_to_list | apply NoDup_map_to_list |].
  intros [k' x]. rewrite list_elem_of_filter, !elem_of_map_to_list, lookup_delete_Some. cbn. naive_solver.
Qed.

Lemma rows_delete_key rows (m : gmap K X) :
  rows ≡ₚ enc <$> map_to_list m -> filter (fun r => hit r = false) rows ≡ₚ enc <$> map_to_list (delete k m).
Proof. intros Hrows. rewrite (filter_enc _ _ Hrows). by rewrite map_to_list_delete_filter. Qed.

Lemma rows_replace rows (m : gmap K X) x :
  rows ≡ₚ enc <$> map_to_list m -> filter (fun r => hit r = false) rows ++ [enc (k, x)] ≡ₚ enc <$> map_to_list (<[k := x]> m).
Proof.
  intros Hrows. rewrite (rows_delete_key _ _ Hrows). rewrite <- insert_delete_eq, map_to_list_insert by apply lookup_delete_eq.
  cbn. by rewrite Permutation_app_comm.
Qed.

Lemma map_miss (f : tuple -> tuple) (l : list (K * X)) :
  (forall p, p ∈ l -> p.1 <> k) -> map (fun r => if hit r then f r else r) (enc <$> l) = enc <$> l.
Proof.
  intros Hl. induction l as [|p l IH]; [done|]. cbn. rewrite hit_key, bool_decide_false by (apply Hl; left).
  f_equal. apply IH. intros q Hq. apply Hl. by right.
Qed.

Lemma rows_update rows (m : gmap K X) y x :
  rows ≡ₚ enc <$> map_to_list m -> m !! k = Some y ->
  map (fun r => if hit r then enc (k, x) else r) rows ≡ₚ enc <$> map_to_list (<[k := x]> m).
Proof.
  intros Hrows Hm. rewrite Hrows. rewrite <- (insert_delete_id m k y) at 1 by done. rewrite map_to_list_insert by apply lookup_delete_eq.
  rewrite <- (insert_delete_eq m k x), map_to_list_insert by apply lookup_delete_eq. cbn. rewrite hit_key, bool_decide_true by done.
  f_equiv. apply Permutation_refl', map_miss. intros [k' x'] Hin%elem_of_map_to_list. by apply lookup_delete_Some in Hin as [Hne _].
Qed.
End Keyed.

(** ** Rows that a query selects *)

Lemma keep_enc {A} (enc : A -> tuple) (P : tuple -> option bool) (Q : A -> Prop) `{!forall x, Decision (Q x)} (l : list A) :
  (forall x, P (enc x) = Some (bool_decide (Q x))) -> keep P (enc <$> l) = Some (enc <$> filter Q l).
Proof.
  intros HP. induction l as [|x l IH]; [done|]. cbn [fmap list_fmap keep]. rewrite HP. cbn [mbind option_bind]. setoid_rewrite IH. cbn [mbind option_bind].
  rewrite filter_cons. f_equal. case_decide; [by rewrite bool_decide_true|by rewrite bool_decide_false].
Qed.

Lemma keep_permutation P rows1 rows2 l1 :
  rows1 ≡ₚ rows2 -> keep P rows1 = Some l1 -> exists l2, keep P rows2 = Some l2 /\ l1 ≡ₚ l2.
Proof.
  intros Hp. revert l1. induction Hp as [|r rows1 rows2 Hp IH|r r' rows|rows1 rows2 rows3 _ IH1 _ IH2]; cbn [keep]; intros l1 Hk.
  - eauto.
  - apply bind_Some in Hk as (b & Hb & Hk). apply bind_Some in Hk as (l & Hl & [= <-]). destruct (IH _ Hl) as (l2 & Hl2 & Hll).
    rewrite Hb, Hl2. cbn. eexists. split; [done|]. destruct b; [by constructor|done].
  - apply bind_Some in Hk as (b & Hb & Hk). apply bind_Some in Hk as (l & Hl & [= <-]). apply bind_Some in Hl as (b' & Hb' & Hl).
    apply bind_Some in Hl as (l' & Hl' & [= <-]). rewrite Hb, Hb', Hl'. cbn. eexists. split; [done|]. destruct b, b'; try done. constructor.
  - destruct (IH1 _ Hk) as (l2 & Hl2 & H12). destruct (IH2 _ Hl2) as (l3 & Hl3 & H23). exists l3. split; [done|by etrans].
Qed.

Lemma permutation_fmap_inv {A B} (f : A -> B) (l : list A) (l' : list B) : l' ≡ₚ f <$> l -> exists k, l' = f <$> k /\ k ≡ₚ l.
Proof. intros Hp. apply (Permutation_map_inv f) in Hp as (k & -> & Hk). exists k. by split; [|symmetry]. Qed.

Section Query.
Context {A : Type} (enc out : A -> tuple) (Q : A -> Prop) `{!forall x, Decision (Q x)} (l : list A).
Context (q : selection) (ps : gmap Z Param) (db : relations) (tb : sql_table) (cs : list string) (n : Z).
Context (Htb : db !! se_table q = Some tb) (Hrows : tb_rows tb ≡ₚ enc <$> l).
Context (Hwhere : forall x, holds (tb_columns tb) ps (se_where q) (enc x) = Some (bool_decide (Q x))).

Lemma kept : exists raw, keep (holds (tb_columns tb) ps (se_where q)) (tb_rows tb) = Some raw /\ raw ≡ₚ enc <$> filter Q l.
Proof.
  symmetry in Hrows. destruct (keep_permutation _ _ _ _ Hrows (keep_enc enc _ Q l Hwhere)) as (raw & Hk & Hp).
  exists raw. by split; [|symmetry].
Qed.

Lemma answers_count rows : se_items q = CountAll -> answers q ps db rows -> rows = [[I64 (Z.of_nat (length (filter Q l)))]].
Proof.
  intros Hi (tb' & raw & Htb' & Hk & Hout). rewrite Hi in Hout. assert (tb' = tb) as -> by congruence.
  destruct kept as (raw' & Hk' & Hp). assert (raw' = raw) as -> by congruence. apply Permutation_length in Hp. rewrite length_fmap in Hp.
  by rewrite <- Hp.
Qed.

Context (Hitems : se_items q = Columns cs) (Hlimit : limit_of q ps = Some n).
Context (Hout : forall x, mapM (field (tb_columns tb) (enc x)) cs = Some (out x)).

Lemma present_enc k : present (tb_columns tb) cs n (enc <$> k) = Some (out <$> sql_limit n k).
Proof.
  unfold present. assert (sql_limit n (enc <$> k) = enc <$> sql_limit n k) as ->.
  { unfold sql_limit. destruct (n <? 0); [done|]. by rewrite fmap_take. }
  induction (sql_limit n k) as [|x k' IH]; [done|]. cbn [fmap list_fmap mapM]. rewrite Hout. cbn. setoid_rewrite IH. done.
Qed.

(** The answers are the selected rows in an order that sorts them. *)
Lemma answers_columns rows :
  answers q ps db rows ->
  exists k, k ≡ₚ filter Q l /\ StronglySorted (fun x y => row_order (tb_columns tb) (se_order q) (enc x) (enc y)) k /\ rows = out <$> sql_limit n k.
Proof.
  intros (tb' & raw & Htb' & Hk & Ha). rewrite Hitems in Ha. destruct Ha as (n' & sorted & Hn & Hp & Hs & Hpr).
  assert (tb' = tb) as -> by congruence. assert (n' = n) as -> by congruence.
  destruct kept as (raw' & Hk' & Hp'). assert (raw' = raw) as -> by congruence. rewrite Hp' in Hp.
  apply permutation_fmap_inv in Hp as (k & -> & Hk2). rewrite present_enc in Hpr. injection Hpr as <-. exists k. split_and!; [done| |done].
  clear -Hs. induction k as [|x k IH]; [constructor|]. apply StronglySorted_inv in Hs as [Hs Hx]. constructor; [by apply IH|].
  exact (proj1 (Forall_fmap enc _ k) Hx).
Qed.

Lemma exec_select_some : is_Some (exec_select q ps db).
Proof.
  unfold exec_select. rewrite Htb. cbn. destruct kept as (raw & -> & Hp). cbn. rewrite Hitems, Hlimit. cbn.
  assert (merge_sort (row_order (tb_columns tb) (se_order q)) raw ≡ₚ enc <$> filter Q l) as Hm by by rewrite merge_sort_Permutation.
  apply permutation_fmap_inv in Hm as (k & -> & _). rewrite present_enc. eauto.
Qed.
End Query.

(** At most one row has a given key. *)
Lemma key_rows {K} `{Countable K} {X} (m : gmap K X) k l :
  l ≡ₚ filter (fun p => p.1 = k) (map_to_list m) -> l = option_list ((fun x => (k, x)) <$> m !! k).
Proof.
  intros Hl. assert (filter (fun p => p.1 = k) (map_to_list m) ≡ₚ option_list ((fun x => (k, x)) <$> m !! k)) as Hp.
  { apply NoDup_Permutation; [apply NoDup_filter, NoDup_map_to_list| |].
    - destruct (m !! k); cbn; [apply NoDup_singleton|apply NoDup_nil_2].
    - intros [k' x]. rewrite list_elem_of_filter, elem_of_map_to_list. destruct (m !! k) as [y|] eqn:Hm; cbn.
      + rewrite list_elem_of_singleton. naive_solver.
      + rewrite elem_of_nil. naive_solver. }
  rewrite Hp in Hl. destruct (m !! k); cbn in *; [by apply Permutation_singleton_r in Hl|by apply Permutation_nil_r in Hl].
Qed.

(** Rows in the order of a number, sorted one way or the other. *)
Lemma sorted_by_key {X} (m : gmap Z X) (Q : Z * X -> Prop) `{!forall x, Decision (Q x)} l :
  l ≡ₚ filter Q (map_to_list m) -> StronglySorted key_le l -> l = filter Q (rows_by_key m).
Proof.
  intros Hl Hs. apply (StronglySorted_unique_strong key_le).
  - intros [k x] [k' x'] H1 H2 Hle Hle'. unfold key_le in *. cbn in *. assert (k = k') as <- by lia.
    rewrite Hl in H1. rewrite list_elem_of_filter in *. destruct H1 as [_ H1%elem_of_map_to_list], H2 as [_ H2%elem_of_rows].
    cbn in H2. congruence.
  - done.
  - apply StronglySorted_filter. apply (StronglySorted_merge_sort _ _).
  - rewrite Hl. unfold rows_by_key. by rewrite merge_sort_Permutation.
Qed.

Lemma sorted_by_key_desc {X} (m : gmap Z X) (Q : Z * X -> Prop) `{!forall x, Decision (Q x)} l :
  l ≡ₚ filter Q (map_to_list m) -> StronglySorted (flip key_le) l -> l = filter Q (reverse (rows_by_key m)).
Proof.
  intros Hl Hs. apply (StronglySorted_unique_strong (flip key_le)).
  - intros [k x] [k' x'] H1 H2 Hle Hle'. unfold flip, key_le in *. cbn in *. assert (k = k') as <- by lia.
    rewrite Hl in H1. rewrite list_elem_of_filter in *. destruct H1 as [_ H1%elem_of_map_to_list], H2 as [_ H2].
    rewrite elem_of_reverse in H2. apply elem_of_rows in H2. cbn in H2. congruence.
  - done.
  - apply StronglySorted_filter, StronglySorted_reverse, (StronglySorted_merge_sort _ _).
  - rewrite Hl. rewrite reverse_Permutation. unfold rows_by_key. by rewrite merge_sort_Permutation.
Qed.
