(* ===== verification/StoreMeaning.v ===== *)
(** What the SQL texts of [presidium-storage/src/store.rs] mean on the tables of
    Store: each text is read by SqlText and given the meaning of SqlSem, and
    that meaning is the operation of Store. *)

From stdpp Require Import sorting.
From S2P Require Import Prelude Constants Prims Ratchet Identity Keys Sqleet SqlProps SessionState Database Store StoreProps SqlText SqlSem.
From S2P Require Import StoreSql StoreRep.

Definition sql_write (sql : string) (ps : list Param) (db : relations) : outcome :=
  match parse_statement sql with
  | Some st => exec_write st (numbered ps) db
  | None => Unsupported
  end.

(** The statement is refused, or changes the tables to [t'] (and gives the row
    id [id] if there is one to check). *)
Definition does (sql : string) (ps : list Param) (t : Tables) (o : option (Tables * option Z)) : Prop :=
  forall db, represents db t ->
    match o with
    | None => sql_write sql ps db = Refused
    | Some (t', want) => exists db' id, sql_write sql ps db = Wrote db' id /\ represents db' t' /\ (want = None \/ id = want)
    end.

(** Evaluates the texts and the closed parts of their meaning. *)
Ltac by_vm := vm_compute; reflexivity.
Ltac read_text :=
  match goal with
  | |- context [parse_statement ?x] =>
      let v := eval vm_compute in (parse_statement x) in replace (parse_statement x) with v by by_vm
  end.
Ltac rows_simpl := unfold table_rows in *; repeat (rewrite decide_False in * by done); rewrite decide_True in * by done.

(** ** Keys *)

Lemma conflicts_one C row c other a b :
  field C row c = Some a -> field C other c = Some b -> a <> Null -> conflicts C row [c] other = bool_decide (a = b).
Proof.
  intros Ha Hb Hn. unfold conflicts. cbn [forallb]. rewrite Ha, Hb, andb_true_r. by rewrite (bool_decide_false (a = Null)), andb_true_r.
Qed.

Lemma conflicts_two C row c d other a b a' b' :
  field C row c = Some a -> field C other c = Some b -> a <> Null ->
  field C row d = Some a' -> field C other d = Some b' -> a' <> Null ->
  conflicts C row [c; d] other = bool_decide (a = b) && bool_decide (a' = b').
Proof.
  intros Ha Hb Hn Ha' Hb' Hn'. unfold conflicts. cbn [forallb]. rewrite Ha, Hb, Ha', Hb', andb_true_r.
  rewrite (bool_decide_false (a = Null)), (bool_decide_false (a' = Null)) by done. by rewrite !andb_true_r.
Qed.

Lemma existsb_eq {A} (f g : A -> bool) l : (forall x, f x = g x) -> existsb f l = existsb g l.
Proof. intros Hfg. induction l as [|x l IH]; [done|]. cbn. by rewrite Hfg, IH. Qed.

(** ** Inserting and updating by a key *)

Section Keyed.
Context {K} `{Countable K} {X : Type} (enc : K * X -> tuple) (C : list column) (target : list string).
Context (conflict_key : forall k x p, conflicts C (enc (k, x)) target (enc p) = bool_decide (p.1 = k)).
Context (db : relations) (name : string) (rows : list tuple) (seq : Z) (m : gmap K X).
Context (Hrows : rows ≡ₚ enc <$> map_to_list m).

Let tb := {| tb_columns := C; tb_keys := [target]; tb_rows := rows; tb_seq := seq |}.

Lemma conflicts_any_one row other : conflicts_any tb row other = conflicts C row target other.
Proof. unfold conflicts_any. cbn. apply orb_false_r. Qed.

Lemma conflicts_any_exists k x : existsb (conflicts_any tb (enc (k, x))) rows = bool_decide (is_Some (m !! k)).
Proof.
  rewrite (existsb_eq _ _ rows (conflicts_any_one (enc (k, x)))). by apply (existsb_hit enc _ k (conflict_key k x)).
Qed.

Lemma conflicts_any_others k x x' :
  existsb (conflicts_any tb (enc (k, x))) (filter (fun r => conflicts C (enc (k, x')) target r = false) rows) = false.
Proof.
  rewrite (existsb_eq _ _ _ (conflicts_any_one (enc (k, x)))).
  rewrite (existsb_hit enc _ k (conflict_key k x) _ (delete k m)).
  - by rewrite lookup_delete_eq, bool_decide_false by by intros [? ?].
  - by apply (rows_delete_key enc _ k (conflict_key k x')).
Qed.

(** ON CONFLICT DO UPDATE: the row is inserted, or the stored one gets some of
    its columns. *)
Lemma upsert_row i ps k x f sets ok :
  in_conflict i = Some (target, sets) -> in_replace i = false -> existsb col_autoincrement C = false ->
  acceptable (has_key_value db) C (map col_name C) (enc (k, x)) = Some ok ->
  (forall y, m !! k = Some y -> assign C (field C (enc (k, y))) (field C (enc (k, x))) ps sets (enc (k, y)) = Some (enc (k, f y)) /\
     acceptable (has_key_value db) C (map fst sets) (enc (k, f y)) = Some true) ->
  if decide (m !! k = None /\ ok = false) then insert_row db name tb i ps (enc (k, x)) = Refused
  else exists rows' id, insert_row db name tb i ps (enc (k, x)) = Wrote (<[name := set_rows rows' seq tb]> db) id /\
    rows' ≡ₚ enc <$> map_to_list (<[k := from_option f x (m !! k)]> m).
Proof.
  intros Hc Hr Hauto Hok Hupd. unfold insert_row. rewrite Hc, Hr. cbn [tb tb_keys tb_columns]. rewrite Hauto.
  rewrite bool_decide_true by set_solver. cbn [negb orb].
  assert (List.find (conflicts C (enc (k, x)) target) (tb_rows tb) = (fun y => enc (k, y)) <$> m !! k) as ->
    by by apply (find_hit enc _ k (conflict_key k x)).
  destruct (m !! k) as [y|] eqn:Hm; cbn [fmap option_fmap option_map from_option].
  - rewrite decide_False by naive_solver. destruct (Hupd y eq_refl) as [-> Hacc]. unfold update_hit. cbn [tb_columns tb] in *. rewrite Hacc.
    rewrite conflicts_any_others. cbn [orb negb]. do 2 eexists. split; [reflexivity|]. cbn [tb_rows tb].
    by eapply (rows_update enc _ k (conflict_key k x)).
  - unfold add_row. cbn [tb_columns tb] in *. rewrite Hok. cbn [tb_rows tb]. rewrite conflicts_any_exists, Hm.
    rewrite bool_decide_false by by intros [? ?]. cbn [orb]. destruct ok; cbn [negb].
    + rewrite decide_False by naive_solver. assert (next_seq tb (enc (k, x)) = seq) as ->; [unfold next_seq; cbn [tb tb_columns]; by rewrite Hauto|].
      do 2 eexists. split; [reflexivity|]. by apply rows_insert.
    + by rewrite decide_True.
Qed.
End Keyed.

Lemma exec_insert_row i ps db tb values row row' :
  db !! in_table i = Some tb -> mapM (eval no_columns no_columns ps) (in_values i) = Some values ->
  new_row (tb_columns tb) (in_columns i) values = Some row -> number_row tb row = Some (Some row') ->
  exec_insert i ps db = insert_row db (in_table i) tb i ps row'.
Proof. intros Htb Hv Hr Hn. unfold exec_insert. rewrite Htb. cbn [mbind option_bind]. rewrite Hv. cbn [mbind option_bind]. rewrite Hr. cbn [mbind option_bind]. by rewrite Hn. Qed.

(** ** Tables with one key *)

(** The table [name] of Store, its key columns and its row format. *)
Record keyed_table {K} `{Countable K} {X : Type} (enc : K * X -> tuple) (i : nat) (name : string) (C : list column) (key : list string)
    (get : Tables -> gmap K X) (set : gmap K X -> Tables -> Tables) : Prop := {
  kt_schema : store_schema !! i = Some (name, (C, [key]));
  kt_rows t : table_rows t name = enc <$> map_to_list (get t);
  kt_get m t : get (set m t) = m;
  kt_other m t other : other <> name -> table_rows (set m t) other = table_rows t other;
  kt_seq m t : name <> "messages" /\ t_messages_seq (set m t) = t_messages_seq t;
  kt_conflict k x p : conflicts C (enc (k, x)) key (enc p) = bool_decide (p.1 = k);
  kt_numbered : existsb col_autoincrement C = false
}.

Section Table.
Context {K} `{Countable K} {X : Type} {enc : K * X -> tuple} {i : nat} {name : string} {C : list column} {key : list string}.
Context {get : Tables -> gmap K X} {set : gmap K X -> Tables -> Tables} (T : keyed_table enc i name C key get set).

Lemma kt_table db t :
  represents db t -> exists rows seq, db !! name = Some {| tb_columns := C; tb_keys := [key]; tb_rows := rows; tb_seq := seq |} /\
    rows ≡ₚ enc <$> map_to_list (get t).
Proof.
  intros Hrep. destruct (rep_table i db t name (C, [key]) Hrep (kt_schema _ _ _ _ _ _ _ T)) as (rows & seq & Hdb & Hrows & _).
  rewrite (kt_rows _ _ _ _ _ _ _ T) in Hrows. eauto.
Qed.

Lemma kt_write db t m tb rows seq :
  represents db t -> db !! name = Some tb -> rows ≡ₚ enc <$> map_to_list m -> represents (<[name := set_rows rows seq tb]> db) (set m t).
Proof.
  intros Hrep Hdb Hrows. destruct (kt_seq _ _ _ _ _ _ _ T m t) as [Hne Hseq]. eapply rep_write; [done|done| | |].
  - by rewrite (kt_rows _ _ _ _ _ _ _ T), (kt_get _ _ _ _ _ _ _ T).
  - intros other. apply (kt_other _ _ _ _ _ _ _ T).
  - by rewrite decide_False.
Qed.

(** ON CONFLICT(key) DO UPDATE; [ok] tells whether a new row is accepted. *)
Lemma upsert_does sql ps ins sets values k x f t ok :
  parse_statement sql = Some (Insert ins) -> in_table ins = name -> in_conflict ins = Some (key, sets) -> in_replace ins = false ->
  mapM (eval no_columns no_columns (numbered ps)) (in_values ins) = Some values ->
  new_row C (in_columns ins) values = Some (enc (k, x)) ->
  (forall rows seq, number_row {| tb_columns := C; tb_keys := [key]; tb_rows := rows; tb_seq := seq |} (enc (k, x)) = Some (Some (enc (k, x)))) ->
  (forall db, represents db t -> acceptable (has_key_value db) C (map col_name C) (enc (k, x)) = Some ok) ->
  (forall db y, represents db t -> get t !! k = Some y ->
     assign C (field C (enc (k, y))) (field C (enc (k, x))) (numbered ps) sets (enc (k, y)) = Some (enc (k, f y)) /\
     acceptable (has_key_value db) C (map fst sets) (enc (k, f y)) = Some true) ->
  does sql ps t (if decide (get t !! k = None /\ ok = false) then None
                 else Some (set (<[k := from_option f x (get t !! k)]> (get t)) t, None)).
Proof.
  intros Hp Hname Hc Hr Hv Hrow Hnum Hok Hupd db Hrep. destruct (kt_table db t Hrep) as (rows & seq & Hdb & Hrows).
  unfold sql_write. rewrite Hp. cbn [exec_write]. rewrite <- Hname in Hdb.
  rewrite (exec_insert_row ins (numbered ps) db _ values (enc (k, x)) (enc (k, x)) Hdb Hv Hrow (Hnum _ _)).
  pose proof (upsert_row enc C key (kt_conflict _ _ _ _ _ _ _ T) db (in_table ins) rows seq (get t) Hrows ins (numbered ps) k x f sets ok
    Hc Hr (kt_numbered _ _ _ _ _ _ _ T) (Hok db Hrep) (fun y => Hupd db y Hrep)) as Hup.
  rewrite Hname in *. destruct (decide _); [done|]. destruct Hup as (rows' & id & Hw & Hrows'). do 2 eexists. split; [exact Hw|].
  split; [by eapply kt_write|by left].
Qed.

Lemma upsert_always sql ps ins sets values k x f t :
  parse_statement sql = Some (Insert ins) -> in_table ins = name -> in_conflict ins = Some (key, sets) -> in_replace ins = false ->
  mapM (eval no_columns no_columns (numbered ps)) (in_values ins) = Some values ->
  new_row C (in_columns ins) values = Some (enc (k, x)) ->
  (forall rows seq, number_row {| tb_columns := C; tb_keys := [key]; tb_rows := rows; tb_seq := seq |} (enc (k, x)) = Some (Some (enc (k, x)))) ->
  (forall has, acceptable has C (map col_name C) (enc (k, x)) = Some true) ->
  (forall has y, assign C (field C (enc (k, y))) (field C (enc (k, x))) (numbered ps) sets (enc (k, y)) = Some (enc (k, f y)) /\
     acceptable has C (map fst sets) (enc (k, f y)) = Some true) ->
  does sql ps t (Some (set (<[k := from_option f x (get t !! k)]> (get t)) t, None)).
Proof.
  intros Hp Hname Hc Hr Hv Hrow Hnum Hok Hupd.
  pose proof (upsert_does sql ps ins sets values k x f t true Hp Hname Hc Hr Hv Hrow Hnum (fun db _ => Hok _) (fun db y _ _ => Hupd _ y)) as Hd.
  by rewrite decide_False in Hd by naive_solver.
Qed.

(** INSERT OR REPLACE. *)
Lemma replace_does sql ps ins values k x t :
  parse_statement sql = Some (Insert ins) -> in_table ins = name -> in_conflict ins = None -> in_replace ins = true ->
  mapM (eval no_columns no_columns (numbered ps)) (in_values ins) = Some values ->
  new_row C (in_columns ins) values = Some (enc (k, x)) ->
  (forall rows seq, number_row {| tb_columns := C; tb_keys := [key]; tb_rows := rows; tb_seq := seq |} (enc (k, x)) = Some (Some (enc (k, x)))) ->
  referenced store_tables name = false -> (forall db, acceptable (has_key_value db) C (map col_name C) (enc (k, x)) = Some true) ->
  does sql ps t (Some (set (<[k := x]> (get t)) t, None)).
Proof.
  intros Hp Hname Hc Hr Hv Hrow Hnum Href Hok db Hrep. destruct (kt_table db t Hrep) as (rows & seq & Hdb & Hrows).
  unfold sql_write. rewrite Hp. cbn [exec_write]. rewrite <- Hname in Hdb.
  rewrite (exec_insert_row ins (numbered ps) db _ values (enc (k, x)) (enc (k, x)) Hdb Hv Hrow (Hnum _ _)).
  unfold insert_row. rewrite Hc, Hr, Hname, (rep_referenced db t) by done. rewrite Href. unfold add_row. cbn [tb_columns tb_rows]. rewrite Hok.
  set (tb := {| tb_columns := C; tb_keys := [key]; tb_rows := rows; tb_seq := seq |}).
  assert (filter (fun r => conflicts_any tb (enc (k, x)) r = false) rows = filter (fun r => conflicts C (enc (k, x)) key r = false) rows) as ->.
  { apply list_filter_iff. intros r. unfold tb. by rewrite conflicts_any_one. }
  unfold tb. rewrite (conflicts_any_others enc C key (kt_conflict _ _ _ _ _ _ _ T) rows seq (get t) Hrows). cbn [orb negb].
  do 2 eexists. split; [reflexivity|]. split; [|by left]. rewrite Hname in Hdb. eapply kt_write; [done|exact Hdb|].
  by apply (rows_replace enc _ k (kt_conflict _ _ _ _ _ _ _ T k x)).
Qed.

(** A plain INSERT. *)
Lemma insert_does sql ps ins values k x t ok :
  parse_statement sql = Some (Insert ins) -> in_table ins = name -> in_conflict ins = None -> in_replace ins = false ->
  mapM (eval no_columns no_columns (numbered ps)) (in_values ins) = Some values ->
  new_row C (in_columns ins) values = Some (enc (k, x)) ->
  (forall rows seq, number_row {| tb_columns := C; tb_keys := [key]; tb_rows := rows; tb_seq := seq |} (enc (k, x)) = Some (Some (enc (k, x)))) ->
  (forall db, represents db t -> acceptable (has_key_value db) C (map col_name C) (enc (k, x)) = Some ok) ->
  does sql ps t (if decide (get t !! k = None /\ ok = true) then Some (set (<[k := x]> (get t)) t, None) else None).
Proof.
  intros Hp Hname Hc Hr Hv Hrow Hnum Hok db Hrep. destruct (kt_table db t Hrep) as (rows & seq & Hdb & Hrows).
  unfold sql_write. rewrite Hp. cbn [exec_write]. rewrite <- Hname in Hdb.
  rewrite (exec_insert_row ins (numbered ps) db _ values (enc (k, x)) (enc (k, x)) Hdb Hv Hrow (Hnum _ _)).
  unfold insert_row. rewrite Hc, Hr, Hname. unfold add_row. cbn [tb_columns tb_rows]. rewrite (Hok db Hrep).
  rewrite (conflicts_any_exists enc C key (kt_conflict _ _ _ _ _ _ _ T) rows seq (get t) Hrows).
  destruct (decide _) as [[Hk ->]|Hn].
  - rewrite Hk, bool_decide_false by by intros [? ?]. cbn [orb negb]. do 2 eexists. split; [reflexivity|]. split; [|by left].
    rewrite Hname in Hdb. eapply kt_write; [done|exact Hdb|]. by apply rows_insert.
  - destruct (get t !! k); [by rewrite bool_decide_true|]. destruct ok; [naive_solver|]. by rewrite orb_true_r.
Qed.

(** DELETE by the key. *)
Lemma delete_does sql ps cond k t :
  parse_statement sql = Some (Delete name cond) -> referenced store_tables name = false ->
  (forall p, holds C (numbered ps) cond (enc p) = Some (bool_decide (p.1 = k))) ->
  does sql ps t (Some (set (delete k (get t)) t, None)).
Proof.
  intros Hp Href Hcond db Hrep. destruct (kt_table db t Hrep) as (rows & seq & Hdb & Hrows).
  unfold sql_write. rewrite Hp. cbn [exec_write]. unfold exec_delete. rewrite Hdb. cbn [mbind option_bind].
  rewrite (rep_referenced db t), Href by done. cbn [tb_columns tb_rows].
  symmetry in Hrows. edestruct keep_permutation as (rows' & -> & Hrows'); [exact Hrows| |].
  { apply (keep_enc enc _ (fun p => p.1 <> k)). intros p. rewrite Hcond. cbn. f_equal. symmetry. apply bool_decide_not. }
  cbn [mbind option_bind]. do 2 eexists. split; [reflexivity|]. split; [|by left]. eapply kt_write; [done|exact Hdb|].
  by rewrite <- Hrows', map_to_list_delete_filter.
Qed.
End Table.

(** *** The tables *)

Ltac keyed_table_tac :=
  split;
  [ by_vm | intros; by rows_simpl | done | intros; unfold table_rows; repeat case_decide; done || congruence | done
  | intros k x p; first [ erewrite conflicts_one; [|by_vm|by_vm|done] | erewrite conflicts_two; [|by_vm|by_vm|done|by_vm|by_vm|done] ]
  | by_vm ].

Lemma prekeys_table : keyed_table prekey_columns 1 "prekeys" prekeys_schema.1 ["key_id"] t_prekeys set_prekeys.
Proof. keyed_table_tac. apply bool_decide_ext. cbn. naive_solver. Qed.
Lemma conversations_table :
  keyed_table conversation_columns 2 "conversations" conversations_schema.1 ["id"] t_conversations set_conversations.
Proof. keyed_table_tac. apply bool_decide_ext. cbn. naive_solver. Qed.
Lemma sessions_table : keyed_table session_columns 3 "sessions" sessions_schema.1 ["conversation_id"] t_sessions set_sessions.
Proof. keyed_table_tac. apply bool_decide_ext. cbn. naive_solver. Qed.
Lemma sender_keys_table :
  keyed_table sender_key_columns 5 "sender_keys" sender_keys_schema.1 ["group_id"; "sender_classical"] t_sender_keys set_sender_keys.
Proof. keyed_table_tac. rewrite <- bool_decide_and. apply bool_decide_ext. destruct p as [[g s] y], k. cbn. naive_solver. Qed.
Lemma media_table : keyed_table media_columns 6 "media" media_schema.1 ["id"] t_media set_media.
Proof. keyed_table_tac. apply bool_decide_ext. cbn. naive_solver. Qed.
Lemma docs_table : keyed_table doc_columns 7 "docs" docs_schema.1 ["id"] t_docs set_docs.
Proof. keyed_table_tac. apply bool_decide_ext. cbn. naive_solver. Qed.
Lemma devices_table : keyed_table device_columns 8 "devices" devices_schema.1 ["device_id"] t_devices set_devices.
Proof. keyed_table_tac. apply bool_decide_ext. cbn. naive_solver. Qed.

(** ** The statements that write *)

Lemma save_prekey_does r t :
  does save_prekey_sql (prekey_params r) t (Some (set_prekeys (<[pk_key_id r := prekey_row r]> (t_prekeys t)) t, None)).
Proof. eapply (replace_does prekeys_table); by_vm || (intros; by_vm). Qed.

(** The side conditions of the lemmas above, once the values are known. *)
Ltac meant := repeat match goal with o : option _ |- _ => destruct o end; first [by_vm | intros; by_vm | intros; split; by_vm].

Lemma upsert_conversation_does r t :
  does upsert_conversation_sql (conversation_params r) t
    (Some (set_conversations (<[cv_id r := from_option (fun y => conversation_row (cvr_created_at y) r) (conversation_row (cv_created_at r) r)
       (t_conversations t !! cv_id r)]> (t_conversations t)) t, None)).
Proof. eapply (upsert_always conversations_table _ _ _ _ _ _ _ (fun y => conversation_row (cvr_created_at y) r)); meant. Qed.

Definition sender_key_row (r : SenderKeyRecord) : SenderKeyRow :=
  {| skw_chain_key := skr_chain_key r; skw_message_index := skr_message_index r; skw_key_id := skr_key_id r; skw_updated_at := skr_updated_at r |}.

Lemma from_option_const {A B} (b : B) (o : option A) : from_option (fun _ => b) b o = b.
Proof. by destruct o. Qed.

Lemma upsert_sender_key_does r t :
  does upsert_sender_key_sql (sender_key_params r) t
    (Some (set_sender_keys (<[(skr_group_id r, skr_sender_classical r) := sender_key_row r]> (t_sender_keys t)) t, None)).
Proof.
  rewrite <- (from_option_const (sender_key_row r) (t_sender_keys t !! (skr_group_id r, skr_sender_classical r))).
  eapply (upsert_always sender_keys_table); meant.
Qed.

Lemma save_doc_does now id b t :
  does save_doc_sql [into_param id; into_param b; into_param now] t
    (Some (set_docs (<[id := {| dr_ydoc := b; dr_updated_at := now |}]> (t_docs t)) t, None)).
Proof. rewrite <- (from_option_const {| dr_ydoc := b; dr_updated_at := now |} (t_docs t !! id)). eapply (upsert_always docs_table); meant. Qed.

Lemma upsert_device_does r t :
  does upsert_device_sql (device_params r) t
    (Some (set_devices (<[dv_device_id r := {| dvr_classical := dv_classical r; dvr_pq := dv_pq r; dvr_last_seen := dv_last_seen r |}]>
       (t_devices t)) t, None)).
Proof.
  destruct r as [id c q seen]. cbn [dv_device_id dv_classical dv_pq dv_last_seen].
  rewrite <- (from_option_const {| dvr_classical := c; dvr_pq := q; dvr_last_seen := seen |} (t_devices t !! id)).
  eapply (upsert_always devices_table); meant.
Qed.

(** A comparison of a column with a parameter. *)
Lemma bool_decide_text a b : bool_decide (Text a = Text b) = bool_decide (a = b).
Proof. apply bool_decide_ext. naive_solver. Qed.
Lemma bool_decide_i64 a b : bool_decide (I64 a = I64 b) = bool_decide (a = b).
Proof. apply bool_decide_ext. naive_solver. Qed.
Lemma bool_decide_blob a b : bool_decide (Blob a = Blob b) = bool_decide (a = b).
Proof. apply bool_decide_ext. naive_solver. Qed.

(** A condition that is true or false, not unknown. *)
Definition decided (C : list column) (ps : gmap Z Param) (row : tuple) (e : sql_expr) (b : bool) : Prop :=
  eval (field C row) no_columns ps e = Some (of_truth (Some b)).

Lemma decided_holds C ps row e b : decided C ps row e b -> holds C ps (Some e) row = Some b.
Proof. unfold decided, holds. intros ->. cbn. by destruct b. Qed.

Lemma decided_eq C ps row a b x y v :
  eval (field C row) no_columns ps a = Some x -> eval (field C row) no_columns ps b = Some y -> equal_values x y = Some (Some v) ->
  decided C ps row (Eq a b) v.
Proof. unfold decided. cbn [eval]. intros -> ->. cbn [mbind option_bind]. by intros ->. Qed.

Lemma decided_less C ps row a b x y v :
  eval (field C row) no_columns ps a = Some x -> eval (field C row) no_columns ps b = Some y -> less_values x y = Some (Some v) ->
  decided C ps row (Less a b) v.
Proof. unfold decided. cbn [eval]. intros -> ->. cbn [mbind option_bind]. by intros ->. Qed.

Lemma decided_and C ps row a b x y : decided C ps row a x -> decided C ps row b y -> decided C ps row (And a b) (x && y).
Proof. unfold decided. cbn [eval]. intros -> ->. by destruct x, y. Qed.

Lemma decided_or C ps row a b x y : decided C ps row a x -> decided C ps row b y -> decided C ps row (Or a b) (x || y).
Proof. unfold decided. cbn [eval]. intros -> ->. by destruct x, y. Qed.

(** A column that is compared with a parameter. *)
Ltac equals_param := eapply decided_eq; [by_vm|by_vm|reflexivity].
Ltac where_key := intros p; etransitivity; [apply decided_holds; equals_param|f_equal; apply bool_decide_ext; cbn; naive_solver].

Lemma delete_prekey_does k t : does delete_prekey_sql [into_param k] t (Some (set_prekeys (delete k (t_prekeys t)) t, None)).
Proof. eapply (delete_does prekeys_table); [by_vm|by_vm|where_key]. Qed.

Lemma delete_session_does c t : does delete_session_sql [into_param c] t (Some (set_sessions (delete c (t_sessions t)) t, None)).
Proof. eapply (delete_does sessions_table); [by_vm|by_vm|where_key]. Qed.

Lemma delete_doc_does id t : does delete_doc_sql [into_param id] t (Some (set_docs (delete id (t_docs t)) t, None)).
Proof. eapply (delete_does docs_table); [by_vm|by_vm|where_key]. Qed.

(** *** Foreign keys *)

Lemma has_reference {K} `{Countable K} {X} {enc : K * X -> tuple} {i name C key get set} (T : keyed_table enc i name C key get set) db t c k v :
  represents db t -> v <> Null -> (forall p, field C (enc p) c = Some v <-> p.1 = k) ->
  has_key_value db (name, c) v = Some (bool_decide (is_Some (get t !! k))).
Proof.
  intros Hrep Hv Hc. destruct (kt_table T db t Hrep) as (rows & seq & Hdb & Hrows). unfold has_key_value. cbn [fst snd]. rewrite Hdb. cbn.
  f_equal. rewrite (bool_decide_false (v = Null)) by done. cbn. apply (existsb_hit enc _ k); [|done].
  intros p. apply bool_decide_ext, Hc.
Qed.

Lemma has_conversation db t c :
  represents db t -> has_key_value db ("conversations", "id") (Text c) = Some (bool_decide (is_Some (t_conversations t !! c))).
Proof. intros Hrep. apply (has_reference conversations_table); [done|done|]. intros p. cbn. naive_solver. Qed.

Definition session_row (is_initiator : bool) (keys : bytes) (ratchet : option bytes) (last_used : Z) : SessionRow :=
  {| sr_is_initiator := bool_i64 is_initiator; sr_session_keys := keys; sr_ratchet_state := ratchet; sr_last_used := last_used |}.

(** Only the foreign key of a new row depends on other tables. *)
Ltac by_vm_has has := vm_compute; match goal with |- context [has ?r ?v] => destruct (has r v) as [[]|] end; reflexivity.

Lemma session_acceptable has c init keys ratchet last_used :
  acceptable has sessions_schema.1 (map col_name sessions_schema.1) (session_columns (c, session_row init keys ratchet last_used)) =
  has ("conversations", "id") (Text c).
Proof. destruct ratchet; by_vm_has has. Qed.

Lemma save_session_does c init keys ratchet last_used t :
  (is_Some (t_sessions t !! c) -> is_Some (t_conversations t !! c)) ->
  does save_session_sql (session_params c init (text_of keys) (text_of <$> ratchet) last_used) t
    (if decide (is_Some (t_conversations t !! c))
     then Some (set_sessions (<[c := session_row init keys ratchet last_used]> (t_sessions t)) t, None) else None).
Proof.
  intros Hfk. set (row := session_row init keys ratchet last_used).
  assert (does save_session_sql (session_params c init (text_of keys) (text_of <$> ratchet) last_used) t
    (if decide (t_sessions t !! c = None /\ bool_decide (is_Some (t_conversations t !! c)) = false) then None
     else Some (set_sessions (<[c := from_option (fun _ => row) row (t_sessions t !! c)]> (t_sessions t)) t, None))) as Hd.
  { destruct ratchet as [b|]; (eapply (upsert_does sessions_table); [by_vm..|intros; by_vm| |]).
    1,3: intros db Hrep; unfold row; rewrite session_acceptable; by apply has_conversation.
    all: intros db [? ? [] ?] _ _; split; by_vm. }
  rewrite from_option_const in Hd. destruct (decide (is_Some (t_conversations t !! c))) as [Hc|Hc].
  - by rewrite decide_False in Hd by (rewrite bool_decide_true; naive_solver).
  - rewrite decide_True in Hd; [done|]. rewrite bool_decide_false by done. split; [|done]. apply eq_None_not_Some. auto.
Qed.

(** *** Messages and media *)

Lemma messages_rows t : table_rows t "messages" = message_columns <$> map_to_list (t_messages t).
Proof. by rows_simpl. Qed.

Lemma message_id_conflict k x p :
  conflicts messages_schema.1 (message_columns (k, x)) ["id"] (message_columns p) = bool_decide (p.1 = k).
Proof. erewrite conflicts_one; [|by_vm|by_vm|done]. apply bool_decide_ext. cbn. naive_solver. Qed.

Lemma message_uid_conflict k x p :
  conflicts messages_schema.1 (message_columns (k, x)) ["conversation_id"; "message_id"] (message_columns p) =
  same_uid (mrr_conversation_id x) (mrr_message_id x) p.
Proof.
  destruct x, p as [k' []]. erewrite conflicts_two; [|by_vm|by_vm|done|by_vm|by_vm|done]. unfold same_uid. cbn.
  f_equal; apply bool_decide_ext; split; congruence.
Qed.

Lemma message_acceptable has id row :
  acceptable has messages_schema.1 (map col_name messages_schema.1) (message_columns (id, row)) =
  has ("conversations", "id") (Text (mrr_conversation_id row)).
Proof. destruct row. by_vm_has has. Qed.

Lemma existsb_permutation {A} (f : A -> bool) l1 l2 : l1 ≡ₚ l2 -> existsb f l1 = existsb f l2.
Proof. induction 1; cbn; [done|congruence|by rewrite !orb_assoc, (orb_comm (f y))|congruence]. Qed.

Lemma message_conflicts rows seq t id row :
  rows ≡ₚ message_columns <$> map_to_list (t_messages t) -> t_messages t !! id = None ->
  existsb (conflicts_any {| tb_columns := messages_schema.1; tb_keys := messages_schema.2; tb_rows := rows; tb_seq := seq |}
    (message_columns (id, row))) rows =
  existsb (same_uid (mrr_conversation_id row) (mrr_message_id row)) (map_to_list (t_messages t)).
Proof.
  intros Hrows Hid. rewrite (existsb_permutation _ _ _ Hrows). assert (forall p, p ∈ map_to_list (t_messages t) -> p.1 <> id) as Hne.
  { intros [k x] Hp%elem_of_map_to_list. cbn. congruence. }
  revert Hne. generalize (map_to_list (t_messages t)). intros l Hne. induction l as [|p l IH]; [done|]. cbn [fmap list_fmap existsb]. f_equal.
  - unfold conflicts_any. cbn [tb_columns tb_keys messages_schema snd existsb].
    rewrite message_id_conflict, message_uid_conflict, orb_false_r. by rewrite bool_decide_false by (apply Hne; left).
  - apply IH. intros q Hq. apply Hne. by right.
Qed.

Lemma insert_message_does r t :
  ids_bounded t -> let id := t_messages_seq t + 1 in
  does insert_message_sql (message_params r) t
    (if t_messages_seq t =? i64_max then None
     else if existsb (same_uid (mr_conversation_id r) (mr_message_id r)) (map_to_list (t_messages t)) then None
     else if decide (is_Some (t_conversations t !! mr_conversation_id r))
     then Some (set_messages (<[id := message_row r]> (t_messages t)) id t, Some id) else None).
Proof.
  intros [H0 Hids] id db Hrep. destruct (rep_table 4 db t _ _ Hrep eq_refl) as (rows & seq & Hdb & Hrows & Hseq).
  rewrite messages_rows in Hrows. rewrite (rep_seq _ _ Hrep) in Hseq. subst seq.
  assert (t_messages t !! id = None) as Hnone.
  { destruct (t_messages t !! id) eqn:Hx; [|done]. apply Hids in Hx. unfold id in Hx. lia. }
  unfold sql_write. read_text. cbn [exec_write].
  set (tb := {| tb_columns := _; tb_keys := _; tb_rows := _; tb_seq := _ |}) in Hdb.
  assert (exists values row, mapM (eval no_columns no_columns (numbered (message_params r))) [Arg 1; Arg 2; Arg 3; Arg 4; Arg 5; Arg 6; Arg 7; Arg 8; Arg 9] = Some values /\
    new_row (tb_columns tb) ["conversation_id"; "message_id"; "sender_classical"; "ciphertext"; "header"; "content_type"; "direction"; "status"; "created_at"] values = Some row /\
    number_row tb row = Some (if t_messages_seq t =? i64_max then None else Some (message_columns (id, message_row r)))) as (values & row & Hv & Hn & Hnum).
  { do 2 eexists. split; [by_vm|]. split; [by_vm|]. by_vm. }
  unfold exec_insert. cbn [in_table in_values in_columns]. rewrite Hdb. cbn [mbind option_bind]. rewrite Hv. cbn [mbind option_bind].
  rewrite Hn. cbn [mbind option_bind]. rewrite Hnum. cbn [mbind option_bind].
  destruct (t_messages_seq t =? i64_max); [exact eq_refl|]. unfold insert_row. cbn [in_conflict in_replace]. unfold add_row.
  change (tb_columns tb) with messages_schema.1. rewrite message_acceptable, (has_conversation db t) by done.
  pose proof (message_conflicts rows (t_messages_seq t) t id (message_row r) Hrows Hnone) as Hcf. fold tb in Hcf.
  change (tb_rows tb) with rows. rewrite Hcf. cbn [mrr_conversation_id mrr_message_id message_row].
  destruct (existsb (same_uid _ _) _); [exact eq_refl|]. cbn [orb]. destruct (decide (is_Some _)) as [Hc|Hc]; [|by rewrite bool_decide_false].
  rewrite bool_decide_true by done. cbn [negb]. do 2 eexists. split; [reflexivity|]. split; [|by right].
  eapply rep_write; [done|exact Hdb| | |].
  - rewrite messages_rows. cbn [set_messages t_messages]. by apply rows_insert.
  - intros other Hne. unfold table_rows. repeat case_decide; done || congruence.
  - done.
Qed.

Lemma messages_referenced db t id :
  represents db t -> has_key_value db ("messages", "id") (I64 id) = Some (bool_decide (is_Some (t_messages t !! id))).
Proof.
  intros Hrep. destruct (rep_table 4 db t _ _ Hrep eq_refl) as (rows & seq & Hdb & Hrows & _). rewrite messages_rows in Hrows.
  unfold has_key_value. cbn [fst snd]. rewrite Hdb. cbn [mbind option_bind tb_columns tb_rows]. f_equal.
  rewrite (bool_decide_false (I64 id = Null)) by done. apply (existsb_hit message_columns _ id); [|done].
  intros p. apply bool_decide_ext. cbn. naive_solver.
Qed.

Lemma media_acceptable has id message kind key size path created :
  acceptable has media_schema.1 (map col_name media_schema.1)
    (media_columns (id, {| mdr_message_id := message; mdr_kind := kind; mdr_encryption_key := key; mdr_size := size;
                           mdr_relative_path := path; mdr_created_at := created |})) =
  has ("messages", "id") (from_option I64 Null message).
Proof. destruct message; by_vm_has has. Qed.

(** NULL refers to no message. *)
Definition media_message_exists (r : MediaRecord) (t : Tables) : bool :=
  match md_message_id r with None => true | Some m => bool_decide (is_Some (t_messages t !! m)) end.

Lemma insert_media_does r t :
  does insert_media_sql (media_params r) t
    (if decide (t_media t !! md_id r = None /\ media_message_exists r t = true)
     then Some (set_media (<[md_id r := media_row r]> (t_media t)) t, None) else None).
Proof.
  destruct r as [id message kind key size path created]. unfold media_row, media_message_exists. cbn [md_id md_message_id md_kind md_encryption_key md_size md_relative_path md_created_at].
  destruct message as [m|]; (eapply (insert_does media_table); [by_vm..|intros; by_vm|]); intros db Hrep; rewrite media_acceptable; cbn [from_option].
  - by apply messages_referenced.
  - unfold has_key_value. cbn [fst snd]. destruct (rep_table 4 db t _ _ Hrep eq_refl) as (rows & seq & Hdb & _). by rewrite Hdb.
Qed.

(** *** The status of a message *)

Lemma map_to_list_alter {K} `{Countable K} {X} (f : X -> X) k (m : gmap K X) :
  map_to_list (alter f k m) ≡ₚ (fun p => if decide (p.1 = k) then (p.1, f p.2) else p) <$> map_to_list m.
Proof.
  apply NoDup_Permutation; [apply NoDup_map_to_list| |].
  - apply (NoDup_fmap_1 fst). rewrite <- list_fmap_compose. erewrite list_fmap_ext; [apply NoDup_fst_map_to_list|].
    intros _ [k' x] _. cbn. by case_decide.
  - intros [k' x]. rewrite elem_of_map_to_list, list_elem_of_fmap, lookup_alter_Some. split.
    + intros [(-> & y & Hy & ->)|[Hne Hx]]; [exists (k', y)|exists (k', x)]; rewrite elem_of_map_to_list; cbn;
        [by rewrite decide_True|by rewrite decide_False].
    + intros ([j y] & Heq & Hin%elem_of_map_to_list). cbn in Heq. case_decide; simplify_eq; naive_solver.
Qed.

Lemma mapM_enc {A} (enc : A -> tuple) (F : tuple -> option (tuple * bool)) (g : A -> A) (l : list A) :
  (forall x, F (enc x) = Some (enc (g x), true)) -> mapM F (enc <$> l) = Some ((fun x => (enc (g x), true)) <$> l).
Proof. intros HF. induction l as [|x l IH]; [done|]. cbn [fmap list_fmap mapM]. rewrite HF. cbn. setoid_rewrite IH. done. Qed.

Lemma update_status_row has_db n id p :
  update_row has_db messages_schema.1 (numbered [I64 n; I64 id]) [("status", Arg 1)] (Some (Eq (Col "id") (Arg 2))) (message_columns p) =
  Some (message_columns (if decide (p.1 = id) then (p.1, set_status n p.2) else p), true).
Proof.
  destruct p as [k row]. unfold update_row. erewrite decided_holds by equals_param. cbn [mbind option_bind]. rewrite bool_decide_i64.
  destruct row. case_decide as Hk; [rewrite bool_decide_true by done|by rewrite bool_decide_false]. generalize (has_key_value has_db). intros has. by_vm.
Qed.

Lemma update_message_status_does id status t :
  does update_message_status_sql [into_param (MessageStatus_i64 status); into_param id] t
    (Some (set_messages (alter (set_status (MessageStatus_i64 status)) id (t_messages t)) (t_messages_seq t) t, None)).
Proof.
  intros db Hrep. destruct (rep_table 4 db t _ _ Hrep eq_refl) as (rows & seq & Hdb & Hrows & Hseq). rewrite messages_rows in Hrows.
  rewrite (rep_seq _ _ Hrep) in Hseq. subst seq. unfold sql_write. read_text. cbn [exec_write]. unfold exec_update. rewrite Hdb.
  apply permutation_fmap_inv in Hrows as (l & -> & Hl). cbn [mbind option_bind]. change (existsb _ [("status", Arg 1)]) with false. cbv iota.
  cbn [tb_columns tb_rows]. setoid_rewrite (mapM_enc message_columns _ (fun p => if decide (p.1 = id) then (p.1, set_status (MessageStatus_i64 status) p.2) else p));
    [|intros p; apply update_status_row].
  cbn [mbind option_bind]. match goal with |- context [forallb snd ?l] => assert (forallb snd l = true) as -> end.
  { clear. induction l as [|p l IH]; [done|]. exact IH. }
  do 2 eexists. split; [reflexivity|]. split; [|by left]. eapply rep_write; [done|exact Hdb| | |done].
  - rewrite messages_rows. cbn [set_messages t_messages]. rewrite map_to_list_alter, <- Hl.
    match goal with |- map fst ?a ≡ₚ ?b => assert (map fst a = b) as -> end; [|done].
    clear. induction l as [|p l IH]; [done|]. cbn. f_equal. exact IH.
  - intros other Hne. unfold table_rows. repeat case_decide; done || congruence.
Qed.

(** *** The identity *)

Lemma identity_rows t : table_rows t "identity" = identity_columns <$> option_list (t_identity t).
Proof. by rows_simpl. Qed.

Definition identity_after (r : IdentityRecord) (old : option IdentityRecord) : IdentityRecord :=
  match old with
  | None => r
  | Some old => {| ir_device_id := ir_device_id r; ir_classical_seed := ir_classical_seed r; ir_pq_seed := ir_pq_seed r; ir_created_at := ir_created_at old |}
  end.

Lemma save_identity_does r t :
  does save_identity_sql (identity_params r) t (Some (set_identity (Some (identity_after r (t_identity t))) t, None)).
Proof.
  intros db Hrep. destruct (rep_table 0 db t _ _ Hrep eq_refl) as (rows & seq & Hdb & Hrows & _). rewrite identity_rows in Hrows.
  unfold sql_write. read_text. cbn [exec_write].
  erewrite exec_insert_row with (row' := identity_columns r); [|exact Hdb|by_vm|by_vm|by_vm]. cbn [in_table].
  unfold insert_row. cbn [in_conflict in_replace tb_columns tb_keys tb_rows].
  replace (negb _ || existsb col_autoincrement _) with false by by_vm.
  assert (forall new old, conflicts identity_schema.1 (identity_columns new) ["id"] (identity_columns old) = true) as Hhit by (intros; by_vm).
  assert (forall other, other <> "identity" -> forall x, table_rows (set_identity x t) other = table_rows t other) as Hother.
  { intros other Hne x. unfold table_rows. repeat case_decide; done || congruence. }
  destruct (t_identity t) as [old|]; cbn [option_list fmap list_fmap identity_after] in *.
  - apply Permutation_singleton_r in Hrows as ->. cbn [List.find]. rewrite Hhit.
    match goal with |- context [assign ?a ?b ?c ?d ?e ?f] => replace (assign a b c d e f) with (Some (identity_columns (identity_after r (Some old)))) by by_vm end.
    unfold update_hit. cbn [tb_columns tb_rows]. replace (acceptable _ _ _ _) with (Some true) by (generalize (has_key_value db); intros; by_vm).
    cbn [map]. rewrite filter_cons_False, Hhit by by rewrite Hhit. cbn [filter list_filter existsb orb negb].
    do 2 eexists. split; [reflexivity|]. split; [|by left]. eapply rep_write; [done|exact Hdb|by rewrite identity_rows|auto|done].
  - apply Permutation_nil_r in Hrows as ->. cbn [List.find]. unfold add_row. cbn [tb_columns tb_rows].
    replace (acceptable _ _ _ _) with (Some true) by (generalize (has_key_value db); intros; by_vm). cbn [existsb orb negb app].
    do 2 eexists. split; [reflexivity|]. split; [|by left]. eapply rep_write; [done|exact Hdb|by rewrite identity_rows|auto|done].
Qed.
