(* ===== verification/StoreQueries.v ===== *)
(** What the queries of [presidium-storage/src/store.rs] mean on the tables of
    Store. *)

From stdpp Require Import sorting.
From S2P Require Import Prelude Constants Prims Ratchet Identity Keys Sqleet SqlProps SessionState Database Store StoreProps SqlText SqlSem.
From S2P Require Import StoreSql StoreRep StoreMeaning.

(** The query has an answer, and every answer is the rows [out] of a list that
    [P] describes. *)
Definition gives {A} (sql : string) (ps : list Param) (t : Tables) (out : A -> tuple) (P : list A -> Prop) : Prop :=
  forall db, represents db t -> exists q, parse_statement sql = Some (Select q) /\ is_Some (exec_select q (numbered ps) db) /\
    forall rows, answers q (numbered ps) db rows -> exists l, P l /\ rows = out <$> l.

Lemma gives_intro {A} i name S (enc out : A -> tuple) (Q : A -> Prop) `{!forall x, Decision (Q x)} (L : list A) n cs q sql ps t (P : list A -> Prop) :
  store_schema !! i = Some (name, S) -> table_rows t name = enc <$> L -> parse_statement sql = Some (Select q) -> se_table q = name ->
  se_items q = Columns cs -> limit_of q (numbered ps) = Some n ->
  (forall x, holds S.1 (numbered ps) (se_where q) (enc x) = Some (bool_decide (Q x))) ->
  (forall x, mapM (field S.1 (enc x)) cs = Some (out x)) ->
  (forall k, k ≡ₚ filter Q L -> StronglySorted (fun x y => row_order S.1 (se_order q) (enc x) (enc y)) k -> P (sql_limit n k)) ->
  gives sql ps t out P.
Proof.
  intros Hs Hrows Hp Hname Hitems Hlim Hw Hout HP db Hrep. destruct (rep_table i db t name S Hrep Hs) as (rows & seq & Hdb & Hr & _).
  rewrite Hrows in Hr. rewrite <- Hname in Hdb. exists q. split; [done|]. split; [by eapply exec_select_some|].
  intros ans Ha. eapply (answers_columns enc out Q L) in Ha as (k & Hk & Hsorted & ->); [|done..].
  exists (sql_limit n k). split; [by apply HP|done].
Qed.

Lemma sql_limit_all {A} (l : list A) : sql_limit (-1) l = l.
Proof. done. Qed.

Ltac projected := intros p; repeat match goal with x : prod _ _ |- _ => destruct x end;
  repeat match goal with r : ?R |- _ => match R with MediaRow => destruct r | SessionRow => destruct r | DeviceRow => destruct r end end;
  cbn; try reflexivity.

(** *** By key *)

Lemma key_gives {K} `{Countable K} {X} {enc : K * X -> tuple} {i name C key get set} (T : keyed_table enc i name C key get set)
    (out : K * X -> tuple) sql ps t k q cs :
  parse_statement sql = Some (Select q) -> se_table q = name -> se_items q = Columns cs -> limit_of q (numbered ps) = Some (-1) ->
  (forall p, holds C (numbered ps) (se_where q) (enc p) = Some (bool_decide (p.1 = k))) ->
  (forall p, mapM (field C (enc p)) cs = Some (out p)) ->
  gives sql ps t out (fun l => l = option_list ((fun x => (k, x)) <$> get t !! k)).
Proof.
  intros Hp Hname Hi Hl Hw Hout. eapply (gives_intro i name (C, [key]) enc out (fun p => p.1 = k)); [apply (kt_schema _ _ _ _ _ _ _ T)|apply (kt_rows _ _ _ _ _ _ _ T)|eassumption..|].
  intros l Hk _. by apply key_rows.
Qed.

Lemma load_conversation_gives id t :
  gives load_conversation_sql [into_param id] t conversation_columns (fun l => l = option_list ((fun x => (id, x)) <$> t_conversations t !! id)).
Proof. eapply (key_gives conversations_table); [by_vm|by_vm|by_vm|by_vm|where_key|projected]. Qed.

Definition session_out (p : string * SessionRow) : tuple := tail (session_columns p).
Lemma load_session_gives id t :
  gives load_session_sql [into_param id] t session_out (fun l => l = option_list ((fun x => (id, x)) <$> t_sessions t !! id)).
Proof. eapply (key_gives sessions_table); [by_vm|by_vm|by_vm|by_vm|where_key|projected]. Qed.

Lemma load_media_gives id t :
  gives load_media_sql [into_param id] t media_columns (fun l => l = option_list ((fun x => (id, x)) <$> t_media t !! id)).
Proof. eapply (key_gives media_table); [by_vm|by_vm|by_vm|by_vm|where_key|projected]. Qed.

Definition doc_out (p : string * DocRow) : tuple := [Blob (dr_ydoc p.2)].
Lemma load_doc_gives id t :
  gives load_doc_sql [into_param id] t doc_out (fun l => l = option_list ((fun x => (id, x)) <$> t_docs t !! id)).
Proof. eapply (key_gives docs_table); [by_vm|by_vm|by_vm|by_vm|where_key|projected]. Qed.

Lemma load_sender_key_gives g s t :
  gives load_sender_key_sql [into_param g; into_param s] t sender_key_columns
    (fun l => l = option_list ((fun x => ((g, s), x)) <$> t_sender_keys t !! (g, s))).
Proof.
  eapply (key_gives sender_keys_table); [by_vm|by_vm|by_vm|by_vm| |projected]. intros [[g' s'] y].
  etransitivity; [apply decided_holds, decided_and; equals_param|]. rewrite <- bool_decide_and. f_equal. apply bool_decide_ext. cbn. naive_solver.
Qed.

Definition identity_out (r : IdentityRecord) : tuple := tail (identity_columns r).
Lemma load_identity_gives t : gives load_identity_sql [] t identity_out (fun l => l = option_list (t_identity t)).
Proof.
  eapply (gives_intro 0 "identity" identity_schema identity_columns identity_out (fun _ => True)); [by_vm|apply identity_rows|by_vm|by_vm|by_vm|by_vm| | |].
  - intros r. by apply decided_holds.
  - done.
  - intros k Hk _. rewrite filter_all in Hk by done. rewrite sql_limit_all.
    destruct (t_identity t); cbn in *; [by apply Permutation_singleton_r in Hk|by apply Permutation_nil_r in Hk].
Qed.

(** *** In order *)

Lemma prekeys_gives sql ps t kind n q :
  parse_statement sql = Some (Select q) -> se_table q = "prekeys" ->
  se_items q = Columns ["key_id"; "kind"; "classical"; "pq"; "public_classical"; "public_pq"; "signature"; "created_at"] ->
  limit_of q (numbered ps) = Some n -> se_order q = Some ("key_id", false) ->
  (forall p, holds prekeys_schema.1 (numbered ps) (se_where q) (prekey_columns p) = Some (bool_decide (pkr_kind p.2 = PreKeyKind_i64 kind))) ->
  gives sql ps t prekey_columns (fun l => l = sql_limit n (prekeys_of_kind kind t)).
Proof.
  intros Hp Ht Hi Hl Ho Hw. eapply (gives_intro 1 "prekeys" prekeys_schema prekey_columns _ (fun p => pkr_kind p.2 = PreKeyKind_i64 kind)); [by_vm|by rows_simpl|eassumption..| |].
  - intros [k r]. done.
  - rewrite Ho. intros k Hk Hs. f_equal. by apply sorted_by_key.
Qed.

Ltac where_column := intros p; etransitivity; [apply decided_holds; equals_param|f_equal; apply bool_decide_ext; cbn; split; congruence].

Lemma list_prekeys_gives kind limit t :
  gives list_prekeys_sql [into_param (PreKeyKind_i64 kind); into_param limit] t prekey_columns
    (fun l => l = sql_limit limit (prekeys_of_kind kind t)).
Proof. eapply prekeys_gives; [by_vm|by_vm|by_vm|by_vm|by_vm|]. intros [k []]; revert k. destruct kind; where_column. Qed.

Lemma take_one_time_prekey_gives t :
  gives take_one_time_prekey_sql [into_param (PreKeyKind_i64 OneTime)] t prekey_columns (fun l => l = take 1 (prekeys_of_kind OneTime t)).
Proof. eapply (prekeys_gives _ _ _ OneTime 1); [by_vm|by_vm|by_vm|by_vm|by_vm|]. intros [k []]; revert k. where_column. Qed.

Lemma count_prekeys_gives kind t db rows :
  represents db t -> exists q, parse_statement count_prekeys_sql = Some (Select q) /\
    is_Some (exec_select q (numbered [into_param (PreKeyKind_i64 kind)]) db) /\
    (answers q (numbered [into_param (PreKeyKind_i64 kind)]) db rows -> rows = [[I64 (Z.of_nat (length (prekeys_of_kind kind t)))]]).
Proof.
  intros Hrep. destruct (rep_table 1 db t _ _ Hrep eq_refl) as (trows & seq & Hdb & Hr & _). eexists. split; [by_vm|].
  assert (table_rows t "prekeys" = prekey_columns <$> map_to_list (t_prekeys t)) as Heq by by rows_simpl. rewrite Heq in Hr.
  assert (forall p, holds prekeys_schema.1 (numbered [into_param (PreKeyKind_i64 kind)]) (Some (Eq (Col "kind") (Arg 1))) (prekey_columns p) =
    Some (bool_decide (pkr_kind p.2 = PreKeyKind_i64 kind))) as Hw by (intros [k []]; revert k; destruct kind; where_column).
  split.
  - unfold exec_select. cbn [se_table se_where se_items]. rewrite Hdb. cbn [mbind option_bind tb_columns tb_rows].
    symmetry in Hr. destruct (keep_permutation _ _ _ _ Hr (keep_enc prekey_columns _ _ _ Hw)) as (raw & -> & _). cbn. eauto.
  - intros Ha. eapply (answers_count prekey_columns _ (map_to_list (t_prekeys t))) in Ha as ->; [|exact Hdb|exact Hr|exact Hw|done].
    do 4 f_equal. apply Permutation_length. unfold prekeys_of_kind, rows_by_key. by rewrite merge_sort_Permutation.
Qed.

Lemma list_conversations_gives t :
  gives list_conversations_sql [] t conversation_columns
    (fun l => l ≡ₚ map_to_list (t_conversations t) /\ StronglySorted newer l).
Proof.
  eapply (gives_intro 2 "conversations" conversations_schema conversation_columns _ (fun _ => True));
    [by_vm|by rows_simpl|by_vm|by_vm|by_vm|by_vm|done|by intros [? []]|].
  intros k Hk Hs. rewrite filter_all in Hk by done. rewrite sql_limit_all. by split.
Qed.

Lemma list_messages_gives c before limit t :
  gives list_messages_sql [into_param c; into_param before; into_param limit] t message_columns
    (fun l => l = sql_limit limit (filter (in_page c before) (reverse (rows_by_key (t_messages t))))).
Proof.
  assert (forall x, holds messages_schema.1 (numbered [into_param c; into_param before; into_param limit])
    (Some (And (Eq (Col "conversation_id") (Arg 1)) (Or (IsNull (Arg 2)) (Less (Col "id") (Arg 2))))) (message_columns x) =
    Some (bool_decide (in_page c before x))) as Hw.
  { intros [k row]. unfold in_page. destruct before as [b|]; cbn [fst snd].
    - etransitivity; [apply decided_holds, decided_and; [equals_param|apply (decided_or _ _ _ _ _ false); [by_vm|eapply decided_less; [by_vm|by_vm|reflexivity]]]|].
      f_equal. cbn [orb]. apply eq_true_iff_eq. rewrite andb_true_iff, !bool_decide_eq_true, Z.ltb_lt. destruct row. cbn.
      split; intros [? ?]; split; congruence || done.
    - etransitivity; [eapply decided_holds, (decided_and _ _ _ _ _ _ true); [equals_param|by_vm]|].
      f_equal. rewrite andb_true_r. apply bool_decide_ext. destruct row. cbn. naive_solver. }
  eapply (gives_intro 4 "messages" messages_schema message_columns);
    [by_vm|by rows_simpl|by_vm|by_vm|by_vm|by_vm|exact Hw|by intros [? []]|].
  intros k Hk Hs. f_equal. by apply sorted_by_key_desc.
Qed.

(** At most one message of a conversation has an id of the sender. *)
Definition uids_unique (t : Tables) : Prop :=
  forall i j r s, t_messages t !! i = Some r -> t_messages t !! j = Some s ->
    mrr_conversation_id r = mrr_conversation_id s -> mrr_message_id r = mrr_message_id s -> i = j.

Lemma load_message_by_uid_gives c uid t :
  uids_unique t ->
  gives load_message_by_uid_sql [into_param c; into_param uid] t message_columns
    (fun l => l = option_list (List.find (same_uid c uid) (rows_by_key (t_messages t)))).
Proof.
  intros Hu. eapply (gives_intro 4 "messages" messages_schema message_columns _ (fun p => same_uid c uid p = true));
    [by_vm|by rows_simpl|by_vm|by_vm|by_vm|by_vm| |by intros [? []]|].
  - intros [k []]. etransitivity; [apply decided_holds, decided_and; equals_param|]. f_equal. unfold same_uid. cbn.
    apply eq_true_iff_eq. rewrite bool_decide_eq_true, !andb_true_iff, !bool_decide_eq_true. split; intros [? ?]; split; congruence.
  - intros k Hk _. rewrite sql_limit_all.
    assert (forall p, p ∈ k <-> same_uid c uid p = true /\ p ∈ rows_by_key (t_messages t)) as Hin.
    { intros p. rewrite Hk, list_elem_of_filter. unfold rows_by_key. by rewrite merge_sort_Permutation. }
    assert (NoDup k) as Hnd by (rewrite Hk; apply NoDup_filter, NoDup_map_to_list).
    assert (forall p q, p ∈ k -> q ∈ k -> p = q) as Hone.
    { intros [i r] [j s] [Hp1 Hp2%elem_of_rows]%Hin [Hq1 Hq2%elem_of_rows]%Hin. cbn in *. unfold same_uid in *. cbn in *.
      apply andb_true_iff in Hp1 as [H1%bool_decide_eq_true H2%bool_decide_eq_true], Hq1 as [H3%bool_decide_eq_true H4%bool_decide_eq_true].
      assert (i = j) as -> by (eapply Hu; eauto; congruence). congruence. }
    destruct (List.find _ _) as [p|] eqn:Hf.
    + apply List.find_some in Hf as [Hp1%list_elem_of_In Hp2]. assert (p ∈ k) as Hp by by apply Hin. cbn.
      destruct k as [|x [|y k]]; [by apply elem_of_nil in Hp| |].
      * f_equal. apply Hone; [left|done].
      * exfalso. apply NoDup_cons in Hnd as [Hx _]. apply Hx. rewrite (Hone x y); [left|left|right; left].
    + destruct k as [|x k]; [done|]. exfalso. assert (x ∈ x :: k) as [Hx1 Hx2]%Hin by left.
      apply list_elem_of_In in Hx2. apply (List.find_none _ _ Hf) in Hx2. congruence.
Qed.

Lemma list_media_for_message_gives m t :
  gives list_media_for_message_sql [into_param m] t media_columns
    (fun l => l ≡ₚ filter (fun p => mdr_message_id p.2 = Some m) (map_to_list (t_media t)) /\ StronglySorted older_media l).
Proof.
  eapply (gives_intro 6 "media" media_schema media_columns _ (fun p => mdr_message_id p.2 = Some m)); [by_vm|by rows_simpl|by_vm|by_vm|by_vm|by_vm| | |].
  - intros [k [[x|] ? ? ? ? ?]].
    + etransitivity; [apply decided_holds; equals_param|]. f_equal. apply bool_decide_ext. cbn. split; congruence.
    + rewrite bool_decide_false by done. by_vm.
  - by intros [k [[] ? ? ? ? ?]].
  - intros k Hk Hs. rewrite sql_limit_all. by split.
Qed.

#[export] Instance id_le_total {A} : Total (@id_le A).
Proof. intros a b. apply string_leb_total. Qed.
#[export] Instance id_le_trans {A} : Transitive (@id_le A).
Proof. intros a b c. apply string_leb_trans. Qed.

Lemma list_devices_gives t :
  gives list_devices_sql [] t device_columns (fun l => l = merge_sort id_le (map_to_list (t_devices t))).
Proof.
  eapply (gives_intro 8 "devices" devices_schema device_columns _ (fun _ => True)); [by_vm|by rows_simpl|by_vm|by_vm|by_vm|by_vm|done| |].
  - by intros [k [? ? []]].
  - intros k Hk Hs. rewrite filter_all in Hk by done. rewrite sql_limit_all. apply (StronglySorted_unique_strong id_le).
    + intros [i x] [j y] H1 H2 Hle Hle'. unfold id_le in *. cbn in *. assert (i = j) as <- by by apply String.leb_antisym.
      rewrite Hk in H1. rewrite merge_sort_Permutation in H2. rewrite elem_of_map_to_list in *. congruence.
    + done.
    + apply (StronglySorted_merge_sort _ _).
    + by rewrite Hk, merge_sort_Permutation.
Qed.
