(* ===== verification/StoreRows.v ===== *)
(** The row mappers of [presidium-storage/src/store.rs] read every row of the
    tables back: reading the columns of a row through the wrapper gives the
    record that Store makes of it. *)

From stdpp Require Import sorting.
From S2P Require Import Prelude Constants Prims Ratchet Identity Keys Sqleet SqleetProps SqlProps SessionState Database Store StoreProps.
From S2P Require Import SqlText SqlSem StoreSql StoreRep StoreMeaning StoreQueries.

(** A value the wrapper can bind and read back: texts are UTF-8, as Rust
    strings are, and lengths fit in a [c_int]. *)
Definition value_ok (p : Param) : Prop :=
  match p with
  | Text s => is_utf8 s /\ Z.of_nat (length (bs s)) < 2 ^ 31
  | Blob b => Z.of_nat (length b) < 2 ^ 31
  | _ => True
  end.

Lemma value_ok_fits ps : Forall value_ok ps -> Forall param_fits ps.
Proof. intros Hok. eapply Forall_impl; [exact Hok|]. by intros [] ?. Qed.

(** ** The columns of a row *)

Definition int_at (row : tuple) (i : nat) : Z := match row !! i with Some (I64 n) => n | _ => 0 end.
Definition text_at (row : tuple) (i : nat) : string := match row !! i with Some (Text s) => s | _ => "" end.
Definition blob_at (row : tuple) (i : nat) : bytes := match row !! i with Some (Blob b) => b | _ => [] end.
Definition option_int_at (row : tuple) (i : nat) : option Z := match row !! i with Some (I64 n) => Some n | _ => None end.
Definition option_text_at (row : tuple) (i : nat) : option string := match row !! i with Some (Text s) => Some s | _ => None end.

Definition identity_of (row : tuple) : IdentityRecord :=
  {| ir_device_id := text_at row 0; ir_classical_seed := blob_at row 1; ir_pq_seed := blob_at row 2; ir_created_at := int_at row 3 |}.
Definition prekey_of (row : tuple) : PreKeyRecord :=
  {| pk_key_id := int_at row 0; pk_kind := if int_at row 1 =? 0 then Signed else OneTime; pk_classical := blob_at row 2; pk_pq := blob_at row 3;
     pk_public_classical := blob_at row 4; pk_public_pq := blob_at row 5; pk_signature := blob_at row 6; pk_created_at := int_at row 7 |}.
Definition conversation_of (row : tuple) : ConversationRecord :=
  {| cv_id := text_at row 0; cv_peer_classical := blob_at row 1; cv_peer_pq := blob_at row 2; cv_is_group := i64_bool (int_at row 3);
     cv_created_at := int_at row 4 |}.
Definition session_cols_of (row : tuple) : bool * string * option string * Z :=
  (i64_bool (int_at row 0), text_at row 1, option_text_at row 2, int_at row 3).
Definition message_of (row : tuple) : MessageRecord :=
  {| mr_id := int_at row 0; mr_conversation_id := text_at row 1; mr_message_id := blob_at row 2; mr_sender_classical := blob_at row 3;
     mr_ciphertext := blob_at row 4; mr_header := text_at row 5; mr_content_type := int_at row 6;
     mr_direction := if int_at row 7 =? 0 then Incoming else Outgoing; mr_status := status_from_i64 (int_at row 8); mr_created_at := int_at row 9 |}.
Definition sender_key_of (row : tuple) : SenderKeyRecord :=
  {| skr_group_id := text_at row 0; skr_sender_classical := blob_at row 1; skr_chain_key := blob_at row 2; skr_message_index := int_at row 3;
     skr_key_id := int_at row 4; skr_updated_at := int_at row 5 |}.
Definition media_of (row : tuple) : MediaRecord :=
  {| md_id := text_at row 0; md_message_id := option_int_at row 1; md_kind := media_kind_from_i64 (int_at row 2); md_encryption_key := blob_at row 3;
     md_size := int_at row 4; md_relative_path := text_at row 5; md_created_at := int_at row 6 |}.
Definition device_of (row : tuple) : DeviceRecord :=
  {| dv_device_id := text_at row 0; dv_classical := blob_at row 1; dv_pq := blob_at row 2; dv_last_seen := option_int_at row 3 |}.

Section Mappers.
Context {E : Engine} {R : Resources E} {S : EngineSafe R} {D : Type} {V : SqlView E D} {L : SqlLaws V}.

(** The mapper reads the rows [out x] as [f]. *)
Definition mapper_reads {A T} (map : Row -> World -> result SqlError T) (out : A -> tuple) (f : tuple -> T) : Prop :=
  forall s w x rows, stmt_live s w -> sv_rows (stmt_view s w) = Some (out x :: rows) -> Forall value_ok (out x) ->
    map {| row_stmt := s |} w = Ok (f (out x)).

Lemma mapper_maps {A T} (map : Row -> World -> result SqlError T) (out : A -> tuple) f (l : list A) :
  mapper_reads map out f -> Forall (Forall value_ok) (out <$> l) -> maps_rows map (fun row => Ok (f row)) (out <$> l).
Proof.
  intros Hm Hok s w row rows Hl Hv Hin. pose proof Hin as (x & -> & _)%list_elem_of_fmap. apply (Hm s w x rows Hl Hv).
  rewrite Forall_forall in Hok. by apply Hok.
Qed.

Lemma value_ok_text row i t : Forall value_ok row -> row !! i = Some (Text t) -> is_utf8 t /\ Z.of_nat (length (bs t)) < 2 ^ 31.
Proof. intros Hok Hi. exact (Forall_lookup_1 _ _ _ _ Hok Hi). Qed.
Lemma value_ok_blob row i b : Forall value_ok row -> row !! i = Some (Blob b) -> Z.of_nat (length b) < 2 ^ 31.
Proof. intros Hok Hi. exact (Forall_lookup_1 _ _ _ _ Hok Hi). Qed.
Lemma value_ok_option_text row i o t :
  Forall value_ok row -> row !! i = Some (from_option Text Null o) -> o = Some t -> is_utf8 t /\ Z.of_nat (length (bs t)) < 2 ^ 31.
Proof. intros Hok Hi ->. by eapply value_ok_text. Qed.

Lemma read_string s w row rows i v :
  stmt_live s w -> sv_rows (stmt_view s w) = Some (row :: rows) -> 0 <= i < 2 ^ 31 -> Forall value_ok row -> row !! Z.to_nat i = Some (Text v) ->
  Row_get (T := string) {| row_stmt := s |} i w = Ok v.
Proof. intros Hl Hv Hi Hok Hr. destruct (value_ok_text _ _ _ Hok Hr). by eapply get_string. Qed.

Lemma read_bytes s w row rows i v :
  stmt_live s w -> sv_rows (stmt_view s w) = Some (row :: rows) -> 0 <= i < 2 ^ 31 -> Forall value_ok row -> row !! Z.to_nat i = Some (Blob v) ->
  Row_get (T := bytes) {| row_stmt := s |} i w = Ok v.
Proof. intros Hl Hv Hi Hok Hr. pose proof (value_ok_blob _ _ _ Hok Hr). by eapply get_bytes. Qed.

(** Reads one column after the other. *)
Ltac read_column Hl Hv Hok :=
  match type of Hv with
  | sv_rows _ = Some (?row :: ?rows) =>
      first
        [ erewrite (get_i64 _ _ row rows); [|exact Hl|exact Hv|lia|reflexivity]
        | erewrite (get_bool _ _ row rows); [|exact Hl|exact Hv|lia|reflexivity]
        | erewrite (get_option_i64 _ _ row rows); [|exact Hl|exact Hv|lia|reflexivity]
        | erewrite (read_string _ _ row rows); [|exact Hl|exact Hv|lia|exact Hok|reflexivity]
        | erewrite (read_bytes _ _ row rows); [|exact Hl|exact Hv|lia|exact Hok|reflexivity] ]
  end; cbn [mbind result_bind].
Ltac reads_tac := intros s w [k r] rows Hl Hv Hok; cbv delta [prekey_mapper conversation_mapper message_mapper sender_key_mapper media_mapper device_mapper] beta;
  repeat read_column Hl Hv Hok.

Lemma identity_reads : mapper_reads identity_mapper identity_out identity_of.
Proof. intros s w x rows Hl Hv Hok. unfold identity_mapper. repeat read_column Hl Hv Hok. reflexivity. Qed.

Lemma prekey_reads : mapper_reads prekey_mapper prekey_columns prekey_of.
Proof. reads_tac. reflexivity. Qed.

Lemma conversation_reads : mapper_reads conversation_mapper conversation_columns conversation_of.
Proof. reads_tac. reflexivity. Qed.

Lemma message_reads : mapper_reads message_mapper message_columns message_of.
Proof. reads_tac. reflexivity. Qed.

Lemma sender_key_reads : mapper_reads sender_key_mapper sender_key_columns sender_key_of.
Proof. reads_tac. reflexivity. Qed.

Lemma media_reads : mapper_reads media_mapper media_columns media_of.
Proof. reads_tac. by destruct r as [[] ? ? ? ? ?]. Qed.

Lemma device_reads : mapper_reads device_mapper device_columns device_of.
Proof. reads_tac. by destruct r as [? ? []]. Qed.

Lemma session_reads : mapper_reads session_mapper session_out session_cols_of.
Proof.
  intros s w [k [init keys ratchet used]] rows Hl Hv Hok. unfold session_mapper. do 2 read_column Hl Hv Hok.
  assert (session_out (k, {| sr_is_initiator := init; sr_session_keys := keys; sr_ratchet_state := ratchet; sr_last_used := used |}) !! Z.to_nat 2 =
    Some (from_option Text Null (text_of <$> ratchet))) as Hr by by destruct ratchet.
  erewrite (get_option_string _ _ _ rows); [|exact Hl|exact Hv|lia| |exact Hr].
  2:{ intros t. by eapply value_ok_option_text. }
  cbn [mbind result_bind]. read_column Hl Hv Hok. by destruct ratchet.
Qed.

Lemma doc_reads : mapper_reads (fun row => Row_get (T := bytes) row 0) doc_out (fun row => blob_at row 0).
Proof. intros s w x rows Hl Hv Hok. cbv beta. by read_column Hl Hv Hok. Qed.

Lemma count_reads : mapper_reads (fun row => Row_get (T := Z) row 0) (fun n => [I64 n]) (fun row => int_at row 0).
Proof. intros s w x rows Hl Hv Hok. cbv beta. by read_column Hl Hv Hok. Qed.
End Mappers.

(** ** The records of Store *)

Lemma prekey_of_columns p : prekey_of (prekey_columns p) = prekey_from_row p.
Proof. by destruct p. Qed.
Lemma conversation_of_columns p : conversation_of (conversation_columns p) = conversation_from_row p.
Proof. by destruct p. Qed.
Lemma message_of_columns p : message_of (message_columns p) = message_from_row p.
Proof. by destruct p. Qed.
Lemma sender_key_of_columns p : sender_key_of (sender_key_columns p) = sender_key_from_row p.
Proof. by destruct p as [[] ?]. Qed.
Lemma media_of_columns p : media_of (media_columns p) = media_from_row p.
Proof. by destruct p as [? [[] ? ? ? ? ?]]. Qed.
Lemma device_of_columns p : device_of (device_columns p) = device_from_row p.
Proof. by destruct p as [? [? ? []]]. Qed.
Lemma identity_of_columns r : identity_of (identity_out r) = r.
Proof. by destruct r. Qed.
Lemma session_cols_of_columns p :
  session_cols_of (session_out p) =
  (i64_bool (sr_is_initiator p.2), text_of (sr_session_keys p.2), text_of <$> sr_ratchet_state p.2, sr_last_used p.2).
Proof. by destruct p as [? [? ? [] ?]]. Qed.

(** ** What is read was stored *)

Lemma keep_subset P rows l : keep P rows = Some l -> l ⊆ rows.
Proof.
  revert l. induction rows as [|r rows IH]; cbn [keep]; intros l Hk; [by injection Hk as <-|].
  apply bind_Some in Hk as (b & _ & Hk). apply bind_Some in Hk as (l' & Hl & [= <-]). apply IH in Hl. destruct b; set_solver.
Qed.

Lemma fields_ok cols cs row out : Forall value_ok row -> mapM (field cols row) cs = Some out -> Forall value_ok out.
Proof.
  intros Hok Hm. apply mapM_Some in Hm. induction Hm as [|c v cs out Hf Hm IH]; constructor; [|done].
  apply bind_Some in Hf as (i & _ & Hi). exact (Forall_lookup_1 _ _ _ _ Hok Hi).
Qed.

Definition rows_ok (t : Tables) : Prop := forall name, Forall (Forall value_ok) (table_rows t name).

Lemma answers_ok q ps db t rows : represents db t -> rows_ok t -> answers q ps db rows -> Forall (Forall value_ok) rows.
Proof.
  intros Hrep Hok (tb & raw & Htb & Hk & Ha). destruct (se_items q) as [cs|]; [|subst; repeat constructor].
  destruct Ha as (n & sorted & _ & Hp & _ & Hpr).
  assert (Forall (Forall value_ok) (tb_rows tb)) as Htbok.
  { pose proof (rep_rows _ _ Hrep (se_table q)) as Hr. unfold rows_of in Hr. rewrite Htb in Hr. cbn in Hr. rewrite Hr. apply Hok. }
  assert (Forall (Forall value_ok) sorted) as Hs.
  { rewrite Hp. rewrite Forall_forall in *. intros r Hr. apply Htbok. by apply (keep_subset _ _ _ Hk). }
  unfold present in Hpr. assert (Forall (Forall value_ok) (sql_limit n sorted)) as Hs2.
  { unfold sql_limit. destruct (n <? 0); [done|by apply Forall_take]. }
  clear -Hs2 Hpr. apply mapM_Some in Hpr. induction Hpr as [|r o l out Hf Hm IH]; constructor.
  - eapply fields_ok; [by eapply Forall_inv|done].
  - apply IH. by eapply Forall_inv_tail.
Qed.
