(* ===== verification/StoreSqlFacts.v ===== *)
(** The methods of [presidium-storage/src/store.rs] over the wrapper, one
    statement at a time: what the engine is assumed to do with the SQL it is
    given, and what a call of [execute], [query_row] or [query_rows] with one
    of the texts does to a database that holds the tables of Store. *)

From stdpp Require Import sorting.
From S2P Require Import Prelude Constants Prims Ratchet Identity Keys Sqleet SqleetProps SqlProps SessionState Database DatabaseProps Store StoreProps.
From S2P Require Import SqlText SqlSem StoreSql StoreRep StoreMeaning StoreQueries StoreRows.

(** ** The engine follows the meaning of SQL

    [content] is the SQL tables of a database.  A text that SqlText reads has
    the meaning of SqlSem where that is defined; rows come in any order that
    the query allows.  [sqlite3_last_insert_rowid] is the id of the row that
    the last INSERT added.  Foreign keys are enforced, as on a connection that
    [Database::open] has set up. *)
Class SqlSemantics {E : Engine} {R : Resources E} {D : Type} (V : SqlView E D) (content : D -> relations) : Prop := {
  write_meaning sql st ps d :
    parse_statement sql = Some st ->
    match exec_write st ps (content d) with
    | Unsupported => True
    | Refused => denote (bs sql) ps d = None
    | Wrote db' _ => exists d', denote (bs sql) ps d = Some (d', []) /\ same_relations (content d') db'
    end;
  select_meaning sql q ps d :
    parse_statement sql = Some (Select q) -> is_Some (exec_select q ps (content d)) ->
    exists rows, denote (bs sql) ps d = Some (d, rows) /\ answers q ps (content d) rows;
  rowid_step s w w' sql st db' id :
    let v := stmt_view s w in
    stmt_live s w -> sv_rows v = None -> sv_sql v = bs sql -> parse_statement sql = Some st ->
    exec_write st (sv_params v) (content (visible (session (sv_db v) w))) = Wrote db' (Some id) ->
    sqlite3_step s w = (w', SQLITE_DONE) -> sqlite3_last_insert_rowid (sv_db v) w' = id;
  rowid_finalize s h w : stmt_live s w -> sqlite3_last_insert_rowid h (sqlite3_finalize s w).1 = sqlite3_last_insert_rowid h w
}.

(** An engine that starts and ends transactions when asked to. *)
Class ReliableExec {E : Engine} {R : Resources E} {D : Type} (V : SqlView E D) : Prop := {
  begin_ok h w : conn_live h w -> pending (session h w) = None -> (sqlite3_exec h (bs "BEGIN") w).2 = SQLITE_OK;
  commit_ok h w : conn_live h w -> is_Some (pending (session h w)) -> (sqlite3_exec h (bs "COMMIT") w).2 = SQLITE_OK
}.

(** The texts of the crate and their number of parameters. *)
Definition store_texts : list (string * nat) :=
  [(save_identity_sql, 4%nat); (load_identity_sql, 0%nat); (save_prekey_sql, 8%nat); (list_prekeys_sql, 2%nat); (count_prekeys_sql, 1%nat);
   (take_one_time_prekey_sql, 1%nat); (take_one_time_prekey_delete_sql, 1%nat); (delete_prekey_sql, 1%nat); (upsert_conversation_sql, 5%nat);
   (load_conversation_sql, 1%nat); (list_conversations_sql, 0%nat); (save_session_sql, 5%nat); (load_session_sql, 1%nat);
   (delete_session_sql, 1%nat); (insert_message_sql, 9%nat); (list_messages_sql, 3%nat); (load_message_by_uid_sql, 2%nat);
   (update_message_status_sql, 2%nat); (upsert_sender_key_sql, 6%nat); (load_sender_key_sql, 2%nat); (insert_media_sql, 7%nat);
   (load_media_sql, 1%nat); (list_media_for_message_sql, 1%nat); (save_doc_sql, 3%nat); (load_doc_sql, 1%nat); (delete_doc_sql, 1%nat);
   (upsert_device_sql, 4%nat); (list_devices_sql, 0%nat)].


(** ** What holds of the tables at all times *)

Record store_ok (t : Tables) : Prop := {
  so_sessions c : is_Some (t_sessions t !! c) -> is_Some (t_conversations t !! c);
  so_ids : ids_bounded t;
  so_uids : uids_unique t;
  so_rows : rows_ok t
}.

Lemma store_ok_empty : store_ok empty_tables.
Proof.
  split.
  - intros c [x Hx]. exfalso. cbn [empty_tables t_sessions] in Hx. by rewrite lookup_empty in Hx.
  - split; [done|]. intros id r Hr. cbn [empty_tables t_messages] in Hr. by rewrite lookup_empty in Hr.
  - intros i j r s Hr. cbn [empty_tables t_messages] in Hr. by rewrite lookup_empty in Hr.
  - intros name. unfold table_rows. repeat case_decide; try done; cbn; constructor.
Qed.

Lemma rows_ok_set {K} `{Countable K} {X} {enc : K * X -> tuple} {i name C key get set} (T : keyed_table enc i name C key get set) t m :
  rows_ok t -> (forall k x, m !! k = Some x -> get t !! k = Some x \/ Forall value_ok (enc (k, x))) -> rows_ok (set m t).
Proof.
  intros Hok Hm other. destruct (decide (other = name)) as [->|Hne]; [|rewrite (kt_other _ _ _ _ _ _ _ T) by done; apply Hok].
  rewrite (kt_rows _ _ _ _ _ _ _ T), (kt_get _ _ _ _ _ _ _ T), Forall_fmap. apply Forall_forall.
  intros [k x] Hin%elem_of_map_to_list. destruct (Hm k x Hin) as [Hx|Hx]; [|done]. specialize (Hok name).
  rewrite (kt_rows _ _ _ _ _ _ _ T), Forall_fmap, Forall_forall in Hok. apply (Hok (k, x)). by apply elem_of_map_to_list.
Qed.

Lemma rows_ok_insert {K} `{Countable K} {X} {enc : K * X -> tuple} {i name C key get set} (T : keyed_table enc i name C key get set) t k x :
  rows_ok t -> Forall value_ok (enc (k, x)) -> rows_ok (set (<[k := x]> (get t)) t).
Proof. intros Hok Hx. apply (rows_ok_set T); [done|]. intros k' x' [[<- <-]|[_ ?]]%lookup_insert_Some; auto. Qed.

Lemma rows_ok_delete {K} `{Countable K} {X} {enc : K * X -> tuple} {i name C key get set} (T : keyed_table enc i name C key get set) t k :
  rows_ok t -> rows_ok (set (delete k (get t)) t).
Proof. intros Hok. apply (rows_ok_set T); [done|]. intros k' x' [_ ?]%lookup_delete_Some. auto. Qed.

Lemma rows_ok_messages t m seq :
  rows_ok t -> (forall k x, m !! k = Some x -> t_messages t !! k = Some x \/ Forall value_ok (message_columns (k, x))) ->
  rows_ok (set_messages m seq t).
Proof.
  intros Hok Hm other. destruct (decide (other = "messages")) as [->|Hne].
  - rewrite messages_rows, Forall_fmap. apply Forall_forall. intros [k x] Hin%elem_of_map_to_list.
    destruct (Hm k x Hin) as [Hx|Hx]; [|done]. specialize (Hok "messages"). rewrite messages_rows, Forall_fmap, Forall_forall in Hok.
    apply (Hok (k, x)). by apply elem_of_map_to_list.
  - replace (table_rows (set_messages m seq t) other) with (table_rows t other); [apply Hok|].
    unfold table_rows. repeat case_decide; done || congruence.
Qed.

(** ** A database that holds the tables *)

Section Calls.
Context {E : Engine} {R : Resources E} {S : EngineSafe R} {D : Type} {V : SqlView E D} {L : SqlLaws V}.
Context {content : D -> relations} {SEM : SqlSemantics V content}.

(** The connection is open and idle, and the tables are those of [db]. *)
Record holds_tables (self : OpenDatabase) (w : World) (db : Db) : Prop := {
  ht_live : conn_live (conn_db (db_conn self)) w;
  ht_idle : pending (session (conn_db (db_conn self)) w) = None;
  ht_saved : saved db = None;
  ht_tables : represents (content (committed (session (conn_db (db_conn self)) w))) (live db);
  ht_ok : store_ok (live db)
}.

Context (fuel : nat) (self : OpenDatabase).
Abbreviation h := (conn_db (db_conn self)).

Lemma holds_same w w' db : holds_tables self w db -> quiet w w' -> same_or_abandoned (session h w) (session h w') -> holds_tables self w' db.
Proof.
  intros [H1 H2 H3 H4 H5] Hq Hs. assert (session h w' = session h w) as Heq.
  { destruct Hs as [->| ->]; [done|]. unfold abandon. destruct (session h w) as [c p]. cbn in *. by subst. }
  split; [by apply Hq|by rewrite Heq|done|by rewrite Heq|done].
Qed.

Lemma visible_idle w db : holds_tables self w db -> visible (session h w) = committed (session h w).
Proof. intros Hw. unfold visible. by rewrite (ht_idle _ _ _ Hw). Qed.

(** *** Statements that write *)

Lemma does_denotes sql ps d t o :
  represents (content d) t -> does sql ps t o ->
  exists st, parse_statement sql = Some st /\
    match o with
    | None => denote (bs sql) (numbered ps) d = None
    | Some (t', want) => exists d' db' id, denote (bs sql) (numbered ps) d = Some (d', []) /\ represents (content d') t' /\
        exec_write st (numbered ps) (content d) = Wrote db' id /\ (want = None \/ id = want)
    end.
Proof.
  intros Hrep Hdoes. specialize (Hdoes _ Hrep). unfold sql_write in Hdoes.
  destruct (parse_statement sql) as [st|] eqn:Hp; [|by destruct o as [[]|]; [destruct Hdoes as (? & ? & ? & _)|]].
  exists st. split; [done|]. pose proof (write_meaning sql st (numbered ps) d Hp) as Hm. destruct o as [[t' want]|].
  - destruct Hdoes as (db' & id & Hw & Hrep' & Hwant). rewrite Hw in Hm. destruct Hm as (d' & Hd & Hc). exists d', db', id.
    split_and!; [done|by rewrite Hc|done|done].
  - by rewrite Hdoes in Hm.
Qed.

Lemma execute_quiet sql ps w w' r : conn_live h w -> Connection_execute fuel (db_conn self) sql ps w = (w', r) -> quiet w w'.
Proof. intros Hh Hrun. pose proof (program_quiet _ _ w (prog_execute (db_conn self) fuel sql ps) Hh) as Hq. by rewrite Hrun in Hq. Qed.

(** An error leaves the content alone, except that the engine may give up an
    open transaction. *)
Lemma execute_error sql ps w w' e :
  conn_live h w -> Forall param_fits ps -> (0 < fuel)%nat ->
  (forall d rows, denote (bs sql) (numbered ps) (visible (session h w)) = Some (d, rows) -> rows = []) ->
  Connection_execute fuel (db_conn self) sql ps w = (w', Err e) -> same_or_abandoned (session h w) (session h w').
Proof.
  intros Hh Hfit Hfuel Hnone Hrun. destruct (execute_query fuel (db_conn self) sql ps w) as [l Hq]. rewrite Hrun in Hq. cbn in Hq.
  apply (query_rows_run _ _ _ _ _ (fun _ => Ok tt)) in Hq as [Hq _]; [|done..|].
  - inversion Hq as [d rows Hd Hs Hr|d rows s' e' Hd Hne|s' e' Hs]; subst; [|by apply Hnone in Hd|done].
    by rewrite (Hnone _ _ Hd) in Hr.
  - intros d rows Hd. rewrite (Hnone _ _ Hd). split; [|cbn; lia]. by intros s w1 row rest _ _ Hin%elem_of_nil.
Qed.

Lemma execute_done sql ps w w' r db o :
  holds_tables self w db -> does sql ps (live db) o -> Forall value_ok ps -> (0 < fuel)%nat ->
  execute_ fuel self sql ps w = (w', r) ->
  (exists t' want, r = Ok tt /\ forallb no_nul ps = true /\ o = Some (t', want) /\
     (store_ok t' -> holds_tables self w' (set_live t' db)) /\
     (forall i, want = Some i -> Connection_last_insert_rowid (db_conn self) w' = i)) \/
  (exists e, r = Err e /\ holds_tables self w' db).
Proof.
  intros Hw Hdoes Hok Hfuel Hrun. pose proof (ht_live _ _ _ Hw) as Hh. pose proof (value_ok_fits _ Hok) as Hfit.
  unfold execute_, sql_, with_err in Hrun. rewrite M_bind_eq in Hrun.
  destruct (Connection_execute fuel (db_conn self) sql ps w) as [w1 r1] eqn:Hx. pose proof (execute_quiet _ _ _ _ _ Hh Hx) as Hq.
  destruct (does_denotes sql ps _ _ o (ht_tables _ _ _ Hw) Hdoes) as (st & Hp & Ho). rewrite <- (visible_idle w db Hw) in Ho.
  assert (forall d rows, denote (bs sql) (numbered ps) (visible (session h w)) = Some (d, rows) -> rows = []) as Hnone.
  { intros d rows Hd. rewrite Hd in Ho. destruct o as [[t' want]|]; [|done]. destruct Ho as (? & ? & ? & [= -> ->] & _). done. }
  destruct r1 as [n|e|p]; cbn [map_err] in Hrun.
  - injection Hrun as <- <-. left. apply execute_trace in Hx as (Hnn & s & w2 & w3 & Hl2 & Hv & Hs & Hstep & Hl3 & ->); [|done..].
    pose proof (step_first s w2 w3 SQLITE_DONE Hl2 ltac:(by rewrite Hv) Hstep) as Hf. cbv zeta in Hf. rewrite Hv in Hf. cbn in Hf.
    destruct Hf as (d & rows & Hd & _ & Hs3 & _). rewrite Hs in Hd, Hs3. rewrite Hd in Ho. destruct o as [[t' want]|]; [|done].
    destruct Ho as (d' & db' & id & [= <- ->] & Hrep & Hw' & Hwant). exists t', want. split; [done|]. split; [done|]. split; [done|]. split.
    + intros Hst. split; cbn [set_live saved live]; [by apply Hq| | |rewrite finalize_session by done|done].
      * rewrite finalize_session by done. rewrite Hs3. unfold write. by rewrite (ht_idle _ _ _ Hw).
      * apply Hw.
      * rewrite Hs3. unfold write. by rewrite (ht_idle _ _ _ Hw).
    + intros i ->. destruct Hwant as [?| ->]; [done|]. unfold Connection_last_insert_rowid. rewrite rowid_finalize by done.
      pose proof (rowid_step s w2 w3 sql st db' i) as Hrow. cbv zeta in Hrow. rewrite Hv in Hrow. cbn in Hrow. rewrite Hs in Hrow. by apply Hrow.
  - injection Hrun as <- <-. right. exists (Database e). split; [done|]. eapply holds_same; [done|done|]. by eapply execute_error.
  - exfalso. destruct (execute_query fuel (db_conn self) sql ps w) as [l Hqq]. rewrite Hx in Hqq. cbn in Hqq.
    apply (query_rows_run _ _ _ _ _ (fun _ => Ok tt)) in Hqq as [Hqq _]; [|done..|].
    + inversion Hqq as [d rows Hd Hs Hr| |]. rewrite (Hnone _ _ Hd) in Hr. done.
    + intros d rows Hd. rewrite (Hnone _ _ Hd). split; [|cbn; lia]. by intros s w2 row rest _ _ Hin%elem_of_nil.
Qed.

(** *** Queries *)

Lemma gives_denotes {A} sql ps d t (out : A -> tuple) P :
  represents (content d) t -> rows_ok t -> gives sql ps t out P ->
  exists l, P l /\ Forall (Forall value_ok) (out <$> l) /\ denote (bs sql) (numbered ps) d = Some (d, out <$> l).
Proof.
  intros Hrep Hok Hg. destruct (Hg _ Hrep) as (q & Hp & Hs & Hans). destruct (select_meaning sql q (numbered ps) d Hp Hs) as (rows & Hd & Ha).
  destruct (Hans rows Ha) as (l & Hl & ->). exists l. split_and!; [done| |done]. by eapply answers_ok.
Qed.

Lemma write_visible (s : Session D) : write (visible s) s = s.
Proof. unfold write, visible. by destruct s as [c [p|]]. Qed.

Lemma visible_write d (s : Session D) : visible (write d s) = d.
Proof. unfold write, visible. by destruct s as [c [p|]]. Qed.

Lemma mapM_ok {A T} (f : A -> T) (l : list A) : mapM (fun x => Ok (f x) : result SqlError T) l = Ok (map f l).
Proof. induction l as [|x l IH]; [done|]. cbn [mapM]. by rewrite IH. Qed.

Lemma query_rows_quiet {T} sql ps (map : Row -> World -> result SqlError T) w w' r :
  conn_live h w -> Connection_query_rows fuel (db_conn self) sql ps map w = (w', r) -> quiet w w'.
Proof. intros Hh Hrun. pose proof (program_quiet _ _ w (prog_query_rows (db_conn self) T fuel sql ps map) Hh) as Hq. by rewrite Hrun in Hq. Qed.

Lemma query_row_quiet {T} sql ps (map : Row -> World -> result SqlError T) w w' r :
  conn_live h w -> Connection_query_row (db_conn self) sql ps map w = (w', r) -> quiet w w'.
Proof. intros Hh Hrun. pose proof (program_quiet _ _ w (prog_query_row (db_conn self) T sql ps map) Hh) as Hq. by rewrite Hrun in Hq. Qed.

Lemma query_rows_done {A T} sql ps (mapper : Row -> World -> result SqlError T) (out : A -> tuple) f P w w' r db :
  holds_tables self w db -> gives sql ps (live db) out P -> mapper_reads mapper out f -> Forall value_ok ps ->
  (forall l, P l -> (length l < fuel)%nat) ->
  sql_ (Connection_query_rows fuel (db_conn self) sql ps mapper) w = (w', r) ->
  (exists l, r = Ok (map (fun x => f (out x)) l) /\ P l /\ forallb no_nul ps = true /\ holds_tables self w' db) \/
  (exists e, r = Err e /\ holds_tables self w' db).
Proof.
  intros Hw Hg Hm Hok Hfuel Hrun. pose proof (ht_live _ _ _ Hw) as Hh.
  destruct (gives_denotes sql ps _ _ out P (ht_tables _ _ _ Hw) (so_rows _ (ht_ok _ _ _ Hw)) Hg) as (l & Hl & Hvals & Hd).
  rewrite <- (visible_idle w db Hw) in Hd. unfold sql_, with_err in Hrun.
  destruct (Connection_query_rows fuel (db_conn self) sql ps mapper w) as [w1 r1] eqn:Hx. pose proof (query_rows_quiet _ _ _ _ _ _ Hh Hx) as Hq.
  injection Hrun as <- <-. apply (query_rows_run _ _ _ _ _ (fun row => Ok (f row))) in Hx as [Hres Hnn]; [|done|by apply value_ok_fits| |].
  - destruct (forallb no_nul ps) eqn:Hnul; [|destruct Hnn as (Hs & e & ->); [done|right; exists (Database e); split; [done|eapply holds_same; [done..|by left]]]].
    inversion Hres as [d rows Hd' Hs Hr|d rows s' e Hd' Hne Hs He|s' e Hs He]; subst.
    + rewrite Hd in Hd'. injection Hd' as <- <-. rewrite write_visible in Hs. left. exists l. split_and!; [|done|done|].
      * rewrite mapM_ok. cbn [map_err]. f_equal. clear. induction l as [|x l IH]; [done|]. cbn. by f_equal.
      * eapply holds_same; [done|done|]. left. by rewrite Hs.
    + rewrite Hd in Hd'. injection Hd' as <- <-. rewrite write_visible in Hs. right. exists (Database e). split; [done|]. by eapply holds_same.
    + right. exists (Database e). split; [done|]. by eapply holds_same.
  - specialize (Hfuel l Hl). lia.
  - intros d rows. rewrite Hd. intros [= <- <-]. split; [by apply mapper_maps|]. rewrite length_fmap. by apply Hfuel.
Qed.

Lemma query_row_done {A T} sql ps (mapper : Row -> World -> result SqlError T) (out : A -> tuple) f P w w' r db :
  holds_tables self w db -> gives sql ps (live db) out P -> mapper_reads mapper out f -> Forall value_ok ps ->
  sql_ (Connection_query_row (db_conn self) sql ps mapper) w = (w', r) ->
  (exists l, r = Ok ((fun x => f (out x)) <$> head l) /\ P l /\ forallb no_nul ps = true /\ holds_tables self w' db) \/
  (exists e, r = Err e /\ holds_tables self w' db).
Proof.
  intros Hw Hg Hm Hok Hrun. pose proof (ht_live _ _ _ Hw) as Hh.
  destruct (gives_denotes sql ps _ _ out P (ht_tables _ _ _ Hw) (so_rows _ (ht_ok _ _ _ Hw)) Hg) as (l & Hl & Hvals & Hd).
  rewrite <- (visible_idle w db Hw) in Hd. unfold sql_, with_err in Hrun.
  destruct (Connection_query_row (db_conn self) sql ps mapper w) as [w1 r1] eqn:Hx. pose proof (query_row_quiet _ _ _ _ _ _ Hh Hx) as Hq.
  injection Hrun as <- <-. apply (query_row_run _ _ _ _ (fun row => Ok (f row))) in Hx; [|done|by apply value_ok_fits|].
  - destruct Hx as [(d & rows & Hnn & Hd' & Hs & ->)|(e & Hs & ->)].
    + rewrite Hd in Hd'. injection Hd' as <- <-. rewrite write_visible in Hs. left. exists l. split_and!; [|done|done|].
      * by destruct l.
      * eapply holds_same; [done|done|]. by left.
    + right. exists (Database e). split; [done|]. by eapply holds_same.
  - intros d rows. rewrite Hd. intros [= <- <-]. by apply mapper_maps.
Qed.

(** *** An engine that does not fail *)

Context {known : bytes -> Z -> Prop} {RL : Reliable known}.

Lemma execute_runs sql ps w db t' want :
  holds_tables self w db -> does sql ps (live db) (Some (t', want)) -> Forall value_ok ps -> (0 < fuel)%nat -> forallb no_nul ps = true ->
  has_nul sql = false -> known (bs sql) (Z.of_nat (length ps)) -> Z.of_nat (length ps) < 2 ^ 31 ->
  (execute_ fuel self sql ps w).2 = Ok tt.
Proof.
  intros Hw Hdoes Hok Hfuel Hnn Hsql Hk Hlen. destruct (does_denotes sql ps _ _ _ (ht_tables _ _ _ Hw) Hdoes) as (st & _ & d & db' & id & Hd & _).
  rewrite <- (visible_idle w db Hw) in Hd. destruct (execute_exact fuel (db_conn self) sql ps w d []) as [n Hn]; try done.
  - apply Hw.
  - by apply value_ok_fits.
  - unfold execute_, sql_, with_err. rewrite M_bind_eq. destruct (Connection_execute fuel (db_conn self) sql ps w) as [w1 r1]. cbn in Hn. by subst r1.
Qed.

Lemma query_rows_runs {A T} sql ps (mapper : Row -> World -> result SqlError T) (out : A -> tuple) f P w db :
  holds_tables self w db -> gives sql ps (live db) out P -> mapper_reads mapper out f -> Forall value_ok ps ->
  (forall l, P l -> (length l < fuel)%nat) -> forallb no_nul ps = true ->
  has_nul sql = false -> known (bs sql) (Z.of_nat (length ps)) -> Z.of_nat (length ps) < 2 ^ 31 ->
  exists l, (Connection_query_rows fuel (db_conn self) sql ps mapper w).2 = Ok l.
Proof.
  intros Hw Hg Hm Hok Hfuel Hnn Hsql Hk Hlen.
  destruct (gives_denotes sql ps _ _ out P (ht_tables _ _ _ Hw) (so_rows _ (ht_ok _ _ _ Hw)) Hg) as (l & Hl & Hvals & Hd).
  rewrite <- (visible_idle w db Hw) in Hd.
  destruct (query_rows_exact fuel (db_conn self) sql ps mapper (fun row => Ok (f row)) w _ _ (ht_live _ _ _ Hw) (mapper_maps _ _ _ _ Hm Hvals)
    (value_ok_fits _ Hok) Hnn Hsql Hk Hlen Hd) as (w' & -> & _); [rewrite length_fmap; by apply Hfuel|].
  cbn [snd]. rewrite mapM_ok. by eexists.
Qed.

Lemma query_row_runs {A T} sql ps (mapper : Row -> World -> result SqlError T) (out : A -> tuple) f P w db :
  holds_tables self w db -> gives sql ps (live db) out P -> mapper_reads mapper out f -> Forall value_ok ps -> forallb no_nul ps = true ->
  has_nul sql = false -> known (bs sql) (Z.of_nat (length ps)) -> Z.of_nat (length ps) < 2 ^ 31 ->
  exists o, (Connection_query_row (db_conn self) sql ps mapper w).2 = Ok o.
Proof.
  intros Hw Hg Hm Hok Hnn Hsql Hk Hlen.
  destruct (gives_denotes sql ps _ _ out P (ht_tables _ _ _ Hw) (so_rows _ (ht_ok _ _ _ Hw)) Hg) as (l & Hl & Hvals & Hd).
  rewrite <- (visible_idle w db Hw) in Hd.
  destruct (query_rows_exact (Datatypes.S (length l)) (db_conn self) sql ps mapper (fun row => Ok (f row)) w _ _ (ht_live _ _ _ Hw)
    (mapper_maps _ _ _ _ Hm Hvals) (value_ok_fits _ Hok) Hnn Hsql Hk Hlen Hd) as (w' & Hrun & _); [rewrite length_fmap; lia|].
  rewrite mapM_ok in Hrun. eapply (query_row_first (Datatypes.S (length l))); [by rewrite Hrun|lia].
Qed.
End Calls.
