(* ===== verification/StoreSqlProps.v ===== *)
(** The methods of [presidium-storage/src/store.rs] implement the operations of
    Store: whatever the engine's failures, a method that succeeds has done what
    Store says and returned what Store returns, a method that fails has changed
    nothing, and on an engine that does not fail the methods succeed exactly
    when Store does. *)

From stdpp Require Import sorting.
From S2P Require Import Prelude Constants Prims Ratchet Identity Keys Sqleet SqleetProps SqlProps SessionState Database DatabaseProps Store StoreProps.
From S2P Require Import SqlText SqlSem StoreSql StoreRep StoreMeaning StoreQueries StoreRows StoreSqlFacts.

(** ** The calls on the tables *)

Definition texts_of (ps : list Param) : list string := omap (fun p => match p with Text s => Some s | _ => None end) ps.

Lemma no_nul_texts ps : forallb no_nul ps = negb (existsb has_nul (texts_of ps)).
Proof. induction ps as [|[] ps IH]; cbn; [done|done|done|by rewrite IH, negb_orb|done]. Qed.

Lemma bind_texts_run {A} ps texts (k : M Db StorageError A) db :
  texts_of ps = texts ->
  (bind_texts texts;; k) db =
  if forallb no_nul ps then k db else (db, Err (Database {| sql_code := 0; sql_message := "text param contains a NUL byte" |})).
Proof. intros <-. rewrite no_nul_texts. unfold bind_texts. by destruct (existsb has_nul (texts_of ps)). Qed.

(** The operation of Store with the effect [o] and the result [val]; it is
    refused when a text holds a NUL byte. *)
Definition write_spec {A} (spec : M Db StorageError A) (ps : list Param) (db : Db) (o : option (Tables * option Z)) (val : option Z -> A) : Prop :=
  match (if forallb no_nul ps then o else None) with
  | Some (t', want) => exists db', spec db = (db', Ok (val want)) /\ live db' = t' /\ saved db' = saved db /\ store_ok t'
  | None => exists e, spec db = (db, Err e)
  end.

Definition read_spec {A} (spec : M Db StorageError A) (ps : list Param) (db : Db) (good : A -> Prop) : Prop :=
  if forallb no_nul ps then exists a, spec db = (db, Ok a) /\ good a else exists e, spec db = (db, Err e).

Lemma write_spec_update ps texts f db t' :
  texts_of ps = texts -> f (live db) = t' -> store_ok t' -> write_spec (bind_texts texts;; update_tables f) ps db (Some (t', None)) (fun _ => tt).
Proof. intros Ht <- Hok. unfold write_spec. rewrite (bind_texts_run ps) by done. destruct (forallb no_nul ps); [|by eexists]. by eexists. Qed.

Lemma write_spec_update0 ps f db t' :
  texts_of ps = [] -> f (live db) = t' -> store_ok t' -> write_spec (update_tables f) ps db (Some (t', None)) (fun _ => tt).
Proof. intros Ht <- Hok. unfold write_spec. rewrite no_nul_texts, Ht. by eexists. Qed.

Lemma read_spec_gets {A} ps texts (f : Db -> A) db (good : A -> Prop) :
  texts_of ps = texts -> good (f db) -> read_spec (bind_texts texts;; gets f) ps db good.
Proof. intros Ht Hg. unfold read_spec. rewrite (bind_texts_run ps) by done. destruct (forallb no_nul ps); by eexists. Qed.

Lemma read_spec_gets0 {A} ps (f : Db -> A) db (good : A -> Prop) : texts_of ps = [] -> good (f db) -> read_spec (gets f) ps db good.
Proof. intros Ht Hg. unfold read_spec. rewrite no_nul_texts, Ht. by eexists. Qed.

(** The values of a row, one by one. *)
Ltac split_values H := repeat (apply Forall_cons in H as [? H]).
Ltac values := repeat first [apply Forall_nil_2 | apply Forall_cons_2; [first [assumption | exact I]|]].

Section Tables.
Context (db : Db) (Hok : store_ok (live db)).

Lemma identity_ok r : Forall value_ok (identity_columns r) -> store_ok (set_identity (Some r) (live db)).
Proof.
  intros Hr. destruct Hok as [H1 H2 H3 H4]. split; [exact H1|exact H2|exact H3|]. intros name. destruct (decide (name = "identity")) as [->|Hne].
  - rewrite identity_rows. constructor; [exact Hr|constructor].
  - specialize (H4 name). unfold table_rows in *. by rewrite decide_False in * by done.
Qed.

Lemma save_identity_spec r : Forall value_ok (identity_params r) ->
  write_spec (save_identity r) (identity_params r) db (Some (set_identity (Some (identity_after r (t_identity (live db)))) (live db), None)) (fun _ => tt).
Proof.
  intros Hr. apply write_spec_update; [done|by destruct (t_identity (live db))|]. apply identity_ok. unfold identity_params in Hr.
  split_values Hr. destruct (t_identity (live db)); values.
Qed.

Lemma save_prekey_spec r : Forall value_ok (prekey_params r) ->
  write_spec (save_prekey r) (prekey_params r) db (Some (set_prekeys (<[pk_key_id r := prekey_row r]> (t_prekeys (live db))) (live db), None)) (fun _ => tt).
Proof.
  intros Hr. apply write_spec_update0; [done|done|]. destruct Hok as [H1 H2 H3 H4]. split; [exact H1|exact H2|exact H3|].
  by apply (rows_ok_insert prekeys_table).
Qed.

Lemma delete_prekey_spec k :
  write_spec (delete_prekey k) [into_param k] db (Some (set_prekeys (delete k (t_prekeys (live db))) (live db), None)) (fun _ => tt).
Proof.
  apply write_spec_update0; [done|done|]. destruct Hok as [H1 H2 H3 H4]. split; [exact H1|exact H2|exact H3|]. by apply (rows_ok_delete prekeys_table).
Qed.

Lemma upsert_conversation_spec r : Forall value_ok (conversation_params r) ->
  write_spec (upsert_conversation r) (conversation_params r) db
    (Some (set_conversations (<[cv_id r := from_option (fun y => conversation_row (cvr_created_at y) r) (conversation_row (cv_created_at r) r)
       (t_conversations (live db) !! cv_id r)]> (t_conversations (live db))) (live db), None)) (fun _ => tt).
Proof.
  intros Hr. apply write_spec_update; [done|by destruct (t_conversations (live db) !! cv_id r)|]. destruct Hok as [H1 H2 H3 H4].
  split; [|exact H2|exact H3|].
  - intros c Hc%H1. cbn [set_conversations t_conversations]. apply lookup_insert_is_Some'. by right.
  - apply (rows_ok_insert conversations_table); [done|]. unfold conversation_params in Hr. split_values Hr.
    destruct (t_conversations (live db) !! cv_id r); values.
Qed.

Lemma delete_session_spec c :
  write_spec (delete_session c) [into_param c] db (Some (set_sessions (delete c (t_sessions (live db))) (live db), None)) (fun _ => tt).
Proof.
  apply write_spec_update; [done|done|]. destruct Hok as [H1 H2 H3 H4]. split; [|exact H2|exact H3|by apply (rows_ok_delete sessions_table)].
  intros c' Hc. apply H1. cbn [set_sessions t_sessions] in Hc. by apply lookup_delete_is_Some in Hc as [_ ?].
Qed.

Lemma upsert_sender_key_spec r : Forall value_ok (sender_key_params r) ->
  write_spec (upsert_sender_key r) (sender_key_params r) db
    (Some (set_sender_keys (<[(skr_group_id r, skr_sender_classical r) := sender_key_row r]> (t_sender_keys (live db))) (live db), None)) (fun _ => tt).
Proof.
  intros Hr. apply write_spec_update; [done|done|]. destruct Hok as [H1 H2 H3 H4]. split; [exact H1|exact H2|exact H3|].
  by apply (rows_ok_insert sender_keys_table).
Qed.

Lemma save_doc_spec now id b : Forall value_ok [into_param id; into_param b; into_param now] ->
  write_spec (save_doc now id b) [into_param id; into_param b; into_param now] db
    (Some (set_docs (<[id := {| dr_ydoc := b; dr_updated_at := now |}]> (t_docs (live db))) (live db), None)) (fun _ => tt).
Proof.
  intros Hr. apply write_spec_update; [done|done|]. destruct Hok as [H1 H2 H3 H4]. split; [exact H1|exact H2|exact H3|].
  by apply (rows_ok_insert docs_table).
Qed.

Lemma delete_doc_spec id :
  write_spec (delete_doc id) [into_param id] db (Some (set_docs (delete id (t_docs (live db))) (live db), None)) (fun _ => tt).
Proof.
  apply write_spec_update; [done|done|]. destruct Hok as [H1 H2 H3 H4]. split; [exact H1|exact H2|exact H3|]. by apply (rows_ok_delete docs_table).
Qed.

Lemma upsert_device_spec r : Forall value_ok (device_params r) ->
  write_spec (upsert_device r) (device_params r) db
    (Some (set_devices (<[dv_device_id r := {| dvr_classical := dv_classical r; dvr_pq := dv_pq r; dvr_last_seen := dv_last_seen r |}]>
       (t_devices (live db))) (live db), None)) (fun _ => tt).
Proof.
  intros Hr. apply write_spec_update; [by destruct r as [? ? ? []]|done|]. destruct Hok as [H1 H2 H3 H4]. split; [exact H1|exact H2|exact H3|].
  by apply (rows_ok_insert devices_table).
Qed.

Lemma insert_media_spec r : Forall value_ok (media_params r) ->
  write_spec (insert_media r) (media_params r) db
    (if decide (t_media (live db) !! md_id r = None /\ media_message_exists r (live db) = true)
     then Some (set_media (<[md_id r := media_row r]> (t_media (live db))) (live db), None) else None) (fun _ => tt).
Proof.
  intros Hr. unfold write_spec, insert_media. rewrite (bind_texts_run (media_params r)) by by destruct r as [? [] ? ? ? ? ?].
  destruct (forallb no_nul (media_params r)); [|by eexists]. mrun. unfold media_message_exists.
  assert (store_ok (set_media (<[md_id r := media_row r]> (t_media (live db))) (live db))) as Hnew.
  { destruct Hok as [H1 H2 H3 H4]. split; [exact H1|exact H2|exact H3|]. by apply (rows_ok_insert media_table). }
  destruct (t_media (live db) !! md_id r); [rewrite decide_False by naive_solver; by eexists|].
  destruct (md_message_id r) as [m|]; [|rewrite decide_True by done; by eexists].
  destruct (t_messages (live db) !! m) as [x|]; cbn; [by rewrite decide_True by done; eexists|].
  rewrite decide_False by naive_solver. by eexists.
Qed.

Lemma update_message_status_spec id status :
  write_spec (update_message_status id status) [into_param (MessageStatus_i64 status); into_param id] db
    (Some (set_messages (alter (set_status (MessageStatus_i64 status)) id (t_messages (live db))) (t_messages_seq (live db)) (live db), None)) (fun _ => tt).
Proof.
  apply write_spec_update0; [done|done|]. destruct Hok as [H1 [H20 H2] H3 H4].
  assert (forall j y, alter (set_status (MessageStatus_i64 status)) id (t_messages (live db)) !! j = Some y ->
    exists x, t_messages (live db) !! j = Some x /\ (y = x \/ y = set_status (MessageStatus_i64 status) x)) as Halter.
  { intros j y. rewrite lookup_alter_Some. intros [(-> & x & Hx & ->)|[_ Hx]]; eauto. }
  split; [exact H1| | |].
  - split; [done|]. intros j y (x & Hx & _)%Halter. by eapply H2.
  - intros i j r s (x & Hx & Hxr)%Halter (y & Hy & Hys)%Halter Hc Hm. eapply H3; [exact Hx|exact Hy|..];
      destruct Hxr as [->| ->], Hys as [->| ->]; done.
  - apply rows_ok_messages; [done|]. intros j y (x & Hx & [->| ->])%Halter; [by left|right].
    specialize (H4 "messages"). rewrite messages_rows, Forall_fmap, Forall_forall in H4.
    specialize (H4 (j, x) (proj2 (elem_of_map_to_list _ _ _) Hx)). unfold compose, message_columns in *. split_values H4. values.
Qed.

Lemma insert_message_spec r : Forall value_ok (message_params r) -> let t := live db in let id := t_messages_seq t + 1 in
  write_spec (insert_message r) (message_params r) db
    (if t_messages_seq t =? i64_max then None
     else if existsb (same_uid (mr_conversation_id r) (mr_message_id r)) (map_to_list (t_messages t)) then None
     else if decide (is_Some (t_conversations t !! mr_conversation_id r))
     then Some (set_messages (<[id := message_row r]> (t_messages t)) id t, Some id) else None) (default 0).
Proof.
  intros Hr t id. unfold write_spec, insert_message. rewrite (bind_texts_run (message_params r)) by done.
  destruct (forallb no_nul (message_params r)); [|by eexists]. mrun. fold t.
  destruct (t_messages_seq t =? i64_max); [by eexists|]. destruct (existsb _ _) eqn:Huid; [by eexists|].
  destruct (t_conversations t !! mr_conversation_id r) as [conv|] eqn:Hconv; [rewrite decide_True by done|rewrite decide_False by (by intros [? ?]); by eexists].
  mrun. eexists. split_and!; [reflexivity|done|done|]. destruct Hok as [H1 [H20 H2] H3 H4]. fold t in H1, H20, H2, H3, H4.
  assert (forall j x, t_messages t !! j = Some x -> same_uid (mr_conversation_id r) (mr_message_id r) (j, x) = false) as Hfresh.
  { intros j x Hx. apply not_true_iff_false. intros Ht. apply not_true_iff_false in Huid. apply Huid, existsb_exists. exists (j, x).
    split; [|done]. by apply list_elem_of_In, elem_of_map_to_list. }
  split; [exact H1| | |].
  - split; cbn [set_messages t_messages t_messages_seq]; [unfold id; lia|].
    intros j x [[<- _]|[_ Hx]]%lookup_insert_Some; [unfold id; lia|]. apply H2 in Hx. unfold id. lia.
  - intros i j x y. cbn [set_messages t_messages]. rewrite !lookup_insert_Some.
    assert (forall k z, t_messages t !! k = Some z -> mrr_conversation_id (message_row r) = mrr_conversation_id z ->
      mrr_message_id (message_row r) = mrr_message_id z -> False) as Hno.
    { intros k z Hz%Hfresh Hc Hm. unfold same_uid in Hz. cbn in Hz, Hc, Hm. by rewrite <- Hc, <- Hm, !bool_decide_true in Hz. }
    intros [[<- <-]|[_ Hx]] [[<- <-]|[_ Hy]] Hc Hm; [done|by destruct (Hno j y)|by destruct (Hno i x)|by eapply H3].
  - apply rows_ok_messages; [done|]. intros j x [[<- <-]|[_ Hx]]%lookup_insert_Some; [right|by left].
    unfold message_params in Hr. split_values Hr. unfold message_columns. cbn [fst snd]. values.
Qed.

Section Sessions.
Context `{SK : Serde SessionKeys, SKO : !SerdeOk SessionKeys, SR : Serde RatchetSnapshot, SRO : !SerdeOk RatchetSnapshot}.

Lemma save_session_spec c st keys ratchet :
  to_vec (ss_session_keys st) = Ok keys -> traverse_option to_vec (ss_ratchet st) = Ok ratchet ->
  let ps := session_params c (ss_is_initiator st) (text_of keys) (text_of <$> ratchet) (ss_last_used st) in Forall value_ok ps ->
  write_spec (save_session c st) ps db
    (if decide (is_Some (t_conversations (live db) !! c))
     then Some (set_sessions (<[c := session_row (ss_is_initiator st) keys ratchet (ss_last_used st)]> (t_sessions (live db))) (live db), None)
     else None) (fun _ => tt).
Proof.
  intros Hk Hrs ps Hps. unfold write_spec, save_session. rewrite Hk, Hrs. cbn [map_err]. mrun.
  assert (forallb no_nul ps = negb (has_nul c)) as Hnul.
  { rewrite no_nul_texts. f_equal. pose proof (text_no_nul _ (serde_text _ _ Hk)) as H1. destruct ratchet as [b|]; cbn.
    - assert (is_text b) as H2%text_no_nul.
      { destruct (ss_ratchet st) as [v|]; [|done]. cbn in Hrs. destruct (to_vec v) eqn:Hv; [|done..]. injection Hrs as <-. by eapply serde_text. }
      unfold text_of. rewrite H1, H2. by rewrite !orb_false_r.
    - unfold text_of. rewrite H1. by rewrite !orb_false_r. }
  rewrite Hnul. unfold bind_texts. cbn [existsb]. rewrite orb_false_r. destruct (has_nul c); cbn [negb]; [by eexists|]. mrun.
  destruct (t_conversations (live db) !! c) as [conv|] eqn:Hc; [rewrite decide_True by done|rewrite decide_False by (by intros [? ?]); by eexists].
  eexists. split_and!; [reflexivity|done|done|]. destruct Hok as [H1 H2 H3 H4]. split; [|exact H2|exact H3|].
  - intros c'. cbn [set_sessions t_sessions t_conversations]. rewrite lookup_insert_is_Some'. intros [<-|Hc']; [by eexists|by apply H1].
  - apply (rows_ok_insert sessions_table); [done|]. unfold ps, session_params in Hps. split_values Hps.
    destruct ratchet; unfold session_columns; cbn [fst snd]; values.
Qed.
End Sessions.
End Tables.
