(* ===== verification/StoreRefines.v ===== *)
(** Every method of [presidium-storage/src/store.rs], run through the wrapper
    with its SQL texts, refines the operation of Store. *)

From stdpp Require Import sorting.
From S2P Require Import Prelude Constants Prims Ratchet Identity Keys Sqleet SqleetProps SqlProps SessionState Database DatabaseProps Store StoreProps.
From S2P Require Import SqlText SqlSem StoreSql StoreRep StoreMeaning StoreQueries StoreRows StoreSqlFacts StoreSqlProps.

(** ** Arguments and answers *)

(** The arguments are values of the Rust types whose lengths fit in a
    [c_int]. *)
Definition call_ok `{Serde SessionKeys, Serde RatchetSnapshot} {A} (call : store_call A) : Prop :=
  match call with
  | SaveIdentity r => Forall value_ok (identity_params r)
  | SavePrekey r => Forall value_ok (prekey_params r)
  | UpsertConversation r => Forall value_ok (conversation_params r)
  | SaveSession c st =>
      value_ok (Text c) /\ (forall b, to_vec (ss_session_keys st) = Ok b -> Z.of_nat (length b) < 2 ^ 31) /\
      (forall v b, ss_ratchet st = Some v -> to_vec v = Ok b -> Z.of_nat (length b) < 2 ^ 31)
  | InsertMessage r => Forall value_ok (message_params r)
  | UpsertSenderKey r => Forall value_ok (sender_key_params r)
  | InsertMedia r => Forall value_ok (media_params r)
  | UpsertDevice r => Forall value_ok (device_params r)
  | LoadConversation id | LoadSession id | DeleteSession id | ListMessages id _ _ | LoadMedia id | LoadDoc id | DeleteDoc id => value_ok (Text id)
  | LoadMessageByUid c uid | LoadSenderKey c uid => value_ok (Text c) /\ value_ok (Blob uid)
  | SaveDoc _ id b => value_ok (Text id) /\ value_ok (Blob b)
  | _ => True
  end.

(** Rows with the same time come in any order; all other answers are the ones
    of Store. *)
Definition same_answer {A} (call : store_call A) : A -> A -> Prop :=
  match call in store_call A return A -> A -> Prop with
  | ListConversations => fun a b => a ≡ₚ b /\ StronglySorted (fun x y => cv_created_at y <= cv_created_at x) a
  | ListMediaForMessage _ => fun a b => a ≡ₚ b /\ StronglySorted (fun x y => md_created_at x <= md_created_at y) a
  | _ => eq
  end.

Definition is_take {A} (call : store_call A) : bool := match call with TakeOneTimePrekey => true | _ => false end.

Definition answered {E A} (r : result E A) : option bool := match r with Ok _ => Some true | Err _ => Some false | Panic _ => None end.

(** More turns than rows. *)
Definition enough (fuel : nat) (t : Tables) : Prop := (0 < fuel)%nat /\ forall name, (length (table_rows t name) < fuel)%nat.

Lemma text_value s : value_ok (Text s) -> Forall value_ok [Text s].
Proof. intros Hs. by apply Forall_singleton. Qed.

Section Refines.
Context {E : Engine} {R : Resources E} {S : EngineSafe R} {D : Type} {V : SqlView E D} {L : SqlLaws V}.
Context {plain : bytes -> Prop} {script : bytes -> D -> D} {version : D -> Z} {SL : ScriptLaws V plain script version}.
Context {content : D -> relations} {SEM : SqlSemantics V content}.
Context (fuel : nat) (self : OpenDatabase).
Abbreviation h := (conn_db (db_conn self)).
Abbreviation holds_tables := (holds_tables (content := content) self).

(** ** An engine that may be reliable

    [reliable] stands for the assumption that the engine does not fail on the
    texts of the crate. *)
Context {known : bytes -> Z -> Prop} (reliable : Prop) (RL : reliable -> Reliable known).
Context (RLE : reliable -> ReliableExec V).
Context (texts_known : reliable -> Forall (fun p => known (bs p.1) (Z.of_nat p.2)) store_texts).

(** What a run that ended in [w'] with [r] has to do with the operation
    [spec] on [db]. *)
Definition agrees {A} (same : A -> A -> Prop) (spec : M Db StorageError A) (db : Db) (w' : World) (r : result StorageError A) : Prop :=
  ((exists a a' db', r = Ok a /\ spec db = (db', Ok a') /\ same a a' /\ holds_tables w' db') \/ (exists e, r = Err e /\ holds_tables w' db)) /\
  (reliable -> answered r = answered (spec db).2 /\ holds_tables w' (spec db).1).

Lemma holds_ext w (db db' : Db) : live db' = live db -> saved db' = saved db -> holds_tables w db -> holds_tables w db'.
Proof. intros Hl Hs [H1 H2 H3 H4 H5]. by split; rewrite ?Hl, ?Hs. Qed.

(** The texts have no NUL byte and few parameters. *)
Lemma store_texts_plain : forallb (fun p => negb (has_nul p.1) && (p.2 <? 100)%nat) store_texts = true.
Proof. vm_compute. reflexivity. Qed.

Lemma text_facts i sql n :
  store_texts !! i = Some (sql, n) -> has_nul sql = false /\ Z.of_nat n < 2 ^ 31 /\ (reliable -> known (bs sql) (Z.of_nat n)).
Proof.
  intros Hi. pose proof (proj1 (forallb_forall _ _) store_texts_plain (sql, n) (proj1 (list_elem_of_In _ _) (list_elem_of_lookup_2 _ _ _ Hi))) as Hx.
  cbn [fst snd] in Hx. apply andb_true_iff in Hx as [H1%negb_true_iff H2%Nat.ltb_lt]. split_and!; [done|lia|].
  intros Hrel. exact (Forall_lookup_1 _ _ _ _ (texts_known Hrel) Hi).
Qed.

(** *** Statements *)

Lemma write_agrees i sql n ps spec db o w w' r :
  store_texts !! i = Some (sql, n) -> length ps = n -> Forall value_ok ps -> (0 < fuel)%nat ->
  holds_tables w db -> does sql ps (live db) o -> write_spec spec ps db o (fun _ => tt) ->
  execute_ fuel self sql ps w = (w', r) -> agrees eq spec db w' r.
Proof.
  intros Hi Hn Hok Hfuel Hw Hdoes Hspec Hrun. destruct (text_facts _ _ _ Hi) as (Hnul & Hlen & Hknown). rewrite <- Hn in *.
  pose proof (execute_done (content := content) fuel self sql ps w w' r db o Hw Hdoes Hok Hfuel Hrun) as Hdone. unfold write_spec in Hspec.
  destruct Hdone as [(t' & want & -> & Hnn & -> & Hh & _)|(e & -> & Hh)].
  - rewrite Hnn in Hspec. destruct Hspec as (db' & Hs & Hl & Hsv & Hst). assert (holds_tables w' db') as Hw'.
    { apply (holds_ext w' (set_live t' db)); [done|done|auto]. }
    split; [left; exists tt, tt, db'; by split_and!|]. intros _. by rewrite Hs.
  - split; [right; by exists e|]. intros Hrel. pose proof (RL Hrel) as RLi. destruct (forallb no_nul ps) eqn:Hnn.
    + destruct o as [[t' want]|]; [|destruct Hspec as [e' ->]; by split]. exfalso.
      pose proof (execute_runs (content := content) fuel self sql ps w db t' want Hw Hdoes Hok Hfuel Hnn Hnul (Hknown Hrel) Hlen) as Hx.
      by rewrite Hrun in Hx.
    + destruct Hspec as [e' ->]. by split.
Qed.

(** *** Queries *)

Lemma rows_cases {A T} i sql n ps (mapper : Row -> World -> result SqlError T) (out : A -> tuple) f P w w' r db :
  store_texts !! i = Some (sql, n) -> length ps = n -> Forall value_ok ps -> (forall l, P l -> (length l < fuel)%nat) ->
  holds_tables w db -> gives sql ps (live db) out P -> mapper_reads mapper out f ->
  sql_ (Connection_query_rows fuel (db_conn self) sql ps mapper) w = (w', r) -> holds_tables w' db /\
  ((exists l, r = Ok (map (fun x => f (out x)) l) /\ P l /\ forallb no_nul ps = true) \/
   (exists e, r = Err e /\ (reliable -> forallb no_nul ps = false))).
Proof.
  intros Hi Hn Hok Hfuel Hw Hg Hm Hrun. destruct (text_facts _ _ _ Hi) as (Hnul & Hlen & Hknown). rewrite <- Hn in *.
  destruct (query_rows_done (content := content) fuel self sql ps mapper out f P w w' r db Hw Hg Hm Hok Hfuel Hrun)
    as [(l & -> & Hl & Hnn & Hw')|(e & -> & Hw')]; (split; [done|]); [left; eauto|right]. exists e. split; [done|]. intros Hrel. pose proof (RL Hrel) as RLi.
  destruct (forallb no_nul ps) eqn:Hnn; [|done]. exfalso.
  destruct (query_rows_runs (content := content) fuel self sql ps mapper out f P w db Hw Hg Hm Hok Hfuel Hnn Hnul (Hknown Hrel) Hlen) as [l Hl].
  unfold sql_, with_err in Hrun. destruct (Connection_query_rows _ _ _ _ _ w) as [w1 r1]. cbn in Hl. subst r1. by injection Hrun.
Qed.

Lemma row_cases {A T} i sql n ps (mapper : Row -> World -> result SqlError T) (out : A -> tuple) f P w w' r db :
  store_texts !! i = Some (sql, n) -> length ps = n -> Forall value_ok ps ->
  holds_tables w db -> gives sql ps (live db) out P -> mapper_reads mapper out f ->
  sql_ (Connection_query_row (db_conn self) sql ps mapper) w = (w', r) -> holds_tables w' db /\
  ((exists l, r = Ok ((fun x => f (out x)) <$> head l) /\ P l /\ forallb no_nul ps = true) \/
   (exists e, r = Err e /\ (reliable -> forallb no_nul ps = false))).
Proof.
  intros Hi Hn Hok Hw Hg Hm Hrun. destruct (text_facts _ _ _ Hi) as (Hnul & Hlen & Hknown). rewrite <- Hn in *.
  destruct (query_row_done (content := content) self sql ps mapper out f P w w' r db Hw Hg Hm Hok Hrun)
    as [(l & -> & Hl & Hnn & Hw')|(e & -> & Hw')]; (split; [done|]); [left; eauto|right]. exists e. split; [done|]. intros Hrel. pose proof (RL Hrel) as RLi.
  destruct (forallb no_nul ps) eqn:Hnn; [|done]. exfalso.
  destruct (query_row_runs (content := content) self sql ps mapper out f P w db Hw Hg Hm Hok Hnn Hnul (Hknown Hrel) Hlen) as [l Hl].
  unfold sql_, with_err in Hrun. destruct (Connection_query_row _ _ _ _ w) as [w1 r1]. cbn in Hl. subst r1. by injection Hrun.
Qed.

(** A run that left the tables alone agrees with an operation that only
    reads. *)
Lemma read_agrees {A} (same : A -> A -> Prop) spec ps db w' (r : result StorageError A) good :
  holds_tables w' db -> read_spec spec ps db good ->
  ((exists a, r = Ok a /\ forallb no_nul ps = true /\ forall a', good a' -> same a a') \/ (exists e, r = Err e /\ (reliable -> forallb no_nul ps = false))) ->
  agrees same spec db w' r.
Proof.
  intros Hw Hspec Hr. unfold read_spec in Hspec. destruct Hr as [(a & -> & Hnn & Hsame)|(e & -> & Hnn)].
  - rewrite Hnn in Hspec. destruct Hspec as (a' & Hs & Hg). split; [left; exists a, a', db; by split_and!; [|auto..]|]. by rewrite Hs.
  - split; [right; by exists e|]. intros Hrel. rewrite (Hnn Hrel) in Hspec. destruct Hspec as [e' ->]. by split.
Qed.

Lemma rows_agrees {A T} i sql n ps (mapper : Row -> World -> result SqlError T) (out : A -> tuple) f P (same : list T -> list T -> Prop) spec good w w' r db :
  store_texts !! i = Some (sql, n) -> length ps = n -> Forall value_ok ps -> (forall l, P l -> (length l < fuel)%nat) ->
  holds_tables w db -> gives sql ps (live db) out P -> mapper_reads mapper out f -> read_spec spec ps db good ->
  (forall l a', P l -> good a' -> same (map (fun x => f (out x)) l) a') ->
  sql_ (Connection_query_rows fuel (db_conn self) sql ps mapper) w = (w', r) -> agrees same spec db w' r.
Proof.
  intros Hi Hn Hok Hfuel Hw Hg Hm Hspec Hsame Hrun.
  destruct (rows_cases i sql n ps mapper out f P w w' r db Hi Hn Hok Hfuel Hw Hg Hm Hrun) as [Hw' Hc]. eapply read_agrees; [done|done|].
  destruct Hc as [(l & -> & Hl & Hnn)|Hc]; [left|by right]. eexists. split_and!; [done|done|]. intros a'. by apply Hsame.
Qed.

Lemma row_agrees {A T} i sql n ps (mapper : Row -> World -> result SqlError T) (out : A -> tuple) f P spec good w w' r db :
  store_texts !! i = Some (sql, n) -> length ps = n -> Forall value_ok ps ->
  holds_tables w db -> gives sql ps (live db) out P -> mapper_reads mapper out f -> read_spec spec ps db good ->
  (forall l a', P l -> good a' -> (fun x => f (out x)) <$> head l = a') ->
  sql_ (Connection_query_row (db_conn self) sql ps mapper) w = (w', r) -> agrees eq spec db w' r.
Proof.
  intros Hi Hn Hok Hw Hg Hm Hspec Hsame Hrun.
  destruct (row_cases i sql n ps mapper out f P w w' r db Hi Hn Hok Hw Hg Hm Hrun) as [Hw' Hc]. eapply read_agrees; [done|done|].
  destruct Hc as [(l & -> & Hl & Hnn)|Hc]; [left|by right]. eexists. split_and!; [done|done|]. intros a'. by apply Hsame.
Qed.

(** ** The methods *)

Context (db : Db) (w : World) (Hw : holds_tables w db) (Hfuel : enough fuel (live db)).

Lemma enough_rows {A} name (enc : A -> tuple) (all l : list A) :
  table_rows (live db) name = enc <$> all -> (exists k, k ≡ₚ all /\ sublist l k) -> (length l < fuel)%nat.
Proof.
  intros Hr (k & Hk & Hsub). destruct Hfuel as [_ Hf]. specialize (Hf name). rewrite Hr, length_fmap in Hf. apply sublist_length in Hsub.
  rewrite <- Hk in Hf. lia.
Qed.

Lemma limit_sublist {A} n (l : list A) : sublist (sql_limit n l) l.
Proof. unfold sql_limit. destruct (n <? 0); [done|]. apply sublist_take. Qed.

Lemma filter_sublist {A} (P : A -> Prop) `{!forall x, Decision (P x)} (l : list A) : sublist (filter P l) l.
Proof. induction l as [|x l IH]; [done|]. rewrite filter_cons. case_decide; by constructor. Qed.

(** A query by key. *)
Lemma key_agrees {K} {X T} i sql n ps (mapper : Row -> World -> result SqlError T) (out : K * X -> tuple) f (o : option X) (k : K) spec (g : K * X -> T) w' r :
  store_texts !! i = Some (sql, n) -> length ps = n -> Forall value_ok ps ->
  gives sql ps (live db) out (fun l => l = option_list ((fun x => (k, x)) <$> o)) -> mapper_reads mapper out f ->
  (forall p, f (out p) = g p) -> read_spec spec ps db (fun a => a = (fun x => g (k, x)) <$> o) ->
  sql_ (Connection_query_row (db_conn self) sql ps mapper) w = (w', r) -> agrees eq spec db w' r.
Proof.
  intros Hi Hn Hok Hg Hm Hf Hspec. eapply row_agrees; [done..|]. intros l a' -> ->. destruct o as [x|]; [|done]. exact (f_equal Some (Hf (k, x))).
Qed.

Lemma load_identity_agrees w' r : Database_load_identity self w = (w', r) -> agrees eq load_identity db w' r.
Proof.
  eapply (row_agrees 1 load_identity_sql 0 [] identity_mapper identity_out identity_of _ load_identity (fun a => a = t_identity (live db)));
    [done|done|constructor|done|apply load_identity_gives|apply identity_reads|by apply read_spec_gets0|].
  intros l a' -> ->. destruct (t_identity (live db)) as [x|]; [|done]. exact (f_equal Some (identity_of_columns x)).
Qed.

Lemma load_conversation_agrees id w' r :
  value_ok (Text id) -> Database_load_conversation self id w = (w', r) -> agrees eq (load_conversation id) db w' r.
Proof.
  intros Hid. eapply (key_agrees 9 _ 1 [into_param id] _ _ _ _ _ _ conversation_from_row);
    [done|done|by apply text_value|apply load_conversation_gives|apply conversation_reads|apply conversation_of_columns|by apply read_spec_gets].
Qed.

Lemma load_media_agrees id w' r : value_ok (Text id) -> Database_load_media self id w = (w', r) -> agrees eq (load_media id) db w' r.
Proof.
  intros Hid. eapply (key_agrees 21 _ 1 [into_param id] _ _ _ _ _ _ media_from_row);
    [done|done|by apply text_value|apply load_media_gives|apply media_reads|apply media_of_columns|by apply read_spec_gets].
Qed.

Lemma load_doc_agrees id w' r : value_ok (Text id) -> Database_load_doc self id w = (w', r) -> agrees eq (load_doc id) db w' r.
Proof.
  intros Hid. eapply (key_agrees 24 _ 1 [into_param id] _ _ _ _ _ _ (fun p => dr_ydoc p.2));
    [done|done|by apply text_value|apply load_doc_gives|apply doc_reads|done|by apply read_spec_gets].
Qed.

Lemma load_sender_key_agrees g s w' r :
  value_ok (Text g) -> value_ok (Blob s) -> Database_load_sender_key self g s w = (w', r) -> agrees eq (load_sender_key g s) db w' r.
Proof.
  intros Hg Hs. eapply (key_agrees 19 _ 2 [into_param g; into_param s] _ _ _ _ _ _ sender_key_from_row);
    [done|done|values|apply load_sender_key_gives|apply sender_key_reads|apply sender_key_of_columns|by apply read_spec_gets].
Qed.

Lemma load_message_by_uid_agrees c uid w' r :
  value_ok (Text c) -> value_ok (Blob uid) -> Database_load_message_by_uid self c uid w = (w', r) -> agrees eq (load_message_by_uid c uid) db w' r.
Proof.
  intros Hc Hu. eapply (row_agrees 16 _ 2 [into_param c; into_param uid] _ message_columns message_of _ _
    (fun a => a = message_from_row <$> List.find (same_uid c uid) (rows_by_key (t_messages (live db)))));
    [done|done|values|done|apply load_message_by_uid_gives, Hw|apply message_reads|by apply read_spec_gets|].
  intros l a' -> ->. destruct (List.find _ _) as [x|]; [|done]. exact (f_equal Some (message_of_columns x)).
Qed.

Lemma map_ext_out {A T} (f g : A -> T) l : (forall x, f x = g x) -> map f l = map g l.
Proof. intros Hfg. by apply map_ext. Qed.

Lemma list_prekeys_agrees kind limit w' r : Database_list_prekeys fuel self kind limit w = (w', r) -> agrees eq (list_prekeys kind limit) db w' r.
Proof.
  eapply (rows_agrees 3 _ 2 [into_param (PreKeyKind_i64 kind); into_param limit] _ prekey_columns prekey_of _ _ _
    (fun a => a = map prekey_from_row (sql_limit limit (prekeys_of_kind kind (live db)))));
    [done|done|values| |done|apply list_prekeys_gives|apply prekey_reads|by apply read_spec_gets0|].
  - intros l ->. eapply (enough_rows "prekeys"); [by rows_simpl|]. exists (rows_by_key (t_prekeys (live db))).
    split; [apply merge_sort_Permutation|]. etrans; [apply limit_sublist|apply filter_sublist].
  - intros l a' -> ->. apply map_ext_out, prekey_of_columns.
Qed.

Lemma list_messages_agrees c before limit w' r :
  value_ok (Text c) -> Database_list_messages fuel self c before limit w = (w', r) -> agrees eq (list_messages c before limit) db w' r.
Proof.
  intros Hc. eapply (rows_agrees 15 _ 3 [into_param c; into_param before; into_param limit] _ message_columns message_of _ _ _
    (fun a => a = map message_from_row (sql_limit limit (filter (in_page c before) (reverse (rows_by_key (t_messages (live db))))))));
    [done|done|destruct before; values| |done|apply list_messages_gives|apply message_reads|apply read_spec_gets; [by destruct before|done]|].
  - intros l ->. eapply (enough_rows "messages"); [by rows_simpl|]. exists (reverse (rows_by_key (t_messages (live db)))).
    split; [rewrite reverse_Permutation; apply merge_sort_Permutation|]. etrans; [apply limit_sublist|apply filter_sublist].
  - intros l a' -> ->. apply map_ext_out, message_of_columns.
Qed.

Lemma list_devices_agrees w' r : Database_list_devices fuel self w = (w', r) -> agrees eq list_devices db w' r.
Proof.
  eapply (rows_agrees 27 _ 0 [] _ device_columns device_of _ _ _
    (fun a => a = map device_from_row (merge_sort id_le (map_to_list (t_devices (live db))))));
    [done|done|values| |done|apply list_devices_gives|apply device_reads|by apply read_spec_gets0|].
  - intros l ->. eapply (enough_rows "devices"); [by rows_simpl|]. exists (merge_sort id_le (map_to_list (t_devices (live db)))).
    split; [apply merge_sort_Permutation|done].
  - intros l a' -> ->. apply map_ext_out, device_of_columns.
Qed.

(** Rows that are sorted by a time: the same rows, sorted too. *)
Lemma sorted_answer {A B} (le : relation A) `{!RelDecision le} (le' : relation B) (g : A -> B) (l all : list A) :
  l ≡ₚ all -> StronglySorted le l -> (forall x y, le x y -> le' (g x) (g y)) -> map g l ≡ₚ map g (merge_sort le all) /\ StronglySorted le' (map g l).
Proof.
  intros Hl Hs Hg. split; [by rewrite Hl, merge_sort_Permutation|]. by apply (StronglySorted_fmap g le le').
Qed.

Lemma list_conversations_agrees w' r :
  Database_list_conversations fuel self w = (w', r) -> agrees (same_answer ListConversations) list_conversations db w' r.
Proof.
  eapply (rows_agrees 10 _ 0 [] _ conversation_columns conversation_of _ _ _
    (fun a => a = map conversation_from_row (merge_sort newer (map_to_list (t_conversations (live db))))));
    [done|done|values| |done|apply list_conversations_gives|apply conversation_reads|by apply read_spec_gets0|].
  - intros l [Hl _]. eapply (enough_rows "conversations"); [by rows_simpl|]. exists l. by split.
  - intros l a' [Hl Hs] ->. rewrite (map_ext_out _ _ _ conversation_of_columns). apply sorted_answer; [done|done|]. intros [] []. done.
Qed.

Lemma list_media_agrees m w' r :
  Database_list_media_for_message fuel self m w = (w', r) -> agrees (same_answer (ListMediaForMessage m)) (list_media_for_message m) db w' r.
Proof.
  eapply (rows_agrees 22 _ 1 [into_param m] _ media_columns media_of _ _ _
    (fun a => a = map media_from_row (merge_sort older_media (filter (fun p => mdr_message_id p.2 = Some m) (map_to_list (t_media (live db)))))));
    [done|done|values| |done|apply list_media_for_message_gives|apply media_reads|by apply read_spec_gets0|].
  - intros l [Hl _]. eapply Nat.le_lt_trans; [|eapply (enough_rows "media" media_columns); [by rows_simpl|exists (map_to_list (t_media (live db)));
      split; [done|apply (filter_sublist (fun p => mdr_message_id p.2 = Some m))]]]. by rewrite Hl.
  - intros l a' [Hl Hs] ->. rewrite (map_ext_out _ _ _ media_of_columns). apply sorted_answer; [done|done|]. intros [] []. done.
Qed.

Lemma count_prekeys_agrees kind w' r : Database_count_prekeys self kind w = (w', r) -> agrees eq (count_prekeys kind) db w' r.
Proof.
  intros Hrun. unfold Database_count_prekeys in Hrun. rewrite M_bind_eq in Hrun.
  destruct (sql_ (Connection_query_row _ _ _ _) w) as [w1 r1] eqn:Hx.
  assert (gives count_prekeys_sql [into_param (PreKeyKind_i64 kind)] (live db) (fun n => [I64 n])
    (fun l => l = [Z.of_nat (length (prekeys_of_kind kind (live db)))])) as Hg.
  { intros d Hrep. destruct (count_prekeys_gives kind (live db) d [] Hrep) as (q & Hp & Hs & _). exists q. split_and!; [done|done|].
    intros rows Ha. destruct (count_prekeys_gives kind (live db) d rows Hrep) as (q' & Hp' & _ & Hr). assert (q' = q) as -> by congruence.
    eexists. split; [done|]. by apply Hr. }
  destruct (row_cases 4 count_prekeys_sql 1 [into_param (PreKeyKind_i64 kind)] _ _ (fun row => int_at row 0) _ w w1 r1 db eq_refl eq_refl ltac:(values) Hw Hg count_reads Hx)
    as [Hw' Hc].
  assert (w' = w1) as -> by (by destruct r1; injection Hrun). eapply (read_agrees _ _ [into_param (PreKeyKind_i64 kind)] _ _ _ (fun a => a = Z.of_nat (length (prekeys_of_kind kind (live db)))));
    [done|by apply read_spec_gets0|]. destruct Hc as [(l & -> & -> & Hnn)|(e & -> & He)]; injection Hrun as <-.
  - left. eexists. split_and!; [done|done|]. by intros a' ->.
  - right. by eexists.
Qed.

Lemma insert_message_agrees m w' r :
  Forall value_ok (message_params m) -> Database_insert_message fuel self m w = (w', r) -> agrees eq (insert_message m) db w' r.
Proof.
  intros Hok Hrun. unfold Database_insert_message in Hrun. rewrite M_bind_eq in Hrun.
  destruct (execute_ fuel self insert_message_sql (message_params m) w) as [w1 r1] eqn:Hx.
  assert (w' = w1) as -> by (by destruct r1; injection Hrun). destruct (text_facts 14 insert_message_sql 9 eq_refl) as (Hnul & Hlen & Hknown).
  pose proof (insert_message_does m (live db) (so_ids _ (ht_ok _ _ _ Hw))) as Hdoes. pose proof (insert_message_spec db (ht_ok _ _ _ Hw) m Hok) as Hspec.
  cbv zeta in Hdoes, Hspec. match type of Hdoes with does _ _ _ ?x => set (o := x) in Hdoes, Hspec end.
  destruct (execute_done (content := content) fuel self _ _ w w1 r1 db o Hw Hdoes Hok (proj1 Hfuel) Hx)
    as [(t' & want & -> & Hnn & Ho & Hh & Hid)|(e & -> & Hh)]; unfold write_spec in Hspec; injection Hrun as <-.
  - rewrite Hnn, Ho in Hspec. destruct Hspec as (db' & Hs & Hl & Hsv & Hst). assert (holds_tables w1 db') as Hw'.
    { apply (holds_ext w1 (set_live t' db)); [done|done|auto]. }
    assert (exists i, want = Some i) as [i ->].
    { unfold o in Ho. destruct (_ =? _); [done|]. destruct (existsb _ _); [done|]. destruct (decide _); [|done]. injection Ho as _ <-. eauto. }
    rewrite (Hid i eq_refl). split; [left; exists i, i, db'; by split_and!|]. intros _. by rewrite Hs.
  - split; [right; by exists e|]. intros Hrel. pose proof (RL Hrel) as RLi. destruct (forallb no_nul _) eqn:Hnn.
    + destruct o as [[t' want]|]; [|destruct Hspec as [e' ->]; by split]. exfalso.
      pose proof (execute_runs (content := content) fuel self _ _ w db t' want Hw Hdoes Hok (proj1 Hfuel) Hnn Hnul (Hknown Hrel) Hlen) as Hy.
      by rewrite Hx in Hy.
    + destruct Hspec as [e' ->]. by split.
Qed.

(** *** Sessions *)

Section Sessions.
Context `{SK : Serde SessionKeys, SKO : !SerdeOk SessionKeys, SR : Serde RatchetSnapshot, SRO : !SerdeOk RatchetSnapshot}.

Lemma text_of_ok b : is_text b -> Z.of_nat (length b) < 2 ^ 31 -> value_ok (Text (text_of b)).
Proof. intros [Hu _] Hl. unfold value_ok, text_of, is_utf8. by rewrite bs_of_bytes. Qed.

Lemma json_to_string_eq {T} `{Serde T} (v : T) : json_to_string v = map_err Serialization (b ← to_vec v; mret (text_of b)).
Proof. done. Qed.

Lemma traverse_json {T} `{Serde T} (o : option T) :
  traverse_option json_to_string o =
  match traverse_option to_vec o with Ok b => Ok (text_of <$> b) | Err e => Err (Serialization e) | Panic p => Panic p end.
Proof. destruct o as [v|]; [|done]. cbn. unfold json_to_string. by destruct (to_vec v). Qed.

Lemma json_from_text {T} `{Serde T} b : json_from_str (T := T) (text_of b) = map_err Serialization (from_slice b).
Proof. unfold json_from_str, text_of. by rewrite bs_of_bytes. Qed.

Lemma traverse_from_text {T} `{Serde T} (o : option bytes) :
  traverse_option (json_from_str (T := T)) (text_of <$> o) = map_err Serialization (traverse_option from_slice o).
Proof. destruct o as [b|]; [|done]. cbn [fmap option_fmap option_map traverse_option]. rewrite json_from_text. by destruct (from_slice b). Qed.

Lemma save_session_agrees c st w' r :
  call_ok (SaveSession c st) -> Database_save_session fuel self c st w = (w', r) -> agrees eq (save_session c st) db w' r.
Proof.
  intros (Hc & Hk & Hr) Hrun. unfold Database_save_session in Hrun. rewrite json_to_string_eq, traverse_json in Hrun. mrun_in Hrun.
  assert (forall e, (save_session c st) db = (db, Err e) -> w' = w -> r = Err e -> agrees eq (save_session c st) db w' r) as Herr.
  { intros e Hs -> ->. split; [right; eauto|]. intros _. by rewrite Hs. }
  destruct (to_vec (ss_session_keys st)) as [keys|e|p] eqn:Hkeys; cbn [mbind result_bind map_err mret result_ret] in Hrun; mrun_in Hrun;
    [|injection Hrun as <- <-; eapply Herr; [unfold save_session; mrun; by rewrite Hkeys|done..]|by apply to_vec_no_panic in Hkeys].
  destruct (traverse_option to_vec (ss_ratchet st)) as [ratchet|e|p] eqn:Hrat; cbn [mbind result_bind map_err mret result_ret] in Hrun; mrun_in Hrun.
  2:{ injection Hrun as <- <-. eapply Herr; [|done..]. unfold save_session. mrun. rewrite Hkeys. cbn [map_err]. mrun. by rewrite Hrat. }
  2:{ destruct (ss_ratchet st) as [v|]; [|done]. cbn in Hrat. destruct (to_vec v) eqn:Hv; [done..|by apply to_vec_no_panic in Hv]. }
  set (ps := session_params c (ss_is_initiator st) (text_of keys) (text_of <$> ratchet) (ss_last_used st)) in Hrun.
  assert (Forall value_ok ps) as Hok.
  { unfold ps, session_params. repeat (apply Forall_cons_2); [done|done|apply text_of_ok; [exact (serde_text _ _ Hkeys)|by apply Hk]| |done|constructor].
    destruct (ss_ratchet st) as [v|]; [|by injection Hrat as <-]. cbn in Hrat. destruct (to_vec v) as [b| |] eqn:Hv; [|done..]. injection Hrat as <-.
    apply text_of_ok; [by eapply serde_text|by eapply Hr]. }
  eapply (write_agrees 11 save_session_sql 5 ps); [done|done|done|apply Hfuel|done|apply save_session_does, Hw| |done].
  apply save_session_spec; [apply Hw|done..].
Qed.

Lemma load_session_agrees c w' r : value_ok (Text c) -> Database_load_session self c w = (w', r) -> agrees eq (load_session c) db w' r.
Proof.
  intros Hc Hrun. unfold Database_load_session in Hrun. rewrite M_bind_eq in Hrun.
  destruct (sql_ (Connection_query_row _ _ _ _) w) as [w1 r1] eqn:Hx.
  destruct (row_cases 12 load_session_sql 1 [into_param c] _ _ _ _ w w1 r1 db eq_refl eq_refl ltac:(values) Hw (load_session_gives c (live db)) session_reads Hx)
    as [Hw' Hcase].
  assert (w' = w1) as -> by (by destruct r1; injection Hrun). unfold load_session.
  assert (forallb no_nul [into_param c] = negb (has_nul c)) as Hnul by (cbn; apply andb_true_r).
  destruct Hcase as [(l & -> & -> & Hnn)|(e & -> & He)]; injection Hrun as <-.
  - rewrite Hnul in Hnn. apply negb_true_iff in Hnn. unfold agrees, bind_texts. cbn [existsb]. rewrite Hnn. cbn [orb]. mrun.
    assert (forall a b : result StorageError (option SessionState), a = b -> (forall p, a <> Panic p) ->
      ((exists x x' db', a = Ok x /\ (db, b) = (db', Ok x') /\ x = x' /\ holds_tables w1 db') \/ (exists e, a = Err e /\ holds_tables w1 db)) /\
      (reliable -> answered a = answered (db, b).2 /\ holds_tables w1 (db, b).1)) as Hres.
    { intros a b -> Hp. split; [|by intros _]. destruct b as [x|e|p]; [left; by exists x, x, db|right; by exists e|by destruct (Hp p)]. }
    destruct (t_sessions (live db) !! c) as [row|]; cbn [fmap option_fmap option_map option_list head]; [|by apply Hres].
    change (head (option_list (Some (c, row)))) with (Some (c, row)). cbn [fmap option_fmap option_map]. rewrite session_cols_of_columns.
    cbn [traverse_option session_of_columns snd]. rewrite json_from_text, traverse_from_text. apply Hres; [done|]. intros p Hp.
    destruct (from_slice (sr_session_keys row)) eqn:Hf; cbn in Hp; [|done|by apply from_slice_no_panic in Hf].
    destruct (sr_ratchet_state row) as [b|]; [|done]. cbn in Hp. destruct (from_slice b) eqn:Hb; cbn in Hp; [done|done|by apply from_slice_no_panic in Hb].
  - split; [right; by eexists|]. intros Hrel. specialize (He Hrel). rewrite Hnul in He. apply negb_false_iff in He.
    unfold bind_texts. cbn [existsb]. by rewrite He.
Qed.
End Sessions.

(** *** The one-time prekey, in a transaction *)

Lemma tx_query_row {A T} i sql n ps (mapper : Row -> World -> result SqlError T) (out : A -> tuple) f l w1 w2 r :
  store_texts !! i = Some (sql, n) -> length ps = n -> Forall value_ok ps -> forallb no_nul ps = true -> conn_live h w1 ->
  denote (bs sql) (numbered ps) (visible (session h w1)) = Some (visible (session h w1), out <$> l) ->
  Forall (Forall value_ok) (out <$> l) -> mapper_reads mapper out f ->
  Connection_query_row (db_conn self) sql ps mapper w1 = (w2, r) ->
  quiet w1 w2 /\ ((r = Ok ((fun x => f (out x)) <$> head l) /\ session h w2 = session h w1) \/
    (exists e, r = Err e /\ same_or_abandoned (session h w1) (session h w2) /\ ~ reliable)).
Proof.
  intros Hi Hn Hok Hnn Hh Hd Hvals Hm Hrun. destruct (text_facts _ _ _ Hi) as (Hnul & Hlen & Hknown). rewrite <- Hn in *.
  pose proof (query_row_quiet self _ _ _ _ _ _ Hh Hrun) as Hq. split; [done|]. pose proof Hrun as Hrun2.
  apply (query_row_run _ _ _ _ (fun row => Ok (f row))) in Hrun; [|done|by apply value_ok_fits|].
  2:{ intros d rows. rewrite Hd. intros [= <- <-]. by apply mapper_maps. }
  destruct Hrun as [(d & rows & _ & Hd' & Hs & ->)|(e & Hs & ->)].
  - rewrite Hd in Hd'. injection Hd' as <- <-. rewrite write_visible in Hs. left. split; [by destruct l|done].
  - right. exists e. split_and!; [done|done|]. intros Hrel. pose proof (RL Hrel) as RLi.
    destruct (query_rows_exact (Datatypes.S (length l)) (db_conn self) sql ps mapper (fun row => Ok (f row)) w1 _ _ Hh
      (mapper_maps _ _ _ _ Hm Hvals) (value_ok_fits _ Hok) Hnn Hnul (Hknown Hrel) Hlen Hd) as (w3 & Hx & _); [rewrite length_fmap; lia|].
    rewrite mapM_ok in Hx. destruct (query_row_first (Datatypes.S (length l)) (db_conn self) sql ps mapper w1 _ ltac:(by rewrite Hx) ltac:(lia)) as [o Ho].
    by rewrite Hrun2 in Ho.
Qed.

Lemma tx_execute_run i sql n ps d w1 w2 r :
  store_texts !! i = Some (sql, n) -> length ps = n -> Forall value_ok ps -> forallb no_nul ps = true -> conn_live h w1 ->
  denote (bs sql) (numbered ps) (visible (session h w1)) = Some (d, []) ->
  Connection_execute fuel (db_conn self) sql ps w1 = (w2, r) ->
  quiet w1 w2 /\ ((exists k, r = Ok k /\ session h w2 = write d (session h w1)) \/
    (exists e, r = Err e /\ same_or_abandoned (session h w1) (session h w2) /\ ~ reliable)).
Proof.
  intros Hi Hn Hok Hnn Hh Hd Hrun. destruct (text_facts _ _ _ Hi) as (Hnul & Hlen & Hknown). rewrite <- Hn in *.
  pose proof (execute_quiet fuel self _ _ _ _ _ Hh Hrun) as Hq. split; [done|]. pose proof (value_ok_fits _ Hok) as Hfit.
  assert (forall d' rows, denote (bs sql) (numbered ps) (visible (session h w1)) = Some (d', rows) -> rows = []) as Hnone.
  { intros d' rows. rewrite Hd. by intros [= _ <-]. }
  destruct r as [k|e|p].
  - left. exists k. split; [done|]. apply execute_trace in Hrun as (_ & s & w3 & w4 & Hl3 & Hv & Hs & Hstep & Hl4 & ->); [|done..].
    pose proof (step_first s w3 w4 SQLITE_DONE Hl3 ltac:(by rewrite Hv) Hstep) as Hf. cbv zeta in Hf. rewrite Hv in Hf. cbn in Hf.
    destruct Hf as (d' & rows & Hd' & _ & Hs4 & _). rewrite Hs in Hd', Hs4. rewrite Hd in Hd'. injection Hd' as <- <-.
    by rewrite finalize_session.
  - right. exists e. split_and!; [done|by eapply (execute_error fuel); [..|apply Hfuel|exact Hnone|exact Hrun]|]. intros Hrel. pose proof (RL Hrel) as RLi.
    destruct (execute_exact fuel (db_conn self) sql ps w1 d [] Hh Hfit Hnn Hnul (Hknown Hrel) Hlen Hd (proj1 Hfuel)) as [k Hk]. by rewrite Hrun in Hk.
  - exfalso. destruct (execute_query fuel (db_conn self) sql ps w1) as [l Hqq]. rewrite Hrun in Hqq. cbn in Hqq.
    apply (query_rows_run _ _ _ _ _ (fun _ => Ok tt)) in Hqq as [Hqq _]; [|done|done|apply Hfuel|].
    + inversion Hqq as [d' rows Hd' Hs Hr| |]. by rewrite (Hnone _ _ Hd') in Hr.
    + intros d' rows Hd'. rewrite (Hnone _ _ Hd'). split; [|apply Hfuel]. by intros s w3 row rest _ _ Hin%elem_of_nil.
Qed.

(** The tables and the answer when the first one-time prekey is taken. *)
Definition taken : Tables * option PreKeyRecord :=
  match prekeys_of_kind OneTime (live db) with
  | [] => (live db, None)
  | p :: _ => (set_prekeys (delete p.1 (t_prekeys (live db))) (live db), Some (prekey_from_row p))
  end.

Lemma taken_ok : store_ok taken.1.
Proof.
  pose proof (ht_ok _ _ _ Hw) as Hok. unfold taken. destruct (prekeys_of_kind OneTime (live db)) as [|p l]; [done|].
  destruct Hok as [H1 H2 H3 H4]. split; [exact H1|exact H2|exact H3|]. by apply (rows_ok_delete prekeys_table).
Qed.

Lemma take_spec : exists db', take_one_time_prekey None db = (db', Ok taken.2) /\ live db' = taken.1 /\ saved db' = saved db.
Proof.
  rewrite take_prekey_eq by apply Hw. unfold taken. destruct (prekeys_of_kind OneTime (live db)) as [|p l]; by eexists.
Qed.

(** Inside a transaction on the tables of [db]. *)
Definition in_tx (w1 : World) : Prop :=
  conn_live h w1 /\ exists d, session h w1 = {| committed := d; pending := Some d |} /\ represents (content d) (live db).

(** The SELECT and the DELETE. *)
Lemma take_statements_run w1 w2 t r :
  in_tx w1 ->
  (record ← Transaction_query_row take_one_time_prekey_sql [into_param (PreKeyKind_i64 OneTime)] prekey_mapper;
   match record with
   | Some r => Transaction_execute fuel take_one_time_prekey_delete_sql [into_param (pk_key_id r)];; mret tt
   | None => mret tt
   end;; mret record) ({| tx_conn := db_conn self; tx_done := false |}, w1) = ((t, w2), r) ->
  t = {| tx_conn := db_conn self; tx_done := false |} /\ quiet w1 w2 /\ committed (session h w2) = committed (session h w1) /\
  ((r = Ok taken.2 /\ exists d, pending (session h w2) = Some d /\ represents (content d) taken.1) \/ ((exists e, r = Err e) /\ ~ reliable)).
Proof.
  intros (Hh & d & Hs & Hrep) Hrun. unfold Transaction_query_row, Transaction_execute in Hrun. mrun_in Hrun.
  unfold on_second, zoom in Hrun. cbn [fst snd tx_conn] in Hrun.
  destruct (Connection_query_row (db_conn self) take_one_time_prekey_sql _ prekey_mapper w1) as [w3 r1] eqn:Hq.
  destruct (gives_denotes (V := V) (content := content) _ _ _ _ _ _ Hrep (so_rows _ (ht_ok _ _ _ Hw)) (take_one_time_prekey_gives (live db)))
    as (l & Hl & Hvals & Hd).
  destruct (tx_query_row 5 _ 1 [into_param (PreKeyKind_i64 OneTime)] _ prekey_columns prekey_of l w1 w3 r1 eq_refl eq_refl ltac:(values) eq_refl Hh
    ltac:(by rewrite Hs) Hvals prekey_reads Hq) as (Hq3 & [(-> & Hs3)|(e & -> & Hs3 & Hnr)]).
  2:{ injection Hrun as <- <- <-. split_and!; [done|done| |right; eauto]. destruct Hs3 as [->| ->]; done. }
  unfold taken. subst l. destruct (prekeys_of_kind OneTime (live db)) as [|p l]; cbn [take head fmap option_fmap option_map fst snd] in Hrun |- *; mrun_in Hrun.
  { injection Hrun as <- <- <-. split_and!; [done|done|by rewrite Hs3|]. left. split; [done|]. exists d. by rewrite Hs3, Hs. }
  rewrite prekey_of_columns in Hrun. cbn [fst snd tx_conn] in Hrun. replace (pk_key_id (prekey_from_row p)) with p.1 in Hrun by by destruct p.
  destruct (Connection_execute fuel (db_conn self) take_one_time_prekey_delete_sql _ w3) as [w4 r2] eqn:He.
  destruct (does_denotes (V := V) (content := content) _ _ _ _ _ Hrep (delete_prekey_does p.1 (live db))) as (st & _ & d' & db' & id & Hd' & Hrep' & _).
  destruct (tx_execute_run 6 take_one_time_prekey_delete_sql 1 [into_param p.1] d' w3 w4 r2 eq_refl eq_refl ltac:(values) eq_refl ltac:(by apply Hq3)
    ltac:(by rewrite Hs3, Hs) He) as (Hq4 & [(k & -> & Hs4)|(e & -> & Hs4 & Hnr)]).
  2:{ injection Hrun as <- <- <-. split_and!; [done|by etrans| |right; eauto]. rewrite <- Hs3. destruct Hs4 as [->| ->]; done. }
  mrun_in Hrun. injection Hrun as <- <- <-. rewrite Hs3 in Hs4. rewrite Hs4, Hs. split_and!; [done|by etrans|done|]. left. split; [done|]. by exists d'.
Qed.

(** The three statements as two steps. *)
Lemma take_body_eq p :
  (record ← Transaction_query_row take_one_time_prekey_sql [into_param (PreKeyKind_i64 OneTime)] prekey_mapper;
   match record with
   | Some r => Transaction_execute fuel take_one_time_prekey_delete_sql [into_param (pk_key_id r)];; mret tt
   | None => mret tt
   end;; Transaction_commit;; mret record) p =
  (record ← (record ← Transaction_query_row take_one_time_prekey_sql [into_param (PreKeyKind_i64 OneTime)] prekey_mapper;
     match record with
     | Some r => Transaction_execute fuel take_one_time_prekey_delete_sql [into_param (pk_key_id r)];; mret tt
     | None => mret tt
     end;; mret record); Transaction_commit;; mret record) p.
Proof.
  rewrite !M_bind_eq. destruct (Transaction_query_row _ _ _ p) as [p1 [[x|]|e|c]]; [|done..]. rewrite !M_bind_eq.
  destruct (Transaction_execute _ _ _ p1) as [p2 [k|e|c]]; done.
Qed.

(** COMMIT, after statements that made [d]. *)
Lemma commit_run w1 w2 d t r :
  conn_live h w1 -> pending (session h w1) = Some d ->
  Transaction_commit ({| tx_conn := db_conn self; tx_done := false |}, w1) = ((t, w2), r) ->
  t = {| tx_conn := db_conn self; tx_done := true |} /\ quiet w1 w2 /\
  ((r = Ok tt /\ session h w2 = {| committed := d; pending := None |}) \/
   (exists e, r = Err e /\ committed (session h w2) = committed (session h w1) /\ ~ reliable)).
Proof.
  intros Hh Hp Hrun. unfold Transaction_commit in Hrun. mrun_in Hrun. unfold on_second, on_first, zoom in Hrun. cbn [fst snd tx_conn] in Hrun.
  mrun_in Hrun. cbn [fst snd tx_conn] in Hrun. destruct (Connection_execute_batch (db_conn self) "COMMIT" w1) as [w3 r3] eqn:H3.
  injection Hrun as <- <- <-. apply execute_batch_run in H3 as (Hq3 & code & He & Hr); [|done..]. split_and!; [done|done|].
  pose proof (exec_commit _ _ _ _ Hh He) as Hs. unfold visible in Hs. rewrite Hp in Hs. cbn in Hs.
  destruct Hr as [[-> ->]|(Hc & e & ->)]; [rewrite decide_True in Hs by done; by left|rewrite decide_False in Hs by done; right].
  exists e. split_and!; [done..|]. intros Hrel. pose proof (RLE Hrel) as RLEi. apply Hc. pose proof (commit_ok h w1 Hh ltac:(by eexists)) as Hx. by rewrite He in Hx.
Qed.

(** The whole method.  Only a COMMIT that fails can leave the connection in a
    transaction; then nothing was committed. *)
Lemma take_agrees w' r :
  Database_take_one_time_prekey fuel self w = (w', r) -> agrees eq (take_one_time_prekey None) db w' r \/
  (exists e, r = Err e /\ conn_live h w' /\ represents (content (committed (session h w'))) (live db) /\ ~ reliable).
Proof.
  pose proof Hw as [Hh Hidle Hsaved Hrep Hok]. destruct take_spec as (db' & Hspec & Hl & Hsv).
  assert (forall e, ~ reliable -> holds_tables w' db -> agrees eq (take_one_time_prekey None) db w' (Err e)) as Herr.
  { intros e Hnr Hw'. split; [right; by exists e|]. by intros ?%Hnr. }
  intros Hrun. unfold Database_take_one_time_prekey, sql_, with_err, in_transaction in Hrun. rewrite M_bind_eq in Hrun.
  destruct (Connection_execute_batch (db_conn self) "BEGIN" w) as [w1 r1] eqn:H1. apply execute_batch_run in H1 as (Hq1 & code & He & Hr1); [|done..].
  pose proof (exec_begin _ _ _ _ Hh He) as Hs1. destruct Hr1 as [[-> ->]|(Hc & e & ->)]; [rewrite decide_True in Hs1 by done|rewrite decide_False in Hs1 by done].
  2:{ injection Hrun as <- <-. left. apply Herr; [|eapply holds_same; [done|done|by left]]. intros Hrel. pose proof (RLE Hrel) as RLEi. apply Hc.
      pose proof (begin_ok h w Hh Hidle) as Hx. by rewrite He in Hx. }
  unfold scoped, finally in Hrun. rewrite take_body_eq, M_bind_eq in Hrun. set (body := (record ← _; _)) in Hrun.
  destruct (body ({| tx_conn := db_conn self; tx_done := false |}, w1)) as [[t w2] r2] eqn:Hb.
  apply take_statements_run in Hb as (-> & Hq2 & Hs2 & Hres); [|split; [by apply Hq1|by eexists]]. rewrite Hs1 in Hs2. cbn in Hs2.
  assert (conn_live h w2) as Hh2 by by apply Hq2, Hq1. destruct Hres as [(-> & d & Hp & Hrep2)|([e ->] & Hnr)].
  - rewrite M_bind_eq in Hrun. destruct (Transaction_commit _) as [[t w3] r3] eqn:Hc.
    apply (commit_run _ _ d) in Hc as (-> & Hq3 & Hres); [|done..]. assert (conn_live h w3) as Hh3 by by apply Hq3.
    destruct Hres as [(-> & Hs3)|(e & -> & Hs3 & Hnr)]; injection Hrun as <- <-; [left|right].
    + assert (holds_tables w3 db') as Hw' by (split; rewrite ?Hs3, ?Hsv, ?Hl; cbn; try done; apply taken_ok).
      split; [left; exists taken.2, taken.2, db'; by split_and!|]. intros _. by rewrite Hspec.
    + eexists. split_and!; [done|done| |done]. by rewrite Hs3, Hs2.
  - unfold Transaction_drop in Hrun. cbn [fst snd tx_done tx_conn] in Hrun.
    destruct (Connection_execute_batch (db_conn self) "ROLLBACK" w2) as [w3 r3] eqn:H3. injection Hrun as <- <-. left. apply Herr; [done|].
    apply execute_batch_run in H3 as (Hq3 & code3 & He3 & _); [|done..]. pose proof (exec_rollback _ _ _ _ Hh2 He3) as Hs3. unfold abandon in Hs3.
    rewrite Hs2 in Hs3. split; [by apply Hq3|by rewrite Hs3|done|by rewrite Hs3|done].
Qed.
End Refines.
