(* ===== verification/StoreCalls.v ===== *)
(** Any sequence of calls of [presidium-storage/src/store.rs] on an open
    database, and opening the database: the SQL texts, run by an engine that
    follows the meaning of SQL, give what the operations of Store give. *)

From S2P Require Import Prelude Constants Prims Ratchet Identity Keys Sqleet SqleetProps SqlProps SessionState Database DatabaseProps Store StoreProps.
From S2P Require Import SqlText SqlSem StoreSql StoreRep StoreMeaning StoreQueries StoreRows StoreSqlFacts StoreSqlProps StoreRefines.

(** ** One call *)

Section Call.
Context {E : Engine} {R : Resources E} {S : EngineSafe R} {D : Type} {V : SqlView E D} {L : SqlLaws V}.
Context {plain : bytes -> Prop} {script : bytes -> D -> D} {version : D -> Z} {SL : ScriptLaws V plain script version}.
Context {content : D -> relations} {SEM : SqlSemantics V content}.
Context `{SK : Serde SessionKeys, SKO : !SerdeOk SessionKeys, SR : Serde RatchetSnapshot, SRO : !SerdeOk RatchetSnapshot}.
Context (fuel : nat) (self : OpenDatabase).
Abbreviation h := (conn_db (db_conn self)).
Abbreviation holds_tables := (holds_tables (content := content) self).
Context {known : bytes -> Z -> Prop} (reliable : Prop) (RL : reliable -> Reliable known) (RLE : reliable -> ReliableExec V).
Context (texts_known : reliable -> Forall (fun p => known (bs p.1) (Z.of_nat p.2)) store_texts).
Abbreviation agrees := (agrees (content := content) self reliable).

(** A method that is one statement: its text, what the text does, and the
    operation of Store. *)
Lemma statement_agrees i sql n ps spec o db w w' r :
  execute_ fuel self sql ps w = (w', r) -> holds_tables w db -> enough fuel (live db) -> store_texts !! i = Some (sql, n) -> length ps = n ->
  Forall value_ok ps -> does sql ps (live db) o -> write_spec spec ps db o (fun _ => tt) -> agrees eq spec db w' r.
Proof. intros Hrun Hw [Hfuel _] Hi Hn Hok Hdoes Hspec. by eapply (write_agrees fuel self reliable RL texts_known i). Qed.

Ltac statement Hw Hfuel Hok Hst Hrun i does_lemma spec_lemma := left; eapply (statement_agrees i); [exact Hrun|exact Hw|exact Hfuel|reflexivity|reflexivity|first [exact Hok|values]|apply does_lemma|apply spec_lemma; first [exact Hst|exact Hok|values]].
Ltac method lemma := left; eapply lemma; eauto.

Lemma call_agrees {A} (call : store_call A) db w w' r :
  holds_tables w db -> enough fuel (live db) -> call_ok call -> run_call fuel self call w = (w', r) ->
  agrees (same_answer call) (call_spec call) db w' r \/
  (is_take call = true /\ exists e, r = Err e /\ conn_live h w' /\ represents (content (committed (session h w'))) (live db) /\ ~ reliable).
Proof.
  intros Hw Hfuel Hok Hrun. pose proof (ht_ok _ _ _ Hw) as Hst. destruct call; cbn [run_call call_spec same_answer is_take call_ok] in *.
  - statement Hw Hfuel Hok Hst Hrun 0%nat save_identity_does save_identity_spec.
  - method @load_identity_agrees.
  - statement Hw Hfuel Hok Hst Hrun 2%nat save_prekey_does save_prekey_spec.
  - method @list_prekeys_agrees.
  - method @count_prekeys_agrees.
  - eapply take_agrees in Hrun as [H|H]; [by left|right; by split|eauto..].
  - statement Hw Hfuel Hok Hst Hrun 7%nat delete_prekey_does delete_prekey_spec.
  - statement Hw Hfuel Hok Hst Hrun 8%nat upsert_conversation_does upsert_conversation_spec.
  - method @load_conversation_agrees.
  - method @list_conversations_agrees.
  - method @save_session_agrees.
  - method @load_session_agrees.
  - statement Hw Hfuel Hok Hst Hrun 13%nat delete_session_does delete_session_spec.
  - method @insert_message_agrees.
  - method @list_messages_agrees.
  - destruct Hok. method @load_message_by_uid_agrees.
  - statement Hw Hfuel Hok Hst Hrun 17%nat update_message_status_does update_message_status_spec.
  - statement Hw Hfuel Hok Hst Hrun 18%nat upsert_sender_key_does upsert_sender_key_spec.
  - destruct Hok. method @load_sender_key_agrees.
  - statement Hw Hfuel Hok Hst Hrun 20%nat insert_media_does insert_media_spec.
  - method @load_media_agrees.
  - method @list_media_agrees.
  - destruct Hok. statement Hw Hfuel Hw Hst Hrun 23%nat save_doc_does save_doc_spec.
  - method @load_doc_agrees.
  - statement Hw Hfuel Hok Hst Hrun 25%nat delete_doc_does delete_doc_spec.
  - statement Hw Hfuel Hok Hst Hrun 26%nat upsert_device_does upsert_device_spec.
  - method @list_devices_agrees.
Qed.
End Call.

(** ** How tables grow *)

Definition grows (a b : Tables) : Prop := forall name, (length (table_rows b name) <= Datatypes.S (length (table_rows a name)))%nat.

#[export] Instance grows_refl : Reflexive grows.
Proof. intros t name. lia. Qed.

Lemma keyed_grows {K} `{Countable K} {X} {enc : K * X -> tuple} {i name C key get set} (T : keyed_table enc i name C key get set) t m :
  (size m <= Datatypes.S (size (get t)))%nat -> grows t (set m t).
Proof.
  intros Hm other. destruct (decide (other = name)) as [->|Hne]; [|rewrite (kt_other _ _ _ _ _ _ _ T) by done; lia].
  rewrite !(kt_rows _ _ _ _ _ _ _ T), (kt_get _ _ _ _ _ _ _ T), !length_fmap, !length_map_to_list. exact Hm.
Qed.

Lemma messages_grow t m seq : (size m <= Datatypes.S (size (t_messages t)))%nat -> grows t (set_messages m seq t).
Proof.
  intros Hm other. destruct (decide (other = "messages")) as [->|Hne].
  - rewrite !messages_rows, !length_fmap, !length_map_to_list. exact Hm.
  - replace (table_rows (set_messages m seq t) other) with (table_rows t other); [lia|]. unfold table_rows. repeat case_decide; done || congruence.
Qed.

Lemma identity_grows t r : grows t (set_identity (Some r) t).
Proof.
  intros other. destruct (decide (other = "identity")) as [->|Hne]; [rewrite identity_rows; cbn; lia|].
  unfold table_rows. rewrite (decide_False (P := other = "identity")) by done. rewrite (decide_False (P := other = "identity")) by done. cbn. lia.
Qed.

Lemma size_insert {K} `{Countable K} {X} (m : gmap K X) k x : (size (<[k := x]> m) <= Datatypes.S (size m))%nat.
Proof. rewrite map_size_insert. destruct (m !! k); cbn; lia. Qed.
Lemma size_delete {K} `{Countable K} {X} (m : gmap K X) k : (size (delete k m) <= Datatypes.S (size m))%nat.
Proof. rewrite map_size_delete. destruct (m !! k); cbn; lia. Qed.

#[local] Hint Resolve identity_grows messages_grow size_insert size_delete : core.
#[local] Hint Extern 1 (grows _ (set_prekeys _ _)) => apply (keyed_grows prekeys_table) : core.
#[local] Hint Extern 1 (grows _ (set_conversations _ _)) => apply (keyed_grows conversations_table) : core.
#[local] Hint Extern 1 (grows _ (set_sessions _ _)) => apply (keyed_grows sessions_table) : core.
#[local] Hint Extern 1 (grows _ (set_sender_keys _ _)) => apply (keyed_grows sender_keys_table) : core.
#[local] Hint Extern 1 (grows _ (set_media _ _)) => apply (keyed_grows media_table) : core.
#[local] Hint Extern 1 (grows _ (set_docs _ _)) => apply (keyed_grows docs_table) : core.
#[local] Hint Extern 1 (grows _ (set_devices _ _)) => apply (keyed_grows devices_table) : core.

Lemma bind_texts_grows {A} texts (k : M Db StorageError A) db :
  grows (live db) (live (k db).1) -> grows (live db) (live ((bind_texts texts;; k) db).1).
Proof. intros Hk. unfold bind_texts. rewrite M_bind_eq. by destruct (existsb _ _). Qed.

Lemma alter_grows id f t : grows t (set_messages (alter f id (t_messages t)) (t_messages_seq t) t).
Proof. apply messages_grow. rewrite <- !(size_dom (D := gset Z)), dom_alter_L. lia. Qed.

(** A call adds at most one row to a table. *)
Lemma call_grows `{SK : Serde SessionKeys, SR : Serde RatchetSnapshot} {A} (call : store_call A) db :
  saved db = None -> grows (live db) (live (call_spec call db).1).
Proof.
  intros Hs. destruct call; cbn [call_spec];
    try (apply bind_texts_grows); try reflexivity; try (cbn; by auto); try apply alter_grows.
  - rewrite take_prekey_eq by done. destruct (prekeys_of_kind _ _); cbn; [done|auto].
  - unfold save_session. mrun. destruct (to_vec _); cbn [map_err]; mrun; [|done..]. destruct (traverse_option _ _); cbn [map_err]; mrun; [|done..].
    apply bind_texts_grows. mrun. destruct (_ !! _); cbn; [auto|done].
  - mrun. destruct (_ =? _); [done|]. destruct (existsb _ _); [done|]. destruct (_ !! _); [|done]. mrun. cbn [live fst]. auto.
  - mrun. destruct (_ !! _); [done|]. destruct (md_message_id r); [case_decide|]; cbn; done || auto.
Qed.

(** ** Sequences of calls *)

Section Programs.
Context {E : Engine} {R : Resources E} {S : EngineSafe R} {D : Type} {V : SqlView E D} {L : SqlLaws V}.
Context {plain : bytes -> Prop} {script : bytes -> D -> D} {version : D -> Z} {SL : ScriptLaws V plain script version}.
Context {content : D -> relations} {SEM : SqlSemantics V content}.
Context `{SK : Serde SessionKeys, SKO : !SerdeOk SessionKeys, SR : Serde RatchetSnapshot, SRO : !SerdeOk RatchetSnapshot}.
Context (fuel : nat) (self : OpenDatabase).
Abbreviation h := (conn_db (db_conn self)).
Abbreviation holds_tables := (holds_tables (content := content) self).

(** C9. Each of the 27 methods of the store, run through the wrapper with its
    SQL text, its parameters and its row mapper, refines the operation on the
    tables, whatever the engine fails at (preparing, binding, stepping, BEGIN,
    COMMIT): a call that returns [Ok] has done exactly what the operation does
    and returns its answer (lists that are sorted by a time up to the order of
    equal times), and a call that returns an error has changed nothing; no call
    panics.  The one exception is [take_one_time_prekey], where a COMMIT that
    fails may leave the transaction open, with nothing committed.  The engine
    is assumed to give the texts the meaning of SqlSem. *)
Theorem store_calls_refine {A} (call : store_call A) db w w' r :
  holds_tables w db -> enough fuel (live db) -> call_ok call -> run_call fuel self call w = (w', r) ->
  (exists a a' db', r = Ok a /\ call_spec call db = (db', Ok a') /\ same_answer call a a' /\ holds_tables w' db') \/
  (exists e, r = Err e /\ represents (content (committed (session h w'))) (live db) /\ (is_take call = false -> holds_tables w' db)).
Proof.
  intros Hw Hfuel Hok Hrun.
  destruct (call_agrees (known := fun _ _ => True) fuel self False ltac:(done) ltac:(done) ltac:(done) call db w w' r Hw Hfuel Hok Hrun)
    as [[[H|(e & He & Hw')] _]|(Ht & e & He & _ & Hrep & _)]; [by left|right..]; exists e.
  - split_and!; [done|apply Hw'|done].
  - split_and!; [done|done|]. by rewrite Ht.
Qed.

(** *** An engine that does not fail *)

Context {known : bytes -> Z -> Prop} {RL : Reliable known} {RLE : ReliableExec V}.
Context (texts_known : Forall (fun p => known (bs p.1) (Z.of_nat p.2)) store_texts).

Definition any_call : Type := {A : Type & store_call A}.

(** A call and the operation succeed or fail together. *)
Definition same_outcome {A} (call : store_call A) (r s : result StorageError A) : Prop :=
  match r, s with
  | Ok a, Ok a' => same_answer call a a'
  | Err _, Err _ => True
  | _, _ => False
  end.

(** The same calls on the database and on the tables: each pair of calls
    succeeds or fails together with the same answer, and the tables are those
    of the database after each. *)
Fixpoint in_step (calls : list any_call) (w : World) (db : Db) : Prop :=
  holds_tables w db /\
  match calls with
  | [] => True
  | existT A call :: calls =>
      let '(w', r) := run_call fuel self call w in
      let '(db', s) := call_spec call db in
      same_outcome call r s /\ in_step calls w' db'
  end.

Lemma call_in_step {A} (call : store_call A) db w :
  holds_tables w db -> enough fuel (live db) -> call_ok call ->
  same_outcome call (run_call fuel self call w).2 (call_spec call db).2 /\
  holds_tables (run_call fuel self call w).1 (call_spec call db).1 /\ grows (live db) (live (call_spec call db).1).
Proof.
  intros Hw He Hc. destruct (run_call fuel self call w) as [w' r] eqn:Hrun.
  destruct (call_agrees (known := known) fuel self True ltac:(done) ltac:(done) ltac:(done) call db w w' r Hw He Hc Hrun)
    as [[Hag Hrel]|(_ & e & _ & _ & _ & [])]; [|done]. destruct (Hrel I) as [His Hw'].
  pose proof (call_grows call db (ht_saved _ _ _ Hw)) as Hg. destruct (call_spec call db) as [db' s]. cbn [fst snd] in *.
  split; [|by split]. destruct Hag as [(a & a' & db2 & -> & [= -> ->] & Hsame & _)|(e & -> & _)]; [done|]. by destruct s.
Qed.

(** Rows at the start plus one for each call bound the rows there can be. *)
Lemma programs_in_step calls db w :
  holds_tables w db -> Forall (fun c : any_call => call_ok (projT2 c)) calls ->
  (forall name, (length (table_rows (live db) name) + length calls < fuel)%nat) -> in_step calls w db.
Proof.
  revert w db. induction calls as [|[A call] calls IH]; intros w db Hw Hok Hfuel; [done|]. cbn [in_step length] in *.
  apply Forall_cons in Hok as [Hc Hok]. cbn [projT2] in Hc. split; [done|].
  assert (enough fuel (live db)) as He by (split; [specialize (Hfuel ""); lia|intros name; specialize (Hfuel name); lia]).
  destruct (call_in_step call db w Hw He Hc) as (Hr & Hw' & Hg).
  destruct (run_call fuel self call w) as [w' r], (call_spec call db) as [db' s]. cbn [fst snd] in *. split; [exact Hr|].
  apply IH; [done|done|]. intros name. specialize (Hg name). specialize (Hfuel name). lia.
Qed.
End Programs.
