(* ===== verification/StoreOpen.v ===== *)
(** Opening the database of [presidium-storage/src/database.rs]: the migration
    script [migrations/0001_init.sql] makes the tables of Store, a database
    that was migrated before keeps its rows, and from then on every sequence
    of calls gives what the operations of Store give. *)

From S2P Require Import Prelude Constants Prims Ratchet Identity Keys Sqleet SqleetProps SqlProps SessionState Database DatabaseProps Store StoreProps.
From S2P Require Import SqlText SqlSem StoreSql StoreRep StoreMeaning StoreQueries StoreRows StoreSqlFacts StoreSqlProps StoreRefines StoreCalls.

(** ** Scripts that SqlText reads

    [sqlite3_exec] of a script has the meaning of SqlSem where that is defined.
    The two pragmas of [open] and the stored version are no part of the
    tables; the key and the busy timeout do not touch the content. *)
Class ScriptSemantics {E : Engine} {R : Resources E} {D : Type} (V : SqlView E D)
    (plain : bytes -> Prop) (script : bytes -> D -> D) (version : D -> Z) (content : D -> relations) : Prop := {
  script_plain sql : is_Some (parse_script sql) -> plain (bs sql);
  script_meaning sql l d db' :
    parse_script sql = Some l -> exec_script l (content d) = Some db' -> same_relations (content (script (bs sql) d)) db';
  version_content k d : content (script (bs (user_version_sql k)) d) = content d;
  setting_script sql d :
    sql = pragma_sql "journal_mode" "WAL" \/ sql = "PRAGMA foreign_keys = ON" ->
    plain (bs sql) /\ content (script (bs sql) d) = content d /\ version (script (bs sql) d) = version d;
  key_session h key n w : conn_live h w -> session h (sqlite3_key h key n w).1 = session h w;
  timeout_session h ms w : conn_live h w -> session h (sqlite3_busy_timeout h ms w).1 = session h w
}.

Section Open.
Context {E : Engine} {R : Resources E} {S : EngineSafe R} {D : Type} {V : SqlView E D} {L : SqlLaws V}.
Context {plain : bytes -> Prop} {script : bytes -> D -> D} {version : D -> Z} {SL : ScriptLaws V plain script version}.
Context {content : D -> relations} {SEM : SqlSemantics V content} {SCR : ScriptSemantics V plain script version content}.

(** What a file holds: nothing yet, or the tables [t] of an earlier run. *)
Definition stored (d : D) (t : Tables) : Prop :=
  (version d = 0 /\ content d = ∅ /\ t = empty_tables) \/ (1 <= version d /\ represents (content d) t /\ store_ok t).

Lemma visible_none (s : Session D) : pending s = None -> visible s = committed s.
Proof. unfold visible. by intros ->. Qed.

Definition idle (s : Session D) (t : Tables) : Prop := pending s = None /\ stored (committed s) t.

(** ** The steps of [setup] *)

Lemma setting_run c sql w w' t :
  conn_live (conn_db c) w -> idle (session (conn_db c) w) t ->
  sql = pragma_sql "journal_mode" "WAL" \/ sql = "PRAGMA foreign_keys = ON" ->
  Connection_execute_batch c sql w = (w', Ok tt) -> quiet w w' /\ idle (session (conn_db c) w') t.
Proof.
  intros Hh [Hp Hd] Hsql Hrun. apply execute_batch_run in Hrun as (Hq & code & He & Hr); [|done|by destruct Hsql as [->| ->]].
  split; [done|]. destruct (setting_script sql (visible (session (conn_db c) w)) Hsql) as (Hpl & Hc & Hv).
  pose proof (exec_plain _ _ _ _ _ Hh Hpl He) as Hs. destruct Hr as [[-> _]|(_ & e & [=])]. cbn in Hs. rewrite Hs. unfold write, visible in *.
  rewrite Hp in *. split; [done|]. cbn [committed]. destruct Hd as [(H1 & H2 & H3)|(H1 & H2 & H3)]; [left|right]; by rewrite Hc, Hv.
Qed.

(** The migration of a new file makes the empty tables; one that was migrated
    is left alone. *)
Lemma migrated_stored d t :
  stored d t -> represents (content (migrated script (version d) 0 MIGRATIONS d)) t /\ store_ok t.
Proof.
  destruct init_statements_run as [Hp Hx]. intros [(Hv & Hc & ->)|(Hv & Hrep & Hok)].
  - split; [|exact store_ok_empty]. rewrite Hv. unfold MIGRATIONS. cbn [migrated]. change (0 + 1 <=? 0) with false. cbv iota.
    unfold migrated_one. rewrite version_content. rewrite <- Hc in Hx. rewrite (script_meaning _ _ _ _ Hp Hx). exact represents_empty.
  - rewrite migrated_old by (cbn; lia). exact (conj Hrep Hok).
Qed.

Lemma init_plain : plain (bs INIT_SQL).
Proof. apply script_plain. by rewrite (proj1 init_statements_run). Qed.

(** ** The whole of [open] *)

Lemma key_run c key w w' : conn_live (conn_db c) w -> Connection_key c key w = (w', Ok tt) -> quiet w w' /\ session (conn_db c) w' = session (conn_db c) w.
Proof.
  intros Hh Hrun. pose proof (program_quiet c _ w (prog_key c key) Hh) as Hq. rewrite Hrun in Hq. split; [exact Hq|].
  unfold Connection_key in Hrun. mrun_in Hrun. unfold ffi in Hrun. pose proof (key_session (conn_db c) key (as_i32 (Z.of_nat (length key))) w Hh) as Hs.
  destruct (sqlite3_key _ _ _ w) as [w1 code]. mrun_in Hrun. unfold check in Hrun. by destruct (code =? SQLITE_OK); injection Hrun as <-.
Qed.

Lemma timeout_run c ms w w' :
  conn_live (conn_db c) w -> Connection_busy_timeout c ms w = (w', Ok tt) -> quiet w w' /\ session (conn_db c) w' = session (conn_db c) w.
Proof.
  intros Hh Hrun. pose proof (program_quiet c _ w (prog_busy_timeout c ms) Hh) as Hq. rewrite Hrun in Hq. split; [exact Hq|].
  unfold Connection_busy_timeout in Hrun. mrun_in Hrun. unfold ffi in Hrun. pose proof (timeout_session (conn_db c) (Z.min ms i32_max) w Hh) as Hs.
  destruct (sqlite3_busy_timeout _ _ w) as [w1 code]. mrun_in Hrun. unfold check in Hrun. by destruct (code =? SQLITE_OK); injection Hrun as <-.
Qed.

Lemma migrations_run c w w' t :
  conn_live (conn_db c) w -> idle (session (conn_db c) w) t -> run_migrations c w = (w', Ok tt) ->
  quiet w w' /\ pending (session (conn_db c) w') = None /\ represents (content (committed (session (conn_db c) w'))) t /\ store_ok t.
Proof.
  intros Hh [Hp Hd] Hrun. unfold run_migrations, run_all, sql_, with_err in Hrun. rewrite M_bind_eq in Hrun.
  destruct (Connection_pragma_i64 c "user_version" w) as [w1 r1] eqn:H1. apply pragma_user_version_run in H1 as (Hq1 & [[Hs1 ->]|[_ [e ->]]]); [|done..].
  cbn [map_err] in Hrun. rewrite visible_none in Hrun by done.
  assert (Forall (fun m => plain (bs m.2) /\ has_nul m.2 = false) MIGRATIONS) as Hm.
  { constructor; [|constructor]. split; [exact init_plain|]. vm_compute. reflexivity. }
  apply migrate_from_run in Hrun as (Hq & k & _ & Hc & [(_ & -> & Hp')|[e [=]]]); [|by apply Hq1|done|lia|cbn; lia|by rewrite Hs1].
  split; [by etrans|]. split; [done|]. rewrite Hc, take_ge, Hs1 by done. by apply migrated_stored.
Qed.

Lemma finish_run c key w w' self t :
  conn_live (conn_db c) w -> idle (session (conn_db c) w) t -> Database_finish c key w = (w', Ok self) ->
  db_conn self = c /\ holds_tables (content := content) self w' {| live := t; saved := None; last_rowid := 0 |}.
Proof.
  intros Hh Hi Hrun. unfold Database_finish, or_drop in Hrun. rewrite M_bind_eq in Hrun.
  destruct (Database_setup c key w) as [w6 r6] eqn:Hsetup. destruct r6 as [[]|e|p]; [|done..]. injection Hrun as <- <-. split; [done|].
  unfold Database_setup, sql_, with_err in Hsetup. rewrite M_bind_eq in Hsetup.
  destruct (Connection_key c key w) as [w1 [[]|e|p]] eqn:H1; cbn [map_err] in Hsetup; [|done..]. apply key_run in H1 as [Hq1 Hs1]; [|done].
  assert (conn_live (conn_db c) w1) as Hh1 by by apply Hq1. rewrite <- Hs1 in Hi. rewrite M_bind_eq in Hsetup. unfold Connection_pragma_set_string in Hsetup.
  destruct (Connection_execute_batch c (pragma_sql "journal_mode" "WAL") w1) as [w2 [[]|e|p]] eqn:H2; cbn [map_err] in Hsetup; [|done..].
  apply (setting_run c _ _ _ t) in H2 as [Hq2 Hi2]; [|done|done|by left]. assert (conn_live (conn_db c) w2) as Hh2 by by apply Hq2. rewrite M_bind_eq in Hsetup.
  destruct (Connection_execute_batch c "PRAGMA foreign_keys = ON" w2) as [w3 [[]|e|p]] eqn:H3; cbn [map_err] in Hsetup; [|done..].
  apply (setting_run c _ _ _ t) in H3 as [Hq3 Hi3]; [|done|done|by right]. assert (conn_live (conn_db c) w3) as Hh3 by by apply Hq3. rewrite M_bind_eq in Hsetup.
  destruct (Connection_busy_timeout c 5000 w3) as [w4 [[]|e|p]] eqn:H4; cbn [map_err] in Hsetup; [|done..]. apply timeout_run in H4 as [Hq4 Hs4]; [|done].
  rewrite <- Hs4 in Hi3. assert (conn_live (conn_db c) w4) as Hh4 by by apply Hq4.
  destruct (migrations_run c w4 w6 t Hh4 Hi3 Hsetup) as (Hq6 & Hp & Hrep & Hok). split; cbn [db_conn live saved]; [by apply Hq6|done..].
Qed.

(** The ways to open a database, with the name the engine is given. *)
Inductive opening (key : bytes) : bytes -> M World StorageError OpenDatabase -> Prop :=
| opening_file p : opening key (bs p) (Database_open (Some p) key)
| opening_memory : opening key (bs ":memory:") (Database_open_in_memory key).

Lemma opening_finish key file m w w' self :
  opening key file m -> m w = (w', Ok self) ->
  exists h w1, sqlite3_open_v2 file open_flags w = (w1, (Some h, SQLITE_OK)) /\ conn_live h w1 /\ Database_finish {| conn_db := h |} key w1 = (w', Ok self).
Proof.
  assert (forall r, sql_ (open_handle file) w = r -> (conn ← sql_ (open_handle file); Database_finish conn key) w = (w', Ok self) ->
    exists h w1, sqlite3_open_v2 file open_flags w = (w1, (Some h, SQLITE_OK)) /\ conn_live h w1 /\ Database_finish {| conn_db := h |} key w1 = (w', Ok self)) as H.
  { intros r <-. rewrite M_bind_eq. unfold sql_, with_err, open_handle. mrun. unfold ffi.
    destruct (sqlite3_open_v2 file open_flags w) as [w1 [[h|] code]] eqn:Ho; mrun; [|done]. unfold check.
    destruct (Z.eqb_spec code SQLITE_OK) as [->|]; [|done]. mrun. cbn [map_err]. intros Hf. exists h, w1. split_and!; [done| |done].
    apply open_some in Ho as (_ & _ & C & _). apply C. by left. }
  destruct 1 as [p|]; intros Hrun; [|by eapply H]. eapply H; [done|].
  unfold Database_open, Connection_open, sql_, with_err in Hrun |- *. rewrite M_bind_eq in Hrun |- *. mrun_in Hrun. cbn [ok_or] in Hrun. mrun_in Hrun.
  unfold CString_new in Hrun. destruct (has_nul p); cbn [ok_or] in Hrun; mrun_in Hrun; [done|]. exact Hrun.
Qed.

Context `{SK : Serde SessionKeys, SKO : !SerdeOk SessionKeys, SR : Serde RatchetSnapshot, SRO : !SerdeOk RatchetSnapshot}.
Context {known : bytes -> Z -> Prop} {RL : Reliable known} {RLE : ReliableExec V}.

(** C8. A database that was opened behaves like the tables of Store.  Opening a
    new file (or memory) runs [0001_init.sql], which makes the empty tables;
    opening a file that an earlier run migrated keeps its tables; and then any
    sequence of calls, on an engine that does not fail, gives call by call the
    results the operations of Store give (errors exactly where they give
    errors: constraints, NUL bytes, JSON), and the database holds the tables
    the operations make. *)
Theorem opened_store_in_step fuel key file m w w1 w' h self t calls :
  opening key file m -> sqlite3_open_v2 file open_flags w = (w1, (Some h, SQLITE_OK)) -> idle (session h w1) t -> m w = (w', Ok self) ->
  Forall (fun p => known (bs p.1) (Z.of_nat p.2)) store_texts -> Forall (fun c : any_call => call_ok (projT2 c)) calls ->
  (forall name, (length (table_rows t name) + length calls < fuel)%nat) ->
  in_step (content := content) fuel self calls w' {| live := t; saved := None; last_rowid := 0 |}.
Proof.
  intros Hm Ho Hi Hrun Hk Hok Hfuel. destruct (opening_finish key file m w w' self Hm Hrun) as (h' & w1' & Ho' & Hh & Hf).
  rewrite Ho in Ho'. injection Ho' as <- <-. destruct (finish_run {| conn_db := h |} key w1 w' self t Hh Hi Hf) as [_ Hw].
  by apply (programs_in_step fuel self Hk).
Qed.
End Open.
