(* ===== verification/StoreRead.v ===== *)
(** Reading the tables of Store back from an SQL database: [tables_of] is the
    inverse of the representation of StoreRep, so that what [Database::open]
    shows of a file ([database_tables]) is a value the application can run
    on. *)

From S2P Require Import Prelude Constants Prims Ratchet Identity Keys Sqleet SqleetProps SqlProps SessionState Database DatabaseProps Store StoreProps.
From S2P Require Import SqlText SqlSem StoreSql StoreRep StoreMeaning StoreQueries StoreRows StoreSqlFacts StoreSqlProps StoreRefines StoreCalls StoreOpen.

(** ** Rows *)

Definition identity_of (r : tuple) : option IdentityRecord :=
  match r with
  | [I64 _; Text device; Blob c; Blob p; I64 at_] =>
      Some {| ir_device_id := device; ir_classical_seed := c; ir_pq_seed := p; ir_created_at := at_ |}
  | _ => None
  end.
Definition prekey_of (r : tuple) : option (Z * PrekeyRow) :=
  match r with
  | [I64 id; I64 kind; Blob c; Blob p; Blob pc; Blob pp; Blob sig; I64 at_] =>
      Some (id, {| pkr_kind := kind; pkr_classical := c; pkr_pq := p; pkr_public_classical := pc; pkr_public_pq := pp;
                   pkr_signature := sig; pkr_created_at := at_ |})
  | _ => None
  end.
Definition conversation_of (r : tuple) : option (string * ConversationRow) :=
  match r with
  | [Text id; Blob c; Blob p; I64 g; I64 at_] =>
      Some (id, {| cvr_peer_classical := c; cvr_peer_pq := p; cvr_is_group := g; cvr_created_at := at_ |})
  | _ => None
  end.
Definition session_of (r : tuple) : option (string * SessionRow) :=
  match r with
  | [Text id; I64 i; Text keys; ratchet; I64 at_] =>
      Some (id, {| sr_is_initiator := i; sr_session_keys := bs keys;
                   sr_ratchet_state := match ratchet with Text t => Some (bs t) | _ => None end; sr_last_used := at_ |})
  | _ => None
  end.
Definition message_of (r : tuple) : option (Z * MessageRow) :=
  match r with
  | [I64 id; Text c; Blob uid; Blob sender; Blob ct; Text header; I64 kind; I64 dir; I64 status; I64 at_] =>
      Some (id, {| mrr_conversation_id := c; mrr_message_id := uid; mrr_sender_classical := sender; mrr_ciphertext := ct; mrr_header := header;
                   mrr_content_type := kind; mrr_direction := dir; mrr_status := status; mrr_created_at := at_ |})
  | _ => None
  end.
Definition sender_key_of (r : tuple) : option ((string * bytes) * SenderKeyRow) :=
  match r with
  | [Text g; Blob sender; Blob chain; I64 index; I64 key; I64 at_] =>
      Some ((g, sender), {| skw_chain_key := chain; skw_message_index := index; skw_key_id := key; skw_updated_at := at_ |})
  | _ => None
  end.
Definition media_of (r : tuple) : option (string * MediaRow) :=
  match r with
  | [Text id; message; I64 kind; Blob key; I64 size; Text path; I64 at_] =>
      Some (id, {| mdr_message_id := match message with I64 m => Some m | _ => None end; mdr_kind := kind; mdr_encryption_key := key;
                   mdr_size := size; mdr_relative_path := path; mdr_created_at := at_ |})
  | _ => None
  end.
Definition doc_of (r : tuple) : option (string * DocRow) :=
  match r with
  | [Text id; Blob doc; I64 at_] => Some (id, {| dr_ydoc := doc; dr_updated_at := at_ |})
  | _ => None
  end.
Definition device_of (r : tuple) : option (string * DeviceRow) :=
  match r with
  | [Text id; Blob c; Blob p; seen] =>
      Some (id, {| dvr_classical := c; dvr_pq := p; dvr_last_seen := match seen with I64 t => Some t | _ => None end |})
  | _ => None
  end.

(** ** Tables *)

Definition read_map {K X} `{Countable K} (dec : tuple -> option (K * X)) (rows : list tuple) : gmap K X := list_to_map (omap dec rows).

Definition tables_of (db : relations) : Tables :=
  {| t_identity := head (omap identity_of (rows_of db "identity"));
     t_prekeys := read_map prekey_of (rows_of db "prekeys");
     t_conversations := read_map conversation_of (rows_of db "conversations");
     t_sessions := read_map session_of (rows_of db "sessions");
     t_messages := read_map message_of (rows_of db "messages");
     t_messages_seq := seq_of db "messages";
     t_sender_keys := read_map sender_key_of (rows_of db "sender_keys");
     t_media := read_map media_of (rows_of db "media");
     t_docs := read_map doc_of (rows_of db "docs");
     t_devices := read_map device_of (rows_of db "devices") |}.

Lemma omap_decodes {X} (enc : X -> tuple) (dec : tuple -> option X) (l : list X) :
  (forall x, dec (enc x) = Some x) -> omap dec (enc <$> l) = l.
Proof. intros Hd. induction l as [|x l IH]; [done|]. cbn. by rewrite Hd, IH. Qed.

Lemma read_map_rows {K X} `{Countable K} (enc : K * X -> tuple) (dec : tuple -> option (K * X)) rows (m : gmap K X) :
  (forall x, dec (enc x) = Some x) -> rows ≡ₚ enc <$> map_to_list m -> read_map dec rows = m.
Proof. intros Hd Hr. symmetry. apply list_to_map_flip. by rewrite Hr, (omap_decodes enc dec _ Hd). Qed.

(** An SQL database determines the tables it represents. *)
Lemma tables_of_represents db t : represents db t -> tables_of db = t.
Proof.
  intros [_ Hr Hs]. destruct t as [i pk cv se ms q sk md dc dv]. unfold tables_of. f_equal.
  - pose proof (Hr "identity") as H1. cbn in H1. destruct i as [[]|]; cbn in H1.
    + apply Permutation_singleton_r in H1 as ->. done.
    + apply Permutation_nil_r in H1 as ->. done.
  - apply (read_map_rows prekey_columns); [by intros [? []]|exact (Hr "prekeys")].
  - apply (read_map_rows conversation_columns); [by intros [? []]|exact (Hr "conversations")].
  - apply (read_map_rows session_columns); [|exact (Hr "sessions")]. intros [? [? ? [b|] ?]]; cbn -[bs text_of]; unfold text_of; by rewrite !bs_of_bytes.
  - apply (read_map_rows message_columns); [by intros [? []]|exact (Hr "messages")].
  - exact Hs.
  - apply (read_map_rows sender_key_columns); [by intros [[] []]|exact (Hr "sender_keys")].
  - apply (read_map_rows media_columns); [by intros [? [[] ? ? ? ? ?]]|exact (Hr "media")].
  - apply (read_map_rows doc_columns); [by intros [? []]|exact (Hr "docs")].
  - apply (read_map_rows device_columns); [by intros [? [? ? []]]|exact (Hr "devices")].
Qed.

(** Tables as an SQL database, and back. *)
Definition database_of (t : Tables) : relations :=
  map_imap (fun name tb => Some (set_rows (table_rows t name) (if decide (name = "messages") then t_messages_seq t else tb_seq tb) tb)) store_tables.

Lemma store_tables_named : forallb (fun p => match store_tables !! p.1 with Some _ => true | None => false end) store_schema = true.
Proof. vm_compute. reflexivity. Qed.

Definition table_names : list string :=
  ["identity"; "prekeys"; "conversations"; "sessions"; "messages"; "sender_keys"; "media"; "docs"; "devices"].

Lemma table_named name : name ∈ table_names -> is_Some (store_tables !! name).
Proof.
  change table_names with (store_schema.*1). intros (p & -> & Hin%list_elem_of_In)%list_elem_of_fmap.
  pose proof (proj1 (forallb_forall _ _) store_tables_named p Hin) as Hp. cbv beta in Hp.
  destruct (store_tables !! p.1); [eauto|discriminate Hp].
Qed.

Lemma table_rows_known t name : store_tables !! name = None -> table_rows t name = [].
Proof.
  intros Hn. assert (name ∉ table_names) as Hnot by (intros [tb Htb]%table_named; rewrite Hn in Htb; discriminate Htb). clear Hn.
  unfold table_rows. repeat case_decide; subst; [exfalso; apply Hnot; by_decide..|reflexivity].
Qed.

Lemma represents_database_of t : represents (database_of t) t.
Proof.
  split.
  - apply map_eq. intros name. unfold schema, database_of. rewrite !lookup_fmap, map_lookup_imap. by destruct (store_tables !! name).
  - intros name. unfold rows_of, database_of. rewrite map_lookup_imap. destruct (store_tables !! name) eqn:Hn; cbn; [done|].
    by rewrite table_rows_known.
  - unfold seq_of, database_of. rewrite map_lookup_imap. destruct (store_tables !! "messages") eqn:Hn; [reflexivity|].
    destruct (table_named "messages") as [tb Htb]; [by_decide|]. rewrite Hn in Htb. discriminate Htb.
Qed.

Lemma tables_of_database_of t : tables_of (database_of t) = t.
Proof. apply tables_of_represents, represents_database_of. Qed.

(** ** What [Database::open] shows of a file *)

Section Tables.
Context {E : Engine} {D : Type} {V : SqlView E D} (content : D -> relations).

Definition database_tables (path : option string) (key : bytes) : M World StorageError Db := fun w =>
  let '(w', opened) := Database_open path key w in
  (w', self ← opened;
       mret {| live := tables_of (content (visible (session (conn_db (db_conn self)) w'))); saved := None; last_rowid := 0 |}).
End Tables.

Section Open.
Context {E : Engine} {R : Resources E} {S : EngineSafe R} {D : Type} {V : SqlView E D} {L : SqlLaws V}.
Context {plain : bytes -> Prop} {script : bytes -> D -> D} {version : D -> Z} {SL : ScriptLaws V plain script version}.
Context {content : D -> relations} {SEM : SqlSemantics V content} {SCR : ScriptSemantics V plain script version content}.

(** The engine would open the file [path] as a database that is new or holds
    the tables [t] of an earlier run. *)
Definition file_holds (path : string) (t : Tables) (w : World) : Prop :=
  exists h w1, sqlite3_open_v2 (bs path) open_flags w = (w1, (Some h, SQLITE_OK)) /\
    idle (content := content) (version := version) (session h w1) t.

(** Opening such a file, when it succeeds, shows these tables. *)
Lemma database_tables_holds path key t w w' db :
  file_holds path t w -> database_tables content (Some path) key w = (w', Ok db) -> live db = t /\ store_ok t.
Proof.
  intros (h & w1 & Ho & Hi) Hrun. unfold database_tables in Hrun. destruct (Database_open (Some path) key w) as [w2 [self|e|p]] eqn:Hd; [|done..].
  destruct (opening_finish key (bs path) _ w w2 self (opening_file key path) Hd) as (h' & w1' & Ho' & Hh & Hf).
  rewrite Ho in Ho'. injection Ho' as <- <-. destruct (finish_run {| conn_db := h |} key w1 w2 self t Hh Hi Hf) as [_ [_ Hidle _ Hrep Hok]].
  injection Hrun as <- <-. cbn [live]. rewrite visible_none by done. split; [by apply tables_of_represents|exact Hok].
Qed.
End Open.
