(* ===== verification/StoreEngine.v ===== *)
(** An engine that runs the SQL of SqlText with the meaning of SqlSem: all that
    StoreSqlFacts and StoreOpen assume of SQLite holds of it, and the methods
    of the store evaluate on it. *)

From stdpp Require Import pretty.
From S2P Require Import Prelude Constants Prims Ratchet Identity Keys Sqleet SqleetProps SqlProps SessionState Database DatabaseProps EngineModel Store StoreProps.
From S2P Require Import SqlText SqlSem StoreSql StoreRep StoreMeaning StoreQueries StoreRows StoreSqlFacts StoreSqlProps StoreRefines StoreCalls StoreOpen.

(** ** The engine *)

(** The stored version, the tables, the id of the last inserted row. *)
Record SqlDb := { sd_version : Z; sd_tables : relations; sd_last : Z }.
Definition no_tables : SqlDb := {| sd_version := 0; sd_tables := ∅; sd_last := 0 |}.

Definition sql_denote (sql : bytes) (ps : gmap Z Param) (d : SqlDb) : option (SqlDb * list (list Param)) :=
  if decide (sql = bs "PRAGMA user_version") then Some (d, [[I64 (sd_version d)]])
  else
    match parse_statement (String.string_of_list_byte sql) with
    | Some (Select q) => (fun rows => (d, rows)) <$> exec_select q ps (sd_tables d)
    | Some st =>
        match exec_write st ps (sd_tables d) with
        | Wrote db' id => Some ({| sd_version := sd_version d; sd_tables := db'; sd_last := default (sd_last d) id |}, [])
        | _ => None
        end
    | None => None
    end.

(** A script that does not run changes nothing. *)
Definition sql_script (sql : bytes) (d : SqlDb) : SqlDb :=
  match strip (bs "PRAGMA user_version = ") sql with
  | Some digits => {| sd_version := Z.of_N (decimal 0 (String.string_of_list_byte digits)); sd_tables := sd_tables d; sd_last := sd_last d |}
  | None =>
      match (l ← parse_script (String.string_of_list_byte sql); exec_script l (sd_tables d)) with
      | Some db' => {| sd_version := sd_version d; sd_tables := db'; sd_last := sd_last d |}
      | None => d
      end
  end.

Abbreviation sql_engine := (model_engine no_tables sql_denote sql_script sd_last).
Abbreviation sql_view := (model_view no_tables sql_denote sql_script sd_last).

Lemma string_bs s : String.string_of_list_byte (bs s) = s.
Proof. apply String.string_of_list_byte_of_string. Qed.
Lemma bs_inj a b : bs a = bs b -> a = b.
Proof. intros H. by rewrite <- (string_bs a), H, string_bs. Qed.

#[export] Instance sql_script_laws : ScriptLaws sql_view model_plain sql_script sd_version.
Proof.
  apply model_script_laws; [done|]. intros k d Hk. unfold sql_script, user_version_sql. rewrite bs_app, strip_app, string_bs. cbn [sd_version].
  apply decimal_pretty. lia.
Qed.

(** ** Its meaning *)

Lemma not_version sql st : parse_statement sql = Some st -> bs sql <> bs "PRAGMA user_version".
Proof. intros Hp ->%bs_inj. by vm_compute in Hp. Qed.

Lemma sql_write sql st ps d :
  parse_statement sql = Some st ->
  match exec_write st ps (sd_tables d) with
  | Unsupported => True
  | Refused => sql_denote (bs sql) ps d = None
  | Wrote db' id => sql_denote (bs sql) ps d = Some ({| sd_version := sd_version d; sd_tables := db'; sd_last := default (sd_last d) id |}, [])
  end.
Proof.
  intros Hp. unfold sql_denote. rewrite decide_False by by eapply not_version. rewrite string_bs, Hp.
  destruct st; cbn [exec_write]; done || by case_match.
Qed.

#[export] Instance sql_semantics : SqlSemantics sql_view sd_tables.
Proof.
  split.
  - intros sql st ps d Hp. pose proof (sql_write sql st ps d Hp) as Hw. destruct (exec_write st ps (sd_tables d)); [done|exact Hw|].
    eexists. split; [exact Hw|]. reflexivity.
  - intros sql q ps d Hp [rows Hs]. exists rows. split; [|by apply exec_select_answers].
    change (sql_denote (bs sql) ps d = Some (d, rows)). unfold sql_denote. rewrite decide_False by by eapply not_version. by rewrite string_bs, Hp, Hs.
  - intros s w w' sql st db' id v Hl Hr Hq Hp He Hst. pose proof (step_first (V := sql_view) s w w' _ Hl Hr Hst) as Hf. cbv zeta in Hf. fold v in Hf.
    rewrite decide_True in Hf by by right. destruct Hf as (d & rows & Hd & _ & Hs & _). rewrite Hq in Hd.
    pose proof (sql_write sql st (sv_params v) (visible (session (sv_db v) w)) Hp) as Hw. rewrite He in Hw.
    change (sd_last (visible (session (SqlView := sql_view) (sv_db v) w')) = id). rewrite Hs, visible_write.
    change (denote (bs sql) (sv_params v) (visible (session (sv_db v) w))) with (sql_denote (bs sql) (sv_params v) (visible (session (sv_db v) w))) in Hd.
    rewrite Hw in Hd. by injection Hd as <- _.
  - intros s h w Hl. change (sd_last (visible (session (SqlView := sql_view) h (sqlite3_finalize s w).1)) = sd_last (visible (session (SqlView := sql_view) h w))).
    by rewrite finalize_session.
Qed.

#[export] Instance sql_reliable_exec : ReliableExec sql_view.
Proof.
  split; intros h w Hh Hp; change (model_conn_live h w) in Hh; cbn -[bs] in *; unfold model_exec; rewrite decide_True by done; unfold exec_session.
  - by rewrite decide_True, Hp by done.
  - rewrite decide_False, decide_True by done. by destruct Hp as [d ->].
Qed.

Lemma strip_Some p l r : strip p l = Some r -> l = p ++ r.
Proof.
  revert l. induction p as [|x p IH]; intros l H; [by injection H|]. destruct l as [|y l]; [done|]. cbn in H. case_decide; [|done]. subst y. cbn. by rewrite (IH l H).
Qed.

(** Setting the version is not a script that SqlText reads. *)
Lemma version_script digits : parse_script ("PRAGMA user_version = " +:+ digits) = None.
Proof. reflexivity. Qed.

Lemma script_no_version sql l : parse_script sql = Some l -> strip (bs "PRAGMA user_version = ") (bs sql) = None.
Proof.
  intros Hp. destruct (strip _ _) as [digits|] eqn:Hs; [|done]. exfalso. apply strip_Some in Hs.
  assert (sql = "PRAGMA user_version = " +:+ String.string_of_list_byte digits) as ->; [|by rewrite version_script in Hp].
  apply bs_inj. by rewrite bs_app, bs_of_bytes.
Qed.

#[export] Instance sql_script_semantics : ScriptSemantics sql_view model_plain sql_script sd_version sd_tables.
Proof.
  split.
  - intros sql [l Hl]. split_and!; intros ->%bs_inj; by vm_compute in Hl.
  - intros sql l d db' Hl Hx. unfold sql_script. rewrite (script_no_version sql l) by done. rewrite string_bs, Hl. cbn [mbind option_bind]. rewrite Hx. reflexivity.
  - intros k d. unfold sql_script, user_version_sql. by rewrite bs_app, strip_app.
  - intros sql d [-> | ->]; (split; [by split_and!|]); by vm_compute.
  - done.
  - done.
Qed.

(** ** The store on it *)

Definition sql_world : @World sql_engine :=
  {| mw_open := ∅; mw_data := ∅; mw_stmts := ∅; mw_conn_next := 0; mw_stmt_next := 0; mw_undefined := false |}.
Definition sql_self : @OpenDatabase sql_engine := {| db_conn := {| conn_db := 0%nat : @Handle sql_engine |} |}.
Definition sql_opened : @World sql_engine * result StorageError OpenDatabase := Database_open_in_memory (E := sql_engine) (replicate 32 x00) sql_world.

Definition sample_conversation : ConversationRecord :=
  {| cv_id := "c"; cv_peer_classical := [x01]; cv_peer_pq := []; cv_is_group := false; cv_created_at := 10 |}.
Definition sample_message (uid : bytes) : MessageRecord :=
  {| mr_id := 0; mr_conversation_id := "c"; mr_message_id := uid; mr_sender_classical := []; mr_ciphertext := [x02]; mr_header := "{}";
     mr_content_type := 0; mr_direction := Incoming; mr_status := Sent; mr_created_at := 20 |}.

(** Messages without and with their conversation, one of them twice; two
    prekeys, one of which is taken. *)
Definition sample_calls : list any_call :=
  [existT _ (InsertMessage (sample_message [x07])); existT _ (UpsertConversation sample_conversation);
   existT _ (InsertMessage (sample_message [x07])); existT _ (InsertMessage (sample_message [x07]));
   existT _ (InsertMessage (sample_message [x08])); existT _ (ListMessages "c" None 10);
   existT _ (SavePrekey (sample_prekey 5 OneTime)); existT _ (SavePrekey (sample_prekey 3 OneTime));
   existT _ TakeOneTimePrekey; existT _ (CountPrekeys OneTime)].

Lemma empty_rows name : table_rows empty_tables name = [].
Proof. unfold table_rows. by repeat case_decide. Qed.

#[local] Existing Instance concrete_session_keys.
#[local] Existing Instance concrete_snapshot.

(** Which calls succeed. *)
Fixpoint outcomes (calls : list any_call) (w : @World sql_engine) : list (option bool) :=
  match calls with
  | [] => []
  | existT _ call :: calls => let '(w', r) := run_call 20 sql_self call w in answered r :: outcomes calls w'
  end.

Lemma sql_texts_known : Forall (fun p => (fun _ _ => True) (bs p.1) (Z.of_nat p.2)) store_texts.
Proof. repeat constructor. Qed.

Lemma sample_calls_ok : Forall (fun c : any_call => call_ok (projT2 c)) sample_calls.
Proof.
  repeat apply Forall_cons_2; [..|constructor]; cbn [projT2 call_ok]; try exact I; try (repeat apply Forall_cons_2; [..|constructor]);
    try exact I; vm_compute; repeat split; done.
Qed.

Lemma sql_opened_ok : Database_open_in_memory (replicate 32 x00) sql_world = (sql_opened.1, Ok sql_self).
Proof.
  assert (match sql_opened.2 with Ok self => bool_decide (conn_db (db_conn self) = 0%nat) | _ => false end = true) as H by (vm_compute; reflexivity).
  change (sql_opened = (sql_opened.1, Ok sql_self)). destruct sql_opened as [w [[[h]]|e|p]]; cbn in H |- *; [|discriminate H..].
  apply bool_decide_eq_true in H. by subst h.
Qed.

Lemma opened_store_in_step_witness :
  match sql_opened.2 with Ok self => conn_db (db_conn self) = 0%nat | _ => False end /\
  in_step (content := sd_tables) 20 sql_self sample_calls sql_opened.1 {| live := empty_tables; saved := None; last_rowid := 0 |} /\
  outcomes sample_calls sql_opened.1 =
    [Some false; Some true; Some true; Some false; Some true; Some true; Some true; Some true; Some true; Some true].
Proof.
  split; [vm_compute; reflexivity|]. split; [|vm_compute; reflexivity].
  apply (opened_store_in_step (V := sql_view) (content := sd_tables) (known := fun _ _ => True) 20 (replicate 32 x00) (bs ":memory:")
    (Database_open_in_memory (replicate 32 x00)) sql_world (model_open (bs ":memory:") open_flags sql_world).1 sql_opened.1 0%nat sql_self
    empty_tables sample_calls).
  - constructor.
  - reflexivity.
  - split; [reflexivity|]. left. split; [reflexivity|]. split; reflexivity.
  - exact sql_opened_ok.
  - exact sql_texts_known.
  - exact sample_calls_ok.
  - intros name. rewrite empty_rows. cbn. lia.
Defined.

Lemma sql_opened_holds : holds_tables (content := sd_tables) sql_self sql_opened.1 {| live := empty_tables; saved := None; last_rowid := 0 |}.
Proof.
  destruct (opening_finish _ _ _ _ _ _ (opening_memory (replicate 32 x00)) sql_opened_ok) as (h & w1 & Ho & Hh & Hf). injection Ho as <- <-.
  apply (finish_run (V := sql_view) (SL := sql_script_laws) _ _ _ _ _ empty_tables) in Hf as [_ Hw]; [exact Hw|exact Hh|].
  split; [reflexivity|]. left. split; [reflexivity|]. split; reflexivity.
Qed.

Lemma store_calls_refine_witness :
  exists db', upsert_conversation sample_conversation {| live := empty_tables; saved := None; last_rowid := 0 |} = (db', Ok tt) /\
    holds_tables (content := sd_tables) sql_self (run_call 1 sql_self (UpsertConversation sample_conversation) sql_opened.1).1 db'.
Proof.
  destruct (run_call 1 sql_self (UpsertConversation sample_conversation) sql_opened.1) as [w' r] eqn:Hrun.
  destruct (store_calls_refine (V := sql_view) (content := sd_tables) (SL := sql_script_laws) 1 sql_self (UpsertConversation sample_conversation)
    {| live := empty_tables; saved := None; last_rowid := 0 |} sql_opened.1 w' r) as [(a & [] & db' & _ & Hs & _ & Hw)|(e & He & _)].
  - exact sql_opened_holds.
  - split; [lia|]. intros name. cbn [live]. rewrite empty_rows. cbn. lia.
  - repeat apply Forall_cons_2; try exact I; [|constructor..]. split; vm_compute; done.
  - exact Hrun.
  - exists db'. split; [exact Hs|exact Hw].
  - exfalso. assert (answered r = Some true) as Ha; [|by rewrite He in Ha].
    transitivity (answered (run_call 1 sql_self (UpsertConversation sample_conversation) sql_opened.1).2); [by rewrite Hrun|vm_compute; reflexivity].
Defined.
