(* ===== verification/Crdt.v ===== *)
(** CRDT documents for multi-device synchronisation:
    [presidium-storage/src/crdt.rs].

    The documents are those of the yrs crate, the class [Yrs]: a transaction
    is the call it makes.  An operation that takes [&mut self] is a
    computation on the document.  [get_or_insert_text] only names the root
    text, so it is an argument of the calls on it. *)

From S2P Require Import Prelude Constants Prims Ratchet Identity Keys Sqleet SessionState.

Class Yrs := {
  Doc : Type;
  Update : Type;
  (** [Doc::new] with the client id it draws. *)
  Doc_new : Z -> Doc;
  (** Of the text [field]: [len] (a [u32]), [insert] at an index and
      [get_string]. *)
  Text_len : string -> Doc -> Z;
  Text_insert : string -> Z -> string -> Doc -> Doc;
  Text_get_string : string -> Doc -> string;
  (** [encode_state_as_update_v1] from the empty state vector, [decode_v1] and
      [apply_update], with their error texts. *)
  encode_state_as_update : Doc -> bytes;
  Update_decode : bytes -> result string Update;
  apply_update : Update -> M Doc string unit
}.

Definition CONTENT_FIELD : string := "content".

Section Crdt.
Context `{Y : Yrs}.

Record CrdtDocument := { cd_id : string; cd_doc : Doc }.

Definition set_doc (d : Doc) (c : CrdtDocument) : CrdtDocument := {| cd_id := cd_id c; cd_doc := d |}.

Definition CrdtDocument_new (client : Z) (id : string) : CrdtDocument := {| cd_id := id; cd_doc := Doc_new client |}.

Definition decode_update (b : bytes) : result StorageError Update := map_err (fun e => Crdt ("update decode: " +:+ e)) (Update_decode b).
Definition apply_to_doc (u : Update) : M Doc StorageError unit := with_err (fun e => Crdt ("update apply: " +:+ e)) (apply_update u).

Definition CrdtDocument_from_bytes (client : Z) (id : string) (b : bytes) : result StorageError CrdtDocument :=
  let doc := Doc_new client in
  update ← decode_update b;
  let '(doc, applied) := apply_to_doc update doc in
  applied;;
  mret {| cd_id := id; cd_doc := doc |}.

Definition append_text (text : string) : M CrdtDocument StorageError unit :=
  modify (fun c =>
    let len := Text_len CONTENT_FIELD (cd_doc c) in
    set_doc (Text_insert CONTENT_FIELD len text (cd_doc c)) c).

Definition CrdtDocument_text (c : CrdtDocument) : string := Text_get_string CONTENT_FIELD (cd_doc c).
Definition CrdtDocument_len (c : CrdtDocument) : Z := Text_len CONTENT_FIELD (cd_doc c).
Definition CrdtDocument_is_empty (c : CrdtDocument) : bool := CrdtDocument_len c =? 0.

Definition CrdtDocument_export (c : CrdtDocument) : bytes := encode_state_as_update (cd_doc c).

Definition CrdtDocument_import (b : bytes) : M CrdtDocument StorageError unit :=
  update ← lift (decode_update b);
  zoom cd_doc set_doc (apply_to_doc update).

Definition merge_from (other : CrdtDocument) : M CrdtDocument StorageError unit := CrdtDocument_import (CrdtDocument_export other).

Definition sync : M (CrdtDocument * CrdtDocument) StorageError unit :=
  update_a ← gets (CrdtDocument_export ∘ fst);
  update_b ← gets (CrdtDocument_export ∘ snd);
  on_first (CrdtDocument_import update_b);;
  on_second (CrdtDocument_import update_a).
End Crdt.
