(* ===== verification/CrdtProps.v ===== *)
(** CRDT documents: the replicas of a conversation converge, in whatever order
    and however often exported states arrive, and documents survive the
    database. *)

From stdpp Require Import sorting.
From S2P Require Import Prelude Constants Prims Concrete Ratchet Identity Keys Sqleet SessionState Store Crdt.

(** ** What the documentation of yrs promises

    A document is made of immutable blocks (one per inserted element), each
    with the id [stamp]: the client that wrote it and that client's clock.
    Within a document an id belongs to one block, and the texts depend on
    nothing but the set of blocks.  Inserting adds blocks of the document's own
    client with ids that are new in it.  An exported state can be applied to a
    document that [agrees] with the exporting one, and adds its blocks; nothing
    is said of documents in which one id stands for different blocks, as
    happens when two devices use the same client id.  An empty buffer is not an
    update. *)

Class YrsLaws (Y : Yrs) := {
  Block : Type;
  #[global] Block_eq_dec :: EqDecision Block;
  #[global] Block_countable :: Countable Block;
  blocks : Doc -> gset Block;
  client : Doc -> Z;
  stamp : Block -> Z * Z;
  client_new c : client (Doc_new c) = c;
  blocks_new c : blocks (Doc_new c) = ∅;
  blocks_stamp d x y : x ∈ blocks d -> y ∈ blocks d -> stamp x = stamp y -> x = y;
  blocks_text f d d' : blocks d = blocks d' -> Text_get_string f d = Text_get_string f d';
  insert_client f i t d : client (Text_insert f i t d) = client d;
  insert_blocks f i t d : blocks d ⊆ blocks (Text_insert f i t d);
  insert_stamp f i t d x : x ∈ blocks (Text_insert f i t d) -> x ∉ blocks d -> (stamp x).1 = client d;
  text_new f c : Text_get_string f (Doc_new c) = "";
  insert_end f t d : Text_get_string f (Text_insert f (Text_len f d) t d) = Text_get_string f d +:+ t;
  export_decodes d : exists u, Update_decode (encode_state_as_update d) = Ok u /\
    forall d', (forall x y, x ∈ blocks d' -> y ∈ blocks d -> stamp x = stamp y -> x = y) ->
    exists d'', apply_update u d' = (d'', Ok tt) /\ blocks d'' = blocks d' ∪ blocks d /\ client d'' = client d';
  decode_empty u : Update_decode [] <> Ok u
}.

Section Props.
Context `{Y : Yrs, YL : !YrsLaws Y}.
Implicit Types a b c : CrdtDocument.

(** What a replica knows, and the client it writes as. *)
Definition known (c : CrdtDocument) : gset Block := blocks (cd_doc c).
Definition writes_as (c : CrdtDocument) : Z := client (cd_doc c).

(** No id stands for different blocks in the two. *)
Definition agrees (a b : CrdtDocument) : Prop := forall x y, x ∈ known a -> y ∈ known b -> stamp x = stamp y -> x = y.

Lemma known_text a b : known a = known b -> CrdtDocument_text a = CrdtDocument_text b.
Proof. apply blocks_text. Qed.

Lemma agrees_within a b c : known a ⊆ known c -> known b ⊆ known c -> agrees a b.
Proof. intros Ha Hb x y Hx Hy. apply (blocks_stamp (cd_doc c)); [by apply Ha | by apply Hb]. Qed.

Lemma agrees_comm a b : agrees a b -> agrees b a.
Proof. intros H x y Hx Hy Hs. symmetry. by apply H. Qed.

Lemma import_export a b :
  agrees a b -> exists a', CrdtDocument_import (CrdtDocument_export b) a = (a', Ok tt) /\ cd_id a' = cd_id a /\
    known a' = known a ∪ known b /\ writes_as a' = writes_as a.
Proof.
  intros Hab. destruct (export_decodes (cd_doc b)) as (u & Hu & Ha). destruct (Ha (cd_doc a) Hab) as (d & Hd & Hk & Hc).
  exists (set_doc d a). unfold CrdtDocument_import, CrdtDocument_export, decode_update. mrun. rewrite Hu. cbn [map_err]. mrun.
  unfold zoom, apply_to_doc, with_err. by rewrite Hd.
Qed.

Lemma from_bytes_export n id b :
  exists c, CrdtDocument_from_bytes n id (CrdtDocument_export b) = Ok c /\ cd_id c = id /\ known c = known b /\ writes_as c = n.
Proof.
  destruct (export_decodes (cd_doc b)) as (u & Hu & Ha). destruct (Ha (Doc_new n)) as (d & Hd & Hk & Hc).
  { intros x y Hx. rewrite blocks_new in Hx. set_solver. }
  unfold CrdtDocument_from_bytes, CrdtDocument_export, decode_update. rewrite Hu. cbn [map_err mbind result_bind].
  unfold apply_to_doc, with_err. rewrite Hd. cbn. eexists. split; [done|]. split; [done|]. unfold known, writes_as. cbn.
  rewrite Hk, Hc, blocks_new, client_new. split; [set_solver | done].
Qed.

(** An export is read back, so it is not empty. *)
Lemma export_nonempty b : length (CrdtDocument_export b) <> 0%nat.
Proof.
  intros Hl%nil_length_inv. destruct (export_decodes (cd_doc b)) as (u & Hu & _). unfold CrdtDocument_export in Hl. rewrite Hl in Hu.
  by apply decode_empty in Hu.
Qed.

Lemma append_eq text c :
  exists c', append_text text c = (c', Ok tt) /\ cd_id c' = cd_id c /\ known c ⊆ known c' /\ writes_as c' = writes_as c /\
    CrdtDocument_text c' = CrdtDocument_text c +:+ text /\
    forall x, x ∈ known c' -> x ∉ known c -> (stamp x).1 = writes_as c.
Proof.
  eexists. split; [reflexivity|]. split; [done|]. split; [apply insert_blocks|]. split; [apply insert_client|].
  split; [apply insert_end|]. intros x. apply insert_stamp.
Qed.

(** ** The devices of a conversation

    [re_live]: the replicas; [re_exports]: documents as they were when they
    were exported, for states that are in a database or on their way;
    [re_clients]: the client ids drawn so far.  [Doc::new] draws a new one each
    time, which is what the first two steps say. *)
Record Replicas := { re_live : list CrdtDocument; re_exports : list CrdtDocument; re_clients : gset Z }.

Inductive replica_step : Replicas -> Replicas -> Prop :=
| replica_create s n id :
    n ∉ re_clients s ->
    replica_step s {| re_live := re_live s ++ [CrdtDocument_new n id]; re_exports := re_exports s; re_clients := {[n]} ∪ re_clients s |}
| replica_load s n id e c :
    n ∉ re_clients s -> e ∈ re_exports s -> CrdtDocument_from_bytes n id (CrdtDocument_export e) = Ok c ->
    replica_step s {| re_live := re_live s ++ [c]; re_exports := re_exports s; re_clients := {[n]} ∪ re_clients s |}
| replica_append s i c text c' :
    re_live s !! i = Some c -> append_text text c = (c', Ok tt) ->
    replica_step s {| re_live := <[i := c']> (re_live s); re_exports := re_exports s; re_clients := re_clients s |}
| replica_export s i c :
    re_live s !! i = Some c ->
    replica_step s {| re_live := re_live s; re_exports := re_exports s ++ [c]; re_clients := re_clients s |}
| replica_import s i c e c' :
    re_live s !! i = Some c -> e ∈ re_exports s -> CrdtDocument_import (CrdtDocument_export e) c = (c', Ok tt) ->
    replica_step s {| re_live := <[i := c']> (re_live s); re_exports := re_exports s; re_clients := re_clients s |}.

Inductive replicas_reachable : Replicas -> Prop :=
| replicas_none : replicas_reachable {| re_live := []; re_exports := []; re_clients := ∅ |}
| replicas_next s s' : replicas_reachable s -> replica_step s s' -> replicas_reachable s'.

(** What is known anywhere. *)
Definition somewhere (s : Replicas) : gset Block := ⋃ (known <$> re_live s ++ re_exports s).

(** The ids of all blocks are unique, blocks are written by drawn clients, no
    two replicas write as the same client, and a replica knows all blocks that
    were written as its client. *)
Record replicas_ok (s : Replicas) : Prop := {
  ro_stamps x y : x ∈ somewhere s -> y ∈ somewhere s -> stamp x = stamp y -> x = y;
  ro_written x : x ∈ somewhere s -> (stamp x).1 ∈ re_clients s;
  ro_drawn c : c ∈ re_live s -> writes_as c ∈ re_clients s;
  ro_distinct : NoDup (writes_as <$> re_live s);
  ro_own c x : c ∈ re_live s -> x ∈ somewhere s -> (stamp x).1 = writes_as c -> x ∈ known c
}.

Lemma elem_somewhere s x : x ∈ somewhere s <-> exists c, c ∈ re_live s ++ re_exports s /\ x ∈ known c.
Proof. unfold somewhere. rewrite elem_of_union_list. setoid_rewrite list_elem_of_fmap. naive_solver. Qed.

Lemma known_somewhere s c : c ∈ re_live s ++ re_exports s -> known c ⊆ somewhere s.
Proof. intros Hc x Hx. apply elem_somewhere. eauto. Qed.

Lemma replicas_agree s a b : replicas_ok s -> a ∈ re_live s ++ re_exports s -> b ∈ re_live s ++ re_exports s -> agrees a b.
Proof. intros Hs Ha%known_somewhere Hb%known_somewhere x y Hx Hy. apply (ro_stamps s Hs); [by apply Ha | by apply Hb]. Qed.

(** A new replica, under a client id that nobody has used. *)
Lemma replicas_ok_add s n c :
  replicas_ok s -> n ∉ re_clients s -> writes_as c = n -> known c ⊆ somewhere s ->
  replicas_ok {| re_live := re_live s ++ [c]; re_exports := re_exports s; re_clients := {[n]} ∪ re_clients s |}.
Proof.
  intros [H1 H2 H3 H4 H5] Hn Hw Hk. set (s' := {| re_live := _ |}).
  assert (forall x, x ∈ somewhere s' -> x ∈ somewhere s) as Hsub.
  { intros x (d & Hd & Hx)%elem_somewhere. cbn in Hd. rewrite !elem_of_app, list_elem_of_singleton in Hd.
    destruct Hd as [[Hd| ->]|Hd]; [|by apply Hk|]; apply elem_somewhere; exists d; (split; [apply elem_of_app; tauto | done]). }
  split.
  - intros x y Hx%Hsub Hy%Hsub. by apply H1.
  - intros x Hx%Hsub%H2. cbn. set_solver.
  - intros d Hd. cbn in *. rewrite elem_of_app, list_elem_of_singleton in Hd. destruct Hd as [Hd%H3| ->]; [|rewrite Hw]; set_solver.
  - cbn. rewrite fmap_app. apply NoDup_app. split_and!; [done| |apply NoDup_singleton].
    intros m (d & -> & Hd)%list_elem_of_fmap Heq. cbn in Heq. apply list_elem_of_singleton in Heq. apply Hn. rewrite <- Hw, <- Heq. by apply H3.
  - intros d x Hd Hx%Hsub Hst. cbn in Hd. rewrite elem_of_app, list_elem_of_singleton in Hd.
    destruct Hd as [Hd| ->]; [by apply H5|]. destruct Hn. rewrite <- Hw, <- Hst. by apply H2.
Qed.

(** A replica that learns blocks: some that are known elsewhere, and new ones of
    its own client. *)
Lemma replicas_ok_grow s i c c' :
  replicas_ok s -> re_live s !! i = Some c -> writes_as c' = writes_as c -> known c ⊆ known c' ->
  (forall x, x ∈ known c' -> x ∈ somewhere s \/ (stamp x).1 = writes_as c) ->
  replicas_ok {| re_live := <[i := c']> (re_live s); re_exports := re_exports s; re_clients := re_clients s |}.
Proof.
  intros Hs Hi Hw Hk Hnew. assert (c ∈ re_live s) as Hc by by eapply list_elem_of_lookup_2. set (s' := {| re_live := _ |}).
  assert (forall d, d ∈ <[i := c']> (re_live s) -> d = c' \/ (d ∈ re_live s /\ writes_as d <> writes_as c)) as Hlive.
  { intros d (j & Hj)%list_elem_of_lookup. apply list_lookup_insert_Some in Hj as [(-> & <- & _)|[Hne Hj]]; [by left|right].
    split; [by eapply list_elem_of_lookup_2|]. intros Heq. apply Hne. eapply (NoDup_lookup _ _ _ (writes_as c) (ro_distinct s Hs)).
    - by rewrite list_lookup_fmap, Hi.
    - rewrite list_lookup_fmap, Hj. cbn. by rewrite Heq. }
  assert (forall x, x ∈ somewhere s' -> x ∈ somewhere s \/ x ∈ known c') as Hsub.
  { intros x (d & Hd & Hx)%elem_somewhere. cbn in Hd. apply elem_of_app in Hd as [[->|[Hd _]]%Hlive|Hd]; [by right| |];
      left; apply elem_somewhere; exists d; (split; [apply elem_of_app; tauto | done]). }
  assert (forall x, x ∈ somewhere s' -> x ∈ somewhere s \/ (x ∈ known c' /\ (stamp x).1 = writes_as c)) as Hsub2.
  { intros x [Hx|Hx]%Hsub; [by left|]. destruct (Hnew x Hx); [by left|by right]. }
  assert (forall x y, x ∈ somewhere s -> y ∈ known c' -> (stamp y).1 = writes_as c -> stamp x = stamp y -> x = y) as Hmix.
  { intros x y Hx Hy Hown Hst. apply (blocks_stamp (cd_doc c')); [|done..]. apply Hk, (ro_own s Hs c x Hc Hx). by rewrite Hst. }
  split.
  - intros x y [Hx|[Hx Hox]]%Hsub2 [Hy|[Hy Hoy]]%Hsub2 Hst; [by apply (ro_stamps s Hs)|by apply Hmix|symmetry; by apply Hmix|].
    by apply (blocks_stamp (cd_doc c')).
  - intros x [Hx|[_ Ho]]%Hsub2; [by apply (ro_written s Hs)|]. cbn. rewrite Ho. by apply (ro_drawn s Hs).
  - intros d [->|[Hd _]]%Hlive; cbn; [rewrite Hw|]; by apply (ro_drawn s Hs).
  - cbn. replace (writes_as <$> <[i:=c']> (re_live s)) with (writes_as <$> re_live s); [apply (ro_distinct s Hs)|].
    rewrite list_fmap_insert, Hw, list_insert_id; [done|]. by rewrite list_lookup_fmap, Hi.
  - intros d x [->|[Hd Hne]]%Hlive Hx Hst.
    + apply Hsub2 in Hx as [Hx|[Hx _]]; [|done]. apply Hk, (ro_own s Hs c x Hc Hx). by rewrite <- Hw.
    + apply Hsub2 in Hx as [Hx|[_ Ho]]; [by apply (ro_own s Hs)|congruence].
Qed.

Lemma replicas_ok_reachable s : replicas_reachable s -> replicas_ok s.
Proof.
  induction 1 as [|s s' Hr Hs Hst].
  { split; [intros x y Hx|intros x Hx|intros c Hc|constructor|intros c x Hc]; cbn in *; set_solver. }
  destruct Hst as [s n id Hn|s n id e c Hn He Hl|s i c text c' Hi Ha|s i c Hi|s i c e c' Hi He Hm].
  - apply replicas_ok_add; [done|done|apply client_new|]. unfold known. cbn. rewrite blocks_new. set_solver.
  - destruct (from_bytes_export n id e) as (c0 & Hc0 & _ & Hk & Hw). rewrite Hl in Hc0. injection Hc0 as <-.
    apply replicas_ok_add; [done..|]. rewrite Hk. apply known_somewhere, elem_of_app. by right.
  - destruct (append_eq text c) as (c0 & Hc0 & _ & Hk & Hw & _ & Hnew). rewrite Ha in Hc0. injection Hc0 as <-.
    eapply replicas_ok_grow; [done..|]. intros x Hx. destruct (decide (x ∈ known c)) as [Hin|Hout]; [left|right; by apply Hnew].
    eapply known_somewhere; [|done]. apply elem_of_app. left. by eapply list_elem_of_lookup_2.
  - assert (forall x, x ∈ somewhere {| re_live := re_live s; re_exports := re_exports s ++ [c]; re_clients := re_clients s |} -> x ∈ somewhere s) as Hsub.
    { intros x (d & Hd & Hx)%elem_somewhere. apply elem_somewhere. cbn in Hd. rewrite !elem_of_app, list_elem_of_singleton in Hd.
      destruct Hd as [Hd|[Hd| ->]]; [exists d|exists d|exists c]; (split; [|done]); apply elem_of_app; [by left|by right|left]. by eapply list_elem_of_lookup_2. }
    destruct Hs as [H1 H2 H3 H4 H5]. split; cbn; [intros x y Hx%Hsub Hy%Hsub; by apply H1|intros x Hx%Hsub; by apply H2|done|done|].
    intros d x Hd Hx%Hsub. by apply H5.
  - assert (c ∈ re_live s ++ re_exports s /\ e ∈ re_live s ++ re_exports s) as [Hc He'].
    { rewrite !elem_of_app. split; [left; by eapply list_elem_of_lookup_2|by right]. }
    destruct (import_export c e) as (c0 & Hc0 & _ & Hk & Hw); [by eapply replicas_agree|]. rewrite Hm in Hc0. injection Hc0 as <-.
    eapply replicas_ok_grow; [done..|set_solver|]. intros x. rewrite Hk, elem_of_union. intros [Hx|Hx]; left; (eapply known_somewhere; [|done]); done.
Qed.

(** C23. Replicas converge.  However the devices of a conversation were created,
    loaded from exported states, written to and synchronised before, as long as
    no two of them draw the same client id: importing any state that was
    exported earlier succeeds and loses nothing, and [sync] of any two devices
    succeeds, after which both know exactly what either knew and show the same
    text. *)
Theorem sync_converges s a b e :
  replicas_reachable s -> a ∈ re_live s -> b ∈ re_live s -> e ∈ re_exports s ->
  (exists a', CrdtDocument_import (CrdtDocument_export e) a = (a', Ok tt) /\ known a' = known a ∪ known e) /\
  exists a' b', sync (a, b) = ((a', b'), Ok tt) /\ CrdtDocument_text a' = CrdtDocument_text b' /\
    known a' = known a ∪ known b /\ known b' = known a ∪ known b.
Proof.
  intros Hs%replicas_ok_reachable Ha Hb He.
  assert (a ∈ re_live s ++ re_exports s /\ b ∈ re_live s ++ re_exports s /\ e ∈ re_live s ++ re_exports s) as (Ha' & Hb' & He') by set_solver.
  split.
  { destruct (import_export a e) as (a' & H1 & _ & H2 & _); [by eapply replicas_agree|]. by exists a'. }
  assert (agrees a b) as Hab by by eapply replicas_agree.
  destruct (import_export a b) as (a' & H1 & _ & Hka & _); [done|].
  destruct (import_export b a) as (b' & H2 & _ & Hkb & _); [by apply agrees_comm|].
  exists a', b'. split.
  { unfold sync. mrun. unfold on_first, on_second, zoom. cbn [fst snd]. rewrite H1. mrun. by rewrite H2. }
  split; [apply known_text; set_solver|]. split; [done | set_solver].
Qed.

Lemma save_load_doc now id (ydoc : bytes) db :
  has_nul id = false -> exists db1, save_doc now id ydoc db = (db1, Ok tt) /\ load_doc id db1 = (db1, Ok (Some ydoc)).
Proof.
  intros Hn. unfold save_doc, load_doc, bind_texts. cbn [existsb]. rewrite Hn. cbn [orb]. mrun. unfold update_tables. mrun.
  eexists. split; [reflexivity|]. mrun. unfold gets, set_live, set_docs. cbn [live t_docs]. by rewrite lookup_insert_eq.
Qed.

(** A document survives the database: appended text is read back after
    [save_doc] and [load_doc] under the same id, by any later replica, and
    merging the loaded document into the original changes nothing. *)
Theorem document_persists n now c text db :
  has_nul (cd_id c) = false ->
  exists c1 db1 c2, append_text text c = (c1, Ok tt) /\ save_doc now (cd_id c) (CrdtDocument_export c1) db = (db1, Ok tt) /\
    load_doc (cd_id c) db1 = (db1, Ok (Some (CrdtDocument_export c1))) /\
    CrdtDocument_from_bytes n (cd_id c) (CrdtDocument_export c1) = Ok c2 /\
    CrdtDocument_text c2 = CrdtDocument_text c +:+ text /\
    exists c3, merge_from c2 c1 = (c3, Ok tt) /\ CrdtDocument_text c3 = CrdtDocument_text c2.
Proof.
  intros Hn. destruct (append_eq text c) as (c1 & Ha & _ & _ & _ & Ht & _).
  destruct (from_bytes_export n (cd_id c) c1) as (c2 & Hf & _ & K2 & _).
  destruct (import_export c1 c2) as (c3 & H3 & _ & K3 & _); [apply (agrees_within c1 c2 c1); set_solver|].
  destruct (save_load_doc now (cd_id c) (CrdtDocument_export c1) db Hn) as (db1 & Hs & Hl).
  exists c1, db1, c2. do 4 (split; [done|]). split.
  - by rewrite (known_text _ _ K2), Ht.
  - exists c3. split; [done|]. apply known_text. set_solver.
Qed.
End Props.

(** ** A document store with these laws

    A block is its Lamport time and the client that wrote it, which are its id,
    with its field and its text; a document has one block per id, and merging
    keeps the own block where two documents disagree.  A text is its blocks in
    the order of their times, ties broken by the blocks themselves. *)

Definition Piece : Type := (Z * Z) * (string * string).
Definition piece_time (p : Piece) : Z := p.1.1.
Definition piece_le (p q : Piece) : Prop :=
  piece_time p < piece_time q \/ (piece_time p = piece_time q /\ (encode p <= encode q)%positive).
#[export] Instance piece_le_dec : RelDecision piece_le.
Proof. intros p q. unfold piece_le. apply _. Defined.
#[export] Instance piece_le_trans : Transitive piece_le.
Proof. intros p q r. unfold piece_le. lia. Qed.
#[export] Instance piece_le_total : Total piece_le.
Proof. intros p q. unfold piece_le. lia. Qed.
#[export] Instance piece_le_antisymm : AntiSymm (=) piece_le.
Proof. intros p q H1 H2. apply (inj encode). unfold piece_le in *. lia. Qed.

Abbreviation Pieces := (gmap (Z * Z) (string * string)).
Record PieceDoc := { pd_client : Z; pd_pieces : Pieces }.

Definition field_pieces (f : string) (s : Pieces) : list Piece := merge_sort piece_le (filter (fun p => p.2.1 = f) (map_to_list s)).
Definition pieces_text (l : list Piece) : string := foldr (fun p t => p.2.2 +:+ t) "" l.
Definition pieces_string (f : string) (d : PieceDoc) : string := pieces_text (field_pieces f (pd_pieces d)).
Definition next_time (s : Pieces) : Z := 1 + foldr (fun p m => Z.max (piece_time p) m) 0 (map_to_list s).

#[export] Instance piece_yrs : Yrs := {|
  Doc := PieceDoc; Update := Pieces;
  Doc_new c := {| pd_client := c; pd_pieces := ∅ |};
  Text_len f d := Z.of_nat (String.length (pieces_string f d));
  Text_insert f _ t d :=
    {| pd_client := pd_client d; pd_pieces := <[(next_time (pd_pieces d), pd_client d) := (f, t)]> (pd_pieces d) |};
  Text_get_string := pieces_string;
  encode_state_as_update d := pos_bytes (encode (pd_pieces d));
  Update_decode b := match bytes_pos b ≫= decode with Some s => Ok s | None => Err "bad update" end;
  apply_update u d := ({| pd_client := pd_client d; pd_pieces := pd_pieces d ∪ u |}, Ok tt)
|}.

Lemma next_time_above s k v : s !! k = Some v -> k.1 < next_time s.
Proof.
  unfold next_time. intros Hk%elem_of_map_to_list. revert Hk. induction (map_to_list s) as [|q l IH]; cbn; [by intros ?%not_elem_of_nil|].
  unfold piece_time in *. intros [<-|Hp]%elem_of_cons; cbn; [lia|]. specialize (IH Hp). lia.
Qed.

Lemma next_time_new s c : s !! (next_time s, c) = None.
Proof. destruct (s !! _) eqn:H; [|done]. apply next_time_above in H. cbn in H. lia. Qed.

Lemma string_app_assoc a b c : (a +:+ b) +:+ c = a +:+ (b +:+ c).
Proof.
  induction a as [|x a IH]; [done|]. exact (f_equal (String x) IH).
Qed.

Lemma pieces_text_app l1 l2 : pieces_text (l1 ++ l2) = pieces_text l1 +:+ pieces_text l2.
Proof. induction l1 as [|p l1 IH]; [done|]. cbn [app]. unfold pieces_text in *. cbn [foldr]. by rewrite IH, string_app_assoc. Qed.

(** The newest piece comes last. *)
Lemma field_pieces_insert f t c s :
  field_pieces f (<[(next_time s, c) := (f, t)]> s) = field_pieces f s ++ [((next_time s, c), (f, t))].
Proof.
  unfold field_pieces. apply (StronglySorted_unique piece_le); [apply StronglySorted_merge_sort; apply _| |].
  - apply StronglySorted_app. split_and!; [|apply StronglySorted_merge_sort; apply _|repeat constructor].
    intros [k v] z Hy ->%list_elem_of_singleton. left. rewrite merge_sort_Permutation in Hy.
    apply list_elem_of_filter in Hy as [_ Hy%elem_of_map_to_list]. by eapply next_time_above.
  - rewrite !merge_sort_Permutation, map_to_list_insert by apply next_time_new. rewrite filter_cons_True by done. apply Permutation_cons_append.
Qed.

Definition piece_blocks (d : PieceDoc) : gset Piece := list_to_set (map_to_list (pd_pieces d)).

Lemma elem_piece_blocks d k v : (k, v) ∈ piece_blocks d <-> pd_pieces d !! k = Some v.
Proof. unfold piece_blocks. by rewrite elem_of_list_to_set, elem_of_map_to_list. Qed.

Lemma piece_blocks_eq d d' : piece_blocks d = piece_blocks d' -> pd_pieces d = pd_pieces d'.
Proof.
  intros H. apply map_eq. intros k. apply option_eq. intros v. by rewrite <- !elem_piece_blocks, H.
Qed.

#[export] Instance piece_yrs_laws : YrsLaws piece_yrs.
Proof.
  refine {| Block := Piece; blocks := piece_blocks; client := pd_client; stamp p := (p.1.2, p.1.1) |}.
  - done.
  - done.
  - intros d [[t c] v] [[t' c'] v'] H1%elem_piece_blocks H2%elem_piece_blocks [= <- <-]. by simplify_eq.
  - intros f d d' Hd%piece_blocks_eq. cbn. unfold pieces_string. by rewrite Hd.
  - done.
  - intros f i t d [k v] Hk%elem_piece_blocks. apply elem_piece_blocks. cbn. rewrite lookup_insert_ne; [done|].
    intros <-. by rewrite next_time_new in Hk.
  - intros f i t d [k v] Hk%elem_piece_blocks Hn. cbn in *. apply lookup_insert_Some in Hk as [[<- _]|[_ Hk]]; [done|].
    by destruct Hn; apply elem_piece_blocks.
  - done.
  - intros f t d. cbn. unfold pieces_string. cbn [pd_pieces]. rewrite field_pieces_insert. rewrite pieces_text_app. cbn.
    f_equal. induction t as [|x t IH]; [done|]. exact (f_equal (String x) IH).
  - intros d. exists (pd_pieces d). cbn. rewrite bytes_pos_bytes. cbn. rewrite decode_encode. split; [done|].
    intros d' Ha. eexists. split; [done|]. split; [|done]. apply set_eq. intros [k v]. rewrite elem_of_union, !elem_piece_blocks. cbn.
    rewrite lookup_union_Some_raw. split; [tauto|]. intros [Hk|Hk]; [by left|].
    destruct (pd_pieces d' !! k) as [v'|] eqn:Hk'; [left|by right].
    specialize (Ha (k, v') (k, v) (proj2 (elem_piece_blocks _ _ _) Hk') (proj2 (elem_piece_blocks _ _ _) Hk) eq_refl). by injection Ha as ->.
  - done.
Defined.

(** Two devices that write at the same time, after one of them has exported. *)
Definition written (n : Z) (text : string) : CrdtDocument := (append_text text (CrdtDocument_new n "conv-1")).1.

Definition two_devices : Replicas :=
  {| re_live := [written 1 "alice|"; written 2 "bob"]; re_exports := [written 1 "alice|"]; re_clients := {[2]} ∪ ({[1]} ∪ ∅) |}.

Lemma two_devices_reachable : replicas_reachable two_devices.
Proof.
  pose proof replicas_none as H.
  eapply replicas_next in H; [|apply (replica_create _ 1 "conv-1"); by_decide].
  eapply replicas_next in H; [|by apply (replica_append _ 0 (CrdtDocument_new 1 "conv-1") "alice|" (written 1 "alice|"))].
  eapply replicas_next in H; [|by apply (replica_export _ 0 (written 1 "alice|"))].
  eapply replicas_next in H; [|apply (replica_create _ 2 "conv-1"); by_decide].
  eapply replicas_next in H; [|by apply (replica_append _ 1 (CrdtDocument_new 2 "conv-1") "bob" (written 2 "bob"))].
  exact H.
Qed.

Lemma sync_converges_witness :
  exists a' b', sync (written 1 "alice|", written 2 "bob") = ((a', b'), Ok tt) /\ CrdtDocument_text a' = CrdtDocument_text b' /\
    known a' = known (written 1 "alice|") ∪ known (written 2 "bob").
Proof.
  destruct (sync_converges two_devices (written 1 "alice|") (written 2 "bob") (written 1 "alice|")) as (_ & a' & b' & H1 & H2 & H3 & _);
    [exact two_devices_reachable | left | right; left | left |].
  exists a', b'. split; [exact H1|]. split; [exact H2 | exact H3].
Defined.

Lemma document_persists_witness :
  exists c1 db1 c2, append_text " world" (written 1 "hello") = (c1, Ok tt) /\
    save_doc 7 "conv-1" (CrdtDocument_export c1) empty_db = (db1, Ok tt) /\ load_doc "conv-1" db1 = (db1, Ok (Some (CrdtDocument_export c1))) /\
    CrdtDocument_from_bytes 9 "conv-1" (CrdtDocument_export c1) = Ok c2 /\ CrdtDocument_text c2 = "hello world".
Proof.
  destruct (document_persists 9 7 (written 1 "hello") " world" empty_db) as (c1 & db1 & c2 & H1 & H2 & H3 & H4 & H5 & _); [reflexivity|].
  exists c1, db1, c2. split; [exact H1|]. split; [exact H2|]. split; [exact H3|]. split; [exact H4|]. rewrite H5. vm_compute. reflexivity.
Defined.
