(* ===== verification/StorageTests.v ===== *)
(** The integration tests of the storage crate,
    [presidium-storage/tests/storage_integration.rs], as programs: calls of
    the store whose answers the rest of the test depends on, and assertions.
    They pass on every engine that runs the SQL texts and does not fail. *)

From S2P Require Import Prelude Constants Prims Ratchet RatchetFacts Identity IdentityProps Keys KeysProps Sqleet SqleetProps SqlProps SessionState SessionFacts.
From S2P Require Import Concrete RatchetProps Database DatabaseProps EngineModel Store StoreProps SqlText SqlSem StoreSql StoreRep StoreMeaning StoreQueries StoreRows StoreSqlFacts.
From S2P Require Import StoreSqlProps StoreRefines StoreCalls StoreOpen StoreEngine Crdt CrdtProps.

(** ** Test programs *)

(** Every call is unwrapped: an error is a failure of the test. *)
Inductive test : Type :=
| Call {A : Type} (call : store_call A) (next : A -> test)
| Assert (b : bool) (next : test)
| Passed
| Panicked.

Definition unwrap {E A} (r : result E A) (next : A -> test) : test := match r with Ok a => next a | _ => Panicked end.
Definition unwrap_some {A} (o : option A) (next : A -> test) : test := match o with Some a => next a | None => Panicked end.
Definition is_none {A} (o : option A) : bool := match o with None => true | Some _ => false end.

Declare Scope test_scope.
Delimit Scope test_scope with test.
Notation "'let!' a := c 'in' k" := (Call c (fun a => k)) (at level 10, a name, k at level 200) : test_scope.
Notation "'do!' c ; k" := (Call c (fun _ => k)) (at level 10, c at level 100, k at level 200) : test_scope.
Notation "'let?' x := r 'in' k" := (unwrap r (fun x => k)) (at level 10, x pattern, k at level 200) : test_scope.
Notation "'let?!' x := o 'in' k" := (unwrap_some o (fun x => k)) (at level 10, x name, k at level 200) : test_scope.
Notation "'assert!' b ; k" := (Assert b k) (at level 10, b at level 100, k at level 200) : test_scope.
Open Scope test_scope.

#[export] Instance IdentityRecord_eq_dec : EqDecision IdentityRecord.
Proof. solve_decision. Defined.
#[export] Instance ConversationRecord_eq_dec : EqDecision ConversationRecord.
Proof. solve_decision. Defined.
#[export] Instance MessageStatus_eq_dec : EqDecision MessageStatus.
Proof. solve_decision. Defined.
#[export] Instance SenderKeyRecord_eq_dec : EqDecision SenderKeyRecord.
Proof. solve_decision. Defined.
#[export] Instance MediaKind_eq_dec : EqDecision MediaKind.
Proof. solve_decision. Defined.
#[export] Instance MediaRecord_eq_dec : EqDecision MediaRecord.
Proof. solve_decision. Defined.

(** ** The tests

    [now n] is the answer to the [n]th question for the time. *)

Definition test_db `{E : Engine, A : Argon2} : M World StorageError OpenDatabase :=
  key ← lift (derive_db_key (bs "test-passphrase") (bs "0123456789abcdef"));
  Database_open_in_memory key.

Section Tests.
Context (now : nat -> Z).

Definition vec (x : byte) (n : nat) : bytes := replicate n x.

Definition identity_record (pq : byte) : IdentityRecord :=
  {| ir_device_id := "dev-001"; ir_classical_seed := vec x01 32; ir_pq_seed := vec pq 32; ir_created_at := now 0 |}.

Definition identity_roundtrip : test :=
  let! before := LoadIdentity in
  assert! is_none before;
  do! SaveIdentity (identity_record x02);
  let! loaded := LoadIdentity in
  let?! loaded := loaded in
  assert! bool_decide (loaded = identity_record x02);
  do! SaveIdentity (identity_record x03);
  let! loaded := LoadIdentity in
  let?! loaded := loaded in
  assert! bool_decide (loaded = identity_record x03);
  Passed.

Definition test_prekey (id : Z) (kind : PreKeyKind) (signature : bytes) (at_ : nat) : PreKeyRecord :=
  {| pk_key_id := id; pk_kind := kind; pk_classical := vec x01 32; pk_pq := vec x02 32; pk_public_classical := vec x03 32;
     pk_public_pq := vec x04 32; pk_signature := signature; pk_created_at := now at_ |}.

Definition prekey_crud_and_atomic_take : test :=
  foldr (fun id next => do! SavePrekey (test_prekey (Z.of_nat id) OneTime [] id); next)
    (do! SavePrekey (test_prekey 100 Signed (vec x05 64) 3);
     let! count := CountPrekeys OneTime in
     assert! bool_decide (count = 3);
     let! count := CountPrekeys Signed in
     assert! bool_decide (count = 1);
     let! taken := TakeOneTimePrekey in
     let?! taken := taken in
     assert! bool_decide (pk_key_id taken = 0);
     let! count := CountPrekeys OneTime in
     assert! bool_decide (count = 2);
     let! taken_again := TakeOneTimePrekey in
     let?! taken_again := taken_again in
     assert! bool_decide (pk_key_id taken_again = 1);
     do! DeletePrekey 2;
     let! count := CountPrekeys OneTime in
     assert! bool_decide (count = 0);
     let! signed := ListPrekeys Signed 10 in
     assert! bool_decide (length signed = 1%nat);
     let?! first := signed !! 0%nat in
     assert! bool_decide (length (pk_signature first) = 64%nat);
     Passed)
    (seq 0 3).

Definition test_conversation (id : string) (classical pq : byte) (at_ : nat) : ConversationRecord :=
  {| cv_id := id; cv_peer_classical := vec classical 32; cv_peer_pq := vec pq 32; cv_is_group := false; cv_created_at := now at_ |}.

Definition test_message : MessageRecord :=
  {| mr_id := 0; mr_conversation_id := "conv-1"; mr_message_id := vec x09 16; mr_sender_classical := vec x07 32; mr_ciphertext := vec x0a 64;
     mr_header := String.string_of_list_byte ([x7b; x22] ++ bs "dh_public_key" ++ [x22] ++ bs ":" ++ [x22] ++ bs "aa" ++ [x22; x7d]);
     mr_content_type := 0; mr_direction := Outgoing; mr_status := Pending; mr_created_at := now 1 |}.

Definition conversation_and_message_lifecycle : test :=
  let conv := test_conversation "conv-1" x07 x08 0 in
  do! UpsertConversation conv;
  let! loaded := LoadConversation "conv-1" in
  let?! loaded := loaded in
  assert! bool_decide (loaded = conv);
  let! id := InsertMessage test_message in
  assert! bool_decide (0 < id);
  let! loaded := LoadMessageByUid "conv-1" (vec x09 16) in
  let?! loaded := loaded in
  assert! bool_decide (mr_id loaded = id);
  assert! bool_decide (mr_ciphertext loaded = mr_ciphertext test_message);
  do! UpdateMessageStatus id Delivered;
  let! updated := ListMessages "conv-1" None 10 in
  assert! bool_decide (length updated = 1%nat);
  let?! first := updated !! 0%nat in
  assert! bool_decide (mr_status first = Delivered);
  let! page := ListMessages "conv-1" (Some id) 10 in
  assert! bool_decide (length page = 0%nat);
  let! dup := LoadMessageByUid "conv-1" (vec x09 16) in
  assert! negb (is_none dup);
  Passed.

Definition sender_key_upsert : test :=
  let key (chain : byte) (index : Z) :=
    {| skr_group_id := "group-1"; skr_sender_classical := vec x01 32; skr_chain_key := vec chain 32; skr_message_index := index;
       skr_key_id := 7; skr_updated_at := now 0 |} in
  do! UpsertSenderKey (key x02 0);
  let! loaded := LoadSenderKey "group-1" (vec x01 32) in
  let?! loaded := loaded in
  assert! bool_decide (loaded = key x02 0);
  do! UpsertSenderKey (key x09 3);
  let! loaded := LoadSenderKey "group-1" (vec x01 32) in
  let?! loaded := loaded in
  assert! bool_decide (skr_message_index loaded = 3);
  Passed.

Definition media_roundtrip : test :=
  let media :=
    {| md_id := "media-1"; md_message_id := None; md_kind := Image; md_encryption_key := vec x01 32; md_size := 4096;
       md_relative_path := "media/img-1.webp"; md_created_at := now 0 |} in
  do! InsertMedia media;
  let! loaded := LoadMedia "media-1" in
  let?! loaded := loaded in
  assert! bool_decide (loaded = media);
  let! list := ListMediaForMessage 0 in
  assert! bool_decide (length list = 0%nat);
  Passed.

Definition device_list : test :=
  do! UpsertDevice {| dv_device_id := "phone"; dv_classical := vec x01 32; dv_pq := vec x02 32; dv_last_seen := Some (now 0) |};
  do! UpsertDevice {| dv_device_id := "laptop"; dv_classical := vec x03 32; dv_pq := vec x04 32; dv_last_seen := None |};
  let! devices := ListDevices in
  assert! bool_decide (length devices = 2%nat);
  let?! first := devices !! 0%nat in
  assert! bool_decide (dv_device_id first = "laptop");
  Passed.

(** The identity draws two seeds; the session that the test saves. *)
Definition test_session `{C : Crypto, B : Build, SH : Serde RatchetMessageHeader} (r1 r2 : bytes) : result CryptoError SessionState :=
  identity ← IdentityKeyPair_generate r1 r2;
  keys ← SessionKeys_new true (vec x06 32) (IdentityKeyPair_public identity);
  ratchet ← DoubleRatchet_init "conv-2" (RootKey_new (sk_root_key keys)) (vec x0b 32) (x25519_public (vec x0c 32)) (bs "alice|bob");
  let '(ratchet, sent) := DoubleRatchet_encrypt (bs "advance the chain") ratchet in
  sent;;
  mret {| ss_is_initiator := true; ss_session_keys := keys; ss_ratchet := Some (RatchetSnapshot_from_ratchet ratchet); ss_last_used := now 1 |}.

Definition session_roundtrip_with_ratchet_snapshot `{C : Crypto, B : Build, SH : Serde RatchetMessageHeader} (r1 r2 : bytes) : test :=
  do! UpsertConversation (test_conversation "conv-2" x01 x02 0);
  let? state := test_session r1 r2 in
  do! SaveSession "conv-2" state;
  let! loaded := LoadSession "conv-2" in
  let?! loaded := loaded in
  assert! bool_decide (ss_session_keys loaded = ss_session_keys state);
  assert! bool_decide (ss_ratchet loaded = ss_ratchet state);
  let?! snapshot := ss_ratchet loaded in
  let? rebuilt := RatchetSnapshot_to_ratchet snapshot "conv-2" (bs "alice|bob") in
  let '(rebuilt, sent) := DoubleRatchet_encrypt (bs "next") rebuilt in
  let? (ct, header) := sent in
  assert! bool_decide (length ct <> 0%nat);
  assert! bool_decide (message_number header = 1);
  do! DeleteSession "conv-2";
  let! loaded := LoadSession "conv-2" in
  assert! is_none loaded;
  Passed.

(** A document draws its client id. *)
Definition test_document `{Y : Yrs} (client : Z) : bytes :=
  CrdtDocument_export (append_text "hello from device A" (CrdtDocument_new client "conv-3")).1.

Definition crdt_document_persistence `{Y : Yrs} (client1 client2 : Z) : test :=
  do! SaveDoc (now 0) "conv-3" (test_document client1);
  let! stored := LoadDoc "conv-3" in
  let?! stored := stored in
  assert! bool_decide (length stored <> 0%nat);
  let? restored := CrdtDocument_from_bytes client2 "conv-3" stored in
  assert! bool_decide (CrdtDocument_text restored = "hello from device A");
  do! DeleteDoc "conv-3";
  let! stored := LoadDoc "conv-3" in
  assert! is_none stored;
  Passed.

Definition storage_tests `{C : Crypto, B : Build, SH : Serde RatchetMessageHeader, Y : Yrs} (r1 r2 : bytes) (client1 client2 : Z) : list test :=
  [identity_roundtrip; prekey_crud_and_atomic_take; conversation_and_message_lifecycle; session_roundtrip_with_ratchet_snapshot r1 r2;
   sender_key_upsert; media_roundtrip; device_list; crdt_document_persistence client1 client2].
End Tests.

(** ** Running a test *)

Section Run.
Context `{SK : Serde SessionKeys, SR : Serde RatchetSnapshot}.

(** Through the wrapper: does the test pass? *)
Fixpoint passes {E : Engine} (fuel : nat) (self : OpenDatabase) (t : test) (w : World) : bool :=
  match t with
  | Call call next =>
      match run_call fuel self call w with
      | (w', Ok a) => passes fuel self (next a) w'
      | _ => false
      end
  | Assert b next => b && passes fuel self next w
  | Passed => true
  | Panicked => false
  end.

(** On the tables, with at most [n] calls: every call succeeds, and the test
    goes on to pass with each answer that the engine may give. *)
Fixpoint accepted (t : test) (n : nat) (db : Db) : Prop :=
  match t with
  | Call call next =>
      match n with
      | O => False
      | S n =>
          call_ok call /\ exists db' a', call_spec call db = (db', Ok a') /\ forall a, same_answer call a a' -> accepted (next a) n db'
      end
  | Assert b next => b = true /\ accepted next n db
  | Passed => True
  | Panicked => False
  end.

Context `{SKO : !SerdeOk SessionKeys, SRO : !SerdeOk RatchetSnapshot}.
Context {E : Engine} {R : Resources E} {S : EngineSafe R} {D : Type} {V : SqlView E D} {L : SqlLaws V}.
Context {plain : bytes -> Prop} {script : bytes -> D -> D} {version : D -> Z} {SL : ScriptLaws V plain script version}.
Context {content : D -> relations} {SEM : SqlSemantics V content}.
Context {known : bytes -> Z -> Prop} {RL : Reliable known} {RLE : ReliableExec V}.
Context (fuel : nat) (self : OpenDatabase) (texts_known : Forall (fun p => known (bs p.1) (Z.of_nat p.2)) store_texts).

Lemma accepted_passes t n db w :
  holds_tables (content := content) self w db -> (forall name, (length (table_rows (live db) name) + n < fuel)%nat) -> accepted t n db ->
  passes fuel self t w = true.
Proof.
  revert n db w. induction t as [A call next IH|b next IH| |]; intros n db w Hw Hfuel Ht; [|destruct Ht as [-> Ht]; by eapply IH|done..].
  destruct n as [|n]; [done|]. destruct Ht as (Hc & db' & a' & Hs & Hnext).
  assert (enough fuel (live db)) as He by (split; [specialize (Hfuel ""); lia|intros name; specialize (Hfuel name); lia]).
  destruct (call_in_step fuel self texts_known call db w Hw He Hc) as (Hr & Hw' & Hg). rewrite Hs in Hr, Hw', Hg. cbn [passes fst snd] in *.
  destruct (run_call fuel self call w) as [w' [a|e|p]]; [|done..]. eapply IH; [exact Hw'| |by apply Hnext].
  intros name. specialize (Hg name). specialize (Hfuel name). lia.
Qed.
End Run.

(** ** The tests on the tables *)

Section Accepted.
Context `{SK : Serde SessionKeys, SR : Serde RatchetSnapshot}.
Context (now : nat -> Z).

(** One call: its arguments are values of the types, and it is evaluated. *)
Ltac arguments := cbn [call_ok]; repeat apply Forall_cons_2; try apply Forall_nil_2; try exact I; repeat split; vm_compute; done.
Ltac call_ := split; [arguments|]; eexists _, _; split; [vm_compute; reflexivity|]; cbn [same_answer]; first [intros ? -> | intros ? [->%Permutation_nil_r _]]; cbn [unwrap_some].
Ltac assert_ := split; [first [reflexivity | apply bool_decide_eq_true_2; reflexivity]|].
Ltac test_ := repeat first [call_ | assert_]; exact I.

Lemma identity_roundtrip_accepted : accepted (identity_roundtrip now) 20 empty_db.
Proof. unfold identity_roundtrip. cbn [accepted]. test_. Qed.

Lemma prekey_crud_accepted : accepted (prekey_crud_and_atomic_take now) 20 empty_db.
Proof. unfold prekey_crud_and_atomic_take. cbn [seq foldr accepted]. test_. Qed.

Lemma message_lifecycle_accepted : accepted (conversation_and_message_lifecycle now) 20 empty_db.
Proof. unfold conversation_and_message_lifecycle. cbn [accepted]. test_. Qed.

Lemma load_upserted_sender_key r db :
  has_nul (skr_group_id r) = false ->
  exists db', upsert_sender_key r db = (db', Ok tt) /\ load_sender_key (skr_group_id r) (skr_sender_classical r) db' = (db', Ok (Some r)).
Proof.
  intros Hn. unfold upsert_sender_key, load_sender_key, bind_texts. cbn [existsb]. rewrite Hn. cbn [orb]. mrun. eexists. split; [done|].
  mrun. unfold gets. cbn. rewrite lookup_insert_eq. by destruct r.
Qed.

Lemma sender_key_accepted : accepted (sender_key_upsert now) 20 empty_db.
Proof.
  unfold sender_key_upsert.
  set (key := fun chain index => {| skr_group_id := "group-1"; skr_sender_classical := vec x01 32; skr_chain_key := vec chain 32;
    skr_message_index := index; skr_key_id := 7; skr_updated_at := now 0 |}).
  assert (forall n chain index db next, (forall db', accepted (next (Some (key chain index))) n db') ->
    accepted (do! UpsertSenderKey (key chain index); let! loaded := LoadSenderKey "group-1" (vec x01 32) in next loaded) (S (S n)) db) as Hstep.
  { intros n chain index db next Hnext. destruct (load_upserted_sender_key (key chain index) db eq_refl) as (db' & H1 & H2).
    split; [destruct chain; arguments|]. exists db', tt. split; [exact H1|]. intros ? _.
    split; [arguments|]. exists db', (Some (key chain index)). split; [exact H2|]. intros ? ->. apply Hnext. }
  apply Hstep. intros db. assert_. apply Hstep. intros db'. assert_. exact I.
Qed.

Lemma media_accepted : accepted (media_roundtrip now) 20 empty_db.
Proof. unfold media_roundtrip. cbn [accepted]. test_. Qed.

Lemma device_list_accepted : accepted (device_list now) 20 empty_db.
Proof. unfold device_list. cbn [accepted]. test_. Qed.

Lemma crdt_accepted `{Y : Yrs, YL : !YrsLaws Y} client1 client2 :
  Z.of_nat (length (test_document client1)) < 2 ^ 31 -> accepted (crdt_document_persistence now client1 client2) 20 empty_db.
Proof.
  intros Hlen. unfold crdt_document_persistence, test_document in *. set (doc := (append_text _ _).1) in *.
  assert (CrdtDocument_text doc = "hello from device A") as Htext.
  { unfold doc, append_text, CrdtDocument_text. cbn. by rewrite insert_end, text_new. }
  destruct (from_bytes_export client2 "conv-3" doc) as (c & Hc & _ & Hk & _).
  assert (length (CrdtDocument_export doc) <> 0%nat) as Hne by apply export_nonempty. clearbody doc. set (b := CrdtDocument_export doc) in *. clearbody b.
  cbn [accepted]. split; [split; [arguments|exact Hlen]|].
  eexists _, _. split; [reflexivity|]. intros ? ->. call_. split; [by apply bool_decide_eq_true_2|].
  rewrite Hc. cbn [unwrap accepted]. split; [apply bool_decide_eq_true_2; by rewrite (known_text _ _ Hk)|]. test_.
Qed.

Section Session.
Context `{C : Crypto, LC : !CryptoLaws C, B : Build, SH : Serde RatchetMessageHeader, SHO : !SerdeOk RatchetMessageHeader}.
Context `{SKO : !SerdeOk SessionKeys, SRO : !SerdeOk RatchetSnapshot}.

(** The saved session: its ratchet has sent one message. *)
Lemma test_session_ok r1 r2 :
  exists state ratchet k0, test_session now r1 r2 = Ok state /\ wf state /\ ss_ratchet state = Some (RatchetSnapshot_from_ratchet ratchet) /\
    sending_at k0 (vec x0b 32) 1 ratchet.
Proof.
  unfold test_session. cbn [IdentityKeyPair_generate mbind result_bind].
  set (peer := IdentityKeyPair_public _). pose proof (public_wf {| ikp_classical := r1; ikp_pq := {| mldsa_seed := r2 |} |}) as Hpeer. fold peer in Hpeer.
  destruct (session_keys_eq (vec x06 32)) as (root & send & recv & Hkeys). pose proof (session_keys_wf _ _ _ _ Hpeer (Hkeys true peer)) as Hkw.
  rewrite Hkeys. cbn [mbind result_bind]. set (keys := {| sk_is_initiator := true |}) in *. clearbody keys.
  destruct (init_eq "conv-2" (RootKey_new (sk_root_key keys)) (vec x0b 32) (x25519_public (vec x0c 32)) (bs "alice|bob")) as (rt & k0 & _ & Hinit).
  pose proof (init_wf "conv-2" (RootKey_new (sk_root_key keys)) (vec x0b 32) _ _ _ eq_refl (length_x25519_public _) Hinit) as Hw. rewrite Hinit.
  cbn [mbind result_bind]. set (ratchet := {| root_key := rt |}) in *. assert (sending_at k0 (vec x0b 32) 0 ratchet) as Hs by by split. clearbody ratchet.
  destruct (encrypt_step k0 (vec x0b 32) 0 ratchet (bs "advance the chain") Hs) as (ct & _ & Henc); [lia|cbn; lia|].
  pose proof (encrypt_wf (bs "advance the chain") ratchet Hw) as Hw'. rewrite Henc in Hw' |- *. cbn [mbind result_bind mret result_ret fst] in *.
  eexists _, _, k0. split; [reflexivity|]. split; [split; [exact Hkw|]; intros v [= <-]; exact Hw'|]. split; [reflexivity|]. split; [done|exact (proj2 Hs)].
Qed.

Lemma load_deleted_session c db : has_nul c = false -> t_sessions (live db) !! c = None -> load_session c db = (db, Ok None).
Proof. intros Hc Hn. unfold load_session, bind_texts. cbn [existsb]. rewrite Hc. cbn [orb]. mrun. unfold gets. by rewrite Hn. Qed.

Lemma session_accepted r1 r2 :
  (forall state, test_session now r1 r2 = Ok state -> call_ok (SaveSession "conv-2" state)) ->
  accepted (session_roundtrip_with_ratchet_snapshot now r1 r2) 20 empty_db.
Proof.
  intros Hfit. unfold session_roundtrip_with_ratchet_snapshot. cbn [accepted].
  split; [arguments|]. eexists _, _. split; [reflexivity|]. intros ? ->.
  destruct (test_session_ok r1 r2) as (state & after & k0 & Hstate & Hst & Hr & Hs). specialize (Hfit state Hstate). rewrite Hstate. cbn [unwrap].
  set (db := set_live _ _). destruct (save_load_session "conv-2" state db (conversation_row (now 0) (test_conversation now "conv-2" x01 x02 0)) Hst eq_refl eq_refl)
    as (db' & Hsave & Hload & _).
  split; [exact Hfit|]. exists db', tt. split; [exact Hsave|]. intros ? _.
  split; [arguments|]. exists db', (Some state). split; [exact Hload|]. intros ? ->. cbn [unwrap_some]. assert_. assert_.
  rewrite Hr. cbn [unwrap_some]. rewrite snapshot_exact. cbn [unwrap].
  set (rebuilt := {| root_key := root_key after |}). assert (sending_at k0 (vec x0b 32) 1 rebuilt) as Hs2 by exact Hs.
  destruct (encrypt_step k0 (vec x0b 32) 1 rebuilt (bs "next") Hs2) as (ct2 & (hb & _ & Hct) & Henc2); [lia|cbn; lia|].
  rewrite Henc2. cbn [unwrap accepted]. apply length_aead in Hct. split; [apply bool_decide_eq_true_2; lia|]. assert_.
  split; [arguments|]. eexists _, _. split; [reflexivity|]. intros ? _. split; [arguments|]. eexists _, None. split; [|intros ? ->; by split].
  apply load_deleted_session; [reflexivity|]. apply lookup_delete_eq.
Qed.
End Session.
End Accepted.

(** ** The tests on the database *)

Section Props.
Context {E : Engine} {R : Resources E} {S : EngineSafe R} {D : Type} {V : SqlView E D} {L : SqlLaws V}.
Context {plain : bytes -> Prop} {script : bytes -> D -> D} {version : D -> Z} {SL : ScriptLaws V plain script version}.
Context {content : D -> relations} {SEM : SqlSemantics V content} {SCR : ScriptSemantics V plain script version content}.
Context {known : bytes -> Z -> Prop} {RL : Reliable known} {RLE : ReliableExec V}.
Context `{SK : Serde SessionKeys, SKO : !SerdeOk SessionKeys, SR : Serde RatchetSnapshot, SRO : !SerdeOk RatchetSnapshot}.
Context `{C : Crypto, LC : !CryptoLaws C, B : Build, SH : Serde RatchetMessageHeader, SHO : !SerdeOk RatchetMessageHeader}.
Context `{Y : Yrs, YL : !YrsLaws Y, A : Argon2}.

(** C32. The integration tests of the storage crate pass.  On every engine that
    gives the SQL texts their meaning and does not fail, with every clock,
    random identity and CRDT client id, each of the eight tests of
    [storage_integration.rs], started on the in-memory database that [test_db]
    opens, runs to its end: no call fails and every assertion holds.  Two sizes
    are assumed, because the wrapper casts lengths to [c_int]: the saved
    session's JSON texts and the exported document are shorter than [2 ^ 31]
    bytes. *)
Theorem storage_tests_pass fuel w w1 w' h self now r1 r2 client1 client2 :
  sqlite3_open_v2 (bs ":memory:") open_flags w = (w1, (Some h, SQLITE_OK)) -> idle (content := content) (version := version) (session h w1) empty_tables ->
  test_db w = (w', Ok self) -> Forall (fun p => known (bs p.1) (Z.of_nat p.2)) store_texts -> (20 < fuel)%nat ->
  (forall state, test_session now r1 r2 = Ok state -> call_ok (SaveSession "conv-2" state)) ->
  Z.of_nat (length (test_document client1)) < 2 ^ 31 ->
  Forall (fun t => passes fuel self t w' = true) (storage_tests now r1 r2 client1 client2).
Proof.
  intros Ho Hi Hdb Hk Hfuel Hs Hd. unfold test_db in Hdb. mrun_in Hdb. destruct (derive_db_key _ _) as [key|e|p]; mrun_in Hdb; [|done..].
  destruct (opening_finish _ _ _ _ _ _ (opening_memory key) Hdb) as (h' & w1' & Ho' & Hh & Hf). rewrite Ho in Ho'. injection Ho' as <- <-.
  destruct (finish_run {| conn_db := h |} key w1 w' self empty_tables Hh Hi Hf) as [_ Hw].
  assert (forall t, accepted t 20 empty_db -> passes fuel self t w' = true) as Hpass.
  { intros t Ht. eapply (accepted_passes fuel self Hk); [exact Hw| |exact Ht]. intros name. cbn [live]. rewrite empty_rows. cbn. lia. }
  repeat apply Forall_cons_2; [..|constructor]; apply Hpass;
    auto using identity_roundtrip_accepted, prekey_crud_accepted, message_lifecycle_accepted, session_accepted, sender_key_accepted, media_accepted, device_list_accepted, crdt_accepted.
Qed.
End Props.

(** ** Evaluation *)

#[local] Existing Instances concrete_header concrete_session_keys concrete_snapshot dev_build salted.

Definition test_opened : @World sql_engine := (test_db sql_world).1.

Lemma test_opened_ok : test_db sql_world = (test_opened, Ok sql_self).
Proof.
  assert (match (test_db sql_world).2 with Ok self => bool_decide (conn_db (db_conn self) = 0%nat) | _ => false end = true) as H by (vm_compute; reflexivity).
  unfold test_opened. destruct (test_db sql_world) as [w [[[h]]|e|p]]; cbn in H |- *; [|discriminate H..]. apply bool_decide_eq_true in H. by subst h.
Qed.

Definition json_length {T} `{Serde T} (v : T) : Z := match to_vec v with Ok b => Z.of_nat (length b) | _ => 0 end.
Definition session_lengths (st : SessionState) : list Z := [json_length (ss_session_keys st); default 0 (json_length <$> ss_ratchet st)].

Lemma test_session_lengths :
  match test_session Z.of_nat (bs "r1") (bs "r2") with Ok st => forallb (fun n => n <? 2 ^ 31) (session_lengths st) | _ => false end = true.
Proof. vm_compute. reflexivity. Qed.

Lemma storage_tests_pass_witness :
  Forall (fun t => passes 21 sql_self t test_opened = true) (storage_tests Z.of_nat (bs "r1") (bs "r2") 1 2).
Proof.
  apply (storage_tests_pass (V := sql_view) (content := sd_tables) (known := fun _ _ => True) 21 sql_world
    (model_open (bs ":memory:") open_flags sql_world).1 test_opened 0%nat sql_self Z.of_nat (bs "r1") (bs "r2") 1 2).
  - reflexivity.
  - split; [reflexivity|]. left. split; [reflexivity|]. split; reflexivity.
  - exact test_opened_ok.
  - exact sql_texts_known.
  - lia.
  - intros st Hst. pose proof test_session_lengths as Hl. rewrite Hst in Hl. unfold session_lengths, json_length in Hl. cbn [forallb] in Hl.
    rewrite !andb_true_iff in Hl. destruct Hl as (H1 & H2 & _). split; [vm_compute; done|]. split.
    + intros b Hb. rewrite Hb in H1. by apply Z.ltb_lt.
    + intros v b Hv Hb. rewrite Hv in H2. change (((match to_vec v with Ok b => Z.of_nat (length b) | _ => 0 end) <? 2 ^ 31) = true) in H2. rewrite Hb in H2. by apply Z.ltb_lt.
  - vm_compute. done.
Defined.
