(* ===== verification/ChatSession.v ===== *)
(** 1:1 chat sessions and the handshake drivers:
    [presidium-demo/src/session.rs], with the prekey material of
    [presidium-demo/src/store.rs].

    An [anyhow] error is its chain of messages, outermost context first.  The
    current time, the random draws and the node's [send_direct] are
    arguments. *)

From S2P Require Import Prelude Constants Prims Ratchet Identity Pqxdh Keys Sqleet SessionState Store.

(** ** Errors *)

Definition AppError : Type := list string.

(** [.context(c)] on an error with the given display. *)
Definition context {E A} (display : E -> list string) (c : string) (m : result E A) : result AppError A :=
  map_err (fun e => c :: display e) m.

Definition show_crypto (e : CryptoError) : list string := [CryptoError_to_string e].
Definition show_storage (e : StorageError) : list string := [StorageError_to_string e].
Definition show_serde (e : string) : list string := [e].

(** [anyhow!("...: {e}")]. *)
Definition anyhow_prefix {A} (c : string) (m : result StorageError A) : result AppError A :=
  map_err (fun e => [c +:+ ": " +:+ StorageError_to_string e]) m.

(** ** Envelopes *)

(** [presidium.NetworkEnvelope] of [presidium.proto]. *)
Record NetworkEnvelope := {
  env_kind : Z;
  env_conversation_id : bytes;
  env_sender_device_id : bytes;
  env_timestamp : Z;
  env_encrypted_payload : bytes;
  env_mac : bytes;
  env_protocol_version : Z;
  env_nonce : bytes;
  env_signature : bytes
}.

Definition KIND_DIRECT : Z := 1.
Definition KIND_GROUP : Z := 2.
Definition KIND_SYNC : Z := 3.

Definition MARKER_BUNDLE_REQ : byte := x00.
Definition MARKER_BUNDLE : byte := x01.
Definition MARKER_PREKEY : byte := x02.
Definition MARKER_RATCHET_PUB : byte := x03.
Definition MARKER_GROUP_KEY : byte := x04.

Definition SESSION_ID : string := "presidium-session".

Definition signed_bytes (header_json payload : bytes) : bytes := header_json ++ payload.

Section Session.
Context `{C : Crypto, B : Build, SH : Serde RatchetMessageHeader, SS : Serde HybridSignature}.

Definition build_raw_envelope (now : Z) (identity : IdentityKeyPair) (device_id : string) (kind : Z)
    (conversation_id payload header_json : bytes) : result AppError NetworkEnvelope :=
  let signed := signed_bytes header_json payload in
  signature ← map_err show_crypto (sign_hybrid identity signed);
  let mac := sha256_digest payload in
  signature_json ← map_err show_serde (to_vec signature);
  mret {| env_kind := kind; env_conversation_id := conversation_id;
          env_sender_device_id := bs device_id; env_timestamp := Z.max now 0;
          env_encrypted_payload := payload; env_mac := mac; env_protocol_version := 1;
          env_nonce := header_json; env_signature := signature_json |}.

Definition build_signed_envelope (now : Z) (identity : IdentityKeyPair) (device_id : string) (kind : Z)
    (conversation_id ciphertext : bytes) (header : RatchetMessageHeader) : result AppError NetworkEnvelope :=
  header_json ← map_err show_serde (to_vec header);
  build_raw_envelope now identity device_id kind conversation_id ciphertext header_json.

Definition sync_envelope (now : Z) (identity : IdentityKeyPair) (device_id : string) (marker : byte) (body : bytes)
    : result AppError NetworkEnvelope :=
  build_raw_envelope now identity device_id KIND_SYNC (bs device_id) (marker :: body) [].

Definition parse_header (nonce : bytes) : result AppError RatchetMessageHeader :=
  context show_serde "parse ratchet header" (from_slice nonce).

Definition verify_envelope (peer : IdentityPublicKey) (envelope : NetworkEnvelope) : result AppError bool :=
  signature ← context show_serde "parse signature" (from_slice (env_signature envelope));
  let signed := signed_bytes (env_nonce envelope) (env_encrypted_payload envelope) in
  mret (is_ok (verify_hybrid peer signed signature)).

(** ** Chat sessions *)

Record ChatSession := {
  conversation_id : string;
  peer_identity : IdentityPublicKey;
  is_initiator : bool;
  ratchet : DoubleRatchet;
  session_keys : SessionKeys
}.

Definition set_ratchet (d : DoubleRatchet) (s : ChatSession) : ChatSession :=
  {| conversation_id := conversation_id s; peer_identity := peer_identity s;
     is_initiator := is_initiator s; ratchet := d; session_keys := session_keys s |}.

(** A ratchet operation on [self.ratchet], with an error context. *)
Definition on_ratchet {A} (c : string) (m : M DoubleRatchet CryptoError A) : M ChatSession AppError A := fun s =>
  let '(d, r) := m (ratchet s) in (set_ratchet d s, context show_crypto c r).

Definition ChatSession_encrypt (now : Z) (identity : IdentityKeyPair) (device_id : string) (plaintext : bytes)
    : M ChatSession AppError NetworkEnvelope :=
  '(ciphertext, header) ← on_ratchet "ratchet encrypt" (DoubleRatchet_encrypt plaintext);
  id ← gets conversation_id;
  lift (build_signed_envelope now identity device_id KIND_DIRECT (bs id) ciphertext header).

(** [Option::or]. *)
Definition known_ratchet_public (d : DoubleRatchet) : option bytes :=
  match their_ratchet_public (receiving_chain d) with
  | Some k => Some k
  | None => their_ratchet_public (sending_chain d)
  end.

Definition ChatSession_decrypt (envelope : NetworkEnvelope) : M ChatSession AppError bytes :=
  header ← lift (parse_header (env_nonce envelope));
  peer ← gets peer_identity;
  verified ← lift (verify_envelope peer envelope);
  if negb verified then fail ["signature verification failed"]
  else
    known ← gets (known_ratchet_public ∘ ratchet);
    (if decide (known <> Some (dh_public_key header))
     then on_ratchet "dh ratchet" (DoubleRatchet_dh_ratchet (dh_public_key header))
     else mret tt);;
    on_ratchet "ratchet decrypt" (DoubleRatchet_decrypt (env_encrypted_payload envelope) header).

(** ** Persistence; the store's database is the state *)

Section Persist.
Context `{SK : Serde SessionKeys, SR : Serde RatchetSnapshot}.

Definition NodeStore_save_session (id : string) (state : SessionState) : M Db AppError unit := fun db =>
  let '(db', r) := save_session id state db in (db', anyhow_prefix "save session" r).

Definition NodeStore_load_session (id : string) : M Db AppError (option SessionState) := fun db =>
  let '(db', r) := load_session id db in (db', anyhow_prefix "load session" r).

Definition ChatSession_persist (now : Z) (s : ChatSession) : M Db AppError unit :=
  NodeStore_save_session (conversation_id s)
    {| ss_is_initiator := is_initiator s; ss_session_keys := session_keys s;
       ss_ratchet := Some (RatchetSnapshot_from_ratchet (ratchet s)); ss_last_used := now |}.

Definition rebuild_ratchet (state : SessionState) : result AppError DoubleRatchet :=
  snapshot ← ok_or (ss_ratchet state) ["no ratchet snapshot stored"];
  context show_storage "rebuild ratchet from snapshot" (RatchetSnapshot_to_ratchet snapshot SESSION_ID []).

Definition resume (id : string) : M Db AppError (option ChatSession) :=
  state ← NodeStore_load_session id;
  match state with
  | None => mret None
  | Some st =>
      r ← lift (rebuild_ratchet st);
      mret (Some {| conversation_id := id; peer_identity := sk_peer_identity (ss_session_keys st);
                    is_initiator := ss_is_initiator st; ratchet := r; session_keys := ss_session_keys st |})
  end.
End Persist.
End Session.
