(* ===== verification/Network.v ===== *)
(** The wire codec, topic names, bootstrap addresses and network identity of
    [presidium-network/src]: [codec.rs], [topics.rs], [discovery.rs],
    [identity.rs], [config.rs], [error.rs].

    A reader is the bytes still to come, a writer the bytes written so far and
    whether it is closed; protobuf encoding (generated code) is the class
    [Proto].  Multiaddr components other than [/p2p/<id>] are abstract. *)

From stdpp Require Import pretty.
From S2P Require Import Prelude Constants Prims Ratchet Identity Pqxdh Keys Sqleet SessionState Store ChatSession.

(** ** Errors and configuration *)

Inductive NetworkError :=
| Listen (msg : string)
| Dial (msg : string)
| Publish (msg : string)
| Behaviour (msg : string)
| Transport (msg : string)
| InvalidNetworkKey (msg : string)
| InvalidAddress (msg : string)
| NotRunning.

Definition NetworkError_to_string (e : NetworkError) : string :=
  match e with
  | Listen m => "listen failure: " +:+ m
  | Dial m => "dial failure: " +:+ m
  | Publish m => "publish failure: " +:+ m
  | Behaviour m => "behaviour construction: " +:+ m
  | Transport m => "transport construction: " +:+ m
  | InvalidNetworkKey m => "invalid key: " +:+ m
  | InvalidAddress m => "invalid multiaddr: " +:+ m
  | NotRunning => "node is not running"
  end.

Inductive KadMode := Disabled | Client | Server.

(** Durations in seconds. *)
Record NodeConfig {Multiaddr : Type} := {
  listen : list Multiaddr;
  bootstrap_peers : list Multiaddr;
  mdns_enabled : bool;
  auto_dial : bool;
  kad_mode : KadMode;
  subscribe_topics : list string;
  idle_connection_timeout : Z;
  request_timeout : Z
}.
Arguments NodeConfig : clear implicits.

Definition NodeConfig_default {Multiaddr} : NodeConfig Multiaddr :=
  {| listen := []; bootstrap_peers := []; mdns_enabled := true; auto_dial := true; kad_mode := Client;
     subscribe_topics := []; idle_connection_timeout := 120; request_timeout := 30 |}.

(** ** Codec *)

Inductive IoErrorKind := UnexpectedEof | InvalidDataKind.
Record IoError := { io_kind : IoErrorKind; io_message : string }.

Definition MAX_FRAME_SIZE : Z := 16 * 1024 * 1024.

Definition frame_too_large : IoError := {| io_kind := InvalidDataKind; io_message := "frame exceeds size limit" |}.

(** [AsyncReadExt::read_exact] into a buffer of [n] bytes. *)
Definition read_exact (n : nat) : M bytes IoError bytes := fun io =>
  if decide (n <= length io)%nat then (drop n io, Ok (take n io))
  else ([], Err {| io_kind := UnexpectedEof; io_message := "unexpected end of file" |}).

Record Writer := { written : bytes; closed : bool }.

Definition write_all (b : bytes) : M Writer IoError unit :=
  modify (fun w => {| written := written w ++ b; closed := closed w |}).
Definition close : M Writer IoError unit :=
  modify (fun w => {| written := written w; closed := true |}).

Definition read_frame : M bytes IoError bytes :=
  len_buf ← read_exact 4;
  let len := of_be_bytes len_buf in
  if MAX_FRAME_SIZE <? len then fail frame_too_large
  else read_exact (Z.to_nat len).

(** [bytes.len() as u32]: the low 32 bits. *)
Definition write_frame (b : bytes) : M Writer IoError unit :=
  if MAX_FRAME_SIZE <? Z.of_nat (length b) then fail frame_too_large
  else
    write_all (be_bytes 4 (Z.of_nat (length b) mod 2 ^ 32));;
    write_all b;;
    close.

Record NetworkRequest := { req_envelope : option NetworkEnvelope }.
Record NetworkResponse := { res_status : Z; res_ack_id : bytes }.

(** prost: [encode_to_vec] and [decode]. *)
Class Proto (T : Type) := {
  encode_to_vec : T -> bytes;
  decode : bytes -> string + T
}.
Class ProtoOk (T : Type) `{Wf T, Proto T} : Prop := { proto_roundtrip (v : T) : wf v -> decode (encode_to_vec v) = inr v }.

(** The ranges of the Rust types: an enum is an [i32]; buffers are no longer
    than a [u64] counts. *)
Definition short (b : bytes) : Prop := Z.of_nat (length b) < 2 ^ 64.
#[export] Instance NetworkEnvelope_wf : Wf NetworkEnvelope := fun e =>
  - 2 ^ 31 <= env_kind e < 2 ^ 31 /\ 0 <= env_timestamp e < 2 ^ 64 /\ 0 <= env_protocol_version e < 2 ^ 32 /\
  Forall short [env_conversation_id e; env_sender_device_id e; env_encrypted_payload e; env_mac e; env_nonce e; env_signature e].
#[export] Instance NetworkResponse_wf : Wf NetworkResponse := fun r => - 2 ^ 31 <= res_status r < 2 ^ 31 /\ short (res_ack_id r).

Section Codec.
Context `{PQ : Proto NetworkRequest, PS : Proto NetworkResponse}.

Definition decode_or {T} `{Proto T} (what : string) (b : bytes) : result IoError T :=
  match decode b with
  | inr v => Ok v
  | inl e => Err {| io_kind := InvalidDataKind; io_message := what +:+ ": " +:+ e |}
  end.

Definition read_request : M bytes IoError NetworkRequest :=
  b ← read_frame; lift (decode_or "bad request" b).
Definition read_response : M bytes IoError NetworkResponse :=
  b ← read_frame; lift (decode_or "bad response" b).
Definition write_request (req : NetworkRequest) : M Writer IoError unit := write_frame (encode_to_vec req).
Definition write_response (res : NetworkResponse) : M Writer IoError unit := write_frame (encode_to_vec res).
End Codec.

(** ** Topics: a [Sha256Topic] is the string it was made from. *)

Definition hex_digit (n : Z) : Ascii.ascii :=
  Ascii.ascii_of_nat (Z.to_nat (if n <? 10 then 48 + n else 87 + n)).

(** [hex::encode]. *)
Fixpoint hex_encode (b : bytes) : string :=
  match b with
  | [] => ""
  | x :: b => String (hex_digit (byte_to_Z x / 16)) (String (hex_digit (byte_to_Z x mod 16)) (hex_encode b))
  end.

Definition TOPIC_PREFIX : string := "/presidium".

Definition topic_for (kind : string) (id : bytes) : result NetworkError string :=
  match id with
  | [] => Err (InvalidAddress "topic id must not be empty")
  | _ => Ok (TOPIC_PREFIX +:+ "/" +:+ kind +:+ "/" +:+ hex_encode id)
  end.

Definition group_topic (id : bytes) : result NetworkError string := topic_for "group" id.
Definition channel_topic (id : bytes) : result NetworkError string := topic_for "channel" id.
Definition stories_topic (id : bytes) : result NetworkError string := topic_for "stories" id.

(** ** Bootstrap addresses *)

Section Discovery.
Context {PeerId Part : Type}.

Inductive Protocol := P2p (id : PeerId) | Other (part : Part).

Definition Multiaddr : Type := list Protocol.

Record BootstrapPeer := { bp_peer : option PeerId; bp_address : Multiaddr }.

Definition parse_bootstrap_peer (display : Multiaddr -> string) (addr : Multiaddr) : result NetworkError BootstrapPeer :=
  let '(peer, parts) :=
    match last addr with
    | Some (P2p id) => (Some id, take (pred (length addr)) addr)
    | _ => (None, addr)
    end in
  match parts with
  | [] => Err (InvalidAddress ("no dialable address in " +:+ display addr))
  | _ => Ok {| bp_peer := peer; bp_address := parts |}
  end.
End Discovery.

(** ** Network identity: a libp2p keypair is its seed; [accepts] is whether
    [Keypair::ed25519_from_bytes] takes it, with the error text. *)

Record NetworkIdentity := { keypair : bytes }.

Section NetIdentity.
Context `{C : Crypto} (from_bytes : bytes -> string + bytes).

Definition NetworkIdentity_from_seed (seed : bytes) : result NetworkError NetworkIdentity :=
  if decide (length seed <> 32%nat) then
    Err (InvalidNetworkKey ("seed must be 32 bytes, got " +:+ pretty (length seed)))
  else
    match from_bytes seed with
    | inl e => Err (InvalidNetworkKey e)
    | inr k => Ok {| keypair := k |}
    end.

Definition NetworkIdentity_from_device_id (device_id : bytes) : result NetworkError NetworkIdentity :=
  match NetworkIdentity_from_seed (sha256_digest (bs "presidium-network-v1" ++ device_id)) with
  | Ok i => Ok i
  | Err e => Panic "32-byte seed is valid"
  | Panic p => Panic p
  end.
End NetIdentity.
