(* ===== verification/NetworkProps.v ===== *)
(** The wire codec reads exactly what it writes; topics and bootstrap
    addresses. *)

From S2P Require Import Prelude Constants Prims Concrete Ratchet Identity Pqxdh Keys Sqleet SessionState Store ChatSession Network.

(** ** Frames *)

(** The frame of a payload. *)
Definition frame (b : bytes) : bytes := be_bytes 4 (Z.of_nat (length b)) ++ b.

Lemma frame_len (b : bytes) : Z.of_nat (length b) <= MAX_FRAME_SIZE -> of_be_bytes (be_bytes 4 (Z.of_nat (length b))) = Z.of_nat (length b).
Proof. intros Hb. rewrite of_be_bytes_be. apply Z.mod_small. unfold MAX_FRAME_SIZE in Hb. cbn. lia. Qed.

Lemma read_exact_app n a b : length a = n -> read_exact n (a ++ b) = (b, Ok a).
Proof.
  intros <-. unfold read_exact. rewrite decide_True by (rewrite length_app; lia).
  by rewrite drop_app_length, take_app_length.
Qed.

Lemma read_exact_inv n io rest b : read_exact n io = (rest, Ok b) -> io = b ++ rest /\ length b = n.
Proof.
  unfold read_exact. case_decide; [|done]. intros [= <- <-]. split; [by rewrite take_drop|].
  rewrite length_take. lia.
Qed.

Lemma read_frame_frame b rest :
  Z.of_nat (length b) <= MAX_FRAME_SIZE -> read_frame (frame b ++ rest) = (rest, Ok b).
Proof.
  intros Hb. unfold read_frame, frame. mrun. rewrite <- app_assoc, read_exact_app by apply length_be_bytes.
  rewrite frame_len by done. rewrite (proj2 (Z.ltb_ge _ _)) by done.
  apply read_exact_app. lia.
Qed.

Lemma read_frame_inv io rest b :
  read_frame io = (rest, Ok b) -> Z.of_nat (length b) <= MAX_FRAME_SIZE /\ io = frame b ++ rest.
Proof.
  unfold read_frame. mrun. destruct (read_exact 4 io) as [io' [len_buf|e|p]] eqn:H4; [|done..].
  apply read_exact_inv in H4 as [-> Hlen].
  destruct (Z.ltb_spec MAX_FRAME_SIZE (of_be_bytes len_buf)); [done|].
  intros [-> Hb]%read_exact_inv. pose proof (of_be_bytes_nonneg len_buf). split; [lia|].
  unfold frame. rewrite Hb, Z2Nat.id, <- app_assoc by done. by rewrite <- Hlen, be_bytes_of.
Qed.

Lemma write_frame_eq b w :
  write_frame b w =
  if MAX_FRAME_SIZE <? Z.of_nat (length b) then (w, Err frame_too_large)
  else ({| written := written w ++ frame b; closed := true |}, Ok tt).
Proof.
  unfold write_frame. destruct (Z.ltb_spec MAX_FRAME_SIZE (Z.of_nat (length b))); [done|].
  unfold write_all, close. mrun. cbn [written closed]. unfold frame.
  rewrite Z.mod_small by (unfold MAX_FRAME_SIZE in *; lia). by rewrite <- app_assoc.
Qed.

(** [read_frame] accepts exactly the length-prefixed frames of at most
    16 MiB and consumes exactly one of them, whatever follows: it returns a
    payload iff the input starts with that payload's frame. *)
Theorem read_frame_exact io rest b :
  read_frame io = (rest, Ok b) <->
  Z.of_nat (length b) <= MAX_FRAME_SIZE /\ io = frame b ++ rest.
Proof. split; [apply read_frame_inv | intros [Hb ->]; by apply read_frame_frame]. Qed.

Section Wire.
Context `{PQ : Proto NetworkRequest}.

(** A request that is read back by [decode] travels as one frame. *)
Lemma request_wire (req : NetworkRequest) w rest :
  (Z.of_nat (length (encode_to_vec req)) <= MAX_FRAME_SIZE -> decode (encode_to_vec req) = inr req) ->
  if decide (Z.of_nat (length (encode_to_vec req)) <= MAX_FRAME_SIZE) then
    exists sent, write_request req w = ({| written := written w ++ sent; closed := true |}, Ok tt) /\
      read_request (sent ++ rest) = (rest, Ok req)
  else write_request req w = (w, Err frame_too_large).
Proof.
  intros Hr. unfold write_request. rewrite write_frame_eq. case_decide as Hl.
  - rewrite (proj2 (Z.ltb_ge _ _)) by done. eexists. split; [done|].
    unfold read_request. mrun. rewrite read_frame_frame by done. unfold lift, decode_or. by rewrite Hr by done.
  - by rewrite (proj2 (Z.ltb_lt _ _)) by lia.
Qed.
End Wire.

(** ** Topics *)

Definition unhex_digit (c : Ascii.ascii) : Z :=
  let n := Z.of_nat (Ascii.nat_of_ascii c) in if n <? 58 then n - 48 else n - 87.

Lemma unhex_hex n : 0 <= n < 16 -> unhex_digit (hex_digit n) = n.
Proof.
  intros Hn. assert (n ∈ seqZ 0 16) as Hin by (apply elem_of_seqZ; lia).
  revert n Hn Hin. assert (Forall (fun n => unhex_digit (hex_digit n) = n) (seqZ 0 16)) as Hall by by_decide.
  rewrite list.Forall_forall in Hall. auto.
Qed.

Lemma hex_digit_inj a b : 0 <= a < 16 -> 0 <= b < 16 -> hex_digit a = hex_digit b -> a = b.
Proof. intros Ha Hb Heq. by rewrite <- (unhex_hex a Ha), Heq, unhex_hex. Qed.

Lemma hex_encode_inj a b : hex_encode a = hex_encode b -> a = b.
Proof.
  revert b. induction a as [|x a IH]; intros [|y b]; cbn [hex_encode]; [done..|]. intros [= H1 H2 H3].
  pose proof (byte_to_Z_range x). pose proof (byte_to_Z_range y).
  apply hex_digit_inj in H1; [|by split; [apply Z.div_pos | apply Z.div_lt_upper_bound]; lia..].
  apply hex_digit_inj in H2; [|apply Z.mod_pos_bound; lia..].
  f_equal; [|by apply IH]. rewrite <- (byte_of_to_Z x), <- (byte_of_to_Z y). f_equal.
  rewrite (Z.div_mod (byte_to_Z x) 16), (Z.div_mod (byte_to_Z y) 16) by lia. lia.
Qed.

(** Topic names do not collide: two topics of the three kinds (group,
    channel, stories) are equal only when kind and id are, and only the empty
    id is refused. *)
Theorem topics_distinct (k k' : string) id id' t :
  k ∈ ["group"; "channel"; "stories"] -> k' ∈ ["group"; "channel"; "stories"] ->
  topic_for k id = Ok t -> topic_for k' id' = Ok t -> k = k' /\ id = id' /\ id <> [].
Proof.
  intros Hk Hk' Ht Ht'. destruct id as [|x id]; [done|]. destruct id' as [|y id']; [done|].
  unfold topic_for in *. assert (hex_encode (x :: id) = hex_encode (y :: id') -> x :: id = y :: id') as Hinj
    by apply hex_encode_inj.
  revert Hinj Ht Ht'. generalize (hex_encode (x :: id)) as h, (hex_encode (y :: id')) as h'. intros h h' Hinj [= <-] [= Heq].
  repeat (apply elem_of_cons in Hk as [->|Hk]); try (by apply not_elem_of_nil in Hk);
  repeat (apply elem_of_cons in Hk' as [->|Hk']); try (by apply not_elem_of_nil in Hk');
  cbn in Heq; try done; injection Heq as Heq; by rewrite Hinj.
Qed.

(** ** Bootstrap addresses *)

(** A parsed bootstrap peer is the address cut before a trailing [/p2p/<id>]:
    putting the id back gives the address, and only addresses with nothing to
    dial are refused. *)
Lemma bootstrap_roundtrip {PeerId Part} display (addr : @Multiaddr PeerId Part) :
  match parse_bootstrap_peer display addr with
  | Ok p => addr = bp_address p ++ match bp_peer p with Some id => [P2p id] | None => [] end /\ bp_address p <> []
  | Err _ => addr = [] \/ exists id, addr = [P2p id]
  | Panic _ => False
  end.
Proof.
  unfold parse_bootstrap_peer. destruct (last addr) as [[id|x]|] eqn:Hl.
  - apply last_Some in Hl as [l ->]. rewrite length_app, Nat.add_1_r. cbn [pred length].
    rewrite take_app_length. destruct l; [right; by exists id | done].
  - destruct addr; [by left | by rewrite app_nil_r].
  - apply last_None in Hl as ->. by left.
Qed.

(** ** Evaluation *)

Lemma topics_distinct_witness : bs "a" <> [].
Proof.
  refine (proj2 (proj2 (topics_distinct "group" "group" (bs "a") (bs "a") "/presidium/group/61" _ _ eq_refl eq_refl)));
    by left.
Defined.
