(* ===== verification/Protobuf.v ===== *)
(** The messages of [presidium-proto/proto/presidium.proto] that travel between
    nodes, in the protobuf wire format.

    The generated code is not part of the repository, and Network takes it as
    the class [Proto].  This file makes the class from the field numbers and
    types of the schema and the documented wire format: a message is a list of
    fields, each a tag and a wire value; a field with its default value is not
    written; a reader takes the last value of a field, joins the parts of an
    embedded message and skips fields it does not know. *)

From S2P Require Import Prelude Constants Prims Concrete Ratchet Identity Pqxdh Keys Sqleet SqlProps SessionState Store ChatSession Network NetworkProps.

(** ** The wire format *)

Inductive wire :=
| Varint (n : Z)
| Fixed64 (b : bytes)
| Len (b : bytes)
| Fixed32 (b : bytes).

Definition field : Type := Z * wire.

(** Seven bits a byte, the lowest first; the high bit says that more follow. *)
Fixpoint varint_bytes (fuel : nat) (v : Z) : bytes :=
  match fuel with
  | O => []
  | S fuel => if v <? 128 then [byte_of_Z v] else byte_of_Z (v mod 128 + 128) :: varint_bytes fuel (v / 128)
  end.
Definition encode_varint (v : Z) : bytes := varint_bytes 10 v.

Fixpoint read_varint (fuel : nat) (b : bytes) : option (Z * bytes) :=
  match fuel, b with
  | S fuel, x :: b =>
      let n := byte_to_Z x in
      if n <? 128 then Some (n, b) else '(v, rest) ← read_varint fuel b; Some (n - 128 + 128 * v, rest)
  | _, _ => None
  end.
Definition decode_varint (b : bytes) : option (Z * bytes) :=
  '(v, rest) ← read_varint 10 b; if v <? 2 ^ 64 then Some (v, rest) else None.

Definition wire_type (w : wire) : Z := match w with Varint _ => 0 | Fixed64 _ => 1 | Len _ => 2 | Fixed32 _ => 5 end.
Definition wire_bytes (w : wire) : bytes :=
  match w with
  | Varint n => encode_varint n
  | Len b => encode_varint (Z.of_nat (length b)) ++ b
  | Fixed64 b | Fixed32 b => b
  end.
Definition print_field (f : field) : bytes := encode_varint (8 * f.1 + wire_type f.2) ++ wire_bytes f.2.
Definition print_fields (fs : list field) : bytes := concat (map print_field fs).

Definition split_at (n : nat) (b : bytes) : option (bytes * bytes) :=
  if decide (n <= length b)%nat then Some (take n b, drop n b) else None.

(** The wire types of groups, which a proto3 schema cannot have, are refused. *)
Definition parse_wire (code : Z) (b : bytes) : option (wire * bytes) :=
  if code =? 0 then '(n, rest) ← decode_varint b; Some (Varint n, rest)
  else if code =? 1 then '(x, rest) ← split_at 8 b; Some (Fixed64 x, rest)
  else if code =? 2 then
    '(n, rest) ← decode_varint b;
    if n <=? Z.of_nat (length rest) then '(x, rest) ← split_at (Z.to_nat n) rest; Some (Len x, rest) else None
  else if code =? 5 then '(x, rest) ← split_at 4 b; Some (Fixed32 x, rest)
  else None.

Definition parse_field (b : bytes) : option (field * bytes) :=
  '(key, rest) ← decode_varint b;
  if (8 <=? key) && (key <? 2 ^ 32) then '(w, rest) ← parse_wire (key mod 8) rest; Some ((key / 8, w), rest) else None.

Fixpoint parse_fields (fuel : nat) (b : bytes) : option (list field) :=
  match b, fuel with
  | [], _ => Some []
  | _, O => None
  | _, S fuel => '(f, rest) ← parse_field b; fs ← parse_fields fuel rest; Some (f :: fs)
  end.

(** ** Fields of a message *)

(** The last value of a field. *)
Definition take_int (tag : Z) (r : result string Z) (f : field) : result string Z :=
  v ← r;
  if f.1 =? tag then match f.2 with Varint n => Ok n | _ => Err "invalid wire type" end else Ok v.
Definition get_int (tag : Z) (fs : list field) : result string Z := fold_left (take_int tag) fs (Ok 0).

(** All values of a field. *)
Definition take_len (tag : Z) (r : result string (list bytes)) (f : field) : result string (list bytes) :=
  l ← r;
  if f.1 =? tag then match f.2 with Len b => Ok (l ++ [b]) | _ => Err "invalid wire type" end else Ok l.
Definition get_len (tag : Z) (fs : list field) : result string (list bytes) := fold_left (take_len tag) fs (Ok []).

Definition get_bytes (tag : Z) (fs : list field) : result string bytes := l ← get_len tag fs; mret (default [] (last l)).
Definition get_message (tag : Z) (fs : list field) : result string (option bytes) :=
  l ← get_len tag fs; mret (match l with [] => None | _ => Some (concat l) end).

Definition put_int (tag n : Z) : list field := if n =? 0 then [] else [(tag, Varint n)].
Definition put_bytes (tag : Z) (b : bytes) : list field := match b with [] => [] | _ => [(tag, Len b)] end.

(** An enum is an [int32], sign-extended on the wire. *)
Definition of_int32 (n : Z) : Z := n mod 2 ^ 64.
Definition to_int32 (n : Z) : Z := as_i32 n.
Definition to_uint32 (n : Z) : Z := n mod 2 ^ 32.

(** ** The messages *)

Definition NetworkEnvelope_fields (e : NetworkEnvelope) : list field :=
  put_int 1 (of_int32 (env_kind e)) ++ put_bytes 2 (env_conversation_id e) ++ put_bytes 3 (env_sender_device_id e) ++
  put_int 4 (env_timestamp e) ++ put_bytes 5 (env_encrypted_payload e) ++ put_bytes 6 (env_mac e) ++
  put_int 7 (env_protocol_version e) ++ put_bytes 8 (env_nonce e) ++ put_bytes 9 (env_signature e).

Definition NetworkEnvelope_of (fs : list field) : result string NetworkEnvelope :=
  kind ← get_int 1 fs; conversation_id ← get_bytes 2 fs; sender_device_id ← get_bytes 3 fs; timestamp ← get_int 4 fs;
  encrypted_payload ← get_bytes 5 fs; mac ← get_bytes 6 fs; protocol_version ← get_int 7 fs; nonce ← get_bytes 8 fs;
  signature ← get_bytes 9 fs;
  mret {| env_kind := to_int32 kind; env_conversation_id := conversation_id; env_sender_device_id := sender_device_id;
          env_timestamp := timestamp; env_encrypted_payload := encrypted_payload; env_mac := mac;
          env_protocol_version := to_uint32 protocol_version; env_nonce := nonce; env_signature := signature |}.

Definition NetworkResponse_fields (r : NetworkResponse) : list field := put_int 1 (of_int32 (res_status r)) ++ put_bytes 2 (res_ack_id r).
Definition NetworkResponse_of (fs : list field) : result string NetworkResponse :=
  status ← get_int 1 fs; ack_id ← get_bytes 2 fs; mret {| res_status := to_int32 status; res_ack_id := ack_id |}.

Definition fields_of (b : bytes) : result string (list field) := ok_or (parse_fields (length b) b) "failed to decode Protobuf message".

Definition NetworkRequest_fields (r : NetworkRequest) : list field :=
  match req_envelope r with
  | None => []
  | Some e => [(1, Len (print_fields (NetworkEnvelope_fields e)))]
  end.
Definition NetworkRequest_of (fs : list field) : result string NetworkRequest :=
  m ← get_message 1 fs;
  match m with
  | None => mret {| req_envelope := None |}
  | Some b => sub ← fields_of b; e ← NetworkEnvelope_of sub; mret {| req_envelope := Some e |}
  end.

Definition decode_with {T} (make : list field -> result string T) (b : bytes) : string + T :=
  match (fs ← fields_of b; make fs) with
  | Ok v => inr v
  | Err e => inl e
  | Panic p => inl p
  end.

#[export] Instance NetworkEnvelope_proto : Proto NetworkEnvelope :=
  {| encode_to_vec e := print_fields (NetworkEnvelope_fields e); decode := decode_with NetworkEnvelope_of |}.
#[export] Instance NetworkRequest_proto : Proto NetworkRequest :=
  {| encode_to_vec r := print_fields (NetworkRequest_fields r); decode := decode_with NetworkRequest_of |}.
#[export] Instance NetworkResponse_proto : Proto NetworkResponse :=
  {| encode_to_vec r := print_fields (NetworkResponse_fields r); decode := decode_with NetworkResponse_of |}.

(** ** Reading what was written *)

Definition wire_ok (w : wire) : Prop :=
  match w with
  | Varint n => 0 <= n < 2 ^ 64
  | Len b => short b
  | Fixed64 b => length b = 8%nat
  | Fixed32 b => length b = 4%nat
  end.
Definition field_ok (f : field) : Prop := 1 <= f.1 < 2 ^ 29 /\ wire_ok f.2.

Lemma read_varint_bytes fuel v rest :
  0 <= v < 128 ^ Z.of_nat (S fuel) -> read_varint (S fuel) (varint_bytes (S fuel) v ++ rest) = Some (v, rest).
Proof.
  revert v. induction fuel as [|fuel IH]; intros v Hv.
  - change (128 ^ Z.of_nat 1) with 128 in Hv. cbn [varint_bytes]. rewrite (proj2 (Z.ltb_lt v 128)) by lia. cbn [app read_varint].
    rewrite byte_to_of_Z, Z.mod_small by lia. by rewrite (proj2 (Z.ltb_lt v 128)) by lia.
  - remember (S fuel) as k eqn:Hk. cbn [varint_bytes]. destruct (Z.ltb_spec v 128) as [Hs|Hs]; cbn [app read_varint].
    + rewrite byte_to_of_Z, Z.mod_small by lia. by rewrite (proj2 (Z.ltb_lt v 128)) by lia.
    + pose proof (Z.mod_pos_bound v 128 ltac:(lia)) as Hm. rewrite byte_to_of_Z, (Z.mod_small (v mod 128 + 128)) by lia.
      rewrite (proj2 (Z.ltb_ge _ _)) by lia. rewrite Nat2Z.inj_succ, Z.pow_succ_r in Hv by lia.
      rewrite IH by (split; [apply Z.div_pos|apply Z.div_lt_upper_bound]; lia). cbn. do 2 f_equal. pose proof (Z.div_mod v 128). lia.
Qed.

Lemma decode_encode_varint v rest : 0 <= v < 2 ^ 64 -> decode_varint (encode_varint v ++ rest) = Some (v, rest).
Proof.
  intros Hv. unfold decode_varint, encode_varint. rewrite read_varint_bytes by (change (128 ^ Z.of_nat 10) with (2 ^ 70); lia).
  cbn [mbind option_bind]. by rewrite (proj2 (Z.ltb_lt _ _)) by lia.
Qed.

Lemma split_at_app (a b : bytes) n : length a = n -> split_at n (a ++ b) = Some (a, b).
Proof. intros <-. unfold split_at. rewrite decide_True by (rewrite length_app; lia). by rewrite take_app_length, drop_app_length. Qed.

Lemma parse_print_wire w rest : wire_ok w -> parse_wire (wire_type w) (wire_bytes w ++ rest) = Some (w, rest).
Proof.
  destruct w as [n|b|b|b]; intros Hw; cbn [wire_type wire_bytes]; unfold parse_wire; cbn [Z.eqb Pos.eqb].
  - by rewrite decode_encode_varint.
  - by rewrite split_at_app.
  - rewrite <- app_assoc, decode_encode_varint by (split; [lia|exact Hw]). cbn [mbind option_bind].
    rewrite (proj2 (Z.leb_le _ _)) by (rewrite length_app; lia). by rewrite Nat2Z.id, split_at_app.
  - by rewrite split_at_app.
Qed.

Lemma wire_type_range w : 0 <= wire_type w < 8.
Proof. by destruct w. Qed.

Lemma parse_print_field f rest : field_ok f -> parse_field (print_field f ++ rest) = Some (f, rest).
Proof.
  destruct f as [tag w]. intros [Ht Hw]. cbn [fst snd] in *. unfold print_field, parse_field. cbn [fst snd]. pose proof (wire_type_range w) as Hr.
  rewrite <- app_assoc, decode_encode_varint by lia. cbn [mbind option_bind].
  rewrite (proj2 (Z.leb_le _ _)), (proj2 (Z.ltb_lt _ _)) by lia. cbn [andb].
  replace ((8 * tag + wire_type w) mod 8) with (wire_type w) by (rewrite Z.add_comm, Z.mul_comm, Z.mod_add, Z.mod_small by lia; done).
  replace ((8 * tag + wire_type w) / 8) with tag by (rewrite Z.add_comm, Z.mul_comm, Z.div_add, Z.div_small by lia; lia).
  by rewrite parse_print_wire.
Qed.

Lemma encode_varint_length v : (1 <= length (encode_varint v))%nat.
Proof. unfold encode_varint. cbn [varint_bytes]. destruct (v <? 128); cbn; lia. Qed.

Lemma parse_print_fields fs fuel : Forall field_ok fs -> (length (print_fields fs) <= fuel)%nat -> parse_fields fuel (print_fields fs) = Some fs.
Proof.
  revert fuel. induction fs as [|f fs IH]; intros fuel Hok Hl; [by destruct fuel|]. apply Forall_cons in Hok as [Hf Hok].
  change (print_fields (f :: fs)) with (print_field f ++ print_fields fs) in *. rewrite length_app in Hl.
  assert (1 <= length (print_field f))%nat as Hone by (unfold print_field; rewrite length_app; pose proof (encode_varint_length (8 * f.1 + wire_type f.2)); lia).
  destruct (print_field f ++ print_fields fs) as [|x b] eqn:Heq; [apply app_eq_nil in Heq as [Hnil _]; rewrite Hnil in Hone; cbn in Hone; lia|].
  destruct fuel as [|fuel]; [lia|]. cbn [parse_fields]. rewrite <- Heq, parse_print_field by done. cbn [mbind option_bind]. rewrite IH by (done || lia). done.
Qed.

Lemma fields_of_print fs : Forall field_ok fs -> fields_of (print_fields fs) = Ok fs.
Proof. intros Hok. unfold fields_of. by rewrite parse_print_fields. Qed.

(** *** Fields by tag *)

Lemma int_other tag fs v : Forall (fun f : field => f.1 <> tag) fs -> fold_left (take_int tag) fs (Ok v) = Ok v.
Proof.
  induction 1 as [|f fs Hf _ IH]; [done|]. cbn [fold_left]. unfold take_int at 2. cbn [mbind result_bind]. by rewrite (proj2 (Z.eqb_neq _ _)).
Qed.
Lemma len_other tag fs l : Forall (fun f : field => f.1 <> tag) fs -> fold_left (take_len tag) fs (Ok l) = Ok l.
Proof.
  induction 1 as [|f fs Hf _ IH]; [done|]. cbn [fold_left]. unfold take_len at 2. cbn [mbind result_bind]. by rewrite (proj2 (Z.eqb_neq _ _)).
Qed.

Lemma put_int_tag tag n t : t <> tag -> Forall (fun f : field => f.1 <> tag) (put_int t n).
Proof. intros Ht. unfold put_int. destruct (n =? 0); by repeat constructor. Qed.
Lemma put_bytes_tag tag b t : t <> tag -> Forall (fun f : field => f.1 <> tag) (put_bytes t b).
Proof. intros Ht. destruct b; by repeat constructor. Qed.

Lemma int_put tag n : fold_left (take_int tag) (put_int tag n) (Ok 0) = Ok n.
Proof. unfold put_int. destruct (Z.eqb_spec n 0) as [->|]; [done|]. cbn. by rewrite Z.eqb_refl. Qed.

(** The value of [b] as the values of its field. *)
Definition written_bytes (b : bytes) : list bytes := match b with [] => [] | _ => [b] end.
Lemma len_put tag b : fold_left (take_len tag) (put_bytes tag b) (Ok []) = Ok (written_bytes b).
Proof. destruct b; [done|]. cbn. by rewrite Z.eqb_refl. Qed.
Lemma written_last b : default [] (last (written_bytes b)) = b.
Proof. by destruct b. Qed.

(** Evaluates a getter on a list of [put]s and fields with larger tags. *)
Ltac fields Hextra :=
  unfold get_bytes, get_int, get_len; rewrite !fold_left_app;
  repeat first
    [ rewrite (int_other _ (put_int _ _)) by (apply put_int_tag; done) | rewrite (int_other _ (put_bytes _ _)) by (apply put_bytes_tag; done)
    | rewrite (len_other _ (put_int _ _)) by (apply put_int_tag; done) | rewrite (len_other _ (put_bytes _ _)) by (apply put_bytes_tag; done)
    | rewrite int_put | rewrite len_put
    | rewrite int_other by (eapply Forall_impl; [exact Hextra|]; cbn; intros; lia)
    | rewrite len_other by (eapply Forall_impl; [exact Hextra|]; cbn; intros; lia) ].

Lemma int32_roundtrip n : - 2 ^ 31 <= n < 2 ^ 31 -> to_int32 (of_int32 n) = n.
Proof.
  intros Hn. unfold to_int32, of_int32, as_i32. destruct (decide (0 <= n)) as [Hp|Hp].
  - rewrite (Z.mod_small n) by lia. rewrite Z.mod_small by lia. lia.
  - replace (n mod 2 ^ 64) with (n + 2 ^ 64) by (rewrite <- (Z.mod_small (n + 2 ^ 64) (2 ^ 64)) by lia; rewrite <- (Z.mul_1_l (2 ^ 64)) at 1; by rewrite Z.mod_add by lia).
    replace (n + 2 ^ 64 + 2 ^ 31) with ((n + 2 ^ 31) + 2 ^ 32 * 2 ^ 32) by lia. rewrite Z.mod_add, Z.mod_small by lia. lia.
Qed.

Lemma envelope_of_fields e extra :
  wf e -> Forall (fun f : field => 9 < f.1) extra -> NetworkEnvelope_of (NetworkEnvelope_fields e ++ extra) = Ok e.
Proof.
  intros (Hk & Ht & Hv & _) Hx. destruct e as [k c d t p m v n s]. cbn in Hk, Ht, Hv. unfold NetworkEnvelope_of, NetworkEnvelope_fields.
  cbn [env_kind env_conversation_id env_sender_device_id env_timestamp env_encrypted_payload env_mac env_protocol_version env_nonce env_signature].
  fields Hx. cbn [mbind result_bind mret result_ret]. rewrite !written_last, int32_roundtrip by done.
  unfold to_uint32. by rewrite Z.mod_small.
Qed.

Lemma response_of_fields r extra :
  wf r -> Forall (fun f : field => 2 < f.1) extra -> NetworkResponse_of (NetworkResponse_fields r ++ extra) = Ok r.
Proof.
  intros [Hs _] Hx. destruct r as [s a]. cbn in Hs. unfold NetworkResponse_of, NetworkResponse_fields. cbn [res_status res_ack_id].
  fields Hx. cbn [mbind result_bind mret result_ret]. by rewrite written_last, int32_roundtrip.
Qed.

(** *** Whole messages *)

Lemma put_int_ok tag n : 1 <= tag < 2 ^ 29 -> 0 <= n < 2 ^ 64 -> Forall field_ok (put_int tag n).
Proof. intros Ht Hn. unfold put_int. destruct (n =? 0); repeat constructor; cbn; lia. Qed.
Lemma put_bytes_ok tag b : 1 <= tag < 2 ^ 29 -> short b -> Forall field_ok (put_bytes tag b).
Proof. intros Ht Hb. destruct b; repeat constructor; cbn in *; done || lia. Qed.

Lemma of_int32_range n : 0 <= of_int32 n < 2 ^ 64.
Proof. by apply Z.mod_pos_bound. Qed.

Lemma envelope_fields_ok (e : NetworkEnvelope) : wf e -> Forall field_ok (NetworkEnvelope_fields e).
Proof.
  intros (_ & Ht & Hv & Hs). repeat (apply Forall_cons in Hs as [? Hs]). unfold NetworkEnvelope_fields.
  repeat (apply Forall_app; split); first [apply put_int_ok; [lia|] | apply put_bytes_ok; [lia|done]]; [apply of_int32_range|lia|lia].
Qed.

Lemma response_fields_ok (r : NetworkResponse) : wf r -> Forall field_ok (NetworkResponse_fields r).
Proof. intros [Hs Ha]. apply Forall_app. split; [apply put_int_ok; [lia|apply of_int32_range]|apply put_bytes_ok; [lia|done]]. Qed.

Lemma print_fields_app a b : print_fields (a ++ b) = print_fields a ++ print_fields b.
Proof. unfold print_fields. by rewrite map_app, concat_app. Qed.

Lemma decode_printed {T} (make : list field -> result string T) fs extra v :
  Forall field_ok fs -> Forall field_ok extra -> make (fs ++ extra) = Ok v -> decode_with make (print_fields fs ++ print_fields extra) = inr v.
Proof.
  intros Hf Hx Hm. unfold decode_with. rewrite <- print_fields_app, fields_of_print by by apply Forall_app. cbn [mbind result_bind]. by rewrite Hm.
Qed.

(** An envelope is read back, also when it is followed by fields with numbers
    the schema does not have. *)
Lemma envelope_decode (e : NetworkEnvelope) extra :
  wf e -> Forall field_ok extra -> Forall (fun f : field => 9 < f.1) extra -> decode (encode_to_vec e ++ print_fields extra) = inr e.
Proof. intros He Hx Ht. apply decode_printed; [by apply envelope_fields_ok|done|by apply envelope_of_fields]. Qed.

Lemma response_decode (r : NetworkResponse) extra :
  wf r -> Forall field_ok extra -> Forall (fun f : field => 2 < f.1) extra -> decode (encode_to_vec r ++ print_fields extra) = inr r.
Proof. intros Hr Hx Ht. apply decode_printed; [by apply response_fields_ok|done|by apply response_of_fields]. Qed.

(** A request is well-formed when its envelope is, and can be embedded. *)
#[export] Instance NetworkRequest_wf : Wf NetworkRequest := fun r =>
  match req_envelope r with Some e => wf e /\ short (encode_to_vec (e : NetworkEnvelope)) | None => True end.

Lemma request_decode (r : NetworkRequest) extra :
  wf r -> Forall field_ok extra -> Forall (fun f : field => 1 < f.1) extra -> decode (encode_to_vec r ++ print_fields extra) = inr r.
Proof.
  destruct r as [[e|]]; intros Hr Hx Ht.
  - destruct Hr as [He Hs]. apply decode_printed; [by repeat constructor|done|]. unfold NetworkRequest_of, NetworkRequest_fields, get_message, get_len.
    cbn [req_envelope]. rewrite fold_left_app. cbn [mbind result_bind mret result_ret fold_left take_len fst snd Z.eqb Pos.eqb app].
    rewrite (len_other _ extra) by (eapply Forall_impl; [exact Ht|]; cbn; intros; lia).
    cbn [mbind result_bind mret result_ret concat]. rewrite app_nil_r, fields_of_print by by apply envelope_fields_ok.
    cbn [mbind result_bind]. pose proof (envelope_of_fields e [] He ltac:(constructor)) as Hof. rewrite app_nil_r in Hof. by rewrite Hof.
  - apply (decode_printed NetworkRequest_of [] extra); [constructor|done|]. unfold NetworkRequest_of, get_message, get_len. cbn [app].
    rewrite len_other; [done|]. eapply Forall_impl; [exact Ht|]. cbn. intros. lia.
Qed.

#[export] Instance NetworkEnvelope_proto_ok : ProtoOk NetworkEnvelope.
Proof. split. intros v Hv. pose proof (envelope_decode v [] Hv ltac:(constructor) ltac:(constructor)) as H. by rewrite app_nil_r in H. Qed.
#[export] Instance NetworkRequest_proto_ok : ProtoOk NetworkRequest.
Proof. split. intros v Hv. pose proof (request_decode v [] Hv ltac:(constructor) ltac:(constructor)) as H. by rewrite app_nil_r in H. Qed.
#[export] Instance NetworkResponse_proto_ok : ProtoOk NetworkResponse.
Proof. split. intros v Hv. pose proof (response_decode v [] Hv ltac:(constructor) ltac:(constructor)) as H. by rewrite app_nil_r in H. Qed.

(** C33. Requests survive the wire byte for byte.  A request, with or without an
    envelope, is written as one length-prefixed frame of its protobuf encoding
    and the stream closed, and [read_request] on those bytes returns that
    request and leaves what follows; one whose encoding is over 16 MiB is
    refused and nothing is written.  Readers are forward compatible: an
    envelope followed by fields with unknown numbers is read as the envelope. *)
Theorem request_wire_roundtrip (req : NetworkRequest) (extra : list field) w rest :
  match req_envelope req with Some e => wf e | None => True end -> Forall field_ok extra -> Forall (fun f : field => 9 < f.1) extra ->
  (if decide (Z.of_nat (length (encode_to_vec req)) <= MAX_FRAME_SIZE) then
    exists sent, write_request req w = ({| written := written w ++ sent; closed := true |}, Ok tt) /\
      read_request (sent ++ rest) = (rest, Ok req)
  else write_request req w = (w, Err frame_too_large)) /\
  forall e, req_envelope req = Some e -> decode (encode_to_vec e ++ print_fields extra) = inr e.
Proof.
  intros Hreq Hx Ht. split.
  - apply request_wire. intros Hl. apply proto_roundtrip. destruct req as [[e|]]; [|done]. split; [done|]. unfold short.
    assert (length (encode_to_vec e) <= length (encode_to_vec {| req_envelope := Some e |}))%nat as Hle.
    { change (encode_to_vec {| req_envelope := Some e |}) with (print_fields [(1, Len (encode_to_vec e))]).
      unfold print_fields, print_field. cbn [map concat fst snd wire_bytes]. rewrite !length_app. lia. }
    unfold MAX_FRAME_SIZE in Hl. lia.
  - intros e He. rewrite He in Hreq. by apply envelope_decode.
Qed.

(** ** Evaluation *)

Definition sample_wire_envelope : NetworkEnvelope :=
  {| env_kind := KIND_DIRECT; env_conversation_id := bs "c"; env_sender_device_id := bs "dev"; env_timestamp := 300;
     env_encrypted_payload := [x02; xff]; env_mac := []; env_protocol_version := 1; env_nonce := []; env_signature := bs "s" |}.

Lemma sample_wire_bytes :
  encode_to_vec sample_wire_envelope =
    [x08; x01; x12; x01; x63; x1a; x03; x64; x65; x76; x20; xac; x02; x2a; x02; x02; xff; x38; x01; x4a; x01; x73].
Proof. vm_compute. reflexivity. Qed.

Lemma request_wire_roundtrip_witness :
  (exists sent, write_request {| req_envelope := Some sample_wire_envelope |} {| written := []; closed := false |}
      = ({| written := [] ++ sent; closed := true |}, Ok tt) /\
    read_request (sent ++ bs "next") = (bs "next", Ok {| req_envelope := Some sample_wire_envelope |})) /\
  decode (encode_to_vec sample_wire_envelope ++ print_fields [(17, Len (bs "new")); (18, Varint 3)]) = inr sample_wire_envelope.
Proof.
  destruct (request_wire_roundtrip {| req_envelope := Some sample_wire_envelope |} [(17, Len (bs "new")); (18, Varint 3)]
              {| written := []; closed := false |} (bs "next")) as [H1 H2].
  - split; [unfold sample_wire_envelope, KIND_DIRECT; cbn; lia|]. split; [cbn; lia|]. split; [cbn; lia|]. repeat constructor.
  - repeat constructor; cbn; lia.
  - repeat constructor; cbn; lia.
  - split; [|by apply H2]. rewrite decide_True in H1 by (vm_compute; discriminate). exact H1.
Defined.
