(* ===== verification/Node.v ===== *)
(** The P2P node: [presidium-network/src/node.rs].

    The handle [P2pNode] puts [Control] messages into a channel; the swarm
    task takes them out and also handles the events of the libp2p swarm.  The
    swarm itself is libp2p: what the task asks of it is the list of its calls,
    in order.  The id [send_request] returns, the addresses [listeners]
    returns and the swarm's events come from libp2p and are arguments.  A
    failing [dial], [listen_on], [publish] or [subscribe] is only logged.  The
    application may drop the event receiver at any time; [emit] then loses its
    event.  Logging is left out. *)

From S2P Require Import Prelude Constants Prims Ratchet Identity Pqxdh Keys Sqleet SessionState Store ChatSession Network.

Section Types.
Context {PeerId Addr : Type}.

(** [Control]; the sender of [ListenAddrs] is its number. *)
Inductive Control :=
| CtlDial (addr : Addr)
| SendDirect (peer : PeerId) (envelope : NetworkEnvelope)
| CtlPublish (topic : string) (envelope : NetworkEnvelope)
| Subscribe (topic : string)
| Unsubscribe (topic : string)
| ListenAddrs (tx : nat)
| Shutdown.

Inductive NodeEvent :=
| EvListen (address : Addr)
| PeerConnected (peer : PeerId)
| PeerDisconnected (peer : PeerId)
| PeerDiscovered (peer : PeerId) (address : Addr)
| DirectMessage (from : PeerId) (envelope : NetworkEnvelope)
| DirectDelivered (to : PeerId) (conversation_id : bytes) (status : NetworkResponse)
| DirectFailed (to : PeerId) (error : string)
| GossipMessage (from : PeerId) (topic : string) (envelope : NetworkEnvelope).

(** ** The handle: what was put into the control channel, in order, and
    whether the task still receives from it. *)

Record P2pNode := { np_peer_id : PeerId; np_running : bool; np_controls : list Control }.

Definition send_control (c : Control) : M P2pNode NetworkError unit :=
  running ← gets np_running;
  if running : bool
  then modify (fun n => {| np_peer_id := np_peer_id n; np_running := np_running n;
                           np_controls := np_controls n ++ [c] |})
  else fail NotRunning.

Definition P2pNode_dial (addr : Addr) : M P2pNode NetworkError unit := send_control (CtlDial addr).
Definition P2pNode_send_direct (peer : PeerId) (envelope : NetworkEnvelope) : M P2pNode NetworkError unit :=
  send_control (SendDirect peer envelope).
Definition P2pNode_publish (topic : string) (envelope : NetworkEnvelope) : M P2pNode NetworkError unit :=
  send_control (CtlPublish topic envelope).
Definition P2pNode_subscribe (topic : string) : M P2pNode NetworkError unit := send_control (Subscribe topic).
Definition P2pNode_unsubscribe (topic : string) : M P2pNode NetworkError unit := send_control (Unsubscribe topic).

(** [reply] is what comes back on the oneshot channel, [None] when it is
    dropped. *)
Definition P2pNode_listen_addrs (tx : nat) (reply : option (list Addr)) : M P2pNode NetworkError (list Addr) := fun n =>
  match send_control (ListenAddrs tx) n with
  | (n', Ok _) => (n', Ok (default [] reply))
  | (n', _) => (n', Ok [])
  end.

(** [stop] sends [Shutdown], ignores the outcome and aborts the task. *)
Definition P2pNode_stop (n : P2pNode) : P2pNode :=
  let n' := (send_control Shutdown n).1 in
  {| np_peer_id := np_peer_id n'; np_running := false; np_controls := np_controls n' |}.

Lemma send_control_ok c n :
  np_running n = true ->
  send_control c n = ({| np_peer_id := np_peer_id n; np_running := np_running n;
                         np_controls := np_controls n ++ [c] |}, Ok tt).
Proof. destruct n as [p r l]. cbn. by intros ->. Qed.
End Types.
Arguments Control : clear implicits.
Arguments NodeEvent : clear implicits.
Arguments P2pNode : clear implicits.

(** ** The swarm task *)

Section Task.
Context {PeerId Part ReqId Channel : Type} `{Countable ReqId}.
Context `{PE : Proto NetworkEnvelope}.

Abbreviation Addr := (@Multiaddr PeerId Part).

(** What the task asks of the swarm. *)
Inductive SwarmCall :=
| ListenOn (addr : Addr)
| SwarmDial (addr : Addr)
| SendRequest (id : ReqId) (peer : PeerId) (request : NetworkRequest)
| SendResponse (channel : Channel) (response : NetworkResponse)
| GossipPublish (topic : string) (data : bytes)
| GossipSubscribe (topic : string)
| GossipUnsubscribe (topic : string)
| KadAddAddress (peer : PeerId) (addr : Addr)
| KadRemoveAddress (peer : PeerId) (addr : Addr)
| ReplyListeners (tx : nat).

(** The swarm events [handle_swarm_event] distinguishes; all others are
    [Ignored]. *)
Inductive SwarmEvent :=
| NewListenAddr (address : Addr)
| ConnectionEstablished (peer_id : PeerId)
| ConnectionClosed (peer_id : PeerId)
| MdnsDiscovered (found : list (PeerId * Addr))
| MdnsExpired (gone : list (PeerId * Addr))
| KadRoutingUpdated (peer : PeerId) (first : Addr) (others : list Addr)
| GossipsubMessage (propagation_source : PeerId) (topic : string) (data : bytes)
| RequestReceived (peer : PeerId) (request : NetworkRequest) (channel : Channel)
| ResponseReceived (peer : PeerId) (response : NetworkResponse) (request_id : ReqId)
| OutboundFailure (peer : PeerId) (request_id : ReqId) (error : string)
| Ignored.

(** [tk_open]: the application still receives events. *)
Record Task := {
  tk_pending : gmap ReqId (PeerId * bytes);
  tk_calls : list SwarmCall;
  tk_events : list (NodeEvent PeerId Addr);
  tk_open : bool
}.

Definition set_pending (p : gmap ReqId (PeerId * bytes)) (t : Task) : Task :=
  {| tk_pending := p; tk_calls := tk_calls t; tk_events := tk_events t; tk_open := tk_open t |}.

Definition call (c : SwarmCall) (t : Task) : Task :=
  {| tk_pending := tk_pending t; tk_calls := tk_calls t ++ [c]; tk_events := tk_events t; tk_open := tk_open t |}.

Definition emit (e : NodeEvent PeerId Addr) (t : Task) : Task :=
  if tk_open t
  then {| tk_pending := tk_pending t; tk_calls := tk_calls t; tk_events := tk_events t ++ [e]; tk_open := tk_open t |}
  else t.

(** The application drops its end of the event channel: from then on
    [events.send] fails, and [emit] only logs that. *)
Definition drop_receiver (t : Task) : Task :=
  {| tk_pending := tk_pending t; tk_calls := tk_calls t; tk_events := tk_events t; tk_open := false |}.

Definition subscribe (topic : string) (t : Task) : Task := call (GossipSubscribe topic) t.

Definition Status_Ok : Z := 1.

Definition handle_request (peer : PeerId) (request : NetworkRequest) (channel : Channel) (t : Task) : Task :=
  let ack_id := match req_envelope request with Some e => env_conversation_id e | None => [] end in
  let status := {| res_status := Status_Ok; res_ack_id := ack_id |} in
  match req_envelope request with
  | Some envelope => emit (DirectMessage peer envelope) (call (SendResponse channel status) t)
  | None => t
  end.

Definition handle_swarm_event (config : NodeConfig Addr) (event : SwarmEvent) (t : Task) : Task :=
  match event with
  | NewListenAddr address => emit (EvListen address) t
  | ConnectionEstablished peer => emit (PeerConnected peer) t
  | ConnectionClosed peer => emit (PeerDisconnected peer) t
  | MdnsDiscovered found =>
      if mdns_enabled config then
        fold_left (fun t p =>
          let t := emit (PeerDiscovered p.1 p.2) (call (KadAddAddress p.1 p.2) t) in
          if auto_dial config then call (SwarmDial p.2) t else t) found t
      else t
  | MdnsExpired gone =>
      if mdns_enabled config then fold_left (fun t p => call (KadRemoveAddress p.1 p.2) t) gone t else t
  | KadRoutingUpdated peer first _ => emit (PeerDiscovered peer first) t
  | GossipsubMessage source topic data =>
      match decode data with
      | inr envelope => emit (GossipMessage source topic envelope) t
      | inl _ => t
      end
  | RequestReceived peer request channel => handle_request peer request channel t
  | ResponseReceived _ response request_id =>
      match tk_pending t !! request_id with
      | Some (to, conversation_id) =>
          emit (DirectDelivered to conversation_id response) (set_pending (delete request_id (tk_pending t)) t)
      | None => t
      end
  | OutboundFailure peer request_id error =>
      emit (DirectFailed peer error) (set_pending (delete request_id (tk_pending t)) t)
  | Ignored => t
  end.

(** One control message; [request_id] is what [send_request] returns.  The
    result says whether the loop goes on. *)
Definition handle_control (request_id : ReqId) (c : Control PeerId Addr) (t : Task) : Task * bool :=
  match c with
  | CtlDial addr => (call (SwarmDial addr) t, true)
  | SendDirect peer envelope =>
      let t := call (SendRequest request_id peer {| req_envelope := Some envelope |}) t in
      (set_pending (<[request_id := (peer, env_conversation_id envelope)]> (tk_pending t)) t, true)
  | CtlPublish topic envelope => (call (GossipPublish topic (encode_to_vec envelope)) t, true)
  | Subscribe topic => (subscribe topic t, true)
  | Unsubscribe topic => (call (GossipUnsubscribe topic) t, true)
  | ListenAddrs tx => (call (ReplyListeners tx) t, true)
  | Shutdown => (t, false)
  end.

(** Before the loop; [any] is the address [/ip4/0.0.0.0/tcp/0]. *)
Definition run_loop_start (any : Addr) (display : Addr -> string) (config : NodeConfig Addr) (t : Task) : Task :=
  let listen_addrs := match listen config with [] => [any] | l => l end in
  let t := fold_left (fun t addr => call (ListenOn addr) t) listen_addrs t in
  let t := fold_left (fun t topic => subscribe topic t) (subscribe_topics config) t in
  fold_left (fun t addr =>
    match parse_bootstrap_peer display addr with
    | Ok peer =>
        let t := match bp_peer peer with
                 | Some id => call (KadAddAddress id (bp_address peer)) t
                 | None => t
                 end in
        call (SwarmDial (bp_address peer)) t
    | _ => t
    end) (bootstrap_peers config) t.

Definition task_start (any : Addr) (display : Addr -> string) (config : NodeConfig Addr) : Task :=
  run_loop_start any display config {| tk_pending := ∅; tk_calls := []; tk_events := []; tk_open := true |}.

(** ** The loop as a step relation

    Each turn of [select!] takes one control message or one swarm event; the
    application may drop the event receiver at any time.  The id of an outbound
    request is one libp2p has not given out before; which swarm events can
    occur in a state is [allowed]. *)

Definition request_ids (calls : list SwarmCall) : list ReqId :=
  omap (fun c => match c with SendRequest id _ _ => Some id | _ => None end) calls.

Inductive task_step (allowed : Task -> SwarmEvent -> Prop) (config : NodeConfig Addr) : Task -> Task -> Prop :=
| step_control id c t t' :
    id ∉ request_ids (tk_calls t) -> handle_control id c t = (t', true) -> task_step allowed config t t'
| step_event e t : allowed t e -> task_step allowed config t (handle_swarm_event config e t)
| step_drop_receiver t : task_step allowed config t (drop_receiver t).

(** What libp2p documents of a failure: it is reported for a request that has
    not been answered, with the peer the request was sent to. *)
Definition fails_once (t : Task) (e : SwarmEvent) : Prop :=
  match e with
  | OutboundFailure peer id _ => exists conversation, tk_pending t !! id = Some (peer, conversation)
  | _ => True
  end.
End Task.
