(* ===== verification/Behaviour.v ===== *)
(** The composed libp2p behaviour and the start of a node:
    [presidium-network/src/behaviour.rs], and [build_swarm], [start] and
    [start_with_device_id] of [presidium-network/src/node.rs].

    The protocols are libp2p's: a behaviour is what it is constructed from.
    The class [Libp2p] lists the libp2p functions whose result the code uses
    or whose failure it handles.  The channel capacities and the scheduling of
    the spawned task are left out. *)

From S2P Require Import Prelude Constants Prims Ratchet Identity Pqxdh Keys Sqleet SessionState Store ChatSession Network Node.

Class Libp2p := {
  NetPeerId : Type;
  NetPublicKey : Type;
  (** [Keypair::generate_ed25519], [Keypair::ed25519_from_bytes], [public] and
      [to_peer_id]; a keypair is its seed. *)
  ed25519_from_bytes : bytes -> string + bytes;
  keypair_public : bytes -> NetPublicKey;
  to_peer_id : NetPublicKey -> NetPeerId;
  (** [kad::Config::new] and the configuration [kad::Behaviour::new] uses. *)
  KadConfig : Type;
  kad_config_new : string -> KadConfig;
  kad_config_default : KadConfig;
  (** The error texts of building the transport, of DNS, of mDNS and of
      gossipsub, if they fail, and what [with_behaviour] makes of an error. *)
  tcp_error : option string;
  dns_error : option string;
  mdns_error : NetPeerId -> option string;
  gossipsub_error : bytes -> option string;
  behaviour_error : string -> string
}.

(** ** Events: the [From] implementations are the constructors. *)

Section Events.
Context {IdentifyEvent PingEvent KadEvent MdnsEvent GossipsubEvent RequestResponseEvent : Type}.

Inductive PresidiumEvent :=
| Identify (e : IdentifyEvent)
| Ping (e : PingEvent)
| Kad (e : KadEvent)
| Mdns (e : MdnsEvent)
| Gossipsub (e : GossipsubEvent)
| RequestResponse (e : RequestResponseEvent).
End Events.

(** ** The behaviour *)

Definition CARGO_PKG_VERSION : string := "0.1.0".
Definition IDENTIFY_PROTOCOL_VERSION : string := "/presidium/identify/" +:+ CARGO_PKG_VERSION.
Definition KAD_PROTOCOL_NAME : string := "/presidium/kad/0.1.0".
Definition REQUEST_RESPONSE_PROTOCOL : string := "/presidium/request-response/0.1.0".

Inductive DhtMode := ModeClient | ModeServer.
Inductive ProtocolSupport := Inbound | Outbound | Full.

Section Behaviour.
Context `{L : Libp2p}.

(** [kb_mode] is the mode that was set; [None] leaves it to libp2p. *)
Record KadBehaviour := { kb_local : NetPeerId; kb_config : KadConfig; kb_mode : option DhtMode }.

Definition kad_with_config (local : NetPeerId) (config : KadConfig) : KadBehaviour :=
  {| kb_local := local; kb_config := config; kb_mode := None |}.
Definition kad_new (local : NetPeerId) : KadBehaviour := kad_with_config local kad_config_default.
Definition set_mode (m : option DhtMode) (b : KadBehaviour) : KadBehaviour :=
  {| kb_local := kb_local b; kb_config := kb_config b; kb_mode := m |}.

(** Identify's version and key; the peer of mDNS (ping has no settings); the key gossipsub signs
    with; the protocols and the timeout (in seconds) of request-response. *)
Record PresidiumBehaviour := {
  pb_identify : string * NetPublicKey;
  pb_kademlia : KadBehaviour;
  pb_mdns : NetPeerId;
  pb_gossipsub : bytes;
  pb_request_response : list (string * ProtocolSupport) * Z
}.

Definition or_error {A} (e : option string) (f : string -> NetworkError) (a : A) : result NetworkError A :=
  match e with Some m => Err (f m) | None => Ok a end.

Definition PresidiumBehaviour_new {Multiaddr} (key : bytes) (config : NodeConfig Multiaddr) : result NetworkError PresidiumBehaviour :=
  let local_peer_id := to_peer_id (keypair_public key) in
  let kademlia :=
    match kad_mode config with
    | Disabled => set_mode (Some ModeClient) (kad_new local_peer_id)
    | Client => kad_with_config local_peer_id (kad_config_new KAD_PROTOCOL_NAME)
    | Server => set_mode (Some ModeServer) (kad_with_config local_peer_id (kad_config_new KAD_PROTOCOL_NAME))
    end in
  mdns ← or_error (mdns_error local_peer_id) (fun e => Behaviour ("mdns: " +:+ e)) local_peer_id;
  gossipsub ← or_error (gossipsub_error key) (fun e => Behaviour ("gossipsub: " +:+ e)) key;
  mret {| pb_identify := (IDENTIFY_PROTOCOL_VERSION, keypair_public key); pb_kademlia := kademlia; pb_mdns := mdns;
          pb_gossipsub := gossipsub; pb_request_response := ([(REQUEST_RESPONSE_PROTOCOL, Full)], request_timeout config) |}.

(** ** The swarm *)

Record Swarm := { sw_keypair : bytes; sw_behaviour : PresidiumBehaviour; sw_idle_timeout : Z }.

Definition build_swarm {Multiaddr} (identity : NetworkIdentity) (config : NodeConfig Multiaddr) : result NetworkError Swarm :=
  or_error tcp_error Transport tt;;
  or_error dns_error Transport tt;;
  behaviour ← map_err (fun e => Behaviour (behaviour_error (NetworkError_to_string e)))
                (PresidiumBehaviour_new (keypair identity) config);
  mret {| sw_keypair := keypair identity; sw_behaviour := behaviour; sw_idle_timeout := idle_connection_timeout config |}.

(** ** Starting a node

    [rnd] is the drawn seed. *)

Definition NetworkIdentity_generate (rnd : bytes) : NetworkIdentity := {| keypair := rnd |}.
Definition NetworkIdentity_peer_id (i : NetworkIdentity) : NetPeerId := to_peer_id (keypair_public (keypair i)).

Section Start.
Context {Part ReqId Channel : Type} `{Countable ReqId} `{PE : Proto NetworkEnvelope} `{C : Crypto}.

Abbreviation Addr := (@Multiaddr NetPeerId Part).
Abbreviation SwarmTask := (@Task NetPeerId Part ReqId Channel _ _).

(** The swarm and the task that runs on it, after [run_loop] has done what
    comes before its loop. *)
Record Running := { rn_node : P2pNode NetPeerId Addr; rn_swarm : Swarm; rn_task : SwarmTask }.

Definition spawn (any : Addr) (display : Addr -> string) (config : NodeConfig Addr) (identity : NetworkIdentity) : result NetworkError Running :=
  swarm ← build_swarm identity config;
  mret {| rn_node := {| np_peer_id := NetworkIdentity_peer_id identity; np_running := true; np_controls := [] |};
          rn_swarm := swarm; rn_task := task_start any display config |}.

Definition P2pNode_start (any : Addr) (display : Addr -> string) (rnd : bytes) (config : NodeConfig Addr) : result NetworkError Running :=
  spawn any display config (NetworkIdentity_generate rnd).

Definition P2pNode_start_with_device_id (any : Addr) (display : Addr -> string) (device_id : bytes) (config : NodeConfig Addr)
    : result NetworkError Running :=
  identity ← NetworkIdentity_from_device_id ed25519_from_bytes device_id;
  spawn any display config identity.
End Start.
End Behaviour.
