(* ===== verification/NodeProps.v ===== *)
(** The swarm task: every direct message sent is accounted for, and every one
    received is acknowledged. *)

From S2P Require Import Prelude Constants Prims Ratchet Identity Pqxdh Keys Sqleet SessionState Store ChatSession Network.
From S2P Require Import Node.

Section Props.
Context {PeerId Part ReqId Channel : Type} `{Countable ReqId}.
Context `{PE : Proto NetworkEnvelope}.

Abbreviation Addr := (@Multiaddr PeerId Part).
Abbreviation Task := (@Task PeerId Part ReqId Channel _ _).
Abbreviation SwarmCall := (@SwarmCall PeerId Part ReqId Channel).

(** ** What the logs say *)

Definition acks (calls : list SwarmCall) : list NetworkResponse :=
  omap (fun c => match c with SendResponse _ r => Some r | _ => None end) calls.
Definition delivered (events : list (NodeEvent PeerId Addr)) : list (PeerId * bytes) :=
  omap (fun e => match e with DirectDelivered to c _ => Some (to, c) | _ => None end) events.
Definition failures (events : list (NodeEvent PeerId Addr)) : list PeerId :=
  omap (fun e => match e with DirectFailed to _ => Some to | _ => None end) events.
Definition received (events : list (NodeEvent PeerId Addr)) : list bytes :=
  omap (fun e => match e with DirectMessage _ env => Some (env_conversation_id env) | _ => None end) events.

(** What was sent under a request id. *)
Definition sent_as (calls : list SwarmCall) (id : ReqId) : option (PeerId * bytes) :=
  head (omap (fun c => match c with
                       | SendRequest i peer {| req_envelope := Some e |} =>
                           if decide (i = id) then Some (peer, env_conversation_id e) else None
                       | _ => None
                       end) calls).

(** The requests sent, split: [ds] were reported delivered, [fs] reported
    failed, the answers to [ls] were lost, the others are pending. *)
Record accounts (t : Task) (ds fs ls : list ReqId) : Prop := {
  acc_ids : NoDup (request_ids (tk_calls t));
  acc_split : request_ids (tk_calls t) ≡ₚ ds ++ fs ++ ls ++ (map_to_list (tk_pending t)).*1;
  acc_pending id x : tk_pending t !! id = Some x -> sent_as (tk_calls t) id = Some x;
  acc_delivered : map Some (delivered (tk_events t)) = map (sent_as (tk_calls t)) ds;
  acc_failed : map Some (failures (tk_events t)) = map (fun id => fst <$> sent_as (tk_calls t) id) fs;
  acc_lost : tk_open t = true -> ls = []
}.

Definition accounted (t : Task) : Prop := exists ds fs ls, accounts t ds fs ls.

(** ** Calls and events that are not about direct messages *)

Lemma sent_as_app calls c id x : sent_as calls id = Some x -> sent_as (calls ++ [c]) id = Some x.
Proof. unfold sent_as. rewrite omap_app. by destruct (omap _ calls). Qed.

Lemma map_sent_app {T} (f : option (PeerId * bytes) -> option T) calls c ids l :
  f None = None -> map Some l = map (fun i => f (sent_as calls i)) ids -> map Some l = map (fun i => f (sent_as (calls ++ [c]) i)) ids.
Proof.
  intros Hf. revert l. induction ids as [|i ids IH]; intros [|x l] Hl; cbn in *; try done. injection Hl as Hx Hl.
  destruct (sent_as calls i) as [y|] eqn:Hy; [|by rewrite Hf in Hx]. rewrite (sent_as_app _ c _ _ Hy). f_equal; [exact Hx|by apply IH].
Qed.

Lemma accounts_call c t ds fs ls : request_ids [c] = [] -> accounts t ds fs ls -> accounts (call c t) ds fs ls.
Proof.
  intros Hi [H1 H2 H3 H4 H5 H6]. unfold request_ids in *. split; cbn [call tk_open tk_pending tk_calls tk_events]; unfold request_ids.
  - by rewrite omap_app, Hi, app_nil_r.
  - by rewrite omap_app, Hi, app_nil_r.
  - intros id x Hx. by apply sent_as_app, H3.
  - by apply (map_sent_app (fun o => o)).
  - by apply (map_sent_app (fmap fst)).
  - done.
Qed.

Lemma emit_open e (t : Task) :
  tk_open t = true ->
  emit e t = {| tk_pending := tk_pending t; tk_calls := tk_calls t; tk_events := tk_events t ++ [e]; tk_open := true |}.
Proof. unfold emit. by intros ->. Qed.

Lemma accounts_emit e t ds fs ls : delivered [e] = [] -> failures [e] = [] -> accounts t ds fs ls -> accounts (emit e t) ds fs ls.
Proof.
  intros Hd Hf [H1 H2 H3 H4 H5 H6]. unfold emit. destruct (tk_open t) eqn:Ho; [|by split; rewrite ?Ho].
  unfold delivered, failures in *.
  split; cbn [tk_open tk_pending tk_calls tk_events]; unfold delivered, failures; by rewrite ?omap_app, ?Hd, ?Hf, ?app_nil_r.
Qed.

Lemma accounted_call c t : request_ids [c] = [] -> accounted t -> accounted (call c t).
Proof. intros Hc (ds & fs & ls & Ht). exists ds, fs, ls. by apply accounts_call. Qed.

Lemma accounted_emit e t : delivered [e] = [] -> failures [e] = [] -> accounted t -> accounted (emit e t).
Proof. intros Hd Hf (ds & fs & ls & Ht). exists ds, fs, ls. by apply accounts_emit. Qed.

Lemma fold_keeps {T} (P : Task -> Prop) (f : Task -> T -> Task) l t :
  (forall t x, P t -> P (f t x)) -> P t -> P (fold_left f l t).
Proof. intros Hf. revert t. induction l as [|x l IH]; cbn; auto. Qed.

(** ** Direct messages *)

Lemma accounted_send id peer env t :
  id ∉ request_ids (tk_calls t) -> accounted t -> accounted (handle_control id (SendDirect peer env) t).1.
Proof.
  intros Hid (ds & fs & ls & [H1 H2 H3 H4 H5 H6]). exists ds, fs, ls.
  assert (tk_pending t !! id = None) as Hn.
  { apply eq_None_not_Some. intros [x Hx]. apply Hid. rewrite H2, !elem_of_app, list_elem_of_fmap. right. right. right.
    exists (id, x). split; [done|]. by apply elem_of_map_to_list. }
  unfold request_ids in *.
  split; cbn [handle_control fst set_pending call tk_open tk_pending tk_calls tk_events]; unfold request_ids; rewrite ?omap_app; cbn [omap list_omap].
  - apply NoDup_app. split_and!; [done| |apply NoDup_singleton]. intros x Hx ->%list_elem_of_singleton. done.
  - rewrite map_to_list_insert by done. cbn. rewrite H2. rewrite <- Permutation_cons_append.
    rewrite !(Permutation_middle _ _ id). reflexivity.
  - intros j x Hx. destruct (decide (j = id)) as [->|Hne].
    + rewrite lookup_insert_eq in Hx. injection Hx as <-. unfold sent_as. rewrite omap_app. cbn. rewrite decide_True by done.
      assert (omap (fun c => match c with SendRequest i p {| req_envelope := Some e |} => if decide (i = id) then Some (p, env_conversation_id e) else None | _ => None end) (tk_calls t) = []) as ->; [|done].
      clear -Hid. induction (tk_calls t) as [|c l IH]; [done|]. cbn in Hid |- *. destruct c as [| |i p [[e|]]| | | | | | |]; cbn in Hid; try by apply IH.
      * apply not_elem_of_cons in Hid as [Hne Hid]. rewrite decide_False by congruence. by apply IH.
      * apply not_elem_of_cons in Hid as [Hne Hid]. by apply IH.
    + rewrite lookup_insert_ne in Hx by done. by apply sent_as_app, H3.
  - by apply (map_sent_app (fun o => o)).
  - by apply (map_sent_app (fmap fst)).
  - done.
Qed.

Lemma pending_delete id x (t : Task) :
  tk_pending t !! id = Some x -> (map_to_list (tk_pending t)).*1 ≡ₚ id :: (map_to_list (delete id (tk_pending t))).*1.
Proof. intros Hid. by rewrite <- (map_to_list_delete _ _ _ Hid). Qed.

(** An answer to a request whose report [e] is lost, or is of one of the two
    kinds. *)
Lemma accounted_answer id x e t :
  tk_pending t !! id = Some x ->
  (delivered [e] = [x] /\ failures [e] = []) \/ (delivered [e] = [] /\ failures [e] = [x.1]) ->
  accounted t -> accounted (emit e (set_pending (delete id (tk_pending t)) t)).
Proof.
  intros Hid He (ds & fs & ls & [H1 H2 H3 H4 H5 H6]). pose proof (pending_delete _ _ _ Hid) as Hp. pose proof (H3 _ _ Hid) as Hs.
  assert (forall j y, delete id (tk_pending t) !! j = Some y -> sent_as (tk_calls t) j = Some y) as H3'.
  { intros j y [_ Hj]%lookup_delete_Some. by apply H3. }
  unfold emit, set_pending, delivered, failures in *. cbn [tk_open tk_pending tk_calls tk_events] in *. destruct (tk_open t) eqn:Ho.
  - rewrite (H6 eq_refl) in *. destruct He as [[Hd Hf]|[Hd Hf]]; [exists (ds ++ [id]), fs, []|exists ds, (fs ++ [id]), []];
      (split; cbn [tk_open tk_pending tk_calls tk_events]; unfold delivered, failures;
       [done | rewrite H2, Hp; solve_Permutation | done | rewrite omap_app, Hd, ?app_nil_r | rewrite omap_app, Hf, ?app_nil_r | done]).
    + by rewrite !map_app, H4; cbn; rewrite Hs.
    + done.
    + done.
    + by rewrite !map_app, H5; cbn; rewrite Hs.
  - exists ds, fs, (ls ++ [id]). split; cbn [tk_open tk_pending tk_calls tk_events]; try done. rewrite H2, Hp. solve_Permutation.
Qed.

Lemma accounted_control id c t : id ∉ request_ids (tk_calls t) -> accounted t -> accounted (handle_control id c t).1.
Proof. intros Hid Ht. destruct c; try (by apply accounted_call); [by apply accounted_send | done]. Qed.

Lemma accounted_event config e t : fails_once t e -> accounted t -> accounted (handle_swarm_event config e t).
Proof.
  intros Hok Ht. destruct e; cbn [handle_swarm_event]; try by apply accounted_emit.
  - destruct (mdns_enabled config); [|done]. apply fold_keeps; [|done]. intros t0 [p a] Ht0.
    destruct (auto_dial config); [apply accounted_call; try done|]; apply accounted_emit; try done; by apply accounted_call.
  - destruct (mdns_enabled config); [|done]. apply fold_keeps; [|done]. intros t0 x Ht0. by apply accounted_call.
  - destruct (decode data); [done|]. by apply accounted_emit.
  - destruct request as [[env|]]; [|done]. by apply accounted_emit, accounted_call.
  - destruct (tk_pending t !! request_id) as [[to c]|] eqn:Hid; [|done]. eapply accounted_answer; [done|by left|done].
  - destruct Hok as [c Hid]. eapply accounted_answer; [done|by right|done].
  - done.
Qed.

Lemma accounted_step config t t' : task_step fails_once config t t' -> accounted t -> accounted t'.
Proof.
  intros Hstep Ht. destruct Hstep as [id c t t' Hid Hc|e t Hok|t].
  - replace t' with (handle_control id c t).1 by by rewrite Hc. by apply accounted_control.
  - by apply accounted_event.
  - destruct Ht as (ds & fs & ls & [H1 H2 H3 H4 H5 H6]). exists ds, fs, ls. by split.
Qed.

Lemma start_keeps (P : Task -> Prop) any display config :
  (forall t c, request_ids [c] = [] -> P t -> P (call c t)) ->
  P {| tk_pending := ∅; tk_calls := []; tk_events := []; tk_open := true |} -> P (task_start any display config).
Proof.
  intros Hc H0. unfold task_start, run_loop_start. apply fold_keeps.
  { intros t a Ht. destruct (parse_bootstrap_peer display a) as [[[p|] b]| |]; [| |done..]; cbn; by repeat apply Hc. }
  apply fold_keeps; [intros; by apply Hc|]. apply fold_keeps; [intros; by apply Hc|done].
Qed.

Lemma accounted_reachable any display config t :
  rtc (task_step fails_once config) (task_start any display config) t -> accounted t.
Proof.
  intros Hr. assert (accounted (task_start any display config)) as H0.
  { apply start_keeps; [intros; by apply accounted_call|]. exists [], [], [].
    split; cbn; [constructor|done| |done..]. intros id x Hx. by rewrite lookup_empty in Hx. }
  induction Hr; eauto using accounted_step.
Qed.

(** C19. Every direct message handed to the task is accounted for, in every
    state the loop reaches, the event receiver dropped or not.  The ids of the
    requests sent are distinct and split into those reported delivered, those
    reported failed, those whose report was lost and those still pending: the
    delivery reports are, one for one and in order, the peers and
    conversations of the requests of the first kind, the failure reports the
    peers of those of the second kind, and a pending entry is what was sent.
    A report is lost only once the application has dropped the receiver.
    (libp2p reports a failure for a request that is not answered yet, with its
    peer.) *)
Theorem direct_messages_accounted any display config (t : Task) :
  rtc (task_step fails_once config) (task_start any display config) t ->
  exists ds fs ls,
    NoDup (request_ids (tk_calls t)) /\
    request_ids (tk_calls t) ≡ₚ ds ++ fs ++ ls ++ (map_to_list (tk_pending t)).*1 /\
    map Some (delivered (tk_events t)) = map (sent_as (tk_calls t)) ds /\
    map Some (failures (tk_events t)) = map (fun id => fst <$> sent_as (tk_calls t) id) fs /\
    (forall id x, tk_pending t !! id = Some x -> sent_as (tk_calls t) id = Some x) /\
    (tk_open t = true -> ls = []).
Proof.
  intros Hr. destruct (accounted_reachable any display config t Hr) as (ds & fs & ls & [H1 H2 H3 H4 H5 H6]). by exists ds, fs, ls.
Qed.

(** The responses sent, for the messages passed on and for those that nobody
    will see. *)
Definition acknowledged (t : Task) : Prop :=
  exists lost, acks (tk_calls t) = map (fun c => {| res_status := Status_Ok; res_ack_id := c |}) (received (tk_events t) ++ lost) /\
    (tk_open t = true -> lost = []).

Lemma acknowledged_call c t : acks [c] = [] -> acknowledged t -> acknowledged (call c t).
Proof. intros Hc (lost & H1 & H2). exists lost. cbn. unfold acks in *. by rewrite omap_app, Hc, app_nil_r. Qed.

Lemma acknowledged_emit e t : received [e] = [] -> acknowledged t -> acknowledged (emit e t).
Proof.
  intros He (lost & H1 & H2). exists lost. unfold emit. destruct (tk_open t) eqn:Ho; [|by rewrite Ho].
  cbn. unfold received in *. by rewrite omap_app, He, app_nil_r.
Qed.

Lemma acknowledged_request peer env channel t :
  acknowledged t -> acknowledged (handle_request peer {| req_envelope := Some env |} channel t).
Proof.
  intros (lost & H1 & H2). cbn [handle_request req_envelope]. unfold acknowledged, emit, acks, received in *. cbn [call tk_open tk_calls tk_events].
  destruct (tk_open t) eqn:Ho; cbn [tk_open tk_calls tk_events].
  - exists []. split; [|done]. rewrite (H2 eq_refl), app_nil_r in *. rewrite !omap_app, H1, map_app. done.
  - exists (lost ++ [env_conversation_id env]). cbn [call tk_calls tk_events tk_open]. rewrite Ho. split; [|done].
    rewrite omap_app, H1, app_assoc, (map_app _ (_ ++ _)). done.
Qed.

Lemma acknowledged_event config e t : acknowledged t -> acknowledged (handle_swarm_event config e t).
Proof.
  intros Ht. destruct e; cbn [handle_swarm_event]; try by apply acknowledged_emit.
  - destruct (mdns_enabled config); [|done]. apply fold_keeps; [|done]. intros t0 [p a] Ht0.
    destruct (auto_dial config); [apply acknowledged_call; try done|]; apply acknowledged_emit; try done; by apply acknowledged_call.
  - destruct (mdns_enabled config); [|done]. apply fold_keeps; [|done]. intros t0 x Ht0. by apply acknowledged_call.
  - destruct (decode data); [done|]. by apply acknowledged_emit.
  - destruct request as [[env|]]; [by apply acknowledged_request|done].
  - destruct (tk_pending t !! request_id) as [[to c]|]; [|done]. by apply acknowledged_emit.
  - done.
Qed.

(** C21. Direct messages are acknowledged as they come in, before the application
    sees them: the responses the task has sent are one OK for each message it
    passed to the application, with the conversation of that message, in that
    order, and then one for each message that arrived after the receiver was
    dropped and that nobody will see. *)
Theorem direct_messages_acknowledged allowed any display config (t : Task) :
  rtc (task_step allowed config) (task_start any display config) t ->
  exists lost, acks (tk_calls t) = map (fun c => {| res_status := Status_Ok; res_ack_id := c |}) (received (tk_events t) ++ lost) /\
    (tk_open t = true -> lost = []).
Proof.
  intros Hr. assert (acknowledged (task_start any display config)) as H0.
  { unfold task_start, run_loop_start. apply fold_keeps.
    { intros t0 a Ht. destruct (parse_bootstrap_peer display a) as [[[p|] b]| |]; [| |done..]; cbn; by repeat apply acknowledged_call. }
    apply fold_keeps; [intros; by apply acknowledged_call|]. apply fold_keeps; [intros; by apply acknowledged_call|by exists []]. }
  change (acknowledged t). induction Hr as [|t1 t2 t3 Hs Hr IH]; [done|]. apply IH. clear IH. destruct Hs as [id c t t' Hid Hc|e t Hok|t].
  - replace t' with (handle_control id c t).1 by by rewrite Hc. destruct c; cbn; first [by apply acknowledged_call | done].
  - by apply acknowledged_event.
  - destruct H0 as (lost & H1 & H2). by exists lost.
Qed.

(** ** The swarm answers

    An answer to an outbound request: its id, the peer it went to, and the
    response or the error. *)

Definition Answer : Type := ReqId * PeerId * (string + NetworkResponse).

Definition answer (a : Answer) : @SwarmEvent PeerId Part ReqId Channel :=
  match a.2 with
  | inr response => ResponseReceived a.1.2 response a.1.1
  | inl error => OutboundFailure a.1.2 a.1.1 error
  end.

Definition report (pending : gmap ReqId (PeerId * bytes)) (a : Answer) : NodeEvent PeerId Addr :=
  match a.2 with
  | inr response => DirectDelivered a.1.2 (default [] (snd <$> pending !! a.1.1)) response
  | inl error => DirectFailed a.1.2 error
  end.

Definition answer_all (config : NodeConfig Addr) (answers : list Answer) (t : Task) : Task :=
  fold_left (fun t a => handle_swarm_event config (answer a) t) answers t.

(** The reports that reach the application. *)
Definition reported (t : Task) (answers : list Answer) : list (NodeEvent PeerId Addr) :=
  if tk_open t then map (report (tk_pending t)) answers else [].

Lemma answer_step config a (t : Task) c :
  tk_pending t !! a.1.1 = Some (a.1.2, c) ->
  handle_swarm_event config (answer a) t =
    {| tk_pending := delete a.1.1 (tk_pending t); tk_calls := tk_calls t; tk_events := tk_events t ++ reported t [a]; tk_open := tk_open t |}.
Proof.
  destruct a as [[id peer] [e|r]]; cbn; intros Hp; [|rewrite Hp]; unfold emit, reported, report; cbn; rewrite ?Hp;
    destruct (tk_open t) eqn:Ho; cbn; rewrite ?app_nil_r; try done; unfold set_pending; by rewrite Ho.
Qed.

Lemma answer_all_run config answers (t : Task) :
  NoDup (answers.*1.*1) -> (forall a, a ∈ answers -> exists c, tk_pending t !! a.1.1 = Some (a.1.2, c)) ->
  answer_all config answers t =
    {| tk_pending := foldr (fun a m => delete a.1.1 m) (tk_pending t) (reverse answers); tk_calls := tk_calls t;
       tk_events := tk_events t ++ reported t answers; tk_open := tk_open t |}.
Proof.
  revert t. induction answers as [|a answers IH]; intros t Hnd Hp.
  { destruct t as [p k ev []]; cbn in *; by rewrite app_nil_r. }
  cbn [fmap list_fmap] in Hnd. apply NoDup_cons in Hnd as [Ha Hnd].
  assert (forall b, b ∈ answers -> a.1.1 <> b.1.1) as Hne.
  { intros b Hb Heq. apply Ha. rewrite Heq. apply list_elem_of_fmap. exists b.1. split; [done|]. apply list_elem_of_fmap. by exists b. }
  destruct (Hp a) as [c Hc]; [apply list_elem_of_here|]. cbn [answer_all fold_left]. rewrite (answer_step config a t c Hc).
  unfold answer_all in IH. rewrite IH; [|done|].
  - cbn [tk_pending tk_calls tk_events tk_open]. rewrite reverse_cons, foldr_app. cbn [foldr]. f_equal. rewrite <- app_assoc. f_equal.
    unfold reported. cbn [tk_open tk_pending]. destruct (tk_open t); [|done]. cbn. f_equal.
    apply map_ext_in. intros b Hb%list_elem_of_In. unfold report. destruct b.2; [done|]. rewrite lookup_delete_ne; [done|]. by apply Hne.
  - intros b Hb. destruct (Hp b) as [c' Hc']; [by apply list_elem_of_further|]. exists c'. cbn. rewrite lookup_delete_ne; [done|]. by apply Hne.
Qed.

Lemma deleted_all (answers : list Answer) (m : gmap ReqId (PeerId * bytes)) :
  (forall id, is_Some (m !! id) -> id ∈ answers.*1.*1) -> foldr (fun a m => delete a.1.1 m) m (reverse answers) = ∅.
Proof.
  intros Hm. apply map_empty. intros id. destruct (decide (id ∈ answers.*1.*1)) as [Hin|Hout].
  - apply list_elem_of_fmap in Hin as (p & -> & Hin). apply list_elem_of_fmap in Hin as (a & -> & Hin).
    assert (a ∈ reverse answers) as Hrev by by apply elem_of_reverse.
    clear Hm Hin. revert Hrev. generalize (reverse answers). intros l Hin. induction l as [|b l IH]; [by apply not_elem_of_nil in Hin|]. cbn [foldr].
    apply elem_of_cons in Hin as [->|Hin]; [apply lookup_delete_eq|]. destruct (decide (b.1.1 = a.1.1)) as [->|]; [apply lookup_delete_eq|].
    rewrite lookup_delete_ne by done. by apply IH.
  - assert (m !! id = None) as Hn by (apply eq_None_not_Some; intros ?%Hm; done). clear Hm Hout.
    induction (reverse answers) as [|b l IH]; [done|]. cbn [foldr]. destruct (decide (b.1.1 = id)) as [->|]; [apply lookup_delete_eq|].
    by rewrite lookup_delete_ne.
Qed.

Lemma answer_all_steps config answers (t : Task) :
  NoDup (answers.*1.*1) -> (forall a, a ∈ answers -> exists c, tk_pending t !! a.1.1 = Some (a.1.2, c)) ->
  rtc (task_step fails_once config) t (answer_all config answers t).
Proof.
  revert t. induction answers as [|a answers IH]; intros t Hnd Hp; [done|]. cbn [fmap list_fmap] in Hnd. apply NoDup_cons in Hnd as [Ha Hnd].
  destruct (Hp a) as [c Hc]; [apply list_elem_of_here|]. cbn [answer_all fold_left].
  assert (fails_once t (answer a)) as Hok by (destruct a as [[id peer] [e|r]]; cbn in *; eauto).
  eapply rtc_l; [by apply step_event|]. rewrite (answer_step config a t c Hc). apply IH; [done|].
  intros b Hb. destruct (Hp b) as [c' Hc']; [by apply list_elem_of_further|]. exists c'. cbn. rewrite lookup_delete_ne; [done|].
  intros Heq. apply Ha. rewrite Heq. apply list_elem_of_fmap. exists b.1. split; [done|]. apply list_elem_of_fmap. by exists b.
Qed.

(** C20. Nothing stays pending: in any state the loop reaches, once libp2p has
    answered the outstanding requests, each with a response or a failure and
    in any order, the table of pending messages is empty.  While the
    application holds the event receiver it has received exactly one report per
    answer, in that order, with the peer and the conversation of the message
    that was sent, and every request ever sent is one of those reported
    delivered or one of those reported failed; if it has dropped the receiver,
    the table is emptied all the same and the reports are lost. *)
Theorem pending_requests_drain any display config (t : Task) answers :
  rtc (task_step fails_once config) (task_start any display config) t ->
  NoDup (answers.*1.*1) -> (forall id, is_Some (tk_pending t !! id) -> id ∈ answers.*1.*1) ->
  (forall a, a ∈ answers -> exists c, tk_pending t !! a.1.1 = Some (a.1.2, c)) ->
  let t' := answer_all config answers t in
  rtc (task_step fails_once config) t t' /\ tk_pending t' = ∅ /\ tk_open t' = tk_open t /\
  (tk_open t = false -> tk_events t' = tk_events t) /\
  (tk_open t = true -> tk_events t' = tk_events t ++ map (report (tk_pending t)) answers /\
    exists ds fs, request_ids (tk_calls t') ≡ₚ ds ++ fs /\
      map Some (delivered (tk_events t')) = map (sent_as (tk_calls t')) ds /\
      map Some (failures (tk_events t')) = map (fun id => fst <$> sent_as (tk_calls t') id) fs).
Proof.
  intros Hr Hnd Hall Hp t'. assert (rtc (task_step fails_once config) t t') as Hsteps by by apply answer_all_steps.
  assert (accounted t') as (ds & fs & ls & [_ Hsplit _ Hd Hf Hl]) by (eapply accounted_reachable; by etrans).
  assert (t' = _) as Ht' by apply (answer_all_run config answers t Hnd Hp). rewrite deleted_all in Ht' by done.
  split; [done|]. split; [by rewrite Ht'|]. split; [by rewrite Ht'|]. split.
  - intros Ho. rewrite Ht'. unfold reported. rewrite Ho. cbn. apply app_nil_r.
  - intros Ho. split; [rewrite Ht'; unfold reported; by rewrite Ho|]. exists ds, fs. split; [|done].
    rewrite (Hl ltac:(by rewrite Ht')) in Hsplit. rewrite Hsplit, Ht'. cbn [tk_pending]. rewrite map_to_list_empty. cbn. by rewrite app_nil_r.
Qed.
End Props.

(** ** Evaluation: one message sent and answered, one sent and pending, one
    received. *)

#[local] Instance sample_proto : Proto NetworkEnvelope := {| encode_to_vec := env_nonce; decode _ := inl "invalid" |}.

Definition sample_envelope (conversation : bytes) : NetworkEnvelope :=
  {| env_kind := KIND_DIRECT; env_conversation_id := conversation; env_sender_device_id := bs "dev"; env_timestamp := 1;
     env_encrypted_payload := bs "payload"; env_mac := []; env_protocol_version := 1; env_nonce := []; env_signature := [] |}.

Abbreviation NatTask := (@Node.Task nat nat nat nat _ _).

Definition sample_start : NatTask :=
  task_start [Other 0%nat] (fun _ => "addr") NodeConfig_default.
Definition sample_ok : NetworkResponse := {| res_status := Status_Ok; res_ack_id := bs "a" |}.
Definition sample_task : NatTask :=
  handle_swarm_event NodeConfig_default (RequestReceived 7%nat {| req_envelope := Some (sample_envelope (bs "c")) |} 0%nat)
    (handle_swarm_event NodeConfig_default (ResponseReceived 5%nat sample_ok 1%nat)
      (handle_control 2%nat (SendDirect 6%nat (sample_envelope (bs "b")))
        (handle_control 1%nat (SendDirect 5%nat (sample_envelope (bs "a"))) sample_start).1).1).

Lemma sample_reachable : rtc (task_step fails_once NodeConfig_default) sample_start sample_task.
Proof.
  eapply rtc_l; [apply (step_control _ _ 1%nat (SendDirect 5%nat (sample_envelope (bs "a")))); [by_decide | reflexivity]|].
  eapply rtc_l; [apply (step_control _ _ 2%nat (SendDirect 6%nat (sample_envelope (bs "b")))); [by_decide | reflexivity]|].
  eapply rtc_l; [apply (step_event _ _ (ResponseReceived 5%nat sample_ok 1%nat)); exact I|].
  eapply rtc_l; [apply (step_event _ _ (RequestReceived 7%nat {| req_envelope := Some (sample_envelope (bs "c")) |} 0%nat)); exact I|].
  apply rtc_refl.
Qed.

(** The same, after the application has dropped its receiver and the second
    request has failed: its report is lost. *)
Definition dropped_task : NatTask := handle_swarm_event NodeConfig_default (OutboundFailure 6%nat 2%nat "timeout") (drop_receiver sample_task).

Lemma dropped_reachable : rtc (task_step fails_once NodeConfig_default) sample_start dropped_task.
Proof.
  eapply rtc_r; [eapply rtc_r; [exact sample_reachable|apply step_drop_receiver]|].
  apply (step_event _ _ (OutboundFailure 6%nat 2%nat "timeout")). exists (bs "b"). reflexivity.
Qed.

Lemma direct_messages_accounted_witness :
  (exists ds fs, request_ids (tk_calls sample_task) ≡ₚ ds ++ fs ++ [2%nat] /\ delivered (tk_events sample_task) = [(5%nat, bs "a")] /\
    [Some (5%nat, bs "a")] = map (sent_as (tk_calls sample_task)) ds) /\
  (exists ds fs ls, request_ids (tk_calls dropped_task) ≡ₚ ds ++ fs ++ ls /\ length (request_ids (tk_calls dropped_task)) = 2%nat /\
    length ds = 1%nat /\ length fs = 0%nat).
Proof.
  split.
  - destruct (direct_messages_accounted [Other 0%nat] (fun _ => "addr") NodeConfig_default sample_task sample_reachable)
      as (ds & fs & ls & _ & H1 & H2 & _ & _ & H3). exists ds, fs. rewrite (H3 eq_refl) in H1. split; [exact H1|]. split; [reflexivity | exact H2].
  - destruct (direct_messages_accounted [Other 0%nat] (fun _ => "addr") NodeConfig_default dropped_task dropped_reachable)
      as (ds & fs & ls & _ & H1 & H2 & H3 & _). exists ds, fs, ls. change (map_to_list (tk_pending dropped_task)).*1 with (@nil nat) in H1.
    rewrite app_nil_r in H1. split; [exact H1|]. split; [reflexivity|].
    apply (f_equal length) in H2, H3. rewrite !length_map in H2, H3. split; [symmetry; exact H2 | symmetry; exact H3].
Defined.

Lemma direct_messages_acknowledged_witness :
  exists lost, acks (tk_calls sample_task) = map (fun c => {| res_status := 1; res_ack_id := c |}) ([bs "c"] ++ lost) /\ lost = [].
Proof.
  destruct (direct_messages_acknowledged fails_once [Other 0%nat] (fun _ => "addr") NodeConfig_default sample_task sample_reachable) as (lost & H1 & H2).
  exists lost. split; [exact H1 | exact (H2 eq_refl)].
Defined.

Lemma pending_requests_drain_witness :
  let t' := answer_all NodeConfig_default [(2%nat, 6%nat, inl "timeout")] sample_task in
  tk_pending t' = ∅ /\ tk_events t' = tk_events sample_task ++ [DirectFailed 6%nat "timeout"].
Proof.
  destruct (pending_requests_drain [Other 0%nat] (fun _ => "addr") NodeConfig_default sample_task [(2%nat, 6%nat, inl "timeout")] sample_reachable)
    as (_ & H1 & _ & _ & H2).
  - repeat constructor. apply not_elem_of_nil.
  - intros id Hid. change (tk_pending sample_task) with ({[2%nat := (6%nat, bs "b")]} : gmap nat (nat * bytes)) in Hid.
    apply lookup_singleton_is_Some in Hid as <-. apply list_elem_of_here.
  - intros a ->%list_elem_of_singleton. exists (bs "b"). reflexivity.
  - split; [exact H1 | exact (proj1 (H2 eq_refl))].
Defined.
