(* ===== verification/Channels.v ===== *)
(** The two channels between the application and the swarm task, as
    [P2pNode::start] of [presidium-network/src/node.rs] makes them: bounded,
    64 control messages in one direction and 256 events in the other.

    Node runs a handler of the task in one step and lets the channels grow;
    here a handler is the list of what it does, and each [send(..).await] is a
    step of its own that waits for room, as tokio documents of its bounded
    channels.  The application is any relation that says what it sends while it
    handles an event or another input; the demo is one.  It may drop the event
    receiver between two inputs; what is queued is then lost, and so is what
    the task emits later.  [stop] aborts the task: the steps are those before
    it. *)

From S2P Require Import Prelude Constants Prims Ratchet Identity Pqxdh Keys Sqleet SessionState Store ChatSession Network.
From S2P Require Import Node NodeProps.

Definition CONTROL_CAPACITY : nat := 64.
Definition EVENTS_CAPACITY : nat := 256.

Section Model.
Context {PeerId Part ReqId Channel : Type} `{Countable ReqId}.
Context `{PE : Proto NetworkEnvelope}.

Abbreviation Addr := (@Multiaddr PeerId Part).
Abbreviation Task := (@Task PeerId Part ReqId Channel _ _).
Abbreviation SwarmCall := (@SwarmCall PeerId Part ReqId Channel).
Abbreviation SwarmEvent := (@SwarmEvent PeerId Part ReqId Channel).
Abbreviation Event := (NodeEvent PeerId Addr).
Abbreviation Control := (Control PeerId Addr).

(** ** What a handler of the task does, in order *)

Inductive Action :=
| DoCall (c : SwarmCall)
| DoEmit (e : Event)
| DoForget (id : ReqId).

Definition act (t : Task) (a : Action) : Task :=
  match a with
  | DoCall c => call c t
  | DoEmit e => emit e t
  | DoForget id => set_pending (delete id (tk_pending t)) t
  end.

Definition event_actions (config : NodeConfig Addr) (event : SwarmEvent) (pending : gmap ReqId (PeerId * bytes)) : list Action :=
  match event with
  | NewListenAddr address => [DoEmit (EvListen address)]
  | ConnectionEstablished peer => [DoEmit (PeerConnected peer)]
  | ConnectionClosed peer => [DoEmit (PeerDisconnected peer)]
  | MdnsDiscovered found =>
      if mdns_enabled config then
        flat_map (fun p => [DoCall (KadAddAddress p.1 p.2); DoEmit (PeerDiscovered p.1 p.2)] ++
                           (if auto_dial config then [DoCall (SwarmDial p.2)] else [])) found
      else []
  | MdnsExpired gone => if mdns_enabled config then map (fun p => DoCall (KadRemoveAddress p.1 p.2)) gone else []
  | KadRoutingUpdated peer first _ => [DoEmit (PeerDiscovered peer first)]
  | GossipsubMessage source topic data =>
      match decode data with
      | inr envelope => [DoEmit (GossipMessage source topic envelope)]
      | inl _ => []
      end
  | RequestReceived peer request channel =>
      match req_envelope request with
      | Some envelope =>
          [DoCall (SendResponse channel {| res_status := Status_Ok; res_ack_id := env_conversation_id envelope |});
           DoEmit (DirectMessage peer envelope)]
      | None => []
      end
  | ResponseReceived _ response request_id =>
      match pending !! request_id with
      | Some (to, conversation_id) => [DoForget request_id; DoEmit (DirectDelivered to conversation_id response)]
      | None => []
      end
  | OutboundFailure peer request_id error => [DoForget request_id; DoEmit (DirectFailed peer error)]
  | Ignored => []
  end.

(** Without waiting, a handler is the function of Node. *)
Lemma event_actions_run config event (t : Task) :
  fold_left act (event_actions config event (tk_pending t)) t = handle_swarm_event config event t.
Proof.
  destruct event as [| | |found|gone| | |peer [[env|]] ch|peer resp id| |]; cbn [event_actions handle_swarm_event]; try reflexivity.
  - destruct (mdns_enabled config); [|done]. revert t. induction found as [|[p a] l IH]; intros t; [done|].
    cbn [flat_map fold_left]. rewrite fold_left_app. rewrite <- IH. by destruct (auto_dial config).
  - destruct (mdns_enabled config); [|done]. revert t. induction gone as [|[p a] l IH]; intros t; [done|]. apply IH.
  - by destruct (decode data).
  - by destruct (tk_pending t !! id) as [[to c]|].
Qed.

(** ** The system *)

Context {A : Type}.

(** [reacts a None a' cs]: an input other than an event.  [cs] are the control
    messages sent while handling it, in order. *)
Context (reacts : A -> option Event -> A -> list Control -> Prop).

(** [sy_todo]: what the task has still to do in its handler; [sy_sends]: what
    the application has still to send in its own.  [sy_control] and
    [sy_events] are the channels, [sy_taken] and [sy_seen] what was received
    from them, [sy_sent] what was put into the first. *)
Record System := {
  sy_task : Task;
  sy_todo : list Action;
  sy_app : A;
  sy_sends : list Control;
  sy_control : list Control;
  sy_events : list Event;
  sy_sent : list Control;
  sy_taken : list Control;
  sy_seen : list Event
}.

Inductive sys_step (config : NodeConfig Addr) : System -> System -> Prop :=
| sys_control id c t t' a sends control events sent taken seen :
    id ∉ request_ids (tk_calls t) -> handle_control id c t = (t', true) ->
    sys_step config (Build_System t [] a sends (c :: control) events sent taken seen)
      (Build_System t' [] a sends control events sent (taken ++ [c]) seen)
| sys_event e t a sends control events sent taken seen :
    sys_step config (Build_System t [] a sends control events sent taken seen)
      (Build_System t (event_actions config e (tk_pending t)) a sends control events sent taken seen)
| sys_act x t todo a sends control events sent taken seen :
    (forall e, x <> DoEmit e) ->
    sys_step config (Build_System t (x :: todo) a sends control events sent taken seen)
      (Build_System (act t x) todo a sends control events sent taken seen)
| sys_emit e t todo a sends control events sent taken seen :
    tk_open t = true -> (length events < EVENTS_CAPACITY)%nat ->
    sys_step config (Build_System t (DoEmit e :: todo) a sends control events sent taken seen)
      (Build_System (act t (DoEmit e)) todo a sends control (events ++ [e]) sent taken seen)
| sys_emit_lost e t todo a sends control events sent taken seen :
    tk_open t = false ->
    sys_step config (Build_System t (DoEmit e :: todo) a sends control events sent taken seen)
      (Build_System (act t (DoEmit e)) todo a sends control events sent taken seen)
| app_event e t todo a a' cs control events sent taken seen :
    reacts a (Some e) a' cs ->
    sys_step config (Build_System t todo a [] control (e :: events) sent taken seen)
      (Build_System t todo a' cs control events sent taken (seen ++ [e]))
| app_input t todo a a' cs control events sent taken seen :
    reacts a None a' cs ->
    sys_step config (Build_System t todo a [] control events sent taken seen)
      (Build_System t todo a' cs control events sent taken seen)
| app_drop_receiver t todo a control events sent taken seen :
    sys_step config (Build_System t todo a [] control events sent taken seen)
      (Build_System (drop_receiver t) todo a [] control [] sent taken seen)
| app_send c t todo a sends control events sent taken seen :
    (length control < CONTROL_CAPACITY)%nat ->
    sys_step config (Build_System t todo a (c :: sends) control events sent taken seen)
      (Build_System t todo a sends (control ++ [c]) events (sent ++ [c]) taken seen).

Definition sys_start (any : Addr) (display : Addr -> string) (config : NodeConfig Addr) (a : A) : System :=
  Build_System (task_start any display config) [] a [] [] [] [] [] [].

(** ** Waiting for room *)

Definition task_waits (s : System) : Prop :=
  exists e todo, sy_todo s = DoEmit e :: todo /\ tk_open (sy_task s) = true /\ (EVENTS_CAPACITY <= length (sy_events s))%nat.
Definition app_waits (s : System) : Prop := sy_sends s <> [] /\ (CONTROL_CAPACITY <= length (sy_control s))%nat.
Definition deadlocked (s : System) : Prop := task_waits s /\ app_waits s.
End Model.
