(* ===== verification/ChannelProps.v ===== *)
(** The bounded channels of the node: as long as the application holds the
    event receiver they change nothing but the timing; the only way to get stuck
    is that both sides wait for each other; and an application that answers
    events can be brought there. *)

From S2P Require Import Prelude Constants Prims Ratchet Identity Pqxdh Keys Sqleet SessionState Store ChatSession Network.
From S2P Require Import Node NodeProps Channels.

Section Props.
Context {PeerId Part ReqId Channel : Type} `{Countable ReqId}.
Context `{PE : Proto NetworkEnvelope}.
Context {A : Type}.

Abbreviation Addr := (@Multiaddr PeerId Part).
Abbreviation Task := (@Task PeerId Part ReqId Channel _ _).
Abbreviation Event := (NodeEvent PeerId Addr).
Abbreviation Control := (Control PeerId Addr).
Abbreviation System := (@System PeerId Part ReqId Channel _ _ A).
Abbreviation Action := (@Action PeerId Part ReqId Channel).

Context (reacts : A -> option Event -> A -> list Control -> Prop).
Context (any : Addr) (display : Addr -> string) (config : NodeConfig Addr).

(** ** Channels keep order *)

Lemma act_open t (x : Action) : tk_open (act t x) = tk_open t.
Proof. destruct x; cbn; [done|unfold emit; by destruct (tk_open t) eqn:Ho|done]. Qed.

Lemma control_open id c (t : Task) : tk_open (handle_control id c t).1 = tk_open t.
Proof. by destruct c. Qed.

Lemma control_events id c (t : Task) : tk_events (handle_control id c t).1 = tk_events t.
Proof. by destruct c. Qed.

(** What holds in every state of a run that began with the task [t0], until
    the receiver is dropped. *)
Record channels_ok (t0 : Task) (s : System) : Prop := {
  ch_events : tk_events (sy_task s) = sy_seen s ++ sy_events s;
  ch_task : rtc (task_step (fun _ _ => True) config) t0 (fold_left act (sy_todo s) (sy_task s))
}.

Lemma channels_step t0 (s s' : System) :
  sys_step reacts config s s' -> (tk_open (sy_task s) = true -> channels_ok t0 s) -> tk_open (sy_task s') = true -> channels_ok t0 s'.
Proof.
  intros Hstep Hs. destruct Hstep; cbn [sy_task sy_todo sy_events sy_seen] in *; intros Ho; try done.
  - assert (t' = (handle_control id c t).1) as -> by by rewrite H1. rewrite control_open in Ho. destruct (Hs Ho) as [He Ht].
    split; [cbn; by rewrite control_events|]. cbn. eapply rtc_r; [exact Ht|]. by eapply step_control.
  - destruct (Hs Ho) as [He Ht]. split; [done|]. cbn [sy_todo sy_task fold_left] in *. eapply rtc_r; [exact Ht|].
    rewrite event_actions_run. by apply step_event.
  - rewrite act_open in Ho. destruct (Hs Ho) as [He Ht]. split; [|done]. cbn in *. rewrite <- He. destruct x; [done|by destruct (H0 e)|done].
  - rewrite act_open in Ho. destruct (Hs Ho) as [He Ht]. split; [|done]. cbn in *. rewrite emit_open by done. cbn. by rewrite He, app_assoc.
  - rewrite act_open in Ho. congruence.
  - destruct (Hs Ho) as [He Ht]. split; [|done]. cbn in *. by rewrite He, <- app_assoc.
  - destruct (Hs Ho) as [He Ht]. by split.
  - destruct (Hs Ho) as [He Ht]. by split.
Qed.

(** Folds over calls. *)
Lemma fold_open {B} (f : Task -> B -> Task) l (t0 t : Task) :
  (forall t x, tk_open (f t x) = tk_open t /\ tk_events (f t x) = tk_events t) ->
  tk_open t = tk_open t0 /\ tk_events t = tk_events t0 -> tk_open (fold_left f l t) = tk_open t0 /\ tk_events (fold_left f l t) = tk_events t0.
Proof.
  intros Hf. revert t. induction l as [|x l IH]; intros t Ht; [done|]. cbn. apply IH. destruct (Hf t x) as [-> ->]. exact Ht.
Qed.

Lemma start_open : tk_open (task_start any display config : Task) = true /\ tk_events (task_start any display config : Task) = [].
Proof.
  unfold task_start, run_loop_start. apply (fold_open _ _ ({| tk_pending := ∅; tk_calls := []; tk_events := []; tk_open := true |} : Task)).
  { intros t x. destruct (parse_bootstrap_peer display x) as [[[p|] b]| |]; done. }
  apply fold_open; [done|]. by apply fold_open.
Qed.

(** In every state of the application and the task in which the receiver is
    not dropped, the application has seen and will see exactly what the task
    emitted, and the task, with its handler finished, is in a state the
    unbounded loop of Node reaches. *)
Theorem channels_refine a (s : System) :
  rtc (sys_step reacts config) (sys_start any display config a) s -> tk_open (sy_task s) = true ->
  tk_events (sy_task s) = sy_seen s ++ sy_events s /\
  rtc (task_step (fun _ _ => True) config) (task_start any display config) (fold_left act (sy_todo s) (sy_task s)).
Proof.
  intros Hr. enough (tk_open (sy_task s) = true -> channels_ok (task_start any display config) s) as H' by (intros Ho; by destruct (H' Ho)).
  set (s0 := sys_start any display config a : System) in Hr.
  assert (tk_open (sy_task s0) = true -> channels_ok (task_start any display config) s0) as Hok.
  { intros _. destruct start_open as [H1 H2]. by split. }
  induction Hr as [|s1 s2 s3 Hs Hr IH]; [done|]. apply IH. intros Ho. by eapply channels_step.
Qed.

(** ** Getting stuck *)

Lemma deadlocked_stuck (s : System) : deadlocked s -> forall s', ~ sys_step reacts config s s'.
Proof.
  intros [(e & todo & Ht & Ho & He) [Hs Hc]] s' Hstep. destruct Hstep; cbn in *; try done.
  - injection Ht as -> ->. by destruct (H0 e).
  - lia.
  - congruence.
  - lia.
Qed.

Lemma stuck_deadlocked (s : System) :
  (forall a e, exists a' cs, reacts a (Some e) a' cs) -> (forall s', ~ sys_step reacts config s s') -> deadlocked s.
Proof.
  intros Htotal Hstuck. destruct s as [t todo a sends control events sent taken seen].
  destruct todo as [|x todo]; [destruct (Hstuck _ (sys_event reacts config Ignored t a sends control events sent taken seen))|].
  destruct x as [c|e|id].
  - destruct (Hstuck _ (sys_act reacts config (DoCall c) t todo a sends control events sent taken seen ltac:(done))).
  - destruct (tk_open t) eqn:Ho; [|destruct (Hstuck _ (sys_emit_lost reacts config e t todo a sends control events sent taken seen Ho))].
    destruct (decide (length events < EVENTS_CAPACITY)%nat) as [Hlt|Hge].
    { destruct (Hstuck _ (sys_emit reacts config e t todo a sends control events sent taken seen Ho Hlt)). }
    split; [exists e, todo; split_and!; [done|done|cbn; lia]|]. destruct sends as [|c sends].
    + destruct events as [|e' events]; [cbn in Hge; unfold EVENTS_CAPACITY in Hge; lia|]. destruct (Htotal a e') as (a' & cs & Hr).
      destruct (Hstuck _ (app_event reacts config e' t (DoEmit e :: todo) a a' cs control events sent taken seen Hr)).
    + split; [done|]. cbn. destruct (decide (length control < CONTROL_CAPACITY)%nat) as [Hlt|?]; [|lia].
      destruct (Hstuck _ (app_send reacts config c t (DoEmit e :: todo) a sends control events sent taken seen Hlt)).
  - destruct (Hstuck _ (sys_act reacts config (DoForget id) t todo a sends control events sent taken seen ltac:(done))).
Qed.

(** ** A flood of events that are answered *)

Context (P : A -> Prop) (peer : PeerId) (env : NetworkEnvelope) (channel : Channel).
Context (answers : forall a, P a -> exists a' c, reacts a (Some (DirectMessage peer env)) a' [c] /\ P a').

Abbreviation request := (RequestReceived peer {| req_envelope := Some env |} channel).
Abbreviation message := (DirectMessage peer env).
Abbreviation steps := (rtc (sys_step reacts config)).

(** One more request, when there is room for its event. *)
Lemma receive_one (t : Task) a sends control events sent taken seen :
  tk_open t = true -> (length events < EVENTS_CAPACITY)%nat ->
  exists t' : Task, tk_open t' = true /\ steps (Build_System t [] a sends control events sent taken seen)
    (Build_System t' [] a sends control (events ++ [message]) sent taken seen).
Proof.
  intros Ho He. eexists. split; [|eapply rtc_l; [apply (sys_event reacts config request)|]; eapply rtc_l; [by apply sys_act|];
  eapply rtc_l; [by apply sys_emit|]; apply rtc_refl]. by rewrite !act_open.
Qed.

Lemma receive_many n (t : Task) a sends control events sent taken seen :
  tk_open t = true -> (length events + n <= EVENTS_CAPACITY)%nat ->
  exists t' : Task, tk_open t' = true /\ steps (Build_System t [] a sends control events sent taken seen)
    (Build_System t' [] a sends control (events ++ replicate n message) sent taken seen).
Proof.
  revert t events. induction n as [|n IH]; intros t events Ho Hn.
  - exists t. cbn. by rewrite app_nil_r.
  - destruct (receive_one t a sends control events sent taken seen) as (t1 & Ho1 & H1); [done|lia|].
    destruct (IH t1 (events ++ [message])) as (t2 & Ho2 & H2); [done|rewrite length_app; cbn; lia|]. exists t2. split; [done|]. etrans; [exact H1|].
    by rewrite <- app_assoc in H2.
Qed.

(** The application answers one event, and another arrives. *)
Lemma exchange_many n (t : Task) a control m sent taken seen :
  P a -> tk_open t = true -> (length control + n <= CONTROL_CAPACITY)%nat -> (m < EVENTS_CAPACITY)%nat ->
  exists t' a' control' sent', P a' /\ tk_open t' = true /\ length control' = (length control + n)%nat /\
    steps (Build_System t [] a [] control (replicate (Datatypes.S m) message) sent taken seen)
      (Build_System t' [] a' [] control' (replicate (Datatypes.S m) message) sent' taken (seen ++ replicate n message)).
Proof.
  revert t a control sent seen. induction n as [|n IH]; intros t a control sent seen Ha Ho Hc Hm.
  - exists t, a, control, sent. split_and!; [done|done|lia|]. cbn. by rewrite app_nil_r.
  - destruct (answers a Ha) as (a1 & c & Hr & Ha1).
    destruct (receive_one t a1 [] (control ++ [c]) (replicate m message) (sent ++ [c]) taken (seen ++ [message])) as (t1 & Ho1 & H1); [done|by rewrite length_replicate|].
    destruct (IH t1 a1 (control ++ [c]) (sent ++ [c]) (seen ++ [message]) Ha1 Ho1) as (t2 & a2 & control2 & sent2 & Ha2 & Ho2 & Hl & H2);
      [rewrite length_app; cbn; lia|done|].
    exists t2, a2, control2, sent2. split_and!; [done|done|rewrite Hl, length_app; cbn; lia|].
    eapply rtc_l; [cbn [replicate]; by apply app_event|]. eapply rtc_l; [apply app_send; lia|]. etrans; [exact H1|].
    rewrite <- replicate_cons_app. by rewrite <- app_assoc in H2.
Qed.

Lemma flood_deadlocks a : P a -> exists s : System, steps (sys_start any display config a) s /\ sy_seen s = replicate 65 message /\ deadlocked s.
Proof.
  intros Ha. destruct (receive_many 256 (task_start any display config) a [] [] [] [] [] []) as (t1 & Ho1 & H1); [apply start_open|cbn; unfold EVENTS_CAPACITY; lia|].
  destruct (exchange_many 64 t1 a [] 255 [] [] [] Ha Ho1) as (t2 & a2 & control & sent & Ha2 & Ho2 & Hl & H2);
    [cbn; unfold CONTROL_CAPACITY; lia|unfold EVENTS_CAPACITY; lia|].
  destruct (answers a2 Ha2) as (a3 & c & Hr & _).
  destruct (receive_one t2 a3 [c] control (replicate 255 message) sent [] (replicate 64 message ++ [message])) as (t3 & Ho3 & H3); [done|rewrite length_replicate; unfold EVENTS_CAPACITY; lia|].
  eexists. split; [|split].
  - etrans; [exact H1|]. etrans; [exact H2|]. eapply rtc_l; [by apply app_event|]. etrans; [exact H3|].
    eapply rtc_l; [apply (sys_event reacts config request)|]. eapply rtc_l; [by apply sys_act|]. apply rtc_refl.
  - reflexivity.
  - split; [eexists _, _; split; [reflexivity|split]|split; [done|]]; cbn -[replicate].
    + done.
    + rewrite length_app, length_replicate. unfold EVENTS_CAPACITY. cbn. lia.
    + rewrite Hl. unfold CONTROL_CAPACITY. cbn. lia.
Qed.
End Props.

(** ** Evaluation: an application that answers each direct message *)

#[local] Instance silent_proto : Proto NetworkEnvelope := {| encode_to_vec := env_nonce; decode _ := inl "invalid" |}.

Definition echo_reacts (n : nat) (event : option (NodeEvent nat (@Multiaddr nat nat))) (n' : nat) (cs : list (Control nat (@Multiaddr nat nat))) : Prop :=
  n' = S n /\
  cs = match event with Some (DirectMessage from env) => [SendDirect from env] | _ => [] end.

Abbreviation echo_step := (sys_step (ReqId := nat) (Channel := nat) echo_reacts NodeConfig_default).
Definition echo_start : @System nat nat nat nat _ _ nat := sys_start [Other 0%nat] (fun _ => "addr") NodeConfig_default 0%nat.

(** A message is received and answered, and the task takes the answer. *)
Lemma echo_run : exists s, rtc echo_step echo_start s /\ sy_seen s = [DirectMessage 7%nat (sample_envelope (bs "c"))] /\
  sy_taken s = [SendDirect 7%nat (sample_envelope (bs "c"))] /\ tk_open (sy_task s) = true.
Proof.
  eexists. split.
  - eapply rtc_l; [apply (sys_event _ _ (RequestReceived 7%nat {| req_envelope := Some (sample_envelope (bs "c")) |} 0%nat))|].
    eapply rtc_l; [by apply sys_act|]. eapply rtc_l; [apply sys_emit; [reflexivity|cbn; unfold EVENTS_CAPACITY; lia]|]. eapply rtc_l; [by apply app_event|].
    eapply rtc_l; [apply app_send; cbn; unfold CONTROL_CAPACITY; lia|]. eapply rtc_l; [apply (sys_control _ _ 1%nat); [by_decide|reflexivity]|]. apply rtc_refl.
  - split_and!; reflexivity.
Qed.

Lemma channels_refine_witness :
  exists s, rtc echo_step echo_start s /\ sy_seen s = [DirectMessage 7%nat (sample_envelope (bs "c"))] /\
    tk_events (sy_task s) = sy_seen s ++ sy_events s.
Proof.
  destruct echo_run as (s & Hs & Hseen & _ & Ho). exists s. split; [exact Hs|]. split; [exact Hseen|].
  exact (proj1 (channels_refine echo_reacts [Other 0%nat] (fun _ => "addr") NodeConfig_default 0%nat s Hs Ho)).
Defined.
