(* ===== verification/Handshake.v ===== *)
(** The handshake drivers of [presidium-demo/src/session.rs] and the prekey
    material of [presidium-demo/src/store.rs].  A driver that sends takes the
    node's handle by shared reference; it is part of the state, next to the
    driver. *)

From S2P Require Import Prelude Constants Prims Ratchet Identity Pqxdh Keys Sqleet SessionState Store ChatSession Network Node.

(** A network error as an [anyhow] error. *)
Definition show_network (e : NetworkError) : list string := [NetworkError_to_string e].

(** ** Prekey material *)

Record PrekeyMaterial := {
  pkm_key_id : Z;
  pkm_public_key : HybridKemPublicKey;
  pkm_private_classical : bytes;
  pkm_private_pq : bytes;
  pkm_signature : HybridSignature;
  pkm_timestamp : Z
}.

Record InitiatorHandshake {PeerId : Type} := {
  ih_identity : IdentityKeyPair;
  ih_device_id : string;
  ih_peer : PeerId;
  ih_peer_identity : option IdentityPublicKey;
  ih_pending : option PqxdhOutput
}.
Arguments InitiatorHandshake : clear implicits.

Record ResponderHandshake := {
  rh_identity : IdentityKeyPair;
  rh_prekey : PrekeyMaterial;
  rh_peer_identity : option IdentityPublicKey
}.

Section Handshake.
Context `{C : Crypto, B : Build, SS : Serde HybridSignature, SM : Serde PqxdhPrekeyMessage}.
Context {PeerId Addr : Type}.

Definition PrekeyMaterial_generate (now_secs : Z) (classical_rnd kem_rnd : bytes) (identity : IdentityKeyPair)
    : result AppError PrekeyMaterial :=
  '(public_key, private) ← map_err show_crypto (HybridKemPublicKey_generate classical_rnd kem_rnd);
  signature ← map_err show_crypto (sign_hybrid identity (kp_classical public_key));
  mret {| pkm_key_id := 1; pkm_public_key := public_key; pkm_private_classical := ks_classical private;
          pkm_private_pq := ks_pq private; pkm_signature := signature; pkm_timestamp := Z.max now_secs 0 |}.

Definition PrekeyMaterial_private_key (p : PrekeyMaterial) : result AppError HybridKemPrivateKey :=
  if decide (length (pkm_private_pq p) = ML_KEM_1024_PRIVATE_KEY_SIZE)
  then Ok {| ks_classical := pkm_private_classical p; ks_pq := pkm_private_pq p |}
  else Panic "stored pq seed has the canonical size".

Definition PrekeyMaterial_signed_prekey (p : PrekeyMaterial) : SignedPreKey :=
  {| spk_key_id := pkm_key_id p; spk_public_key := pkm_public_key p;
     spk_signature := pkm_signature p; spk_timestamp := pkm_timestamp p |}.

Definition PrekeyMaterial_to_bundle (p : PrekeyMaterial) (identity : IdentityKeyPair) : result AppError PreKeyBundle :=
  map_err show_crypto (PreKeyBundle_new identity (PrekeyMaterial_signed_prekey p) []).

(** ** Initiator *)

Definition InitiatorHandshake_new (identity : IdentityKeyPair) (device_id : string) (peer : PeerId)
    : InitiatorHandshake PeerId :=
  {| ih_identity := identity; ih_device_id := device_id; ih_peer := peer;
     ih_peer_identity := None; ih_pending := None |}.

Definition set_ih_peer_identity (p : option IdentityPublicKey) (h : InitiatorHandshake PeerId) : InitiatorHandshake PeerId :=
  {| ih_identity := ih_identity h; ih_device_id := ih_device_id h; ih_peer := ih_peer h;
     ih_peer_identity := p; ih_pending := ih_pending h |}.
Definition set_ih_pending (o : option PqxdhOutput) (h : InitiatorHandshake PeerId) : InitiatorHandshake PeerId :=
  {| ih_identity := ih_identity h; ih_device_id := ih_device_id h; ih_peer := ih_peer h;
     ih_peer_identity := ih_peer_identity h; ih_pending := o |}.

(** [node.send_direct(..).await.context(c)]. *)
Definition send_with_context (c : string) (peer : PeerId) (envelope : NetworkEnvelope) : M (P2pNode PeerId Addr) AppError unit :=
  with_err (fun e => c :: show_network e) (P2pNode_send_direct peer envelope).

Definition request_bundle (now : Z) : M (InitiatorHandshake PeerId * P2pNode PeerId Addr) AppError unit :=
  h ← gets fst;
  envelope ← lift (sync_envelope now (ih_identity h) (ih_device_id h) MARKER_BUNDLE_REQ []);
  on_second (send_with_context "send bundle request" (ih_peer h) envelope).

(** [send_prekey] up to the envelope it sends. *)
Definition prepare_prekey (now : Z) (classical_rnd kem_rnd r1 r2 r3 r4 r5 : bytes) (bundle : PreKeyBundle)
    : M (InitiatorHandshake PeerId) AppError NetworkEnvelope :=
  _ ← lift (context show_crypto "verify peer bundle" (PreKeyBundle_verify bundle));
  modify (set_ih_peer_identity (Some (identity_key bundle)));;
  h ← gets id;
  '(_, ephemeral) ← lift (map_err show_crypto (HybridKemPublicKey_generate classical_rnd kem_rnd));
  '(output, prekey_message) ← lift (context show_crypto "pqxdh initiator"
     (pqxdh_initiator r1 r2 r3 r4 r5 {| ini_identity := ih_identity h; ini_ephemeral := ephemeral;
                                        ini_peer_bundle := bundle |}));
  modify (set_ih_pending (Some output));;
  body ← lift (map_err show_serde (to_vec prekey_message));
  lift (sync_envelope now (ih_identity h) (ih_device_id h) MARKER_PREKEY body).

Definition send_prekey (now : Z) (classical_rnd kem_rnd r1 r2 r3 r4 r5 : bytes) (bundle : PreKeyBundle)
    : M (InitiatorHandshake PeerId * P2pNode PeerId Addr) AppError unit :=
  envelope ← on_first (prepare_prekey now classical_rnd kem_rnd r1 r2 r3 r4 r5 bundle);
  h ← gets fst;
  on_second (send_with_context "send prekey message" (ih_peer h) envelope).

Definition build_initiator_session (ratchet_rnd : bytes) (device_id : string) (output : PqxdhOutput)
    (peer : IdentityPublicKey) (peer_ratchet_public : bytes) : result AppError ChatSession :=
  keys ← context show_crypto "session keys" (SessionKeys_new true (out_shared_secret output) peer);
  r ← context show_crypto "initiator ratchet" (SessionKeys_to_ratchet keys ratchet_rnd (Some peer_ratchet_public));
  mret {| conversation_id := device_id; peer_identity := peer; is_initiator := true;
          ratchet := r; session_keys := keys |}.

(** [pending.take()] leaves [None] behind, also when a later step fails. *)
Definition establish (ratchet_rnd : bytes) (ratchet_public : bytes) : M (InitiatorHandshake PeerId) AppError ChatSession :=
  pending ← gets ih_pending;
  modify (set_ih_pending None);;
  output ← lift (ok_or pending ["no pqxdh output"]);
  h ← gets id;
  peer ← lift (ok_or (ih_peer_identity h) ["no peer identity"]);
  peer_public ← lift (try_into_array 32 ratchet_public ["ratchet public must be 32 bytes"; slice_error]);
  lift (build_initiator_session ratchet_rnd (ih_device_id h) output peer peer_public).

(** ** Responder *)

Definition ResponderHandshake_new (identity : IdentityKeyPair) (prekey : PrekeyMaterial) : ResponderHandshake :=
  {| rh_identity := identity; rh_prekey := prekey; rh_peer_identity := None |}.

Definition set_rh_peer_identity (p : option IdentityPublicKey) (h : ResponderHandshake) : ResponderHandshake :=
  {| rh_identity := rh_identity h; rh_prekey := rh_prekey h; rh_peer_identity := p |}.

Definition ResponderHandshake_bundle (h : ResponderHandshake) : result AppError PreKeyBundle :=
  PrekeyMaterial_to_bundle (rh_prekey h) (rh_identity h).

Definition on_prekey (ratchet_rnd : bytes) (body : bytes) (id : string)
    : M ResponderHandshake AppError (bytes * ChatSession) :=
  message ← lift (context show_serde "parse prekey message" (from_slice body));
  modify (set_rh_peer_identity (Some (pm_identity_public message)));;
  h ← gets (fun h => h);
  private ← lift (PrekeyMaterial_private_key (rh_prekey h));
  output ← lift (context show_crypto "pqxdh responder"
    (pqxdh_responder {| res_identity := rh_identity h; res_signed_prekey := private;
                        res_signed_prekey_id := pkm_key_id (rh_prekey h);
                        res_one_time_prekey := None; res_one_time_prekey_id := None |} message));
  let peer := pm_identity_public message in
  keys ← lift (context show_crypto "session keys" (SessionKeys_new false (out_shared_secret output) peer));
  r ← lift (context show_crypto "responder ratchet" (SessionKeys_to_ratchet keys ratchet_rnd None));
  mret (x25519_public ratchet_rnd,
        {| conversation_id := id; peer_identity := peer; is_initiator := false;
           ratchet := r; session_keys := keys |}).
End Handshake.
