(* ===== verification/ChatProps.v ===== *)
(** Chat sessions: what the handshake drivers establish, what the sessions
    deliver, what they do not, and persistence. *)

From S2P Require Import Prelude Constants Prims Concrete Ratchet RatchetFacts RatchetProps.
From S2P Require Import Identity IdentityProps Pqxdh PqxdhProps Keys KeysProps Sqleet SessionState Store StoreProps.
From S2P Require Import SessionFacts ChatSession Network Node Handshake.

Section Props.
Context `{C : Crypto, L : !CryptoLaws C, B : Build}.
Context `{SH : Serde RatchetMessageHeader, SHO : !SerdeOk RatchetMessageHeader}.
Context `{SS : Serde HybridSignature, SSO : !SerdeOk HybridSignature}.

(** ** Envelopes *)

Lemma raw_envelope_ok now i dev kind cid payload hdr :
  exists env, build_raw_envelope now i dev kind cid payload hdr = Ok env /\
    env_nonce env = hdr /\ env_encrypted_payload env = payload /\ env_kind env = kind /\
    verify_envelope (IdentityKeyPair_public i) env = Ok true.
Proof.
  unfold build_raw_envelope. destruct (sign_hybrid i (signed_bytes hdr payload)) as [sig| |] eqn:Hsig; [|done..].
  cbn [map_err mbind result_bind]. destruct (serde_total sig (sign_wf _ _ _ Hsig)) as [sj Hsj]. rewrite Hsj.
  cbn [map_err mbind result_bind]. eexists. split_and!; [done..|].
  unfold verify_envelope. cbn [env_signature env_nonce env_encrypted_payload].
  rewrite (serde_roundtrip sig sj (sign_wf _ _ _ Hsig) Hsj). cbn.
  by rewrite (sign_verifies _ _ _ Hsig).
Qed.

Lemma raw_envelope_fields now i dev kind cid payload hdr env :
  build_raw_envelope now i dev kind cid payload hdr = Ok env ->
  env_sender_device_id env = bs dev /\ env_conversation_id env = cid /\ env_timestamp env = Z.max now 0.
Proof.
  unfold build_raw_envelope. destruct (sign_hybrid i _); [|done..]. cbn [map_err mbind result_bind].
  destruct (to_vec _); [|done..]. cbn [map_err mbind result_bind]. by intros [= <-].
Qed.

(** [env] carries ratchet message [m], signed by the owner of [p]. *)
Definition carries (p : IdentityPublicKey) (m : bytes * RatchetMessageHeader) (env : NetworkEnvelope) : Prop :=
  parse_header (env_nonce env) = Ok m.2 /\ env_encrypted_payload env = m.1 /\ verify_envelope p env = Ok true.

Lemma signed_envelope_carries now i dev kind cid ct header :
  wf header ->
  exists env, build_signed_envelope now i dev kind cid ct header = Ok env /\
    carries (IdentityKeyPair_public i) (ct, header) env.
Proof.
  intros Hw. unfold build_signed_envelope. destruct (serde_total header Hw) as [hj Hhj]. rewrite Hhj.
  cbn [map_err mbind result_bind]. destruct (raw_envelope_ok now i dev kind cid ct hj) as (env & -> & Hn & Hp & _ & Hv).
  exists env. split; [done|]. split_and!; [|done|done].
  unfold parse_header. by rewrite Hn, (serde_roundtrip header hj Hw Hhj).
Qed.

(** ** Runs of a session mirror runs of its ratchet *)

Definition chat_encrypt_all (now : Z) (i : IdentityKeyPair) (dev : string) (pts : list bytes)
    : M ChatSession AppError (list NetworkEnvelope) := mapM (ChatSession_encrypt now i dev) pts.

Definition chat_decrypt_all (envs : list NetworkEnvelope) : M ChatSession AppError (list bytes) :=
  mapM ChatSession_decrypt envs.

Lemma set_ratchet_twice d d' s : set_ratchet d (set_ratchet d' s) = set_ratchet d s.
Proof. done. Qed.

Lemma chat_encrypt_mirror now i dev pts s d msgs :
  encrypt_all pts (ratchet s) = (d, Ok msgs) -> Forall (fun m => wf m.2) msgs ->
  exists envs, chat_encrypt_all now i dev pts s = (set_ratchet d s, Ok envs) /\
    Forall2 (carries (IdentityKeyPair_public i)) msgs envs.
Proof.
  revert s d msgs. induction pts as [|pt pts IH]; intros s d msgs.
  - intros [= <- <-] _. exists []. split; [by destruct s | constructor].
  - intros Henc. apply mapM_cons_ok in Henc as (d1 & [ct h] & msgs' & He & Hes & ->).
    intros [Hh Hm]%Forall_cons.
    destruct (signed_envelope_carries now i dev KIND_DIRECT (bs (conversation_id s)) ct h Hh) as (env & Henv & Hc).
    destruct (IH (set_ratchet d1 s) d msgs' Hes Hm) as (envs & Hall & Hf).
    exists (env :: envs). split; [|by constructor]. apply mapM_cons_ok. exists (set_ratchet d1 s), env, envs.
    split_and!; [|exact Hall|done]. unfold ChatSession_encrypt, on_ratchet. mrun. rewrite He.
    cbn [context map_err]. mrun. cbn [set_ratchet conversation_id]. by rewrite Henv.
Qed.

Lemma chat_decrypt_known p m env s :
  carries p m env -> peer_identity s = p -> known_ratchet_public (ratchet s) = Some (dh_public_key m.2) ->
  ChatSession_decrypt env s =
  (set_ratchet (DoubleRatchet_decrypt m.1 m.2 (ratchet s)).1 s,
   context show_crypto "ratchet decrypt" (DoubleRatchet_decrypt m.1 m.2 (ratchet s)).2).
Proof.
  intros (Hh & Hp & Hv) <- Hk. unfold ChatSession_decrypt. mrun. rewrite Hh. mrun. rewrite Hv. mrun. cbn [negb].
  mrun. rewrite Hk. rewrite decide_False by tauto. mrun. unfold on_ratchet. rewrite Hp.
  by destruct (DoubleRatchet_decrypt _ _ _).
Qed.

Lemma known_decrypt ct h d : known_ratchet_public (DoubleRatchet_decrypt ct h d).1 = known_ratchet_public d.
Proof. destruct (decrypt_frame ct h d) as (r' & -> & _ & Ht). unfold known_ratchet_public. cbn. by rewrite Ht. Qed.

Lemma chat_decrypt_mirror p k msgs envs s d pts :
  Forall2 (carries p) msgs envs -> peer_identity s = p -> Forall (fun m => dh_public_key m.2 = k) msgs ->
  known_ratchet_public (ratchet s) = Some k -> decrypt_all msgs (ratchet s) = (d, Ok pts) ->
  chat_decrypt_all envs s = (set_ratchet d s, Ok pts).
Proof.
  intros Hc. revert s d pts. induction Hc as [|m env msgs envs Hc Hcs IH]; intros s d pts Hp Hk Hkn.
  - intros [= <- <-]. by destruct s.
  - apply Forall_cons in Hk as [Hk Hks]. intros Hd. unfold decrypt_all in Hd. apply mapM_cons_ok in Hd as (d1 & pt & pts' & He & Hes & ->).
    apply mapM_cons_ok. exists (set_ratchet d1 s), pt, pts'. split_and!; [|eapply (IH (set_ratchet d1 s)); try done|done].
    + rewrite (chat_decrypt_known p m) by (done || by rewrite Hk). by rewrite He.
    + cbn. pose proof (known_decrypt m.1 m.2 (ratchet s)) as Hkd. rewrite He in Hkd. cbn in Hkd. congruence.
Qed.

(** The first message of a peer not yet known runs [dh_ratchet] first. *)
Lemma chat_decrypt_first p m env s d1 :
  carries p m env -> peer_identity s = p -> known_ratchet_public (ratchet s) <> Some (dh_public_key m.2) ->
  DoubleRatchet_dh_ratchet (dh_public_key m.2) (ratchet s) = (d1, Ok tt) ->
  known_ratchet_public d1 = Some (dh_public_key m.2) ->
  ChatSession_decrypt env s = ChatSession_decrypt env (set_ratchet d1 s).
Proof.
  intros Hc Hp Hk Hd Hk1. rewrite (chat_decrypt_known p m env (set_ratchet d1 s)) by done.
  destruct Hc as (Hh & Hpl & Hv). subst p. unfold ChatSession_decrypt. mrun. rewrite Hh. mrun. rewrite Hv. mrun. cbn [negb].
  mrun. rewrite decide_True by done. unfold on_ratchet at 1. rewrite Hd. mrun. unfold on_ratchet. cbn [ratchet set_ratchet].
  rewrite Hpl. by destruct (DoubleRatchet_decrypt _ _ _).
Qed.
(** ** Delivery *)

(** The sessions of an initiator and a responder who completed a handshake:
    ratchets from one root key and two ratchet secrets, and each other's
    identity. *)
Definition established (ia ib : IdentityKeyPair) (sa sb : ChatSession) : Prop :=
  exists rk a b,
    DoubleRatchet_init SESSION_ID rk a (x25519_public b) [] = Ok (ratchet sa) /\
    DoubleRatchet_init_as_responder SESSION_ID rk b [] = Ok (ratchet sb) /\
    peer_identity sa = IdentityKeyPair_public ib /\ peer_identity sb = IdentityKeyPair_public ia.

Lemma sealing_headers k0 a pts msgs :
  sealing k0 a pts msgs -> (length pts <= S MAX_SKIP_MESSAGES)%nat ->
  Forall (fun m => wf m.2 /\ dh_public_key m.2 = x25519_public a) msgs.
Proof.
  intros (cts & Hlen & -> & _) Hl. unfold MAX_SKIP_MESSAGES in Hl. apply list.Forall_forall. intros [ct h] Hin.
  apply elem_of_zip_r in Hin. apply list_elem_of_In, in_map_iff in Hin as (n & <- & Hn%in_seq).
  split; [apply header_at_wf; lia | done].
Qed.

Lemma Forall2_omap_lookup {T U} (P : T -> U -> Prop) l k order :
  Forall2 P l k -> Forall2 P (omap (fun n => l !! n) order) (omap (fun n => k !! n) order).
Proof.
  intros Hf. induction order as [|n order IH]; [constructor|]. cbn [omap list_omap].
  destruct (l !! n) as [x|] eqn:Hx.
  - destruct (Forall2_lookup_l _ _ _ _ _ Hf Hx) as (y & -> & Hxy). by constructor.
  - destruct (k !! n) as [y|] eqn:Hy; [|done].
    destruct (Forall2_lookup_r _ _ _ _ _ Hf Hy) as (x & Hx' & _). congruence.
Qed.

Lemma Forall_omap_lookup {T} (P : T -> Prop) l order :
  Forall P l -> Forall P (omap (fun n : nat => l !! n) order).
Proof.
  intros Hf. apply list.Forall_forall. intros x (n & _ & Hx)%list_elem_of_omap.
  rewrite list.Forall_forall in Hf. eapply Hf, list_elem_of_lookup_2, Hx.
Qed.

Lemma chat_decrypt_all_first p k msgs envs s d1 d pts :
  Forall2 (carries p) msgs envs -> peer_identity s = p -> Forall (fun m => dh_public_key m.2 = k) msgs ->
  known_ratchet_public (ratchet s) <> Some k -> DoubleRatchet_dh_ratchet k (ratchet s) = (d1, Ok tt) ->
  known_ratchet_public d1 = Some k -> decrypt_all msgs d1 = (d, Ok pts) ->
  exists s', chat_decrypt_all envs s = (s', Ok pts) /\ (msgs <> [] -> s' = set_ratchet d s).
Proof.
  intros Hc Hp Hk Hkn Hdh Hkn1 Hd.
  pose proof (chat_decrypt_mirror p k msgs envs (set_ratchet d1 s) d pts Hc Hp Hk Hkn1 Hd) as Hm.
  destruct Hc as [|m env msgs envs Hc _]; [by injection Hm as _ <-; exists s|].
  apply Forall_cons in Hk as [<- _]. exists (set_ratchet d s). split; [|done].
  change (set_ratchet d s) with (set_ratchet d (set_ratchet d1 s)). rewrite <- Hm. unfold chat_decrypt_all. cbn [mapM].
  by rewrite !M_bind_eq, (chat_decrypt_first p m env s d1).
Qed.

Lemma known_after_dh p d d' b :
  our_ratchet_key (receiving_chain d) = None -> our_ratchet_key (sending_chain d) = Some b ->
  their_ratchet_public (receiving_chain d) = None ->
  DoubleRatchet_dh_ratchet p d = (d', Ok tt) -> known_ratchet_public d' = Some p.
Proof.
  intros Hr Hs Ht. rewrite (dh_ratchet_eq d b) by done. destruct (kdf_root _ _). intros [= <-].
  unfold known_ratchet_public. cbn. by rewrite Ht.
Qed.

(** What established sessions look like, and the responder after one
    [dh_ratchet] on the initiator's key. *)
Lemma established_start ia ib sa sb :
  established ia ib sa sb ->
  exists k0 a b d',
    sending_at k0 a 0 (ratchet sa) /\
    receiving_chain (ratchet sa) = {| our_ratchet_key := None; their_ratchet_public := Some (x25519_public b);
                                      chain_key := None; skipped_message_keys := [] |} /\
    known_ratchet_public (ratchet sb) = None /\
    DoubleRatchet_dh_ratchet (x25519_public a) (ratchet sb) = (d', Ok tt) /\
    known_ratchet_public d' = Some (x25519_public a) /\ recv_inv k0 [] 0 (receiving_chain d') /\
    sending_chain d' = {| our_ratchet_key := Some b; their_ratchet_public := Some (x25519_public a);
                          chain_key := None; skipped_message_keys := [] |}.
Proof.
  intros (rk & a & b & Ha & Hb & _).
  destruct (session_start SESSION_ID rk a b []) as (root & k0 & da & db & d' & Ha' & Hb' & Hdh & _ & _ & Hsend & Hrecv & Hra & Hsb).
  rewrite Ha in Ha'. injection Ha' as <-. rewrite Hb in Hb'. injection Hb' as <-.
  exists k0, a, b, d'. injection Hb as Hb. split_and!; [done | done | | done | | done | done].
  - by rewrite <- Hb.
  - eapply (known_after_dh _ (ratchet sb) d' b); try done; by rewrite <- Hb.
Qed.

(** The exchange: the initiator sends, the responder reads; what is left in
    the two sessions. *)
Lemma chat_exchange now ia ib dev sa sb pts order :
  established ia ib sa sb ->
  (length pts <= S MAX_SKIP_MESSAGES)%nat ->
  Forall (fun pt => Z.of_nat (length pt) < 2 ^ 37) pts ->
  NoDup order -> Forall (fun n => (n < length pts)%nat) order ->
  exists a b sa' envs sb',
    chat_encrypt_all now ia dev pts sa = (sa', Ok envs) /\
    chat_decrypt_all (omap (fun n => envs !! n) order) sb = (sb', Ok (omap (fun n => pts !! n) order)) /\
    peer_identity sa' = IdentityKeyPair_public ib /\
    receiving_chain (ratchet sa') = {| our_ratchet_key := None; their_ratchet_public := Some (x25519_public b);
                                       chain_key := None; skipped_message_keys := [] |} /\
    (order <> [] ->
     sending_chain (ratchet sb') = {| our_ratchet_key := Some b; their_ratchet_public := Some (x25519_public a);
                                      chain_key := None; skipped_message_keys := [] |}).
Proof.
  intros He Hl Hp Hnd Ho.
  destruct (established_start ia ib sa sb He) as (k0 & a & b & d' & Hsend & Hra & Hkb & Hdh & Hkn & Hrecv & Hsb).
  destruct He as (_ & _ & _ & _ & _ & Hpa & Hpb).
  destruct (encrypt_all_sealing k0 a (ratchet sa) pts) as (msgs & Hs & Henc); [done..|].
  pose proof (sealing_headers k0 a pts msgs Hs Hl) as Hhd. apply Forall_and in Hhd as [Hw Hk].
  destruct (chat_encrypt_mirror now ia dev pts sa _ msgs Henc Hw) as (envs & Hall & Hf).
  pose proof (deliver_any_order k0 a d' pts msgs order Hrecv Hs Hl Hnd Ho) as Hdel.
  destruct (decrypt_all_frame (omap (fun n => msgs !! n) order) d') as [r' Hfr].
  destruct (decrypt_all (omap (fun n => msgs !! n) order) d') as [d r] eqn:Hd. cbn in Hdel, Hfr. subst r.
  destruct (chat_decrypt_all_first (IdentityKeyPair_public ia) (x25519_public a) (omap (fun n => msgs !! n) order)
              (omap (fun n => envs !! n) order) sb d' d (omap (fun n => pts !! n) order)) as (sb' & Hsb' & Hne);
    [by apply Forall2_omap_lookup | done | by apply Forall_omap_lookup | by rewrite Hkb | done..|].
  eexists a, b, _, envs, sb'. split_and!; [exact Hall | done | done | done |].
  intros Hon. rewrite Hne; [by subst d|]. intros Hnil. destruct order as [|n order]; [done|].
  apply Forall_cons in Ho as [Hn _]. destruct Hs as (cts & Hlen & -> & _). cbn in Hnil.
  destruct (zip cts (map (header_at a) (seq 0 (length pts))) !! n) eqn:Hz; [done|].
  apply lookup_ge_None in Hz. rewrite length_zip_with_l in Hz by (rewrite length_map, length_seq; lia). lia.
Qed.

(** C13. Chat envelopes from the initiator are read in any order: between
    established sessions, every [encrypt] of the initiator gives a signed
    envelope, and whichever of up to 1001 envelopes the responder receives, in
    whatever order (each at most once), every [decrypt] (signature check,
    ratchet step on the first one, message key) returns its plaintext. *)
Theorem chat_delivery_any_order now ia ib dev sa sb pts order :
  established ia ib sa sb ->
  (length pts <= S MAX_SKIP_MESSAGES)%nat ->
  Forall (fun pt => Z.of_nat (length pt) < 2 ^ 37) pts ->
  NoDup order -> Forall (fun n => (n < length pts)%nat) order ->
  exists sa' envs sb',
    chat_encrypt_all now ia dev pts sa = (sa', Ok envs) /\
    chat_decrypt_all (omap (fun n => envs !! n) order) sb = (sb', Ok (omap (fun n => pts !! n) order)).
Proof.
  intros He Hl Hp Hnd Ho.
  destruct (chat_exchange now ia ib dev sa sb pts order) as (_ & _ & sa' & envs & sb' & ? & ? & _); [done..|].
  by exists sa', envs, sb'.
Qed.

(** C14. The initiator cannot read a single reply: its session starts with the
    responder's ratchet key already recorded, the responder never changes that
    key, so [decrypt] never runs [dh_ratchet] and no receiving chain exists.
    After any exchange in which the responder has read something, each of the
    responder's replies is encrypted without error and is rejected by the
    initiator, whose session does not change. *)
Theorem initiator_cannot_read_replies now ia ib dev dev' sa sb pts order replies :
  established ia ib sa sb ->
  (length pts <= S MAX_SKIP_MESSAGES)%nat ->
  Forall (fun pt => Z.of_nat (length pt) < 2 ^ 37) pts ->
  NoDup order -> Forall (fun n => (n < length pts)%nat) order -> order <> [] ->
  (length replies <= S MAX_SKIP_MESSAGES)%nat ->
  Forall (fun pt => Z.of_nat (length pt) < 2 ^ 37) replies ->
  exists sa' envs sb' sb'' renvs,
    chat_encrypt_all now ia dev pts sa = (sa', Ok envs) /\
    chat_decrypt_all (omap (fun n => envs !! n) order) sb = (sb', Ok (omap (fun n => pts !! n) order)) /\
    chat_encrypt_all now ib dev' replies sb' = (sb'', Ok renvs) /\ length renvs = length replies /\
    Forall (fun env => ChatSession_decrypt env sa' =
      (sa', Err ["ratchet decrypt"; "Ratchet error: No receiving chain established"])) renvs.
Proof.
  intros He Hl Hp Hnd Ho Hon Hrl Hrp.
  destruct (chat_exchange now ia ib dev sa sb pts order) as (a & b & sa' & envs & sb' & Henc & Hdec & Hpa & Hra & Hsb); [done..|].
  specialize (Hsb Hon).
  destruct (kdf_root (root_key (ratchet sb')) (x25519_dh b (x25519_public a))) as [root [k i]] eqn:Hroot.
  assert (i = 0) as -> by by injection Hroot.
  destruct (encrypt_all_derives (ratchet sb') b (x25519_public a) root k replies) as (d & msgs & Hs & Hmsgs);
    [by rewrite Hsb.. | done | done | done |].
  pose proof (sealing_headers k b replies msgs Hs Hrl) as Hhd. apply Forall_and in Hhd as [Hw Hk].
  destruct (chat_encrypt_mirror now ib dev' replies sb' d msgs Hmsgs Hw) as (renvs & Hrenc & Hf).
  eexists sa', envs, sb', _, renvs. split_and!; [done | done | exact Hrenc | |].
  - apply Forall2_length in Hf. destruct Hs as (cts & Hlen & -> & _).
    rewrite length_zip_with_l in Hf by (rewrite length_map, length_seq; lia). lia.
  - apply list.Forall_forall. intros env Hin. apply list_elem_of_lookup in Hin as [n Hn].
    destruct (Forall2_lookup_r _ _ _ _ _ Hf Hn) as (m & Hm & Hc).
    assert (dh_public_key m.2 = x25519_public b) as Hmk by (rewrite list.Forall_forall in Hk; eapply Hk, list_elem_of_lookup_2, Hm).
    rewrite (chat_decrypt_known (IdentityKeyPair_public ib) m) by
      (done || unfold known_ratchet_public; by rewrite Hra, Hmk).
    unfold DoubleRatchet_decrypt. mrun. rewrite Hra. cbn. by destruct sa'.
Qed.
(** ** The handshake drivers *)

(** What every session has from the drivers on. *)
Definition resumable (s : ChatSession) : Prop :=
  session_id (ratchet s) = SESSION_ID /\ associated_data (ratchet s) = [] /\
  peer_identity s = sk_peer_identity (session_keys s).

Definition labelled (d : DoubleRatchet) : Prop := session_id d = SESSION_ID /\ associated_data d = [].

Lemma init_labelled rk a p d : DoubleRatchet_init SESSION_ID rk a p [] = Ok d -> labelled d.
Proof. unfold DoubleRatchet_init. rewrite ratchet_step_eq. cbn. by intros [= <-]. Qed.

Lemma kem_generate_ok c k :
  exists priv, HybridKemPublicKey_generate c k = Ok (HybridKemPrivateKey_public_key priv, priv) /\
    length (ks_pq priv) = ML_KEM_1024_PRIVATE_KEY_SIZE.
Proof.
  unfold HybridKemPublicKey_generate. destruct (ml_kem_generates k) as (seed & -> & Hlen).
  by exists {| ks_classical := c; ks_pq := seed |}.
Qed.

(** A prekey the responder can publish: its parts belong together and have
    the sizes of the Rust types. *)
Definition prekey_of (pkm : PrekeyMaterial) (priv : HybridKemPrivateKey) : Prop :=
  is_u32 (pkm_key_id pkm) /\ pkm_public_key pkm = HybridKemPrivateKey_public_key priv /\
  PrekeyMaterial_private_key pkm = Ok priv /\ wf (pkm_signature pkm) /\ is_u64 (pkm_timestamp pkm).

Lemma prekey_generate_ok now c k i :
  now < 2 ^ 64 -> exists pkm priv, PrekeyMaterial_generate now c k i = Ok pkm /\ prekey_of pkm priv.
Proof.
  intros Hnow. destruct (kem_generate_ok c k) as (priv & Hg & Hlen). unfold PrekeyMaterial_generate. rewrite Hg.
  eexists _, priv. split; [done|]. split_and!; [done | done | | apply length_ed25519_sign |].
  - unfold PrekeyMaterial_private_key. cbn. rewrite decide_True by done. by destruct priv.
  - unfold is_u64. cbn. lia.
Qed.

Lemma prekey_bundle pkm priv i :
  prekey_of pkm priv ->
  exists bundle, PrekeyMaterial_to_bundle pkm i = Ok bundle /\ wf bundle /\ PreKeyBundle_verify bundle = Ok tt /\
    identity_key bundle = IdentityKeyPair_public i.
Proof.
  intros (Hid & Hpub & _ & Hsg & Hts). unfold PrekeyMaterial_to_bundle.
  destruct (bundle_new_eq i (PrekeyMaterial_signed_prekey pkm) []) as (kem & _ & sig & Hsig & ->).
  eexists. split; [done|]. split; [|split; [by eapply sign_verifies | done]].
  split_and!; cbn; [apply public_wf | apply public_key_wf | | constructor | by eapply sign_wf].
  split_and!; cbn; [done | rewrite Hpub; apply public_key_wf | done..].
Qed.

(** What the application stores of a session. *)
Definition session_wf (s : ChatSession) : Prop := wf (session_keys s) /\ ratchet_wf (ratchet s).

(** The root key that session keys get from a secret. *)
Definition derives_root (secret root : bytes) : Prop :=
  exists snd rcv, forall init peer, SessionKeys_new init secret peer =
    Ok {| sk_is_initiator := init; sk_root_key := root; sk_sending_chain := snd; sk_receiving_chain := rcv;
          sk_peer_identity := peer; sk_message_count := 0 |}.

Section Drivers.
Context `{SM : Serde PqxdhPrekeyMessage, SMO : !SerdeOk PqxdhPrekeyMessage} {PeerId Addr : Type}.

(** The initiator's half: [send_prekey] up to its envelope. *)
Lemma prepare_prekey_ok now er qr r1 r2 r3 r4 r5 pkm priv ib bundle (h : InitiatorHandshake PeerId) :
  prekey_of pkm priv -> PrekeyMaterial_to_bundle pkm ib = Ok bundle ->
  exists out msg body env,
    prepare_prekey now er qr r1 r2 r3 r4 r5 bundle h =
      (set_ih_pending (Some out) (set_ih_peer_identity (Some (IdentityKeyPair_public ib)) h), Ok env) /\
    env_kind env = KIND_SYNC /\ env_encrypted_payload env = MARKER_PREKEY :: body /\
    env_sender_device_id env = bs (ih_device_id h) /\
    from_slice body = Ok msg /\ wf msg /\ pm_identity_public msg = IdentityKeyPair_public (ih_identity h) /\
    forall p, pqxdh_responder {| res_identity := ib; res_signed_prekey := priv; res_signed_prekey_id := pkm_key_id pkm;
                                 res_one_time_prekey := None; res_one_time_prekey_id := None |} (claim_identity p msg) = Ok out.
Proof.
  intros Hpk Hbun. pose proof Hpk as (Hid & Hpub & _). destruct (kem_generate_ok er qr) as (eph & Heph & _).
  destruct (handshake r1 r2 r3 r4 r5 (ih_identity h) eph (PrekeyMaterial_signed_prekey pkm) []
    {| res_identity := ib; res_signed_prekey := priv; res_signed_prekey_id := pkm_key_id pkm;
       res_one_time_prekey := None; res_one_time_prekey_id := None |})
    as (bundle' & out & msg & Hbun' & Hini & _ & Hmid & Hwf & Hres); [done..|].
  destruct (prekey_bundle pkm priv ib Hpk) as (bundle'' & Hb'' & _ & Hver & Hbid).
  rewrite Hbun in Hb''. injection Hb'' as <-.
  assert (bundle' = bundle) as ->.
  { unfold PrekeyMaterial_to_bundle in Hbun. cbn [res_identity] in Hbun'. rewrite Hbun' in Hbun. by injection Hbun. }
  assert (wf msg) as Hw by (apply Hwf; [done | constructor]).
  destruct (serde_total msg Hw) as [body Hbody].
  destruct (raw_envelope_ok now (ih_identity h) (ih_device_id h) KIND_SYNC (bs (ih_device_id h)) (MARKER_PREKEY :: body) [])
    as (env & Henv & _ & Hpay & Hkind & _).
  exists out, msg, body, env. split_and!; try done; [| |by apply serde_roundtrip].
  - unfold prepare_prekey. mrun. rewrite Hver. cbn [context map_err]. mrun. rewrite Heph. cbn [map_err]. mrun.
    cbn [set_ih_peer_identity ih_identity id]. rewrite Hini. cbn [context map_err]. mrun.
    rewrite Hbody. cbn [map_err]. mrun. unfold sync_envelope. cbn [ih_device_id set_ih_peer_identity id].
    rewrite Henv, Hbid. done.
  - by apply raw_envelope_fields in Henv as (? & _).
Qed.

(** The responder's half: [on_prekey], for whatever identity the message
    claims. *)
Lemma on_prekey_ok pkm priv rh body msg out b conv :
  rh_prekey rh = pkm -> PrekeyMaterial_private_key pkm = Ok priv -> from_slice body = Ok msg -> wf msg ->
  length b = X25519_PRIVATE_KEY_SIZE ->
  pqxdh_responder {| res_identity := rh_identity rh; res_signed_prekey := priv; res_signed_prekey_id := pkm_key_id pkm;
                     res_one_time_prekey := None; res_one_time_prekey_id := None |} msg = Ok out ->
  exists root sb,
    derives_root (out_shared_secret out) root /\
    on_prekey b body conv rh = (set_rh_peer_identity (Some (pm_identity_public msg)) rh, Ok (x25519_public b, sb)) /\
    conversation_id sb = conv /\ peer_identity sb = pm_identity_public msg /\
    DoubleRatchet_init_as_responder SESSION_ID (RootKey_new root) b [] = Ok (ratchet sb) /\
    resumable sb /\ session_wf sb.
Proof.
  intros Hpkm Hpriv Hparse Hw Hb Hres. destruct (session_keys_eq (out_shared_secret out)) as (root & snd & rcv & Hk).
  pose proof (session_keys_wf _ _ _ _ ltac:(apply Hw) (Hk false (pm_identity_public msg))) as Hkw.
  eexists root, _. split; [by exists snd, rcv|]. split.
  { unfold on_prekey. mrun. rewrite Hparse. cbn [context map_err]. mrun.
    cbn [set_rh_peer_identity rh_prekey rh_identity]. rewrite Hpkm, Hpriv. mrun.
    rewrite Hres. cbn [context map_err]. mrun. rewrite Hk. cbn [context map_err]. mrun.
    unfold SessionKeys_to_ratchet. cbn [sk_is_initiator sk_root_key]. cbn [context map_err]. mrun. done. }
  split_and!; try done. split; [exact Hkw|]. cbn.
  by eapply (init_as_responder_wf SESSION_ID (RootKey_new root) b []); [|apply Hkw|].
Qed.

Lemma establish_ok a pub (h : InitiatorHandshake PeerId) out peer root :
  ih_pending h = Some out -> ih_peer_identity h = Some peer -> wf peer ->
  length pub = X25519_PUBLIC_KEY_SIZE -> length a = X25519_PRIVATE_KEY_SIZE ->
  derives_root (out_shared_secret out) root ->
  exists sa,
    establish a pub h = (set_ih_pending None h, Ok sa) /\
    conversation_id sa = ih_device_id h /\ peer_identity sa = peer /\
    DoubleRatchet_init SESSION_ID (RootKey_new root) a pub [] = Ok (ratchet sa) /\
    resumable sa /\ session_wf sa.
Proof.
  intros Hpe Hpi Hw Hpub Ha (snd & rcv & Hk).
  pose proof (session_keys_wf _ _ _ _ Hw (Hk true peer)) as Hkw.
  destruct (init_eq SESSION_ID (RootKey_new root) a pub []) as (r & k & _ & Hi).
  eexists. split_and!.
  - unfold establish. mrun. rewrite Hpe. cbn [ih_pending set_ih_pending ok_or]. mrun.
    cbn [ih_peer_identity set_ih_pending ok_or id]. rewrite Hpi. cbn [ok_or]. mrun.
    rewrite try_into_array_len by done. mrun. unfold build_initiator_session.
    rewrite Hk. cbn [context map_err mbind result_bind]. unfold SessionKeys_to_ratchet.
    cbn [sk_is_initiator sk_root_key ok_or mbind result_bind]. unfold SESSION_ID in Hi. rewrite Hi. done.
  - done.
  - done.
  - exact Hi.
  - split_and!; by apply init_labelled in Hi.
  - split; [done|]. by eapply init_wf, Hi.
Qed.

(** The drivers establish a session: the responder generates its prekey
    and publishes the bundle; [send_prekey] on it computes the initiator's
    secret and puts one message for the peer into the node's control channel, a
    sync envelope whose payload is the prekey marker and a message body;
    [on_prekey] on that body gives the responder's session and ratchet key;
    [establish] on that key gives the initiator's session; the two sessions
    belong together, and both can be persisted and resumed. *)
Theorem handshake_establishes now cr kr er qr r1 r2 r3 r4 r5 ia ib dev peer a b conv (node : P2pNode PeerId Addr) :
  now < 2 ^ 64 -> np_running node = true ->
  length a = X25519_PRIVATE_KEY_SIZE -> length b = X25519_PRIVATE_KEY_SIZE ->
  exists pkm bundle env body ini node' ini' sa res sb,
    PrekeyMaterial_generate now cr kr ib = Ok pkm /\
    ResponderHandshake_bundle (ResponderHandshake_new ib pkm) = Ok bundle /\
    send_prekey now er qr r1 r2 r3 r4 r5 bundle (InitiatorHandshake_new ia dev peer, node) = ((ini, node'), Ok tt) /\
    np_controls node' = np_controls node ++ [SendDirect peer env] /\
    env_kind env = KIND_SYNC /\ env_encrypted_payload env = MARKER_PREKEY :: body /\
    on_prekey b body conv (ResponderHandshake_new ib pkm) = (res, Ok (x25519_public b, sb)) /\
    establish a (x25519_public b) ini = (ini', Ok sa) /\ established ia ib sa sb /\
    resumable sa /\ session_wf sa /\ resumable sb /\ session_wf sb.
Proof.
  intros Hnow Hrun Ha Hb. destruct (prekey_generate_ok now cr kr ib Hnow) as (pkm & priv & Hgen & Hpk).
  destruct (prekey_bundle pkm priv ib Hpk) as (bundle & Hbun & _).
  destruct (prepare_prekey_ok now er qr r1 r2 r3 r4 r5 pkm priv ib bundle (InitiatorHandshake_new ia dev peer) Hpk Hbun)
    as (out & msg & body & env & Hprep & Hkind & Hpay & _ & Hparse & Hw & Hmid & Hres).
  specialize (Hres (pm_identity_public msg)).
  replace (claim_identity (pm_identity_public msg) msg) with msg in Hres by by destruct msg.
  destruct (on_prekey_ok pkm priv (ResponderHandshake_new ib pkm) body msg out b conv)
    as (root & sb & Hroot & Hon & _ & Hpb & Hrb & Hsb & Hwb); try done; [apply Hpk|].
  destruct (establish_ok a (x25519_public b)
      (set_ih_pending (Some out) (set_ih_peer_identity (Some (IdentityKeyPair_public ib)) (InitiatorHandshake_new ia dev peer)))
      out (IdentityKeyPair_public ib) root)
    as (sa & Hest & _ & Hpa & Hra & Hsa & Hwa); [done | done | apply public_wf | apply length_x25519_public | done..|].
  eexists pkm, bundle, env, body, _, {| np_controls := _ |}, _, sa, _, sb. split_and!; try done.
  - unfold send_prekey. mrun. unfold on_first, zoom. cbn [fst snd]. rewrite Hprep. mrun.
    unfold on_second, zoom, send_with_context, with_err, P2pNode_send_direct. cbn [fst snd].
    rewrite send_control_ok by done. done.
  - exists (RootKey_new root), a, b. by rewrite Hpa, Hpb, Hmid.
Qed.
End Drivers.
(** ** Persistence *)

Lemma keeps_on_ratchet {T} c (m : M DoubleRatchet CryptoError T) :
  keeps labelled m -> keeps resumable (on_ratchet c m).
Proof.
  intros Hm s (Hi & Ha & Hp). unfold on_ratchet. specialize (Hm (ratchet s) (conj Hi Ha)).
  destruct (m (ratchet s)) as [d r]. destruct Hm as [? ?]. by split_and!.
Qed.

Lemma encrypt_labelled pt : keeps labelled (DoubleRatchet_encrypt pt).
Proof. unfold DoubleRatchet_encrypt, ensure_sending_chain. keeps_tac; done. Qed.

Lemma decrypt_labelled ct h : keeps labelled (DoubleRatchet_decrypt ct h).
Proof. intros d Hd. by destruct (decrypt_frame ct h d) as (r' & -> & _). Qed.

Lemma dh_labelled p : keeps labelled (DoubleRatchet_dh_ratchet p).
Proof. unfold DoubleRatchet_dh_ratchet. keeps_tac; done. Qed.

Lemma chat_encrypt_resumable now i dev pt : keeps resumable (ChatSession_encrypt now i dev pt).
Proof.
  unfold ChatSession_encrypt. apply keeps_bind; [apply keeps_on_ratchet, encrypt_labelled|].
  intros [ct h]. keeps_tac.
Qed.

Lemma chat_decrypt_resumable env : keeps resumable (ChatSession_decrypt env).
Proof.
  unfold ChatSession_decrypt. keeps_tac; apply keeps_on_ratchet; [apply dh_labelled | apply decrypt_labelled..].
Qed.

Lemma keeps_on_ratchet_wf {T} c (m : M DoubleRatchet CryptoError T) :
  keeps ratchet_wf m -> keeps session_wf (on_ratchet c m).
Proof.
  intros Hm s [Hk Hw]. unfold on_ratchet. specialize (Hm (ratchet s) Hw). by destruct (m (ratchet s)) as [d r].
Qed.

Lemma chat_encrypt_wf now i dev pt : keeps session_wf (ChatSession_encrypt now i dev pt).
Proof.
  unfold ChatSession_encrypt. apply keeps_bind; [apply keeps_on_ratchet_wf, encrypt_wf|].
  intros [ct h]. keeps_tac.
Qed.

(** The header key has its size because the header was parsed. *)
Lemma chat_decrypt_wf env : keeps session_wf (ChatSession_decrypt env).
Proof.
  unfold ChatSession_decrypt. intros s Hs. mrun. destruct (parse_header (env_nonce env)) as [h| |] eqn:Hh; [|done..].
  assert (length (dh_public_key h) = X25519_PUBLIC_KEY_SIZE) as Hl.
  { unfold parse_header, context in Hh. apply map_err_ok, serde_typed in Hh. apply Hh. }
  revert s Hs. apply keeps_bind; [keeps_tac|intros peer].
  keeps_tac; apply keeps_on_ratchet_wf; [by apply dh_wf | apply decrypt_wf..].
Qed.

Section Persist.
Context `{SK : Serde SessionKeys, SKO : !SerdeOk SessionKeys, SR : Serde RatchetSnapshot, SRO : !SerdeOk RatchetSnapshot}.

(** What [persist] does to the database. *)
Lemma persist_ok now s db conv :
  resumable s -> session_wf s -> has_nul (conversation_id s) = false ->
  t_conversations (live db) !! conversation_id s = Some conv ->
  exists db', ChatSession_persist now s db = (db', Ok tt) /\
    resume (conversation_id s) db' = (db', Ok (Some s)) /\ 
    exists row, live db' = set_sessions (<[conversation_id s := row]> (t_sessions (live db))) (live db).
Proof.
  intros Hr [Hk Hw] Hn Hconv. unfold ratchet_wf in Hw.
  set (st := {| ss_is_initiator := is_initiator s; ss_session_keys := session_keys s;
                ss_ratchet := Some (RatchetSnapshot_from_ratchet (ratchet s)); ss_last_used := now |}).
  assert (wf st) as Hst by (split; [done | by intros ? [= <-]]).
  destruct (save_session_eq (conversation_id s) st db conv Hst Hn Hconv) as (keys & rs & Hks & Hrs & Hsave).
  eexists. split; [|split; [|eexists]].
  - unfold ChatSession_persist, NodeStore_save_session. fold st. by rewrite Hsave.
  - unfold resume, NodeStore_load_session. mrun.
    erewrite load_session_row; [|done|cbn; apply lookup_insert_eq|exact Hks|exact Hrs].
    cbn [anyhow_prefix map_err]. mrun. unfold rebuild_ratchet. cbn [st ss_ratchet ok_or mbind result_bind].
    rewrite snapshot_exact. cbn. rewrite i64_bool_inv.
    destruct Hr as (Hi & Ha & Hp). rewrite <- Hp, <- Hi, <- Ha. destruct s as [? ? ? [] ?]. done.
  - done.
Qed.

(** C15. A session survives a restart: persisting a session of a known
    conversation and resuming it gives back the very same session, ratchet,
    skipped keys and all; what makes this exact holds for every session the
    handshake drivers build and is kept by [encrypt] and [decrypt], whether
    they succeed or fail. *)
Theorem persist_resume_exact now s db conv :
  resumable s -> session_wf s ->
  has_nul (conversation_id s) = false -> t_conversations (live db) !! conversation_id s = Some conv ->
  (exists db', ChatSession_persist now s db = (db', Ok tt) /\
     resume (conversation_id s) db' = (db', Ok (Some s))) /\
  (forall t i dev pt, let s' := (ChatSession_encrypt t i dev pt s).1 in resumable s' /\ session_wf s') /\
  (forall env, let s' := (ChatSession_decrypt env s).1 in resumable s' /\ session_wf s').
Proof.
  intros Hr Hw Hn Hconv. split_and!; [|intros t i dev pt s'; split; [by apply chat_encrypt_resumable | by apply chat_encrypt_wf]
    |intros env s'; split; [by apply chat_decrypt_resumable | by apply chat_decrypt_wf]].
  destruct (persist_ok now s db conv Hr Hw Hn Hconv) as (db' & ? & ? & _). by exists db'.
Qed.
End Persist.
End Props.

(** ** Evaluation *)

#[export] Instance HybridSignature_eq_dec : EqDecision HybridSignature.
Proof. solve_decision. Defined.
#[export] Instance HybridSignature_countable : Countable HybridSignature :=
  inj_countable' (fun s => (hs_classical s, hs_pq s)) (fun p => {| hs_classical := p.1; hs_pq := p.2 |})
    ltac:(by intros []).
#[export] Instance HybridKemPublicKey_eq_dec : EqDecision HybridKemPublicKey.
Proof. solve_decision. Defined.
#[export] Instance HybridKemPublicKey_countable : Countable HybridKemPublicKey :=
  inj_countable' (fun s => (kp_classical s, kp_pq s)) (fun p => {| kp_classical := p.1; kp_pq := p.2 |})
    ltac:(by intros []).
#[export] Instance Ciphertexts_eq_dec : EqDecision Ciphertexts.
Proof. solve_decision. Defined.
#[export] Instance Ciphertexts_countable : Countable Ciphertexts :=
  inj_countable' (fun c => (ct_0 c, ct_1 c, ct_2 c, ct_3 c))
    (fun '(a, b, c, d) => {| ct_0 := a; ct_1 := b; ct_2 := c; ct_3 := d |}) ltac:(by intros []).
#[export] Instance PqxdhPrekeyMessage_eq_dec : EqDecision PqxdhPrekeyMessage.
Proof. solve_decision. Defined.
#[export] Instance PqxdhPrekeyMessage_countable : Countable PqxdhPrekeyMessage :=
  inj_countable'
    (fun m => (pm_identity_public m, pm_identity_kem_public m, pm_ephemeral_public m, pm_ciphertexts m,
               pm_one_time_ciphertext m, pm_signed_prekey_id m, pm_one_time_prekey_id m))
    (fun '(i, k, e, c, o, s, t) =>
       {| pm_identity_public := i; pm_identity_kem_public := k; pm_ephemeral_public := e; pm_ciphertexts := c;
          pm_one_time_ciphertext := o; pm_signed_prekey_id := s; pm_one_time_prekey_id := t |})
    ltac:(by intros []).

#[export] Instance HybridSignature_wf_dec : forall s : HybridSignature, Decision (wf s).
Proof. intros s. apply Nat.eq_dec. Defined.
#[export] Instance HybridKemPublicKey_wf_dec : forall k : HybridKemPublicKey, Decision (wf k).
Proof. wf_decide. Defined.
#[export] Instance PqxdhPrekeyMessage_wf_dec : forall m : PqxdhPrekeyMessage, Decision (wf m).
Proof. intros m. repeat apply and_dec; try apply (all_some_dec is_u32); apply _. Defined.

Definition concrete_signature : Serde HybridSignature := countable_serde HybridSignature.
#[export] Instance concrete_signature_ok : @SerdeOk HybridSignature _ concrete_signature :=
  countable_serde_ok HybridSignature.
Definition concrete_prekey_message : Serde PqxdhPrekeyMessage := countable_serde PqxdhPrekeyMessage.
#[export] Instance concrete_prekey_message_ok : @SerdeOk PqxdhPrekeyMessage _ concrete_prekey_message :=
  countable_serde_ok PqxdhPrekeyMessage.

#[local] Existing Instances dev_build concrete_header concrete_signature concrete_prekey_message
  concrete_session_keys concrete_snapshot.

Definition sample_keys (init : bool) (peer : IdentityPublicKey) : SessionKeys :=
  {| sk_is_initiator := init; sk_root_key := pad32 (bs "root"); sk_sending_chain := pad32 [];
     sk_receiving_chain := pad32 []; sk_peer_identity := peer; sk_message_count := 0 |}.
Definition alice_session : ChatSession :=
  {| conversation_id := "conv"; peer_identity := IdentityKeyPair_public bob_identity; is_initiator := true;
     ratchet := match DoubleRatchet_init SESSION_ID sample_root alice_secret (x25519_public bob_secret) [] with
                | Ok d => d
                | _ => sample_ratchet 0 []
                end;
     session_keys := sample_keys true (IdentityKeyPair_public bob_identity) |}.
Definition bob_session : ChatSession :=
  {| conversation_id := "conv"; peer_identity := IdentityKeyPair_public alice_identity; is_initiator := false;
     ratchet := match DoubleRatchet_init_as_responder SESSION_ID sample_root bob_secret [] with
                | Ok d => d
                | _ => sample_ratchet 0 []
                end;
     session_keys := sample_keys false (IdentityKeyPair_public alice_identity) |}.

Lemma sample_established : established alice_identity bob_identity alice_session bob_session.
Proof.
  exists sample_root, alice_secret, bob_secret. split_and!; [|done..]. unfold alice_session. cbn [ratchet].
  by destruct (init_eq SESSION_ID sample_root alice_secret (x25519_public bob_secret) []) as (? & ? & _ & ->).
Qed.

Lemma chat_delivery_any_order_witness :
  exists sa' envs sb',
    chat_encrypt_all 7 alice_identity "dev" [bs "one"; bs "two"; bs "three"] alice_session = (sa', Ok envs) /\
    chat_decrypt_all (omap (fun n => envs !! n) [2; 0]%nat) bob_session = (sb', Ok [bs "three"; bs "one"]).
Proof.
  apply (chat_delivery_any_order 7 alice_identity bob_identity "dev" alice_session bob_session
           [bs "one"; bs "two"; bs "three"] [2; 0]%nat);
    [apply sample_established | cbn; unfold MAX_SKIP_MESSAGES; lia | by_decide..].
Defined.

Lemma initiator_cannot_read_replies_witness :
  exists sa' envs sb' sb'' renvs,
    chat_encrypt_all 7 alice_identity "dev" [bs "hi"] alice_session = (sa', Ok envs) /\
    chat_decrypt_all (omap (fun n => envs !! n) [0]%nat) bob_session = (sb', Ok [bs "hi"]) /\
    chat_encrypt_all 7 bob_identity "bob-dev" [bs "reply"] sb' = (sb'', Ok renvs) /\ length renvs = 1%nat /\
    Forall (fun env => ChatSession_decrypt env sa' =
      (sa', Err ["ratchet decrypt"; "Ratchet error: No receiving chain established"])) renvs.
Proof.
  apply (initiator_cannot_read_replies 7 alice_identity bob_identity "dev" "bob-dev" alice_session bob_session
           [bs "hi"] [0]%nat [bs "reply"]);
    [apply sample_established | cbn; unfold MAX_SKIP_MESSAGES; lia | by_decide | by_decide | by_decide | done
    | cbn; unfold MAX_SKIP_MESSAGES; lia | by_decide].
Defined.

Definition sample_node : P2pNode nat nat := {| np_peer_id := 1%nat; np_running := true; np_controls := [] |}.

Lemma handshake_establishes_witness :
  exists pkm bundle env body ini node' ini' sa res sb,
    PrekeyMaterial_generate 9 (bs "c") (bs "k") bob_identity = Ok pkm /\
    ResponderHandshake_bundle (ResponderHandshake_new bob_identity pkm) = Ok bundle /\
    send_prekey 9 (bs "e") (bs "q") (bs "1") (bs "2") (bs "3") (bs "4") (bs "5") bundle
      (InitiatorHandshake_new alice_identity "dev" 3%nat, sample_node) = ((ini, node'), Ok tt) /\
    np_controls node' = [SendDirect 3%nat env] /\
    env_kind env = KIND_SYNC /\ env_encrypted_payload env = MARKER_PREKEY :: body /\
    on_prekey bob_secret body "conv" (ResponderHandshake_new bob_identity pkm) =
      (res, Ok (x25519_public bob_secret, sb)) /\
    establish alice_secret (x25519_public bob_secret) ini = (ini', Ok sa) /\
    established alice_identity bob_identity sa sb /\ resumable sa /\ session_wf sa /\ resumable sb /\ session_wf sb.
Proof.
  apply (handshake_establishes 9 (bs "c") (bs "k") (bs "e") (bs "q") (bs "1") (bs "2") (bs "3") (bs "4") (bs "5")
           alice_identity bob_identity "dev" 3%nat alice_secret bob_secret "conv" sample_node); [lia | reflexivity..].
Defined.

Lemma persist_resume_exact_witness :
  exists db', ChatSession_persist 5 bob_session sample_db = (db', Ok tt) /\
    resume "conv" db' = (db', Ok (Some bob_session)).
Proof.
  apply (persist_resume_exact 5 bob_session sample_db
           {| cvr_peer_classical := []; cvr_peer_pq := []; cvr_is_group := 0; cvr_created_at := 1 |}).
  - by split_and!.
  - split; [split_and!; try apply length_pad32; [apply public_wf | done]|].
    by eapply (init_as_responder_wf SESSION_ID sample_root bob_secret []).
  - reflexivity.
  - reflexivity.
Defined.

Lemma ratchet_always_typed_witness :
  exists d, DoubleRatchet_init_as_responder "s" sample_root bob_secret [] = Ok d /\
    half_wf (receiving_chain (DoubleRatchet_decrypt (bs "junk") (header_at alice_secret 3) d).1) /\
    (DoubleRatchet_decrypt (bs "junk") (header_at alice_secret 3) d).2 <> Ok [].
Proof.
  eexists. split; [reflexivity|]. split; [|vm_compute; discriminate].
  refine (proj1 (proj2 (proj2 (ratchet_always_typed "s" sample_root bob_secret [] [] _ _ _ _ _)))).
  - reflexivity.
  - right. split; [reflexivity | reflexivity].
  - apply rtc_once, typed_decrypt.
Defined.
