(* ===== verification/CryptoTests.v ===== *)
(** The unit tests of the crypto crate (the [tests] modules of [identity.rs],
    [pqxdh.rs], [ratchet.rs], [keys.rs], [crypto_box.rs] and
    [serialization.rs] of [presidium-crypto], and of [session_state.rs] of
    [presidium-storage]), as functions of the random bytes they draw.  They
    pass with every draw and with every primitive that keeps its documented
    laws, but for one that asserts that two HMAC outputs differ. *)

From S2P Require Import Prelude Constants Prims Concrete Ratchet RatchetFacts RatchetProps Serialization CryptoBox.
From S2P Require Import Identity IdentityProps Pqxdh PqxdhProps Keys KeysProps Sqleet SessionState SessionFacts Store StoreProps ChatSession ChatProps.

(** ** Tests *)

(** [unwrap] and the assertions panic; a test that passes gives [Ok tt]. *)
Definition unwrapped {E A} (r : result E A) : result string A :=
  match r with
  | Ok a => Ok a
  | Err _ => Panic "called Result::unwrap on an Err value"
  | Panic p => Panic p
  end.
Definition asserts (b : bool) : result string unit := if b then Ok tt else Panic "assertion failed".
Definition asserts_eq `{EqDecision A} (x y : A) : result string unit := asserts (bool_decide (x = y)).

Section Tests.
Context `{C : Crypto, B : Build}.

(** The [i]th draw of [n] random bytes. *)
Context (rnd : nat -> nat -> bytes).

Definition new_identity (i : nat) : result string IdentityKeyPair := unwrapped (IdentityKeyPair_generate (rnd i 32%nat) (rnd (S i) 32%nat)).
Definition new_kem (i : nat) : result string (HybridKemPublicKey * HybridKemPrivateKey) :=
  unwrapped (HybridKemPublicKey_generate (rnd i 32%nat) (rnd (S i) 64%nat)).

(** *** [identity.rs] *)

Definition test_identity_generation : result string unit :=
  identity ← new_identity 0;
  let public := IdentityKeyPair_public identity in
  asserts_eq (length (ip_classical public)) ED25519_PUBLIC_KEY_SIZE;;
  asserts_eq (length (ip_pq public)) ML_DSA_87_PUBLIC_KEY_SIZE.

Definition test_hybrid_signature : result string unit :=
  identity ← new_identity 0;
  sig ← unwrapped (sign_hybrid identity (bs "test message"));
  unwrapped (verify_hybrid (IdentityKeyPair_public identity) (bs "test message") sig).

Definition test_hybrid_kem : result string unit :=
  '(pub1, priv1) ← new_kem 0;
  '(pub2, priv2) ← new_kem 2;
  '(ct, shared1) ← unwrapped (encapsulate (rnd 4 32%nat) priv1 pub2);
  shared2 ← unwrapped (decapsulate priv2 ct pub1);
  asserts_eq shared1 shared2.

Definition test_prekey_bundle : result string unit :=
  identity ← new_identity 0;
  '(spk_pub, _) ← new_kem 2;
  signature ← unwrapped (sign_hybrid identity (kp_classical spk_pub));
  let spk := {| spk_key_id := 1; spk_public_key := spk_pub; spk_signature := signature; spk_timestamp := 1234567890 |} in
  otpks ← mapM (fun i => '(otpk_pub, _) ← new_kem (4 + 2 * i); mret {| opk_key_id := Z.of_nat i; opk_public_key := otpk_pub |}) (seq 0 5);
  bundle ← unwrapped (PreKeyBundle_new identity spk otpks);
  unwrapped (PreKeyBundle_verify bundle).

Definition test_hybrid_kem_serde `{SP : Serde HybridKemPublicKey} : result string unit :=
  '(public, _) ← new_kem 0;
  encoded ← unwrapped (to_vec public);
  decoded ← unwrapped (from_slice encoded);
  asserts_eq decoded public.

Definition test_hybrid_signature_serde `{SS : Serde HybridSignature} : result string unit :=
  identity ← new_identity 0;
  sig ← unwrapped (sign_hybrid identity (bs "serialized"));
  encoded ← unwrapped (to_vec sig);
  decoded ← unwrapped (from_slice encoded);
  asserts_eq decoded sig.

Definition test_identity_from_seed_roundtrip : result string unit :=
  identity ← new_identity 0;
  rebuilt ← unwrapped (IdentityKeyPair_from_seed (classical_seed identity) (pq_seed identity));
  asserts_eq (IdentityKeyPair_public rebuilt) (IdentityKeyPair_public identity);;
  signature ← unwrapped (sign_hybrid rebuilt (bs "seeded identity"));
  unwrapped (verify_hybrid (IdentityKeyPair_public identity) (bs "seeded identity") signature);;
  asserts_eq (classical_seed identity) (classical_seed identity).

Definition test_identity_from_seed_rejects_bad_sizes : result string unit :=
  asserts (negb (is_ok (IdentityKeyPair_from_seed (replicate 31 x01) (replicate 32 x02))));;
  asserts (negb (is_ok (IdentityKeyPair_from_seed (replicate 32 x01) (replicate 31 x02)))).

(** *** [ratchet.rs] *)

Definition test_chain_key_next : result string unit :=
  let chain := ChainKey_new (replicate CHAIN_KEY_SIZE x01) 0 in
  asserts_eq (ck_index chain) 0;;
  next ← unwrapped (ChainKey_next chain);
  asserts_eq (ck_index next) 1;;
  mk1 ← unwrapped (ChainKey_message_key chain);
  mk2 ← unwrapped (ChainKey_message_key next);
  asserts (bool_decide (mk_key mk1 <> mk_key mk2)).

Definition test_ratchet_encrypt_decrypt `{SH : Serde RatchetMessageHeader} : result string unit :=
  let alice_ratchet := rnd 0 32%nat in
  let bob_ratchet := rnd 1 32%nat in
  let root_key := RootKey_new (replicate ROOT_KEY_SIZE x42) in
  alice ← unwrapped (DoubleRatchet_init "test-session" root_key alice_ratchet (x25519_public bob_ratchet) (bs "aad"));
  bob ← unwrapped (DoubleRatchet_init_as_responder "test-session" root_key bob_ratchet (bs "aad"));
  let '(alice, sent) := DoubleRatchet_encrypt (bs "Hello, Bob!") alice in
  '(ciphertext, header) ← unwrapped sent;
  let '(bob, stepped) := DoubleRatchet_dh_ratchet (x25519_public alice_ratchet) bob in
  unwrapped stepped;;
  plaintext ← unwrapped (DoubleRatchet_decrypt ciphertext header bob).2;
  asserts_eq plaintext (bs "Hello, Bob!").

(** *** [pqxdh.rs] *)

Definition test_hybrid_dh_roundtrip : result string unit :=
  '(pub1, priv1) ← new_kem 0;
  '(pub2, priv2) ← new_kem 2;
  '(shared1, ct1) ← unwrapped (hybrid_encaps (rnd 4 32%nat) priv1 pub2);
  shared2 ← unwrapped (hybrid_dh priv2 pub1 (Some ct1));
  asserts_eq shared1 shared2.

Definition test_encrypt_decrypt_initial : result string unit :=
  let key := replicate 32 x42 in
  ciphertext ← unwrapped (pqxdh_encrypt_initial (rnd 0 12%nat) key (bs "Hello, world!") (bs "associated data"));
  decrypted ← unwrapped (pqxdh_decrypt_initial key ciphertext (bs "associated data"));
  asserts_eq decrypted (bs "Hello, world!").

(** The conversation after the handshake: a message and a reply. *)
Definition ratchet_exchange `{SH : Serde RatchetMessageHeader} (alice_ratchet bob_ratchet : bytes) (ratchet_alice ratchet_bob : DoubleRatchet)
    : result string unit :=
  let '(ratchet_alice, sent) := DoubleRatchet_encrypt (bs "Hello, Bob!") ratchet_alice in
  '(ct, header) ← unwrapped sent;
  asserts_eq (dh_public_key header) (x25519_public alice_ratchet);;
  let '(ratchet_bob, stepped) := DoubleRatchet_dh_ratchet (dh_public_key header) ratchet_bob in
  unwrapped stepped;;
  let '(ratchet_bob, read) := DoubleRatchet_decrypt ct header ratchet_bob in
  pt ← unwrapped read;
  asserts_eq pt (bs "Hello, Bob!");;
  let '(ratchet_bob, sent) := DoubleRatchet_encrypt (bs "Hello, Alice!") ratchet_bob in
  '(ct2, header2) ← unwrapped sent;
  asserts_eq (dh_public_key header2) (x25519_public bob_ratchet);;
  let '(ratchet_alice, stepped) := DoubleRatchet_dh_ratchet (dh_public_key header2) ratchet_alice in
  unwrapped stepped;;
  pt2 ← unwrapped (DoubleRatchet_decrypt ct2 header2 ratchet_alice).2;
  asserts_eq pt2 (bs "Hello, Alice!").

Definition test_pqxdh_full_handshake `{SH : Serde RatchetMessageHeader, SM : Serde PqxdhPrekeyMessage} : result string unit :=
  alice ← new_identity 0;
  bob ← new_identity 2;
  '(spk_pub, spk_priv) ← new_kem 4;
  signature ← unwrapped (sign_hybrid bob (bs "presidium-signed-prekey"));
  let spk := {| spk_key_id := 1; spk_public_key := spk_pub; spk_signature := signature; spk_timestamp := 1234567890 |} in
  '(otpk_pub, otpk_priv) ← new_kem 6;
  let otpk := {| opk_key_id := 7; opk_public_key := otpk_pub |} in
  bundle ← unwrapped (PreKeyBundle_new bob spk [otpk]);
  unwrapped (PreKeyBundle_verify bundle);;
  '(_, epk_priv) ← new_kem 8;
  '(out_alice, prekey_message) ← unwrapped (pqxdh_initiator (rnd 10 32%nat) (rnd 11 32%nat) (rnd 12 32%nat) (rnd 13 32%nat) (rnd 14 32%nat)
    {| ini_identity := alice; ini_ephemeral := epk_priv; ini_peer_bundle := bundle |});
  out_bob ← unwrapped (pqxdh_responder
    {| res_identity := bob; res_signed_prekey := spk_priv; res_signed_prekey_id := 1; res_one_time_prekey := Some otpk_priv;
       res_one_time_prekey_id := Some 7 |} prekey_message);
  asserts_eq (out_shared_secret out_alice) (out_shared_secret out_bob);;
  asserts_eq (out_signed_prekey_id out_alice) (out_signed_prekey_id out_bob);;
  asserts_eq (out_one_time_prekey_id out_alice) (out_one_time_prekey_id out_bob);;
  asserts_eq (out_ephemeral_public out_alice) (pm_ephemeral_public prekey_message);;
  encoded ← unwrapped (to_vec prekey_message);
  decoded ← unwrapped (from_slice encoded);
  asserts_eq (pm_identity_public decoded) (pm_identity_public prekey_message);;
  asserts_eq (pm_identity_kem_public decoded) (pm_identity_kem_public prekey_message);;
  session_alice ← unwrapped (SessionKeys_new true (out_shared_secret out_alice) (IdentityKeyPair_public bob));
  session_bob ← unwrapped (SessionKeys_new false (out_shared_secret out_bob) (IdentityKeyPair_public alice));
  asserts_eq (sk_root_key session_alice) (sk_root_key session_bob);;
  asserts_eq (sk_sending_chain session_alice) (sk_sending_chain session_bob);;
  asserts_eq (sk_receiving_chain session_alice) (sk_receiving_chain session_bob);;
  let alice_ratchet := rnd 15 32%nat in
  let bob_ratchet := rnd 16 32%nat in
  ratchet_alice ← unwrapped (SessionKeys_to_ratchet session_alice alice_ratchet (Some (x25519_public bob_ratchet)));
  ratchet_bob ← unwrapped (SessionKeys_to_ratchet session_bob bob_ratchet None);
  ratchet_exchange alice_ratchet bob_ratchet ratchet_alice ratchet_bob.

(** *** [keys.rs] *)

Definition test_media_key_roundtrip : result string unit :=
  key ← unwrapped (MediaKey_generate (rnd 0 32%nat) 1);
  enc ← unwrapped (MediaKey_encrypt_chunk key (bs "content block") 0);
  dec ← unwrapped (MediaKey_decrypt_chunk key enc 0);
  asserts_eq dec (bs "content block").

Definition test_sender_key : result string unit :=
  let identity := {| ik_public := [x01; x02; x03] |} in
  sender ← unwrapped (SenderKeys_new (rnd 0 32%nat) (bs "test-group") identity);
  let initial_chain := snd_chain_key sender in
  let '(sender, sent) := SenderKeys_encrypt (bs "group message") (bs "aad") sender in
  enc ← unwrapped sent;
  receiver ← unwrapped (SenderKeys_new (rnd 1 32%nat) (bs "test-group") identity);
  dec ← unwrapped (SenderKeys_decrypt enc 0 (bs "aad") (set_snd_chain initial_chain receiver)).2;
  asserts_eq dec (bs "group message").

(** One turn of the loop, on the sender and the receiver. *)
Definition sync_turn (index : Z) (p : SenderKeys * SenderKeys) : result string (SenderKeys * SenderKeys) :=
  let '(sender, receiver) := p in
  let '(sender, sent) := SenderKeys_encrypt (bs "chained") (bs "aad") sender in
  enc ← unwrapped sent;
  let '(receiver, read) := SenderKeys_decrypt enc index (bs "aad") receiver in
  dec ← unwrapped read;
  asserts_eq dec (bs "chained");;
  let '(receiver, advanced) := SenderKeys_advance receiver in
  unwrapped advanced;;
  mret (sender, receiver).

Definition test_sender_key_receiver_advance_stays_in_sync : result string unit :=
  let identity := {| ik_public := [x04; x05; x06] |} in
  sender ← unwrapped (SenderKeys_new (rnd 0 32%nat) (bs "sync-group") identity);
  let initial_chain := snd_chain_key sender in
  receiver ← unwrapped (SenderKeys_new (rnd 1 32%nat) (bs "sync-group") identity);
  '(sender, receiver) ← foldl (fun r index => p ← r; sync_turn index p) (Ok (sender, set_snd_chain initial_chain receiver)) [0; 1; 2];
  asserts_eq (snd_message_index receiver) 3;;
  asserts_eq (snd_chain_key receiver) (snd_chain_key sender).

(** *** [crypto_box.rs] *)

Definition test_crypto_box_roundtrip : result string unit :=
  let secret := rnd 0 32%nat in
  sealed ← unwrapped (CryptoBox_seal (rnd 1 32%nat) (rnd 2 12%nat) (x25519_public secret) (bs "secret payload"));
  opened ← unwrapped (CryptoBox_open sealed secret);
  asserts_eq opened (bs "secret payload").

Definition test_seal_open_functions `{SB : Serde CryptoBox} : result string unit :=
  let secret := rnd 0 32%nat in
  sealed ← unwrapped (crypto_box_seal (rnd 1 32%nat) (rnd 2 12%nat) (x25519_public secret) (bs "message"));
  opened ← unwrapped (crypto_box_open secret sealed);
  asserts_eq opened (bs "message").

(** *** [serialization.rs] *)

Definition test_roundtrip `{ST : Serde TestMessage} : result string unit :=
  let msg := {| tm_id := 42; tm_data := [x01; x02; x03] |} in
  bytes ← unwrapped (serialize msg);
  back ← unwrapped (deserialize bytes);
  asserts_eq msg back.

Definition test_bad_version `{ST : Serde TestMessage} : result string unit :=
  bytes ← unwrapped (serialize {| tm_id := 1; tm_data := [] |});
  asserts (negb (is_ok (deserialize (T := TestMessage) (<[length MAGIC := x63]> bytes)))).

(** *** [session_state.rs] *)

Definition snapshot_roundtrip_preserves_state `{SH : Serde RatchetMessageHeader} : result string unit :=
  ratchet ← unwrapped (DoubleRatchet_init "conv-1" (RootKey_new (replicate ROOT_KEY_SIZE x01)) (replicate X25519_PRIVATE_KEY_SIZE x02)
    (x25519_public (replicate X25519_PRIVATE_KEY_SIZE x03)) (bs "alice|bob"));
  let '(ratchet, sent) := DoubleRatchet_encrypt (bs "hello") ratchet in
  unwrapped sent;;
  let snapshot := RatchetSnapshot_from_ratchet ratchet in
  rebuilt ← unwrapped (RatchetSnapshot_to_ratchet snapshot "conv-1" (bs "alice|bob"));
  asserts_eq snapshot (RatchetSnapshot_from_ratchet rebuilt);;
  a ← unwrapped (DoubleRatchet_encrypt (bs "first") ratchet).2;
  b ← unwrapped (DoubleRatchet_encrypt (bs "first") rebuilt).2;
  asserts_eq a b.

Definition crypto_tests `{SH : Serde RatchetMessageHeader, SP : Serde HybridKemPublicKey, SS : Serde HybridSignature}
    `{SM : Serde PqxdhPrekeyMessage, SB : Serde CryptoBox, ST : Serde TestMessage} : list (result string unit) :=
  [test_identity_generation; test_hybrid_signature; test_hybrid_kem; test_prekey_bundle; test_hybrid_kem_serde; test_hybrid_signature_serde;
   test_identity_from_seed_roundtrip; test_identity_from_seed_rejects_bad_sizes; test_ratchet_encrypt_decrypt;
   test_hybrid_dh_roundtrip; test_encrypt_decrypt_initial; test_pqxdh_full_handshake; test_media_key_roundtrip; test_sender_key;
   test_sender_key_receiver_advance_stays_in_sync; test_crypto_box_roundtrip; test_seal_open_functions; test_roundtrip; test_bad_version;
   snapshot_roundtrip_preserves_state].
End Tests.

(** ** They pass *)

Lemma asserts_eq_refl `{EqDecision A} (x : A) : asserts_eq x x = Ok tt.
Proof. unfold asserts_eq, asserts. by rewrite bool_decide_eq_true_2. Qed.

(** Runs a test up to the next call of the crate. *)
Ltac go := repeat progress (cbn [unwrapped mbind result_bind mret result_ret fst snd]; rewrite ?asserts_eq_refl).

Section Pass.
Context `{C : Crypto, L : !CryptoLaws C, B : Build}.
Context (rnd : nat -> nat -> bytes) (drawn : forall i n, length (rnd i n) = n).

Lemma new_kem_ok i : exists k, new_kem rnd i = Ok (HybridKemPrivateKey_public_key k, k).
Proof.
  unfold new_kem, HybridKemPublicKey_generate. destruct (ml_kem_generates (rnd (S i) 64%nat)) as (seed & -> & _). cbn. by exists {| ks_classical := rnd i 32; ks_pq := seed |}.
Qed.

Lemma signed i message :
  exists sig, sign_hybrid i message = Ok sig /\ verify_hybrid (IdentityKeyPair_public i) message sig = Ok tt /\ wf sig.
Proof. eexists. split; [done|]. split; [by apply sign_verifies|by eapply sign_wf]. Qed.

Lemma test_identity_generation_passes : test_identity_generation rnd = Ok tt.
Proof.
  unfold test_identity_generation, new_identity, IdentityKeyPair_generate. go. cbn [IdentityKeyPair_public ip_classical ip_pq].
  rewrite length_ed25519_public, length_ml_dsa_public. reflexivity.
Qed.

Lemma test_hybrid_signature_passes : test_hybrid_signature rnd = Ok tt.
Proof.
  unfold test_hybrid_signature, new_identity, IdentityKeyPair_generate. go. edestruct signed as (sig & -> & Hv & _). go. by rewrite Hv.
Qed.

Lemma test_hybrid_kem_passes : test_hybrid_kem rnd = Ok tt.
Proof.
  unfold test_hybrid_kem. destruct (new_kem_ok 0) as [k1 ->], (new_kem_ok 2) as [k2 ->]. go.
  destruct (hybrid_kem_agrees (rnd 4 32) k1 k2) as (ct & s & -> & _ & Hd). go. rewrite Hd. by go.
Qed.

Lemma one_time_prekeys_ok l :
  exists otpks, mapM (fun i => '(otpk_pub, _) ← new_kem rnd (4 + 2 * i); mret {| opk_key_id := Z.of_nat i; opk_public_key := otpk_pub |}) l = Ok otpks.
Proof.
  induction l as [|i l [otpks IH]]; [by eexists|]. cbn [mapM]. destruct (new_kem_ok (4 + 2 * i)) as [k ->]. go. rewrite IH. go. by eexists.
Qed.

Lemma test_prekey_bundle_passes : test_prekey_bundle rnd = Ok tt.
Proof.
  unfold test_prekey_bundle, new_identity, IdentityKeyPair_generate. go. destruct (new_kem_ok 2) as [k2 ->]. go. edestruct signed as (sig & -> & _). go.
  destruct (one_time_prekeys_ok (seq 0 5)) as [otpks ->]. go.
  match goal with |- context [PreKeyBundle_new ?i ?s ?o] => destruct (bundle_new_verifies i s o) as (b & -> & Hv) end. go. by rewrite Hv.
Qed.

Lemma json_test {T} `{EqDecision T, SerdeOk T} (v : T) :
  wf v -> (encoded ← unwrapped (to_vec v); decoded ← unwrapped (from_slice encoded); asserts_eq decoded v) = Ok tt.
Proof. intros Hv. destruct (serde_total v Hv) as [b Hb]. rewrite Hb. go. rewrite (serde_roundtrip v b Hv Hb). by go. Qed.

Lemma test_hybrid_kem_serde_passes `{SP : Serde HybridKemPublicKey, SPO : !SerdeOk HybridKemPublicKey} : test_hybrid_kem_serde rnd = Ok tt.
Proof. unfold test_hybrid_kem_serde. destruct (new_kem_ok 0) as [k ->]. go. apply json_test, public_key_wf. Qed.

Lemma test_hybrid_signature_serde_passes `{SS : Serde HybridSignature, SSO : !SerdeOk HybridSignature} : test_hybrid_signature_serde rnd = Ok tt.
Proof.
  unfold test_hybrid_signature_serde, new_identity, IdentityKeyPair_generate. go. edestruct signed as (sig & -> & _ & Hw). go. by apply json_test.
Qed.

Lemma test_identity_from_seed_roundtrip_passes : test_identity_from_seed_roundtrip rnd = Ok tt.
Proof.
  unfold test_identity_from_seed_roundtrip, new_identity, IdentityKeyPair_generate. go. set (i := {| ikp_classical := _ |}).
  assert (wf i) as Hi by (split; apply drawn). rewrite (proj1 identity_from_seed_roundtrip i Hi : IdentityKeyPair_from_seed (classical_seed i) (pq_seed i) = Ok i).
  go. edestruct signed as (sig & -> & Hv & _). go. rewrite Hv. by go.
Qed.

(** The one test whose outcome the laws of the primitives do not decide: it
    passes exactly when HMAC does not collide on its inputs. *)
Lemma test_chain_key_next_passes :
  test_chain_key_next = Ok tt <-> msg_key_at (replicate CHAIN_KEY_SIZE x01) 0 <> msg_key_at (replicate CHAIN_KEY_SIZE x01) 1.
Proof.
  unfold test_chain_key_next. change (ChainKey_new (replicate CHAIN_KEY_SIZE x01) 0) with (chain_of (replicate CHAIN_KEY_SIZE x01) 0).
  rewrite next_of by done. go. rewrite !message_key_eq. go. unfold asserts.
  by case_bool_decide.
Qed.

(** One message to a party that has just ratcheted. *)
Lemma first_message `{SH : Serde RatchetMessageHeader, SO : !SerdeOk RatchetMessageHeader} k0 a alice bob pt :
  sending_at k0 a 0 alice -> recv_inv k0 [] 0 (receiving_chain bob) -> Z.of_nat (length pt) < 2 ^ 37 ->
  exists ct r', DoubleRatchet_encrypt pt alice = (on_sending (set_chain_key (Some (chain_of k0 1))) alice, Ok (ct, header_at a 0)) /\
    DoubleRatchet_decrypt ct (header_at a 0) bob = (on_receiving (fun _ => r') bob, Ok pt).
Proof.
  intros Hs Hr Hp. destruct (encrypt_step k0 a 0 alice pt Hs) as (ct & Hct & He); [lia|done|].
  destruct (decrypt_sealed k0 a [] 0 bob 0 pt ct Hr Hct) as (i' & r' & Hd & _); [by apply not_elem_of_nil|lia|]. by exists ct, r'.
Qed.

Lemma test_ratchet_encrypt_decrypt_passes `{SH : Serde RatchetMessageHeader, SO : !SerdeOk RatchetMessageHeader} : test_ratchet_encrypt_decrypt rnd = Ok tt.
Proof.
  unfold test_ratchet_encrypt_decrypt.
  destruct (session_start "test-session" (RootKey_new (replicate ROOT_KEY_SIZE x42)) (rnd 0 32) (rnd 1 32) (bs "aad"))
    as (root & k0 & alice & bob & bob' & -> & -> & Hdh & _ & _ & Hsend & Hrecv & _). go.
  destruct (first_message k0 (rnd 0 32) alice bob' (bs "Hello, Bob!") Hsend Hrecv) as (ct & r' & -> & Hd); [cbn; lia|]. go. rewrite Hdh. go.
  rewrite Hd. by go.
Qed.

(** *** [pqxdh.rs] *)

Lemma test_hybrid_dh_roundtrip_passes : test_hybrid_dh_roundtrip rnd = Ok tt.
Proof.
  unfold test_hybrid_dh_roundtrip. destruct (new_kem_ok 0) as [k1 ->], (new_kem_ok 2) as [k2 ->]. go.
  destruct (leg_agrees (rnd 4 32) k1 k2) as (s & ct & -> & Hd). go. rewrite Hd. by go.
Qed.

Lemma test_encrypt_decrypt_initial_passes : test_encrypt_decrypt_initial rnd = Ok tt.
Proof.
  unfold test_encrypt_decrypt_initial.
  destruct (pqxdh_initial_roundtrip (rnd 0 12) (replicate 32 x42) (bs "Hello, world!") (bs "associated data")) as [(msg & -> & _ & Hd) _];
    [apply drawn|cbn; lia|]. go. rewrite Hd. by go.
Qed.

Lemma initiator_ephemeral r1 r2 r3 r4 r5 keys out msg :
  pqxdh_initiator r1 r2 r3 r4 r5 keys = Ok (out, msg) -> out_ephemeral_public out = pm_ephemeral_public msg.
Proof.
  unfold pqxdh_initiator. intros H. do 2 apply result_bind_ok in H as (? & _ & H). do 4 apply result_bind_ok in H as ([? ?] & _ & H).
  apply result_bind_ok in H as ([[? ?] ?] & _ & H). apply result_bind_ok in H as (? & _ & H). by injection H as <- <-.
Qed.

Section Sessions.
Context `{SH : Serde RatchetMessageHeader, SO : !SerdeOk RatchetMessageHeader}.

(** The first reply: its chain is derived from the root key after the first
    step, which Alice computes from Bob's ratchet key. *)
Lemma reply_ready root a b alice bob pt :
  root_key alice = root -> root_key bob = root ->
  our_ratchet_key (receiving_chain alice) = None -> our_ratchet_key (sending_chain alice) = Some a ->
  skipped_message_keys (receiving_chain alice) = [] ->
  chain_key (sending_chain bob) = None -> our_ratchet_key (sending_chain bob) = Some b -> their_ratchet_public (sending_chain bob) = Some (x25519_public a) ->
  Z.of_nat (length pt) < 2 ^ 37 ->
  exists bob' ct alice', DoubleRatchet_encrypt pt bob = (bob', Ok (ct, header_at b 0)) /\
    DoubleRatchet_dh_ratchet (x25519_public b) alice = (alice', Ok tt) /\ (DoubleRatchet_decrypt ct (header_at b 0) alice').2 = Ok pt.
Proof.
  intros Hra Hrb Hao Ha Has Hbc Hb Hbt Hp. rewrite (encrypt_derives bob b (x25519_public a)) by done. rewrite Hrb.
  rewrite (dh_ratchet_eq alice a) by done. rewrite Hra, (x25519_agree a b).
  destruct (kdf_root_chain root (x25519_dh b (x25519_public a))) as [k2 Hk2]. destruct (kdf_root _ _) as [root2 c2]. cbn in Hk2. subst c2.
  set (bob1 := on_sending (set_chain_key (Some (chain_of k2 0))) (set_root_key root2 bob)).
  set (alice1 := on_receiving (set_chain_key (Some (chain_of k2 0))) (on_sending (set_their_ratchet_public (Some (x25519_public b))) (set_root_key root2 alice))).
  destruct (first_message k2 b bob1 alice1 pt) as (ct & r' & He & Hd); [by split|by apply recv_inv_fresh|done|].
  exists (on_sending (set_chain_key (Some (chain_of k2 1))) bob1), ct, alice1. split; [exact He|]. split; [reflexivity|]. by rewrite Hd.
Qed.

Lemma ratchet_exchange_passes sid rk a b ad :
  exists alice bob, DoubleRatchet_init sid rk a (x25519_public b) ad = Ok alice /\ DoubleRatchet_init_as_responder sid rk b ad = Ok bob /\
    ratchet_exchange a b alice bob = Ok tt.
Proof.
  destruct (session_start sid rk a b ad) as (root & k0 & alice & bob & bob' & Ha & Hb & Hdh & Hra & Hrb & Hsend & Hrecv & Har & Hbs).
  exists alice, bob. split; [done|]. split; [done|]. unfold ratchet_exchange.
  destruct (first_message k0 a alice bob' (bs "Hello, Bob!") Hsend Hrecv) as (ct & r' & -> & Hd); [cbn; lia|]. go.
  change (dh_public_key (header_at a 0)) with (x25519_public a). go. rewrite Hdh. go. rewrite Hd. go.
  destruct (reply_ready root a b (on_sending (set_chain_key (Some (chain_of k0 1))) alice) (on_receiving (fun _ => r') bob') (bs "Hello, Alice!"))
    as (bob2 & ct2 & alice2 & -> & Hdh2 & Hd2); [done|done|by cbn; rewrite Har|exact (proj2 Hsend)|by cbn; rewrite Har|by cbn; rewrite Hbs..|cbn; lia|].
  go. change (dh_public_key (header_at b 0)) with (x25519_public b). go. rewrite Hdh2. go. rewrite Hd2. by go.
Qed.

Lemma test_pqxdh_full_handshake_passes `{SM : Serde PqxdhPrekeyMessage, SMO : !SerdeOk PqxdhPrekeyMessage} : test_pqxdh_full_handshake rnd = Ok tt.
Proof.
  unfold test_pqxdh_full_handshake, new_identity, IdentityKeyPair_generate. go. set (alice := {| ikp_classical := rnd 0 32 |}). set (bob := {| ikp_classical := rnd 2 32 |}).
  destruct (new_kem_ok 4) as [spk ->], (new_kem_ok 6) as [otpk ->], (new_kem_ok 8) as [eph ->]. go. edestruct (signed bob) as (sig & -> & _). go.
  set (prekey := {| spk_key_id := 1 |}). set (one := {| opk_key_id := 7 |}). set (keys := {| res_identity := bob |}).
  destruct (handshake (rnd 10 32) (rnd 11 32) (rnd 12 32) (rnd 13 32) (rnd 14 32) alice eph prekey [one] keys) as (bundle & out & msg & Hnew & Hini & _ & Hid & Hwf & Hres);
    [done|done|by exists otpk|]. specialize (Hres (pm_identity_public msg)). replace (claim_identity (pm_identity_public msg) msg) with msg in Hres by by destruct msg.
  destruct (bundle_new_verifies bob prekey [one]) as (b & Hb & Hv). change (res_identity keys) with bob in Hnew. rewrite Hnew in Hb. injection Hb as <-.
  rewrite Hnew. go. rewrite Hv. go. rewrite Hini. go. rewrite Hres. go. rewrite (initiator_ephemeral _ _ _ _ _ _ _ _ Hini). go.
  assert (wf msg) as Hmsg by (apply Hwf; [by vm_compute|repeat constructor; first [apply length_x25519_public|apply length_ml_kem_public|by vm_compute]]).
  destruct (serde_total msg Hmsg) as [j Hj]. rewrite Hj. go. rewrite (serde_roundtrip msg j Hmsg Hj). go.
  destruct (session_keys_eq (out_shared_secret out)) as (root & send & recv & Hk). rewrite !Hk. go. unfold SessionKeys_to_ratchet. cbn [sk_is_initiator ok_or sk_root_key]. go.
  destruct (ratchet_exchange_passes "presidium-session" (RootKey_new root) (rnd 15 32) (rnd 16 32) []) as (ra & rb & -> & -> & Hx). by go.
Qed.

Lemma snapshot_roundtrip_passes : snapshot_roundtrip_preserves_state = Ok tt.
Proof.
  unfold snapshot_roundtrip_preserves_state. match goal with |- context [DoubleRatchet_init ?s ?r ?a ?p ?d] => destruct (init_eq s r a p d) as (root & k0 & _ & ->) end. go.
  match goal with |- context [DoubleRatchet_encrypt (bs "hello") ?d] => destruct (encrypt_step k0 (replicate X25519_PRIVATE_KEY_SIZE x02) 0 d (bs "hello")) as (ct & _ & ->) end;
    [by split|lia|cbn; lia|]. go. set (sent := on_sending _ _). rewrite snapshot_exact. change (root_key sent) with root.
  match goal with |- context [unwrapped (Ok ?r)] => change r with sent end. go.
  destruct (encrypt_step k0 (replicate X25519_PRIVATE_KEY_SIZE x02) 1 sent (bs "first")) as (ct' & _ & ->); [by split|lia|cbn; lia|]. by go.
Qed.
End Sessions.

(** *** [keys.rs] *)

Lemma test_media_key_roundtrip_passes : test_media_key_roundtrip rnd = Ok tt.
Proof.
  unfold test_media_key_roundtrip, MediaKey_generate. go. set (k := {| media_key := _ |}).
  destruct (media_chunk_roundtrip k (bs "content block") 0) as [(ct & -> & Hd) _]; [cbn; lia|]. go. rewrite Hd. by go.
Qed.

Lemma test_sender_key_passes : test_sender_key rnd = Ok tt.
Proof.
  unfold test_sender_key, SenderKeys_new. go.
  match goal with |- context [SenderKeys_encrypt _ _ ?s] => destruct (sender_encrypt_eq (bs "group message") (bs "aad") s) as (ct & -> & Hct) end; [cbn; lia..|]. go.
  rewrite sender_decrypt_eq. cbn [snd_chain_key set_snd_chain snd_message_index] in *. rewrite (aead_opens _ _ _ _ _ Hct). cbn [ok_or snd]. by go.
Qed.

(** One turn keeps the two in step. *)
Lemma sync_turn_ok i s r :
  KeysProps.in_step s r -> snd_message_index s = i -> 0 <= i -> i + 1 < 2 ^ 64 ->
  exists s' r', sync_turn i (s, r) = Ok (s', r') /\ KeysProps.in_step s' r' /\ snd_message_index s' = i + 1.
Proof.
  intros Hst <- H0 Hb. destruct (sender_step (bs "chained") (bs "aad") s r Hst H0 Hb) as (s' & r' & ct & He & Hr & Hst' & Hi'); [cbn; lia|].
  exists s', r'. split; [|done]. unfold sync_turn. rewrite He. go. unfold sender_receive in Hr. rewrite M_bind_eq in Hr. rewrite sender_decrypt_eq in Hr |- *.
  destruct (ok_or _ _) as [pt|e|p]; [|done..]. rewrite M_bind_eq, sender_advance_eq in Hr. injection Hr as <- ->. go. rewrite sender_advance_eq. by go.
Qed.

Lemma test_sender_key_sync_passes : test_sender_key_receiver_advance_stays_in_sync rnd = Ok tt.
Proof.
  unfold test_sender_key_receiver_advance_stays_in_sync, SenderKeys_new. go. cbn [foldl]. go.
  edestruct (sync_turn_ok 0) as (s1 & r1 & -> & H1 & Hi1); [by split|done|lia|lia|]. go.
  destruct (sync_turn_ok 1 s1 r1 H1 Hi1) as (s2 & r2 & -> & H2 & Hi2); [lia|lia|]. go.
  destruct (sync_turn_ok 2 s2 r2 H2 Hi2) as (s3 & r3 & -> & [Hk Hi] & Hi3); [lia|lia|]. go. rewrite <- Hi, Hi3, Hk. by go.
Qed.

(** *** [crypto_box.rs] and [serialization.rs] *)

Lemma test_crypto_box_roundtrip_passes : test_crypto_box_roundtrip rnd = Ok tt.
Proof.
  unfold test_crypto_box_roundtrip, CryptoBox_seal, CryptoBox_open. destruct (box_key_ok (x25519_dh (rnd 1 32) (x25519_public (rnd 0 32)))) as [key Hk].
  rewrite Hk. go. destruct (aead_seals key (rnd 2 12) (x25519_public (rnd 1 32)) (bs "secret payload")) as [ct Hct]; [cbn; lia|]. rewrite Hct.
  cbn [ok_or]. go. cbn [ephemeral_public nonce ciphertext]. rewrite x25519_agree, Hk. go. rewrite (aead_opens _ _ _ _ _ Hct). cbn [ok_or]. by go.
Qed.

Lemma test_seal_open_functions_passes `{SB : Serde CryptoBox, SBO : !SerdeOk CryptoBox} : test_seal_open_functions rnd = Ok tt.
Proof.
  unfold test_seal_open_functions. destruct (crypto_box_roundtrip (rnd 0 32) (rnd 1 32) (rnd 2 12) (bs "message")) as (msg & -> & Ho); [apply drawn|cbn; lia|].
  go. rewrite Ho. by go.
Qed.
End Pass.

Lemma test_roundtrip_passes `{ST : Serde TestMessage, STO : !SerdeOk TestMessage} : test_roundtrip = Ok tt.
Proof. unfold test_roundtrip. edestruct serialize_roundtrip as (data & -> & Hd); [by vm_compute|]. go. rewrite Hd. by go. Qed.

Lemma test_bad_version_passes `{ST : Serde TestMessage, STO : !SerdeOk TestMessage} : test_bad_version = Ok tt.
Proof.
  unfold test_bad_version, serialize. destruct (serde_total {| tm_id := 1; tm_data := [] |}) as [b ->]; [by vm_compute|]. cbn [map_err]. go.
  change (<[length MAGIC := x63]> (MAGIC ++ [FORMAT_VERSION] ++ b)) with (MAGIC ++ [x63] ++ b). by rewrite deserialize_framed, decide_True.
Qed.


(** ** Evaluation *)

