(* ===== verification/NetworkTests.v ===== *)
(** The unit tests of the network crate ([codec.rs], [topics.rs],
    [discovery.rs] and [identity.rs] of [presidium-network]), evaluated on the
    protobuf encoding of Protobuf. *)

From S2P Require Import Prelude Constants Prims Concrete Ratchet Identity Pqxdh Keys Sqleet SessionState Store ChatSession Network NetworkProps Protobuf CryptoTests.

#[export] Instance NetworkEnvelope_eq_dec : EqDecision NetworkEnvelope.
Proof. solve_decision. Defined.
#[export] Instance NetworkResponse_eq_dec : EqDecision NetworkResponse.
Proof. solve_decision. Defined.

(** *** [codec.rs] *)

Definition test_envelope : NetworkEnvelope :=
  {| env_kind := 1; env_conversation_id := bs "conv-1"; env_sender_device_id := [x01; x02; x03]; env_timestamp := 42;
     env_encrypted_payload := [x09; x09; x09]; env_mac := [x01]; env_protocol_version := 1; env_nonce := [x02]; env_signature := [x03] |}.

Definition empty_writer : Writer := {| written := []; closed := false |}.

Definition request_roundtrip : result string unit :=
  let req := {| req_envelope := Some test_envelope |} in
  let '(buf, sent) := write_request req empty_writer in
  unwrapped sent;;
  decoded ← unwrapped (read_request (written buf)).2;
  asserts_eq (req_envelope decoded) (req_envelope req).

Definition response_roundtrip : result string unit :=
  let res := {| res_status := 1; res_ack_id := bs "conv-1" |} in
  let '(buf, sent) := write_response res empty_writer in
  unwrapped sent;;
  decoded ← unwrapped (read_response (written buf)).2;
  asserts_eq decoded res.

(** *** [topics.rs] *)

Definition group_topic_format : result string unit :=
  topic ← unwrapped (group_topic [x01; x02; x03]);
  asserts_eq topic "/presidium/group/010203".

Definition topic_types_are_distinct : result string unit :=
  group ← unwrapped (group_topic [x01]);
  channel ← unwrapped (channel_topic [x01]);
  asserts (bool_decide (group <> channel)).

Definition empty_id_is_rejected : result string unit := asserts (negb (is_ok (group_topic []))).

(** *** [discovery.rs]: an address is its parts. *)

Definition plain_address : list (@Network.Protocol string string) := [Other "/ip4/127.0.0.1"; Other "/tcp/4001"].
Definition show_address (a : list (@Network.Protocol string string)) : string :=
  foldr (fun p s => match p with P2p id => "/p2p/" +:+ id | Other part => part end +:+ s) "" a.

Definition parses_plain_address : result string unit :=
  parsed ← unwrapped (parse_bootstrap_peer show_address plain_address);
  asserts (match bp_peer parsed with None => true | Some _ => false end);;
  asserts_eq (show_address (bp_address parsed)) (show_address plain_address).

Definition parses_address_with_peer_id : result string unit :=
  let addr := plain_address ++ [P2p "12D3KooWQJ6x2bYvG2RprK9xYJ9Q9JL7Nq5fQr7hLqCkfQjWz7sK"] in
  parsed ← unwrapped (parse_bootstrap_peer show_address addr);
  asserts (match bp_peer parsed with None => false | Some _ => true end);;
  asserts_eq (show_address (bp_address parsed)) "/ip4/127.0.0.1/tcp/4001".

(** *** [identity.rs] *)

Definition seed_must_be_32_bytes (from_bytes : bytes -> string + bytes) : result string unit :=
  asserts (negb (is_ok (NetworkIdentity_from_seed from_bytes (replicate 31 x00))));;
  asserts (negb (is_ok (NetworkIdentity_from_seed from_bytes (replicate 33 x00)))).

(** All of them pass, the last one whatever libp2p accepts as a key. *)
Lemma network_tests_pass from_bytes :
  Forall (eq (Ok tt))
    [request_roundtrip; response_roundtrip; group_topic_format; topic_types_are_distinct; empty_id_is_rejected; parses_plain_address;
     parses_address_with_peer_id; seed_must_be_32_bytes from_bytes].
Proof. repeat apply Forall_cons_2; [..|constructor]; vm_compute; reflexivity. Qed.
