(* ===== verification/Group.v ===== *)
(** Group chat over sender keys: [presidium-demo/src/group.rs].
    [publish] takes the node's handle by shared reference; it is part of the
    state, next to the group. *)

From S2P Require Import Prelude Constants Prims Ratchet Identity Pqxdh Keys Sqleet SessionState Store ChatSession Network Node Handshake.

Definition DEMO_GROUP : string := "presidium-demo-group".

Record GroupKeyDistribution := { gkd_chain_key : bytes; gkd_key_id : Z; gkd_message_index : Z }.

#[export] Instance GroupKeyDistribution_wf : Wf GroupKeyDistribution := fun d =>
  length (gkd_chain_key d) = CHAIN_KEY_SIZE /\ is_u64 (gkd_key_id d) /\ is_u64 (gkd_message_index d).

Record GroupChat := {
  gc_topic : string;
  gc_group_id : bytes;
  gc_conversation_id : string;
  gc_sender : option SenderKeys;
  gc_receiver : option SenderKeys;
  gc_peer_identity : option IdentityPublicKey
}.

Definition set_sender (s : option SenderKeys) (g : GroupChat) : GroupChat :=
  {| gc_topic := gc_topic g; gc_group_id := gc_group_id g; gc_conversation_id := gc_conversation_id g;
     gc_sender := s; gc_receiver := gc_receiver g; gc_peer_identity := gc_peer_identity g |}.
Definition set_receiver (r : option SenderKeys) (g : GroupChat) : GroupChat :=
  {| gc_topic := gc_topic g; gc_group_id := gc_group_id g; gc_conversation_id := gc_conversation_id g;
     gc_sender := gc_sender g; gc_receiver := r; gc_peer_identity := gc_peer_identity g |}.
Definition set_gc_peer (p : option IdentityPublicKey) (g : GroupChat) : GroupChat :=
  {| gc_topic := gc_topic g; gc_group_id := gc_group_id g; gc_conversation_id := gc_conversation_id g;
     gc_sender := gc_sender g; gc_receiver := gc_receiver g; gc_peer_identity := p |}.

Section Group.
Context `{C : Crypto, B : Build, SS : Serde HybridSignature, SG : Serde SenderKeyMessage}.

Definition GroupChat_new : result AppError GroupChat :=
  topic ← map_err show_network (group_topic (bs DEMO_GROUP));
  mret {| gc_topic := topic; gc_group_id := bs DEMO_GROUP; gc_conversation_id := "group:" +:+ DEMO_GROUP;
          gc_sender := None; gc_receiver := None; gc_peer_identity := None |}.

(** [rnd] is the drawn chain key. *)
Definition create_sender (rnd : bytes) (identity : IdentityKeyPair) : M GroupChat AppError GroupKeyDistribution :=
  let identity_key := {| ik_public := ip_classical (IdentityKeyPair_public identity) |} in
  group_id ← gets gc_group_id;
  keys ← lift (map_err show_crypto (SenderKeys_new rnd group_id identity_key));
  modify (set_sender (Some keys));;
  mret {| gkd_chain_key := snd_chain_key keys; gkd_key_id := snd_key_id keys;
          gkd_message_index := snd_message_index keys |}.

Definition apply_group_key (d : GroupKeyDistribution) (sender_identity : IdentityPublicKey) (g : GroupChat) : GroupChat :=
  set_receiver (Some {| snd_chain_key := gkd_chain_key d; snd_group_id := gc_group_id g;
                        snd_sender_identity := {| ik_public := ip_classical sender_identity |};
                        snd_message_index := gkd_message_index d; snd_key_id := gkd_key_id d |})
    (set_gc_peer (Some sender_identity) g).

(** An operation on [self.sender] or [self.receiver], in place. *)
Definition on_sender {A} (s : SenderKeys) (m : M SenderKeys CryptoError A) : M GroupChat AppError A := fun g =>
  let '(s', r) := m s in (set_sender (Some s') g, map_err show_crypto r).
Definition on_receiver {A} (s : SenderKeys) (m : M SenderKeys CryptoError A) : M GroupChat AppError A := fun g =>
  let '(s', r) := m s in (set_receiver (Some s') g, map_err show_crypto r).

(** [publish] up to the envelope it hands to the node. *)
Definition seal_group (now : Z) (identity : IdentityKeyPair) (device_id : string) (plaintext : bytes)
    : M GroupChat AppError NetworkEnvelope :=
  sender ← gets gc_sender;
  s ← lift (ok_or sender ["no sender keys"]);
  group_id ← gets gc_group_id;
  '(ciphertext, index) ← on_sender s (ct ← SenderKeys_encrypt plaintext group_id;
                                      i ← gets snd_message_index;
                                      i' ← lift (u64_sub i 1);
                                      mret (ct, i'));
  let message := {| skm_group_id := group_id;
                    skm_sender_identity := {| ik_public := ip_classical (IdentityKeyPair_public identity) |};
                    skm_message_index := index; skm_ciphertext := ciphertext |} in
  body ← lift (map_err show_serde (to_vec message));
  conversation ← gets gc_conversation_id;
  lift (build_raw_envelope now identity device_id KIND_GROUP (bs conversation) ciphertext body).

Definition publish {PeerId Addr} (now : Z) (identity : IdentityKeyPair) (device_id : string) (plaintext : bytes)
    : M (GroupChat * P2pNode PeerId Addr) AppError unit :=
  envelope ← on_first (seal_group now identity device_id plaintext);
  topic ← gets (gc_topic ∘ fst);
  on_second (with_err (fun e => "gossipsub publish" :: show_network e) (P2pNode_publish topic envelope)).

Definition GroupChat_decrypt (envelope : NetworkEnvelope) : M GroupChat AppError bytes :=
  peer_identity ← gets gc_peer_identity;
  peer ← lift (ok_or peer_identity ["no group sender identity"]);
  verified ← lift (verify_envelope peer envelope);
  if negb verified then fail ["group signature verification failed"]
  else
    message ← lift (context show_serde "parse group message" (from_slice (env_nonce envelope)));
    receiver ← gets gc_receiver;
    r ← lift (ok_or receiver ["no receiver keys"]);
    group_id ← gets gc_group_id;
    on_receiver r (plaintext ← SenderKeys_decrypt (env_encrypted_payload envelope) (skm_message_index message) group_id;
                   SenderKeys_advance;;
                   mret plaintext).
End Group.

(** [text.len()] and the slices count bytes; a peer id is ASCII.  The
    ellipsis is three bytes of UTF-8. *)
Definition ellipsis : string := String (Ascii.ascii_of_nat 226) (String (Ascii.ascii_of_nat 128) (String (Ascii.ascii_of_nat 166) "")).
Definition short_peer (text : string) : string :=
  if decide (12 < String.length text)%nat
  then String.substring 0 6 text +:+ ellipsis +:+ String.substring (String.length text - 4) 4 text
  else text.
