(* ===== verification/GroupProps.v ===== *)
(** Group chat: what the publisher sends is what the reader reads. *)

From S2P Require Import Prelude Constants Prims Concrete Ratchet RatchetFacts RatchetProps.
From S2P Require Import Identity IdentityProps Pqxdh PqxdhProps Keys KeysProps Sqleet SessionState Store StoreProps.
From S2P Require Import ChatSession Network Node Handshake ChatProps Group.

Section Props.
Context `{C : Crypto, L : !CryptoLaws C, B : Build}.
Context `{SS : Serde HybridSignature, SSO : !SerdeOk HybridSignature}.
Context `{SG : Serde SenderKeyMessage, SGO : !SerdeOk SenderKeyMessage}.

(** A publisher and a reader of one group, in step. *)
Definition group_in_step (i : IdentityKeyPair) (p r : GroupChat) : Prop :=
  exists s k, gc_sender p = Some s /\ gc_receiver r = Some k /\ in_step s k /\
    0 <= snd_message_index s /\ gc_group_id p = gc_group_id r /\
    gc_peer_identity r = Some (IdentityKeyPair_public i).

Definition group_index (g : GroupChat) : Z := match gc_sender g with Some s => snd_message_index s | None => 0 end.

Lemma group_step now i dev pt p r :
  group_in_step i p r -> group_index p + 1 < 2 ^ 64 -> Z.of_nat (length pt) < 2 ^ 37 ->
  exists p' env r',
    seal_group now i dev pt p = (p', Ok env) /\ gc_topic p' = gc_topic p /\
    GroupChat_decrypt env r = (r', Ok pt) /\ group_in_step i p' r' /\ group_index p' = group_index p + 1.
Proof.
  intros (s & k & Hs & Hk & Hst & H0 & Hg & Hp) Hi Hl. unfold group_index in Hi. rewrite Hs in Hi.
  destruct (sender_step pt (gc_group_id p) s k Hst H0 Hi Hl) as (s' & k' & ct & Henc & Hrec & Hst' & Hidx).
  set (msg := {| skm_group_id := gc_group_id p;
                 skm_sender_identity := {| ik_public := ip_classical (IdentityKeyPair_public i) |};
                 skm_message_index := snd_message_index s; skm_ciphertext := ct |}).
  assert (wf msg) as Hw by (split; cbn; lia). destruct (serde_total msg Hw) as [body Hbody].
  destruct (raw_envelope_ok now i dev KIND_GROUP (bs (gc_conversation_id p)) ct body) as (env & Henv & Hn & Hpay & _ & Hv).
  eexists _, env, _. split_and!.
  - unfold seal_group. mrun. rewrite Hs. cbn [ok_or]. mrun. unfold on_sender. mrun. rewrite Henc. mrun.
    rewrite u64_sub_ok by lia. mrun. rewrite Hidx. replace (snd_message_index s + 1 - 1) with (snd_message_index s) by lia.
    cbn [map_err]. mrun. fold msg. rewrite Hbody. cbn [map_err]. mrun. cbn [set_sender gc_conversation_id].
    by rewrite Henv.
  - done.
  - unfold GroupChat_decrypt. mrun. rewrite Hp. cbn [ok_or]. mrun. rewrite Hv. mrun. cbn [negb].
    mrun. rewrite Hn, (serde_roundtrip msg body Hw Hbody). cbn [context map_err]. mrun. rewrite Hk. cbn [ok_or]. mrun.
    unfold on_receiver. rewrite Hpay, <- Hg. unfold sender_receive in Hrec. cbn [msg skm_message_index].
    rewrite Hrec. done.
  - exists s', k'. split_and!; try done. rewrite Hidx. lia.
  - unfold group_index. cbn. by rewrite Hs.
Qed.

Context {PeerId Addr : Type}.

(** What a run of [publish] puts into the control channel. *)
Lemma group_run now i dev pts p r (node : P2pNode PeerId Addr) :
  np_running node = true ->
  group_in_step i p r -> group_index p + Z.of_nat (length pts) < 2 ^ 64 ->
  Forall (fun pt => Z.of_nat (length pt) < 2 ^ 37) pts ->
  exists envs p' node' r' done,
    mapM (publish now i dev) pts (p, node) = ((p', node'), Ok done) /\
    np_controls node' = np_controls node ++ map (CtlPublish (gc_topic p)) envs /\
    mapM GroupChat_decrypt envs r = (r', Ok pts).
Proof.
  intros Hrun Hst Hb Hp. revert p r node Hrun Hst Hb. induction Hp as [|pt pts Hpt Hp IH]; intros p r node Hrun Hst Hb.
  - exists [], p, node, r, []. split_and!; [done | by rewrite app_nil_r | done].
  - cbn [length] in Hb.
    destruct (group_step now i dev pt p r Hst) as (p1 & env & r1 & Hseal & Htop & Hdec & Hst1 & Hi1); [lia | done |].
    set (node1 := {| np_peer_id := np_peer_id node; np_running := np_running node;
                     np_controls := np_controls node ++ [CtlPublish (gc_topic p1) env] |}).
    destruct (IH p1 r1 node1 Hrun Hst1) as (envs & p' & node' & r' & dn & Hl & Hc & Hdl); [lia|].
    exists (env :: envs), p', node', r', (tt :: dn). split_and!.
    + apply mapM_cons_ok. exists (p1, node1), tt, dn. split_and!; [|done|done].
      unfold publish. mrun. unfold on_first, zoom. cbn [fst snd]. rewrite Hseal. mrun.
      unfold on_second, zoom, with_err, P2pNode_publish. cbn [fst snd]. by rewrite send_control_ok.
    + rewrite Hc. cbn. by rewrite <- app_assoc, Htop.
    + apply mapM_cons_ok. by exists r1, pt, pts.
Qed.

(** C30. Group chat delivers in order: the publisher creates its sender keys,
    the reader applies the distribution it produced; then every message the
    publisher publishes, up to 2^64 - 1 of them, is handed to the node under
    the group's topic, and verified and decrypted by the reader to its
    plaintext, when the envelopes arrive in order. *)
Theorem group_chat_in_order now i dev rnd pts g (node : P2pNode PeerId Addr) :
  np_running node = true ->
  Z.of_nat (length pts) < 2 ^ 64 - 1 -> Forall (fun pt => Z.of_nat (length pt) < 2 ^ 37) pts ->
  exists p d, create_sender rnd i g = (p, Ok d) /\
    exists envs p' node' r' done,
      mapM (publish now i dev) pts (p, node) = ((p', node'), Ok done) /\
      np_controls node' = np_controls node ++ map (CtlPublish (gc_topic g)) envs /\
      mapM GroupChat_decrypt envs (apply_group_key d (IdentityKeyPair_public i) g) = (r', Ok pts).
Proof.
  intros Hrun Hb Hp. eexists _, _. split; [done|]. 
  refine (group_run now i dev pts (set_sender (Some _) g) _ node Hrun _ _ Hp); [|cbn; lia].
  eexists _, _. by split_and!.
Qed.
End Props.

(** ** Evaluation *)

#[export] Instance IdentityKey_eq_dec : EqDecision IdentityKey.
Proof. solve_decision. Defined.
#[export] Instance IdentityKey_countable : Countable IdentityKey :=
  inj_countable' ik_public (fun p => {| ik_public := p |}) ltac:(by intros []).
#[export] Instance SenderKeyMessage_eq_dec : EqDecision SenderKeyMessage.
Proof. solve_decision. Defined.
#[export] Instance SenderKeyMessage_countable : Countable SenderKeyMessage :=
  inj_countable' (fun m => (skm_group_id m, skm_sender_identity m, skm_message_index m, skm_ciphertext m))
    (fun '(g, s, i, c) => {| skm_group_id := g; skm_sender_identity := s; skm_message_index := i; skm_ciphertext := c |})
    ltac:(by intros []).
#[export] Instance SenderKeyMessage_wf_dec : forall m : SenderKeyMessage, Decision (wf m).
Proof. intros m. apply is_u64_dec. Defined.
Definition concrete_group_message : Serde SenderKeyMessage := countable_serde SenderKeyMessage.
#[export] Instance concrete_group_message_ok : @SerdeOk SenderKeyMessage _ concrete_group_message :=
  countable_serde_ok SenderKeyMessage.
#[local] Existing Instances dev_build concrete_signature concrete_group_message.

Definition sample_group : GroupChat :=
  {| gc_topic := "t"; gc_group_id := bs DEMO_GROUP; gc_conversation_id := "group"; gc_sender := None;
     gc_receiver := None; gc_peer_identity := None |}.

Lemma group_chat_in_order_witness :
  exists p d, create_sender (pad32 (bs "chain")) alice_identity sample_group = (p, Ok d) /\
    exists envs p' node' r' done,
      mapM (publish 3 alice_identity "dev") [bs "a"; bs "b"] (p, sample_node) = ((p', node'), Ok done) /\
      np_controls node' = map (CtlPublish "t") envs /\
      mapM GroupChat_decrypt envs (apply_group_key d (IdentityKeyPair_public alice_identity) sample_group)
        = (r', Ok [bs "a"; bs "b"]).
Proof. apply (group_chat_in_order 3 alice_identity "dev" (pad32 (bs "chain")) [bs "a"; bs "b"] sample_group sample_node); [done | done | by_decide]. Defined.
