(* ===== verification/App.v ===== *)
(** The demo application: [presidium-demo/src/main.rs], with the node store of
    [presidium-demo/src/store.rs].

    [App] is the application state, each branch of [handle_direct] a
    definition of its own, and the event loop a function of the inputs that
    [select!] picks, in order.  What a handler takes from outside is its
    [Ambient]: the clock readings and the random draws, in the order of the
    calls.  The database is its tables (Store); that the engine may fail at any
    call of the store is the class [Disk].  Printing is a list of what is
    printed, one constructor per kind of line, without the text around it.  A
    line of input is the trimmed line. *)

From S2P Require Import Prelude Constants Prims Ratchet Identity Pqxdh Keys Sqleet SessionState Store.
From S2P Require Import ChatSession Network Node Handshake Group.

(** ** The node store *)

(** [ns_bundle_file] is the file [bundle.json], when there is one. *)
Record NodeStore := {
  ns_db : Db;
  ns_identity : IdentityKeyPair;
  ns_device_id : string;
  ns_bundle_file : option bytes
}.

Definition set_db (db : Db) (s : NodeStore) : NodeStore :=
  {| ns_db := db; ns_identity := ns_identity s; ns_device_id := ns_device_id s; ns_bundle_file := ns_bundle_file s |}.

(** [self.db.op(..).map_err(|e| anyhow!("c: {e}"))]. *)
Definition on_store_db {A} (c : string) (m : M Db StorageError A) : M NodeStore AppError A :=
  zoom ns_db set_db (with_err (fun e => [c +:+ ": " +:+ StorageError_to_string e]) m).

Definition NodeStore_upsert_conversation (now : Z) (id : string) (peer : IdentityPublicKey) (is_group : bool)
    : M NodeStore AppError unit :=
  on_store_db "upsert conversation"
    (upsert_conversation {| cv_id := id; cv_peer_classical := ip_classical peer; cv_peer_pq := ip_pq peer;
                            cv_is_group := is_group; cv_created_at := now |}).

Definition NodeStore_insert_message (now : Z) (conversation_id : string) (message_id : bytes) (sender : IdentityPublicKey)
    (ciphertext : bytes) (header : string) (direction : MessageDirection) : M NodeStore AppError Z :=
  on_store_db "insert message"
    (insert_message {| mr_id := 0; mr_conversation_id := conversation_id; mr_message_id := message_id;
                       mr_sender_classical := ip_classical sender; mr_ciphertext := ciphertext; mr_header := header;
                       mr_content_type := 0; mr_direction := direction;
                       mr_status := match direction with Incoming => Delivered | Outgoing => Sent end;
                       mr_created_at := now |}).

Definition NodeStore_update_message_status (id : Z) (status : MessageStatus) : M NodeStore AppError unit :=
  on_store_db "update message status" (update_message_status id status).

(** The messages [print_history] prints. *)
Definition NodeStore_history (conversation_id : string) : M NodeStore AppError (list MessageRecord) :=
  on_store_db "list messages" (list_messages conversation_id None 100).

Section Identity.
Context `{C : Crypto}.

(** [classical_rnd], [pq_rnd] and [device_rnd] are the random draws. *)
Definition load_or_create_identity (now : Z) (classical_rnd pq_rnd device_rnd : bytes)
    : M Db AppError (IdentityKeyPair * string) :=
  record ← with_err (fun e => ["load identity: " +:+ StorageError_to_string e]) load_identity;
  match record with
  | Some r =>
      identity ← lift (map_err show_crypto (IdentityKeyPair_from_seed (ir_classical_seed r) (ir_pq_seed r)));
      mret (identity, ir_device_id r)
  | None =>
      identity ← lift (map_err show_crypto (IdentityKeyPair_generate classical_rnd pq_rnd));
      let device_id := hex_encode device_rnd in
      with_err (fun e => ["save identity: " +:+ StorageError_to_string e])
        (save_identity {| ir_device_id := device_id; ir_classical_seed := classical_seed identity;
                          ir_pq_seed := pq_seed identity; ir_created_at := now |});;
      mret (identity, device_id)
  end.

(** [prekey]: an unreadable file counts as no file.  [pretty] is
    [serde_json::to_vec_pretty], [write_result] the outcome of writing; a
    failed write ends the program and is taken to leave no file. *)
Definition NodeStore_prekey `{SP : Serde PrekeyMaterial} (pretty : PrekeyMaterial -> result string bytes)
    (write_result : result string unit) (now_secs : Z) (classical_rnd kem_rnd : bytes) : M NodeStore AppError PrekeyMaterial :=
  file ← gets ns_bundle_file;
  match (text ← file; guard (utf8_error 0 text = None);; Some text) with
  | Some text => lift (context show_serde "parse stored bundle" (from_slice text))
  | None =>
      identity ← gets ns_identity;
      material ← lift (PrekeyMaterial_generate now_secs classical_rnd kem_rnd identity);
      text ← lift (map_err show_serde (pretty material));
      lift (map_err show_serde write_result);;
      modify (fun s => {| ns_db := ns_db s; ns_identity := ns_identity s; ns_device_id := ns_device_id s;
                          ns_bundle_file := Some text |});;
      mret material
  end.
End Identity.

(** ** The application *)

(** One constructor per kind of line printed. *)
Inductive Output {PeerId Addr : Type} :=
| OutBanner
| OutInfo (session ready : bool)
| OutHistory (conversation_id : string) (messages : list MessageRecord)
| OutNotice (text : string)
| OutListening (address : Addr)
| OutAddresses (addresses : list Addr)
| OutConnect (address : Addr)
| OutPeer (text : string) (peer : PeerId)
| OutDirect (from : PeerId) (plaintext : bytes)
| OutDirectSent (line : string)
| OutGroup (from : PeerId) (plaintext : bytes)
| OutGroupSent (text : string)
| OutGroupFailed (error : AppError)
| OutDelivery (to : PeerId) (ok : bool)
| OutFailed (to : PeerId) (error : string).
Arguments Output : clear implicits.

Record App {PeerId Addr : Type} := {
  ap_store : NodeStore;
  ap_node : P2pNode PeerId Addr;
  ap_initiator : option (InitiatorHandshake PeerId);
  ap_responder : option ResponderHandshake;
  ap_session : option ChatSession;
  ap_group : GroupChat;
  ap_peer : option PeerId;
  ap_last_outgoing : option Z;
  ap_output : list (Output PeerId Addr)
}.
Arguments App : clear implicits.

(** What a handler takes from outside. *)
Record Ambient := {
  clock : nat -> Z;
  draw : nat -> bytes;
  draw_u32 : Z
}.

(** ** Engine failures

    [disk am k] is the error, in the caller's words, that the [k]th store call
    of a turn with ambient [am] ends with when the engine fails at it (a full
    disk, a lock, an I/O error); [None] when the engine does its work.  A call
    that fails changes nothing, which StoreCalls shows of every call the
    application makes; a call that fails for another reason keeps its error. *)
Class Disk := disk : Ambient -> nat -> option AppError.

Definition engine_call `{DK : Disk} {S A} (am : Ambient) (k : nat) (m : M S AppError A) : M S AppError A :=
  match disk am k with
  | None => m
  | Some e => fun s => match m s with
                       | (_, Ok _) => (s, Err e)
                       | out => out
                       end
  end.

(** An engine that does not fail. *)
Definition quiet_disk : Disk := fun _ _ => None.

Lemma engine_call_ok `{DK : Disk} {S A} am k (m : M S AppError A) s s' x :
  engine_call am k m s = (s', Ok x) -> m s = (s', Ok x).
Proof. unfold engine_call. destruct (disk am k); [|done]. by destruct (m s) as [s1 [| |]]. Qed.

(** A turn in which the engine does not fail. *)
Definition steady `{DK : Disk} (am : Ambient) : Prop := forall k, disk am k = None.

Lemma engine_call_steady `{DK : Disk} {S A} am k (m : M S AppError A) : steady am -> engine_call am k m = m.
Proof. intros Hk. unfold engine_call. by rewrite Hk. Qed.

Lemma engine_call_keeps `{DK : Disk} {S A} am k (m : M S AppError A) P : keeps P m -> keeps P (engine_call am k m).
Proof.
  intros Hm s Hs. specialize (Hm s Hs). unfold engine_call. destruct (disk am k); [|done]. by destruct (m s) as [s1 [| |]].
Qed.

Section Setters.
Context {PeerId Addr : Type}.
Implicit Types a : App PeerId Addr.

Definition set_store s a : App PeerId Addr :=
  {| ap_store := s; ap_node := ap_node a; ap_initiator := ap_initiator a; ap_responder := ap_responder a;
     ap_session := ap_session a; ap_group := ap_group a; ap_peer := ap_peer a;
     ap_last_outgoing := ap_last_outgoing a; ap_output := ap_output a |}.
Definition set_node n a : App PeerId Addr :=
  {| ap_store := ap_store a; ap_node := n; ap_initiator := ap_initiator a; ap_responder := ap_responder a;
     ap_session := ap_session a; ap_group := ap_group a; ap_peer := ap_peer a;
     ap_last_outgoing := ap_last_outgoing a; ap_output := ap_output a |}.
Definition set_initiator i a : App PeerId Addr :=
  {| ap_store := ap_store a; ap_node := ap_node a; ap_initiator := i; ap_responder := ap_responder a;
     ap_session := ap_session a; ap_group := ap_group a; ap_peer := ap_peer a;
     ap_last_outgoing := ap_last_outgoing a; ap_output := ap_output a |}.
Definition set_responder r a : App PeerId Addr :=
  {| ap_store := ap_store a; ap_node := ap_node a; ap_initiator := ap_initiator a; ap_responder := r;
     ap_session := ap_session a; ap_group := ap_group a; ap_peer := ap_peer a;
     ap_last_outgoing := ap_last_outgoing a; ap_output := ap_output a |}.
Definition set_session s a : App PeerId Addr :=
  {| ap_store := ap_store a; ap_node := ap_node a; ap_initiator := ap_initiator a; ap_responder := ap_responder a;
     ap_session := s; ap_group := ap_group a; ap_peer := ap_peer a;
     ap_last_outgoing := ap_last_outgoing a; ap_output := ap_output a |}.
Definition set_group g a : App PeerId Addr :=
  {| ap_store := ap_store a; ap_node := ap_node a; ap_initiator := ap_initiator a; ap_responder := ap_responder a;
     ap_session := ap_session a; ap_group := g; ap_peer := ap_peer a;
     ap_last_outgoing := ap_last_outgoing a; ap_output := ap_output a |}.
Definition set_peer p a : App PeerId Addr :=
  {| ap_store := ap_store a; ap_node := ap_node a; ap_initiator := ap_initiator a; ap_responder := ap_responder a;
     ap_session := ap_session a; ap_group := ap_group a; ap_peer := p;
     ap_last_outgoing := ap_last_outgoing a; ap_output := ap_output a |}.
Definition set_last_outgoing r a : App PeerId Addr :=
  {| ap_store := ap_store a; ap_node := ap_node a; ap_initiator := ap_initiator a; ap_responder := ap_responder a;
     ap_session := ap_session a; ap_group := ap_group a; ap_peer := ap_peer a;
     ap_last_outgoing := r; ap_output := ap_output a |}.

(** [println!]. *)
Definition println (o : Output PeerId Addr) : M (App PeerId Addr) AppError unit := modify (fun a =>
  {| ap_store := ap_store a; ap_node := ap_node a; ap_initiator := ap_initiator a; ap_responder := ap_responder a;
     ap_session := ap_session a; ap_group := ap_group a; ap_peer := ap_peer a;
     ap_last_outgoing := ap_last_outgoing a; ap_output := ap_output a ++ [o] |}).

(** ** Operations on the parts of the application *)

Definition on_store {A} (m : M NodeStore AppError A) : M (App PeerId Addr) AppError A := zoom ap_store set_store m.
Definition on_db {A} (m : M Db AppError A) : M (App PeerId Addr) AppError A := on_store (zoom ns_db set_db m).
Definition on_group {A} (m : M GroupChat AppError A) : M (App PeerId Addr) AppError A := zoom ap_group set_group m.

(** [app.node.send_direct(..).await?]. *)
Definition send_to (peer : PeerId) (envelope : NetworkEnvelope) : M (App PeerId Addr) AppError unit :=
  zoom ap_node set_node (with_err show_network (P2pNode_send_direct peer envelope)).

(** A driver and the node, in place. *)
Definition on_initiator {A} (h : InitiatorHandshake PeerId)
    (m : M (InitiatorHandshake PeerId * P2pNode PeerId Addr) AppError A) : M (App PeerId Addr) AppError A := fun a =>
  let '((h', n'), r) := m (h, ap_node a) in (set_initiator (Some h') (set_node n' a), r).
Definition on_responder {A} (h : ResponderHandshake) (m : M ResponderHandshake AppError A) : M (App PeerId Addr) AppError A :=
  fun a => let '(h', r) := m h in (set_responder (Some h') a, r).

(** The session in place; callers have checked that there is one. *)
Definition on_session {A} (m : M ChatSession AppError A) : M (App PeerId Addr) AppError A := fun a =>
  match ap_session a with
  | Some s => let '(s', r) := m s in (set_session (Some s') a, r)
  | None => (a, Panic "called Option::unwrap() on a None value")
  end.

(** [let _ = m]: the error is dropped. *)
Definition ignore_err {S A} (m : M S AppError A) : M S AppError unit := fun s =>
  match m s with
  | (s', Panic p) => (s', Panic p)
  | (s', _) => (s', Ok tt)
  end.
End Setters.

Definition show_utf8 (e : string) : list string := [e].

(** [message_id_bytes]; [u32] is the draw. *)
Definition message_id_bytes (timestamp u32 : Z) : bytes := le_bytes 8 timestamp ++ le_bytes 4 u32.

(** [str::strip_prefix]. *)
Fixpoint strip_prefix (p s : string) : option string :=
  match p, s with
  | EmptyString, _ => Some s
  | String a p, String b s => if decide (a = b) then strip_prefix p s else None
  | String _ _, EmptyString => None
  end.

Section Handlers.
Context `{C : Crypto, B : Build, SH : Serde RatchetMessageHeader, SS : Serde HybridSignature}.
Context `{SM : Serde PqxdhPrekeyMessage, SB : Serde PreKeyBundle, SG : Serde SenderKeyMessage}.
Context `{SD : Serde GroupKeyDistribution, SK : Serde SessionKeys, SR : Serde RatchetSnapshot}.
Context `{DK : Disk} {PeerId Addr : Type}.
Implicit Types from peer : PeerId.

Definition our_identity : M (App PeerId Addr) AppError IdentityKeyPair := gets (ns_identity ∘ ap_store).
Definition our_device : M (App PeerId Addr) AppError string := gets (ns_device_id ∘ ap_store).

(** A sync envelope, sent to [peer]. *)
Definition reply_sync (now : Z) (peer : PeerId) (marker : byte) (body : bytes) : M (App PeerId Addr) AppError unit :=
  identity ← our_identity;
  device_id ← our_device;
  reply ← lift (sync_envelope now identity device_id marker body);
  send_to peer reply.

(** [session.persist(&app.store)]. *)
Definition persist_session (am : Ambient) (k : nat) (now : Z) : M (App PeerId Addr) AppError unit :=
  session ← gets ap_session;
  match session with
  | Some s => engine_call am k (on_db (ChatSession_persist now s))
  | None => mret tt
  end.

(** ** Inbound direct messages, by marker *)

Definition direct_bundle_req (am : Ambient) (from : PeerId) : M (App PeerId Addr) AppError unit :=
  responder ← gets ap_responder;
  r ← lift (ok_or responder ["bundle request on initiator"]);
  bundle ← lift (ResponderHandshake_bundle r);
  body ← lift (map_err show_serde (to_vec bundle));
  reply_sync (clock am 0) from MARKER_BUNDLE body.

Definition direct_bundle (am : Ambient) (payload : bytes) : M (App PeerId Addr) AppError unit :=
  bundle ← lift (context show_serde "parse bundle" (from_slice (drop 1 payload)));
  initiator ← gets ap_initiator;
  h ← lift (ok_or initiator ["bundle on responder"]);
  device_id ← our_device;
  engine_call am 0 (on_store (NodeStore_upsert_conversation (clock am 0) device_id (identity_key bundle) false));;
  on_initiator h (send_prekey (clock am 1) (draw am 0) (draw am 1) (draw am 2) (draw am 3) (draw am 4) (draw am 5)
                    (draw am 6) bundle).

Definition direct_prekey (am : Ambient) (from : PeerId) (envelope : NetworkEnvelope) : M (App PeerId Addr) AppError unit :=
  conversation_id ← lift (context show_utf8 "invalid sender device id" (from_utf8 (env_sender_device_id envelope)));
  responder ← gets ap_responder;
  r ← lift (ok_or responder ["prekey on initiator"]);
  '(ratchet_public, chat) ← on_responder r (on_prekey (draw am 0) (drop 1 (env_encrypted_payload envelope)) conversation_id);
  responder ← gets ap_responder;
  peer_identity ← lift (ok_or (responder ≫= rh_peer_identity) ["no peer identity after prekey"]);
  engine_call am 0 (on_store (NodeStore_upsert_conversation (clock am 0) conversation_id peer_identity false));;
  engine_call am 1 (on_db (ChatSession_persist (clock am 1) chat));;
  modify (set_session (Some chat));;
  reply_sync (clock am 2) from MARKER_RATCHET_PUB ratchet_public;;
  println (OutPeer "session established with" from).

(** The end of the handshake on the initiator's side: distribute the group
    sender key, send the greeting. *)
Definition distribute_and_greet (am : Ambient) (from : PeerId) : M (App PeerId Addr) AppError unit :=
  identity ← our_identity;
  device_id ← our_device;
  distribution ← on_group (create_sender (draw am 1) identity);
  body ← lift (map_err show_serde (to_vec distribution));
  reply_sync (clock am 2) from MARKER_GROUP_KEY body;;
  envelope ← on_session (ChatSession_encrypt (clock am 3) identity device_id (bs ("hello from " +:+ device_id)));
  send_to from envelope;;
  ignore_err (persist_session am 2 (clock am 4));;
  println (OutPeer "session established with" from).

Definition direct_ratchet_pub (am : Ambient) (from : PeerId) (payload : bytes) : M (App PeerId Addr) AppError unit :=
  initiator ← gets ap_initiator;
  h ← lift (ok_or initiator ["ratchet pub on responder"]);
  chat ← on_initiator h (on_first (establish (draw am 0) (drop 1 payload)));
  initiator ← gets ap_initiator;
  peer_identity ← lift (ok_or (initiator ≫= ih_peer_identity) ["no peer identity after establish"]);
  device_id ← our_device;
  engine_call am 0 (on_store (NodeStore_upsert_conversation (clock am 0) device_id peer_identity false));;
  engine_call am 1 (on_db (ChatSession_persist (clock am 1) chat));;
  modify (set_session (Some chat));;
  distribute_and_greet am from.

Definition direct_group_key (payload : bytes) : M (App PeerId Addr) AppError unit :=
  distribution ← lift (context show_serde "parse group key" (from_slice (drop 1 payload)));
  session ← gets ap_session;
  s ← lift (ok_or session ["no session for group key"]);
  on_group (modify (apply_group_key distribution (peer_identity s)));;
  println (OutNotice "group key received, group ready").

(** Resume the stored session when there is none in memory. *)
Definition ensure_session (am : Ambient) (conversation_id : string) : M (App PeerId Addr) AppError unit :=
  session ← gets ap_session;
  match session with
  | Some _ => mret tt
  | None =>
      chat ← engine_call am 0 (on_db (resume conversation_id));
      match chat with
      | Some c => println (OutNotice "resumed persisted session");; modify (set_session (Some c))
      | None => mret tt
      end
  end.

Definition direct_chat (am : Ambient) (from : PeerId) (envelope : NetworkEnvelope) : M (App PeerId Addr) AppError unit :=
  conversation_id ← lift (map_err show_utf8 (from_utf8 (env_conversation_id envelope)));
  ensure_session am conversation_id;;
  session ← gets ap_session;
  s ← lift (ok_or session ["no session established"]);
  engine_call am 1 (on_store (NodeStore_upsert_conversation (clock am 0) conversation_id (peer_identity s) false));;
  plaintext ← on_session (ChatSession_decrypt envelope);
  persist_session am 2 (clock am 1);;
  println (OutDirect from plaintext);;
  header_json ← lift (map_err show_utf8 (from_utf8 (env_nonce envelope)));
  _ ← engine_call am 3 (on_store (NodeStore_insert_message (clock am 2) conversation_id
        (message_id_bytes (env_timestamp envelope) (draw_u32 am)) (peer_identity s)
        (env_encrypted_payload envelope) header_json Incoming));
  mret tt.

Definition handle_direct (am : Ambient) (from : PeerId) (envelope : NetworkEnvelope) : M (App PeerId Addr) AppError unit :=
  peer ← gets ap_peer;
  match peer with
  | None => modify (set_peer (Some from))
  | Some _ => mret tt
  end;;
  let payload := env_encrypted_payload envelope in
  if decide (head payload = Some MARKER_BUNDLE_REQ) then direct_bundle_req am from
  else if decide (head payload = Some MARKER_BUNDLE) then direct_bundle am payload
  else if decide (head payload = Some MARKER_PREKEY) then direct_prekey am from envelope
  else if decide (head payload = Some MARKER_RATCHET_PUB) then direct_ratchet_pub am from payload
  else if decide (head payload = Some MARKER_GROUP_KEY) then direct_group_key payload
  else direct_chat am from envelope.

(** ** Events *)

(** The state of the loop: the application and [handshake_started]. *)
Abbreviation Loop := (App PeerId Addr * bool)%type.

Definition on_app {A} (m : M (App PeerId Addr) AppError A) : M Loop AppError A := on_first m.

Definition start_handshake (am : Ambient) : M Loop AppError unit :=
  '(a, started) ← gets (fun l : Loop => l);
  if decide (is_Some (ap_initiator a) /\ ap_session a = None /\ started = false) then
    modify (fun l : Loop => (l.1, true));;
    match ap_initiator a with
    | Some h => on_app (on_initiator h (request_bundle (clock am 0)))
    | None => mret tt
    end
  else mret tt.

Definition gossip_message (am : Ambient) (from : PeerId) (envelope : NetworkEnvelope) : M (App PeerId Addr) AppError unit := fun a =>
  match GroupChat_decrypt envelope (ap_group a) with
  | (g, Ok plaintext) =>
      (println (OutGroup from plaintext);;
       session ← gets ap_session;
       identity ← our_identity;
       let sender := match session with Some s => peer_identity s | None => IdentityKeyPair_public identity end in
       let conversation_id := gc_conversation_id g in
       engine_call am 0 (on_store (NodeStore_upsert_conversation (clock am 0) conversation_id sender true));;
       header ← lift (map_err show_utf8 (from_utf8 (env_nonce envelope)));
       _ ← engine_call am 1 (on_store (NodeStore_insert_message (clock am 1) conversation_id
             (message_id_bytes (env_timestamp envelope) (draw_u32 am)) sender (env_encrypted_payload envelope) header Incoming));
       mret tt) (set_group g a)
  | (g, Err e) => println (OutGroupFailed e) (set_group g a)
  | (g, Panic p) => (set_group g a, Panic p)
  end.

(** [app.last_outgoing.take()], and the status of that row. *)
Definition settle_last_outgoing (am : Ambient) (status : MessageStatus) : M (App PeerId Addr) AppError unit :=
  row ← gets ap_last_outgoing;
  modify (set_last_outgoing None);;
  match row with
  | Some id => engine_call am 0 (on_store (NodeStore_update_message_status id status))
  | None => mret tt
  end.

Definition handle_event (am : Ambient) (event : NodeEvent PeerId Addr) : M Loop AppError bool :=
  match event with
  | EvListen address => on_app (println (OutListening address))
  | PeerConnected peer =>
      on_app (println (OutPeer "connected to" peer);;
              known ← gets ap_peer;
              match known with None => modify (set_peer (Some peer)) | Some _ => mret tt end);;
      start_handshake am
  | PeerDiscovered peer _ => on_app (println (OutPeer "discovered" peer))
  | DirectMessage from envelope => on_app (handle_direct am from envelope)
  | GossipMessage from _ envelope => on_app (gossip_message am from envelope)
  | DirectDelivered to _ status =>
      on_app (let ok := res_status status =? 1 in
              settle_last_outgoing am (if ok then Delivered else Failed);;
              println (OutDelivery to ok))
  | DirectFailed to error =>
      on_app (settle_last_outgoing am Failed;; println (OutFailed to error))
  | PeerDisconnected peer => on_app (println (OutPeer "disconnected" peer))
  end;;
  mret true.

(** ** Commands *)

Definition print_banner : M (App PeerId Addr) AppError unit := println OutBanner.

Definition print_history (am : Ambient) (k : nat) (conversation_id : string) : M (App PeerId Addr) AppError unit :=
  messages ← engine_call am k (on_store (NodeStore_history conversation_id));
  println (OutHistory conversation_id messages).

Definition group_command (am : Ambient) (text : string) : M (App PeerId Addr) AppError unit :=
  group ← gets ap_group;
  match gc_sender group with
  | None => println (OutNotice "group sender keys not ready yet")
  | Some _ =>
      identity ← our_identity;
      device_id ← our_device;
      zoom (fun a => (ap_group a, ap_node a)) (fun p a => set_group p.1 (set_node p.2 a))
        (publish (clock am 0) identity device_id (bs text));;
      println (OutGroupSent text)
  end.

Definition chat_command (am : Ambient) (line : string) : M (App PeerId Addr) AppError unit :=
  session ← gets ap_session;
  peer ← gets ap_peer;
  match session, peer with
  | None, _ => println (OutNotice "no 1:1 session yet; wait for the handshake")
  | Some _, None => println (OutNotice "no remote peer known yet")
  | Some s, Some p =>
      identity ← our_identity;
      device_id ← our_device;
      envelope ← on_session (ChatSession_encrypt (clock am 0) identity device_id (bs line));
      header_json ← lift (map_err show_utf8 (from_utf8 (env_nonce envelope)));
      row ← engine_call am 0 (on_store (NodeStore_insert_message (clock am 1) (conversation_id s)
              (message_id_bytes (env_timestamp envelope) (draw_u32 am)) (IdentityKeyPair_public identity)
              (env_encrypted_payload envelope) header_json Outgoing));
      modify (set_last_outgoing (Some row));;
      send_to p envelope;;
      ignore_err (persist_session am 1 (clock am 2));;
      println (OutDirectSent line)
  end.

Definition handle_command (am : Ambient) (line : string) : M (App PeerId Addr) AppError bool :=
  if decide (line = "q" \/ line = "@quit" \/ line = "exit") then mret false
  else if decide (line = "@info") then
    print_banner;;
    session ← gets ap_session;
    group ← gets ap_group;
    println (OutInfo (bool_decide (is_Some session)) (bool_decide (is_Some (gc_sender group) \/ is_Some (gc_receiver group))));;
    mret true
  else if decide (line = "@history") then
    device_id ← our_device;
    print_history am 0 device_id;;
    group ← gets ap_group;
    print_history am 1 (gc_conversation_id group);;
    mret true
  else match strip_prefix "@group " line with
       | Some text => group_command am text;; mret true
       | None => chat_command am line;; mret true
       end.

(** ** The loop: [select!] picks one input per turn. *)

Inductive LoopInput :=
| Line (line : string)
| LineError (e : string)
| EndOfInput
| Event (event : NodeEvent PeerId Addr)
| EventsClosed.

Definition turn (am : Ambient) (input : LoopInput) : M Loop AppError bool :=
  match input with
  | Line "" => mret true
  | Line line => on_app (handle_command am line)
  | LineError e => fail [e]
  | EndOfInput => mret false
  | Event event => handle_event am event
  | EventsClosed => mret false
  end.

(** [true]: the loop has ended; [false]: it waits for more input. *)
Fixpoint run_loop (inputs : list (Ambient * LoopInput)) : M Loop AppError bool :=
  match inputs with
  | [] => mret false
  | (am, input) :: inputs =>
      continue ← turn am input;
      if continue : bool then run_loop inputs else (on_app (println (OutNotice "bye"));; mret true)
  end.

(** ** Start: the parts of [demo_main] after the node and the store are open;
    Startup puts them together.  [dialable] is [dialable_address]; [tx] and [reply] are the oneshot channel of [listen_addrs] and its
    answer; the other arguments of [start_responder] are those of
    [NodeStore_prekey].  The engine does not fail here: an error would end the
    program. *)

Definition app_start (store : NodeStore) (node : P2pNode PeerId Addr) : result AppError (App PeerId Addr) :=
  group ← GroupChat_new;
  mret {| ap_store := store; ap_node := node; ap_initiator := None; ap_responder := None; ap_session := None;
          ap_group := group; ap_peer := None; ap_last_outgoing := None; ap_output := [] |}.

Definition subscribe_group : M (App PeerId Addr) AppError unit :=
  print_banner;;
  group ← gets ap_group;
  zoom ap_node set_node (with_err show_network (P2pNode_subscribe (gc_topic group))).

Definition start_responder `{SP : Serde PrekeyMaterial} (pretty : PrekeyMaterial -> result string bytes)
    (write_result : result string unit) (now_secs : Z) (classical_rnd kem_rnd : bytes) (tx : nat) (reply : option (list Addr))
    (dialable : list Addr -> PeerId -> result AppError Addr) : M (App PeerId Addr) AppError unit :=
  prekey ← on_store (NodeStore_prekey pretty write_result now_secs classical_rnd kem_rnd);
  identity ← our_identity;
  println (OutNotice "waiting for the initiator");;
  modify (set_responder (Some (ResponderHandshake_new identity prekey)));;
  addrs ← zoom ap_node set_node (with_err show_network (P2pNode_listen_addrs tx reply));
  println (OutAddresses addrs);;
  peer ← gets (np_peer_id ∘ ap_node);
  address ← lift (dialable addrs peer);
  println (OutConnect address).

Definition start_initiator (peer : PeerId) (peer_addr : Addr) : M (App PeerId Addr) AppError unit :=
  modify (set_peer (Some peer));;
  device_id ← our_device;
  session ← on_db (resume device_id);
  match session with
  | Some s => println (OutNotice "resumed persisted session, skipping handshake");; modify (set_session (Some s))
  | None => mret tt
  end;;
  identity ← our_identity;
  modify (set_initiator (Some (InitiatorHandshake_new identity device_id peer)));;
  zoom ap_node set_node (with_err show_network (P2pNode_dial peer_addr)).
End Handlers.
Arguments LoopInput : clear implicits.
