(* ===== verification/AppFacts.v ===== *)
(** Lemmas on the application: what its operations do to the session, the
    database and the handshake driver. *)

From S2P Require Import Prelude Constants Prims Ratchet RatchetFacts Identity IdentityProps Pqxdh PqxdhProps Keys KeysProps.
From S2P Require Import Sqleet SessionState SessionFacts Store StoreProps ChatSession Network Node Handshake ChatProps Group App.

Section Facts.
Context `{C : Crypto, L : !CryptoLaws C, B : Build}.
Context `{SH : Serde RatchetMessageHeader, SHO : !SerdeOk RatchetMessageHeader}.
Context `{SS : Serde HybridSignature, SSO : !SerdeOk HybridSignature}.
Context `{SM : Serde PqxdhPrekeyMessage, SMO : !SerdeOk PqxdhPrekeyMessage}.
Context `{SB : Serde PreKeyBundle, SBO : !SerdeOk PreKeyBundle}.
Context `{SG : Serde SenderKeyMessage, SD : Serde GroupKeyDistribution}.
Context `{SK : Serde SessionKeys, SKO : !SerdeOk SessionKeys, SR : Serde RatchetSnapshot, SRO : !SerdeOk RatchetSnapshot}.
Context `{DK : Disk} {PeerId Addr : Type}.

Abbreviation App := (App PeerId Addr).

(** ** The database *)

(** No session row is touched, no conversation is removed. *)
Definition db_ext (db db' : Db) : Prop :=
  t_sessions (live db') = t_sessions (live db) /\
  forall c, is_Some (t_conversations (live db) !! c) -> is_Some (t_conversations (live db') !! c).

(** Every stored session belongs to a stored conversation. *)
Definition fk (db : Db) : Prop :=
  forall c, is_Some (t_sessions (live db) !! c) -> is_Some (t_conversations (live db) !! c).

Lemma db_ext_refl db : db_ext db db.
Proof. by split. Qed.

Lemma fk_ext db db' : db_ext db db' -> fk db -> fk db'.
Proof. intros [Hs Hc] Hf c. rewrite Hs. auto. Qed.

Lemma bind_texts_ok l db db' x :
  bind_texts l db = (db', Ok x) -> db' = db /\ existsb has_nul l = false.
Proof. unfold bind_texts. destruct (existsb has_nul l); [done|]. mrun. by intros [= <- _]. Qed.

Lemma upsert_ext r db db' x :
  upsert_conversation r db = (db', Ok x) ->
  db_ext db db' /\ has_nul (cv_id r) = false /\ is_Some (t_conversations (live db') !! cv_id r).
Proof.
  unfold upsert_conversation. mrun. destruct (bind_texts _ db) as [db1 [[]| |]] eqn:Hb; [|done..].
  apply bind_texts_ok in Hb as [-> Hb]. cbn in Hb. rewrite orb_false_r in Hb. unfold update_tables. mrun. intros [= <- <-].
  split; [split; [done|] | split; [done | cbn; rewrite lookup_insert_eq; eauto]]. intros c Hc. cbn.
  destruct (decide (c = cv_id r)) as [->|Hne]; [rewrite lookup_insert_eq; eauto | by rewrite lookup_insert_ne].
Qed.

Lemma insert_ext r db db' x : insert_message r db = (db', Ok x) -> db_ext db db'.
Proof.
  unfold insert_message. mrun. destruct (bind_texts _ db) as [db1 [[]| |]] eqn:Hb; [|done..].
  apply bind_texts_ok in Hb as [-> _]. mrun. destruct (_ =? _); [done|]. destruct (existsb _ _); [done|].
  destruct (_ !! _); [|done]. mrun. intros [= <- <-]. by split.
Qed.

Lemma list_messages_ext c b n db db' x : list_messages c b n db = (db', Ok x) -> db' = db.
Proof.
  unfold list_messages. mrun. destruct (bind_texts _ db) as [db1 [[]| |]] eqn:Hb; [|done..].
  apply bind_texts_ok in Hb as [-> _]. by intros [= <- <-].
Qed.

(** ** Stored sessions *)

Definition stored (s : ChatSession) (db : Db) : Prop := (resume (conversation_id s) db).2 = Ok (Some s).

Definition kept (s : ChatSession) (db : Db) : Prop :=
  resumable s /\ session_wf s /\ has_nul (conversation_id s) = false /\
  is_Some (t_conversations (live db) !! conversation_id s).

Lemma resume_sessions c db db' :
  t_sessions (live db') = t_sessions (live db) -> (resume c db').2 = (resume c db).2.
Proof.
  intros Hs. unfold resume, NodeStore_load_session, load_session. mrun.
  unfold bind_texts. destruct (existsb has_nul [c]); [done|]. mrun. rewrite Hs.
  destruct (traverse_option _ _) as [[st|]| |]; [|done..]. cbn. by destruct (rebuild_ratchet st).
Qed.

Lemma resume_state c db : (resume c db).1 = db.
Proof.
  unfold resume, NodeStore_load_session, load_session. mrun.
  unfold bind_texts. destruct (existsb has_nul [c]); [done|]. mrun.
  destruct (traverse_option _ _) as [[st|]| |]; [|done..]. cbn. by destruct (rebuild_ratchet st).
Qed.

Lemma kept_ext s db db' : db_ext db db' -> kept s db -> kept s db'.
Proof. intros [_ Hc] (? & ? & ? & ?). split_and!; auto. Qed.

Lemma stored_ext s db db' : db_ext db db' -> stored s db -> stored s db'.
Proof. intros [Hs _]. unfold stored. by rewrite (resume_sessions _ db db'). Qed.

(** ** Sessions from the drivers and from the database *)

Lemma to_ratchet_ok k dh peer d :
  SessionKeys_to_ratchet k dh peer = Ok d -> wf k -> length dh = X25519_PRIVATE_KEY_SIZE ->
  all_some (fun p => length p = X25519_PUBLIC_KEY_SIZE) peer -> labelled d /\ ratchet_wf d.
Proof.
  intros Hd Hk Hl Hp. unfold SessionKeys_to_ratchet in Hd. destruct (sk_is_initiator k).
  - destruct peer as [p|]; [|done]. cbn [ok_or mbind result_bind] in Hd. split; [by eapply init_labelled|].
    eapply init_wf, Hd; auto.
  - split; [by injection Hd as <-|]. eapply init_as_responder_wf, Hd; [done | apply Hk].
Qed.

Lemma on_prekey_inv b body conv rh rh' pub chat :
  on_prekey b body conv rh = (rh', Ok (pub, chat)) -> length b = X25519_PRIVATE_KEY_SIZE ->
  resumable chat /\ session_wf chat /\ conversation_id chat = conv.
Proof.
  intros H Hb. unfold on_prekey in H. first_call H s1 msg Hmsg. injection Hmsg as <- Hmsg.
  unfold context in Hmsg. apply map_err_ok, serde_typed in Hmsg as Hw.
  first_call H s2 u Hu. injection Hu as <- _. first_call H s3 h Hh. injection Hh as <- <-.
  first_call H s4 priv Hpriv. injection Hpriv as <- _. first_call H s5 out Hout. injection Hout as <- _.
  cbv zeta in H. first_call H s6 keys Hkeys. injection Hkeys as <- Hkeys. first_call H s7 d Hd. injection Hd as <- Hd.
  injection H as _ _ <-. unfold context in Hkeys, Hd. apply map_err_ok in Hkeys, Hd.
  assert (wf keys /\ sk_peer_identity keys = pm_identity_public msg) as [Hkw Hkp].
  { split; [eapply session_keys_wf, Hkeys; apply Hw|]. destruct (session_keys_eq (out_shared_secret out)) as (? & ? & ? & Hk).
    rewrite Hk in Hkeys. by injection Hkeys as <-. }
  destruct (to_ratchet_ok _ _ _ _ Hd Hkw Hb) as [[Hi Ha] Hrw]; [by intros ? [=]|]. by split_and!.
Qed.

Lemma establish_inv a pub (h h' : InitiatorHandshake PeerId) chat :
  establish a pub h = (h', Ok chat) -> length a = X25519_PRIVATE_KEY_SIZE ->
  (forall p, ih_peer_identity h = Some p -> wf p) ->
  resumable chat /\ session_wf chat /\ h' = set_ih_pending None h.
Proof.
  intros H Ha Hp. unfold establish in H. first_call H s1 pend H1. injection H1 as <- <-.
  first_call H s2 u H2. injection H2 as <- _. first_call H s3 out H3. injection H3 as <- _.
  first_call H s4 h0 H4. injection H4 as <- <-. first_call H s5 peer H5. injection H5 as <- H5.
  apply ok_or_ok in H5. first_call H s6 pp H6. injection H6 as <- H6. apply try_into_array_ok in H6 as [-> Hlen].
  injection H as <- H. unfold build_initiator_session in H. apply result_bind_ok in H as (keys & Hkeys & H).
  apply result_bind_ok in H as (d & Hd & [= <-]). unfold context in Hkeys, Hd. apply map_err_ok in Hkeys, Hd.
  specialize (Hp peer H5).
  assert (wf keys /\ sk_peer_identity keys = peer) as [Hkw Hkp].
  { split; [by eapply session_keys_wf, Hkeys|]. destruct (session_keys_eq (out_shared_secret out)) as (? & ? & ? & Hk).
    rewrite Hk in Hkeys. by injection Hkeys as <-. }
  destruct (to_ratchet_ok _ _ _ _ Hd Hkw Ha) as [[? ?] Hrw]; [by intros ? [= <-]|]. by split_and!.
Qed.

Lemma resume_inv c db db' s :
  resume c db = (db', Ok (Some s)) ->
  db' = db /\ conversation_id s = c /\ resumable s /\ session_wf s /\ has_nul c = false /\
  is_Some (t_sessions (live db) !! c) /\ stored s db.
Proof.
  intros H. assert (db' = db) as -> by (by pose proof (resume_state c db) as Hs; rewrite H in Hs).
  assert (conversation_id s = c -> stored s db) as Hst by (unfold stored; intros ->; by rewrite H).
  unfold resume, NodeStore_load_session, load_session in H. mrun_in H. unfold bind_texts in H. cbn [existsb] in H.
  destruct (has_nul c) eqn:Hn; [done|]. cbn [orb] in H. mrun_in H.
  destruct (t_sessions (live db) !! c) as [row|]; [|done]. cbn [traverse_option] in H.
  destruct (map_err Serialization (from_slice (sr_session_keys row))) as [keys| |] eqn:Hk; [|done..].
  destruct (map_err Serialization (traverse_option from_slice (sr_ratchet_state row))) as [rs| |] eqn:Hr; [|done..].
  cbn in H. destruct rs as [snap|]; [|done]. unfold rebuild_ratchet in H. cbn [ss_ratchet ok_or mbind result_bind] in H.
  destruct (RatchetSnapshot_to_ratchet snap SESSION_ID []) as [d| |] eqn:Hd; [|done..]. cbn in H. injection H as Hs.
  apply map_err_ok in Hk, Hr. apply serde_typed in Hk.
  assert (wf snap) as Hsw.
  { destruct (sr_ratchet_state row) as [b|]; [|done]. cbn in Hr. destruct (from_slice b) eqn:Hb; [|done..].
    injection Hr as ->. by eapply serde_typed. }
  assert (RatchetSnapshot_from_ratchet d = snap /\ labelled d) as [Hdf Hdl].
  { apply result_bind_ok in Hd as (x & Hx & Hd). apply result_bind_ok in Hd as (y & Hy & [= <-]).
    apply chain_snapshot_inv in Hx, Hy. split; [|done]. unfold RatchetSnapshot_from_ratchet. cbn. rewrite Hx, Hy. by destruct snap. }
  subst s. cbn in *. destruct Hdl as [? ?].
  split; [done|]. split; [done|]. split; [by split_and!|]. split; [|split; [done|split; [eauto | by apply Hst]]].
  split; [done|]. unfold ratchet_wf. cbn. by rewrite Hdf.
Qed.

(** ** The invariant of the application

    [inv false]: the session in memory can be persisted; [inv true]: it is
    also what the database holds. *)

Definition app_db (a : App) : Db := ns_db (ap_store a).

Definition inv (b : bool) (a : App) : Prop :=
  fk (app_db a) /\
  (forall h p, ap_initiator a = Some h -> ih_peer_identity h = Some p -> wf p) /\
  (forall s, ap_session a = Some s -> kept s (app_db a) /\ (b = true -> stored s (app_db a))).

Lemma inv_weaken b b' a : (b' = true -> b = true) -> inv b a -> inv b' a.
Proof. intros Hb (? & ? & Hs). split_and!; [done..|]. intros s Hs'. destruct (Hs s Hs') as [? Hst]. split; [done|]. intros ?%Hb. by apply Hst. Qed.

Lemma inv_true b a : inv true a -> inv b a.
Proof. by apply inv_weaken. Qed.

(** What the invariant depends on. *)
Definition core (a : App) := (ap_session a, ap_initiator a, app_db a).

Lemma inv_core b a a' : core a' = core a -> inv b a -> inv b a'.
Proof. intros [= H1 H2 H3]. unfold inv. by rewrite H1, H2, H3. Qed.

Definition framed {A} (m : M App AppError A) : Prop := forall c, keeps (fun a => core a = c) m.

Lemma inv_framed {A} b (m : M App AppError A) a a' r : framed m -> m a = (a', r) -> inv b a -> inv b a'.
Proof. intros Hm Hr. apply inv_core. pose proof (Hm _ a eq_refl) as H. by rewrite Hr in H. Qed.

Lemma framed_bind {A D} (m : M App AppError A) (f : A -> M App AppError D) :
  framed m -> (forall a, framed (f a)) -> framed (m ≫= f).
Proof. intros Hm Hf c. apply keeps_bind; [apply Hm | intros a; apply Hf]. Qed.
Lemma framed_println o : framed (println (PeerId := PeerId) (Addr := Addr) o).
Proof. by intros c a <-. Qed.
Lemma framed_send_to p env : framed (send_to (PeerId := PeerId) (Addr := Addr) p env).
Proof. intros c a <-. unfold send_to, zoom. by destruct (with_err _ _ _). Qed.
Lemma framed_on_group {A} (m : M GroupChat AppError A) : framed (on_group m).
Proof. intros c a <-. unfold on_group, zoom. by destruct (m _). Qed.
Lemma framed_on_responder {A} h (m : M ResponderHandshake AppError A) : framed (on_responder h m).
Proof. intros c a <-. unfold on_responder. by destruct (m h). Qed.
Lemma framed_reply now p mk body : framed (reply_sync (PeerId := PeerId) (Addr := Addr) now p mk body).
Proof.
  unfold reply_sync, our_identity, our_device. repeat (apply framed_bind; [intros c; keeps_tac | intros ?]).
  apply framed_send_to.
Qed.

(** ** Calls that return [Ok] *)

Lemma store_ok {A} c (m : M Db StorageError A) (a a' : App) x :
  on_store (on_store_db c m) a = (a', Ok x) ->
  exists db', m (app_db a) = (db', Ok x) /\ a' = set_store (set_db db' (ap_store a)) a.
Proof.
  unfold on_store, on_store_db. intros (st & (db' & Hm & ->)%zoom_ok & ->)%zoom_ok. apply with_err_ok in Hm. eauto.
Qed.

Lemma db_ok {A} (m : M Db AppError A) (a a' : App) x :
  on_db m a = (a', Ok x) -> exists db', m (app_db a) = (db', Ok x) /\ a' = set_store (set_db db' (ap_store a)) a.
Proof. unfold on_db, on_store. intros (st & (db' & Hm & ->)%zoom_ok & ->)%zoom_ok. eauto. Qed.

Lemma inv_db b a db' : db_ext (app_db a) db' -> inv b a -> inv b (set_store (set_db db' (ap_store a)) a).
Proof.
  intros He (Hf & Hi & Hs). split; [by eapply fk_ext|]. split; [done|]. intros s Hss. cbn in Hss.
  destruct (Hs s Hss) as [Hk Hst]. split; [by eapply kept_ext|]. intros Hb. eapply stored_ext; eauto.
Qed.

Lemma inv_upsert b now id peer g a a' x :
  on_store (NodeStore_upsert_conversation now id peer g) a = (a', Ok x) -> inv b a ->
  inv b a' /\ has_nul id = false /\ is_Some (t_conversations (live (app_db a')) !! id) /\
  ap_session a' = ap_session a /\ ap_initiator a' = ap_initiator a.
Proof.
  intros (db' & Hm & ->)%store_ok Ha. apply upsert_ext in Hm as (He & Hn & Hr). split; [by apply inv_db | done].
Qed.

Lemma inv_insert b now c mid p ct h d a a' x :
  on_store (NodeStore_insert_message now c mid p ct h d) a = (a', Ok x) -> inv b a -> inv b a'.
Proof. intros (db' & Hm & ->)%store_ok Ha. apply insert_ext in Hm. by apply inv_db. Qed.

Lemma persist_inv now s db db' x :
  kept s db -> fk db -> ChatSession_persist now s db = (db', Ok x) ->
  stored s db' /\ fk db' /\ t_conversations (live db') = t_conversations (live db).
Proof.
  intros (Hr & Hw & Hn & [conv Hc]) Hf Hp. destruct (persist_ok now s db conv Hr Hw Hn Hc) as (db1 & Hp1 & Hres & row & Hl).
  rewrite Hp in Hp1. injection Hp1 as <- _. split; [unfold stored; by rewrite Hres|]. rewrite Hl. split; [|done].
  intros c. rewrite Hl. cbn. destruct (decide (c = conversation_id s)) as [->|Hne]; [by rewrite Hc; eauto|].
  rewrite lookup_insert_ne by done. apply Hf.
Qed.

Lemma persist_kept now s db db' x :
  resumable s -> session_wf s -> ChatSession_persist now s db = (db', Ok x) -> kept s db.
Proof.
  intros Hr Hw H. unfold ChatSession_persist, NodeStore_save_session in H.
  destruct (save_session _ _ db) as [db1 [[]| |]] eqn:Hs; try discriminate. unfold save_session in Hs.
  first_call Hs d1 k H1. injection H1 as <- _. first_call Hs d2 r H2. injection H2 as <- _.
  first_call Hs d3 u H3. apply bind_texts_ok in H3 as [-> Hn]. cbn in Hn. rewrite orb_false_r in Hn.
  first_call Hs d4 cs H4. injection H4 as <- <-. split_and!; try done.
  destruct (t_conversations (live db) !! conversation_id s); [eauto | done].
Qed.

(** Persisting the session in memory. *)
Lemma inv_persist_session am k now a a' x : persist_session am k now a = (a', Ok x) -> inv false a -> inv true a'.
Proof.
  unfold persist_session. intros H (Hf & Hi & Hs). first_call H a1 s H1. injection H1 as <- <-.
  destruct (ap_session a) as [s|] eqn:Hss.
  - apply engine_call_ok, db_ok in H as (db' & Hp & ->). destruct (Hs s eq_refl) as [Hk _].
    destruct (persist_inv now s _ _ _ Hk Hf Hp) as (Hst & Hf' & Hc). split_and!; [done|done|].
    intros s' Hs'. cbn in Hs'. rewrite Hss in Hs'. injection Hs' as <-. split; [|done].
    destruct Hk as (? & ? & ? & ?). split_and!; try done. unfold app_db. cbn. by rewrite Hc.
  - injection H as <- _. split_and!; [done..|]. by rewrite Hss.
Qed.

(** Does the engine do its work at the call? *)
Definition works (am : Ambient) (k : nat) : bool := match disk am k with None => true | Some _ => false end.

(** Persisting fails only when the engine does, because the session is well
    formed and its conversation is stored; the failure changes nothing, and
    nobody is told. *)
Lemma persist_outcome am k now a :
  inv false a ->
  exists a1, ignore_err (persist_session am k now) a = (a1, Ok tt) /\
    if works am k then persist_session am k now a = (a1, Ok tt) else a1 = a.
Proof.
  intros (Hf & Hi & Hs). unfold persist_session, ignore_err. mrun. destruct (ap_session a) as [s|]; [|exists a; by destruct (works am k)].
  destruct (Hs s eq_refl) as [(Hr & Hw & Hn & [conv Hc]) _].
  destruct (persist_ok now s _ conv Hr Hw Hn Hc) as (db' & Hp & _).
  unfold engine_call, works, on_db, on_store, zoom. destruct (disk am k); fold (app_db a); rewrite Hp; [by exists a|by eexists].
Qed.

Lemma inv_ignore_persist am k now a a' x :
  ignore_err (persist_session am k now) a = (a', Ok x) -> inv false a -> inv (works am k) a'.
Proof.
  intros H Ha. destruct (persist_outcome am k now a Ha) as (a1 & H1 & H2). rewrite H1 in H. injection H as <- _.
  destruct (works am k); [by eapply inv_persist_session|by subst].
Qed.

(** A new session, persisted and put in place. *)
Lemma inv_install b now chat a a' x :
  on_db (ChatSession_persist now chat) a = (a', Ok x) -> inv b a -> resumable chat -> session_wf chat ->
  inv true (set_session (Some chat) a').
Proof.
  intros (db' & Hp & ->)%db_ok (Hf & Hi & Hs) Hr Hw. pose proof (persist_kept _ _ _ _ _ Hr Hw Hp) as Hk. destruct (persist_inv now chat _ _ _ Hk Hf Hp) as (Hst & Hf' & Hc).
  split; [exact Hf'|]. split; [exact Hi|]. intros s [= <-]. split; [|done].
  destruct Hk as (? & ? & ? & ?). split_and!; try done. unfold app_db. cbn. by rewrite Hc.
Qed.

(** A step of the session in memory that keeps it well formed. *)
Lemma inv_on_session {A} (m : M ChatSession AppError A) b a a' x :
  keeps resumable m -> keeps session_wf m -> (forall s, conversation_id (m s).1 = conversation_id s) ->
  on_session m a = (a', Ok x) -> inv b a -> inv false a'.
Proof.
  intros Hr Hw Hc H (Hf & Hi & Hs). unfold on_session in H. destruct (ap_session a) as [s|]; [|done].
  destruct (Hs s eq_refl) as [(H1 & H2 & H3 & H4) _]. specialize (Hr s H1). specialize (Hw s H2). specialize (Hc s).
  destruct (m s) as [s' r]. injection H as <- _. cbn in *. split_and!; [done|done|]. intros s0 [= <-].
  split; [|done]. unfold kept. rewrite Hc. by split_and!.
Qed.

(** ** Calls that succeed *)

Definition upserted (now : Z) (id : string) (peer : IdentityPublicKey) (g : bool) (db : Db) : Db :=
  (upsert_conversation {| cv_id := id; cv_peer_classical := ip_classical peer; cv_peer_pq := ip_pq peer;
                          cv_is_group := g; cv_created_at := now |} db).1.

Lemma upsert_run now id peer g (a : App) :
  has_nul id = false ->
  on_store (NodeStore_upsert_conversation now id peer g) a =
    (set_store (set_db (upserted now id peer g (app_db a)) (ap_store a)) a, Ok tt) /\
  is_Some (t_conversations (live (upserted now id peer g (app_db a))) !! id) /\
  db_ext (app_db a) (upserted now id peer g (app_db a)) /\
  t_messages (live (upserted now id peer g (app_db a))) = t_messages (live (app_db a)) /\
  t_messages_seq (live (upserted now id peer g (app_db a))) = t_messages_seq (live (app_db a)).
Proof.
  intros Hn. unfold upserted.
  destruct (upsert_conversation {| cv_id := id; cv_peer_classical := ip_classical peer; cv_peer_pq := ip_pq peer;
                                   cv_is_group := g; cv_created_at := now |} (app_db a)) as [db' r] eqn:Hu.
  assert (r = Ok tt /\ t_messages (live db') = t_messages (live (app_db a)) /\
          t_messages_seq (live db') = t_messages_seq (live (app_db a))) as (-> & Hm & Hq).
  { unfold upsert_conversation, bind_texts in Hu. mrun_in Hu. cbn [existsb cv_id] in Hu. rewrite Hn in Hu. cbn [orb] in Hu.
    mrun_in Hu. by injection Hu as <- <-. }
  apply upsert_ext in Hu as Hx. destruct Hx as (He & _ & Hrow). split_and!; try done.
  unfold on_store, on_store_db, NodeStore_upsert_conversation, on_store_db, zoom, with_err. cbn.
  fold (app_db a). by rewrite Hu.
Qed.

(** The handle after one more control message. *)
Definition node_with (n : P2pNode PeerId Addr) (c : Control PeerId Addr) : P2pNode PeerId Addr :=
  {| np_peer_id := np_peer_id n; np_running := np_running n; np_controls := np_controls n ++ [c] |}.

Lemma send_run p env (a : App) :
  np_running (ap_node a) = true -> send_to p env a = (set_node (node_with (ap_node a) (SendDirect p env)) a, Ok tt).
Proof. intros Hn. unfold send_to, zoom, with_err, P2pNode_send_direct. by rewrite send_control_ok. Qed.

Lemma reply_run now p mk body (a : App) :
  np_running (ap_node a) = true ->
  exists env, reply_sync now p mk body a = (set_node (node_with (ap_node a) (SendDirect p env)) a, Ok tt) /\
    env_encrypted_payload env = mk :: body /\ env_sender_device_id env = bs (ns_device_id (ap_store a)).
Proof.
  intros Hn. unfold reply_sync, our_identity, our_device, sync_envelope. mrun.
  destruct (raw_envelope_ok now (ns_identity (ap_store a)) (ns_device_id (ap_store a)) KIND_SYNC
    (bs (ns_device_id (ap_store a))) (mk :: body) []) as (env & Henv & _ & Hp & _).
  exists env. rewrite Henv. mrun. rewrite send_run by done. split_and!; try done. by apply raw_envelope_fields in Henv as (? & _).
Qed.

Lemma persist_run now s (a : App) :
  kept s (app_db a) ->
  exists db', on_db (ChatSession_persist now s) a = (set_store (set_db db' (ap_store a)) a, Ok tt) /\
    resume (conversation_id s) db' = (db', Ok (Some s)) /\
    t_conversations (live db') = t_conversations (live (app_db a)) /\
    t_messages (live db') = t_messages (live (app_db a)) /\ t_messages_seq (live db') = t_messages_seq (live (app_db a)).
Proof.
  intros (Hr & Hw & Hn & [conv Hc]). destruct (persist_ok now s _ conv Hr Hw Hn Hc) as (db' & Hp & Hres & row & Hl).
  exists db'. unfold on_db, on_store, zoom. fold (app_db a). rewrite Hp, Hl. by split_and!.
Qed.

(** No stored message of the conversation has the id. *)
Definition uid_fresh (c : string) (mid : bytes) (db : Db) : Prop :=
  forall id r, t_messages (live db) !! id = Some r -> mrr_conversation_id r = c -> mrr_message_id r <> mid.

Lemma insert_run now c mid peer ct hdr dir (a : App) :
  has_nul c = false -> has_nul hdr = false -> t_messages_seq (live (app_db a)) <> i64_max ->
  uid_fresh c mid (app_db a) -> is_Some (t_conversations (live (app_db a)) !! c) ->
  exists db' row, on_store (NodeStore_insert_message now c mid peer ct hdr dir) a =
      (set_store (set_db db' (ap_store a)) a, Ok (t_messages_seq (live (app_db a)) + 1)) /\
    t_messages (live db') = <[t_messages_seq (live (app_db a)) + 1 := row]> (t_messages (live (app_db a))) /\
    mrr_ciphertext row = ct /\ mrr_direction row = MessageDirection_i64 dir /\ mrr_message_id row = mid /\
    t_messages_seq (live db') = t_messages_seq (live (app_db a)) + 1 /\ db_ext (app_db a) db'.
Proof.
  intros Hc Hh Hq Hu [conv Hrow]. eexists _, _. split.
  - unfold on_store, NodeStore_insert_message, on_store_db, zoom, with_err. cbn [ap_store]. fold (app_db a).
    unfold insert_message, bind_texts. mrun. cbn [existsb mr_conversation_id mr_header]. rewrite Hc, Hh. cbn [orb]. mrun.
    rewrite (proj2 (Z.eqb_neq _ _) Hq). cbn [mr_message_id].
    assert (existsb (same_uid c mid) (map_to_list (t_messages (live (app_db a)))) = false) as ->.
    { apply not_true_iff_false. rewrite existsb_exists. intros ([id r] & Hin%list_elem_of_In%elem_of_map_to_list & Hs).
      unfold same_uid in Hs. apply andb_true_iff in Hs as [H1%bool_decide_eq_true H2%bool_decide_eq_true]. by eapply Hu. }
    rewrite Hrow. mrun. cbn [map_err]. reflexivity.
  - by split_and!.
Qed.
End Facts.
