(* ===== verification/AppProps.v ===== *)
(** The application: its session is the stored one unless the engine failed at
    a store whose error is dropped. *)

From S2P Require Import Prelude Constants Prims Concrete Ratchet RatchetFacts RatchetProps Identity IdentityProps.
From S2P Require Import Pqxdh PqxdhProps Keys KeysProps Sqleet SessionState SessionFacts Store StoreProps.
From S2P Require Import ChatSession Network Node Handshake ChatProps Group GroupProps App AppFacts.

Section Props.
Context `{C : Crypto, L : !CryptoLaws C, B : Build}.
Context `{SH : Serde RatchetMessageHeader, SHO : !SerdeOk RatchetMessageHeader}.
Context `{SS : Serde HybridSignature, SSO : !SerdeOk HybridSignature}.
Context `{SM : Serde PqxdhPrekeyMessage, SMO : !SerdeOk PqxdhPrekeyMessage}.
Context `{SB : Serde PreKeyBundle, SBO : !SerdeOk PreKeyBundle}.
Context `{SG : Serde SenderKeyMessage, SGO : !SerdeOk SenderKeyMessage}.
Context `{SD : Serde GroupKeyDistribution, SDO : !SerdeOk GroupKeyDistribution}.
Context `{SK : Serde SessionKeys, SKO : !SerdeOk SessionKeys, SR : Serde RatchetSnapshot, SRO : !SerdeOk RatchetSnapshot}.
Context `{DK : Disk} {PeerId Addr : Type}.

Abbreviation App := (App PeerId Addr).

Lemma println_ok o (a : App) : println o a = ((println o a).1, Ok tt).
Proof. done. Qed.

(** The random ratchet secret of a handler has 32 bytes. *)
Definition ambient_ok (am : Ambient) : Prop := length (draw am 0) = X25519_PRIVATE_KEY_SIZE.

(** ** The session in memory is the stored one *)

Lemma chat_encrypt_conversation now i dev pt s :
  conversation_id (ChatSession_encrypt now i dev pt s).1 = conversation_id s.
Proof.
  apply (keeps_bind (fun s' => conversation_id s' = conversation_id s)); [|intros [ct h]; keeps_tac|done].
  intros s' <-. unfold on_ratchet. by destruct (DoubleRatchet_encrypt pt (ratchet s')).
Qed.

Lemma chat_decrypt_conversation env s : conversation_id (ChatSession_decrypt env s).1 = conversation_id s.
Proof.
  assert (forall A c (m : M DoubleRatchet CryptoError A), keeps (fun s' => conversation_id s' = conversation_id s) (on_ratchet c m)).
  { intros A c m s' <-. unfold on_ratchet. by destruct (m (ratchet s')). }
  enough (keeps (fun s' => conversation_id s' = conversation_id s) (ChatSession_decrypt env)) as Hk by by apply Hk.
  unfold ChatSession_decrypt. keeps_tac; auto.
Qed.

Lemma send_prekey_peer now c k r1 r2 r3 r4 r5 bundle (h h' : InitiatorHandshake PeerId) (n n' : P2pNode PeerId Addr) :
  send_prekey now c k r1 r2 r3 r4 r5 bundle (h, n) = ((h', n'), Ok tt) -> ih_peer_identity h' = Some (identity_key bundle).
Proof.
  unfold send_prekey. intros H. first_call H p1 env H1. apply zoom_ok in H1 as (h1 & Hp & ->).
  first_call H p2 h2 H2. injection H2 as <- <-. apply zoom_ok in H as (n2 & _ & [= -> _]).
  unfold prepare_prekey in Hp. first_call Hp q1 u Hq. injection Hq as <- _. first_call Hp q2 u2 Hq. injection Hq as <- _.
  first_call Hp q3 h3 Hq. injection Hq as <- <-. first_call Hp q4 kp Hq. injection Hq as <- _. destruct kp as [pk eph].
  first_call Hp q5 out Hq. injection Hq as <- _. destruct out as [o m]. first_call Hp q6 u6 Hq. injection Hq as <- _.
  first_call Hp q7 body Hq. injection Hq as <- _. by injection Hp as <- _.
Qed.

Lemma inv_bundle b am payload a a' : direct_bundle am payload a = (a', Ok tt) -> inv (PeerId := PeerId) (Addr := Addr) b a -> inv b a'.
Proof.
  unfold direct_bundle. intros H Ha. first_call H a1 bundle H1. injection H1 as <- H1. unfold context in H1.
  apply map_err_ok, serde_typed in H1. first_call H a2 ini H2. injection H2 as <- <-. first_call H a3 h H3. injection H3 as <- _.
  first_call H a4 dev H4. injection H4 as <- _. first_call H a5 u H5.
  apply engine_call_ok, (inv_upsert b) in H5 as ((Hf & Hi & Hs) & _); [|done].
  unfold on_initiator in H. destruct (send_prekey _ _ _ _ _ _ _ _ _ _) as [[h' n'] r] eqn:Hsp. injection H as <- ->.
  apply send_prekey_peer in Hsp. split; [done|]. split; [|done]. cbn. intros h0 p [= <-]. rewrite Hsp. intros [= <-]. apply H1.
Qed.

Lemma inv_prekey b am from env a a' :
  ambient_ok am -> direct_prekey am from env a = (a', Ok tt) -> inv (PeerId := PeerId) (Addr := Addr) b a -> inv b a'.
Proof.
  unfold direct_prekey. intros Ham H Ha. first_call H a1 c H1. injection H1 as <- _. first_call H a2 rs H2. injection H2 as <- <-.
  first_call H a3 r H3. injection H3 as <- _. first_call H a4 pc H4. destruct pc as [pub chat].
  assert (resumable chat /\ session_wf chat) as [Hr Hw].
  { unfold on_responder in H4. destruct (on_prekey _ _ _ r) as [r' [res| |]] eqn:Hon; try discriminate.
    injection H4 as _ ->. apply on_prekey_inv in Hon as (? & ? & _); done. }
  apply (inv_framed b) in H4; [|apply framed_on_responder | done].
  first_call H a5 rs2 H5. injection H5 as <- <-. first_call H a6 pi H6. injection H6 as <- _.
  first_call H a7 u H7. apply engine_call_ok, (inv_upsert b) in H7 as (Ha7 & Hn & Hrow & _); [|done].
  first_call H a8 u8 H8. apply engine_call_ok in H8. first_call H a9 u9 H9. injection H9 as <- _.
  apply (inv_install b) in H8; [|done..]. apply (inv_true b) in H8.
  first_call H a10 u10 H10. apply (inv_framed b) in H10; [|apply framed_reply | done].
  by eapply inv_framed in H; [|apply framed_println|].
Qed.

Lemma inv_ratchet_pub b am from payload a a' :
  ambient_ok am -> direct_ratchet_pub am from payload a = (a', Ok tt) -> inv (PeerId := PeerId) (Addr := Addr) b a -> inv (works am 2) a'.
Proof.
  unfold direct_ratchet_pub. intros Ham H Ha. first_call H a1 ini H1. injection H1 as <- <-. first_call H a2 h H2. injection H2 as <- Hh.
  apply ok_or_ok in Hh. first_call H a3 chat H3.
  assert (resumable chat /\ session_wf chat /\ inv b a3) as (Hr & Hw & Ha3).
  { destruct Ha as (Hf & Hi & Hs). unfold on_initiator in H3. destruct (on_first _ _) as [[h' n'] res] eqn:He. injection H3 as <- ->.
    apply zoom_ok in He as (h1 & He & [= -> ->]). apply establish_inv in He as (? & ? & ->); [|done | intros p Hp; by eapply Hi].
    split; [done|]. split; [done|]. split; [done|]. split; [|done]. cbn. intros h0 p [= <-]. apply (Hi h p Hh). }
  first_call H a4 ini4 H4. injection H4 as <- <-. first_call H a5 pi H5. injection H5 as <- _. first_call H a6 dev H6. injection H6 as <- <-.
  first_call H a7 u H7. apply engine_call_ok, (inv_upsert b) in H7 as (Ha7 & Hn & Hrow & _); [|done].
  first_call H a8 u8 H8. apply engine_call_ok in H8. first_call H a9 u9 H9. injection H9 as <- _.
  apply (inv_install b) in H8; [|done..]. apply (inv_true b) in H8.
  unfold distribute_and_greet in H. first_call H a10 i H10. injection H10 as <- <-.
  first_call H b10 dv G10. injection G10 as <- <-. first_call H a11 gd H11.
  apply (inv_framed b) in H11; [|apply framed_on_group | done].
  first_call H a12 body H12. injection H12 as <- _.
  first_call H a13 u13 H13. apply (inv_framed b) in H13; [|apply framed_reply | done].
  first_call H a14 env H14. eapply inv_on_session in H14;
    [|apply chat_encrypt_resumable | apply chat_encrypt_wf | intros; apply chat_encrypt_conversation | done].
  first_call H a15 u15 H15. apply (inv_framed false) in H15; [|apply framed_send_to | done].
  first_call H a16 u16 H16. apply inv_ignore_persist in H16; [|done].
  by eapply inv_framed in H; [|apply framed_println|].
Qed.

Lemma inv_ensure b am c a a' : ensure_session am c a = (a', Ok tt) -> inv (PeerId := PeerId) (Addr := Addr) b a -> inv b a'.
Proof.
  unfold ensure_session. intros H Ha. first_call H a1 s H1. injection H1 as <- <-.
  destruct (ap_session a); [by injection H as <-|]. first_call H a2 chat H2. apply engine_call_ok, db_ok in H2 as (db' & Hr & ->).
  destruct chat as [chat|].
  - apply resume_inv in Hr as (-> & <- & Hr & Hw & Hn & Hrow & Hst).
    first_call H a3 u H3. injection H3 as <- _. injection H as <-. destruct Ha as (Hf & Hi & _).
    split; [done|]. split; [done|]. cbn. intros s [= <-]. split; [|done]. split_and!; try done. by apply Hf.
  - injection H as <-. pose proof (resume_state c (app_db a)) as Hs. rewrite Hr in Hs. cbn in Hs. subst db'.
    by apply inv_db.
Qed.

Lemma inv_chat b am from env a a' : direct_chat am from env a = (a', Ok tt) -> inv (PeerId := PeerId) (Addr := Addr) b a -> inv b a'.
Proof.
  unfold direct_chat. intros H Ha. first_call H a1 c H1. injection H1 as <- _. first_call H a2 u H2. destruct u.
  apply (inv_ensure b) in H2; [|done]. first_call H a3 ss H3. injection H3 as <- <-. first_call H a4 s H4. injection H4 as <- _.
  first_call H a5 u5 H5. apply engine_call_ok, (inv_upsert b) in H5 as (H5 & _); [|done]. first_call H a6 pt H6.
  eapply inv_on_session in H6;
    [|apply chat_decrypt_resumable | apply chat_decrypt_wf | intros; apply chat_decrypt_conversation | done].
  first_call H a7 u7 H7. apply inv_persist_session in H7; [|done]. apply (inv_true b) in H7.
  first_call H a8 u8 H8. apply (inv_framed b) in H8; [|apply framed_println | done].
  first_call H a9 hj H9. injection H9 as <- _. first_call H a10 mid H10. apply engine_call_ok, (inv_insert b) in H10; [|done].
  by injection H as <-.
Qed.

(** The store call of a turn whose error [main.rs] drops. *)
Definition dropped_call (input : LoopInput PeerId Addr) : option nat :=
  match input with
  | Line _ => Some 1%nat
  | Event (DirectMessage _ env) => if decide (head (env_encrypted_payload env) = Some MARKER_RATCHET_PUB) then Some 2%nat else None
  | _ => None
  end.

(** No error is dropped in the turn. *)
Definition turn_works (am : Ambient) (input : LoopInput PeerId Addr) : bool :=
  match dropped_call input with Some k => works am k | None => true end.

Lemma inv_and b b' (a : App) : inv b' a -> inv (b && b') a.
Proof. apply inv_weaken. by intros [_ ?]%andb_true_iff. Qed.
Lemma inv_and_l b b' (a : App) : inv b a -> inv (b && b') a.
Proof. apply inv_weaken. by intros [? _]%andb_true_iff. Qed.

Lemma inv_direct b am from env a a' :
  ambient_ok am -> handle_direct am from env a = (a', Ok tt) -> inv (PeerId := PeerId) (Addr := Addr) b a -> inv (b && turn_works am (Event (DirectMessage from env))) a'.
Proof.
  intros Ham H Ha. unfold handle_direct in H. first_call H a1 p H1. injection H1 as <- <-. first_call H a2 u H2.
  assert (inv b a2) as Ha2.
  { destruct (ap_peer a); [by injection H2 as <-|]. injection H2 as <- _. by eapply inv_core, Ha. }
  cbv zeta in H. repeat case_decide; [apply inv_and_l..| |apply inv_and_l|apply inv_and_l].
  - eapply inv_framed in H; [done| |done]. unfold direct_bundle_req. do 4 (apply framed_bind; [intros c; keeps_tac|intros ?]).
    apply framed_reply.
  - by eapply inv_bundle.
  - by eapply inv_prekey.
  - unfold turn_works, dropped_call. rewrite decide_True by done. apply inv_and. by eapply inv_ratchet_pub.
  - eapply inv_framed in H; [done| |done]. unfold direct_group_key. do 3 (apply framed_bind; [intros c; keeps_tac|intros ?]).
    apply framed_bind; [apply framed_on_group | intros _; apply framed_println].
  - by eapply inv_chat.
Qed.

Lemma inv_gossip b am from env a a' : gossip_message am from env a = (a', Ok tt) -> inv (PeerId := PeerId) (Addr := Addr) b a -> inv b a'.
Proof.
  intros H Ha. unfold gossip_message in H. destruct (GroupChat_decrypt env (ap_group a)) as [g [pt|e|p]]; [| |done].
  - assert (inv b (set_group g a)) as Hg by by eapply inv_core, Ha.
    first_call H a1 u H1. apply (inv_framed b) in H1; [|apply framed_println | done].
    first_call H a2 s H2. injection H2 as <- _. first_call H a3 i H3. injection H3 as <- _. cbv zeta in H.
    first_call H a4 u4 H4. apply engine_call_ok, (inv_upsert b) in H4 as (H4 & _); [|done]. first_call H a5 h H5. injection H5 as <- _.
    first_call H a6 mid H6. apply engine_call_ok, (inv_insert b) in H6; [|done]. by injection H as <-.
  - injection H as <-. by eapply inv_core, Ha.
Qed.

Lemma inv_settle b am st a a' : settle_last_outgoing am st a = (a', Ok tt) -> inv (PeerId := PeerId) (Addr := Addr) b a -> inv b a'.
Proof.
  intros H Ha. unfold settle_last_outgoing in H. first_call H a1 row H1. injection H1 as <- <-. first_call H a2 u H2. injection H2 as <- _.
  destruct (ap_last_outgoing a) as [id|].
  - apply engine_call_ok, store_ok in H as (db' & Hm & ->). injection Hm as <-. apply inv_db; [by split|]. by eapply inv_core, Ha.
  - injection H as <-. by eapply inv_core, Ha.
Qed.

Lemma on_app_ok {A} (m : M App AppError A) l l' x : on_app m l = (l', Ok x) -> m l.1 = (l'.1, Ok x).
Proof. intros (a & Hm & ->)%zoom_ok. done. Qed.

Lemma inv_handshake b am l l' : start_handshake am l = (l', Ok tt) -> inv (PeerId := PeerId) (Addr := Addr) b l.1 -> inv b l'.1.
Proof.
  intros H Hl. unfold start_handshake in H. first_call H l1 p H1. injection H1 as <- <-. destruct l as [a st].
  case_decide as Hd; [|by injection H as <-]. first_call H l2 u H2. injection H2 as <- _.
  destruct (ap_initiator a) as [h|] eqn:Hh; [|by injection H as <-]. apply on_app_ok in H. unfold on_initiator in H.
  destruct (request_bundle _ _) as [[h' n'] r] eqn:Hr. injection H as H ->. rewrite <- H.
  unfold request_bundle in Hr. first_call Hr p1 h1 H1. injection H1 as <- _. first_call Hr p2 e H2. injection H2 as <- _.
  apply zoom_ok in Hr as (n1 & _ & [= -> _]). eapply inv_core, Hl. unfold core. cbn. by rewrite Hh.
Qed.

Lemma inv_event b am ev l l' c :
  ambient_ok am -> handle_event am ev l = (l', Ok c) -> inv (PeerId := PeerId) (Addr := Addr) b l.1 -> inv (b && turn_works am (Event ev)) l'.1.
Proof.
  intros Ham H Hl. unfold handle_event in H. first_call H l1 u H1. injection H as <- _. destruct u.
  destruct ev; try apply on_app_ok in H1; try (by eapply inv_direct); apply inv_and_l.
  - by eapply inv_framed in H1; [|apply framed_println|].
  - first_call H1 l2 u2 H2. apply on_app_ok in H2. first_call H2 a1 u1 H3. apply (inv_framed b) in H3; [|apply framed_println | done].
    first_call H2 a2 k H4. injection H4 as <- <-. eapply inv_handshake; [exact H1|].
    destruct (ap_peer a1); [by injection H2 as <-|]. injection H2 as <- _. by eapply inv_core, H3.
  - by eapply inv_framed in H1; [|apply framed_println|].
  - by eapply inv_framed in H1; [|apply framed_println|].
  - cbv zeta in H1. first_call H1 a1 u1 H2. destruct u1. apply (inv_settle b) in H2; [|done]. by eapply inv_framed in H1; [|apply framed_println|].
  - first_call H1 a1 u1 H2. destruct u1. apply (inv_settle b) in H2; [|done]. by eapply inv_framed in H1; [|apply framed_println|].
  - by eapply inv_gossip.
Qed.

Lemma inv_chat_command b am line a a' : chat_command am line a = (a', Ok tt) -> inv (PeerId := PeerId) (Addr := Addr) b a -> inv (b && works am 1) a'.
Proof.
  unfold chat_command. intros H Ha. first_call H a1 ss H1. injection H1 as <- <-. first_call H a2 pp H2. injection H2 as <- <-.
  destruct (ap_session a) as [s|]; [|apply inv_and_l; by eapply inv_framed in H; [|apply framed_println|]].
  destruct (ap_peer a) as [p|]; [|apply inv_and_l; by eapply inv_framed in H; [|apply framed_println|]]. apply inv_and.
  first_call H a3 i H3. injection H3 as <- _. first_call H a4 dev H4. injection H4 as <- _. first_call H a5 env H5.
  eapply inv_on_session in H5;
    [|apply chat_encrypt_resumable | apply chat_encrypt_wf | intros; apply chat_encrypt_conversation | done].
  first_call H a6 hj H6. injection H6 as <- _. first_call H a7 row H7. apply engine_call_ok, (inv_insert false) in H7; [|done].
  first_call H a8 u8 H8. injection H8 as <- _. assert (inv false (set_last_outgoing (Some row) a7)) as Ha8 by by eapply inv_core, H7.
  first_call H a9 u9 H9. apply (inv_framed false) in H9; [|apply framed_send_to | done].
  first_call H a10 u10 H10. apply inv_ignore_persist in H10; [|done]. by eapply inv_framed in H; [|apply framed_println|].
Qed.

Lemma inv_history b am k c a a' : print_history am k c a = (a', Ok tt) -> inv (PeerId := PeerId) (Addr := Addr) b a -> inv b a'.
Proof.
  unfold print_history. intros H Ha. first_call H a1 ms H1. apply engine_call_ok, store_ok in H1 as (db' & Hm & ->).
  apply list_messages_ext in Hm as ->. eapply inv_framed in H; [done|apply framed_println|]. by apply inv_db.
Qed.

Lemma inv_group_command b am text a a' : group_command am text a = (a', Ok tt) -> inv (PeerId := PeerId) (Addr := Addr) b a -> inv b a'.
Proof.
  unfold group_command. intros H Ha. first_call H a1 g H1. injection H1 as <- <-.
  destruct (gc_sender (ap_group a)); [|by eapply inv_framed in H; [|apply framed_println|]].
  first_call H a2 i H2. injection H2 as <- _. first_call H a3 dev H3. injection H3 as <- _.
  first_call H a4 u H4. apply zoom_ok in H4 as (p & _ & ->).
  eapply inv_framed in H; [done|apply framed_println|]. by eapply inv_core, Ha.
Qed.

Lemma inv_command b am line a a' c : handle_command am line a = (a', Ok c) -> inv (PeerId := PeerId) (Addr := Addr) b a -> inv (b && works am 1) a'.
Proof.
  unfold handle_command. intros H Ha. repeat case_decide; [apply inv_and_l..|].
  - by injection H as <-.
  - first_call H a1 u1 G1. apply (inv_framed b) in G1; [|apply framed_println | done]. first_call H a2 s G2. injection G2 as <- _.
    first_call H a3 g G3. injection G3 as <- _. first_call H a4 u4 G4. injection H as <- _.
    by eapply inv_framed in G4; [|apply framed_println|].
  - first_call H a1 dev G1. injection G1 as <- _. first_call H a2 u2 G2. destruct u2. apply (inv_history b) in G2; [|done].
    first_call H a3 g G3. injection G3 as <- _. first_call H a4 u4 G4. destruct u4. apply (inv_history b) in G4; [|done].
    by injection H as <- _.
  - destruct (strip_prefix "@group " line) as [text|]; first_call H a1 u1 G1; destruct u1; injection H as <- _.
    + apply inv_and_l. by eapply inv_group_command.
    + by eapply inv_chat_command.
Qed.

Lemma inv_turn b am i l l' c :
  ambient_ok am -> turn am i l = (l', Ok c) -> inv (PeerId := PeerId) (Addr := Addr) b l.1 -> inv (b && turn_works am i) l'.1.
Proof.
  intros Ham H Hl. destruct i as [[|x line]|e| |ev|]; cbn [turn] in H; [injection H as <- _; by apply inv_and_l| |done|injection H as <- _; by apply inv_and_l| |injection H as <- _; by apply inv_and_l].
  - apply on_app_ok in H. by eapply inv_command.
  - by eapply inv_event.
Qed.

Lemma inv_loop b inputs l l' ended :
  Forall (fun p => ambient_ok p.1) inputs -> run_loop inputs l = (l', Ok ended) ->
  inv (PeerId := PeerId) (Addr := Addr) b l.1 -> inv (b && forallb (fun p => turn_works p.1 p.2) inputs) l'.1.
Proof.
  intros Ham. revert b l. induction Ham as [|[am i] inputs Ha Ham IH]; intros b l H Hl; cbn [run_loop forallb fst snd] in *.
  { injection H as <- _. by rewrite andb_true_r. }
  first_call H l1 c H1. apply (inv_turn b) in H1; [|done..]. rewrite andb_assoc. destruct c; [by eapply IH|].
  apply inv_and_l. first_call H l2 u2 H2. injection H as <- _. apply on_app_ok in H2. by eapply inv_framed in H2; [|apply framed_println|].
Qed.

Lemma framed_subscribe : framed (subscribe_group (PeerId := PeerId) (Addr := Addr)).
Proof.
  unfold subscribe_group. apply framed_bind; [apply framed_println|intros _]. apply framed_bind; [intros c; keeps_tac|intros g].
  intros c a <-. unfold zoom. by destruct (with_err _ _ _).
Qed.

Context `{SP : Serde PrekeyMaterial}.

Lemma framed_prekey pretty w now c k :
  framed (on_store (PeerId := PeerId) (Addr := Addr) (NodeStore_prekey pretty w now c k)).
Proof.
  intros x a <-. unfold on_store, zoom.
  assert (keeps (fun s => ns_db s = ns_db (ap_store a)) (NodeStore_prekey pretty w now c k)) as Hk.
  { unfold NodeStore_prekey. apply keeps_bind; [keeps_tac|]. intros file. destruct (file ≫= _); keeps_tac; done. }
  specialize (Hk (ap_store a) eq_refl). destruct (NodeStore_prekey _ _ _ _ _ _) as [s' r]. unfold core, app_db. cbn in *. by rewrite Hk.
Qed.

(** How the two roles start, on a database whose sessions have their
    conversations. *)
Inductive started : App -> Prop :=
| started_responder store node a0 a pretty write_result now_secs classical_rnd kem_rnd tx reply dialable :
    fk (ns_db store) -> app_start store node = Ok a0 ->
    (subscribe_group;; start_responder pretty write_result now_secs classical_rnd kem_rnd tx reply dialable) a0 = (a, Ok tt) -> started a
| started_initiator store node a0 a peer addr :
    fk (ns_db store) -> app_start store node = Ok a0 -> (subscribe_group;; start_initiator peer addr) a0 = (a, Ok tt) -> started a.

Lemma inv_app_start store node a0 : fk (ns_db store) -> app_start store node = Ok a0 -> inv (PeerId := PeerId) (Addr := Addr) true a0.
Proof. intros Hf [= <-]. by split_and!. Qed.

Lemma inv_started a : started a -> inv true a.
Proof.
  intros [store node a0 a' pretty w now c k tx reply dialable Hf H0 H|store node a0 a' peer addr Hf H0 H]; apply inv_app_start in H0; try done;
    first_call H a1 u1 H1; apply (inv_framed true) in H1; try done; try apply framed_subscribe.
  - first_call H a6 pk H6. apply (inv_framed true) in H6; [|apply framed_prekey | done]. first_call H a2 i H2. injection H2 as <- _.
    first_call H a3 u3 H3. apply (inv_framed true) in H3; [|apply framed_println | done].
    first_call H a4 u4 H4. injection H4 as <- _. first_call H a5 l H5. apply zoom_ok in H5 as (n & _ & ->).
    first_call H a7 u7 H7. eapply (inv_framed true) in H7; [|apply framed_println | by eapply inv_core, H3].
    first_call H a8 p8 H8. injection H8 as <- _. first_call H a9 d9 H9. injection H9 as <- _.
    eapply inv_framed in H; [done | apply framed_println | done].
  - first_call H a2 u2 H2. injection H2 as <- _. first_call H a3 dev H3. injection H3 as <- _.
    assert (inv true (set_peer (Some peer) a1)) as Ha2 by by eapply inv_core, H1.
    first_call H a4 chat H4. apply db_ok in H4 as (db' & Hr & ->). first_call H a5 u5 H5.
    first_call H a6 i H6. injection H6 as <- _. first_call H a7 u7 H7. injection H7 as <- _. apply zoom_ok in H as (n & _ & ->).
    assert (inv true a5) as (Hf5 & _ & Hs5).
    { destruct chat as [chat|].
      - apply resume_inv in Hr as (-> & <- & Hr & Hw & Hn & Hrow & Hst).
        first_call H5 a8 u8 H8. injection H8 as <- _. injection H5 as <- _. destruct Ha2 as (Hf2 & Hi2 & _).
        split; [done|]. split; [done|]. cbn. intros s [= <-]. split; [|done]. split_and!; try done. by apply Hf2.
      - injection H5 as <- _. pose proof (resume_state dev (app_db (set_peer (Some peer) a1))) as Hs. rewrite Hr in Hs. cbn in Hs. subst db'.
        by apply (inv_db _ (set_peer (Some peer) a1)). }
    split; [done|]. split; [|done]. cbn. by intros h p [= <-].
Qed.

(** C7. What the application holds is what the database holds, whatever the
    engine does, but for the errors that are dropped.  From the start of either
    role, through any sequence of commands and network events the loop handles
    without an error, the session in memory is exactly what resuming it from
    the database would give, unless the engine failed at one of the two stores
    whose error is dropped ([let _ = session.persist(..)] after the greeting
    and after a line of chat).  A failure of any other store call ends the loop
    with its error.  Even after a dropped error the session is one that the
    next store would save. *)
Theorem session_always_stored inputs a a' st st' ended s :
  started a -> Forall (fun p => ambient_ok p.1) inputs ->
  run_loop inputs (a, st) = ((a', st'), Ok ended) -> ap_session a' = Some s ->
  (resume (conversation_id s) (ns_db (ap_store a')) = (ns_db (ap_store a'), Ok (Some s)) \/
   exists am input k e, (am, input) ∈ inputs /\ dropped_call input = Some k /\ disk am k = Some e) /\
  forall now, exists db', ChatSession_persist now s (ns_db (ap_store a')) = (db', Ok tt) /\
    resume (conversation_id s) db' = (db', Ok (Some s)).
Proof.
  intros Ha%inv_started Ham H Hs. apply inv_loop with (b := true) in H as (_ & _ & Hi); [|done..].
  destruct (Hi s Hs) as [(Hr & Hw & Hn & [conv Hc]) Hst]. split.
  - destruct (forallb _ inputs) eqn:Hall; [left|right].
    + specialize (Hst eq_refl). unfold stored in Hst. cbn in Hst.
      rewrite <- (resume_state (conversation_id s) (ns_db (ap_store a'))) at 2. unfold app_db in Hst. rewrite <- Hst.
      by destruct (resume _ _).
    + clear -Hall. induction inputs as [|[am i] inputs IH]; [done|]. cbn [forallb fst snd] in Hall. apply andb_false_iff in Hall as [Hf|Hf].
      * unfold turn_works, works in Hf. destruct (dropped_call i) as [k|] eqn:Hk; [|done]. destruct (disk am k) as [e|] eqn:He; [|done].
        exists am, i, k, e. split; [apply list_elem_of_here|done].
      * destruct (IH Hf) as (am' & i' & k & e & Hin & Hd). exists am', i', k, e. split; [by apply list_elem_of_further|done].
  - intros now. destruct (persist_ok now s _ conv Hr Hw Hn Hc) as (db' & Hp & Hres & _). by exists db'.
Qed.
End Props.

(** ** Evaluation: an initiator that finds its session in the database. *)

#[export] Instance SignedPreKey_eq_dec : EqDecision SignedPreKey.
Proof. solve_decision. Defined.
#[export] Instance SignedPreKey_countable : Countable SignedPreKey :=
  inj_countable' (fun s => (spk_key_id s, spk_public_key s, spk_signature s, spk_timestamp s))
    (fun '(i, k, s, t) => {| spk_key_id := i; spk_public_key := k; spk_signature := s; spk_timestamp := t |})
    ltac:(by intros []).
#[export] Instance OneTimePreKey_eq_dec : EqDecision OneTimePreKey.
Proof. solve_decision. Defined.
#[export] Instance OneTimePreKey_countable : Countable OneTimePreKey :=
  inj_countable' (fun o => (opk_key_id o, opk_public_key o)) (fun p => {| opk_key_id := p.1; opk_public_key := p.2 |})
    ltac:(by intros []).
#[export] Instance PreKeyBundle_eq_dec : EqDecision PreKeyBundle.
Proof. solve_decision. Defined.
#[export] Instance PreKeyBundle_countable : Countable PreKeyBundle :=
  inj_countable' (fun b => (identity_key b, identity_kem_public b, signed_prekey b, one_time_prekeys b, bundle_signature b))
    (fun '(i, k, s, o, g) => {| identity_key := i; identity_kem_public := k; signed_prekey := s; one_time_prekeys := o;
                                bundle_signature := g |}) ltac:(by intros []).
#[export] Instance OneTimePreKey_wf_dec : forall o : OneTimePreKey, Decision (wf o).
Proof. wf_decide. Defined.
#[export] Instance SignedPreKey_wf_dec : forall s : SignedPreKey, Decision (wf s).
Proof. wf_decide. Defined.
#[export] Instance PreKeyBundle_wf_dec : forall b : PreKeyBundle, Decision (wf b).
Proof. wf_decide. Defined.
Definition concrete_bundle : Serde PreKeyBundle := countable_serde PreKeyBundle.
#[export] Instance concrete_bundle_ok : @SerdeOk PreKeyBundle _ concrete_bundle := countable_serde_ok PreKeyBundle.

#[export] Instance GroupKeyDistribution_eq_dec : EqDecision GroupKeyDistribution.
Proof. solve_decision. Defined.
#[export] Instance GroupKeyDistribution_countable : Countable GroupKeyDistribution :=
  inj_countable' (fun d => (gkd_chain_key d, gkd_key_id d, gkd_message_index d))
    (fun '(c, k, i) => {| gkd_chain_key := c; gkd_key_id := k; gkd_message_index := i |}) ltac:(by intros []).
#[export] Instance GroupKeyDistribution_wf_dec : forall d : GroupKeyDistribution, Decision (wf d).
Proof. wf_decide. Defined.
Definition concrete_distribution : Serde GroupKeyDistribution := countable_serde GroupKeyDistribution.
#[export] Instance concrete_distribution_ok : @SerdeOk GroupKeyDistribution _ concrete_distribution :=
  countable_serde_ok GroupKeyDistribution.

#[export] Instance PrekeyMaterial_wf : Wf PrekeyMaterial := fun p =>
  is_u32 (pkm_key_id p) /\ wf (pkm_public_key p) /\ length (pkm_private_classical p) = X25519_PRIVATE_KEY_SIZE /\
  wf (pkm_signature p) /\ is_u64 (pkm_timestamp p).
#[export] Instance PrekeyMaterial_eq_dec : EqDecision PrekeyMaterial.
Proof. solve_decision. Defined.
#[export] Instance PrekeyMaterial_countable : Countable PrekeyMaterial :=
  inj_countable' (fun p => (pkm_key_id p, pkm_public_key p, pkm_private_classical p, pkm_private_pq p, pkm_signature p, pkm_timestamp p))
    (fun '(i, k, c, q, s, t) => {| pkm_key_id := i; pkm_public_key := k; pkm_private_classical := c; pkm_private_pq := q;
                                   pkm_signature := s; pkm_timestamp := t |}) ltac:(by intros []).
#[export] Instance PrekeyMaterial_wf_dec : forall p : PrekeyMaterial, Decision (wf p).
Proof. wf_decide. Defined.
Definition concrete_material : Serde PrekeyMaterial := countable_serde PrekeyMaterial.

#[local] Existing Instances dev_build concrete_header concrete_signature concrete_prekey_message concrete_bundle concrete_material
  concrete_group_message concrete_distribution concrete_session_keys concrete_snapshot.

#[local] Existing Instance quiet_disk.

Definition sample_ambient : Ambient := {| clock _ := 11; draw _ := alice_secret; draw_u32 := 5 |}.

(** The database of a device "conv" that holds [alice_session]. *)
Definition resumed_store : NodeStore :=
  {| ns_db := (ChatSession_persist 5 alice_session sample_db).1; ns_identity := alice_identity;
     ns_device_id := "conv"; ns_bundle_file := None |}.

Definition demo_group : GroupChat := match GroupChat_new with Ok g => g | _ => sample_group end.
Definition fresh_app (store : NodeStore) : App nat nat :=
  {| ap_store := store; ap_node := sample_node; ap_initiator := None; ap_responder := None; ap_session := None;
     ap_group := demo_group; ap_peer := None; ap_last_outgoing := None; ap_output := [] |}.

Lemma alice_session_wf : resumable alice_session /\ session_wf alice_session.
Proof.
  destruct (init_eq SESSION_ID sample_root alice_secret (x25519_public bob_secret) []) as (r & k & _ & Hi).
  unfold resumable, session_wf, alice_session. cbn [ratchet session_keys peer_identity]. rewrite Hi.
  split; [done|]. split; [split_and!; try apply length_pad32; [apply public_wf | done]|]. by eapply init_wf, Hi.
Qed.

Lemma resumed_store_ok :
  fk (ns_db resumed_store) /\ resume "conv" (ns_db resumed_store) = (ns_db resumed_store, Ok (Some alice_session)).
Proof.
  destruct alice_session_wf as [Hr Hw].
  destruct (persist_ok 5 alice_session sample_db {| cvr_peer_classical := []; cvr_peer_pq := []; cvr_is_group := 0; cvr_created_at := 1 |})
    as (db' & Hp & Hres & row & Hl); [done | done | reflexivity | reflexivity |].
  cbn [resumed_store ns_db]. rewrite Hp. cbn [fst]. split; [|exact Hres]. intros c. rewrite Hl.
  cbn [t_sessions t_conversations set_sessions].
  destruct (decide (c = "conv")) as [->|Hne]; [by intros _; eexists|].
  rewrite lookup_insert_ne by done. intros [r Hx].
  change (t_sessions (live sample_db)) with (∅ : gmap string SessionRow) in Hx. by rewrite lookup_empty in Hx.
Qed.

(** An initiator that finds its session when it starts. *)
Lemma start_resumed (store : NodeStore) s :
  resume (ns_device_id store) (ns_db store) = (ns_db store, Ok (Some s)) ->
  exists a, (subscribe_group;; start_initiator 2%nat 0%nat) (fresh_app store) = (a, Ok tt) /\ ap_session a = Some s /\
    ns_db (ap_store a) = ns_db store /\ ns_identity (ap_store a) = ns_identity store /\
    ns_device_id (ap_store a) = ns_device_id store /\ np_running (ap_node a) = true /\ ap_peer a = Some 2%nat.
Proof.
  intros Hres. eexists. split.
  - unfold start_initiator, subscribe_group, print_banner, our_device, our_identity. mrun. rewrite println_ok. mrun.
    unfold zoom at 1. unfold with_err, P2pNode_subscribe. rewrite send_control_ok by done. mrun.
    cbn [map_err]. mrun. unfold on_db, on_store, zoom. mrun. cbn [ap_store set_peer set_node].
    change (ns_db (ap_store (println OutBanner (fresh_app store)).1)) with (ns_db store).
    change (ns_device_id (ap_store (println OutBanner (fresh_app store)).1)) with (ns_device_id store). rewrite Hres. mrun.
    rewrite println_ok. mrun. unfold with_err, P2pNode_dial. rewrite send_control_ok by done. reflexivity.
  - by split_and!.
Qed.

Lemma resumed_started :
  exists a : App nat nat, started a /\ ap_session a = Some alice_session /\ ns_db (ap_store a) = ns_db resumed_store /\
    ns_identity (ap_store a) = alice_identity /\ ns_device_id (ap_store a) = "conv" /\
    np_running (ap_node a) = true /\ ap_peer a = Some 2%nat.
Proof.
  destruct resumed_store_ok as [Hf Hres]. destruct (start_resumed resumed_store alice_session Hres) as (a & Ha & H).
  exists a. split; [|exact H]. by eapply (started_initiator resumed_store sample_node (fresh_app resumed_store)).
Qed.

Lemma session_always_stored_witness :
  exists (a a' : App nat nat) st' s, started a /\
    run_loop [(sample_ambient, Event (PeerConnected 2%nat)); (sample_ambient, Event (PeerDisconnected 2%nat))] (a, false)
      = ((a', st'), Ok false) /\ ap_session a' = Some s /\
    resume (conversation_id s) (ns_db (ap_store a')) = (ns_db (ap_store a'), Ok (Some s)).
Proof.
  destruct resumed_started as (a & Ha & Hs & _ & _ & _ & _ & Hp).
  assert (exists a', run_loop [(sample_ambient, Event (PeerConnected 2%nat)); (sample_ambient, Event (PeerDisconnected 2%nat))]
    (a, false) = ((a', false), Ok false) /\ ap_session a' = Some alice_session) as (a' & Hrun & Hs').
  { eexists. split.
    { cbn [run_loop turn]. unfold handle_event, on_app, on_first, zoom, start_handshake. mrun.
    rewrite println_ok. mrun. change (ap_peer (println (OutPeer "connected to" 2%nat) a).1) with (ap_peer a). rewrite Hp. mrun.
    change (ap_session (println (OutPeer "connected to" 2%nat) a).1) with (ap_session a). rewrite Hs.
    rewrite decide_False by (intros (_ & ? & _); discriminate). mrun. rewrite println_ok. mrun. reflexivity. }
    exact Hs. }
  exists a, a', false, alice_session. split; [exact Ha | split; [exact Hrun | split; [exact Hs'|]]].
  destruct (session_always_stored [(sample_ambient, Event (PeerConnected 2%nat)); (sample_ambient, Event (PeerDisconnected 2%nat))]
           a a' false false false alice_session) as [[H|(am & i & k & e & _ & _ & He)] _];
    [exact Ha | by repeat constructor | exact Hrun | exact Hs' | exact H | discriminate He].
Defined.
