(* ===== verification/Startup.v ===== *)
(** Starting the demo: [NodeStore::open] and [db_key] of
    [presidium-demo/src/store.rs], and [demo_main], [peer_id_of] and
    [dialable_address] of [presidium-demo/src/main.rs].

    [NodeDir] is the directory of a node.  Its database file is opened through
    the interface [DatabaseFile], which [engine_file] implements with
    [Database_open] of Database on an SQLite engine; from there on, as in App, a
    database is its tables.  The outcomes of file system calls are
    arguments ([Files]); a failed write is taken to leave no file.  Parsing and
    printing of addresses is the multiaddr crate's.  The command line parser,
    the thread, the runtime and the log are left out. *)

From S2P Require Import Prelude Constants Prims Ratchet Identity Pqxdh Keys Sqleet SessionState Database Store.
From S2P Require Import SqlSem SqlProps StoreRead ChatSession Network Node Behaviour Handshake Group App.

(** ** The directory *)

(** [File]: the database file and the engine around it; opening shows the
    tables of the file. *)
Class DatabaseFile := {
  File : Type;
  open_file : bytes -> M File StorageError Db
}.

(** [Database::open(path, key)] on an SQLite engine. *)
Definition engine_file {E : Engine} {D : Type} (V : SqlView E D) (content : D -> relations) (path : string) : DatabaseFile :=
  {| File := World; open_file key := database_tables content (Some path) key |}.

Record NodeDir `{DatabaseFile} := { nd_salt : option bytes; nd_bundle : option bytes; nd_file : File }.

Record Files := { fs_create : result string unit; fs_read : result string unit; fs_write : result string unit }.

(** What [load_or_create_identity] and [db_key] take from outside. *)
Record OpenAmbient := {
  oa_files : Files; oa_salt : bytes; oa_now : Z; oa_classical : bytes; oa_pq : bytes; oa_device : bytes
}.

Definition DEFAULT_PASSPHRASE : bytes := bs "presidium-demo-passphrase".

Section Open.
Context `{C : Crypto} `{A : Argon2} `{DF : DatabaseFile}.

Definition set_salt (salt : bytes) (d : NodeDir) : NodeDir :=
  {| nd_salt := Some salt; nd_bundle := nd_bundle d; nd_file := nd_file d |}.
Definition set_file (f : File) (d : NodeDir) : NodeDir :=
  {| nd_salt := nd_salt d; nd_bundle := nd_bundle d; nd_file := f |}.

Definition db_salt (fs : Files) (uuid : bytes) : M NodeDir AppError bytes :=
  stored ← gets nd_salt;
  match stored with
  | Some stored =>
      lift (map_err show_serde (fs_read fs));;
      lift (try_into_array ARGON2_SALT_SIZE stored ["stored salt has wrong size"])
  | None =>
      let salt := generate_salt uuid in
      lift (map_err show_serde (fs_write fs));;
      modify (set_salt salt);;
      mret salt
  end.

(** [copy_from_slice] panics when the lengths differ. *)
Definition db_key (fs : Files) (uuid : bytes) : M NodeDir AppError bytes :=
  salt ← db_salt fs uuid;
  key ← lift (anyhow_prefix "derive db key" (derive_db_key DEFAULT_PASSPHRASE salt));
  if decide (length key = 32%nat) then mret key
  else lift (Panic "source slice length does not match destination slice length").

Definition NodeStore_open (am : OpenAmbient) : M NodeDir AppError NodeStore :=
  lift (map_err show_serde (fs_create (oa_files am)));;
  key ← db_key (oa_files am) (oa_salt am);
  db ← zoom nd_file set_file (with_err (fun e => ["open db: " +:+ StorageError_to_string e]) (open_file key));
  let '(db, identity) := load_or_create_identity (oa_now am) (oa_classical am) (oa_pq am) (oa_device am) db in
  '(identity, device_id) ← lift identity;
  bundle ← gets nd_bundle;
  mret {| ns_db := db; ns_identity := identity; ns_device_id := device_id; ns_bundle_file := bundle |}.
End Open.

(** ** Addresses *)

(** [str::replace] with a non-empty pattern; [skip] characters belong to a
    match. *)
Fixpoint replace_from (pat by_ : string) (skip : nat) (s : string) : string :=
  match s with
  | EmptyString => EmptyString
  | String c rest =>
      match skip with
      | S skip => replace_from pat by_ skip rest
      | O => if String.prefix pat s then by_ +:+ replace_from pat by_ (pred (String.length pat)) rest
             else String c (replace_from pat by_ 0 rest)
      end
  end.
Definition replace (pat by_ s : string) : string := replace_from pat by_ 0 s.

Section Addresses.
Context {PeerId Part : Type} (is_tcp : Part -> bool).
Context (parse : string -> result string (@Multiaddr PeerId Part)) (display : @Multiaddr PeerId Part -> string) (show : PeerId -> string).

Abbreviation Addr := (@Multiaddr PeerId Part).

Definition p2p_part (p : @Protocol PeerId Part) : option PeerId := match p with P2p id => Some id | Other _ => None end.

Definition peer_id_of (addr : Addr) : result AppError PeerId :=
  match head (omap p2p_part addr) with
  | Some id => Ok id
  | None => Panic "--peer must carry a /p2p/<peer-id> suffix"
  end.

Definition has_tcp (addr : Addr) : bool := existsb (fun p => match p with P2p _ => false | Other part => is_tcp part end) addr.

Definition expect {E B} (msg : string) (r : result E B) : result AppError B :=
  match r with Ok b => Ok b | Err _ => Panic msg | Panic p => Panic p end.

Definition dialable_address (addrs : list Addr) (peer : PeerId) : result AppError Addr :=
  addr ← match List.find has_tcp addrs with
         | Some addr => Ok addr
         | None => expect "static addr" (parse "/ip4/127.0.0.1/tcp/0")
         end;
  let text := replace "/ip4/0.0.0.0" "/ip4/127.0.0.1" (display addr) in
  expect "dialable address" (parse (text +:+ "/p2p/" +:+ show peer)).
End Addresses.

(** ** [demo_main], up to the event loop *)

Inductive Role := Initiator | Responder.
Record Cli := { cli_role : Role; cli_peer : option string }.

(** [st_net]: the seed drawn for the network identity; the rest are the
    arguments of [start_responder]. *)
Record StartAmbient := {
  st_net : bytes; st_open : OpenAmbient;
  st_write : result string unit; st_now_secs : Z; st_classical : bytes; st_kem : bytes; st_tx : nat
}.

Section Main.
Context `{C : Crypto} `{A : Argon2} `{DF : DatabaseFile} `{L : Libp2p} {Part ReqId Channel : Type} `{Countable ReqId} `{PE : Proto NetworkEnvelope}.
Context `{SP : Serde PrekeyMaterial} `{SR : Serde RatchetMessageHeader} `{SS : Serde RatchetSnapshot} `{SK : Serde SessionKeys}.
Context (is_tcp : Part -> bool) (parse : string -> result string (@Multiaddr NetPeerId Part)).
Context (display : @Multiaddr NetPeerId Part -> string) (show : NetPeerId -> string).
Context (pretty : PrekeyMaterial -> result string bytes).

Abbreviation Addr := (@Multiaddr NetPeerId Part).
Abbreviation NetApp := (App NetPeerId Addr).

Definition demo_config (any : Addr) : NodeConfig Addr :=
  {| listen := [any]; bootstrap_peers := bootstrap_peers (@NodeConfig_default Addr); mdns_enabled := false; auto_dial := false;
     kad_mode := Disabled; subscribe_topics := subscribe_topics (@NodeConfig_default Addr);
     idle_connection_timeout := idle_connection_timeout (@NodeConfig_default Addr); request_timeout := 30 |}.

(** The branches of the role; [reply] are the addresses the node answers
    with. *)
Definition start_role (am : StartAmbient) (reply : option (list Addr)) (cli : Cli) : M NetApp AppError unit :=
  match cli_role cli with
  | Responder =>
      start_responder pretty (st_write am) (st_now_secs am) (st_classical am) (st_kem am) (st_tx am) reply
        (dialable_address is_tcp parse display show)
  | Initiator =>
      text ← lift (ok_or (cli_peer cli) ["--peer is required for the initiator"]);
      peer_addr ← lift (map_err show_serde (parse text));
      peer ← lift (peer_id_of peer_addr);
      start_initiator peer peer_addr
  end.

(** Running the application on its directory: the bundle file follows the
    store. *)
Definition write_back (a : NetApp) (d : NodeDir) : NodeDir :=
  {| nd_salt := nd_salt d; nd_bundle := ns_bundle_file (ap_store a); nd_file := nd_file d |}.
Definition on_dir {B} (a0 : NetApp) (m : M NetApp AppError B) : M NodeDir AppError (NetApp * B) := fun d =>
  let '(a, r) := m a0 in (write_back a d, b ← r; mret (a, b)).

Definition demo_main (any : Addr) (am : StartAmbient) (reply : option (list Addr)) (cli : Cli)
    : M NodeDir AppError (NetApp * @Running _ Part ReqId Channel _ _) :=
  listen ← lift (map_err show_serde (parse "/ip4/0.0.0.0/tcp/0"));
  running ← lift (map_err show_network (P2pNode_start any display (st_net am) (demo_config listen)));
  store ← NodeStore_open (st_open am);
  a0 ← lift (app_start store (rn_node running));
  '(a, _) ← on_dir a0 (subscribe_group;; start_role am reply cli);
  mret (a, running).
End Main.
