(* ===== verification/StartupProps.v ===== *)
(** Starting and restarting the demo: the identity, the device id, the salt
    and the session survive. *)

From S2P Require Import Prelude Constants Prims Concrete Ratchet RatchetFacts RatchetProps Identity IdentityProps.
From S2P Require Import Pqxdh PqxdhProps Keys KeysProps Sqleet SqleetProps SqlProps SessionState SessionFacts Database DatabaseProps EngineModel Store StoreProps.
From S2P Require Import SqlText SqlSem StoreRep StoreQueries StoreRows StoreSqlFacts StoreOpen StoreRead StoreEngine.
From S2P Require Import ChatSession Network Node Behaviour Handshake ChatProps Group GroupProps App AppFacts AppProps Startup.

(** ** What the application never changes

    Its identity, its device id and the identity row of the database; on every
    path, errors included. *)

Section Home.
Context `{C : Crypto, B : Build}.
Context `{SH : Serde RatchetMessageHeader, SS : Serde HybridSignature, SM : Serde PqxdhPrekeyMessage, SB : Serde PreKeyBundle}.
Context `{SG : Serde SenderKeyMessage, SD : Serde GroupKeyDistribution, SK : Serde SessionKeys, SR : Serde RatchetSnapshot}.
Context `{SP : Serde PrekeyMaterial}.
Context `{DK : Disk} {PeerId Addr : Type}.

Abbreviation App := (App PeerId Addr).

Definition home (a : App) : IdentityKeyPair * string * option IdentityRecord :=
  (ns_identity (ap_store a), ns_device_id (ap_store a), t_identity (live (ns_db (ap_store a)))).

Definition settled {A} (m : M App AppError A) : Prop := forall h, keeps (fun a => home a = h) m.

(** The same for an operation of the database. *)
Definition db_settled {E A} (m : M Db E A) : Prop := forall i, keeps (fun db => t_identity (live db) = i) m.

Create HintDb home.

Lemma texts_settled l : db_settled (bind_texts l).
Proof. intros i. unfold bind_texts. keeps_tac. Qed.
Lemma upsert_settled r : db_settled (upsert_conversation r).
Proof. intros i. apply keeps_bind; [apply texts_settled|intros _]. by apply keeps_modify. Qed.
Lemma insert_settled r : db_settled (insert_message r).
Proof. intros i. apply keeps_bind; [apply texts_settled|intros _]. keeps_tac. done. Qed.
Lemma status_settled id st : db_settled (update_message_status id st).
Proof. intros i. by apply keeps_modify. Qed.
Lemma list_settled c b n : db_settled (list_messages c b n).
Proof. intros i. apply keeps_bind; [apply texts_settled|intros _]. keeps_tac. Qed.
Lemma save_settled c s : db_settled (save_session c s).
Proof.
  intros i. unfold save_session. do 2 (apply keeps_bind; [apply keeps_lift|intros ?]). apply keeps_bind; [apply texts_settled|intros _].
  apply keeps_bind; [apply keeps_gets|intros m]. destruct (m !! c); [by apply keeps_modify|apply keeps_fail].
Qed.
Lemma persist_settled now s : db_settled (ChatSession_persist now s).
Proof.
  intros i db Hdb. unfold ChatSession_persist, NodeStore_save_session.
  pose proof (save_settled (conversation_id s) {| ss_is_initiator := is_initiator s; ss_session_keys := session_keys s;
    ss_ratchet := Some (RatchetSnapshot_from_ratchet (ratchet s)); ss_last_used := now |} i db Hdb) as H.
  by destruct (save_session _ _ db).
Qed.
Lemma resume_settled c : db_settled (resume c).
Proof. intros i db Hdb. by rewrite resume_state. Qed.

Lemma settled_db {A} (m : M Db AppError A) : db_settled m -> settled (on_db m).
Proof.
  intros Hm h a <-. unfold on_db, on_store, zoom. specialize (Hm _ (ns_db (ap_store a)) eq_refl).
  destruct (m _). unfold home. cbn in *. by rewrite Hm.
Qed.
Lemma settled_store {A} c (m : M Db StorageError A) : db_settled m -> settled (on_store (on_store_db c m)).
Proof.
  intros Hm h a <-. unfold on_store, on_store_db, zoom, with_err. specialize (Hm _ (ns_db (ap_store a)) eq_refl).
  destruct (m _). unfold home. cbn in *. by rewrite Hm.
Qed.
Lemma settled_println o : settled (println o).
Proof. by intros h a <-. Qed.
Lemma settled_node {A} (m : M (P2pNode PeerId Addr) AppError A) : settled (zoom ap_node set_node m).
Proof. intros h a <-. unfold zoom. by destruct (m _). Qed.
Lemma settled_group {A} (m : M GroupChat AppError A) : settled (on_group m).
Proof. intros h a <-. unfold on_group, zoom. by destruct (m _). Qed.
Lemma settled_initiator {A} i (m : M (InitiatorHandshake PeerId * P2pNode PeerId Addr) AppError A) : settled (on_initiator i m).
Proof. intros h a <-. unfold on_initiator. by destruct (m _) as [[]]. Qed.
Lemma settled_responder {A} r (m : M ResponderHandshake AppError A) : settled (on_responder r m).
Proof. intros h a <-. unfold on_responder. by destruct (m _). Qed.
Lemma settled_session {A} (m : M ChatSession AppError A) : settled (on_session m).
Proof. intros h a <-. unfold on_session. destruct (ap_session a); [by destruct (m _) | done]. Qed.
Lemma settled_ignore {A} (m : M App AppError A) : settled m -> settled (ignore_err m).
Proof. intros Hm h a Ha. unfold ignore_err. specialize (Hm h a Ha). by destruct (m a) as [? []]. Qed.
Lemma settled_bind {A D} (m : M App AppError A) (f : A -> M App AppError D) : settled m -> (forall a, settled (f a)) -> settled (m ≫= f).
Proof. intros Hm Hf h. apply keeps_bind; [apply Hm|intros a; apply Hf]. Qed.
Lemma settled_gets {A} (f : App -> A) : settled (gets f).
Proof. intros h. apply keeps_gets. Qed.
Lemma settled_lift {A} (r : result AppError A) : settled (lift r).
Proof. intros h. apply keeps_lift. Qed.
Lemma settled_ret {A} (x : A) : settled (mret x).
Proof. intros h. apply keeps_ret. Qed.
Lemma settled_modify (f : App -> App) : (forall a, home (f a) = home a) -> settled (modify f).
Proof. intros Hf h a <-. apply Hf. Qed.

Lemma settled_call {A} am k (m : M App AppError A) : settled m -> settled (engine_call am k m).
Proof. intros Hm h. by apply engine_call_keeps. Qed.

#[local] Hint Resolve upsert_settled insert_settled status_settled list_settled persist_settled resume_settled : home.
#[local] Hint Resolve settled_println settled_node settled_group settled_initiator settled_responder settled_session : home.
#[local] Hint Resolve settled_gets settled_lift settled_ret : home.

(** Walks an operation of the application. *)
Ltac settle :=
  repeat first
    [ progress auto 2 with home
    | apply settled_ignore | apply settled_call | (apply settled_modify; done)
    | apply settled_bind; [|intros ?]
    | match goal with
      | |- settled (match ?x with _ => _ end) => destruct x
      | |- settled (on_store (on_store_db _ _)) => apply settled_store
      | |- settled (on_db _) => apply settled_db
      end ].

Lemma settled_reply now p mk body : settled (reply_sync now p mk body).
Proof. unfold reply_sync, our_identity, our_device, send_to. settle. Qed.
Lemma settled_persist am k now : settled (persist_session am k now).
Proof. unfold persist_session. settle. Qed.
#[local] Hint Resolve settled_reply settled_persist : home.

Lemma settled_direct am from env : settled (handle_direct am from env).
Proof.
  unfold handle_direct. apply settled_bind; [settle|intros p]. apply settled_bind; [settle|intros _]. cbv zeta.
  repeat case_decide.
  - unfold direct_bundle_req. settle.
  - unfold direct_bundle, our_device, NodeStore_upsert_conversation. settle.
  - unfold direct_prekey, NodeStore_upsert_conversation. settle.
  - unfold direct_ratchet_pub, distribute_and_greet, our_device, our_identity, NodeStore_upsert_conversation, send_to. settle.
  - unfold direct_group_key. settle.
  - unfold direct_chat, ensure_session, NodeStore_upsert_conversation, NodeStore_insert_message. settle.
Qed.

Lemma settled_gossip am from env : settled (gossip_message am from env).
Proof.
  intros h a Ha. unfold gossip_message. destruct (GroupChat_decrypt env (ap_group a)) as [g [pt|e|p]]; [| |done].
  - revert Ha. change (home a) with (home (set_group g a)). generalize (set_group g a). intros a1 Ha1. revert a1 Ha1.
    match goal with |- forall a1, _ -> home (?m a1).1 = h => cut (settled m); [intros Hm; apply Hm|] end.
    unfold our_identity, NodeStore_upsert_conversation, NodeStore_insert_message. settle.
  - exact Ha.
Qed.

Lemma settled_settle am st : settled (settle_last_outgoing am st).
Proof. unfold settle_last_outgoing, NodeStore_update_message_status. settle. Qed.

#[local] Hint Resolve settled_direct settled_gossip settled_settle : home.

Lemma settled_history am k c : settled (print_history am k c).
Proof. unfold print_history, NodeStore_history. settle. Qed.

Lemma settled_command am line : settled (handle_command am line).
Proof.
  assert (forall text, settled (group_command am text)) as Hg.
  { intros text. unfold group_command, our_identity, our_device. apply settled_bind; [settle|intros g]. destruct (gc_sender g); [|settle].
    do 2 (apply settled_bind; [settle|intros ?]). apply settled_bind; [|settle].
    intros h ax <-. unfold zoom. by destruct (publish _ _ _ _ _). }
  assert (settled (chat_command am line)) as Hc.
  { unfold chat_command, our_identity, our_device, NodeStore_insert_message, send_to. settle. }
  unfold handle_command, print_banner, our_device. repeat case_decide; [settle..| |].
  - apply settled_bind; [settle|intros d]. apply settled_bind; [apply settled_history|intros _].
    apply settled_bind; [settle|intros g]. apply settled_bind; [apply settled_history|settle].
  - destruct (strip_prefix "@group " line); (apply settled_bind; [auto|settle]).
Qed.

(** The same on the state of the loop. *)
Lemma loop_settled {A} (m : M App AppError A) h : settled m -> keeps (fun l => home l.1 = h) (on_app m).
Proof. intros Hm [a st] Ha. unfold on_app, on_first, zoom. cbn in *. specialize (Hm h a Ha). by destruct (m a). Qed.

Lemma handshake_settled am h : keeps (fun l => home l.1 = h) (start_handshake (PeerId := PeerId) (Addr := Addr) am).
Proof.
  unfold start_handshake. apply keeps_bind; [apply keeps_gets|intros [a st]]. case_decide; [|apply keeps_ret].
  apply keeps_bind; [by apply keeps_modify|intros _]. destruct (ap_initiator a); [|apply keeps_ret]. apply loop_settled. settle.
Qed.

Lemma event_settled am ev h : keeps (fun l => home l.1 = h) (handle_event (PeerId := PeerId) (Addr := Addr) am ev).
Proof.
  unfold handle_event. apply keeps_bind; [|intros _; apply keeps_ret].
  destruct ev; try (apply loop_settled; settle; done).
  apply keeps_bind; [apply loop_settled; settle|intros _]. apply handshake_settled.
Qed.

Lemma run_loop_settled inputs h : keeps (fun l => home l.1 = h) (run_loop (PeerId := PeerId) (Addr := Addr) inputs).
Proof.
  induction inputs as [|[am i] inputs IH]; cbn [run_loop]; [apply keeps_ret|]. apply keeps_bind.
  - destruct i as [[|b line]|e| |ev|]; cbn [turn]; try apply keeps_ret; try apply keeps_fail; [apply loop_settled, settled_command | apply event_settled].
  - intros [|]; [done|]. apply keeps_bind; [apply loop_settled; settle|intros _; apply keeps_ret].
Qed.

Lemma settled_prekey pretty w now c k : settled (on_store (NodeStore_prekey pretty w now c k)).
Proof.
  intros h a <-. unfold on_store, zoom.
  assert (forall s0, keeps (fun s => (ns_db s, ns_identity s, ns_device_id s) = s0) (NodeStore_prekey pretty w now c k)) as Hk.
  { intros s0. unfold NodeStore_prekey. apply keeps_bind; [keeps_tac|]. intros file. destruct (file ≫= _); keeps_tac; done. }
  specialize (Hk _ (ap_store a) eq_refl). destruct (NodeStore_prekey _ _ _ _ _ _) as [s r]. unfold home. cbn in *.
  by injection Hk as -> -> ->.
Qed.
End Home.

(** ** Opening the store again *)

Section Reopen.
Context `{C : Crypto} `{A : Argon2} `{DF : DatabaseFile}.

(** The draws have the sizes the code asks for. *)
Definition draws_ok (am : OpenAmbient) : Prop :=
  length (oa_salt am) = ARGON2_SALT_SIZE /\ length (oa_classical am) = ED25519_PRIVATE_KEY_SIZE /\
  length (oa_pq am) = ML_DSA_87_PRIVATE_KEY_SIZE.
Definition files_ok (fs : Files) : Prop := fs_create fs = Ok tt /\ fs_read fs = Ok tt /\ fs_write fs = Ok tt.

Lemma identity_stored now c p dv db db' i dev :
  length c = ED25519_PRIVATE_KEY_SIZE -> length p = ML_DSA_87_PRIVATE_KEY_SIZE ->
  load_or_create_identity now c p dv db = (db', Ok (i, dev)) ->
  exists r, t_identity (live db') = Some r /\ ir_device_id r = dev /\
    IdentityKeyPair_from_seed (ir_classical_seed r) (ir_pq_seed r) = Ok i /\
    (is_Some (t_identity (live db)) -> db' = db).
Proof.
  intros Hc Hp H. unfold load_or_create_identity in H. first_call H d1 rec H1. apply with_err_ok in H1. injection H1 as <- <-.
  destruct (t_identity (live db)) as [r|] eqn:Hid.
  - first_call H d2 j H2. injection H2 as <- Hj. injection H as <- -> <-. apply map_err_ok in Hj. eauto.
  - first_call H d2 j H2. injection H2 as <- Hj. cbn in Hj. subst j. cbv zeta in H. first_call H d3 u H3. injection H as <- <- <-.
    apply with_err_ok in H3. unfold save_identity in H3. first_call H3 d4 u4 H4. apply bind_texts_ok in H4 as [-> _].
    injection H3 as <- _. cbn. rewrite Hid. eexists. split; [done|]. split; [done|]. split; [|by intros [? [=]]]. cbn.
    unfold IdentityKeyPair_from_seed. by rewrite !try_into_array_len.
Qed.

Lemma identity_found now c p dv db r i :
  t_identity (live db) = Some r -> IdentityKeyPair_from_seed (ir_classical_seed r) (ir_pq_seed r) = Ok i ->
  load_or_create_identity now c p dv db = (db, Ok (i, ir_device_id r)).
Proof. intros Hr Hi. unfold load_or_create_identity, with_err, load_identity. mrun. rewrite Hr. cbn. mrun. by rewrite Hi. Qed.

(** [db_key] finds the salt of an earlier call. *)
Lemma db_key_stored fs uuid d d1 key :
  length uuid = ARGON2_SALT_SIZE -> db_key fs uuid d = (d1, Ok key) ->
  nd_bundle d1 = nd_bundle d /\ nd_file d1 = nd_file d /\
  forall fs2 uuid2 d2, files_ok fs2 -> nd_salt d2 = nd_salt d1 -> db_key fs2 uuid2 d2 = (d2, Ok key).
Proof.
  intros Hu H. unfold db_key in H. first_call H d2 salt H2.
  assert (d1 = d2 /\ (lift (anyhow_prefix "derive db key" (derive_db_key DEFAULT_PASSPHRASE salt)) ≫=
    fun key => if decide (length key = 32%nat) then mret key else lift (Panic "source slice length does not match destination slice length")) d2
    = (d2, Ok key)) as [-> Hkey].
  { first_call H d3 k H3. injection H3 as <- Hk. rewrite M_bind_eq. cbn [lift]. rewrite Hk.
    case_decide; by injection H as <- <-. }
  clear H. assert (nd_bundle d2 = nd_bundle d /\ nd_file d2 = nd_file d /\ nd_salt d2 = Some salt /\ length salt = ARGON2_SALT_SIZE) as (Hb & Hf & Hs & Hl).
  { unfold db_salt in H2. first_call H2 d3 st H3. injection H3 as <- Hst. destruct st as [st|].
    - first_call H2 d4 u H4. injection H4 as <- _. injection H2 as <- H2. apply try_into_array_ok in H2 as [-> Hl]. by rewrite Hst.
    - cbv zeta in H2. first_call H2 d4 u H4. injection H4 as <- _. first_call H2 d5 u5 H5. injection H5 as <- _.
      injection H2 as <- <-. by split_and!. }
  split; [done|]. split; [done|]. intros fs2 uuid2 d4 (_ & Hr & _) Hs4. rewrite Hs in Hs4.
  unfold db_key, db_salt. mrun. rewrite Hs4. mrun. rewrite Hr. cbn [map_err]. mrun. rewrite try_into_array_len by done. mrun.
  mrun_in Hkey. destruct (anyhow_prefix _ _); [|done..]. case_decide; by injection Hkey as <-.
Qed.

(** What a successful [open] consists of. *)
Lemma open_inv am d d1 s1 :
  NodeStore_open am d = (d1, Ok s1) ->
  exists d0 key f db0 dev,
    db_key (oa_files am) (oa_salt am) d = (d0, Ok key) /\ open_file key (nd_file d0) = (f, Ok db0) /\ d1 = set_file f d0 /\
    load_or_create_identity (oa_now am) (oa_classical am) (oa_pq am) (oa_device am) db0 = (ns_db s1, Ok (ns_identity s1, dev)) /\
    ns_device_id s1 = dev /\ ns_bundle_file s1 = nd_bundle d0.
Proof.
  intros H. unfold NodeStore_open in H. first_call H e1 u1 H1. injection H1 as <- _. first_call H e2 key H2.
  first_call H e3 db H3. apply zoom_ok in H3 as (f & Ho & ->). apply with_err_ok in Ho.
  destruct (load_or_create_identity _ _ _ _ db) as [db1 ri] eqn:Hl. first_call H e6 idv H6. injection H6 as <- ->. destruct idv as [i dev].
  injection H as <- <-. by exists e2, key, f, db, dev.
Qed.

(** Opening a directory with the salt of an earlier [open], whose file shows
    the identity row of that time. *)
Lemma open_again am d d1 s1 :
  draws_ok am -> NodeStore_open am d = (d1, Ok s1) ->
  exists d0 key, db_key (oa_files am) (oa_salt am) d = (d0, Ok key) /\
  forall am2 d2 f db2, files_ok (oa_files am2) -> nd_salt d2 = nd_salt d1 -> open_file key (nd_file d2) = (f, Ok db2) ->
    t_identity (live db2) = t_identity (live (ns_db s1)) ->
    exists s2, NodeStore_open am2 d2 = (set_file f d2, Ok s2) /\ ns_db s2 = db2 /\
      ns_identity s2 = ns_identity s1 /\ ns_device_id s2 = ns_device_id s1.
Proof.
  intros (Hu & Hc & Hp) H. destruct (open_inv _ _ _ _ H) as (d0 & key & f0 & db0 & dev & Hk & Ho & -> & Hl & Hdev & _).
  destruct (db_key_stored _ _ _ _ _ Hu Hk) as (_ & _ & Hkey). exists d0, key. split; [done|]. intros am2 d2 f db2 Hfs Hsalt Hopen Hid.
  destruct (identity_stored _ _ _ _ _ _ _ _ Hc Hp Hl) as (r & Hr & Hd & Hseed & _). rewrite Hr in Hid.
  unfold NodeStore_open. mrun. rewrite (proj1 Hfs). cbn [map_err]. mrun. rewrite (Hkey _ (oa_salt am2) d2 Hfs Hsalt). mrun.
  unfold zoom, with_err. rewrite Hopen. cbn [map_err]. mrun.
  rewrite (identity_found _ _ _ _ db2 r (ns_identity s1)) by done. mrun. eexists. split; [done|]. cbn. rewrite Hdev, Hd. by split_and!.
Qed.

Lemma open_fk am d d1 s1 :
  (forall key f db, open_file key (nd_file d) = (f, Ok db) -> fk db) -> length (oa_salt am) = ARGON2_SALT_SIZE ->
  NodeStore_open am d = (d1, Ok s1) -> fk (ns_db s1).
Proof.
  intros Hfk Hu H. destruct (open_inv _ _ _ _ H) as (d0 & key & f0 & db0 & dev & Hk & Ho & _ & Hl & _).
  destruct (db_key_stored _ _ _ _ _ Hu Hk) as (_ & Hf & _). rewrite Hf in Ho. apply Hfk in Ho.
  assert (keeps fk (load_or_create_identity (oa_now am) (oa_classical am) (oa_pq am) (oa_device am))) as Hkeep.
  { unfold load_or_create_identity. apply keeps_bind; [apply keeps_with_err, keeps_gets|]. intros [r|]; keeps_tac.
    apply keeps_with_err. unfold save_identity, bind_texts. keeps_tac. assumption. }
  specialize (Hkeep db0 Ho). by rewrite Hl in Hkeep.
Qed.
End Reopen.

(** A damaged salt file is never replaced: when the stored salt does not
    have 16 bytes, opening the store fails with that message and changes
    nothing in the directory, so that a database that could still be decrypted
    is not given a new key. *)
Theorem damaged_salt_refused `{Crypto} `{Argon2} `{DatabaseFile} am d salt :
  fs_create (oa_files am) = Ok tt -> fs_read (oa_files am) = Ok tt -> nd_salt d = Some salt ->
  length salt <> ARGON2_SALT_SIZE -> NodeStore_open am d = (d, Err ["stored salt has wrong size"]).
Proof.
  intros Hc Hr Hs Hl. unfold NodeStore_open. mrun. rewrite Hc. cbn [map_err]. mrun. unfold db_key, db_salt. mrun. rewrite Hs. mrun.
  rewrite Hr. cbn [map_err]. mrun. unfold try_into_array. by rewrite decide_False.
Qed.

(** ** Restarting the demo *)

Section Restart.
Context `{C : Crypto, L : !CryptoLaws C, B : Build}.
Context `{SH : Serde RatchetMessageHeader, SHO : !SerdeOk RatchetMessageHeader}.
Context `{SS : Serde HybridSignature, SSO : !SerdeOk HybridSignature}.
Context `{SM : Serde PqxdhPrekeyMessage, SMO : !SerdeOk PqxdhPrekeyMessage}.
Context `{SB : Serde PreKeyBundle, SBO : !SerdeOk PreKeyBundle}.
Context `{SG : Serde SenderKeyMessage, SGO : !SerdeOk SenderKeyMessage}.
Context `{SD : Serde GroupKeyDistribution, SDO : !SerdeOk GroupKeyDistribution}.
Context `{SK : Serde SessionKeys, SKO : !SerdeOk SessionKeys, SR : Serde RatchetSnapshot, SRO : !SerdeOk RatchetSnapshot}.
Context `{SP : Serde PrekeyMaterial}.
Context `{A : Argon2} `{P : Libp2p} `{DK : Disk}.
Context {Part ReqId Channel : Type} `{Countable ReqId} `{PE : Proto NetworkEnvelope}.
Context (is_tcp : Part -> bool) (parse : string -> result string (@Multiaddr NetPeerId Part)).
Context (display : @Multiaddr NetPeerId Part -> string) (show : NetPeerId -> string).
Context (pretty : PrekeyMaterial -> result string bytes).

(** The engine, and the path of the database file. *)
Context {E : Engine} {R : Resources E} {S : EngineSafe R} {D : Type} {V : SqlView E D} {LQ : SqlLaws V}.
Context {plain : bytes -> Prop} {script : bytes -> D -> D} {version : D -> Z} {SL : ScriptLaws V plain script version}.
Context {content : D -> relations} {SEM : SqlSemantics V content} {SCR : ScriptSemantics V plain script version content}.
Context (path : string).
Abbreviation db_file := (engine_file V content path).
Abbreviation file_holds := (file_holds (content := content) (version := version) path).

Abbreviation Addr := (@Multiaddr NetPeerId Part).
Abbreviation NetApp := (App NetPeerId Addr).
Abbreviation NodeDir := (@NodeDir db_file).
Abbreviation demo := (demo_main (DF := db_file) (ReqId := ReqId) (Channel := Channel) is_tcp parse display show pretty).

(** An application that finds its session when it starts. *)
Lemma initiator_resumes (a0 : NetApp) s p addr :
  np_running (ap_node a0) = true -> resume (ns_device_id (ap_store a0)) (ns_db (ap_store a0)) = (ns_db (ap_store a0), Ok (Some s)) ->
  exists a, (subscribe_group;; start_initiator p addr) a0 = (a, Ok tt) /\ ap_session a = Some s /\ ap_peer a = Some p /\
    home a = home a0 /\ ns_db (ap_store a) = ns_db (ap_store a0).
Proof.
  intros Hrun Hres. eexists. split.
  - unfold start_initiator, subscribe_group, print_banner, our_device, our_identity. mrun. rewrite println_ok. mrun.
    unfold zoom at 1. unfold with_err, P2pNode_subscribe. rewrite send_control_ok by done. mrun.
    cbn [map_err]. mrun. unfold on_db, on_store, zoom. mrun. cbn [ap_store set_peer set_node].
    change (ns_db (ap_store (println OutBanner a0).1)) with (ns_db (ap_store a0)).
    change (ns_device_id (ap_store (println OutBanner a0).1)) with (ns_device_id (ap_store a0)). rewrite Hres. mrun.
    rewrite println_ok. mrun. unfold with_err, P2pNode_dial. rewrite send_control_ok by done. reflexivity.
  - by split_and!.
Qed.

(** The start of either role leaves the identity alone. *)
Lemma role_settled am reply cli : settled (subscribe_group;; start_role is_tcp parse display show pretty am reply cli).
Proof.
  apply settled_bind; [unfold subscribe_group, print_banner|intros _; unfold start_role; destruct (cli_role cli)].
  - apply settled_bind; [apply settled_println|intros _]. apply settled_bind; [apply settled_gets|intros g]. apply settled_node.
  - do 3 (apply settled_bind; [apply settled_lift|intros ?]). unfold start_initiator, our_device, our_identity.
    apply settled_bind; [by apply settled_modify|intros _]. apply settled_bind; [apply settled_gets|intros dv].
    apply settled_bind; [apply settled_db, resume_settled|intros s]. apply settled_bind.
    { destruct s; [|apply settled_ret]. apply settled_bind; [apply settled_println|intros _]. by apply settled_modify. }
    intros _. apply settled_bind; [apply settled_gets|intros i]. apply settled_bind; [by apply settled_modify|intros _]. apply settled_node.
  - unfold start_responder, our_identity. apply settled_bind; [apply settled_prekey|intros pk].
    apply settled_bind; [apply settled_gets|intros i]. apply settled_bind; [apply settled_println|intros _].
    apply settled_bind; [by apply settled_modify|intros _]. apply settled_bind; [apply settled_node|intros l].
    apply settled_bind; [apply settled_println|intros _]. apply settled_bind; [apply settled_gets|intros q].
    apply settled_bind; [apply settled_lift|intros x]. apply settled_println.
Qed.

(** What a successful start consists of. *)
Lemma demo_inv any am reply cli d d1 a run :
  demo any am reply cli d = (d1, Ok (a, run)) ->
  exists listen store d0 a0, parse "/ip4/0.0.0.0/tcp/0" = Ok listen /\ NodeStore_open (st_open am) d = (d0, Ok store) /\
    app_start store (rn_node run) = Ok a0 /\ d1 = write_back a d0 /\
    (subscribe_group;; start_role is_tcp parse display show pretty am reply cli) a0 = (a, Ok tt).
Proof.
  intros H1. unfold demo_main in H1. first_call H1 e1 l E1. injection E1 as <- El. apply map_err_ok in El.
  first_call H1 e2 run' E2. injection E2 as <- Er. first_call H1 e3 store E3. first_call H1 e4 a0 E4. injection E4 as <- Ea.
  first_call H1 e5 ab E5. destruct ab as [a' u]. injection H1 as <- <- <-. unfold on_dir in E5.
  destruct ((subscribe_group;; _) a0) as [a1 [[]| |]] eqn:Hs; [|done..]. injection E5 as <- <- _.
  exists l, store, e3, a0. by subst a0.
Qed.

Lemma role_started am reply cli store node a0 a :
  fk (ns_db store) -> app_start store node = Ok a0 ->
  (subscribe_group;; start_role is_tcp parse display show pretty am reply cli) a0 = (a, Ok tt) -> started a.
Proof.
  intros Hf H0 Hs. unfold start_role in Hs. destruct (cli_role cli).
  - assert (exists p addr, (subscribe_group;; start_initiator p addr) a0 = (a, Ok tt)) as (p & addr & Hp).
    { first_call Hs a1 u Hsub. first_call Hs a2 t Ht. injection Ht as <- _. first_call Hs a3 ad Had. injection Had as <- _.
      first_call Hs a4 p Hp. injection Hp as <- _. exists p, ad. rewrite M_bind_eq, Hsub. exact Hs. }
    by eapply started_initiator.
  - by eapply started_responder.
Qed.

(** Starting as an initiator that finds its session. *)
Lemma demo_initiator any am reply d d3 s2 s text addr p l run2 :
  parse "/ip4/0.0.0.0/tcp/0" = Ok l ->
  P2pNode_start (ReqId := ReqId) (Channel := Channel) any display (st_net am) (demo_config l) = Ok run2 ->
  NodeStore_open (st_open am) d = (d3, Ok s2) -> resume (ns_device_id s2) (ns_db s2) = (ns_db s2, Ok (Some s)) ->
  parse text = Ok addr -> peer_id_of addr = Ok p ->
  exists b, demo any am reply {| cli_role := Initiator; cli_peer := Some text |} d = (write_back b d3, Ok (b, run2)) /\
    ns_identity (ap_store b) = ns_identity s2 /\ ns_device_id (ap_store b) = ns_device_id s2 /\
    ap_session b = Some s /\ ap_peer b = Some p /\ ns_db (ap_store b) = ns_db s2.
Proof.
  intros Hl Hnet Ho2 Hres Hparse Hpeer.
  assert (exists a2, app_start s2 (rn_node run2) = Ok a2 /\ ap_store a2 = s2 /\ np_running (ap_node a2) = true) as (a2 & H2 & Hs2 & Hr2).
  { eexists. split; [reflexivity|]. split; [reflexivity|]. cbn. unfold P2pNode_start, spawn in Hnet.
    apply result_bind_ok in Hnet as (sw & _ & Hr). by injection Hr as <-. }
  rewrite <- Hs2 in Hres. destruct (initiator_resumes a2 s p addr Hr2 Hres) as (b & Hb & Hsb & Hpb & Hhb & Hdbb).
  exists b. split.
  - unfold demo_main. mrun. rewrite Hl. cbn [map_err]. mrun. rewrite Hnet. cbn [map_err]. mrun. rewrite Ho2. mrun. rewrite H2. mrun.
    unfold on_dir, start_role. cbn [cli_role cli_peer ok_or]. rewrite M_bind_eq in Hb |- *.
    destruct (subscribe_group a2) as [a3 [[]| |]]; [|done..]. mrun. rewrite Hparse. cbn [map_err]. mrun. rewrite Hpeer. mrun. by rewrite Hb.
  - unfold home in Hhb. injection Hhb as Hib Hdb _. rewrite Hib, Hdb, Hdbb, Hs2. by split_and!.
Qed.

Lemma all_work (inputs : list (Ambient * LoopInput NetPeerId Addr)) :
  Forall (fun q => turn_works q.1 q.2 = true) inputs -> forallb (fun q => turn_works q.1 q.2) inputs = true.
Proof. induction 1 as [|q l Hq Hl IH]; [done|]. cbn. by rewrite Hq. Qed.

(** A directory as the program left it, with the file as the engine has it
    now. *)
Definition left_behind (a : NetApp) (w : World) (d : NodeDir) : NodeDir := @Build_NodeDir db_file (nd_salt d) (ns_bundle_file (ap_store a)) w.

(** C6. Restarting resumes where the demo stopped.  After any run of the demo on
    a new or an existing file, from the command line through any sequence of
    commands and network events the loop handles without an error, and in which
    the engine failed at none of the two stores whose error is dropped, starting
    it again as initiator in the same directory succeeds: with the same salt,
    identity and device id, whatever is drawn this time, and with exactly the
    session of its own conversation that was in memory when it stopped.  Assumed
    of the second start: the file holds the tables the run left, [Database::open]
    succeeds with the key of the first run, a peer address is given, and the
    network and the file system work. *)
Theorem demo_restart_resumes any am reply cli (d d1 : NodeDir) t a run inputs a' st ended s am2 reply2 text addr p w2 :
  draws_ok (st_open am) -> file_holds t (nd_file d) ->
  demo any am reply cli d = (d1, Ok (a, run)) ->
  Forall (fun q => ambient_ok q.1) inputs -> Forall (fun q => turn_works q.1 q.2 = true) inputs ->
  run_loop inputs (a, false) = ((a', st), Ok ended) ->
  ap_session a' = Some s -> conversation_id s = ns_device_id (ap_store a) ->
  file_holds (live (ns_db (ap_store a'))) w2 ->
  (forall d0 key, db_key (oa_files (st_open am)) (oa_salt (st_open am)) d = (d0, Ok key) ->
     exists w3 self, Database_open (Some path) key w2 = (w3, Ok self)) ->
  files_ok (oa_files (st_open am2)) -> parse text = Ok addr -> peer_id_of addr = Ok p ->
  (forall config, exists r, P2pNode_start (ReqId := ReqId) (Channel := Channel) any display (st_net am2) config = Ok r) ->
  exists d2 b net, demo any am2 reply2 {| cli_role := Initiator; cli_peer := Some text |} (left_behind a' w2 d1) = (d2, Ok (b, net)) /\
    nd_salt d2 = nd_salt d1 /\ ns_identity (ap_store b) = ns_identity (ap_store a) /\
    ns_device_id (ap_store b) = ns_device_id (ap_store a) /\ ap_session b = Some s /\ ap_peer b = Some p.
Proof.
  intros Hdr Hfile H1 Ham Hworks Hloop Hs Hconv Hfile2 Hopens Hfs Hparse Hpeer Hnet.
  destruct (demo_inv _ _ _ _ _ _ _ _ H1) as (l & store & d0 & a0 & Hl & Hopen & H0 & -> & Hrole).
  assert (fk (ns_db store)) as Hstore.
  { eapply open_fk; [|exact (proj1 Hdr)|exact Hopen]. intros key f db Ho. destruct (database_tables_holds _ _ _ _ _ _ Hfile Ho) as [Hlive Hok].
    intros c. rewrite Hlive. apply (so_sessions _ Hok). }
  pose proof (inv_started a (role_started _ _ _ _ _ _ _ Hstore H0 Hrole)) as Hinv.
  pose proof Hloop as (_ & _ & Hi)%(inv_loop true); [|done..]. rewrite (all_work _ Hworks) in Hi.
  destruct (Hi s Hs) as [_ Hst]. specialize (Hst eq_refl).
  pose proof (run_loop_settled inputs (home a) (a, false) eq_refl) as Hh'. rewrite Hloop in Hh'. cbn in Hh'.
  pose proof (role_settled am reply cli (home a0) a0 eq_refl) as Hh. rewrite Hrole in Hh. cbn [fst] in Hh.
  assert (home a0 = (ns_identity store, ns_device_id store, t_identity (live (ns_db store)))) as Hh0 by by injection H0 as <-.
  rewrite Hh0 in Hh. rewrite Hh in Hh'. injection Hh as Hia Hda _. injection Hh' as _ _ Hta.
  destruct (open_again _ _ _ _ Hdr Hopen) as (dk & key & Hkey & Hagain). destruct (Hopens _ _ Hkey) as (w3 & self & Hself).
  assert (exists db2, database_tables content (Some path) key w2 = (w3, Ok db2)) as [db2 Hdb2].
  { unfold database_tables. rewrite Hself. by eexists. }
  destruct (database_tables_holds _ _ _ _ _ _ Hfile2 Hdb2) as [Hlive _].
  destruct (Hagain (st_open am2) (left_behind a' w2 (write_back a d0)) w3 db2) as (s2 & Ho2 & Hdb & Hid & Hdev); [done|done|done|by rewrite Hlive|].
  destruct (Hnet (demo_config l)) as [run2 Hrun2].
  destruct (demo_initiator any am2 reply2 _ _ s2 s text addr p l run2 Hl Hrun2 Ho2) as (b & Hb & Hib & Hdb' & Hsb & Hpb & _); [|done..|].
  - rewrite Hdev, <- Hda, <- Hconv, Hdb. rewrite <- (resume_state (conversation_id s) db2) at 2.
    rewrite <- Hst, <- (resume_sessions _ (app_db a') db2) by (by rewrite Hlive). apply surjective_pairing.
  - eexists _, b, run2. split; [exact Hb|]. rewrite Hib, Hdb', Hid, Hdev, Hia, Hda. by split_and!.
Qed.
End Restart.

(** ** Evaluation: a directory with the session of device "conv" *)

#[local] Existing Instances dev_build concrete_header concrete_signature concrete_prekey_message concrete_bundle concrete_material
  concrete_group_message concrete_distribution concrete_session_keys concrete_snapshot.

(** The file "conv.db" on the engine of StoreEngine. *)
#[export] Instance sql_file : DatabaseFile := engine_file sql_view sd_tables "conv.db".

#[export] Existing Instance salted.
#[export] Instance plain_net : Libp2p := {|
  NetPeerId := bytes; NetPublicKey := bytes; ed25519_from_bytes b := inr b; keypair_public b := b; to_peer_id b := b;
  KadConfig := string; kad_config_new n := n; kad_config_default := "/ipfs/kad/1.0.0";
  tcp_error := None; dns_error := None; mdns_error _ := None; gossipsub_error _ := None; behaviour_error e := e
|}.
#[local] Existing Instance quiet_disk.

(** Addresses whose only part is a peer, or a text. *)
Definition parse_any (s : string) : result string (@Multiaddr bytes string) :=
  match strip_prefix "/p2p/" s with Some id => Ok [P2p (bs id)] | None => Ok [Other s] end.

Definition sample_salt : bytes := replicate 16 x53.
Definition sample_open : OpenAmbient :=
  {| oa_files := {| fs_create := Ok tt; fs_read := Ok tt; fs_write := Ok tt |}; oa_salt := sample_salt; oa_now := 3;
     oa_classical := replicate 32 x01; oa_pq := replicate 32 x02; oa_device := replicate 16 x03 |}.
Definition sample_start : StartAmbient :=
  {| st_net := bs "net"; st_open := sample_open; st_write := Ok tt; st_now_secs := 3; st_classical := []; st_kem := []; st_tx := 0 |}.

Definition conv_row : IdentityRecord :=
  {| ir_device_id := "conv"; ir_classical_seed := classical_seed alice_identity; ir_pq_seed := pq_seed alice_identity; ir_created_at := 1 |}.
Definition conv_db : Db := set_live (set_identity (Some conv_row) (live (ns_db resumed_store))) (ns_db resumed_store).

(** An engine on which the tables [t] are stored in the file. *)
Definition file_world (t : Tables) : @World sql_engine :=
  {| mw_open := ∅; mw_data := {[ 0%nat := {| committed := {| sd_version := 1; sd_tables := database_of t; sd_last := 0 |}; pending := None |} ]};
     mw_stmts := ∅; mw_conn_next := 0; mw_stmt_next := 0; mw_undefined := false |}.
Definition conv_dir : NodeDir := @Build_NodeDir sql_file (Some sample_salt) None (file_world (live conv_db)).

(** A row whose texts are ASCII can be bound and read. *)
Definition ascii_value (p : Param) : bool :=
  match p with
  | Text s => forallb (between 0 127) (bs s) && (Z.of_nat (length (bs s)) <? 2 ^ 31)
  | Blob b => Z.of_nat (length b) <? 2 ^ 31
  | _ => true
  end.

Lemma ascii_rows_ok rows : forallb (forallb ascii_value) rows = true -> Forall (Forall value_ok) rows.
Proof.
  intros Hr. apply Forall_forall. intros r Hin%list_elem_of_In. apply Forall_forall. intros v Hv%list_elem_of_In.
  rewrite forallb_forall in Hr. specialize (Hr r Hin). cbv beta in Hr. rewrite forallb_forall in Hr. specialize (Hr v Hv).
  destruct v; cbn [ascii_value value_ok] in *; try exact I; [|by apply Z.ltb_lt].
  apply andb_true_iff in Hr as [Ha Hl]. split; [|by apply Z.ltb_lt]. apply utf8_ascii, Forall_forall. intros x Hx%list_elem_of_In.
  rewrite forallb_forall in Ha. by apply Ha.
Qed.

Lemma conv_rows : forallb (fun name => forallb (forallb ascii_value) (table_rows (live conv_db) name)) table_names = true.
Proof. vm_compute. reflexivity. Qed.

Lemma conv_messages : t_messages (live conv_db) = ∅.
Proof. vm_compute. reflexivity. Qed.

Lemma conv_store_ok : StoreSqlFacts.store_ok (live conv_db).
Proof.
  split.
  - exact (proj1 resumed_store_ok).
  - split; [by vm_compute|]. intros id r. rewrite conv_messages, lookup_empty. done.
  - intros i j r s. rewrite conv_messages, lookup_empty. done.
  - intros name. destruct (decide (name ∈ table_names)) as [Hin|Hin].
    + apply ascii_rows_ok. pose proof conv_rows as Hr. rewrite forallb_forall in Hr. apply (Hr name). by apply list_elem_of_In.
    + unfold table_rows. repeat case_decide; subst; try (exfalso; apply Hin; by_decide). constructor.
Qed.

Lemma conv_file_holds : file_holds (content := sd_tables) (version := sd_version) "conv.db" (live conv_db) (file_world (live conv_db)).
Proof.
  exists 0%nat, (model_open (bs "conv.db") open_flags (file_world (live conv_db))).1. split; [reflexivity|]. split; [reflexivity|].
  right. split; [done|]. split; [apply represents_database_of|apply conv_store_ok].
Qed.

Lemma conv_resume : resume "conv" conv_db = (conv_db, Ok (Some alice_session)).
Proof.
  destruct resumed_store_ok as [_ Hr]. pose proof (resume_state "conv" conv_db) as H1.
  pose proof (resume_sessions "conv" (ns_db resumed_store) conv_db eq_refl) as H2. rewrite Hr in H2. cbn [snd] in H2.
  destruct (resume "conv" conv_db) as [x y]. cbn in H1, H2. by subst.
Qed.

Definition conv_key : bytes := take 32 (sample_salt ++ DEFAULT_PASSPHRASE).

Lemma sample_key (d : NodeDir) : nd_salt d = Some sample_salt -> db_key (oa_files sample_open) (oa_salt sample_open) d = (d, Ok conv_key).
Proof. destruct d as [salt bundle file]. cbn [nd_salt]. intros ->. reflexivity. Qed.

Lemma conv_opened : exists w self, Database_open (Some "conv.db") conv_key (file_world (live conv_db)) = (w, Ok self).
Proof.
  assert (match (Database_open (Some "conv.db") conv_key (file_world (live conv_db))).2 with Ok _ => true | _ => false end = true) as H by (vm_compute; reflexivity).
  destruct (Database_open _ _ _) as [w [self|e|p]]; [by exists w, self|discriminate H..].
Qed.

Lemma conv_open :
  exists d s2, NodeStore_open sample_open conv_dir = (d, Ok s2) /\ nd_salt d = Some sample_salt /\ live (ns_db s2) = live conv_db /\ ns_device_id s2 = "conv".
Proof.
  destruct conv_opened as (w & self & Hself).
  assert (exists db, open_file conv_key (nd_file conv_dir) = (w, Ok db)) as [db Hdb].
  { cbn [open_file sql_file engine_file nd_file conv_dir]. unfold database_tables. rewrite Hself. by eexists. }
  pose proof (database_tables_holds (SL := sql_script_laws) "conv.db" conv_key _ _ w db conv_file_holds Hdb) as [Hlive _].
  unfold NodeStore_open. mrun. change (fs_create (oa_files sample_open)) with (Ok tt : result string unit). cbn [map_err]. mrun.
  rewrite sample_key by done. mrun. unfold zoom, with_err. rewrite Hdb. cbn [map_err]. mrun.
  rewrite (identity_found _ _ _ _ db conv_row alice_identity) by (by rewrite Hlive || vm_compute; reflexivity). mrun.
  do 2 eexists. split; [reflexivity|]. done.
Qed.

Abbreviation sample_demo := (demo_main (ReqId := nat) (Channel := nat) (fun _ : string => true) parse_any (fun _ => "") (fun _ => "") (fun _ => Err "")).
Abbreviation to_bob := {| cli_role := Initiator; cli_peer := Some "/p2p/bob" |}.

Lemma demo_restart_resumes_witness :
  exists d1 a net, sample_demo [] sample_start None to_bob conv_dir = (d1, Ok (a, net)) /\
  exists d2 b net', sample_demo [] sample_start None to_bob (left_behind "conv.db" a (file_world (live conv_db)) d1) = (d2, Ok (b, net')) /\
    ns_device_id (ap_store b) = "conv" /\ ap_session b = Some alice_session.
Proof.
  destruct conv_open as (d0 & s2 & Ho & Hsalt & Hlive & Hdev).
  destruct (demo_initiator (P := plain_net) (ReqId := nat) (Channel := nat) (fun _ : string => true) parse_any (fun _ => "") (fun _ => "") (fun _ => Err "")
    "conv.db" [] sample_start None conv_dir d0 s2 alice_session "/p2p/bob" [P2p (bs "bob")] (bs "bob") [Other "/ip4/0.0.0.0/tcp/0"] _ eq_refl eq_refl Ho)
    as (a & Ha & Hia & Hdva & Hsa & Hpa & Hdba); [|reflexivity|reflexivity|].
  { rewrite Hdev. pose proof (resume_state "conv" (ns_db s2)) as H1. pose proof (resume_sessions "conv" conv_db (ns_db s2)) as H2.
    rewrite Hlive, conv_resume in H2. specialize (H2 eq_refl). destruct (resume "conv" (ns_db s2)) as [x y]. cbn in H1, H2. by subst. }
  assert (exists run, sample_demo [] sample_start None to_bob conv_dir = (write_back a d0, Ok (a, run))) as [run Hrun] by (eexists; exact Ha).
  exists (write_back a d0), a, run. split; [exact Hrun|].
  destruct (demo_restart_resumes (P := plain_net) (ReqId := nat) (Channel := nat) (V := sql_view) (content := sd_tables) (SL := sql_script_laws)
    (fun _ : string => true) parse_any (fun _ => "") (fun _ => "") (fun _ => Err "") "conv.db" []
    sample_start None to_bob conv_dir (write_back a d0) (live conv_db) a run [] a false false alice_session
    sample_start None "/p2p/bob" [P2p (bs "bob")] (bs "bob") (file_world (live conv_db))) as (d2 & b & net' & H1 & _ & _ & H2 & H3 & _).
  - split_and!; reflexivity.
  - exact conv_file_holds.
  - exact Hrun.
  - constructor.
  - constructor.
  - reflexivity.
  - exact Hsa.
  - rewrite Hdva, Hdev. reflexivity.
  - rewrite Hdba, Hlive. exact conv_file_holds.
  - intros d3 key Hkey. rewrite sample_key in Hkey by reflexivity. injection Hkey as _ <-. exact conv_opened.
  - split_and!; reflexivity.
  - reflexivity.
  - reflexivity.
  - intros config. eexists. reflexivity.
  - exists d2, b, net'. split; [exact H1|]. split; [rewrite H2, Hdva; exact Hdev | exact H3].
Defined.

Lemma damaged_salt_refused_witness :
  exists d, nd_salt d = Some [x00] /\ NodeStore_open sample_open d = (d, Err ["stored salt has wrong size"]).
Proof.
  exists (@Build_NodeDir sql_file (Some [x00]) None sql_world). split; [reflexivity|].
  apply (damaged_salt_refused sample_open _ [x00]); [reflexivity | reflexivity | reflexivity | discriminate].
Defined.
