(* ===== verification/Connect.v ===== *)
(** The line that a responder prints for the initiator: what address it
    carries, and where an initiator that is started with it dials
    ([dialable_address], [peer_id_of] and [demo_main] of
    [presidium-demo/src/main.rs]). *)

From S2P Require Import Prelude Constants Prims Concrete Ratchet RatchetFacts RatchetProps Identity IdentityProps.
From S2P Require Import Pqxdh PqxdhProps Keys KeysProps Sqleet SessionState SessionFacts Database DatabaseProps EngineModel Store StoreProps StoreEngine.
From S2P Require Import ChatSession Network Node Behaviour Handshake ChatProps Group GroupProps App AppFacts AppProps Startup StartupProps.

(** ** Addresses as text

    What [multiaddr] documents: an address is read back from its text, and
    appending [/p2p/<id>] appends its text. *)
Class AddressText {PeerId Part : Type} (parse : string -> result string (@Multiaddr PeerId Part))
    (display : @Multiaddr PeerId Part -> string) (show : PeerId -> string) : Prop := {
  parse_display a : parse (display a) = Ok a;
  display_p2p a id : display (a ++ [P2p id]) = display a +:+ "/p2p/" +:+ show id
}.

Section Addresses.
Context {PeerId Part : Type} (is_tcp : Part -> bool).
Context (parse : string -> result string (@Multiaddr PeerId Part)) (display : @Multiaddr PeerId Part -> string) (show : PeerId -> string).
Context `{AT : !AddressText parse display show}.

(** The listening address that is shown: the first with a TCP part. *)
Definition shown_address (zero : @Multiaddr PeerId Part) (addrs : list (@Multiaddr PeerId Part)) : @Multiaddr PeerId Part :=
  default zero (List.find (has_tcp is_tcp) addrs).

Definition loopback (text : string) : string := replace "/ip4/0.0.0.0" "/ip4/127.0.0.1" text.

Lemma dialable_eq zero local addrs peer :
  parse "/ip4/127.0.0.1/tcp/0" = Ok zero -> display local = loopback (display (shown_address zero addrs)) ->
  dialable_address is_tcp parse display show addrs peer = Ok (local ++ [P2p peer]).
Proof.
  intros Hz Hl. unfold dialable_address. unfold shown_address, loopback in Hl.
  assert (match List.find (has_tcp is_tcp) addrs with Some addr => Ok addr | None => expect "static addr" (parse "/ip4/127.0.0.1/tcp/0") end =
    Ok (default zero (List.find (has_tcp is_tcp) addrs))) as ->.
  { destruct (List.find _ addrs); [done|]. by rewrite Hz. }
  cbn [mbind result_bind]. rewrite <- Hl, <- display_p2p, parse_display. done.
Qed.

(** An address without a peer id of its own. *)
Definition bare (a : @Multiaddr PeerId Part) : Prop := omap p2p_part a = [].

Lemma peer_of_dialable (local : @Multiaddr PeerId Part) peer : bare local -> peer_id_of (local ++ [P2p peer]) = Ok peer.
Proof. unfold bare, peer_id_of. intros Hb. by rewrite omap_app, Hb. Qed.
End Addresses.

(** ** The two starts *)

Section Start.
Context `{C : Crypto} {PeerId Addr : Type} `{SP : Serde PrekeyMaterial, SR : Serde RatchetMessageHeader, SS : Serde RatchetSnapshot, SK : Serde SessionKeys}.
Abbreviation App := (App PeerId Addr).

(** The node of the application has this peer id, and runs. *)
Definition node_is (peer : PeerId) (a : App) : Prop := np_peer_id (ap_node a) = peer /\ np_running (ap_node a) = true.

Lemma node_println peer o : keeps (node_is peer) (println o).
Proof. unfold println. keeps_tac. done. Qed.
Lemma node_store peer {B} (m : M NodeStore AppError B) : keeps (node_is peer) (on_store m).
Proof. unfold on_store. apply keeps_zoom. done. Qed.
Lemma node_control peer c : keeps (node_is peer) (zoom ap_node set_node (with_err show_network (send_control c))).
Proof.
  apply keeps_zoom. intros a [Hp Hr]. unfold with_err, send_control. mrun. rewrite Hr. mrun. by split.
Qed.
#[local] Hint Resolve node_println node_store node_control : core.

Lemma node_subscribe peer : keeps (node_is peer) subscribe_group.
Proof. unfold subscribe_group, print_banner, P2pNode_subscribe. keeps_tac; auto. Qed.

Lemma after_keeps {B} (P : App -> Prop) (m : M App AppError B) a a' r : keeps P m -> m a = (a', r) -> P a -> P a'.
Proof. intros Hm Hr Ha. specialize (Hm a Ha). by rewrite Hr in Hm. Qed.

Lemma responder_prints peer pretty w now c k tx reply dialable (a0 a : App) :
  node_is peer a0 -> (subscribe_group;; start_responder pretty w now c k tx reply dialable) a0 = (a, Ok tt) ->
  exists address, dialable (default [] reply) peer = Ok address /\ last (ap_output a) = Some (OutConnect address).
Proof.
  intros H0 Hrun. apply M_bind_ok in Hrun as (a1 & [] & H1 & Hrun). apply (after_keeps _ _ _ _ _ (node_subscribe peer)) in H1; [|done].
  unfold start_responder, our_identity in Hrun. apply M_bind_ok in Hrun as (a2 & prekey & H2 & Hrun). apply (after_keeps _ _ _ _ _ (node_store peer _)) in H2; [|done].
  mrun_in Hrun. rewrite println_ok in Hrun. mrun_in Hrun. set (a3 := set_responder _ _) in Hrun.
  assert (node_is peer a3) as [Hp Hr] by exact H2. clearbody a3. unfold zoom, with_err, P2pNode_listen_addrs in Hrun.
  rewrite send_control_ok in Hrun by done. cbn [map_err] in Hrun. mrun_in Hrun. rewrite println_ok in Hrun. mrun_in Hrun.
  change (np_peer_id (ap_node (println _ _).1)) with (np_peer_id (ap_node a3)) in Hrun. rewrite Hp in Hrun.
  destruct (dialable _ peer) as [address|e|p]; [|done..]. exists address. split; [done|]. injection Hrun as <-. cbn [ap_output]. apply last_snoc.
Qed.

Lemma initiator_dials p addr (a0 a : App) :
  node_is (np_peer_id (ap_node a0)) a0 -> (subscribe_group;; start_initiator p addr) a0 = (a, Ok tt) ->
  ap_peer a = Some p /\ last (np_controls (ap_node a)) = Some (CtlDial addr).
Proof.
  intros H0 Hrun. set (peer := np_peer_id (ap_node a0)) in *. apply M_bind_ok in Hrun as (a1 & [] & H1 & Hrun).
  apply (after_keeps _ _ _ _ _ (node_subscribe peer)) in H1; [|done]. unfold start_initiator, our_device, our_identity in Hrun. mrun_in Hrun.
  apply M_bind_ok in Hrun as (a2 & s & H2 & Hrun).
  assert (node_is peer a2 /\ ap_peer a2 = Some p) as Hk.
  { eapply (after_keeps (fun a => node_is peer a /\ ap_peer a = Some p)); [|exact H2|by split]. unfold on_db, on_store. apply keeps_zoom. done. }
  assert (exists a3, node_is peer a3 /\ ap_peer a3 = Some p /\
    zoom ap_node set_node (with_err show_network (P2pNode_dial addr)) a3 = (a, Ok tt)) as (a3 & [Hp Hr] & Hpeer & Hdial).
  { destruct s as [s|]; mrun_in Hrun; [rewrite println_ok in Hrun; mrun_in Hrun|]; eexists; (split; [|split; [|exact Hrun]]); apply Hk. }
  unfold zoom, with_err, P2pNode_dial in Hdial. rewrite send_control_ok in Hdial by done. injection Hdial as <-. split; [done|]. cbn. apply last_snoc.
Qed.
End Start.

(** ** From the printed line to the dial *)

Section Connect.
Context `{C : Crypto} `{A : Argon2} `{DF : DatabaseFile} `{L : Libp2p} {Part ReqId Channel : Type} `{Countable ReqId} `{PE : Proto NetworkEnvelope}.
Context `{SP : Serde PrekeyMaterial} `{SR : Serde RatchetMessageHeader} `{SS : Serde RatchetSnapshot} `{SK : Serde SessionKeys}.
Context (is_tcp : Part -> bool) (parse : string -> result string (@Multiaddr NetPeerId Part)).
Context (display : @Multiaddr NetPeerId Part -> string) (show : NetPeerId -> string) `{AT : !AddressText parse display show}.
Context (pretty : PrekeyMaterial -> result string bytes).
Abbreviation demo := (demo_main (ReqId := ReqId) (Channel := Channel) is_tcp parse display show pretty).

Lemma demo_role any am reply cli d d' a run :
  demo any am reply cli d = (d', Ok (a, run)) ->
  exists a0, node_is (np_peer_id (rn_node run)) a0 /\ (subscribe_group;; start_role is_tcp parse display show pretty am reply cli) a0 = (a, Ok tt).
Proof.
  intros Hrun. unfold demo_main in Hrun. apply M_bind_ok in Hrun as (d1 & l & _ & Hrun). apply M_bind_ok in Hrun as (d2 & r & Hnet & Hrun).
  apply M_bind_ok in Hrun as (d3 & store & _ & Hrun). apply M_bind_ok in Hrun as (d4 & a0 & Ha0 & Hrun). apply M_bind_ok in Hrun as (d5 & [a1 []] & Hon & Hrun).
  injection Hrun as <- <- <-. exists a0. split.
  - injection Hnet as _ Hnet. apply map_err_ok in Hnet. unfold P2pNode_start, spawn in Hnet. apply result_bind_ok in Hnet as (sw & _ & Hnet).
    injection Hnet as <-. injection Ha0 as _ <-. done.
  - unfold on_dir in Hon. destruct ((subscribe_group;; _) a0) as [a2 [[]|e|p]]; [|discriminate Hon..]. cbn in Hon. by injection Hon as _ ->.
Qed.

(** C29. The line a responder prints leads the initiator to it.  Its last output
    is the address it was told to listen on (the first with a TCP part, the
    wildcard replaced by the loopback address) with its own peer id, and an
    initiator started with that text, whenever its start succeeds, talks to
    that peer and its last request to the node is to dial that address.  When
    the node has not reported a TCP address yet (the demo does not wait for it),
    the address has port 0 and leads nowhere. *)
Theorem connect_line_dials_responder any am reply ignored d d1 a run zero local :
  parse "/ip4/127.0.0.1/tcp/0" = Ok zero ->
  demo any am reply {| cli_role := Responder; cli_peer := ignored |} d = (d1, Ok (a, run)) ->
  display local = loopback (display (shown_address is_tcp zero (default [] reply))) -> bare local ->
  let peer := np_peer_id (rn_node run) in
  last (ap_output a) = Some (OutConnect (local ++ [P2p peer])) /\
  (forall any2 am2 reply2 d2 d3 b run2,
    demo any2 am2 reply2 {| cli_role := Initiator; cli_peer := Some (display (local ++ [P2p peer])) |} d2 = (d3, Ok (b, run2)) ->
    ap_peer b = Some peer /\ last (np_controls (ap_node b)) = Some (CtlDial (local ++ [P2p peer]))) /\
  (List.find (has_tcp is_tcp) (default [] reply) = None -> display zero = "/ip4/127.0.0.1/tcp/0" -> local = zero).
Proof.
  intros Hz Hresp Hl Hbare peer. split_and!.
  - apply demo_role in Hresp as (a0 & Hn & Hrun). unfold start_role in Hrun. cbn [cli_role] in Hrun.
    apply (responder_prints peer) in Hrun as (address & Hd & Ho); [|exact Hn]. rewrite (dialable_eq is_tcp parse display show zero local) in Hd by done.
    by injection Hd as <-.
  - intros any2 am2 reply2 d2 d3 b run2 Hini. apply demo_role in Hini as (b0 & [Hn Hr] & Hrun). unfold start_role in Hrun. cbn [cli_role cli_peer ok_or] in Hrun.
    apply M_bind_ok in Hrun as (b1 & [] & Hsub & Hrun). mrun_in Hrun. rewrite parse_display in Hrun. cbn [map_err] in Hrun. mrun_in Hrun.
    rewrite peer_of_dialable in Hrun by done. mrun_in Hrun. apply (initiator_dials _ _ b0); [by split|]. apply M_bind_ok. by exists b1, tt.
  - unfold shown_address in Hl. intros Hf Ht. rewrite Hf in Hl. cbn [default] in Hl. rewrite Ht in Hl. change (loopback _) with "/ip4/127.0.0.1/tcp/0" in Hl.
    pose proof (parse_display local) as Hp. rewrite Hl, Hz in Hp. by injection Hp.
Qed.
End Connect.

(** ** Evaluation *)

(** Addresses as texts whose characters are the parts; the only peer is [#],
    which occurs nowhere else. *)
Abbreviation hash := (Ascii.Ascii true true false false false true false false).
Definition not_hash : Type := {c : Ascii.ascii | Ascii.eqb c hash = false}.
Abbreviation TextAddr := (@Multiaddr unit not_hash).

Fixpoint text_of (a : TextAddr) : string :=
  match a with
  | [] => ""
  | P2p _ :: a => "/p2p/#" +:+ text_of a
  | Other c :: a => String (proj1_sig c) (text_of a)
  end.

Fixpoint read_text (fuel : nat) (s : string) : result string TextAddr :=
  match fuel with
  | O => if decide (s = "") then Ok [] else Err "text"
  | S fuel =>
      match strip_prefix "/p2p/#" s, s with
      | Some rest, _ => a ← read_text fuel rest; mret (P2p tt :: a)
      | None, String c rest =>
          match decide (Ascii.eqb c hash = false) with
          | left Hc => a ← read_text fuel rest; mret (Other (exist (fun c => Ascii.eqb c hash = false) c Hc : not_hash) :: a)
          | right _ => Err "part"
          end
      | None, EmptyString => Ok []
      end
  end.
Definition address_of (s : string) : result string TextAddr := read_text (String.length s) s.

(** Before a [#] there is always [/p2p/]. *)
Lemma hash_after_p2p (a : TextAddr) w r :
  text_of a = w +:+ String hash r -> ~ In hash (String.list_ascii_of_string w) -> exists w', w = w' +:+ "/p2p/".
Proof.
  revert w. induction a as [|[[]|[c Hc]] a IH]; intros w Hw Hn; cbn in Hw.
  - by destruct w.
  - exists "". do 5 (destruct w as [|? w]; [discriminate Hw|]; injection Hw as <- Hw). destruct w as [|? w]; [done|]. injection Hw as <- _. exfalso. apply Hn. cbn. tauto.
  - destruct w as [|x w]; cbn in Hw.
    + injection Hw as -> _. done.
    + injection Hw as <- Hw. destruct (IH w Hw) as [w' ->]; [intros Hin; apply Hn; by right|]. by exists (String c w').
Qed.

Lemma strip_prefix_ok p s r : strip_prefix p s = Some r -> s = p +:+ r.
Proof.
  revert s. induction p as [|x p IH]; intros s Hs; [by injection Hs|]. destruct s as [|y s]; [done|]. cbn in Hs. case_decide; [|done]. subst y.
  cbn. by rewrite (IH s Hs).
Qed.

Lemma not_peer (c : not_hash) (a : TextAddr) : strip_prefix "/p2p/#" (String (proj1_sig c) (text_of a)) = None.
Proof.
  destruct (strip_prefix _ _) as [r|] eqn:Hs; [|done]. exfalso. apply strip_prefix_ok in Hs. injection Hs as _ Hs.
  destruct (hash_after_p2p a "p2p/" r Hs) as [w Hw].
  - cbn. intros Hin. repeat destruct Hin as [Hin|Hin]; done.
  - do 4 (destruct w as [|? w]; [discriminate Hw|]; injection Hw as _ Hw). by destruct w.
Qed.

Lemma read_peer fuel t : read_text (S fuel) ("/p2p/#" +:+ t) = (a ← read_text fuel t; mret (P2p tt :: a)).
Proof. reflexivity. Qed.

Lemma read_text_of fuel (a : TextAddr) : (String.length (text_of a) <= fuel)%nat -> read_text fuel (text_of a) = Ok a.
Proof.
  revert fuel. induction a as [|[[]|c] a IH]; intros fuel Hf.
  - by destruct fuel.
  - change (6 + String.length (text_of a) <= fuel)%nat in Hf. destruct fuel as [|fuel]; [lia|]. cbn [text_of]. rewrite read_peer. rewrite IH; [done|lia].
  - change (S (String.length (text_of a)) <= fuel)%nat in Hf. destruct fuel as [|fuel]; [lia|]. cbn [read_text text_of]. rewrite not_peer. destruct c as [c Hc]. cbn [proj1_sig].
    destruct (decide _) as [Hd|Hd]; [|done]. rewrite IH by lia. cbn. do 3 f_equal. by apply (sig_eq_pi _).
Qed.

#[export] Instance text_addresses : AddressText address_of text_of (fun _ => "#").
Proof.
  split.
  - intros a. by apply read_text_of.
  - intros a []. induction a as [|[[]|c] a IH]; [done|cbn [app text_of]; by rewrite IH|cbn [app text_of]; by rewrite IH].
Qed.

#[local] Existing Instances dev_build concrete_header concrete_material concrete_session_keys concrete_snapshot.

Definition one_peer_net : Libp2p := {|
  NetPeerId := unit; NetPublicKey := unit; ed25519_from_bytes b := inr b; keypair_public _ := tt; to_peer_id _ := tt;
  KadConfig := string; kad_config_new n := n; kad_config_default := "/ipfs/kad/1.0.0";
  tcp_error := None; dns_error := None; mdns_error _ := None; gossipsub_error _ := None; behaviour_error e := e
|}.

Definition address (s : string) : TextAddr := match address_of s with Ok a => a | _ => [] end.
Definition empty_dir : NodeDir := {| nd_salt := None; nd_bundle := None; nd_file := sql_world |}.
Abbreviation responder_run :=
  (demo_main (L := one_peer_net) (ReqId := nat) (Channel := nat) (fun _ : not_hash => true) address_of text_of (fun _ => "#") (fun _ => Ok [x7b; x7d])
    (address "/ip4/0.0.0.0/tcp/0") sample_start (Some [address "/ip4/0.0.0.0/tcp/4001"]) {| cli_role := Responder; cli_peer := None |} empty_dir).

Lemma responder_runs : is_ok responder_run.2 = true.
Proof. vm_compute. reflexivity. Qed.

Lemma connect_line_dials_responder_witness :
  exists d1 a run, responder_run = (d1, Ok (a, run)) /\
    last (ap_output a) = Some (OutConnect (address "/ip4/127.0.0.1/tcp/4001" ++ [P2p tt])).
Proof.
  destruct responder_run as [d1 [[a run]|e|p]] eqn:Hrun; [|by pose proof responder_runs as H; rewrite Hrun in H..].
  exists d1, a, run. split; [reflexivity|].
  destruct (connect_line_dials_responder (L := one_peer_net) (ReqId := nat) (Channel := nat) (fun _ : not_hash => true) address_of text_of (fun _ => "#")
    (fun _ => Ok [x7b; x7d]) (address "/ip4/0.0.0.0/tcp/0") sample_start (Some [address "/ip4/0.0.0.0/tcp/4001"]) None empty_dir d1 a run
    (address "/ip4/127.0.0.1/tcp/0") (address "/ip4/127.0.0.1/tcp/4001")) as [H _].
  - reflexivity.
  - exact Hrun.
  - vm_compute. reflexivity.
  - reflexivity.
  - rewrite H. by destruct (np_peer_id (rn_node run)).
Defined.
