(* ===== verification/DemoProps.v ===== *)
(** The demo from end to end: the handshake over the message router, what the
    router does with messages it should not trust, what a dropped storage error
    leads to, and where delivery reports go. *)

From S2P Require Import Prelude Constants Prims Concrete Ratchet RatchetFacts RatchetProps Identity IdentityProps.
From S2P Require Import Pqxdh PqxdhProps Keys KeysProps Sqleet SessionState SessionFacts Store StoreProps.
From S2P Require Import ChatSession Network Node Handshake ChatProps Group GroupProps App AppFacts AppProps.

Section Props.
Context `{C : Crypto, L : !CryptoLaws C, B : Build}.
Context `{SH : Serde RatchetMessageHeader, SHO : !SerdeOk RatchetMessageHeader}.
Context `{SS : Serde HybridSignature, SSO : !SerdeOk HybridSignature}.
Context `{SM : Serde PqxdhPrekeyMessage, SMO : !SerdeOk PqxdhPrekeyMessage}.
Context `{SB : Serde PreKeyBundle, SBO : !SerdeOk PreKeyBundle}.
Context `{SG : Serde SenderKeyMessage, SGO : !SerdeOk SenderKeyMessage}.
Context `{SD : Serde GroupKeyDistribution, SDO : !SerdeOk GroupKeyDistribution}.
Context `{SK : Serde SessionKeys, SKO : !SerdeOk SessionKeys, SR : Serde RatchetSnapshot, SRO : !SerdeOk RatchetSnapshot}.
Context `{DK : Disk} {PeerId Addr : Type}.

Abbreviation App := (App PeerId Addr).

(** ** Inbound messages that are handled without an error *)

(** What stays the same in a handler: identity, device, and a running node. *)
Definition same_host (a a' : App) : Prop :=
  ns_identity (ap_store a') = ns_identity (ap_store a) /\ ns_device_id (ap_store a') = ns_device_id (ap_store a) /\
  np_running (ap_node a') = np_running (ap_node a).

(** The messages a handler puts into the control channel. *)
Definition sends (a a' : App) (l : list (PeerId * NetworkEnvelope)) : Prop :=
  np_controls (ap_node a') = np_controls (ap_node a) ++ map (fun p => SendDirect p.1 p.2) l.

(** The peer of a message is remembered when none is known. *)
Definition remember (from : PeerId) (a : App) : App :=
  match ap_peer a with None => set_peer (Some from) a | Some _ => a end.

Lemma handle_direct_eq am from env a :
  handle_direct am from env a =
  (let payload := env_encrypted_payload env in
   if decide (head payload = Some MARKER_BUNDLE_REQ) then direct_bundle_req am from
   else if decide (head payload = Some MARKER_BUNDLE) then direct_bundle am payload
   else if decide (head payload = Some MARKER_PREKEY) then direct_prekey am from env
   else if decide (head payload = Some MARKER_RATCHET_PUB) then direct_ratchet_pub am from payload
   else if decide (head payload = Some MARKER_GROUP_KEY) then direct_group_key payload
   else direct_chat am from env) (remember from a).
Proof. unfold handle_direct, remember. mrun. by destruct (ap_peer a). Qed.

(** Picks the branch of the router for a payload with a known marker. *)
Ltac route Hp := rewrite handle_direct_eq; cbv zeta; rewrite Hp; cbn [head hd_error];
  repeat (rewrite decide_False by done); try rewrite decide_True by done.

Lemma direct_prekey_run am from env a rh priv body msg out conv :
  steady am -> ap_responder a = Some rh -> PrekeyMaterial_private_key (rh_prekey rh) = Ok priv ->
  env_encrypted_payload env = MARKER_PREKEY :: body -> from_slice body = Ok msg -> wf msg ->
  env_sender_device_id env = bs conv -> is_utf8 conv -> has_nul conv = false ->
  ambient_ok am -> np_running (ap_node a) = true ->
  pqxdh_responder {| res_identity := rh_identity rh; res_signed_prekey := priv;
                     res_signed_prekey_id := pkm_key_id (rh_prekey rh);
                     res_one_time_prekey := None; res_one_time_prekey_id := None |} msg = Ok out ->
  exists root sb reply a',
    derives_root (out_shared_secret out) root /\ handle_direct am from env a = (a', Ok tt) /\
    ap_session a' = Some sb /\ conversation_id sb = conv /\ peer_identity sb = pm_identity_public msg /\
    DoubleRatchet_init_as_responder SESSION_ID (RootKey_new root) (draw am 0) [] = Ok (ratchet sb) /\
    kept sb (app_db a') /\ resume conv (app_db a') = (app_db a', Ok (Some sb)) /\
    sends a a' [(from, reply)] /\ env_encrypted_payload reply = MARKER_RATCHET_PUB :: x25519_public (draw am 0) /\
    same_host a a' /\ ap_group a' = ap_group a /\ ap_output a' = ap_output a ++ [OutPeer "session established with" from] /\
    t_messages (live (app_db a')) = t_messages (live (app_db a)) /\
    t_messages_seq (live (app_db a')) = t_messages_seq (live (app_db a)).
Proof.
  intros Hdk Hrh Hpriv Hpay Hparse Hw Hdev Hu8 Hn Ham Hrun Hres.
  destruct (on_prekey_ok (rh_prekey rh) priv rh body msg out (draw am 0) conv)
    as (root & sb & Hroot & Hon & Hcs & Hps & Hrs & Hsb & Hwb); try done.
  remember (set_responder (Some (set_rh_peer_identity (Some (pm_identity_public msg)) rh)) (remember from a)) as a1 eqn:E1.
  assert (ap_store a1 = ap_store a /\ ap_node a1 = ap_node a /\ ap_group a1 = ap_group a /\ ap_output a1 = ap_output a /\
          ap_responder a1 = Some (set_rh_peer_identity (Some (pm_identity_public msg)) rh)) as (Hs1 & Hn1 & Hg1 & Ho1 & Hr1)
    by (subst a1; unfold remember; by destruct (ap_peer a)).
  destruct (upsert_run (clock am 0) conv (pm_identity_public msg) false a1 Hn) as (Hup & Hrow & _ & Hm2 & Hq2).
  remember (upserted (clock am 0) conv (pm_identity_public msg) false (app_db a1)) as db2 eqn:E2. clear E2.
  destruct (persist_run (clock am 1) sb (set_store (set_db db2 (ap_store a1)) a1))
    as (db3 & Hper & Hresu & Hc3 & Hm3 & Hq3); [by split_and!; rewrite ?Hcs|].
  destruct (reply_run (clock am 2) from MARKER_RATCHET_PUB (x25519_public (draw am 0))
    (set_session (Some sb) (set_store (set_db db3 (ap_store (set_store (set_db db2 (ap_store a1)) a1)))
       (set_store (set_db db2 (ap_store a1)) a1)))) as (reply & Hrep & Hrp & _); [by cbn; rewrite Hn1|].
  eexists root, sb, reply, _. split; [done|]. split.
  { route Hpay. unfold direct_prekey. mrun. rewrite Hdev, from_utf8_bs by done. cbn [context map_err]. mrun.
    replace (ap_responder (remember from a)) with (Some rh) by (unfold remember; by destruct (ap_peer a)).
    cbn [ok_or]. mrun. rewrite Hpay. cbn [drop]. unfold on_responder. rewrite drop_0, Hon. mrun. rewrite <- E1.
    rewrite Hr1. cbn [mbind option_bind rh_peer_identity set_rh_peer_identity ok_or]. mrun.
    rewrite !engine_call_steady by done. rewrite Hup. mrun. rewrite Hper. mrun. rewrite Hrep. mrun. unfold println. mrun. done. }
  unfold sends, same_host, app_db in *. cbn in *. rewrite ?Hn1, ?Hs1, ?Hg1, ?Ho1, ?Hcs in *.
  split_and!; try done; [|by rewrite Hm3, Hm2 | by rewrite Hq3, Hq2].
  by split_and!; rewrite ?Hc3, ?Hcs.
Qed.

Lemma remember_same from a :
  ap_store (remember from a) = ap_store a /\ ap_node (remember from a) = ap_node a /\
  ap_initiator (remember from a) = ap_initiator a /\ ap_responder (remember from a) = ap_responder a /\
  ap_session (remember from a) = ap_session a /\ ap_group (remember from a) = ap_group a /\
  ap_output (remember from a) = ap_output a.
Proof. unfold remember. by destruct (ap_peer a). Qed.

Lemma direct_bundle_req_run am from env a rh bundle rest :
  ap_responder a = Some rh -> ResponderHandshake_bundle rh = Ok bundle -> wf bundle ->
  env_encrypted_payload env = MARKER_BUNDLE_REQ :: rest -> np_running (ap_node a) = true ->
  exists reply body a',
    handle_direct am from env a = (a', Ok tt) /\ sends a a' [(from, reply)] /\
    env_encrypted_payload reply = MARKER_BUNDLE :: body /\ from_slice body = Ok bundle /\
    ap_store a' = ap_store a /\ np_running (ap_node a') = true /\ ap_responder a' = Some rh /\
    ap_session a' = ap_session a /\ ap_group a' = ap_group a /\ ap_output a' = ap_output a.
Proof.
  intros Hrh Hbun Hw Hpay Hrun. destruct (remember_same from a) as (Hs & Hn & Hi & Hr & Hss & Hg & Ho).
  destruct (serde_total bundle Hw) as [body Hbody].
  destruct (reply_run (clock am 0) from MARKER_BUNDLE body (remember from a)) as (reply & Hrep & Hp & _); [by rewrite Hn|].
  eexists reply, body, _. split.
  { route Hpay. unfold direct_bundle_req. mrun. rewrite Hr, Hrh. cbn [ok_or]. mrun. rewrite Hbun. mrun.
    rewrite Hbody. cbn [map_err]. mrun. exact Hrep. }
  unfold sends. cbn. rewrite Hn, Hs, Hr, Hss, Hg, Ho. split_and!; try done. by apply serde_roundtrip.
Qed.

Lemma direct_bundle_run am from env a h pkm priv ib bundle body :
  steady am -> ap_initiator a = Some h -> prekey_of pkm priv -> PrekeyMaterial_to_bundle pkm ib = Ok bundle ->
  env_encrypted_payload env = MARKER_BUNDLE :: body -> from_slice body = Ok bundle ->
  has_nul (ns_device_id (ap_store a)) = false -> np_running (ap_node a) = true ->
  exists out msg reply body' a',
    handle_direct am from env a = (a', Ok tt) /\ sends a a' [(ih_peer h, reply)] /\
    env_encrypted_payload reply = MARKER_PREKEY :: body' /\ env_sender_device_id reply = bs (ih_device_id h) /\
    from_slice body' = Ok msg /\ wf msg /\ pm_identity_public msg = IdentityKeyPair_public (ih_identity h) /\
    pqxdh_responder {| res_identity := ib; res_signed_prekey := priv; res_signed_prekey_id := pkm_key_id pkm;
                       res_one_time_prekey := None; res_one_time_prekey_id := None |} msg = Ok out /\
    ap_initiator a' = Some (set_ih_pending (Some out) (set_ih_peer_identity (Some (IdentityKeyPair_public ib)) h)) /\
    same_host a a' /\ ap_session a' = ap_session a /\ ap_group a' = ap_group a /\ ap_output a' = ap_output a.
Proof.
  intros Hdk Hh Hpk Hbun Hpay Hparse Hnul Hrun. destruct (remember_same from a) as (Hs & Hn & Hi & _ & Hss & Hg & Ho).
  destruct (prepare_prekey_ok (clock am 1) (draw am 0) (draw am 1) (draw am 2) (draw am 3) (draw am 4) (draw am 5) (draw am 6)
    pkm priv ib bundle h Hpk Hbun) as (out & msg & body' & reply & Hprep & _ & Hpl & Hdev & Hpar & Hw & Hmid & Hres).
  specialize (Hres (pm_identity_public msg)).
  replace (claim_identity (pm_identity_public msg) msg) with msg in Hres by by destruct msg.
  destruct (prekey_bundle pkm priv ib Hpk) as (bundle' & Hb' & _ & _ & Hbid). rewrite Hbun in Hb'. injection Hb' as <-.
  rewrite <- Hs in Hnul. destruct (upsert_run (clock am 0) _ (identity_key bundle) false (remember from a) Hnul) as (Hup & _).
  remember (remember from a) as a1 eqn:E1.
  remember (upserted _ _ _ _ _) as db2 eqn:E2. clear E2.
  eexists out, msg, reply, body', _. split.
  { route Hpay. rewrite <- E1. unfold direct_bundle, our_device. mrun. cbn [drop]. rewrite drop_0, Hparse. cbn [context map_err]. mrun.
    rewrite Hi, Hh. cbn [ok_or]. mrun. rewrite engine_call_steady, Hup by done. mrun. unfold on_initiator, send_prekey. mrun.
    unfold on_first, zoom. cbn [fst snd]. rewrite Hprep. mrun.
    unfold on_second, zoom, send_with_context, with_err, P2pNode_send_direct. cbn [fst snd].
    rewrite send_control_ok by (cbn; by rewrite Hn). cbn [map_err]. done. }
  unfold sends, same_host. cbn. rewrite Hn, Hs, Hss, Hg, Ho. by split_and!.
Qed.

Lemma direct_group_key_run am from env (a : App) s d body :
  env_encrypted_payload env = MARKER_GROUP_KEY :: body -> from_slice body = Ok d -> ap_session a = Some s ->
  exists a' : App, handle_direct am from env a = (a', Ok tt) /\
    ap_group a' = apply_group_key d (peer_identity s) (ap_group a) /\ ap_session a' = Some s /\
    ap_store a' = ap_store a /\ ap_node a' = ap_node a /\
    ap_output a' = ap_output a ++ [OutNotice "group key received, group ready"].
Proof.
  intros Hpay Hparse Hs. destruct (remember_same from a) as (Hst & Hn & _ & _ & Hss & Hg & Ho). eexists. split.
  { route Hpay. unfold direct_group_key. mrun. cbn [drop]. rewrite drop_0, Hparse. cbn [context map_err]. mrun.
    rewrite Hss, Hs. cbn [ok_or]. mrun. unfold on_group, zoom, println. mrun. done. }
  cbn. rewrite Hst, Hn, Hss, Hg, Ho. by split_and!.
Qed.

(** The sender keys [create_sender] makes, as a group and as a distribution. *)
Definition sender_of (rnd : bytes) (i : IdentityKeyPair) (g : GroupChat) : GroupChat :=
  set_sender (Some {| snd_chain_key := rnd; snd_group_id := gc_group_id g;
                      snd_sender_identity := {| ik_public := ip_classical (IdentityKeyPair_public i) |};
                      snd_message_index := 0; snd_key_id := 1 |}) g.
Definition distribution_of (rnd : bytes) : GroupKeyDistribution :=
  {| gkd_chain_key := rnd; gkd_key_id := 1; gkd_message_index := 0 |}.

Lemma create_sender_eq rnd i g : create_sender rnd i g = (sender_of rnd i g, Ok (distribution_of rnd)).
Proof. done. Qed.

Definition greeting (device_id : string) : bytes := bs ("hello from " +:+ device_id).

Lemma greet_run am from (a : App) sa sa' e2 :
  steady am -> ap_session a = Some sa -> kept sa (app_db a) -> np_running (ap_node a) = true -> length (draw am 1) = CHAIN_KEY_SIZE ->
  ChatSession_encrypt (clock am 3) (ns_identity (ap_store a)) (ns_device_id (ap_store a))
    (greeting (ns_device_id (ap_store a))) sa = (sa', Ok e2) ->
  exists e1 body (a' : App),
    distribute_and_greet am from a = (a', Ok tt) /\ sends a a' [(from, e1); (from, e2)] /\
    env_encrypted_payload e1 = MARKER_GROUP_KEY :: body /\ from_slice body = Ok (distribution_of (draw am 1)) /\
    ap_session a' = Some sa' /\ resume (conversation_id sa) (app_db a') = (app_db a', Ok (Some sa')) /\
    ap_group a' = sender_of (draw am 1) (ns_identity (ap_store a)) (ap_group a).
Proof.
  intros Hdk Hs (Hr & Hw & Hn & Hrow) Hrun Hd1 Henc.
  remember (greeting (ns_device_id (ap_store a))) as pt eqn:Ept.
  pose proof (chat_encrypt_resumable (clock am 3) (ns_identity (ap_store a)) (ns_device_id (ap_store a)) pt sa Hr) as Hr'.
  pose proof (chat_encrypt_wf (clock am 3) (ns_identity (ap_store a)) (ns_device_id (ap_store a)) pt sa Hw) as Hw'.
  pose proof (chat_encrypt_conversation (clock am 3) (ns_identity (ap_store a)) (ns_device_id (ap_store a)) pt sa) as Hc'.
  rewrite Henc in Hr', Hw', Hc'. cbn in Hr', Hw', Hc'.
  assert (wf (distribution_of (draw am 1))) as Hwd by by split_and!.
  destruct (serde_total _ Hwd) as [body Hbody].
  destruct (reply_run (clock am 2) from MARKER_GROUP_KEY body
    (set_group (sender_of (draw am 1) (ns_identity (ap_store a)) (ap_group a)) a)) as (e1 & Hrep & Hp1 & _); [done|].
  destruct (persist_run (clock am 4) sa' (set_node (node_with (node_with (ap_node a) (SendDirect from e1)) (SendDirect from e2))
    (set_session (Some sa') (set_node (node_with (ap_node a) (SendDirect from e1))
       (set_group (sender_of (draw am 1) (ns_identity (ap_store a)) (ap_group a)) a)))))
    as (db8 & Hper & Hres & _); [by split_and!; rewrite ?Hc'|].
  exists e1, body. eexists. split.
  { unfold distribute_and_greet, our_device, our_identity. mrun. unfold on_group, zoom. rewrite create_sender_eq. mrun.
    rewrite Hbody. cbn [map_err]. mrun. rewrite Hrep. mrun. unfold on_session. cbn [ap_session set_node set_group]. rewrite Hs.
    fold (greeting (ns_device_id (ap_store a))). rewrite <- Ept, Henc. mrun.
    rewrite send_run by done. mrun. unfold ignore_err, persist_session. mrun. cbn [ap_session set_session set_node].
    cbn [ap_node set_session set_node set_group] in *. rewrite engine_call_steady, Hper by done. unfold println. mrun. done. }
  unfold sends, app_db. cbn. rewrite <- app_assoc, <- Hc'. split_and!; try done. by apply serde_roundtrip.
Qed.

Lemma direct_ratchet_pub_run am from env (a : App) h out peer root pub :
  steady am -> ap_initiator a = Some h -> ih_pending h = Some out -> ih_peer_identity h = Some peer -> wf peer ->
  ih_device_id h = ns_device_id (ap_store a) -> has_nul (ns_device_id (ap_store a)) = false ->
  env_encrypted_payload env = MARKER_RATCHET_PUB :: pub -> length pub = X25519_PUBLIC_KEY_SIZE ->
  derives_root (out_shared_secret out) root -> ambient_ok am -> np_running (ap_node a) = true ->
  exists sa (a1 : App),
    handle_direct am from env a = distribute_and_greet am from a1 /\
    DoubleRatchet_init SESSION_ID (RootKey_new root) (draw am 0) pub [] = Ok (ratchet sa) /\
    peer_identity sa = peer /\ conversation_id sa = ns_device_id (ap_store a) /\
    ap_session a1 = Some sa /\ kept sa (app_db a1) /\ ap_node a1 = ap_node a /\ ap_group a1 = ap_group a /\ same_host a a1.
Proof.
  intros Hdk Hh Hpe Hpi Hwp Hdev Hnul Hpay Hlen Hroot Ham Hrun.
  destruct (establish_ok (draw am 0) pub h out peer root) as (sa & Hest & Hcs & Hps & Hrs & Hsa & Hwa); try done.
  destruct (remember_same from a) as (Hs & Hn & Hi & _ & Hss & Hg & Ho).
  remember (set_initiator (Some (set_ih_pending None h)) (set_node (ap_node (remember from a)) (remember from a))) as a1 eqn:E1.
  assert (ap_store a1 = ap_store a /\ ap_node a1 = ap_node a /\ ap_group a1 = ap_group a /\ 
          ap_initiator a1 = Some (set_ih_pending None h)) as (Hs1 & Hn1 & Hg1 & Hi1) by by subst a1; cbn; rewrite Hs, Hn, Hg.
  destruct (upsert_run (clock am 0) (ns_device_id (ap_store a)) peer false a1 Hnul) as (Hup & Hrow & _).
  remember (upserted _ _ _ _ _) as db2 eqn:E2. clear E2.
  destruct (persist_run (clock am 1) sa (set_store (set_db db2 (ap_store a1)) a1))
    as (db3 & Hper & _ & Hc3 & _); [by split_and!; rewrite ?Hcs, ?Hdev|].
  exists sa. eexists. split.
  { route Hpay. unfold direct_ratchet_pub, our_device. mrun. rewrite Hi, Hh. cbn [ok_or]. mrun. cbn [drop].
    rewrite drop_0. unfold on_initiator, on_first, zoom. cbn [fst snd]. rewrite Hest. cbn [fst snd]. mrun.
    rewrite <- E1, Hi1. cbn [mbind option_bind ih_peer_identity set_ih_pending]. rewrite Hpi. cbn [ok_or]. mrun. rewrite Hs1.
    rewrite engine_call_steady, Hup by done. mrun. rewrite engine_call_steady, Hper by done. mrun. reflexivity. }
  unfold same_host, app_db in *. cbn in *. rewrite Hn1, Hg1, Hs1, Hcs, Hdev. split_and!; try done.
  by split_and!; rewrite ?Hcs, ?Hdev, ?Hc3.
Qed.

(** A chat envelope: text in its header field, its conversation and time. *)
Lemma chat_encrypt_fields now i dev pt s s' env :
  ChatSession_encrypt now i dev pt s = (s', Ok env) ->
  is_text (env_nonce env) /\ env_conversation_id env = bs (conversation_id s) /\ env_timestamp env = Z.max now 0.
Proof.
  unfold ChatSession_encrypt. intros H. first_call H s1 m H1. destruct m as [ct h]. first_call H s2 c H2. injection H2 as <- <-.
  injection H as _ H. unfold build_signed_envelope in H. apply result_bind_ok in H as (hj & Hhj%map_err_ok & H).
  apply raw_envelope_fields in H as Hf. destruct Hf as (_ & Hc & Ht).
  unfold on_ratchet in H1. destruct (DoubleRatchet_encrypt pt (ratchet s)) as [d [m| |]]; try discriminate.
  injection H1 as <- _. split_and!; try done. apply serde_text in Hhj.
  unfold build_raw_envelope in H. apply result_bind_ok in H as (sig & _ & H). apply result_bind_ok in H as (sj & _ & [= <-]). done.
Qed.

Lemma chat_encrypt_payload now i dev pt s s' env :
  ChatSession_encrypt now i dev pt s = (s', Ok env) ->
  exists d h, DoubleRatchet_encrypt pt (ratchet s) = (d, Ok (env_encrypted_payload env, h)).
Proof.
  unfold ChatSession_encrypt. intros H. first_call H s1 m H1. destruct m as [ct h]. first_call H s2 c H2. injection H2 as <- <-.
  injection H as _ H. unfold build_signed_envelope in H. apply result_bind_ok in H as (hj & _ & H).
  unfold build_raw_envelope in H. apply result_bind_ok in H as (sig & _ & H). apply result_bind_ok in H as (sj & _ & [= <-]).
  unfold on_ratchet in H1. destruct (DoubleRatchet_encrypt pt (ratchet s)) as [d [m| |]]; try discriminate.
  injection H1 as _ ->. by exists d, h.
Qed.

Definition markers : list byte :=
  [MARKER_BUNDLE_REQ; MARKER_BUNDLE; MARKER_PREKEY; MARKER_RATCHET_PUB; MARKER_GROUP_KEY].

(** The payload does not start with a marker. *)
Definition unmarked (env : NetworkEnvelope) : Prop :=
  forall m, head (env_encrypted_payload env) = Some m -> m ∉ markers.

Lemma direct_chat_run am from env (a : App) s s' pt c :
  steady am -> ap_session a = Some s -> kept s (app_db a) -> ChatSession_decrypt env s = (s', Ok pt) -> unmarked env ->
  env_conversation_id env = bs c -> is_utf8 c -> has_nul c = false -> is_text (env_nonce env) ->
  t_messages_seq (live (app_db a)) <> i64_max ->
  uid_fresh c (message_id_bytes (env_timestamp env) (draw_u32 am)) (app_db a) ->
  exists a' row,
    handle_direct am from env a = (a', Ok tt) /\ ap_session a' = Some s' /\
    resume (conversation_id s) (app_db a') = (app_db a', Ok (Some s')) /\
    ap_output a' = ap_output a ++ [OutDirect from pt] /\ ap_group a' = ap_group a /\
    t_messages (live (app_db a')) = <[t_messages_seq (live (app_db a)) + 1 := row]> (t_messages (live (app_db a))) /\
    mrr_ciphertext row = env_encrypted_payload env /\ mrr_direction row = MessageDirection_i64 Incoming.
Proof.
  intros Hdk Hs (Hr & Hw & Hnul & Hrow) Hdec Hum Hcid Hu8 Hc Htext Hq Hu.
  pose proof (chat_decrypt_resumable env s Hr) as Hr'. pose proof (chat_decrypt_wf env s Hw) as Hw'.
  pose proof (chat_decrypt_conversation env s) as Hc'. rewrite Hdec in Hr', Hw', Hc'. cbn in Hr', Hw', Hc'.
  destruct (remember_same from a) as (Hst & Hn & _ & _ & Hss & Hg & Ho).
  remember (remember from a) as a0 eqn:E0.
  assert (app_db a0 = app_db a) as Hd0 by (unfold app_db; by rewrite Hst).
  destruct (upsert_run (clock am 0) c (peer_identity s) false a0 Hc) as (Hup & Hrow1 & [Hse1 He1] & Hm1 & Hq1).
  remember (upserted _ _ _ _ _) as db1 eqn:E1. clear E1. rewrite Hd0 in Hse1, He1, Hm1, Hq1.
  destruct (persist_run (clock am 1) s' (set_session (Some s') (set_store (set_db db1 (ap_store a0)) a0)))
    as (db2 & Hper & Hres & Hc2 & Hm2 & Hq2).
  { split_and!; try done; rewrite Hc'; [done|]. by apply He1. }
  unfold app_db in Hc2, Hm2, Hq2. cbn in Hc2, Hm2, Hq2.
  set (a2 := set_store (set_db db2 _) _) in Hper.
  set (a3 := (println (OutDirect from pt) a2).1).
  assert (app_db a3 = db2) as Hd3 by done.
  destruct (insert_run (clock am 2) c (message_id_bytes (env_timestamp env) (draw_u32 am)) (peer_identity s)
    (env_encrypted_payload env) (String.string_of_list_byte (env_nonce env)) Incoming a3) as (db4 & row & Hins & Hm4 & Hct & Hdir & _ & _ & He4);
    [done | by apply text_no_nul | by rewrite Hd3, Hq2, Hq1
    | unfold uid_fresh; by rewrite Hd3, Hm2, Hm1 | by rewrite Hd3, Hc2 |].
  rewrite Hd3, Hm2, Hm1, Hq2, Hq1 in Hm4.
  exists (set_store (set_db db4 (ap_store a3)) a3), row. split.
  { rewrite handle_direct_eq. cbv zeta. rewrite <- E0.
    repeat (rewrite decide_False by (intros Heq; apply (Hum _ Heq); unfold markers; by repeat constructor)).
    unfold direct_chat. mrun. rewrite Hcid, from_utf8_bs by done. cbn [map_err]. mrun. unfold ensure_session. mrun. rewrite Hss, Hs. mrun.
    rewrite Hss, Hs. cbn [ok_or]. mrun. rewrite engine_call_steady, Hup by done. mrun. unfold on_session. cbn [ap_session set_store]. rewrite Hss, Hs, Hdec. mrun.
    unfold persist_session. mrun. cbn [ap_session set_session]. rewrite engine_call_steady, Hper by done. mrun. fold a2. rewrite println_ok. mrun. fold a3.
    rewrite text_utf8 by done. cbn [map_err]. mrun. rewrite engine_call_steady, Hins by done. mrun. done. }
  unfold app_db in *. cbn in *. rewrite Ho, Hg. split_and!; try done.
  destruct He4 as [Hse4 _]. rewrite <- (resume_state (conversation_id s) db4) at 2.
  assert ((resume (conversation_id s) db4).2 = Ok (Some s')) as <-; [|by destruct (resume _ db4)].
  rewrite (resume_sessions _ db2) by done. by rewrite <- Hc', Hres.
Qed.

(** ** The handshake from end to end *)

(** The applications as [demo_main] leaves them, without a stored session. *)
Definition ready_initiator (i : IdentityKeyPair) (dev : string) (peer : PeerId) (a : App) : Prop :=
  ns_identity (ap_store a) = i /\ ns_device_id (ap_store a) = dev /\
  ap_initiator a = Some (InitiatorHandshake_new i dev peer) /\ ap_session a = None /\ np_running (ap_node a) = true.
Definition ready_responder (i : IdentityKeyPair) (pkm : PrekeyMaterial) (b : App) : Prop :=
  ns_identity (ap_store b) = i /\ ap_responder b = Some (ResponderHandshake_new i pkm) /\ np_running (ap_node b) = true.

Lemma connected_run am i dev peer (a : App) :
  ready_initiator i dev peer a ->
  exists a1 env, handle_event am (PeerConnected peer) (a, false) = ((a1, true), Ok true) /\ sends a a1 [(peer, env)] /\
    env_encrypted_payload env = [MARKER_BUNDLE_REQ] /\ ready_initiator i dev peer a1 /\ ap_group a1 = ap_group a.
Proof.
  intros (Hi & Hd & Hini & Hs & Hrun).
  destruct (raw_envelope_ok (clock am 0) i dev KIND_SYNC (bs dev) [MARKER_BUNDLE_REQ] []) as (env & Henv & _ & Hp & _).
  remember (remember peer (println (OutPeer "connected to" peer) a).1) as a0 eqn:E0.
  destruct (remember_same peer (println (OutPeer "connected to" peer) a).1) as (Hst & Hn & Hin & _ & Hss & Hg & _).
  rewrite <- E0 in Hst, Hn, Hin, Hss, Hg. cbn in Hst, Hn, Hin, Hss, Hg.
  eexists _, env. split.
  { unfold handle_event, start_handshake, on_app, on_first, zoom. mrun. rewrite println_ok. mrun.
    replace (match ap_peer (println (OutPeer "connected to" peer) a).1 with Some _ => _ | None => _ end
               (println (OutPeer "connected to" peer) a).1) with (a0, Ok tt : result AppError unit)
      by (subst a0; unfold remember; by destruct (ap_peer _)).
    mrun. rewrite Hin, Hini, Hss, Hs. rewrite decide_True by eauto. mrun. unfold on_initiator, request_bundle. mrun.
    unfold sync_envelope. cbn [ih_identity ih_device_id ih_peer InitiatorHandshake_new]. rewrite Henv. mrun.
    unfold on_second, zoom, send_with_context, with_err, P2pNode_send_direct. cbn [fst snd].
    rewrite send_control_ok by by rewrite Hn. cbn [map_err fst snd]. reflexivity. }
  unfold sends, ready_initiator. cbn. rewrite Hn, Hst, Hg, Hss, Hs. by split_and!.
Qed.

(** The first four messages: bundle request, bundle, prekey message, ratchet
    key. *)
Lemma handshake_messages (am : nat -> Ambient) ia ib da pkm priv pa pb (a b : App) :
  (forall i, steady (am i)) -> ready_initiator ia da pb a -> ready_responder ib pkm b -> prekey_of pkm priv ->
  is_utf8 da -> has_nul da = false -> ambient_ok (am 3%nat) ->
  exists a1 e1 b1 e2 a2 e3 b2 e4 h out root sb,
    (handle_event (am 0%nat) (PeerConnected pb) (a, false) = ((a1, true), Ok true) /\ sends a a1 [(pb, e1)]) /\
    (handle_direct (am 1%nat) pa e1 b = (b1, Ok tt) /\ sends b b1 [(pa, e2)]) /\
    (handle_direct (am 2%nat) pb e2 a1 = (a2, Ok tt) /\ sends a1 a2 [(pb, e3)]) /\
    (handle_direct (am 3%nat) pa e3 b1 = (b2, Ok tt) /\ sends b1 b2 [(pa, e4)]) /\
    (env_encrypted_payload e4 = MARKER_RATCHET_PUB :: x25519_public (draw (am 3%nat) 0) /\
     ap_initiator a2 = Some h /\ ih_pending h = Some out /\ ih_peer_identity h = Some (IdentityKeyPair_public ib) /\
     ih_device_id h = da /\ derives_root (out_shared_secret out) root /\ 
     ns_identity (ap_store a2) = ia /\ ns_device_id (ap_store a2) = da /\ np_running (ap_node a2) = true /\
     ap_group a2 = ap_group a) /\
    (ap_session b2 = Some sb /\ conversation_id sb = da /\ peer_identity sb = IdentityKeyPair_public ia /\
     DoubleRatchet_init_as_responder SESSION_ID (RootKey_new root) (draw (am 3%nat) 0) [] = Ok (ratchet sb) /\
     kept sb (app_db b2) /\ ap_group b2 = ap_group b /\
     t_messages (live (app_db b2)) = t_messages (live (app_db b)) /\
     t_messages_seq (live (app_db b2)) = t_messages_seq (live (app_db b))).
Proof.
  intros Hdk Ha (Hib & Hrb & Hrunb) Hpk Hu8 Hnul Ham.
  destruct (prekey_bundle pkm priv ib Hpk) as (bundle & Hbun & Hwb & _).
  destruct (connected_run (am 0%nat) ia da pb a Ha) as (a1 & e1 & H1 & Hs1 & Hp1 & (Hi1 & Hd1 & Hin1 & Hss1 & Hr1) & Hg1).
  destruct (direct_bundle_req_run (am 1%nat) pa e1 b (ResponderHandshake_new ib pkm) bundle [])
    as (e2 & body2 & b1 & H2 & Hs2 & Hp2 & Hb2 & Hst2 & Hrun2 & Hrh2 & _ & Hg2 & _); try done.
  destruct (direct_bundle_run (am 2%nat) pb e2 a1 (InitiatorHandshake_new ia da pb) pkm priv ib bundle body2)
    as (out & msg & e3 & body3 & a2 & H3 & Hs3 & Hp3 & Hdev3 & Hb3 & Hw3 & Hid3 & Hres3 & Hini3 & (Hh1 & Hh2 & Hh3) & _ & Hg3 & _);
    try done; [by rewrite Hd1|].
  destruct (direct_prekey_run (am 3%nat) pa e3 b1 (ResponderHandshake_new ib pkm) priv body3 msg out da)
    as (root & sb & e4 & b2 & Hroot & H4 & Hsb & Hcs & Hps & Hrs & Hk & _ & Hs4 & Hp4 & _ & Hg4 & _ & Hm4 & Hq4);
    try done; [by apply Hpk|].
  unfold app_db in Hm4, Hq4. rewrite Hst2 in Hm4, Hq4.
  eexists a1, e1, b1, e2, a2, e3, b2, e4, _, out, root, sb. split_and!; try done; try congruence. by rewrite Hps, Hid3.
Qed.

Lemma singleton_run {St E T U} (f : T -> M St E U) x s s' ys :
  mapM f [x] s = (s', Ok ys) -> exists y, ys = [y] /\ f x s = (s', Ok y).
Proof. intros (s1 & y & ys' & Hf & [= <- <-] & ->)%mapM_cons_ok. by exists y. Qed.

(** C5. The demo works up to the greeting: when the two nodes connect, every
    direct message is delivered once and in order and the engine does not fail
    at a store call ([steady]), all handlers succeed;
    the initiator requests the bundle, gets it, sends its prekey message, gets
    the ratchet key, sends the group key and a greeting.  Then the two hold
    sessions that resuming from their databases reproduces, the group is ready
    in the initiator-to-responder direction, and the responder prints the
    greeting and stores it, unless its ciphertext happens to start with one of
    the five marker bytes. *)
Theorem demo_handshake (am : nat -> Ambient) ia ib da pkm priv pa pb (a b : App) :
  (forall i, steady (am i)) -> ready_initiator ia da pb a -> ready_responder ib pkm b -> prekey_of pkm priv ->
  is_utf8 da -> has_nul da = false -> Z.of_nat (length (greeting da)) < 2 ^ 37 ->
  ambient_ok (am 3%nat) -> ambient_ok (am 4%nat) -> length (draw (am 4%nat) 1) = CHAIN_KEY_SIZE ->
  gc_group_id (ap_group a) = gc_group_id (ap_group b) -> t_messages_seq (live (app_db b)) <> i64_max ->
  uid_fresh da (message_id_bytes (Z.max (clock (am 4%nat) 3) 0) (draw_u32 (am 6%nat))) (app_db b) ->
  exists a1 e1 b1 e2 a2 e3 b2 e4 a3 e5 e6 b3 sa,
    (handle_event (am 0%nat) (PeerConnected pb) (a, false) = ((a1, true), Ok true) /\ sends a a1 [(pb, e1)]) /\
    (handle_direct (am 1%nat) pa e1 b = (b1, Ok tt) /\ sends b b1 [(pa, e2)]) /\
    (handle_direct (am 2%nat) pb e2 a1 = (a2, Ok tt) /\ sends a1 a2 [(pb, e3)]) /\
    (handle_direct (am 3%nat) pa e3 b1 = (b2, Ok tt) /\ sends b1 b2 [(pa, e4)]) /\
    (handle_direct (am 4%nat) pb e4 a2 = (a3, Ok tt) /\ sends a2 a3 [(pb, e5); (pb, e6)]) /\
    handle_direct (am 5%nat) pa e5 b2 = (b3, Ok tt) /\ group_in_step ia (ap_group a3) (ap_group b3) /\
    ap_session a3 = Some sa /\ resume da (app_db a3) = (app_db a3, Ok (Some sa)) /\
    (unmarked e6 -> exists b4 sb row,
       handle_direct (am 6%nat) pa e6 b3 = (b4, Ok tt) /\ ap_output b4 = ap_output b3 ++ [OutDirect pa (greeting da)] /\
       ap_session b4 = Some sb /\ resume da (app_db b4) = (app_db b4, Ok (Some sb)) /\
       t_messages (live (app_db b4)) = <[t_messages_seq (live (app_db b)) + 1 := row]> (t_messages (live (app_db b))) /\
       mrr_ciphertext row = env_encrypted_payload e6).
Proof.
  intros Hdk Ha Hb Hpk Hu8 Hnul Hlen Ham3 Ham4 Hd1 Hgid Hseq Hfresh.
  destruct (handshake_messages am ia ib da pkm priv pa pb a b)
    as (a1 & e1 & b1 & e2 & a2 & e3 & b2 & e4 & h & out & root & sb & H1 & H2 & H3 & H4 &
        (Hp4 & Hh & Hpe & Hpi & Hdev & Hroot & Hi2 & Hd2 & Hr2 & Hg2) & (Hsb & Hcs & Hps & Hrs & Hk & Hgb & Hmb & Hqb)); try done.
  destruct (direct_ratchet_pub_run (am 4%nat) pb e4 a2 h out (IdentityKeyPair_public ib) root (x25519_public (draw (am 3%nat) 0)))
    as (sa & a2' & H5 & Hra & Hpa & Hca & Hsa & Hka & Hna & Hga & (Hh1 & Hh2 & Hh3));
    try done; [apply public_wf | by rewrite Hd2 | by rewrite Hd2 | apply length_x25519_public |].
  destruct (chat_exchange (clock (am 4%nat) 3) ia ib da sa sb [greeting da] [0%nat]) as (_ & _ & sa' & envs & sb' & Henc & Hdec & _);
    [by exists (RootKey_new root), (draw (am 4%nat) 0), (draw (am 3%nat) 0) | cbn; unfold MAX_SKIP_MESSAGES; lia
    | by constructor | apply NoDup_singleton | by constructor; [cbn; lia|]|].
  apply singleton_run in Henc as (e6 & -> & Henc). cbn in Hdec. apply singleton_run in Hdec as (pt & [= <-] & Hdec).
  apply chat_encrypt_fields in Henc as Hf6. destruct Hf6 as (Ht6 & Hc6 & Hts6). rewrite Hca, Hd2 in Hc6.
  destruct (greet_run (am 4%nat) pb a2' sa sa' e6) as (e5 & body5 & a3 & H5' & Hs5 & Hp5 & Hb5 & Hs3 & Hr3 & Hg3);
    [done | done | done | by rewrite Hh3 | done | by rewrite Hh1, Hh2, Hi2, Hd2 |].
  destruct (direct_group_key_run (am 5%nat) pa e5 b2 sb (distribution_of (draw (am 4%nat) 1)) body5)
    as (b3 & H6 & Hg6 & Hss6 & Hst6 & _ & Ho6); try done.
  exists a1, e1, b1, e2, a2, e3, b2, e4, a3, e5, e6, b3, sa'. rewrite Hca, Hd2 in Hr3. rewrite H5.
  destruct H1 as [? ?], H2 as [? ?], H3 as [? ?], H4 as [? ?]. split_and!; try done.
  - unfold sends in *. by rewrite Hs5, Hna.
  - rewrite Hg3, Hg6, Hga, Hg2, Hgb, Hh1, Hi2, Hps. eexists _, _. by split_and!.
  - intros Hum. rewrite <- Hts6 in Hfresh.
    destruct (direct_chat_run (am 6%nat) pa e6 b3 sb sb' (greeting da) da)
      as (b4 & row & Hc7 & Hs7 & Hr7 & Ho7 & _ & Hm7 & Hct & _); try done;
      unfold app_db, uid_fresh in *; rewrite ?Hst6, ?Hqb, ?Hmb; try done.
    exists b4, sb', row. rewrite Hcs in Hr7. rewrite Hst6, Hqb, Hmb in Hm7. by split_and!.
Qed.

(** ** What an inbound message can do *)

(** C36. Anyone can take over the responder's session: whoever has fetched the
    responder's bundle and run the initiator's half of PQXDH with a key of its
    own can claim any identity and any device id in the prekey message.  The
    envelope's signature is not looked at.  The responder replaces the session
    it has, in memory and in the database under the claimed conversation, by
    one whose peer is the claimed identity and whose root key comes from the
    secret the sender knows.  (The engine does not fail in this turn.) *)
Theorem prekey_replaces_session am from env (a : App) rh priv attacker claimed bundle eph r1 r2 r3 r4 r5 out msg body conv :
  steady am -> ap_responder a = Some rh -> prekey_of (rh_prekey rh) priv -> ResponderHandshake_bundle rh = Ok bundle ->
  pqxdh_initiator r1 r2 r3 r4 r5 {| ini_identity := attacker; ini_ephemeral := eph; ini_peer_bundle := bundle |} = Ok (out, msg) ->
  wf claimed -> to_vec (claim_identity claimed msg) = Ok body ->
  env_encrypted_payload env = MARKER_PREKEY :: body -> env_sender_device_id env = bs conv -> is_utf8 conv -> has_nul conv = false ->
  ambient_ok am -> np_running (ap_node a) = true ->
  exists s root a',
    handle_direct am from env a = (a', Ok tt) /\ ap_session a' = Some s /\
    peer_identity s = claimed /\ conversation_id s = conv /\ derives_root (out_shared_secret out) root /\
    DoubleRatchet_init_as_responder SESSION_ID (RootKey_new root) (draw am 0) [] = Ok (ratchet s) /\
    resume conv (app_db a') = (app_db a', Ok (Some s)).
Proof.
  intros Hdk Hrh Hpk Hbun Hini Hwc Hbody Hpay Hdev Hu8 Hn Ham Hrun. pose proof Hpk as (Hid & Hpub & Hpriv & _).
  destruct (handshake r1 r2 r3 r4 r5 attacker eph (PrekeyMaterial_signed_prekey (rh_prekey rh)) []
    {| res_identity := rh_identity rh; res_signed_prekey := priv; res_signed_prekey_id := pkm_key_id (rh_prekey rh);
       res_one_time_prekey := None; res_one_time_prekey_id := None |})
    as (bundle' & out' & msg' & Hbun' & Hini' & _ & Hmid & Hwf & Hres); [done..|].
  unfold ResponderHandshake_bundle, PrekeyMaterial_to_bundle in Hbun. cbn [res_identity] in Hbun'. rewrite Hbun' in Hbun.
  injection Hbun as ->. rewrite Hini in Hini'. injection Hini' as <- <-.
  assert (wf (claim_identity claimed msg)) as Hw by (destruct Hwf as (_ & ?); [done | constructor | by split]).
  destruct (direct_prekey_run am from env a rh priv body (claim_identity claimed msg) out conv)
    as (root & sb & reply & a' & Hroot & Hd & Hs & Hc & Hp & Hr & _ & Hre & _); try done; [by apply serde_roundtrip|].
  exists sb, root, a'. by split_and!.
Qed.

Create HintDb history.

(** Lines that show a 1:1 message. *)
Definition shown (l : list (Output PeerId Addr)) : list bytes :=
  omap (fun o => match o with OutDirect _ pt => Some pt | _ => None end) l.

(** What a handler leaves alone. *)
Definition history (a : App) := (shown (ap_output a), t_messages (live (app_db a))).

Lemma history_println o c :
  shown [o] = [] -> keeps (fun a => history a = c) (println o).
Proof. intros Ho a <-. unfold history, shown in *. cbn. by rewrite omap_app, Ho, app_nil_r. Qed.

Lemma history_send p e c : keeps (fun a => history a = c) (send_to p e).
Proof. intros a <-. unfold send_to, zoom. by destruct (with_err _ _ _). Qed.

Lemma history_group {T} (m : M GroupChat AppError T) c : keeps (fun a => history a = c) (on_group m).
Proof. intros a <-. unfold on_group, zoom. by destruct (m _). Qed.

Lemma history_reply now p mk body c : keeps (fun a => history a = c) (reply_sync now p mk body).
Proof. unfold reply_sync, our_identity, our_device. do 3 (apply keeps_bind; [keeps_tac|intros ?]). apply history_send. Qed.

Lemma history_upsert now id peer g c : keeps (fun a => history a = c) (on_store (NodeStore_upsert_conversation now id peer g)).
Proof.
  intros a <-. unfold on_store, NodeStore_upsert_conversation, on_store_db, zoom, with_err, upsert_conversation, bind_texts. mrun.
  by destruct (existsb has_nul _).
Qed.

Lemma history_persist now s c : keeps (fun a => history a = c) (on_db (ChatSession_persist now s)).
Proof.
  intros a <-. unfold on_db, on_store, zoom, ChatSession_persist, NodeStore_save_session, save_session. mrun.
  destruct (map_err _ _); [|done..]. mrun. destruct (map_err _ _); [|done..]. mrun. unfold bind_texts.
  destruct (existsb _ _); [done|]. mrun. by destruct (_ !! _).
Qed.

Lemma history_initiator {T} h (m : M (InitiatorHandshake PeerId * P2pNode PeerId Addr) AppError T) c :
  keeps (fun a => history a = c) (on_initiator h m).
Proof. intros a <-. unfold on_initiator. by destruct (m _) as [[h' n'] r]. Qed.

Lemma history_responder {T} h (m : M ResponderHandshake AppError T) c : keeps (fun a => history a = c) (on_responder h m).
Proof. intros a <-. unfold on_responder. by destruct (m _). Qed.

Lemma history_session {T} (m : M ChatSession AppError T) c : keeps (fun a => history a = c) (on_session m).
Proof. intros a <-. unfold on_session. destruct (ap_session a); [|done]. by destruct (m _). Qed.

Lemma history_call {T} am k (m : M App AppError T) c : keeps (fun a => history a = c) m -> keeps (fun a => history a = c) (engine_call am k m).
Proof. apply engine_call_keeps. Qed.

Lemma history_ignore_persist am k now c : keeps (fun a => history a = c) (ignore_err (persist_session am k now)).
Proof.
  intros a Ha. unfold ignore_err. assert (keeps (fun a => history a = c) (persist_session am k now)) as Hk.
  { unfold persist_session. apply keeps_bind; [keeps_tac|]. intros [s|]; [apply history_call, history_persist | keeps_tac]. }
  specialize (Hk a Ha). by destruct (persist_session am k now a) as [a' [| |]].
Qed.

#[local] Hint Resolve history_send history_group history_reply history_upsert history_persist history_initiator
  history_responder history_session history_call history_ignore_persist history_println : history.

(** Walks a handler, closing each call with the lemmas above. *)
Ltac walk :=
  repeat first [ solve [auto with history] | apply keeps_bind; [|intros ?]
               | match goal with |- keeps _ (match ?x with _ => _ end) => destruct x end | keeps_tac ].

Lemma history_marked am from env (a : App) m :
  head (env_encrypted_payload env) = Some m -> m ∈ markers -> history (handle_direct am from env a).1 = history a.
Proof.
  intros Hh Hm. rewrite handle_direct_eq. cbv zeta.
  assert (history (remember from a) = history a) as Hr by (unfold remember; by destruct (ap_peer a)).
  generalize dependent (remember from a). intros a0 <-.
  set (c := history a0). revert c.
  repeat case_decide; try (intros c; apply (fun H : keeps (fun a => history a = c) _ => H a0 eq_refl)).
  - unfold direct_bundle_req. walk.
  - unfold direct_bundle, our_device. walk.
  - unfold direct_prekey. walk.
  - unfold direct_ratchet_pub, distribute_and_greet, our_device, our_identity. walk.
  - unfold direct_group_key. walk.
  - exfalso. unfold markers in Hm. rewrite !elem_of_cons, elem_of_nil in Hm. naive_solver.
Qed.

(** C37. Messages are lost by their first ciphertext byte: the router looks at
    the payload and not at the kind of the envelope, so that a chat message
    whose ciphertext starts with a byte from 0 to 4 is neither shown nor stored
    by anyone, whatever happens to it; and when that byte is 3, the responder's
    loop ends with an error, whatever inputs were still to come. *)
Theorem marked_ciphertext_lost am from env (a : App) m st inputs :
  head (env_encrypted_payload env) = Some m -> m ∈ markers ->
  history (handle_direct am from env a).1 = history a /\
  (ap_initiator a = None -> m = MARKER_RATCHET_PUB ->
   exists a', run_loop ((am, Event (DirectMessage from env)) :: inputs) (a, st) =
     ((a', st), Err ["ratchet pub on responder"]) /\ ap_session a' = ap_session a).
Proof.
  intros Hh Hm. split; [by eapply history_marked|]. intros Hi ->.
  destruct (remember_same from a) as (_ & _ & Hi' & _ & Hs & _). exists (remember from a). split; [|done].
  cbn [run_loop turn]. unfold handle_event, on_app, on_first, zoom. mrun. rewrite handle_direct_eq. cbv zeta. rewrite Hh.
  repeat (rewrite decide_False by done). rewrite decide_True by done. unfold direct_ratchet_pub. mrun. by rewrite Hi', Hi.
Qed.

(** A line is sent: encrypted, stored and handed to the node; what is left is
    to store the session again. *)
Lemma chat_command_sends am line (a : App) s p s' env :
  disk am 0 = None -> ap_session a = Some s -> ap_peer a = Some p -> kept s (app_db a) -> np_running (ap_node a) = true ->
  ChatSession_encrypt (clock am 0) (ns_identity (ap_store a)) (ns_device_id (ap_store a)) (bs line) s = (s', Ok env) ->
  t_messages_seq (live (app_db a)) <> i64_max ->
  uid_fresh (conversation_id s) (message_id_bytes (env_timestamp env) (draw_u32 am)) (app_db a) ->
  exists a' row,
    chat_command am line a = (ignore_err (persist_session am 1 (clock am 2));; println (OutDirectSent line)) a' /\
    ap_session a' = Some s' /\ ap_peer a' = Some p /\ kept s' (app_db a') /\ same_host a a' /\ sends a a' [(p, env)] /\
    t_sessions (live (app_db a')) = t_sessions (live (app_db a)) /\
    t_messages (live (app_db a')) = <[t_messages_seq (live (app_db a)) + 1 := row]> (t_messages (live (app_db a))) /\
    t_messages_seq (live (app_db a')) = t_messages_seq (live (app_db a)) + 1 /\
    mrr_message_id row = message_id_bytes (env_timestamp env) (draw_u32 am).
Proof.
  intros Hdk Hs Hp (Hr & Hw & Hn & Hrow) Hrun Henc Hq Hu. apply chat_encrypt_fields in Henc as Hf. destruct Hf as (Htext & _).
  remember (ns_identity (ap_store a)) as i eqn:Ei. remember (ns_device_id (ap_store a)) as dev eqn:Edev.
  pose proof (chat_encrypt_resumable (clock am 0) i dev (bs line) s Hr) as Hr'.
  pose proof (chat_encrypt_wf (clock am 0) i dev (bs line) s Hw) as Hw'.
  pose proof (chat_encrypt_conversation (clock am 0) i dev (bs line) s) as Hc'.
  rewrite Henc in Hr', Hw', Hc'. cbn in Hr', Hw', Hc'.
  destruct (insert_run (clock am 1) (conversation_id s) (message_id_bytes (env_timestamp env) (draw_u32 am))
    (IdentityKeyPair_public i) (env_encrypted_payload env) (String.string_of_list_byte (env_nonce env)) Outgoing
    (set_session (Some s') a)) as (db1 & row & Hins & Hm1 & _ & _ & Hmid & Hq1 & [He1 He1']);
    [done | by apply text_no_nul | done..|].
  eexists _, row. split.
  { unfold chat_command, our_identity, our_device. mrun. rewrite Hs, Hp. mrun. unfold on_session. rewrite Hs, <- Ei, <- Edev, Henc. mrun.
    rewrite text_utf8 by done. cbn [map_err]. mrun. unfold engine_call at 1. rewrite Hdk, Hins. mrun. rewrite send_run by done. mrun. reflexivity. }
  unfold sends, same_host, app_db in *. cbn in *. rewrite Hm1, Hq1, He1. split_and!; try done.
  split_and!; try done; rewrite Hc'; [done|]. by apply He1'.
Qed.

Lemma chat_command_run am line (a : App) s p s' env :
  steady am -> ap_session a = Some s -> ap_peer a = Some p -> kept s (app_db a) -> np_running (ap_node a) = true ->
  ChatSession_encrypt (clock am 0) (ns_identity (ap_store a)) (ns_device_id (ap_store a)) (bs line) s = (s', Ok env) ->
  t_messages_seq (live (app_db a)) <> i64_max ->
  uid_fresh (conversation_id s) (message_id_bytes (env_timestamp env) (draw_u32 am)) (app_db a) ->
  exists a' row, chat_command am line a = (a', Ok tt) /\ ap_session a' = Some s' /\ ap_peer a' = Some p /\
    kept s' (app_db a') /\ same_host a a' /\ sends a a' [(p, env)] /\
    t_messages (live (app_db a')) = <[t_messages_seq (live (app_db a)) + 1 := row]> (t_messages (live (app_db a))) /\
    t_messages_seq (live (app_db a')) = t_messages_seq (live (app_db a)) + 1 /\
    mrr_message_id row = message_id_bytes (env_timestamp env) (draw_u32 am).
Proof.
  intros Hdk Hs Hp Hk Hrun Henc Hq Hu.
  destruct (chat_command_sends am line a s p s' env) as (a2 & row & Hcmd & Hs2 & Hp2 & Hk2 & Hh2 & Hn2 & _ & Hm2 & Hq2 & Hid); try done.
  destruct (persist_run (clock am 2) s' a2 Hk2) as (db3 & Hper & _ & Hc3 & Hm3 & Hq3). destruct Hk2 as (Hr' & Hw' & Hn' & Hrow').
  eexists _, row. split.
  { rewrite Hcmd. unfold ignore_err, persist_session. mrun. rewrite Hs2, engine_call_steady, Hper by done. rewrite println_ok. reflexivity. }
  destruct Hh2 as (Hh1 & Hh3 & Hh4). unfold sends, same_host, kept, app_db in *. cbn in *. rewrite Hm3, Hq3, Hc3. by split_and!.
Qed.

(** ** A store that fails unseen *)

(** Two messages encrypted from the same state of the ratchet. *)
Lemma encrypt_twice (d d1 d2 : DoubleRatchet) pt1 pt2 ct1 ct2 h1 h2 :
  DoubleRatchet_encrypt pt1 d = (d1, Ok (ct1, h1)) -> DoubleRatchet_encrypt pt2 d = (d2, Ok (ct2, h2)) ->
  exists key hb, to_vec h1 = Ok hb /\ h2 = h1 /\
    aead_encrypt key (message_nonce (message_number h1)) hb pt1 = Some ct1 /\
    aead_encrypt key (message_nonce (message_number h1)) hb pt2 = Some ct2.
Proof.
  unfold DoubleRatchet_encrypt. intros H1 H2. rewrite M_bind_eq in H1, H2. destruct (ensure_sending_chain d) as [e [[]| |]]; [|done..].
  mrun_in H1. mrun_in H2. cbn in H1, H2. destruct (chain_key (sending_chain e)) as [ck|]; [|done]. cbn in H1, H2.
  destruct (ChainKey_message_key ck) as [mk| |]; [|done..]. mrun_in H1. mrun_in H2. cbn in H1, H2.
  destruct (ChainKey_next ck) as [nx| |]; [|done..]. mrun_in H1. mrun_in H2. cbn in H1, H2.
  destruct (to_vec _) as [hb| |] eqn:Hhb; [|done..]. cbn in H1, H2. mrun_in H1. mrun_in H2.
  destruct (aead_encrypt _ _ _ pt1) eqn:E1; [|done]. destruct (aead_encrypt _ _ _ pt2) eqn:E2; [|done].
  injection H1 as _ <- <-. injection H2 as _ <- <-. by exists (mk_key mk), hb.
Qed.

(** ** Delivery reports *)

Definition status_of (a : App) (row : Z) : option Z := mrr_status <$> t_messages (live (app_db a)) !! row.

(** Storing the session again leaves the messages alone, whether the engine
    does it or not. *)
Definition rows (a : App) :=
  (t_messages (live (app_db a)), t_messages_seq (live (app_db a)), ap_last_outgoing a, ap_session a, ap_peer a, ap_node a).

Lemma rows_ignore_persist am k now (a a' : App) x c :
  ignore_err (persist_session am k now) a = (a', x) -> rows a = c -> rows a' = c.
Proof.
  intros H Ha. unfold ignore_err in H. assert (keeps (fun a => rows a = c) (persist_session am k now)) as Hk.
  { unfold persist_session. apply keeps_bind; [keeps_tac|]. intros [s|]; [|keeps_tac]. apply engine_call_keeps.
    intros b <-. unfold on_db, on_store, zoom, ChatSession_persist, NodeStore_save_session.
    pose proof (save_session_tables (conversation_id s) {| ss_is_initiator := is_initiator s; ss_session_keys := session_keys s;
      ss_ratchet := Some (RatchetSnapshot_from_ratchet (ratchet s)); ss_last_used := now |} (ns_db (ap_store b))) as [Hm1 Hq1].
    destruct (save_session _ _ _). unfold rows, app_db. cbn in *. by rewrite Hm1, Hq1. }
  specialize (Hk a Ha). destruct (persist_session am k now a) as [a1 [| |]]; by injection H as <- _.
Qed.

(** What a sent line leaves in the database. *)
Lemma chat_command_row am line (a a' : App) s p :
  ap_session a = Some s -> ap_peer a = Some p -> chat_command am line a = (a', Ok tt) ->
  let row := t_messages_seq (live (app_db a)) + 1 in
  ap_last_outgoing a' = Some row /\ status_of a' row = Some (MessageStatus_i64 Sent) /\
  t_messages_seq (live (app_db a')) = row /\ is_Some (ap_session a') /\ ap_peer a' = Some p /\
  forall r, r <> row -> status_of a' r = status_of a r.
Proof.
  intros Hs Hp H row. unfold chat_command in H. first_call H a1 ss H1. injection H1 as <- <-. first_call H a2 pp H2. injection H2 as <- <-.
  rewrite Hs, Hp in H. first_call H a3 i H3. injection H3 as <- <-. first_call H a4 dev H4. injection H4 as <- <-.
  first_call H a5 env H5. unfold on_session in H5. rewrite Hs in H5.
  destruct (ChatSession_encrypt _ _ _ _ s) as [s' r'] eqn:He. injection H5 as <- ->.
  first_call H a6 hj H6. injection H6 as <- _. first_call H a7 id7 H7. apply engine_call_ok, store_ok in H7 as (db' & Hm & ->).
  assert (id7 = row /\ t_messages_seq (live db') = row /\ exists r, mrr_status r = MessageStatus_i64 Sent /\
          t_messages (live db') = <[row := r]> (t_messages (live (app_db a)))) as (-> & Hq & r & Hr & Ht).
  { unfold insert_message in Hm. first_call Hm d1 u1 G1. apply bind_texts_ok in G1 as [-> _]. first_call Hm d2 t G2. injection G2 as <- <-.
    destruct (_ =? _); [done|]. destruct (existsb _ _); [done|]. destruct (_ !! _); [|done].
    first_call Hm d3 u3 G3. injection G3 as <- _. injection Hm as <- <-.
    split; [done|]. split; [done|]. eexists. split; [|reflexivity]. done. }
  first_call H a8 u8 H8. injection H8 as <- _. first_call H a9 u9 H9. apply zoom_ok in H9 as (n & _ & ->).
  first_call H a10 u10 H10. injection H as <-.
  assert (t_messages (live (app_db a10)) = t_messages (live db') /\ t_messages_seq (live (app_db a10)) = row /\
    ap_last_outgoing a10 = Some row /\ ap_session a10 = Some s' /\ ap_peer a10 = Some p) as (Ht10 & Hq10 & Hl10 & Hs10 & Hp10).
  { eapply (rows_ignore_persist am 1 (clock am 2)) in H10; [|reflexivity]. cbn in H10. injection H10 as -> -> -> -> -> _. by split_and!. }
  unfold status_of, app_db in *. cbn in *. rewrite Ht10, Ht, Hq10, Hl10, Hs10, Hp10. split_and!; try done; eauto.
  - rewrite lookup_insert_eq. cbn. by rewrite Hr.
  - intros r0 Hne. by rewrite lookup_insert_ne.
Qed.

(** The message a line becomes. *)
Lemma chat_command_sent am line (a a' : App) s p :
  ap_session a = Some s -> ap_peer a = Some p -> chat_command am line a = (a', Ok tt) ->
  exists s' env, ChatSession_encrypt (clock am 0) (ns_identity (ap_store a)) (ns_device_id (ap_store a)) (bs line) s = (s', Ok env) /\
    sends a a' [(p, env)].
Proof.
  intros Hs Hp H. unfold chat_command in H. first_call H a1 ss H1. injection H1 as <- <-. first_call H a2 pp H2. injection H2 as <- <-.
  rewrite Hs, Hp in H. first_call H a3 i H3. injection H3 as <- <-. first_call H a4 dev H4. injection H4 as <- <-.
  first_call H a5 env H5. unfold on_session in H5. rewrite Hs in H5.
  destruct (ChatSession_encrypt _ _ _ _ s) as [s' r'] eqn:He. injection H5 as <- ->.
  first_call H a6 hj H6. injection H6 as <- _. first_call H a7 id7 H7. apply engine_call_ok, store_ok in H7 as (db' & _ & ->).
  first_call H a8 u8 H8. injection H8 as <- _. first_call H a9 u9 H9. apply zoom_ok in H9 as (n & Hn & ->).
  first_call H a10 u10 H10. injection H as <-. exists s', env. split; [done|].
  eapply (rows_ignore_persist am 1 (clock am 2)) in H10; [|reflexivity]. injection H10 as _ _ _ _ _ H10.
  unfold sends. cbn. rewrite H10. cbn. apply with_err_ok in Hn. unfold P2pNode_send_direct, send_control in Hn. cbn in Hn.
  destruct (np_running (ap_node a)) eqn:Hrun; mrun_in Hn; cbn in Hn; rewrite ?Hrun in Hn; cbn in Hn; [|done]. by injection Hn as <-.
Qed.

(** C24. A failed store goes unseen and makes the demo reuse a nonce.
    [handle_command] drops the error of [persist] after it has sent a line.
    When the engine fails exactly there, the command succeeds and reports
    nothing, the ratchet in memory has moved on, and the database still holds
    the session from before the line.  Whatever application then resumes that
    session and sends a line, on any later start, encrypts it with the key, the
    nonce and the header of the line already sent. *)
Theorem dropped_persist_reuses_nonce am line (a : App) s p s1 env e :
  disk am 0 = None -> disk am 1 = Some e -> ap_session a = Some s -> ap_peer a = Some p ->
  kept s (app_db a) -> resume (conversation_id s) (app_db a) = (app_db a, Ok (Some s)) -> np_running (ap_node a) = true ->
  ChatSession_encrypt (clock am 0) (ns_identity (ap_store a)) (ns_device_id (ap_store a)) (bs line) s = (s1, Ok env) ->
  t_messages_seq (live (app_db a)) <> i64_max ->
  uid_fresh (conversation_id s) (message_id_bytes (env_timestamp env) (draw_u32 am)) (app_db a) ->
  exists a1, chat_command am line a = (a1, Ok tt) /\ sends a a1 [(p, env)] /\ ap_session a1 = Some s1 /\
    resume (conversation_id s) (app_db a1) = (app_db a1, Ok (Some s)) /\
    forall am' line' (b b1 : App) q, ap_session b = Some s -> ap_peer b = Some q -> chat_command am' line' b = (b1, Ok tt) ->
      exists env' key h hb, sends b b1 [(q, env')] /\ to_vec h = Ok hb /\
        aead_encrypt key (message_nonce (message_number h)) hb (bs line) = Some (env_encrypted_payload env) /\
        aead_encrypt key (message_nonce (message_number h)) hb (bs line') = Some (env_encrypted_payload env').
Proof.
  intros Hd0 Hd1 Hs Hp Hk Hres Hrun Henc Hq Hu.
  destruct (chat_command_sends am line a s p s1 env) as (a2 & row & Hcmd & Hs2 & Hp2 & Hk2 & _ & Hn2 & Hse & _); try done.
  destruct (persist_run (clock am 2) s1 a2 Hk2) as (db3 & Hper & _).
  exists (println (OutDirectSent line) a2).1. split_and!; [|exact Hn2|exact Hs2| |].
  - rewrite Hcmd. unfold ignore_err, persist_session. mrun. rewrite Hs2. unfold engine_call. rewrite Hd1, Hper. by rewrite println_ok.
  - change (app_db (println (OutDirectSent line) a2).1) with (app_db a2). pose proof (resume_sessions (conversation_id s) (app_db a) (app_db a2)) as H2.
    pose proof (resume_state (conversation_id s) (app_db a2)) as H1. rewrite Hres in H2. specialize (H2 Hse).
    destruct (resume (conversation_id s) (app_db a2)) as [x y]. cbn in H1, H2. by subst.
  - intros am' line' b b1 q Hsb Hpb Hb. destruct (chat_command_sent am' line' b b1 s q Hsb Hpb Hb) as (s2 & env' & Henc' & Hsent).
    apply chat_encrypt_payload in Henc as (d1 & h1 & He1), Henc' as (d2 & h2 & He2).
    destruct (encrypt_twice _ _ _ _ _ _ _ _ _ He1 He2) as (key & hb & Hhb & _ & H1 & H2). by exists env', key, h1, hb.
Qed.

Lemma settle_run am status (a : App) row :
  steady am -> ap_last_outgoing a = Some row ->
  exists a', settle_last_outgoing am status a = (a', Ok tt) /\ ap_last_outgoing a' = None /\
    (is_Some (status_of a row) -> status_of a' row = Some (MessageStatus_i64 status)) /\
    forall r, r <> row -> status_of a' r = status_of a r.
Proof.
  intros Hdk Hl. unfold settle_last_outgoing. mrun. rewrite Hl. rewrite engine_call_steady by done.
  unfold on_store, NodeStore_update_message_status, on_store_db, zoom, with_err, update_message_status, update_tables. mrun.
  eexists. split; [reflexivity|]. unfold status_of, app_db. cbn. split; [done|]. split.
  - intros [x Hx]. rewrite lookup_alter_eq. destruct (_ !! row); [done|]. done.
  - intros r Hne. by rewrite lookup_alter_ne.
Qed.

Lemma settle_none_run am status (a : App) :
  ap_last_outgoing a = None ->
  exists a', settle_last_outgoing am status a = (a', Ok tt) /\ forall r, status_of a' r = status_of a r.
Proof. intros Hl. unfold settle_last_outgoing. mrun. rewrite Hl. by eexists. Qed.

(** C38. Delivery reports go to the wrong message: only the last row sent is
    remembered.  When two lines are sent before any report arrives, and then
    the first is reported delivered (and the engine stores the report) and the
    second failed, the second is stored as delivered, and the first stays "sent"
    for good. *)
Theorem delivery_reports_misattributed am1 am2 am3 am4 line1 line2 (a a1 a2 : App) s p to1 to2 c ack error st :
  steady am3 -> ap_session a = Some s -> ap_peer a = Some p ->
  chat_command am1 line1 a = (a1, Ok tt) -> chat_command am2 line2 a1 = (a2, Ok tt) ->
  let row1 := t_messages_seq (live (app_db a)) + 1 in
  let row2 := row1 + 1 in
  exists a3 a4,
    handle_event am3 (DirectDelivered to1 c {| res_status := 1; res_ack_id := ack |}) (a2, st) = ((a3, st), Ok true) /\
    handle_event am4 (DirectFailed to2 error) (a3, st) = ((a4, st), Ok true) /\
    status_of a4 row1 = Some (MessageStatus_i64 Sent) /\ status_of a4 row2 = Some (MessageStatus_i64 Delivered).
Proof.
  intros Hdk Hs Hp H1 H2 row1 row2.
  destruct (chat_command_row am1 line1 a a1 s p Hs Hp H1) as (Hl1 & Hst1 & Hq1 & [s1 Hs1] & Hp1 & _).
  destruct (chat_command_row am2 line2 a1 a2 s1 p Hs1 Hp1 H2) as (Hl2 & Hst2 & Hq2 & _ & _ & Hother).
  rewrite Hq1 in Hl2, Hst2, Hq2, Hother. fold row1 in Hl2, Hst1, Hst2, Hother. fold row2 in Hl2, Hst2, Hother.
  destruct (settle_run am3 Delivered a2 row2 Hdk Hl2) as (a3 & H3 & Hl3 & Hst3 & Ho3).
  destruct (settle_none_run am4 Failed (println (OutDelivery to1 true) a3).1) as (a4 & H4 & Ho4); [done|].
  eexists _, _. split; [|split].
  - unfold handle_event, on_app, on_first, zoom. mrun. cbn [res_status]. rewrite Z.eqb_refl. mrun. rewrite H3. mrun.
    rewrite println_ok. mrun. reflexivity.
  - unfold handle_event, on_app, on_first, zoom. mrun. rewrite H4. mrun. rewrite println_ok. mrun. reflexivity.
  - change (status_of a4 row1 = Some (MessageStatus_i64 Sent) /\ status_of a4 row2 = Some (MessageStatus_i64 Delivered)).
    rewrite !Ho4. change (status_of a3 row1 = Some (MessageStatus_i64 Sent) /\ status_of a3 row2 = Some (MessageStatus_i64 Delivered)).
    split; [|apply Hst3; rewrite Hst2; eauto]. rewrite Ho3, Hother by (unfold row2; lia). done.
Qed.
End Props.

(** ** Evaluation *)

#[local] Existing Instances dev_build concrete_header concrete_signature concrete_prekey_message concrete_bundle
  concrete_group_message concrete_distribution concrete_session_keys concrete_snapshot.
#[local] Existing Instance quiet_disk.

Definition device_store (i : IdentityKeyPair) (device_id : string) : NodeStore :=
  {| ns_db := empty_db; ns_identity := i; ns_device_id := device_id; ns_bundle_file := None |}.
Definition alice_app : App nat nat :=
  set_initiator (Some (InitiatorHandshake_new alice_identity "dev" 2%nat)) (fresh_app (device_store alice_identity "dev")).
Definition bob_app (pkm : PrekeyMaterial) : App nat nat :=
  set_responder (Some (ResponderHandshake_new bob_identity pkm)) (fresh_app (device_store bob_identity "bob")).

Lemma demo_handshake_witness :
  exists pkm a1 e1 b1 e2 a2 e3 b2 e4 a3 e5 e6 b3 sa,
    PrekeyMaterial_generate 9 (bs "c") (bs "k") bob_identity = Ok pkm /\
    handle_event sample_ambient (PeerConnected 2%nat) (alice_app, false) = ((a1, true), Ok true) /\ 
    handle_direct sample_ambient 1%nat e1 (bob_app pkm) = (b1, Ok tt) /\
    handle_direct sample_ambient 2%nat e2 a1 = (a2, Ok tt) /\ handle_direct sample_ambient 1%nat e3 b1 = (b2, Ok tt) /\
    handle_direct sample_ambient 2%nat e4 a2 = (a3, Ok tt) /\ sends a2 a3 [(2%nat, e5); (2%nat, e6)] /\
    handle_direct sample_ambient 1%nat e5 b2 = (b3, Ok tt) /\ ap_session a3 = Some sa.
Proof.
  destruct (prekey_generate_ok 9 (bs "c") (bs "k") bob_identity) as (pkm & priv & Hgen & Hpk); [lia|].
  destruct (demo_handshake (fun _ => sample_ambient) alice_identity bob_identity "dev" pkm priv 1%nat 2%nat alice_app (bob_app pkm))
    as (a1 & e1 & b1 & e2 & a2 & e3 & b2 & e4 & a3 & e5 & e6 & b3 & sa & [H1 _] & [H2 _] & [H3 _] & [H4 _] & [H5 H5'] & H6 & _ & Hs & _).
  - intros i k. reflexivity.
  - by split_and!.
  - by split_and!.
  - exact Hpk.
  - reflexivity.
  - reflexivity.
  - reflexivity.
  - reflexivity.
  - reflexivity.
  - reflexivity.
  - reflexivity.
  - discriminate.
  - intros id r. cbn. by rewrite lookup_empty.
  - exists pkm, a1, e1, b1, e2, a2, e3, b2, e4, a3, e5, e6, b3, sa. by split_and!.
Defined.

(** A responder that already has a session, and an attacker who owns
    [alice_identity] and claims the responder's own identity. *)
Lemma prekey_replaces_session_witness :
  exists pkm bundle out msg body env s root a',
    PrekeyMaterial_generate 9 (bs "c") (bs "k") bob_identity = Ok pkm /\
    pqxdh_initiator (bs "1") (bs "2") (bs "3") (bs "4") (bs "5")
      {| ini_identity := alice_identity; ini_ephemeral := alice_kem; ini_peer_bundle := bundle |} = Ok (out, msg) /\
    env_encrypted_payload env = MARKER_PREKEY :: body /\
    handle_direct sample_ambient 3%nat env (set_session (Some bob_session) (bob_app pkm)) = (a', Ok tt) /\
    ap_session a' = Some s /\ peer_identity s = IdentityKeyPair_public bob_identity /\ conversation_id s = "conv" /\
    derives_root (out_shared_secret out) root.
Proof.
  destruct (prekey_generate_ok 9 (bs "c") (bs "k") bob_identity) as (pkm & priv & Hgen & Hpk); [lia|].
  pose proof Hpk as (Hid & Hpub & _).
  destruct (handshake (bs "1") (bs "2") (bs "3") (bs "4") (bs "5") alice_identity alice_kem (PrekeyMaterial_signed_prekey pkm) []
    {| res_identity := bob_identity; res_signed_prekey := priv; res_signed_prekey_id := pkm_key_id pkm;
       res_one_time_prekey := None; res_one_time_prekey_id := None |})
    as (bundle & out & msg & Hbun & Hini & _ & _ & Hwf & _); [done..|].
  assert (wf (claim_identity (IdentityKeyPair_public bob_identity) msg)) as Hw
    by (destruct Hwf as (_ & ?); [done | constructor | split; [apply public_wf | done]]).
  destruct (serde_total _ Hw) as [body Hbody].
  set (env := {| env_kind := KIND_SYNC; env_conversation_id := []; env_sender_device_id := bs "conv"; env_timestamp := 0;
    env_encrypted_payload := MARKER_PREKEY :: body; env_mac := []; env_protocol_version := 1; env_nonce := []; env_signature := [] |}).
  destruct (prekey_replaces_session sample_ambient 3%nat env (set_session (Some bob_session) (bob_app pkm))
    (ResponderHandshake_new bob_identity pkm) priv alice_identity (IdentityKeyPair_public bob_identity) bundle alice_kem
    (bs "1") (bs "2") (bs "3") (bs "4") (bs "5") out msg body "conv")
    as (s & root & a' & Hd & Hs & Hp & Hc & Hr & _);
    [intros k; reflexivity | done | done | unfold ResponderHandshake_bundle, PrekeyMaterial_to_bundle; cbn [rh_identity rh_prekey ResponderHandshake_new res_identity] in *; by rewrite Hbun | exact Hini | apply public_wf | exact Hbody | reflexivity..|].
  exists pkm, bundle, out, msg, body, env, s, root, a'. by split_and!.
Defined.

(** A chat message whose ciphertext starts with a 3. *)
Lemma marked_ciphertext_lost_witness :
  exists s' env pkm a',
    ChatSession_encrypt 7 alice_identity "dev" [x03; x41] alice_session = (s', Ok env) /\
    PrekeyMaterial_generate 9 (bs "c") (bs "k") bob_identity = Ok pkm /\
    run_loop [(sample_ambient, Event (DirectMessage 3%nat env)); (sample_ambient, EndOfInput)]
      (set_session (Some bob_session) (bob_app pkm), false) = ((a', false), Err ["ratchet pub on responder"]).
Proof.
  destruct (prekey_generate_ok 9 (bs "c") (bs "k") bob_identity) as (pkm & priv & Hgen & _); [lia|].
  destruct (chat_exchange 7 alice_identity bob_identity "dev" alice_session bob_session [[x03; x41]] [0%nat])
    as (_ & _ & s' & envs & _ & Henc & _);
    [apply sample_established | cbn; unfold MAX_SKIP_MESSAGES; lia | by_decide..|].
  apply singleton_run in Henc as (env & -> & Henc). pose proof Henc as (d & h & He)%chat_encrypt_payload.
  assert (head (env_encrypted_payload env) = Some MARKER_RATCHET_PUB) as Hh.
  { enough ((fun r => match r with Ok m => head m.1 | _ => None end) (DoubleRatchet_encrypt [x03; x41] (ratchet alice_session)).2
      = Some MARKER_RATCHET_PUB) as Hx by by rewrite He in Hx. vm_compute. reflexivity. }
  destruct (marked_ciphertext_lost sample_ambient 3%nat env (set_session (Some bob_session) (bob_app pkm)) MARKER_RATCHET_PUB
    false [(sample_ambient, EndOfInput)] Hh) as [_ Hrun]; [unfold markers; by repeat constructor|].
  destruct Hrun as (a' & Hrun & _); [reflexivity | reflexivity|]. exists s', env, pkm, a'. by split_and!.
Defined.

Lemma resumed_tables :
  t_messages (live (ns_db resumed_store)) = ∅ /\ t_messages_seq (live (ns_db resumed_store)) = 0 /\
  is_Some (t_conversations (live (ns_db resumed_store)) !! "conv").
Proof.
  destruct alice_session_wf as [Hr Hw].
  destruct (persist_ok 5 alice_session sample_db {| cvr_peer_classical := []; cvr_peer_pq := []; cvr_is_group := 0; cvr_created_at := 1 |})
    as (db' & Hp & _ & row & Hl); [done | done | reflexivity | reflexivity |].
  cbn [resumed_store ns_db]. rewrite Hp. cbn [fst]. rewrite Hl. by split_and!.
Qed.

Lemma delivery_reports_misattributed_witness :
  exists (a a1 a2 a3 a4 : App nat nat),
    chat_command sample_ambient "one" a = (a1, Ok tt) /\
    chat_command {| clock _ := 11; draw _ := alice_secret; draw_u32 := 6 |} "two" a1 = (a2, Ok tt) /\
    handle_event sample_ambient (DirectDelivered 2%nat [] {| res_status := 1; res_ack_id := [] |}) (a2, true) = ((a3, true), Ok true) /\
    handle_event sample_ambient (DirectFailed 2%nat "gone") (a3, true) = ((a4, true), Ok true) /\
    status_of a4 1 = Some (MessageStatus_i64 Sent) /\ status_of a4 2 = Some (MessageStatus_i64 Delivered).
Proof.
  destruct resumed_started as (a & _ & Hs & Hdb & Hi & Hd & Hrun & Hp). destruct resumed_tables as (Hm & Hq & Hc).
  destruct alice_session_wf as [Hr Hw].
  destruct (chat_exchange 11 alice_identity bob_identity "conv" alice_session bob_session [bs "one"; bs "two"] [0%nat])
    as (_ & _ & s' & envs & _ & Henc & _);
    [apply sample_established | cbn; unfold MAX_SKIP_MESSAGES; lia | by_decide..|].
  apply mapM_cons_ok in Henc as (s1 & e1 & envs' & H1 & Henc & ->). apply singleton_run in Henc as (e2 & -> & H2).
  pose proof H1 as (_ & _ & Ht1)%chat_encrypt_fields. pose proof H2 as (_ & _ & Ht2)%chat_encrypt_fields.
  destruct (chat_command_run sample_ambient "one" a alice_session 2%nat s1 e1)
    as (a1 & row1 & Hcmd1 & Hs1 & Hp1 & Hk1 & (Hi1 & Hd1 & Hr1) & _ & Hm1 & Hq1 & Hid1).
  1-8: unfold kept, uid_fresh, app_db; rewrite ?Hdb, ?Hi, ?Hd, ?Hm, ?Hq; try done.
  destruct (chat_command_run {| clock _ := 11; draw _ := alice_secret; draw_u32 := 6 |} "two" a1 s1 2%nat s' e2)
    as (a2 & row2 & Hcmd2 & _).
  1-8: rewrite ?Hi1, ?Hd1, ?Hr1, ?Hi, ?Hd; try done.
  - unfold app_db in *. rewrite Hq1, Hdb, Hq. done.
  - unfold uid_fresh, app_db in *. rewrite Hm1, Hdb, Hm, Hq. intros id r Hl _. apply lookup_insert_Some in Hl as [[_ <-]|[_ Hl]];
      [|by rewrite lookup_empty in Hl]. rewrite Hid1, Ht1, Ht2. vm_compute. discriminate.
  - destruct (delivery_reports_misattributed sample_ambient {| clock _ := 11; draw _ := alice_secret; draw_u32 := 6 |}
      sample_ambient sample_ambient "one" "two" a a1 a2 alice_session 2%nat 2%nat 2%nat [] [] "gone" true (fun _ => eq_refl) Hs Hp Hcmd1 Hcmd2)
      as (a3 & a4 & H3 & H4 & Hst).
    exists a, a1, a2, a3, a4. unfold app_db in Hst. rewrite Hdb, Hq in Hst. by split_and!; try apply Hst.
Defined.

(** An engine that fails at the second store call of the turns with
    [sample_ambient]. *)
Definition full_disk : Disk := fun am k => if (draw_u32 am =? 5) && (k =? 1)%nat then Some ["database or disk is full"] else None.
Definition later_ambient : Ambient := {| clock _ := 11; draw _ := alice_secret; draw_u32 := 6 |}.

Lemma dropped_persist_reuses_nonce_witness :
  exists (a a1 b1 : App nat nat) env1 env2 key h hb,
    ap_session a = Some alice_session /\
    chat_command (DK := full_disk) sample_ambient "one" a = (a1, Ok tt) /\ sends a a1 [(2%nat, env1)] /\
    resume "conv" (app_db a1) = (app_db a1, Ok (Some alice_session)) /\
    chat_command (DK := full_disk) later_ambient "two" a = (b1, Ok tt) /\ sends a b1 [(2%nat, env2)] /\ to_vec h = Ok hb /\
    aead_encrypt key (message_nonce (message_number h)) hb (bs "one") = Some (env_encrypted_payload env1) /\
    aead_encrypt key (message_nonce (message_number h)) hb (bs "two") = Some (env_encrypted_payload env2).
Proof.
  destruct resumed_started as (a & _ & Hs & Hdb & Hi & Hd & Hrun & Hp). destruct resumed_tables as (Hm & Hq & Hc).
  destruct alice_session_wf as [Hr Hw].
  destruct (chat_exchange 11 alice_identity bob_identity "conv" alice_session bob_session [bs "one"] [0%nat])
    as (_ & _ & s1 & envs & _ & Henc & _);
    [apply sample_established | cbn; unfold MAX_SKIP_MESSAGES; lia | by_decide..|]. apply singleton_run in Henc as (e1 & -> & H1).
  destruct (chat_exchange 11 alice_identity bob_identity "conv" alice_session bob_session [bs "two"] [0%nat])
    as (_ & _ & s2 & envs & _ & Henc & _);
    [apply sample_established | cbn; unfold MAX_SKIP_MESSAGES; lia | by_decide..|]. apply singleton_run in Henc as (e2 & -> & H2).
  assert (kept alice_session (app_db a)) as Hk by (unfold kept, app_db; rewrite Hdb; by split_and!).
  assert (forall uid, uid_fresh "conv" uid (app_db a)) as Hu by (intros uid id r; unfold app_db; by rewrite Hdb, Hm, lookup_empty).
  assert (t_messages_seq (live (app_db a)) <> i64_max) as Hmax by (unfold app_db; by rewrite Hdb, Hq).
  destruct (dropped_persist_reuses_nonce (DK := full_disk) sample_ambient "one" a alice_session 2%nat s1 e1 ["database or disk is full"])
    as (a1 & Hcmd & Hsent & _ & Hres & Hreuse);
    [reflexivity | reflexivity | exact Hs | exact Hp | exact Hk | unfold app_db; rewrite Hdb; exact (proj2 resumed_store_ok) | exact Hrun
    | rewrite Hi, Hd; exact H1 | exact Hmax | apply Hu |].
  destruct (chat_command_run (DK := full_disk) later_ambient "two" a alice_session 2%nat s2 e2) as (b1 & _ & Hcmd2 & _);
    [by intros k | exact Hs | exact Hp | exact Hk | exact Hrun | rewrite Hi, Hd; exact H2 | exact Hmax | apply Hu |].
  destruct (Hreuse later_ambient "two" a b1 2%nat Hs Hp Hcmd2) as (env2 & key & h & hb & Hsent2 & Hhb & Hc1 & Hc2).
  exists a, a1, b1, e1, env2, key, h, hb. split; [exact Hs|]. split; [exact Hcmd|]. split; [exact Hsent|]. split; [exact Hres|].
  split; [exact Hcmd2|]. split; [exact Hsent2|]. split; [exact Hhb|]. split; [exact Hc1|exact Hc2].
Defined.
