(* ===== verification/DemoChannels.v ===== *)
(** The demo behind the bounded channels of its node: the event loop of
    [presidium-demo/src/main.rs] sends while it handles an event, and a peer
    that keeps asking a responder for its bundle can make both sides wait for
    each other for ever. *)

From S2P Require Import Prelude Constants Prims Concrete Ratchet RatchetFacts RatchetProps Identity IdentityProps.
From S2P Require Import Pqxdh PqxdhProps Keys KeysProps Sqleet SessionState SessionFacts Store StoreProps.
From S2P Require Import ChatSession Network Node NodeProps Channels ChannelProps Handshake ChatProps Group GroupProps App AppFacts AppProps DemoProps.

Section Props.
Context `{C : Crypto, L : !CryptoLaws C, B : Build}.
Context `{SH : Serde RatchetMessageHeader, SHO : !SerdeOk RatchetMessageHeader}.
Context `{SS : Serde HybridSignature, SSO : !SerdeOk HybridSignature}.
Context `{SM : Serde PqxdhPrekeyMessage, SMO : !SerdeOk PqxdhPrekeyMessage}.
Context `{SB : Serde PreKeyBundle, SBO : !SerdeOk PreKeyBundle}.
Context `{SG : Serde SenderKeyMessage, SGO : !SerdeOk SenderKeyMessage}.
Context `{SD : Serde GroupKeyDistribution, SDO : !SerdeOk GroupKeyDistribution}.
Context `{SK : Serde SessionKeys, SKO : !SerdeOk SessionKeys, SR : Serde RatchetSnapshot, SRO : !SerdeOk RatchetSnapshot}.
Context `{DK : Disk} {PeerId Part ReqId Channel : Type} `{Countable ReqId} `{PE : Proto NetworkEnvelope}.

Abbreviation Addr := (@Multiaddr PeerId Part).
Abbreviation Loop := (App PeerId Addr * bool)%type.
Abbreviation System := (@System PeerId Part ReqId Channel _ _ Loop).

(** A turn of the event loop that goes on, with what it put into the control
    channel: an event, or a line of input. *)
Definition demo_reacts (l : Loop) (event : option (NodeEvent PeerId Addr)) (l' : Loop) (cs : list (Control PeerId Addr)) : Prop :=
  exists am input, turn am input l = (l', Ok true) /\ np_controls (ap_node l'.1) = np_controls (ap_node l.1) ++ cs /\
    match event with
    | Some e => input = Event e
    | None => exists line, input = Line line
    end.

(** A responder that is ready to hand out its bundle. *)
Definition offers_bundle (l : Loop) : Prop :=
  exists rh bundle, ap_responder l.1 = Some rh /\ ResponderHandshake_bundle rh = Ok bundle /\ wf bundle /\ np_running (ap_node l.1) = true.

Lemma bundle_answered peer env rest l :
  env_encrypted_payload env = MARKER_BUNDLE_REQ :: rest -> offers_bundle l ->
  exists l' c, demo_reacts l (Some (DirectMessage peer env)) l' [c] /\ offers_bundle l'.
Proof.
  intros Hp (rh & bundle & Hrh & Hb & Hw & Hn). destruct l as [a started]. cbn in Hrh, Hn.
  destruct (direct_bundle_req_run {| clock := fun _ => 0; draw := fun _ => []; draw_u32 := 0 |} peer env a rh bundle rest)
    as (reply & body & a' & Hrun & Hs & _ & _ & _ & Hn' & Hrh' & _); [done..|].
  exists (a', started), (SendDirect peer reply). split; [|by exists rh, bundle].
  exists {| clock := fun _ => 0; draw := fun _ => []; draw_u32 := 0 |}, (Event (DirectMessage peer env)). split_and!; [|exact Hs|done].
  unfold turn, handle_event. rewrite M_bind_eq. unfold on_app, on_first, zoom. cbn [fst snd]. by rewrite Hrun.
Qed.

(** C22. A peer can stop a responder for good by asking for its bundle again
    and again.  [send_direct] waits while 64 control messages are queued, and
    the task, which empties that queue, waits in [emit] while 256 events are
    queued, which the event loop empties only after its handler has sent its
    answer: there is a run in which the application has handled nothing but 65
    of these requests to a state in which both wait, and from there nothing
    happens any more, whatever arrives from the network or the keyboard. *)
Theorem bundle_requests_deadlock any display (config : NodeConfig Addr) (l : Loop) (peer : PeerId) (env : NetworkEnvelope) (channel : Channel) rest :
  offers_bundle l -> env_encrypted_payload env = MARKER_BUNDLE_REQ :: rest ->
  exists s : System, rtc (sys_step demo_reacts config) (sys_start any display config l) s /\
    sy_seen s = replicate 65 (DirectMessage peer env) /\ deadlocked s /\ forall s', ~ sys_step demo_reacts config s s'.
Proof.
  intros Hl Hp. destruct (flood_deadlocks (ReqId := ReqId) demo_reacts any display config offers_bundle peer env channel) with (a := l) as (s & Hs & Hn & Hd);
    [intros a Ha; by eapply bundle_answered|done|].
  exists s. split_and!; [done|done|done|]. by apply deadlocked_stuck.
Qed.
End Props.

(** ** Evaluation *)

#[local] Existing Instances dev_build concrete_header concrete_signature concrete_prekey_message concrete_bundle
  concrete_group_message concrete_distribution concrete_session_keys concrete_snapshot.
#[local] Existing Instance quiet_disk.
#[local] Instance flood_proto : Proto NetworkEnvelope := {| encode_to_vec := env_nonce; decode _ := inl "invalid" |}.

Definition bundle_request : NetworkEnvelope :=
  {| env_kind := KIND_SYNC; env_conversation_id := []; env_sender_device_id := bs "any"; env_timestamp := 0;
     env_encrypted_payload := [MARKER_BUNDLE_REQ]; env_mac := []; env_protocol_version := 1; env_nonce := []; env_signature := [] |}.

Definition bob_loop (pkm : PrekeyMaterial) : App nat (@Multiaddr nat nat) * bool :=
  ({| ap_store := device_store bob_identity "bob"; ap_node := {| np_peer_id := 0%nat; np_running := true; np_controls := [] |};
      ap_initiator := None; ap_responder := Some (ResponderHandshake_new bob_identity pkm); ap_session := None; ap_group := demo_group;
      ap_peer := None; ap_last_outgoing := None; ap_output := [] |}, false).

Lemma bundle_requests_deadlock_witness :
  exists pkm (s : @System nat nat nat nat _ _ (App nat (@Multiaddr nat nat) * bool)),
    PrekeyMaterial_generate 9 (bs "c") (bs "k") bob_identity = Ok pkm /\
    rtc (sys_step demo_reacts NodeConfig_default) (sys_start [Other 0%nat] (fun _ => "addr") NodeConfig_default (bob_loop pkm)) s /\ deadlocked s.
Proof.
  destruct (prekey_generate_ok 9 (bs "c") (bs "k") bob_identity) as (pkm & priv & Hgen & Hpk); [lia|].
  destruct (prekey_bundle pkm priv bob_identity Hpk) as (bundle & Hbun & Hw & _).
  destruct (bundle_requests_deadlock (ReqId := nat) [Other 0%nat] (fun _ => "addr") NodeConfig_default (bob_loop pkm) 3%nat bundle_request 0%nat [])
    as (s & Hs & _ & Hd & _).
  - exists (ResponderHandshake_new bob_identity pkm), bundle. split; [reflexivity|]. split; [exact Hbun|]. split; [exact Hw|reflexivity].
  - reflexivity.
  - exists pkm, s. split; [exact Hgen|]. split; [exact Hs|exact Hd].
Defined.
